(* ===== verification/_CoqProject ===== *)
-Q . S2P
Prelude.v
GoStrings.v
Api.v
ProviderID.v
CloudClient.v
ServiceClient.v
Metrics.v
Retry.v
EcsSdk.v
HostName.v
Encoding.v
Credential.v
Oss.v
SimSdk.v
Capi.v
Ignition.v
MachineController.v
SimClient.v
FakeClient.v
CapiCore.v
ClusterController.v
MachineDelete.v
MachineNormal.v
ClusterProofs.v
Webhook.v
Admission.v
MachineInvariant.v
Uniqueness.v
Interleaving.v
ConcurrentMachines.v
Lifecycle.v
LegacyClient.v
ConcurrentCredentials.v
Version.v
Memory.v
DeepCopy.v
Provisioning.v
TemplateController.v
ControlPlaneController.v
CsrController.v
Wiring.v
Wakeups.v
Startup.v
