(* ===== verification/Prelude.v ===== *)
(** * CAPA: a verification library for the Alibaba Cloud Cluster API provider

    The program is a Kubernetes controller manager: a Cluster API infrastructure
    provider that runs the machines of a cluster as ECS instances of Alibaba
    Cloud.  This library models its Go code, file by file, and proves what the
    code is there to guarantee.

    ** The program and its model

    [cmd/main.go] starts a manager ([Startup]) with five controllers and two
    webhooks.  A controller is called with the key of an object, reads it
    through the Kubernetes client, acts through the cloud client, and patches
    the object; a webhook sees an object before it is stored.

    - [pkg/client]: the cloud client.  [CloudClient] is the interface the
      controllers use, with its promises as two classes: [ClientLaws], what a
      call reports of the instances, and [ClientEffects], what it may change.
      [Capi] is [capi.go], the implementation over the ECS SDK ([EcsSdk], a
      parameter) and the throttling retry loop of [retry.go] ([Retry]); [Oss]
      is [oss.go]; [Credential] is the credential resolution, [apsara.go] and
      [NewCAPIClient]; [HostName] is [hostNameOK]; [LegacyClient] is [NewClient]
      of [client.go], [ConcurrentCredentials] its use of the process's
      environment under a mutex, and [ServiceClient] its hundred service
      methods; [FakeClient] is the test double of [fake/fake.go].  [Metrics] is
      [pkg/metrics].
    - [internal/controller]: [MachineController] is the machine reconciler, with
      [ProviderID] (how an instance is recorded on a machine and a node) and
      [Ignition] (user data and its offload); [ClusterController],
      [TemplateController], [ControlPlaneController] and [CsrController] are
      the other four; [CapiCore] is the detection of Cluster API cores.
      [Wiring] is what the five [SetupWithManager] register, the schemes and
      the mapping from a Cluster to its infrastructure cluster, over an
      interface of how a registered controller's events reach its queue
      ([Routing], [RoutingLaws]); [Wakeups] runs a work queue over it, and
      [Startup] completes the controllers of [Wiring].
    - [internal/webhook]: [Webhook].
    - [api]: [Api], and [DeepCopy] for the two [zz_generated.deepcopy.go], over
      the heap of [Memory].  [pkg/version] and [pkg/utils]: [Version].
    - The language: [GoStrings] and [Encoding] are the parts of the Go standard
      library the code computes with; this file has the monad and its tactics.

    A call is a computation [M S A] over a state [S]: it returns a value, an
    error or a panic, and the state survives all three, as the fields a handler
    wrote before it failed do.  A controller's state is the object in memory
    and the world [W] behind the two clients, a type parameter: theorems hold
    for every world whose operations keep the stated laws.  Definitions keep
    the names of the source (with an underscore after the methods of the client
    and prefixes on record fields) and follow it branch by branch.

    ** What is proved

    - One machine, one instance.  [Capi] refines the interface
      ([capi_client_laws]): creation adopts an
      instance that has the machine's tag ([CreateECSInstance_adopts]) and makes
      one at most, its request is the one asked for
      ([runInstancesRequest_faithful]), and a created instance is never lost to
      the tagging that follows ([runInstances_created]).  On that,
      [ConcurrentMachines.machines_sole]: however the reconciles of the machines
      of an account are interleaved, with each other and with steps of the
      environment, no machine gets two live instances, when the objects have
      owners of different names and, as the queue sees to, none is reconciled
      by two workers at once.  A run of a reconcile is cut at its
      calls ([Interleaving]): the world records the calls made, a schedule puts
      the steps of others between them, and [interleaving_sound] is the
      rely/guarantee rule that lifts a handler proved once, sequentially, to all
      schedules.  [Uniqueness] has what the handlers keep of one machine's
      instances.
    - Provisioning.  How each reconcile ends and is recorded
      ([reconcileNormal_outcome]), what it does with an instance it knows
      ([findOrCreateInstance_existing]), the parameters of the create call, the
      placement in a failure domain, metadata hardening, and that repeated
      reconciles decide ([reconcileNormal_completes]).  User data reaches the
      instance whole, offloaded or not ([createInstance_delivers]).
    - The life of a machine.  [Lifecycle.no_orphans]: from before its object
      exists, through any reconciles, edits, deletion and removal, every live
      instance with its tag belongs to a stored object that has its finalizer
      and names the instance's region.  [MachineInvariant] is the walk through
      the handlers that this and [machines_sole] share: a property of the
      machine and the instances that the calls and the writes keep, a reconcile
      keeps.
    - Deletion.  The finalizer is released only when nothing is left
      ([reconcileDelete_releases]), every present instance is deleted
      ([reconcileDelete_present]), the delete path finds what the create path
      made ([createInstance_recoverable], [providerID_roundtrip]) and repeated
      reconciles finish ([reconcileDelete_completes]).
    - Admission.  The validators are equivalent to declarative rules
      ([validateMachine_valid], [validateCluster_valid]), defaulting fills in the
      system disk and nothing else ([Default_fills]); the immutable fields
      stay pinned along any sequence of updates ([stored_machine_pinned]); the
      controller's own writes are always admitted
      ([reconcile_writes_admitted]) and an accepted cluster gives the machine
      controller usable failure domains ([accepted_cluster_places]).
    - Certificates.  The decision is equivalent to its declarative rule
      ([shouldApprove_iff]) and a request is approved only by it, once
      ([ReconcileCSR_effect]); [pending_until_joined].
    - The cluster, template and control-plane controllers
      ([reconcileClusterNormal_outcome], [checkCloudControllerManager_verdict],
      [ReconcileTemplate_capacity], [concurrent_capacity] for its shared cache
      under interleaving, [extend_capacity_values],
      [ReconcileControlPlane_patches]) and start-up ([main_guarded],
      [CAPICore_mode]).
    - Events.  Which events put which object in whose queue
      ([wakeups]), and what follows for a controller that asks for no requeue:
      a cluster that has work to do is queued ([cluster_not_forgotten]) unless
      its Cluster itself carries the paused annotation ([forgotten_annotated]);
      a machine paused by its cluster need not be ([forgotten_machine]).
    - The client's foundations: [retryThrottled_bounded] and
      [retryThrottled_metrics], with the 64-bit arithmetic of the backoff shown
      not to wrap; [hostNameOK_spec]; [resolveCredential_ok],
      [CredentialSource_no_secret], [applyApsaraOverrides_order];
      [getCredentialFromSecret_clean]; callers that fetch credentials through
      the one environment variable at the same time each get their own
      ([fetch_isolated]).
    - The interface.  The test double is the client its functions make up
      ([FakeClient_answers]).  The hundred service methods of the concrete client
      are pass-throughs, which the types of [ServiceClient] leave no choice; the
      names in its tables match ([signatures_match]).
    - Memory.  Every generated deep copy has the content of the original and
      shares no cell with it, so what is written to one leaves the other as it
      is ([DeepCopy_isolated]).  [Memory] has the copies of pointers, slices,
      maps and structs as combinators with one lemma each.
    - Behaviour the comments of the code do not promise, or deny:
      [lost_patch_leaks_instance], [sweep_misses_renamed_machine],
      [undefaulted_machine_frozen], [DeleteECSInstance_error].

    ** Parameters and bounds

    Code outside the repository is a parameter with its documented behaviour as
    a class of laws: the ECS SDK ([EcsSdkLaws], in which a listing is one page,
    and [EcsSdkEffects]), the OSS SDK,
    the SDK's constructors, controller-runtime and the Cluster API helpers
    ([MachineKube], [KubeLib] and the like, and [RoutingLaws] for its events),
    the SDK's profile provider ([ProfileLaws]), semver, the certificate parsers,
    the random source, and the operating system's file errors.  [SimSdk] and
    [SimClient] are concrete instances that keep the laws; each property with a
    hypothesis is applied to a run of one of them.

    Integers are [Z], wrapped to 64 bits where the code's arithmetic could
    overflow ([i64]: the backoff, the expiry of an offload and the capacity of a
    template).  What does
    not recurse on its argument runs on fuel: the retry loop on one unit more
    than the number of retries, all it can use ([retry_loop_ran]); the trimming
    loop of [GoStrings], the escaping of [Encoding] and the block loops of its
    hash on the length of their input, of which each turn consumes at least one
    element.  A map the code ranges over is given with the order of the range
    as an argument.

    ** Not modelled

    Log lines, the registration of the metrics with their registry, contexts and deadlines, the passing of time
    (the clock is read from the world), the dial timeouts of the transport, and
    the gomock client of [pkg/client/mock], whose methods pass their arguments
    to the recorder of the gomock library.  Outside [Memory] and [DeepCopy]
    objects are values: a handler is the only one to hold the object it read,
    and what it keeps of an object it goes on to write is a deep copy.
    [Lifecycle] runs the reconciles of machines one after another, as the
    default concurrency of one does; [ConcurrentMachines] interleaves them, and
    [TemplateController] those that share its cache. *)

From Stdlib Require Export String Ascii.
From stdpp Require Export base tactics list option strings gmap pretty numbers.

#[export] Set Default Goal Selector "!".

(** ** Record update

    [r <| f := v |>] is the Go assignment [r.f = v] on a struct held by
    value, and [r <| f ::= g |>] applies [g] to the field.  A record type
    declares its eta expansion once (an instance of [Eta]); the update of a
    field is found by abstracting the field out of that expansion. *)

Class Eta (R : Type) := eta : R -> R.
#[global] Hint Mode Eta ! : typeclass_instances.

Class Update {R T : Type} (f : R -> T) := update : (T -> T) -> R -> R.
#[global] Arguments update {R T} f {_} _ _ /.

Ltac build_update f :=
  lazymatch type of f with
  | ?R -> ?T =>
      let e := constr:(eta (R := R)) in
      let e := eval cbv [eta] in e in
      let e := lazymatch e with
               | ?h => eval unfold h in h
               | _ => e
               end in
      let u := constr:(fun (g : T -> T) (r : R) =>
                 ltac:(let b := eval cbv beta in (e r) in
                       let p := eval pattern (f r) in b in
                       lazymatch p with
                       | ?k _ => let t := eval cbv beta in (k (g (f r))) in exact t
                       end)) in
      exact u
  end.

#[global] Hint Extern 1 (Update ?f) => build_update f : typeclass_instances.

Declare Scope record_scope.
Delimit Scope record_scope with record.
Open Scope record_scope.

Notation "r <| f := v |>" := (update f (fun _ => v) r)
  (at level 1, left associativity, f at level 11,
   format "r  <| f  :=  v |>") : record_scope.
Notation "r <| f ::= g |>" := (update f g r)
  (at level 1, left associativity, f at level 11,
   format "r  <| f  ::=  g |>") : record_scope.

(** ** Errors

    A Go [error] is a value; [fmt.Errorf("...: %w", err)] wraps one and
    [errors.As] walks the chain of wrapped errors.  The leaves are the error
    types the program inspects. *)

(** [metav1.StatusReason] of a Kubernetes API error, as far as the program
    looks at it ([apierrors.IsNotFound]). *)
Inductive StatusReason := StatusReasonNotFound | StatusReasonOther.

Inductive error :=
  | ErrorString (msg : string)                       (* errors.New, fmt.Errorf without %w *)
  | WrapError (prefix : string) (err : error)        (* fmt.Errorf(prefix + "%w", err) *)
  | TerminalError (reason message : string)          (* internal/controller terminalError *)
  | ServerError (httpStatus : Z) (code text : string)   (* sdkerrors.ServerError *)
  | APIStatusError (reason : StatusReason) (text : string).  (* apierrors.StatusError *)

(** [err.Error()]; the text of a library error is carried by the value. *)
Fixpoint Error (e : error) : string :=
  match e with
  | ErrorString msg => msg
  | WrapError prefix err => prefix +:+ Error err
  | TerminalError _ message => message
  | ServerError _ _ text => text
  | APIStatusError _ text => text
  end.

(** [errors.As(err, &srvErr)] for [*sdkerrors.ServerError]. *)
Fixpoint as_server_error (e : error) : option (Z * string) :=
  match e with
  | ServerError hs code _ => Some (hs, code)
  | WrapError _ err => as_server_error err
  | _ => None
  end.

(** [errors.As(err, &termErr)] for [*terminalError]. *)
Fixpoint as_terminal_error (e : error) : option (string * string) :=
  match e with
  | TerminalError reason message => Some (reason, message)
  | WrapError _ err => as_terminal_error err
  | _ => None
  end.

(** [apierrors.IsNotFound(err)]. *)
Fixpoint IsNotFound (e : error) : bool :=
  match e with
  | APIStatusError StatusReasonNotFound _ => true
  | WrapError _ err => IsNotFound err
  | _ => false
  end.

(** ** Computations

    [M S A] is a Go call that reads and writes a state [S] and returns an [A],
    an [error], or panics (a nil dereference, a library call outside its
    domain).  The state survives an error: what a handler wrote into an object
    before it returned an error is still in the object. *)

Inductive result (A : Type) :=
  | Ok (a : A)
  | Err (e : error)
  | Panic (msg : string).
#[global] Arguments Ok {A} a.
#[global] Arguments Err {A} e.
#[global] Arguments Panic {A} msg.

Definition M (S A : Type) : Type := S -> result A * S.

#[global] Instance M_ret {S} : MRet (M S) := fun A a s => (Ok a, s).
#[global] Instance M_bind {S} : MBind (M S) := fun A B k m s =>
  match m s with
  | (Ok a, s') => k a s'
  | (Err e, s') => (Err e, s')
  | (Panic p, s') => (Panic p, s')
  end.

Definition throw {S A} (e : error) : M S A := fun s => (Err e, s).
Definition panic {S A} (msg : string) : M S A := fun s => (Panic msg, s).
Definition get {S} : M S S := fun s => (Ok s, s).
Definition modify {S} (f : S -> S) : M S () := fun s => (Ok (), f s).

(** [x, err := m; if err != nil { return h(err) }] *)
Definition catch {S A} (m : M S A) (h : error -> M S A) : M S A := fun s =>
  match m s with
  | (Err e, s') => h e s'
  | r => r
  end.

(** [if err != nil { return fmt.Errorf(prefix + "%w", err) }] after a call. *)
Definition wrap {S A} (prefix : string) (m : M S A) : M S A :=
  catch m (fun err => throw (WrapError prefix err)).

(** [x, err := m], the error kept as a value. *)
Definition try {S A} (m : M S A) : M S (error + A) := fun s =>
  match m s with
  | (Ok a, s') => (Ok (inr a), s')
  | (Err e, s') => (Ok (inl e), s')
  | (Panic p, s') => (Panic p, s')
  end.

(** Calls on one component of a state of two. *)
Definition on_fst {S T A} (m : M S A) : M (S * T) A := fun '(s, t) =>
  let '(r, s') := m s in (r, (s', t)).
Definition on_snd {S T A} (m : M T A) : M (S * T) A := fun '(s, t) =>
  let '(r, t') := m t in (r, (s, t')).

(** [*p] for a pointer: a nil pointer panics. *)
Definition deref {S A} (p : option A) : M S A :=
  match p with
  | Some a => mret a
  | None => panic "invalid memory address or nil pointer dereference"
  end.

(** ** Reasoning about computations

    [wp m s Q]: run from [s], [m] ends in a result and a state related by [Q].
    The rules follow the constructors of the monad; [wp_go] walks a handler with
    them, up to the next test or call. *)

Definition wp {S A} (m : M S A) (s : S) (Q : result A -> S -> Prop) : Prop :=
  Q (m s).1 (m s).2.

Section wp_rules.
Context {S : Type}.
Implicit Types s : S.

Lemma wp_ret {A} (a : A) s Q : Q (Ok a) s -> wp (mret a : M S A) s Q.
Proof. done. Qed.

Lemma wp_bind {A B} (m : M S A) (k : A -> M S B) s Q :
  wp m s (fun r s' =>
    match r with
    | Ok a => wp (k a) s' Q
    | Err e => Q (Err e) s'
    | Panic p => Q (Panic p) s'
    end) ->
  wp (m ≫= k) s Q.
Proof. unfold wp, mbind, M_bind. by destruct (m s) as [[] ?]. Qed.

Lemma wp_throw {A} e s (Q : result A -> S -> Prop) : Q (Err e) s -> wp (throw e) s Q.
Proof. done. Qed.

Lemma wp_panic {A} p s (Q : result A -> S -> Prop) : Q (Panic p) s -> wp (panic p) s Q.
Proof. done. Qed.

Lemma wp_get s Q : Q (Ok s) s -> wp get s Q.
Proof. done. Qed.

Lemma wp_modify f s Q : Q (Ok ()) (f s) -> wp (modify f) s Q.
Proof. done. Qed.

Lemma wp_catch {A} (m : M S A) h s Q :
  wp m s (fun r s' =>
    match r with Err e => wp (h e) s' Q | _ => Q r s' end) ->
  wp (catch m h) s Q.
Proof. unfold wp, catch. by destruct (m s) as [[] ?]. Qed.

Lemma wp_wrap {A} prefix (m : M S A) s Q :
  wp m s (fun r s' =>
    match r with Err e => Q (Err (WrapError prefix e)) s' | _ => Q r s' end) ->
  wp (wrap prefix m) s Q.
Proof. unfold wp, wrap, catch. by destruct (m s) as [[] ?]. Qed.

Lemma wp_try {A} (m : M S A) s Q :
  wp m s (fun r s' =>
    match r with
    | Ok a => Q (Ok (inr a)) s'
    | Err e => Q (Ok (inl e)) s'
    | Panic p => Q (Panic p) s'
    end) ->
  wp (try m) s Q.
Proof. unfold wp, try. by destruct (m s) as [[] ?]. Qed.

(** A call that does not panic gives an error value or a result. *)
Lemma try_total {A} (m : M S A) s :
  (forall p, (m s).1 <> Panic p) -> exists r s', try m s = (Ok r, s').
Proof.
  unfold try. intros Hp. destruct (m s) as [[a|e|p] s']; [by eauto..|by destruct (Hp p)].
Qed.

Lemma wp_deref_Some {A} (a : A) s (Q : result A -> S -> Prop) :
  Q (Ok a) s -> wp (deref (Some a)) s Q.
Proof. done. Qed.

Lemma wp_mono {A} (m : M S A) s (P Q : result A -> S -> Prop) :
  wp m s P -> (forall r s', P r s' -> Q r s') -> wp m s Q.
Proof. unfold wp. eauto. Qed.

(** The same, keeping the run itself. *)
Lemma wp_mono_run {A} (m : M S A) s (P Q : result A -> S -> Prop) :
  wp m s P -> (forall r s', m s = (r, s') -> P r s' -> Q r s') -> wp m s Q.
Proof. unfold wp. intros HP HQ. apply HQ; [by destruct (m s)|exact HP]. Qed.

Lemma wp_and {A} (m : M S A) s (P Q : result A -> S -> Prop) :
  wp m s P -> wp m s Q -> wp m s (fun r s' => P r s' /\ Q r s').
Proof. done. Qed.

(** A call whose run is known. *)
Lemma wp_run {A} (m : M S A) s r s' (Q : result A -> S -> Prop) :
  m s = (r, s') -> Q r s' -> wp m s Q.
Proof. unfold wp. by intros ->. Qed.

Lemma wp_elim {A} (m : M S A) s r s' (Q : result A -> S -> Prop) :
  wp m s Q -> m s = (r, s') -> Q r s'.
Proof. unfold wp. by intros ? E; rewrite E in *. Qed.
End wp_rules.

Section wp_components.
Context {S T : Type}.

Lemma wp_on_fst {A} (m : M S A) (s : S) (t : T) (Q : result A -> S * T -> Prop) :
  wp m s (fun r s' => Q r (s', t)) -> wp (on_fst m) (s, t) Q.
Proof. unfold wp, on_fst. by destruct (m s). Qed.

Lemma wp_on_snd {A} (m : M T A) (s : S) (t : T) (Q : result A -> S * T -> Prop) :
  wp m t (fun r t' => Q r (s, t')) -> wp (on_snd m) (s, t) Q.
Proof. unfold wp, on_snd. by destruct (m t). Qed.
(** From a run to the paths of a handler. *)
Lemma wp_all {A} (m : M (S * T) A) s (Q : result A -> S -> T -> Prop) :
  wp m s (fun r s' => Q r s'.1 s'.2) -> forall r s1 t1, m s = (r, (s1, t1)) -> Q r s1 t1.
Proof. unfold wp. by intros ? r s1 t1 E; rewrite E in *. Qed.
End wp_components.

(** Start a proof about a run whose results are generalised. *)
Ltac wp_start := refine (wp_all _ _ _ _); cbv beta.

(** [wp_go] walks a handler: it splits binds, tests and matches and steps the
    state operations.  It stops at a call it cannot step; [wp_call m as ...]
    runs one on an abstract component, leaving its three outcomes. *)
Ltac wp_step :=
  lazymatch goal with
  | |- wp (mret _) _ _ => apply wp_ret
  | |- wp (_ ≫= _) _ _ => apply wp_bind
  | |- wp (throw _) _ _ => apply wp_throw
  | |- wp (panic _) _ _ => apply wp_panic
  | |- wp get _ _ => apply wp_get
  | |- wp (modify _) _ _ => apply wp_modify
  | |- wp (catch _ _) _ _ => apply wp_catch
  | |- wp (wrap _ _) _ _ => apply wp_wrap
  | |- wp (try _) _ _ => apply wp_try
  | |- wp (deref (Some _)) _ _ => apply wp_deref_Some
  | |- wp (on_fst _) (_, _) _ => apply wp_on_fst
  | |- wp (on_snd _) (_, _) _ => apply wp_on_snd
  | |- wp (let _ := _ in _) _ _ => cbv zeta
  end.
Ltac wp_go := repeat (wp_step; cbv beta; cbn [fst snd]).

(** A dereference of a pointer that may be nil. *)
Tactic Notation "wp_deref" "as" ident(p) :=
  lazymatch goal with |- wp (deref ?x) _ _ => destruct x as [p|]; [|apply wp_panic] end.

(** The three outcomes of a call [m] on the state the goal runs it in. *)
Tactic Notation "wp_call" "as" simple_intropattern(p) simple_intropattern(w) "eqn" ident(E) :=
  lazymatch goal with
  | |- wp ?m ?s _ =>
      destruct (m s) as [p w] eqn:E; apply (wp_run _ _ _ _ _ E); cbv beta iota
  end.

(** The laws of the monad, for rewriting under a known call. *)
Section monad_laws.
Context {S : Type}.

Lemma M_bind_ret {A B} (a : A) (k : A -> M S B) s : (mret a ≫= k) s = k a s.
Proof. done. Qed.

Lemma M_ret_bind {A} (m : M S A) s : (m ≫= mret) s = m s.
Proof. unfold mbind, M_bind. by destruct (m s) as [[] ?]. Qed.

Lemma M_bind_assoc {A B C} (m : M S A) (k : A -> M S B) (l : B -> M S C) s :
  ((m ≫= k) ≫= l) s = (m ≫= (fun a => k a ≫= l)) s.
Proof. unfold mbind, M_bind. by destruct (m s) as [[] ?]. Qed.

Lemma M_bind_run {A B} (m : M S A) (k : A -> M S B) s r s' :
  m s = (r, s') ->
  (m ≫= k) s =
    match r with Ok a => k a s' | Err e => (Err e, s') | Panic p => (Panic p, s') end.
Proof. unfold mbind, M_bind. intros ->. by destruct r. Qed.

Lemma M_catch_run {A} (m : M S A) h s r s' :
  m s = (r, s') ->
  catch m h s = match r with Err e => h e s' | _ => (r, s') end.
Proof. unfold catch. intros ->. by destruct r. Qed.
End monad_laws.

(** ** Invariance

    [keeps I m]: running [m] preserves [I], whatever it returns.  The rules are
    the [keeps] hint database; [keeps_tac] applies them along the structure of
    a handler, splitting its tests, and leaves the calls it has no rule for. *)

Definition keeps {S A} (I : S -> Prop) (m : M S A) : Prop := forall s, I s -> I (m s).2.

Create HintDb keeps.

Section keeps_rules.
Context {S : Type} (I : S -> Prop).

Lemma keeps_ret {A} (a : A) : keeps I (mret a).
Proof. by intros s. Qed.

Lemma keeps_throw {A} e : keeps I (throw (A := A) e).
Proof. by intros s. Qed.

Lemma keeps_panic {A} p : keeps I (panic (A := A) p).
Proof. by intros s. Qed.

Lemma keeps_get : keeps I get.
Proof. by intros s. Qed.

Lemma keeps_deref {A} (p : option A) : keeps I (deref p).
Proof. by destruct p; intros s. Qed.

Lemma keeps_modify f : (forall s, I s -> I (f s)) -> keeps I (modify f).
Proof. by intros Hf s Hs; apply Hf. Qed.

Lemma keeps_bind {A B} (m : M S A) (k : A -> M S B) :
  keeps I m -> (forall a, keeps I (k a)) -> keeps I (m ≫= k).
Proof.
  intros Hm Hk s Hs. unfold mbind, M_bind. specialize (Hm s Hs).
  destruct (m s) as [[a|e|p] s']; cbn in *; [by apply Hk|done|done].
Qed.

Lemma keeps_catch {A} (m : M S A) h :
  keeps I m -> (forall e, keeps I (h e)) -> keeps I (catch m h).
Proof.
  intros Hm Hk s Hs. unfold catch. specialize (Hm s Hs).
  destruct (m s) as [[a|e|p] s']; cbn in *; [done|by apply Hk|done].
Qed.

Lemma keeps_try {A} (m : M S A) : keeps I m -> keeps I (try m).
Proof.
  intros Hm s Hs. unfold try. specialize (Hm s Hs). by destruct (m s) as [[] ?].
Qed.

Lemma keeps_wrap {A} prefix (m : M S A) : keeps I m -> keeps I (wrap prefix m).
Proof. intros Hm. apply keeps_catch; [done|]. intros e. apply keeps_throw. Qed.

Lemma keeps_of_wp {A} (m : M S A) :
  (forall s, I s -> wp m s (fun _ s' => I s')) -> keeps I m.
Proof. done. Qed.

Lemma keeps_wp {A} (m : M S A) s : keeps I m -> I s -> wp m s (fun _ s' => I s').
Proof. intros Hm Hs. by apply Hm. Qed.
End keeps_rules.
#[export] Hint Resolve keeps_ret keeps_throw keeps_panic keeps_get keeps_deref keeps_try
  keeps_wrap : keeps.

(** A property of a pair, along a computation on its second component. *)
Section keeps_on_snd.
Context {S T : Type} (I : S * T -> Prop).

Lemma keeps_on_snd_ret {A} (a : A) : keeps I (on_snd (mret a)).
Proof. by intros [s t]. Qed.

Lemma keeps_on_snd_throw {A} e : keeps I (on_snd (throw (A := A) e)).
Proof. by intros [s t]. Qed.

Lemma keeps_on_snd_bind {A B} (m : M T A) (k : A -> M T B) :
  keeps I (on_snd m) -> (forall a, keeps I (on_snd (k a))) -> keeps I (on_snd (m ≫= k)).
Proof.
  intros Hm Hk [s t] Hs. specialize (Hm _ Hs). unfold on_snd, mbind, M_bind in *.
  destruct (m t) as [[a|e|p] t'] eqn:E; [|done..]. by apply (Hk a (s, t')).
Qed.

Lemma keeps_on_snd_wrap {A} prefix (m : M T A) : keeps I (on_snd m) -> keeps I (on_snd (wrap prefix m)).
Proof.
  intros Hm [s t] Hs. specialize (Hm _ Hs). unfold on_snd, wrap, catch in *.
  by destruct (m t) as [[a|e|p] t'].
Qed.
End keeps_on_snd.

(** What a successful run returns, for the rest of a handler to rely on. *)
Definition yields {S A} (P : A -> Prop) (m : M S A) : Prop :=
  forall s a s', m s = (Ok a, s') -> P a.

Lemma keeps_bind_yields {S A B} (I : S -> Prop) (P : A -> Prop) (m : M S A) (k : A -> M S B) :
  yields P m -> keeps I m -> (forall a, P a -> keeps I (k a)) -> keeps I (m ≫= k).
Proof.
  intros Hy Hm Hk s Hs. unfold mbind, M_bind. specialize (Hm s Hs). specialize (Hy s).
  destruct (m s) as [[a|e|p] s']; cbn in *; [|done..]. eapply Hk; eauto.
Qed.

Lemma yields_catch {S A} (P : A -> Prop) (m : M S A) (h : error -> M S A) :
  yields P m -> (forall e, yields P (h e)) -> yields P (catch m h).
Proof.
  intros Hm Hh s a s'. unfold catch. destruct (m s) as [[b|e|p] s1] eqn:E; [|apply Hh|done].
  intros [= <- <-]. by eapply Hm.
Qed.

Lemma yields_throw {S A} (P : A -> Prop) e : yields P (throw (S := S) e).
Proof. by intros s a s'. Qed.

Lemma yields_bind {S A B} (P : B -> Prop) (m : M S A) (k : A -> M S B) :
  (forall a, yields P (k a)) -> yields P (m ≫= k).
Proof.
  intros Hk s b s'. unfold mbind, M_bind. destruct (m s) as [[a|e|p] s1]; [|done..]. apply Hk.
Qed.

Lemma yields_wrap {S A} (P : A -> Prop) prefix (m : M S A) : yields P m -> yields P (wrap prefix m).
Proof. intros Hm. apply yields_catch; [done|]. intros e. apply yields_throw. Qed.

Lemma yields_on_snd {S T A} (P : A -> Prop) (m : M T A) : yields P m -> yields P (on_snd (S := S) m).
Proof. intros Hm [s t] a [s1 t1]. unfold on_snd. destruct (m t) eqn:E. intros [= -> _ _]. eauto. Qed.

Ltac keeps_step :=
  match goal with
  | |- keeps _ (_ ≫= _) => apply keeps_bind; [|intros ?]
  | |- keeps _ (catch _ _) => apply keeps_catch; [|intros ?]
  | |- keeps _ (wrap _ _) => apply keeps_wrap
  | |- keeps _ (try _) => apply keeps_try
  | |- keeps _ (let _ := _ in _) => cbv zeta
  | |- keeps _ (if ?b then _ else _) => destruct b
  | |- keeps _ (match ?x with _ => _ end) => destruct x
  | |- keeps _ _ => solve [eauto 3 with keeps]
  end.
Ltac keeps_tac := repeat keeps_step.
