(* ===== verification/GoStrings.v ===== *)
(** * The Go string functions the provider uses

    Go strings are byte sequences; here a [string] is a list of 8-bit
    characters.  Each function follows the documentation of the Go standard
    library function it is named after ([strings], [fmt]).  The lemmas are the
    facts the providerID, region, hostname and validation proofs share. *)

From S2P Require Import Prelude.

(** ** Prefixes *)

(** The rest of [s] after [p], when [s] starts with [p]. *)
Fixpoint strip_prefix (p s : string) : option string :=
  match p, s with
  | EmptyString, _ => Some s
  | String a p', String b s' => if Ascii.eqb a b then strip_prefix p' s' else None
  | String _ _, EmptyString => None
  end.

Definition HasPrefix (s p : string) : bool := bool_decide (is_Some (strip_prefix p s)).
Definition TrimPrefix (s p : string) : string := default s (strip_prefix p s).

(** [strings.TrimLeft(s, cutset)] for a one-character cutset. *)
Fixpoint TrimLeft1 (c : ascii) (s : string) : string :=
  match s with
  | EmptyString => EmptyString
  | String a s' => if Ascii.eqb a c then TrimLeft1 c s' else s
  end.

(** [strings.Contains(s, sub)]. *)
Fixpoint Contains (s sub : string) : bool :=
  HasPrefix s sub ||
  match s with
  | EmptyString => false
  | String _ s' => Contains s' sub
  end.

(** ** Separators *)

(** [s] cut around the first character that satisfies [p]. *)
Fixpoint cut_first (p : ascii -> bool) (s : string) : option (string * string) :=
  match s with
  | EmptyString => None
  | String a s' =>
      if p a then Some (EmptyString, s')
      else match cut_first p s' with
           | Some (x, y) => Some (String a x, y)
           | None => None
           end
  end.

(** [strings.SplitN(s, sep, 2)] for a one-character separator. *)
Definition SplitN2 (s : string) (sep : ascii) : list string :=
  match cut_first (Ascii.eqb sep) s with
  | Some (x, y) => [x; y]
  | None => [s]
  end.

(** [s[i+1:]] where [i] is the index of the last character that satisfies [p],
    if there is one. *)
Fixpoint after_last (p : ascii -> bool) (s : string) : option string :=
  match s with
  | EmptyString => None
  | String a s' =>
      match after_last p s' with
      | Some r => Some r
      | None => if p a then Some s' else None
      end
  end.

Fixpoint all_chars (p : ascii -> bool) (s : string) : bool :=
  match s with
  | EmptyString => true
  | String a s' => p a && all_chars p s'
  end.

(** ** White space

    [strings.TrimSpace] removes the leading and trailing white space of
    [unicode.IsSpace], in its UTF-8 encodings. *)

Definition byte (n : nat) : ascii := ascii_of_nat n.

(** The white space code points, encoded. *)
Definition space_encodings : list (list ascii) :=
  map (fun n => [byte n]) [9; 10; 11; 12; 13; 32] ++
  [[byte 194; byte 133]; [byte 194; byte 160]; [byte 225; byte 154; byte 128]] ++
  map (fun n => [byte 226; byte 128; byte n]) (seq 128 11) ++
  [[byte 226; byte 128; byte 168]; [byte 226; byte 128; byte 169];
   [byte 226; byte 128; byte 175]; [byte 226; byte 129; byte 159];
   [byte 227; byte 128; byte 128]].

Fixpoint list_strip_prefix (p l : list ascii) : option (list ascii) :=
  match p, l with
  | [], _ => Some l
  | a :: p', b :: l' => if Ascii.eqb a b then list_strip_prefix p' l' else None
  | _ :: _, [] => None
  end.

Definition strip_one (encs : list (list ascii)) (l : list ascii) : option (list ascii) :=
  list_find (fun p => is_Some (list_strip_prefix p l)) encs ≫= fun '(_, p) => list_strip_prefix p l.

Fixpoint trim_left_fuel (encs : list (list ascii)) (fuel : nat) (l : list ascii) : list ascii :=
  match fuel with
  | O => l
  | S fuel' =>
      match strip_one encs l with
      | Some l' => trim_left_fuel encs fuel' l'
      | None => l
      end
  end.

Definition trim_left_bytes (encs : list (list ascii)) (l : list ascii) : list ascii :=
  trim_left_fuel encs (length l) l.

Definition TrimSpace (s : string) : string :=
  let l := trim_left_bytes space_encodings (list_ascii_of_string s) in
  let r := trim_left_bytes (map reverse space_encodings) (reverse l) in
  string_of_list_ascii (reverse r).

Example TrimSpace_ex : TrimSpace "  a b	" = "a b" /\ TrimSpace "   " = "".
Proof. by vm_compute. Qed.

(** ** Formatting *)

(** [%d]. *)
Definition fmt_d (n : Z) : string := pretty n.

(** The double quote. *)
Definition quote_str : string := String (ascii_of_nat 34) EmptyString.

(** [%v] of a []string. *)
Definition fmt_v_strings (l : list string) : string := "[" +:+ String.concat " " l +:+ "]".

(** [%q] and [%s] of a [time.Duration] only occur in messages meant for
    people; the model takes the two formatting functions as they are. *)
Class GoFmt := {
  fmt_q : string -> string;
  fmt_duration : Z -> string;
}.

(** ** Lemmas *)

Lemma app_String a s t : String a s +:+ t = String a (s +:+ t).
Proof. done. Qed.

Lemma strip_prefix_app p s : strip_prefix p (p +:+ s) = Some s.
Proof. induction p as [|a p IH]; [done|]. rewrite app_String. cbn. by rewrite Ascii.eqb_refl. Qed.

Lemma strip_prefix_Some p s r : strip_prefix p s = Some r <-> s = p +:+ r.
Proof.
  split; [|intros ->; apply strip_prefix_app].
  revert s. induction p as [|a p IH]; intros s; cbn; [by intros [= ->]|].
  destruct s as [|b s]; [done|].
  destruct (Ascii.eqb_spec a b) as [->|]; [|done]. by intros ->%IH.
Qed.

Lemma HasPrefix_spec s p : HasPrefix s p = true <-> exists r, s = p +:+ r.
Proof.
  unfold HasPrefix. rewrite bool_decide_eq_true.
  split; intros [r H]; exists r; by apply strip_prefix_Some.
Qed.

Lemma HasPrefix_app p s : HasPrefix (p +:+ s) p = true.
Proof. apply HasPrefix_spec. by exists s. Qed.

Lemma TrimPrefix_app p s : TrimPrefix (p +:+ s) p = s.
Proof. unfold TrimPrefix. by rewrite strip_prefix_app. Qed.

Lemma all_chars_app p s t : all_chars p (s +:+ t) = all_chars p s && all_chars p t.
Proof. induction s as [|a s IH]; [done|]. rewrite app_String. cbn. by rewrite IH, andb_assoc. Qed.

Lemma app_empty_r s : s +:+ "" = s.
Proof. induction s as [|a s IH]; [done|]. rewrite app_String. by f_equal. Qed.

Lemma app_assoc_string s t u : (s +:+ t) +:+ u = s +:+ (t +:+ u).
Proof. induction s as [|a s IH]; [done|]. rewrite !app_String. by f_equal. Qed.

Lemma length_app_string s t : String.length (s +:+ t) = (String.length s + String.length t)%nat.
Proof. induction s as [|a s IH]; [done|]. rewrite app_String. cbn. lia. Qed.

Lemma app_eq_empty s t : s +:+ t = "" <-> s = "" /\ t = "".
Proof. split; [|by intros [-> ->]]. destruct s; [by cbn|done]. Qed.

(** A string without a separator is not cut, and one with a single separator
    is cut around it. *)
Lemma cut_first_None p s : all_chars (fun a => negb (p a)) s = true -> cut_first p s = None.
Proof.
  induction s as [|a s IH]; cbn; [done|].
  intros [Ha Hs]%andb_true_iff. apply negb_true_iff in Ha.
  by rewrite Ha, IH.
Qed.

Lemma cut_first_app p s c t :
  all_chars (fun a => negb (p a)) s = true -> p c = true ->
  cut_first p (s +:+ String c t) = Some (s, t).
Proof.
  intros Hs Hc. induction s as [|a s IH]; [|rewrite app_String; cbn].
  - change ("" +:+ String c t) with (String c t). cbn. by rewrite Hc.
  - cbn in Hs. apply andb_true_iff in Hs as [Ha Hs]. apply negb_true_iff in Ha.
    by rewrite Ha, IH.
Qed.

Lemma after_last_None p s : all_chars (fun a => negb (p a)) s = true <-> after_last p s = None.
Proof.
  induction s as [|a s IH]; cbn; [done|].
  rewrite andb_true_iff, IH, negb_true_iff.
  destruct (after_last p s), (p a); intuition congruence.
Qed.

Lemma after_last_app p s c t :
  p c = true -> all_chars (fun a => negb (p a)) t = true ->
  after_last p (s +:+ String c t) = Some t.
Proof.
  intros Hc Ht. apply after_last_None in Ht.
  induction s as [|a s IH]; [|rewrite app_String; cbn].
  - change ("" +:+ String c t) with (String c t). cbn. by rewrite Ht, Hc.
  - by rewrite IH.
Qed.

(** The part after the last separator holds no separator. *)
Lemma after_last_clean p s t :
  after_last p s = Some t -> all_chars (fun a => negb (p a)) t = true.
Proof.
  revert t. induction s as [|a s IH]; cbn; [done|]. intros t.
  destruct (after_last p s) as [r|] eqn:E.
  - intros [= <-]. eauto.
  - destruct (p a); [|done]. intros [= <-]. by apply after_last_None.
Qed.

Create Rewrite HintDb go_strings.
#[export] Hint Rewrite strip_prefix_app TrimPrefix_app HasPrefix_app all_chars_app
  app_empty_r length_app_string : go_strings.

(** ** Trimming

    A character of no white space encoding survives trimming. *)

Lemma list_strip_prefix_Some p l r : list_strip_prefix p l = Some r -> l = p ++ r.
Proof.
  revert l. induction p as [|a p IH]; intros l; [by intros [= ->]|].
  destruct l as [|b l]; cbn; [done|]. destruct (Ascii.eqb_spec a b) as [->|]; [|done].
  by intros ->%IH.
Qed.

Lemma trim_left_fuel_elem encs fuel l c :
  Forall (fun enc => c ∉ enc) encs -> c ∈ l -> c ∈ trim_left_fuel encs fuel l.
Proof.
  intros Hc. revert l. induction fuel as [|fuel IH]; intros l Hin; [done|]. cbn.
  destruct (strip_one encs l) as [l'|] eqn:E; [|done]. apply IH. unfold strip_one in E.
  destruct (list_find _ encs) as [[i p]|] eqn:Ef; [|done]. cbn in E.
  apply list_find_Some in Ef as (Hp & _). apply list_elem_of_lookup_2 in Hp.
  rewrite (list_strip_prefix_Some _ _ _ E) in Hin. rewrite list.Forall_forall in Hc.
  apply elem_of_app in Hin as [Hin|]; [|done]. by destruct (Hc p Hp).
Qed.

Lemma TrimSpace_keeps c s :
  forallb (fun enc => forallb (fun a => negb (Ascii.eqb c a)) enc) space_encodings = true ->
  c ∈ list_ascii_of_string s -> TrimSpace s <> "".
Proof.
  intros Hb Hin.
  assert (Forall (fun enc => c ∉ enc) space_encodings) as Hc.
  { apply list.Forall_forall. intros enc Henc Hce.
    assert (In enc space_encodings) as Henc' by by apply list_elem_of_In.
    pose proof (proj1 (forallb_forall _ _) Hb enc Henc') as Ht. cbn in Ht.
    apply list_elem_of_In in Hce. pose proof (proj1 (forallb_forall _ _) Ht c Hce) as Hn.
    cbn in Hn. by rewrite Ascii.eqb_refl in Hn. }
  unfold TrimSpace. intros E. unfold trim_left_bytes in E.
  set (l := trim_left_fuel _ _ (list_ascii_of_string s)) in E.
  assert (c ∈ reverse l) as Hl.
  { rewrite elem_of_reverse. by apply trim_left_fuel_elem. }
  set (r := trim_left_fuel _ _ (reverse l)) in E.
  assert (c ∈ reverse r) as Hr.
  { rewrite elem_of_reverse. apply trim_left_fuel_elem; [|done].
    apply Forall_fmap. eapply list.Forall_impl; [exact Hc|]. intros enc. cbn. by rewrite elem_of_reverse. }
  assert (reverse r = []) as Hnil.
  { by rewrite <- (list_ascii_of_string_of_list_ascii (reverse r)), E. }
  rewrite Hnil in Hr. by apply not_elem_of_nil in Hr.
Qed.
