(* ===== verification/Api.v ===== *)
(** * API objects

    The resources of [api/v1beta1] and [api/controlplane/v1beta1], field by
    field, and the parts of the Cluster API and Kubernetes objects the program
    reads.  A Go pointer is an [option], an [int] a [Z], a struct a record.
    Slices are lists; the one slice whose nil-ness the program observes
    ([spec.dataDisks], compared with [reflect.DeepEqual]) is an
    [option (list _)], [None] being nil.

    The object-metadata and condition helpers of controller-runtime and
    Cluster API are library code: the model is a parameter ([KubeLib]) with the
    documented behaviour as its laws ([KubeLibLaws]). *)

From Stdlib Require Export SpecFloat.
From S2P Require Export Prelude GoStrings.

(** ** Kubernetes and Cluster API *)

(** A [metav1.Time]: nanoseconds since Go's zero time, so that [IsZero] holds
    of 0 and of a nil pointer. *)
Definition Time := Z.
Definition IsZero (t : option Time) : bool :=
  match t with None => true | Some t => bool_decide (t = 0%Z) end.

Record ObjectMeta := mkObjectMeta {
  meta_Name : string;
  meta_Namespace : string;
  meta_UID : string;
  meta_Labels : gmap string string;
  meta_Annotations : gmap string string;
  meta_Finalizers : list string;
  meta_DeletionTimestamp : option Time;
}.
#[export] Instance eta_ObjectMeta : Eta ObjectMeta := fun m =>
  mkObjectMeta (meta_Name m) (meta_Namespace m) (meta_UID m) (meta_Labels m)
    (meta_Annotations m) (meta_Finalizers m) (meta_DeletionTimestamp m).

Inductive ConditionStatus := ConditionTrue | ConditionFalse | ConditionUnknown.

(** [metav1.Condition]. *)
Record Condition := mkCondition {
  cond_Type : string;
  cond_Status : ConditionStatus;
  cond_Reason : string;
  cond_Message : string;
  cond_LastTransitionTime : Time;
  cond_ObservedGeneration : Z;
}.

(** [metav1.Condition{Type: t, Status: s, Reason: r, Message: m}]. *)
Definition condition (t : string) (s : ConditionStatus) (r m : string) : Condition :=
  mkCondition t s r m 0%Z 0%Z.

(** [clusterv1.ReadyCondition]. *)
Definition ReadyCondition : string := "Ready".

(** [clusterv1.APIEndpoint]. *)
Record APIEndpoint := mkAPIEndpoint { ep_Host : string; ep_Port : Z }.

(** [clusterv1.MachineAddress]; its types are those of the Cluster API. *)
Inductive MachineAddressType := MachineInternalDNS | MachineInternalIP | MachineExternalIP.
Record MachineAddress := mkMachineAddress {
  ma_Type : MachineAddressType;
  ma_Address : string;
}.

(** [clusterv1.FailureDomain]. *)
Record CoreFailureDomain := mkCoreFailureDomain {
  cfd_Name : string;
  cfd_ControlPlane : option bool;
  cfd_Attributes : gmap string string;
}.

(** [clusterv1.Machine], the fields the program reads. *)
Record Machine := mkMachine {
  mach_ObjectMeta : ObjectMeta;
  mach_FailureDomain : string;             (* spec.failureDomain *)
  mach_DataSecretName : option string;     (* spec.bootstrap.dataSecretName *)
  mach_NodeRefName : string;               (* status.nodeRef.name *)
  mach_InfraKind : string;                 (* spec.infrastructureRef.kind *)
  mach_InfraName : string;                 (* spec.infrastructureRef.name *)
  mach_InfraAPIGroup : string;             (* spec.infrastructureRef.apiGroup *)
}.
Definition mach_Name (m : Machine) : string := meta_Name (mach_ObjectMeta m).

(** [clusterv1.Cluster], the fields the program reads. *)
Record Cluster := mkCluster {
  clus_ObjectMeta : ObjectMeta;
  clus_InfraKind : string;                 (* spec.infrastructureRef.kind *)
  clus_InfraName : string;                 (* spec.infrastructureRef.name *)
  clus_InfraAPIGroup : string;             (* spec.infrastructureRef.apiGroup *)
  clus_Paused : bool;                      (* spec.paused *)
}.

(** [corev1.Node], the fields the program reads; a taint is its key. *)
Inductive NodeAddressType :=
  | NodeHostName | NodeInternalIP | NodeExternalIP | NodeInternalDNS | NodeExternalDNS.
#[export] Instance NodeAddressType_eq_dec : EqDecision NodeAddressType.
Proof. solve_decision. Defined.
Record Node := mkNode {
  node_Name : string;
  node_CreationTimestamp : Time;
  node_ProviderID : string;
  node_Taints : list string;
  node_Addresses : list (NodeAddressType * string);
}.

(** [client.ObjectKey]. *)
Record ObjectKey := mkObjectKey { key_Namespace : string; key_Name : string }.

(** [corev1.Secret]: the decoded data. *)
Definition Secret := gmap string string.

(** [ctrl.Result]; durations are nanoseconds. *)
Record Result := mkResult { RequeueAfter : Z }.
Definition Second : Z := 1000000000.

(** [internal/controller/util.go]: the requeue interval of the controllers. *)
Definition requeueAfter : Z := (30 * Second)%Z.

(** ** [api/v1beta1/types.go] *)

Definition InstanceState := string.
Definition InstanceStatePending : InstanceState := "Pending".
Definition InstanceStateRunning : InstanceState := "Running".
Definition InstanceStateStopped : InstanceState := "Stopped".
Definition InstanceStateStopping : InstanceState := "Stopping".
Definition InstanceStateStarting : InstanceState := "Starting".
Definition InstanceStateDeleted : InstanceState := "Deleted".

Definition CloudControllerManagerReadyCondition : string := "CloudControllerManagerReady".
Definition NodesAwaitingCloudProviderReason : string := "NodesAwaitingCloudProvider".
Definition CloudControllerManagerHealthyReason : string := "CloudControllerManagerHealthy".
Definition ClusterAPICoreReadyCondition : string := "ClusterAPICoreReady".
Definition BundledCAPICoreReason : string := "BundledCAPICore".
Definition ReusingHostedCAPICoreReason : string := "ReusingHostedCAPICore".
Definition MultipleCAPICoresConflictReason : string := "MultipleCAPICoresConflict".

Record Tag := mkTag { tag_Key : string; tag_Value : string }.
#[export] Instance Tag_eq_dec : EqDecision Tag.
Proof. solve_decision. Defined.

Record SystemDisk := mkSystemDisk {
  sd_Category : string;
  sd_Size : Z;
  sd_PerformanceLevel : string;
  sd_Encrypted : option bool;
  sd_KMSKeyID : string;
}.
#[export] Instance eta_SystemDisk : Eta SystemDisk := fun d =>
  mkSystemDisk (sd_Category d) (sd_Size d) (sd_PerformanceLevel d) (sd_Encrypted d) (sd_KMSKeyID d).
#[export] Instance SystemDisk_eq_dec : EqDecision SystemDisk.
Proof. solve_decision. Defined.

Record DataDisk := mkDataDisk {
  dd_Category : string;
  dd_Size : Z;
  dd_Name : string;
  dd_PerformanceLevel : string;
  dd_Encrypted : option bool;
  dd_KMSKeyID : string;
}.
#[export] Instance DataDisk_eq_dec : EqDecision DataDisk.
Proof. solve_decision. Defined.

Record FailureDomain := mkFailureDomain { fd_ZoneID : string; fd_VSwitchID : string }.

(** ** [api/v1beta1/alibabacloudmachine_types.go] *)

Definition MachineFinalizer : string := "alibabacloudmachine.infrastructure.cluster.x-k8s.io".

Record MetadataOptions := mkMetadataOptions {
  mo_HttpEndpoint : string;
  mo_HttpTokens : string;
  mo_HttpTokensAfterBoot : string;
  mo_HttpPutResponseHopLimit : Z;
}.

(** A [float64] is an IEEE 754 binary64 datum. *)
Definition float64 := spec_float.

Record AlibabaCloudMachineSpec := mkAlibabaCloudMachineSpec {
  spec_ProviderID : option string;
  spec_InstanceType : string;
  spec_ImageID : string;
  spec_RegionID : string;
  spec_ZoneID : string;
  spec_SecurityGroupIDs : list string;
  spec_VSwitchID : string;
  spec_SystemDisk : option SystemDisk;
  spec_DataDisks : option (list DataDisk);
  spec_RAMRoleName : string;
  spec_SpotStrategy : string;
  spec_SpotPriceLimit : option float64;
  spec_Tags : list Tag;
  spec_MetadataOptions : option MetadataOptions;
  spec_UserDataSecret : option string;       (* LocalObjectReference: its name *)
  spec_CredentialsSecret : option string;
}.
#[export] Instance eta_AlibabaCloudMachineSpec : Eta AlibabaCloudMachineSpec := fun s =>
  mkAlibabaCloudMachineSpec (spec_ProviderID s) (spec_InstanceType s) (spec_ImageID s)
    (spec_RegionID s) (spec_ZoneID s) (spec_SecurityGroupIDs s) (spec_VSwitchID s)
    (spec_SystemDisk s) (spec_DataDisks s) (spec_RAMRoleName s) (spec_SpotStrategy s)
    (spec_SpotPriceLimit s) (spec_Tags s) (spec_MetadataOptions s) (spec_UserDataSecret s)
    (spec_CredentialsSecret s).

(** [m.Spec.DataDisks] as a list: ranging over a nil slice does nothing. *)
Definition data_disks (s : AlibabaCloudMachineSpec) : list DataDisk :=
  default [] (spec_DataDisks s).

(** [AlibabaCloudMachineInitializationStatus] and its cluster twin. *)
Record InitializationStatus := mkInitializationStatus { Provisioned : option bool }.

Record IgnitionOSSRef := mkIgnitionOSSRef {
  oss_Bucket : string;
  oss_Endpoint : string;
  oss_Key : string;
}.

Record AlibabaCloudMachineStatus := mkAlibabaCloudMachineStatus {
  stat_Ready : bool;
  stat_Initialization : option InitializationStatus;
  stat_InstanceID : option string;
  stat_InstanceState : option InstanceState;
  stat_MetadataHardened : option bool;
  stat_Addresses : list MachineAddress;
  stat_Conditions : list Condition;
  stat_FailureReason : option string;
  stat_FailureMessage : option string;
  stat_IgnitionOSS : option IgnitionOSSRef;
}.
#[export] Instance eta_AlibabaCloudMachineStatus : Eta AlibabaCloudMachineStatus := fun s =>
  mkAlibabaCloudMachineStatus (stat_Ready s) (stat_Initialization s) (stat_InstanceID s)
    (stat_InstanceState s) (stat_MetadataHardened s) (stat_Addresses s) (stat_Conditions s)
    (stat_FailureReason s) (stat_FailureMessage s) (stat_IgnitionOSS s).

Record AlibabaCloudMachine := mkAlibabaCloudMachine {
  acm_ObjectMeta : ObjectMeta;
  acm_Spec : AlibabaCloudMachineSpec;
  acm_Status : AlibabaCloudMachineStatus;
}.
#[export] Instance eta_AlibabaCloudMachine : Eta AlibabaCloudMachine := fun m =>
  mkAlibabaCloudMachine (acm_ObjectMeta m) (acm_Spec m) (acm_Status m).

Definition acm_Name (m : AlibabaCloudMachine) : string := meta_Name (acm_ObjectMeta m).
Definition acm_Namespace (m : AlibabaCloudMachine) : string := meta_Namespace (acm_ObjectMeta m).
Definition acm_Finalizers (m : AlibabaCloudMachine) : list string :=
  meta_Finalizers (acm_ObjectMeta m).

(** ** [api/v1beta1/alibabacloudcluster_types.go] *)

Definition ClusterFinalizer : string := "alibabacloudcluster.infrastructure.cluster.x-k8s.io".

Record IgnitionStorageSpec := mkIgnitionStorageSpec {
  is_OSSBucket : string;
  is_OSSEndpoint : string;
  is_ExpirySeconds : Z;
  is_MaxUserDataBytes : Z;
}.

Record AlibabaCloudClusterSpec := mkAlibabaCloudClusterSpec {
  cspec_Region : string;
  cspec_VpcID : string;
  cspec_BootImageID : string;
  cspec_ResourceGroupID : string;
  cspec_ControlPlaneEndpoint : APIEndpoint;
  cspec_AdditionalTags : list Tag;
  cspec_IgnitionStorage : option IgnitionStorageSpec;
  cspec_FailureDomains : list FailureDomain;
}.

Record AlibabaCloudClusterStatus := mkAlibabaCloudClusterStatus {
  cstat_Ready : bool;
  cstat_Initialization : option InitializationStatus;
  cstat_VpcID : string;
  cstat_ControlPlaneEndpoint : APIEndpoint;
  cstat_SLBInstanceID : string;
  cstat_FailureDomains : list CoreFailureDomain;
  cstat_Conditions : list Condition;
}.
#[export] Instance eta_AlibabaCloudClusterStatus : Eta AlibabaCloudClusterStatus := fun s =>
  mkAlibabaCloudClusterStatus (cstat_Ready s) (cstat_Initialization s) (cstat_VpcID s)
    (cstat_ControlPlaneEndpoint s) (cstat_SLBInstanceID s) (cstat_FailureDomains s)
    (cstat_Conditions s).

Record AlibabaCloudCluster := mkAlibabaCloudCluster {
  acc_ObjectMeta : ObjectMeta;
  acc_Spec : AlibabaCloudClusterSpec;
  acc_Status : AlibabaCloudClusterStatus;
}.
#[export] Instance eta_AlibabaCloudCluster : Eta AlibabaCloudCluster := fun c =>
  mkAlibabaCloudCluster (acc_ObjectMeta c) (acc_Spec c) (acc_Status c).
Definition acc_Name (c : AlibabaCloudCluster) : string := meta_Name (acc_ObjectMeta c).

(** ** Library helpers

    [controllerutil.AddFinalizer]/[RemoveFinalizer] and Cluster API's
    [conditions.Set]/[Get]. *)

Class KubeLib := {
  AddFinalizer : list string -> string -> list string;
  RemoveFinalizer : list string -> string -> list string;
  conditions_Set : list Condition -> Condition -> list Condition;
  conditions_Get : list Condition -> string -> option Condition;
}.

(** The interface [conditions.Setter] of the objects that have conditions; the
    library sets one condition of an object through it. *)
Class ConditionsSetter (T : Type) := {
  GetConditions : T -> list Condition;
  SetConditions : list Condition -> T -> T;
}.

Definition set_condition {T : Type} `{!KubeLib} `{!ConditionsSetter T} (c : Condition) (obj : T) : T :=
  SetConditions (conditions_Set (GetConditions obj) c) obj.

(** What a condition says, without the bookkeeping the library fills in. *)
Definition cond_content (c : Condition) : string * ConditionStatus * string * string :=
  (cond_Type c, cond_Status c, cond_Reason c, cond_Message c).

Class KubeLibLaws `{KubeLib} : Prop := {
  AddFinalizer_elem l f g : g ∈ AddFinalizer l f <-> g = f \/ g ∈ l;
  RemoveFinalizer_elem l f g : g ∈ RemoveFinalizer l f <-> g <> f /\ g ∈ l;
  conditions_Get_Set l c :
    cond_content <$> conditions_Get (conditions_Set l c) (cond_Type c) = Some (cond_content c);
  conditions_Get_Set_ne l c t :
    t <> cond_Type c -> conditions_Get (conditions_Set l c) t = conditions_Get l t;
}.

(** ** Assignments to an object under reconciliation *)

Definition set_spec (f : AlibabaCloudMachineSpec -> AlibabaCloudMachineSpec)
    (m : AlibabaCloudMachine) : AlibabaCloudMachine := m <| acm_Spec ::= f |>.
Definition set_status (f : AlibabaCloudMachineStatus -> AlibabaCloudMachineStatus)
    (m : AlibabaCloudMachine) : AlibabaCloudMachine := m <| acm_Status ::= f |>.
#[export] Instance AlibabaCloudMachine_conditions : ConditionsSetter AlibabaCloudMachine := {
  GetConditions m := stat_Conditions (acm_Status m);
  SetConditions conditions := set_status (fun s => s <| stat_Conditions := conditions |>);
}.
#[export] Instance AlibabaCloudCluster_conditions : ConditionsSetter AlibabaCloudCluster := {
  GetConditions c := cstat_Conditions (acc_Status c);
  SetConditions conditions c := c <| acc_Status ::= fun s => s <| cstat_Conditions := conditions |> |>;
}.
Definition set_finalizers (f : list string -> list string)
    (m : AlibabaCloudMachine) : AlibabaCloudMachine :=
  m <| acm_ObjectMeta ::= fun o => o <| meta_Finalizers ::= f |> |>.
