(* ===== verification/ProviderID.v ===== *)
(** * Provider IDs and regions

    [providerIDFor], [resolveRegion] and [regionFromMachine] of
    [internal/controller/alibabacloudmachine_controller.go] and
    [providerInstanceID] of [internal/controller/csr_controller.go]: the string
    forms under which an ECS instance is recorded on a machine and on a node,
    and how the region and the instance ID are read back from them. *)

From S2P Require Import Api.

Definition providerScheme : string := "alicloud://".

Definition is_slash (a : ascii) : bool := Ascii.eqb "/" a.
Definition is_dot (a : ascii) : bool := Ascii.eqb "." a.
Definition is_sep (a : ascii) : bool := is_slash a || is_dot a.

(** ** Operations *)

Definition resolveRegion (m : AlibabaCloudMachine) (c : option AlibabaCloudCluster) : string :=
  if decide (spec_RegionID (acm_Spec m) <> "") then spec_RegionID (acm_Spec m)
  else match c with
       | Some c => cspec_Region (acc_Spec c)
       | None => ""
       end.

Definition providerIDFor (region instanceID : string) : string :=
  providerScheme +:+ region +:+ "." +:+ instanceID.

Definition regionError : error :=
  ErrorString "Spec.RegionID is empty and ProviderID is unset or invalid".

(** [parts := strings.SplitN(s, sep, 2); len(parts) == 2 && parts[0] != ""] *)
Definition region_part (s : string) (sep : ascii) : option string :=
  match SplitN2 s sep with
  | [r; _] => if decide (r <> "") then Some r else None
  | _ => None
  end.

Definition regionFromMachine (m : AlibabaCloudMachine) : error + string :=
  if decide (spec_RegionID (acm_Spec m) <> "") then inr (spec_RegionID (acm_Spec m))
  else
    match spec_ProviderID (acm_Spec m) with
    | Some pid =>
        let trimmed := TrimPrefix pid providerScheme in
        match region_part trimmed "/" with
        | Some r => inr r
        | None =>
            match region_part trimmed "." with
            | Some r => inr r
            | None => inl regionError
            end
        end
    | None => inl regionError
    end.

Definition providerInstanceID (providerID : string) : string :=
  let s := TrimPrefix providerID providerScheme in
  default s (after_last is_sep s).

(** ** What a well-formed region and instance ID are

    Alibaba Cloud region IDs ([cn-hangzhou]) and instance IDs ([i-...]) hold
    no dot and no slash. *)
Definition no_sep (s : string) : bool := all_chars (fun a => negb (is_sep a)) s.

(** ** Lemmas *)

Lemma no_sep_slash s : no_sep s = true -> all_chars (fun a => negb (is_slash a)) s = true.
Proof.
  unfold no_sep. induction s as [|a s IH]; cbn; [done|].
  rewrite !andb_true_iff. unfold is_sep. rewrite negb_orb, andb_true_iff. by intros [[? ?] ?%IH].
Qed.

Lemma no_sep_dot s : no_sep s = true -> all_chars (fun a => negb (is_dot a)) s = true.
Proof.
  unfold no_sep. induction s as [|a s IH]; cbn; [done|].
  rewrite !andb_true_iff. unfold is_sep. rewrite negb_orb, andb_true_iff. by intros [[? ?] ?%IH].
Qed.

Lemma region_part_slash_none r id :
  no_sep r = true -> no_sep id = true -> region_part (r +:+ "." +:+ id) "/" = None.
Proof.
  intros Hr%no_sep_slash Hid%no_sep_slash. unfold region_part, SplitN2.
  rewrite cut_first_None; [done|].
  rewrite !all_chars_app. apply andb_true_iff; split; [exact Hr|].
  apply andb_true_iff; split; [done|exact Hid].
Qed.

Lemma region_part_cut r c rest :
  r <> "" -> all_chars (fun a => negb (Ascii.eqb c a)) r = true ->
  region_part (r +:+ String c rest) c = Some r.
Proof.
  intros Hr Hc. unfold region_part, SplitN2.
  rewrite (cut_first_app (Ascii.eqb c)); [|done|by rewrite Ascii.eqb_refl].
  by rewrite decide_True.
Qed.

(** ** The dot form and the slash form name the same instance and region *)

Lemma providerInstanceID_form region c id :
  is_sep c = true -> no_sep id = true ->
  providerInstanceID (providerScheme +:+ region +:+ String c id) = id.
Proof.
  intros Hc Hid. unfold providerInstanceID.
  rewrite TrimPrefix_app, (after_last_app is_sep); [done| |]; done.
Qed.

Lemma providerInstanceID_for region id :
  no_sep id = true -> providerInstanceID (providerIDFor region id) = id.
Proof. apply (providerInstanceID_form region "."); done. Qed.

Lemma providerInstanceID_no_sep pid : no_sep (providerInstanceID pid) = true.
Proof.
  unfold providerInstanceID, no_sep.
  destruct (after_last is_sep _) eqn:E; cbn.
  - by apply after_last_clean in E.
  - by apply after_last_None.
Qed.

Lemma regionFromMachine_for m region id :
  region <> "" -> no_sep region = true -> no_sep id = true ->
  spec_RegionID (acm_Spec m) = "" ->
  spec_ProviderID (acm_Spec m) = Some (providerIDFor region id) ->
  regionFromMachine m = inr region.
Proof.
  intros Hne Hr Hid HR HP. unfold regionFromMachine.
  rewrite HR, decide_False, HP by (intros []; done).
  unfold providerIDFor. rewrite TrimPrefix_app, region_part_slash_none by done.
  change ("." +:+ id) with (String "." id).
  rewrite region_part_cut; [done..|]. by apply no_sep_dot.
Qed.

(** A region read back from a machine is never empty, so the cloud client of
    the delete path is never built for the empty region. *)
Lemma regionFromMachine_nonempty m r : regionFromMachine m = inr r -> r <> "".
Proof.
  unfold regionFromMachine, region_part. intros H.
  repeat case_match; simplify_eq; naive_solver.
Qed.

(** The region of a machine does not depend on the providerID once
    spec.regionID is set. *)
Lemma regionFromMachine_spec m :
  spec_RegionID (acm_Spec m) <> "" -> regionFromMachine m = inr (spec_RegionID (acm_Spec m)).
Proof. intros H. unfold regionFromMachine. by rewrite decide_True. Qed.

Lemma resolveRegion_spec m c :
  spec_RegionID (acm_Spec m) <> "" -> resolveRegion m c = spec_RegionID (acm_Spec m).
Proof. intros H. unfold resolveRegion. by rewrite decide_True. Qed.

#[export] Hint Rewrite providerInstanceID_for using done : go_strings.

(** C25. A providerID, in the form the code writes or in the older slash form,
    gives back the region and the instance it was made of. *)
Theorem providerID_roundtrip m region id c :
  region <> "" -> no_sep region = true -> no_sep id = true -> is_sep c = true ->
  spec_RegionID (acm_Spec m) = "" ->
  spec_ProviderID (acm_Spec m) = Some (providerScheme +:+ region +:+ String c id) ->
  regionFromMachine m = inr region /\
  providerInstanceID (providerScheme +:+ region +:+ String c id) = id /\
  providerInstanceID (providerIDFor region id) = id.
Proof.
  intros Hne Hr Hid Hc HR HP. split_and!; [|by apply providerInstanceID_form|by apply providerInstanceID_for].
  unfold is_sep, is_slash, is_dot in Hc. apply orb_true_iff in Hc as [Hc|Hc].
  - apply Ascii.eqb_eq in Hc. subst c.
    unfold regionFromMachine. rewrite HR, decide_False, HP by (intros []; done).
    rewrite TrimPrefix_app, region_part_cut; [done..|]. by apply no_sep_slash.
  - apply Ascii.eqb_eq in Hc. subst c. by apply (regionFromMachine_for m region id).
Qed.
