(* ===== verification/CloudClient.v ===== *)
(** * The cloud client interface

    The parameter and response types of [pkg/client/capi.go] and
    [pkg/client/oss.go], and the high-level half of the [Client] interface of
    [pkg/client/client.go]: the eight operations the controllers call.  [Capi]
    implements the interface over the SDK; the controllers are written against
    it, so their theorems hold of every client. *)

From S2P Require Import Api.

(** [Tag] of pkg/client: an ECS resource tag. *)
Record SDKTag := mkSDKTag { st_Key : string; st_Value : string }.
#[export] Instance SDKTag_eq_dec : EqDecision SDKTag.
Proof. solve_decision. Defined.

Record DataDiskParam := mkDataDiskParam {
  ddp_Category : string;
  ddp_Size : Z;
  ddp_PerformanceLevel : string;
  ddp_Encrypted : option bool;
  ddp_KMSKeyID : string;
}.

Record CreateInstanceParams := mkCreateInstanceParams {
  cip_RegionID : string;
  cip_ZoneID : string;
  cip_InstanceType : string;
  cip_ImageID : string;
  cip_InstanceName : string;
  cip_HostName : string;
  cip_SecurityGroupIDs : list string;
  cip_VSwitchID : string;
  cip_SystemDiskCategory : string;
  cip_SystemDiskSize : Z;
  cip_SystemDiskPerformanceLevel : string;
  cip_SystemDiskEncrypted : option bool;
  cip_SystemDiskKMSKeyID : string;
  cip_DataDisks : list DataDiskParam;
  cip_RAMRoleName : string;
  cip_UserData : string;
  cip_Tags : list SDKTag;
  cip_ResourceGroupID : string;
  cip_SpotStrategy : string;
  cip_SpotPriceLimit : option float64;
  cip_HttpEndpoint : string;
  cip_HttpTokens : string;
  cip_HttpPutResponseHopLimit : Z;
  cip_ClientToken : string;
}.

Record CreateInstanceResponse := mkCreateInstanceResponse { cir_InstanceID : string }.

Record InstanceDescription := mkInstanceDescription {
  idesc_InstanceID : string;
  idesc_Status : string;
  idesc_HostName : string;
  idesc_InnerIpAddress : list string;
  idesc_PublicIpAddress : list string;
}.

(** [IgnitionStoreParams] of oss.go; [Expiry] is a duration in nanoseconds. *)
Record IgnitionStoreParams := mkIgnitionStoreParams {
  isp_Bucket : string;
  isp_Endpoint : string;
  isp_RegionID : string;
  isp_Key : string;
  isp_Data : string;
  isp_Expiry : Z;
}.

(** The per-machine tag stamped on every instance. *)
Definition MachineNameTagKey : string := "k8s.io/cluster-api-machine".

(** The CAPI half of [Client], over a world [W]: the cloud, and everything else
    a call can change. *)
Record Client (W : Type) := mkClient {
  DescribeInstanceByID : string -> M W (option InstanceDescription);
  CreateECSInstance : CreateInstanceParams -> M W CreateInstanceResponse;
  DeleteECSInstance : string -> bool -> M W ();
  FindInstanceByTag : string -> string -> string -> M W string;
  ModifyInstanceMetadata : string -> string -> string -> Z -> M W ();
  InstanceTypeCapacity : string -> M W (Z * Z);
  PutIgnitionObject : IgnitionStoreParams -> M W string;
  DeleteIgnitionObject : IgnitionStoreParams -> M W ();
}.
#[global] Arguments DescribeInstanceByID {W}.
#[global] Arguments CreateECSInstance {W}.
#[global] Arguments DeleteECSInstance {W}.
#[global] Arguments FindInstanceByTag {W}.
#[global] Arguments ModifyInstanceMetadata {W}.
#[global] Arguments InstanceTypeCapacity {W}.
#[global] Arguments PutIgnitionObject {W}.
#[global] Arguments DeleteIgnitionObject {W}.
#[global] Arguments mkClient {W}.

(** ** What the interface promises

    An abstract view of the cloud: the instances that exist, with the region
    they are in, their status and their tags.  [cloud_of] projects it out of a
    world.  [ClientLaws] is what the comments on the interface say of the
    operations that the instance lifecycle rests on. *)

Record CloudInstance := mkCloudInstance {
  ci_Region : string;
  ci_Status : string;
  ci_Tags : list SDKTag;
}.

Abbreviation Cloud := (gmap string CloudInstance).

(** An instance in [region] that carries the tag and is not deleted. *)
Definition live_tagged (region key value : string) (i : CloudInstance) : Prop :=
  ci_Region i = region /\ mkSDKTag key value ∈ ci_Tags i /\ ci_Status i <> InstanceStateDeleted.
#[export] Instance live_tagged_dec region key value i : Decision (live_tagged region key value i).
Proof. unfold live_tagged. apply _. Defined.

(** No call fails without saying so, and the read-only calls change nothing. *)
Class ClientLaws {W} (cloud_of : W -> Cloud) (region : string) (c : Client W) : Prop := {
  (** "Returns nil if the instance does not exist": the client sees the
      instances of its own region. *)
  describe_none id w w' i :
    DescribeInstanceByID c id w = (Ok None, w') ->
    cloud_of w !! id = Some i -> ci_Region i <> region;
  describe_some id w d w' :
    DescribeInstanceByID c id w = (Ok (Some d), w') ->
    idesc_InstanceID d = id /\
    exists i, cloud_of w !! id = Some i /\ ci_Region i = region /\ ci_Status i = idesc_Status d;
  describe_cloud id w r w' :
    DescribeInstanceByID c id w = (r, w') -> cloud_of w' = cloud_of w;
  (** "Returns the ID of an existing, non-deleted instance in region tagged
      key=value, or the empty string if none." *)
  find_none r k v w w' :
    r <> "" -> FindInstanceByTag c r k v w = (Ok "", w') ->
    forall id i, cloud_of w !! id = Some i -> ~ live_tagged r k v i;
  find_some r k v w id w' :
    r <> "" -> FindInstanceByTag c r k v w = (Ok id, w') -> id <> "" ->
    exists i, cloud_of w !! id = Some i /\ live_tagged r k v i;
  find_cloud r k v w res w' :
    FindInstanceByTag c r k v w = (res, w') -> cloud_of w' = cloud_of w;
  (** Clean-up of a stored object does not touch instances. *)
  delete_ignition_cloud p w r w' :
    DeleteIgnitionObject c p w = (r, w') -> cloud_of w' = cloud_of w;
}.

(** ** What the interface may change

    The effect of a call on the instances: [settles] says that none appears,
    none is retagged or moved and none comes back from Deleted, as when
    instances stop, are deleted or just change status. *)

Definition settles (cl cl' : Cloud) : Prop :=
  forall id i', cl' !! id = Some i' ->
    exists i, cl !! id = Some i /\ ci_Region i' = ci_Region i /\ ci_Tags i' = ci_Tags i /\
      (ci_Status i = InstanceStateDeleted -> ci_Status i' = InstanceStateDeleted).

#[export] Instance settles_preorder : PreOrder settles.
Proof.
  split; [by intros cl id i Hi; exists i|].
  intros c1 c2 c3 H12 H23 id i3 H3. destruct (H23 _ _ H3) as (i2 & H2 & Hr2 & Ht2 & Hs2).
  destruct (H12 _ _ H2) as (i1 & H1 & Hr1 & Ht1 & Hs1). exists i1. split_and!; [done|congruence..|auto].
Qed.

(** No live instance with the machine tag [name] appears. *)
Definition no_new (name : string) (cl cl' : Cloud) : Prop :=
  forall id i region, cl' !! id = Some i -> live_tagged region MachineNameTagKey name i ->
    exists i0, cl !! id = Some i0 /\ live_tagged region MachineNameTagKey name i0.

#[export] Instance no_new_preorder name : PreOrder (no_new name).
Proof.
  split; [intros cl id i region Hi Hl; by exists i|].
  intros c1 c2 c3 H12 H23 id i region Hi Hl. destruct (H23 _ _ _ Hi Hl) as (i2 & Hi2 & Hl2).
  by apply (H12 id i2 region).
Qed.

Lemma settles_no_new name cl cl' : settles cl cl' -> no_new name cl cl'.
Proof.
  intros Hs id i region Hi (Hr & Ht & Hl). destruct (Hs _ _ Hi) as (i0 & Hi0 & Er & Et & Es).
  exists i0. split; [done|]. split_and!; [congruence|by rewrite <- Et|auto].
Qed.

(** An instance with these tags appears in this region, where no live one had
    the machine tag [name]. *)
Definition appears (region name : string) (tags : list SDKTag) (cl cl' : Cloud) : Prop :=
  (forall id i, cl !! id = Some i -> ~ live_tagged region MachineNameTagKey name i) /\
  exists id i, cl !! id = None /\ ci_Region i = region /\ ci_Tags i = tags /\ cl' = <[id := i]> cl.

(** The machine tag a list of tags carries first, if any. *)
Fixpoint machineTag (tags : list SDKTag) : string :=
  match tags with
  | [] => ""
  | t :: tags' => if decide (st_Key t = MachineNameTagKey) then st_Value t else machineTag tags'
  end.

(** Creation makes at most one instance, and none when one with the machine tag
    is there; the other calls make none. *)
Class ClientEffects {W} (cloud_of : W -> Cloud) (c : Client W) : Prop := {
  create_effect p w r w' :
    machineTag (cip_Tags p) <> "" -> cip_RegionID p <> "" ->
    CreateECSInstance c p w = (r, w') ->
    cloud_of w' = cloud_of w \/
    appears (cip_RegionID p) (machineTag (cip_Tags p)) (cip_Tags p) (cloud_of w) (cloud_of w');
  describe_effect id w r w' : DescribeInstanceByID c id w = (r, w') -> cloud_of w' = cloud_of w;
  find_effect rg k v w r w' : FindInstanceByTag c rg k v w = (r, w') -> cloud_of w' = cloud_of w;
  delete_effect id force w r w' :
    DeleteECSInstance c id force w = (r, w') -> settles (cloud_of w) (cloud_of w');
  metadata_effect id e t h w r w' :
    ModifyInstanceMetadata c id e t h w = (r, w') -> cloud_of w' = cloud_of w;
  put_ignition_effect p w r w' :
    PutIgnitionObject c p w = (r, w') -> cloud_of w' = cloud_of w;
  delete_ignition_effect p w r w' :
    DeleteIgnitionObject c p w = (r, w') -> cloud_of w' = cloud_of w;
}.
