(* ===== verification/ServiceClient.v ===== *)
(** * The service half of the cloud client

    The other hundred methods of the [Client] interface of
    [pkg/client/client.go], under the headings it gives them, and
    [alibabacloudClient], whose methods pass a request to one of the four SDK
    clients it holds.  The controllers call none of them; they are the part of
    the interface a test double has to fill in too ([FakeClient]).

    The SDK's clients, requests and responses are parameters.  A method of a
    service is known by its name, and its requests and responses are families
    over the name, so that a method of the interface can only be served by an
    SDK method that takes its request and gives its response. *)

From S2P Require Import GoStrings Api CloudClient.

(** ** The SDK *)

Inductive Service := ECS | VPC | SLB | RM.
#[export] Instance Service_eq_dec : EqDecision Service.
Proof. solve_decision. Defined.

Class AlibabaSdk (W : Type) := {
  SdkClient : Service -> Type;                 (* ecs.Client, vpc.Client, ... *)
  SdkRequest : Service -> string -> Type;      (* ecs.RunInstancesRequest, ... *)
  SdkResponse : Service -> string -> Type;
  sdk_do {service} : SdkClient service ->
    forall method, SdkRequest service method -> M W (SdkResponse service method);
}.

(** The type of a method with these request and response types. *)
Definition SdkCall (W : Type) `{!AlibabaSdk W} (sig : Service * string) : Type :=
  SdkRequest sig.1 sig.2 -> M W (SdkResponse sig.1 sig.2).

Record alibabacloudClient (W : Type) `{!AlibabaSdk W} := mkAlibabacloudClient {
  ecsClient : SdkClient ECS;
  vpcClient : SdkClient VPC;
  slbClient : SdkClient SLB;
  rmClient : SdkClient RM;
}.
#[global] Arguments mkAlibabacloudClient {W _}.
#[global] Arguments ecsClient {W _}.
#[global] Arguments vpcClient {W _}.
#[global] Arguments slbClient {W _}.
#[global] Arguments rmClient {W _}.

(** ** The methods

    For each heading of the interface: its methods, their names, the types
    they are declared with, and what [alibabacloudClient] does for each. *)

(** *** Ecs *)

Inductive EcsMethod := RunInstances | CreateInstance | DescribeInstances | DeleteInstances
  | StartInstance | RebootInstance | StopInstance | StartInstances | RebootInstances
  | StopInstances | DeleteInstance | AttachInstanceRAMRole | DetachInstanceRAMRole
  | DescribeInstanceStatus | ReActivateInstances | DescribeUserData | DescribeInstanceTypes
  | ModifyInstanceAttribute | ModifyInstanceMetadataOptions.
#[export] Instance EcsMethod_eq_dec : EqDecision EcsMethod.
Proof. solve_decision. Defined.
Definition Ecs_methods : list EcsMethod :=
  [RunInstances; CreateInstance; DescribeInstances; DeleteInstances; StartInstance;
   RebootInstance; StopInstance; StartInstances; RebootInstances; StopInstances; DeleteInstance;
   AttachInstanceRAMRole; DetachInstanceRAMRole; DescribeInstanceStatus; ReActivateInstances;
   DescribeUserData; DescribeInstanceTypes; ModifyInstanceAttribute;
   ModifyInstanceMetadataOptions].
Definition Ecs_name (m : EcsMethod) : string :=
  match m with
  | RunInstances => "RunInstances"
  | CreateInstance => "CreateInstance"
  | DescribeInstances => "DescribeInstances"
  | DeleteInstances => "DeleteInstances"
  | StartInstance => "StartInstance"
  | RebootInstance => "RebootInstance"
  | StopInstance => "StopInstance"
  | StartInstances => "StartInstances"
  | RebootInstances => "RebootInstances"
  | StopInstances => "StopInstances"
  | DeleteInstance => "DeleteInstance"
  | AttachInstanceRAMRole => "AttachInstanceRAMRole"
  | DetachInstanceRAMRole => "DetachInstanceRAMRole"
  | DescribeInstanceStatus => "DescribeInstanceStatus"
  | ReActivateInstances => "ReActivateInstances"
  | DescribeUserData => "DescribeUserData"
  | DescribeInstanceTypes => "DescribeInstanceTypes"
  | ModifyInstanceAttribute => "ModifyInstanceAttribute"
  | ModifyInstanceMetadataOptions => "ModifyInstanceMetadataOptions"
  end.
Definition Ecs_signature (m : EcsMethod) : Service * string :=
  match m with
  | AttachInstanceRAMRole => (ECS, "AttachInstanceRamRole")
  | DetachInstanceRAMRole => (ECS, "DetachInstanceRamRole")
  | _ => (ECS, Ecs_name m)
  end.
Definition Ecs_call {W} `{!AlibabaSdk W} (client : alibabacloudClient W) (m : EcsMethod)
    : SdkCall W (Ecs_signature m) :=
  match m with
  | RunInstances => sdk_do (ecsClient client) "RunInstances"
  | CreateInstance => sdk_do (ecsClient client) "CreateInstance"
  | DescribeInstances => sdk_do (ecsClient client) "DescribeInstances"
  | DeleteInstances => sdk_do (ecsClient client) "DeleteInstances"
  | StartInstance => sdk_do (ecsClient client) "StartInstance"
  | RebootInstance => sdk_do (ecsClient client) "RebootInstance"
  | StopInstance => sdk_do (ecsClient client) "StopInstance"
  | StartInstances => sdk_do (ecsClient client) "StartInstances"
  | RebootInstances => sdk_do (ecsClient client) "RebootInstances"
  | StopInstances => sdk_do (ecsClient client) "StopInstances"
  | DeleteInstance => sdk_do (ecsClient client) "DeleteInstance"
  | AttachInstanceRAMRole => sdk_do (ecsClient client) "AttachInstanceRamRole"
  | DetachInstanceRAMRole => sdk_do (ecsClient client) "DetachInstanceRamRole"
  | DescribeInstanceStatus => sdk_do (ecsClient client) "DescribeInstanceStatus"
  | ReActivateInstances => sdk_do (ecsClient client) "ReActivateInstances"
  | DescribeUserData => sdk_do (ecsClient client) "DescribeUserData"
  | DescribeInstanceTypes => sdk_do (ecsClient client) "DescribeInstanceTypes"
  | ModifyInstanceAttribute => sdk_do (ecsClient client) "ModifyInstanceAttribute"
  | ModifyInstanceMetadataOptions => sdk_do (ecsClient client) "ModifyInstanceMetadataOptions"
  end.

(** *** Tags *)

Inductive TagsMethod := TagResources | ListTagResources | UntagResources.
#[export] Instance TagsMethod_eq_dec : EqDecision TagsMethod.
Proof. solve_decision. Defined.
Definition Tags_methods : list TagsMethod :=
  [TagResources; ListTagResources; UntagResources].
Definition Tags_name (m : TagsMethod) : string :=
  match m with
  | TagResources => "TagResources"
  | ListTagResources => "ListTagResources"
  | UntagResources => "UntagResources"
  end.
Definition Tags_signature (m : TagsMethod) : Service * string := (ECS, Tags_name m).
Definition Tags_call {W} `{!AlibabaSdk W} (client : alibabacloudClient W) (m : TagsMethod)
    : SdkCall W (Tags_signature m) :=
  match m with
  | TagResources => sdk_do (ecsClient client) "TagResources"
  | ListTagResources => sdk_do (ecsClient client) "ListTagResources"
  | UntagResources => sdk_do (ecsClient client) "UntagResources"
  end.

(** *** Network *)

Inductive NetworkMethod := AllocatePublicIPAddress.
#[export] Instance NetworkMethod_eq_dec : EqDecision NetworkMethod.
Proof. solve_decision. Defined.
Definition Network_methods : list NetworkMethod :=
  [AllocatePublicIPAddress].
Definition Network_name (m : NetworkMethod) : string :=
  match m with
  | AllocatePublicIPAddress => "AllocatePublicIPAddress"
  end.
Definition Network_signature (m : NetworkMethod) : Service * string :=
  match m with AllocatePublicIPAddress => (ECS, "AllocatePublicIpAddress") end.
Definition Network_call {W} `{!AlibabaSdk W} (client : alibabacloudClient W) (m : NetworkMethod)
    : SdkCall W (Network_signature m) :=
  match m with
  | AllocatePublicIPAddress => sdk_do (ecsClient client) "AllocatePublicIpAddress"
  end.

(** *** Disk *)

Inductive DiskMethod := CreateDisk | AttachDisk | DescribeDisks | ModifyDiskChargeType
  | ModifyDiskAttribute | ModifyDiskSpec | ReplaceSystemDisk | ReInitDisk | ResetDisk | ResizeDisk
  | DetachDisk | DeleteDisk.
#[export] Instance DiskMethod_eq_dec : EqDecision DiskMethod.
Proof. solve_decision. Defined.
Definition Disk_methods : list DiskMethod :=
  [CreateDisk; AttachDisk; DescribeDisks; ModifyDiskChargeType; ModifyDiskAttribute;
   ModifyDiskSpec; ReplaceSystemDisk; ReInitDisk; ResetDisk; ResizeDisk; DetachDisk; DeleteDisk].
Definition Disk_name (m : DiskMethod) : string :=
  match m with
  | CreateDisk => "CreateDisk"
  | AttachDisk => "AttachDisk"
  | DescribeDisks => "DescribeDisks"
  | ModifyDiskChargeType => "ModifyDiskChargeType"
  | ModifyDiskAttribute => "ModifyDiskAttribute"
  | ModifyDiskSpec => "ModifyDiskSpec"
  | ReplaceSystemDisk => "ReplaceSystemDisk"
  | ReInitDisk => "ReInitDisk"
  | ResetDisk => "ResetDisk"
  | ResizeDisk => "ResizeDisk"
  | DetachDisk => "DetachDisk"
  | DeleteDisk => "DeleteDisk"
  end.
Definition Disk_signature (m : DiskMethod) : Service * string := (ECS, Disk_name m).
Definition Disk_call {W} `{!AlibabaSdk W} (client : alibabacloudClient W) (m : DiskMethod)
    : SdkCall W (Disk_signature m) :=
  match m with
  | CreateDisk => sdk_do (ecsClient client) "CreateDisk"
  | AttachDisk => sdk_do (ecsClient client) "AttachDisk"
  | DescribeDisks => sdk_do (ecsClient client) "DescribeDisks"
  | ModifyDiskChargeType => sdk_do (ecsClient client) "ModifyDiskChargeType"
  | ModifyDiskAttribute => sdk_do (ecsClient client) "ModifyDiskAttribute"
  | ModifyDiskSpec => sdk_do (ecsClient client) "ModifyDiskSpec"
  | ReplaceSystemDisk => sdk_do (ecsClient client) "ReplaceSystemDisk"
  | ReInitDisk => sdk_do (ecsClient client) "ReInitDisk"
  | ResetDisk => sdk_do (ecsClient client) "ResetDisk"
  | ResizeDisk => sdk_do (ecsClient client) "ResizeDisk"
  | DetachDisk => sdk_do (ecsClient client) "DetachDisk"
  | DeleteDisk => sdk_do (ecsClient client) "DeleteDisk"
  end.

(** *** Region & Zone *)

Inductive RegionZoneMethod := DescribeRegions | DescribeZones.
#[export] Instance RegionZoneMethod_eq_dec : EqDecision RegionZoneMethod.
Proof. solve_decision. Defined.
Definition RegionZone_methods : list RegionZoneMethod :=
  [DescribeRegions; DescribeZones].
Definition RegionZone_name (m : RegionZoneMethod) : string :=
  match m with
  | DescribeRegions => "DescribeRegions"
  | DescribeZones => "DescribeZones"
  end.
Definition RegionZone_signature (m : RegionZoneMethod) : Service * string := (ECS, RegionZone_name m).
Definition RegionZone_call {W} `{!AlibabaSdk W} (client : alibabacloudClient W) (m : RegionZoneMethod)
    : SdkCall W (RegionZone_signature m) :=
  match m with
  | DescribeRegions => sdk_do (ecsClient client) "DescribeRegions"
  | DescribeZones => sdk_do (ecsClient client) "DescribeZones"
  end.

(** *** Images *)

Inductive ImagesMethod := DescribeImages.
#[export] Instance ImagesMethod_eq_dec : EqDecision ImagesMethod.
Proof. solve_decision. Defined.
Definition Images_methods : list ImagesMethod :=
  [DescribeImages].
Definition Images_name (m : ImagesMethod) : string :=
  match m with
  | DescribeImages => "DescribeImages"
  end.
Definition Images_signature (m : ImagesMethod) : Service * string := (ECS, Images_name m).
Definition Images_call {W} `{!AlibabaSdk W} (client : alibabacloudClient W) (m : ImagesMethod)
    : SdkCall W (Images_signature m) :=
  match m with
  | DescribeImages => sdk_do (ecsClient client) "DescribeImages"
  end.

(** *** SecurityGroup *)

Inductive SecurityGroupMethod := CreateSecurityGroup | AuthorizeSecurityGroup
  | AuthorizeSecurityGroupEgress | RevokeSecurityGroup | RevokeSecurityGroupEgress
  | JoinSecurityGroup | LeaveSecurityGroup | DescribeSecurityGroupAttribute
  | DescribeSecurityGroups | DescribeSecurityGroupReferences | ModifySecurityGroupAttribute
  | ModifySecurityGroupEgressRule | ModifySecurityGroupPolicy | ModifySecurityGroupRule
  | DeleteSecurityGroup.
#[export] Instance SecurityGroupMethod_eq_dec : EqDecision SecurityGroupMethod.
Proof. solve_decision. Defined.
Definition SecurityGroup_methods : list SecurityGroupMethod :=
  [CreateSecurityGroup; AuthorizeSecurityGroup; AuthorizeSecurityGroupEgress;
   RevokeSecurityGroup; RevokeSecurityGroupEgress; JoinSecurityGroup; LeaveSecurityGroup;
   DescribeSecurityGroupAttribute; DescribeSecurityGroups; DescribeSecurityGroupReferences;
   ModifySecurityGroupAttribute; ModifySecurityGroupEgressRule; ModifySecurityGroupPolicy;
   ModifySecurityGroupRule; DeleteSecurityGroup].
Definition SecurityGroup_name (m : SecurityGroupMethod) : string :=
  match m with
  | CreateSecurityGroup => "CreateSecurityGroup"
  | AuthorizeSecurityGroup => "AuthorizeSecurityGroup"
  | AuthorizeSecurityGroupEgress => "AuthorizeSecurityGroupEgress"
  | RevokeSecurityGroup => "RevokeSecurityGroup"
  | RevokeSecurityGroupEgress => "RevokeSecurityGroupEgress"
  | JoinSecurityGroup => "JoinSecurityGroup"
  | LeaveSecurityGroup => "LeaveSecurityGroup"
  | DescribeSecurityGroupAttribute => "DescribeSecurityGroupAttribute"
  | DescribeSecurityGroups => "DescribeSecurityGroups"
  | DescribeSecurityGroupReferences => "DescribeSecurityGroupReferences"
  | ModifySecurityGroupAttribute => "ModifySecurityGroupAttribute"
  | ModifySecurityGroupEgressRule => "ModifySecurityGroupEgressRule"
  | ModifySecurityGroupPolicy => "ModifySecurityGroupPolicy"
  | ModifySecurityGroupRule => "ModifySecurityGroupRule"
  | DeleteSecurityGroup => "DeleteSecurityGroup"
  end.
Definition SecurityGroup_signature (m : SecurityGroupMethod) : Service * string := (ECS, SecurityGroup_name m).
Definition SecurityGroup_call {W} `{!AlibabaSdk W} (client : alibabacloudClient W) (m : SecurityGroupMethod)
    : SdkCall W (SecurityGroup_signature m) :=
  match m with
  | CreateSecurityGroup => sdk_do (ecsClient client) "CreateSecurityGroup"
  | AuthorizeSecurityGroup => sdk_do (ecsClient client) "AuthorizeSecurityGroup"
  | AuthorizeSecurityGroupEgress => sdk_do (ecsClient client) "AuthorizeSecurityGroupEgress"
  | RevokeSecurityGroup => sdk_do (ecsClient client) "RevokeSecurityGroup"
  | RevokeSecurityGroupEgress => sdk_do (ecsClient client) "RevokeSecurityGroupEgress"
  | JoinSecurityGroup => sdk_do (ecsClient client) "JoinSecurityGroup"
  | LeaveSecurityGroup => sdk_do (ecsClient client) "LeaveSecurityGroup"
  | DescribeSecurityGroupAttribute => sdk_do (ecsClient client) "DescribeSecurityGroupAttribute"
  | DescribeSecurityGroups => sdk_do (ecsClient client) "DescribeSecurityGroups"
  | DescribeSecurityGroupReferences => sdk_do (ecsClient client) "DescribeSecurityGroupReferences"
  | ModifySecurityGroupAttribute => sdk_do (ecsClient client) "ModifySecurityGroupAttribute"
  | ModifySecurityGroupEgressRule => sdk_do (ecsClient client) "ModifySecurityGroupEgressRule"
  | ModifySecurityGroupPolicy => sdk_do (ecsClient client) "ModifySecurityGroupPolicy"
  | ModifySecurityGroupRule => sdk_do (ecsClient client) "ModifySecurityGroupRule"
  | DeleteSecurityGroup => sdk_do (ecsClient client) "DeleteSecurityGroup"
  end.

(** *** VPC *)

Inductive VpcMethod := CreateVpc | DeleteVpc | DescribeVpcs | CreateVSwitch | DeleteVSwitch
  | DescribeVSwitches.
#[export] Instance VpcMethod_eq_dec : EqDecision VpcMethod.
Proof. solve_decision. Defined.
Definition Vpc_methods : list VpcMethod :=
  [CreateVpc; DeleteVpc; DescribeVpcs; CreateVSwitch; DeleteVSwitch; DescribeVSwitches].
Definition Vpc_name (m : VpcMethod) : string :=
  match m with
  | CreateVpc => "CreateVpc"
  | DeleteVpc => "DeleteVpc"
  | DescribeVpcs => "DescribeVpcs"
  | CreateVSwitch => "CreateVSwitch"
  | DeleteVSwitch => "DeleteVSwitch"
  | DescribeVSwitches => "DescribeVSwitches"
  end.
Definition Vpc_signature (m : VpcMethod) : Service * string := (VPC, Vpc_name m).
Definition Vpc_call {W} `{!AlibabaSdk W} (client : alibabacloudClient W) (m : VpcMethod)
    : SdkCall W (Vpc_signature m) :=
  match m with
  | CreateVpc => sdk_do (vpcClient client) "CreateVpc"
  | DeleteVpc => sdk_do (vpcClient client) "DeleteVpc"
  | DescribeVpcs => sdk_do (vpcClient client) "DescribeVpcs"
  | CreateVSwitch => sdk_do (vpcClient client) "CreateVSwitch"
  | DeleteVSwitch => sdk_do (vpcClient client) "DeleteVSwitch"
  | DescribeVSwitches => sdk_do (vpcClient client) "DescribeVSwitches"
  end.

(** *** Natgateway *)

Inductive NatgatewayMethod := CreateNatGateway | DescribeNatGateways | DeleteNatGateway.
#[export] Instance NatgatewayMethod_eq_dec : EqDecision NatgatewayMethod.
Proof. solve_decision. Defined.
Definition Natgateway_methods : list NatgatewayMethod :=
  [CreateNatGateway; DescribeNatGateways; DeleteNatGateway].
Definition Natgateway_name (m : NatgatewayMethod) : string :=
  match m with
  | CreateNatGateway => "CreateNatGateway"
  | DescribeNatGateways => "DescribeNatGateways"
  | DeleteNatGateway => "DeleteNatGateway"
  end.
Definition Natgateway_signature (m : NatgatewayMethod) : Service * string := (VPC, Natgateway_name m).
Definition Natgateway_call {W} `{!AlibabaSdk W} (client : alibabacloudClient W) (m : NatgatewayMethod)
    : SdkCall W (Natgateway_signature m) :=
  match m with
  | CreateNatGateway => sdk_do (vpcClient client) "CreateNatGateway"
  | DescribeNatGateways => sdk_do (vpcClient client) "DescribeNatGateways"
  | DeleteNatGateway => sdk_do (vpcClient client) "DeleteNatGateway"
  end.

(** *** EIP *)

Inductive EipMethod := AllocateEipAddress | AssociateEipAddress | ModifyEipAddressAttribute
  | DescribeEipAddresses | UnassociateEipAddress | ReleaseEipAddress.
#[export] Instance EipMethod_eq_dec : EqDecision EipMethod.
Proof. solve_decision. Defined.
Definition Eip_methods : list EipMethod :=
  [AllocateEipAddress; AssociateEipAddress; ModifyEipAddressAttribute; DescribeEipAddresses;
   UnassociateEipAddress; ReleaseEipAddress].
Definition Eip_name (m : EipMethod) : string :=
  match m with
  | AllocateEipAddress => "AllocateEipAddress"
  | AssociateEipAddress => "AssociateEipAddress"
  | ModifyEipAddressAttribute => "ModifyEipAddressAttribute"
  | DescribeEipAddresses => "DescribeEipAddresses"
  | UnassociateEipAddress => "UnassociateEipAddress"
  | ReleaseEipAddress => "ReleaseEipAddress"
  end.
Definition Eip_signature (m : EipMethod) : Service * string := (VPC, Eip_name m).
Definition Eip_call {W} `{!AlibabaSdk W} (client : alibabacloudClient W) (m : EipMethod)
    : SdkCall W (Eip_signature m) :=
  match m with
  | AllocateEipAddress => sdk_do (vpcClient client) "AllocateEipAddress"
  | AssociateEipAddress => sdk_do (vpcClient client) "AssociateEipAddress"
  | ModifyEipAddressAttribute => sdk_do (vpcClient client) "ModifyEipAddressAttribute"
  | DescribeEipAddresses => sdk_do (vpcClient client) "DescribeEipAddresses"
  | UnassociateEipAddress => sdk_do (vpcClient client) "UnassociateEipAddress"
  | ReleaseEipAddress => sdk_do (vpcClient client) "ReleaseEipAddress"
  end.

(** *** SLB *)

Inductive SlbMethod := CreateLoadBalancer | DeleteLoadBalancer | DescribeLoadBalancers
  | CreateLoadBalancerTCPListener | SetLoadBalancerTCPListenerAttribute
  | DescribeLoadBalancerTCPListenerAttribute | CreateLoadBalancerUDPListener
  | SetLoadBalancerUDPListenerAttribute | DescribeLoadBalancerUDPListenerAttribute
  | CreateLoadBalancerHTTPListener | SetLoadBalancerHTTPListenerAttribute
  | DescribeLoadBalancerHTTPListenerAttribute | CreateLoadBalancerHTTPSListener
  | SetLoadBalancerHTTPSListenerAttribute | DescribeLoadBalancerHTTPSListenerAttribute
  | StartLoadBalancerListener | StopLoadBalancerListener | DeleteLoadBalancerListener
  | DescribeLoadBalancerListeners | AddBackendServers | RemoveBackendServers | SetBackendServers
  | DescribeHealthStatus | CreateVServerGroup | SetVServerGroupAttribute
  | AddVServerGroupBackendServers | RemoveVServerGroupBackendServers
  | ModifyVServerGroupBackendServers | DeleteVServerGroup | DescribeVServerGroups
  | DescribeVServerGroupAttribute.
#[export] Instance SlbMethod_eq_dec : EqDecision SlbMethod.
Proof. solve_decision. Defined.
Definition Slb_methods : list SlbMethod :=
  [CreateLoadBalancer; DeleteLoadBalancer; DescribeLoadBalancers; CreateLoadBalancerTCPListener;
   SetLoadBalancerTCPListenerAttribute; DescribeLoadBalancerTCPListenerAttribute;
   CreateLoadBalancerUDPListener; SetLoadBalancerUDPListenerAttribute;
   DescribeLoadBalancerUDPListenerAttribute; CreateLoadBalancerHTTPListener;
   SetLoadBalancerHTTPListenerAttribute; DescribeLoadBalancerHTTPListenerAttribute;
   CreateLoadBalancerHTTPSListener; SetLoadBalancerHTTPSListenerAttribute;
   DescribeLoadBalancerHTTPSListenerAttribute; StartLoadBalancerListener;
   StopLoadBalancerListener; DeleteLoadBalancerListener; DescribeLoadBalancerListeners;
   AddBackendServers; RemoveBackendServers; SetBackendServers; DescribeHealthStatus;
   CreateVServerGroup; SetVServerGroupAttribute; AddVServerGroupBackendServers;
   RemoveVServerGroupBackendServers; ModifyVServerGroupBackendServers; DeleteVServerGroup;
   DescribeVServerGroups; DescribeVServerGroupAttribute].
Definition Slb_name (m : SlbMethod) : string :=
  match m with
  | CreateLoadBalancer => "CreateLoadBalancer"
  | DeleteLoadBalancer => "DeleteLoadBalancer"
  | DescribeLoadBalancers => "DescribeLoadBalancers"
  | CreateLoadBalancerTCPListener => "CreateLoadBalancerTCPListener"
  | SetLoadBalancerTCPListenerAttribute => "SetLoadBalancerTCPListenerAttribute"
  | DescribeLoadBalancerTCPListenerAttribute => "DescribeLoadBalancerTCPListenerAttribute"
  | CreateLoadBalancerUDPListener => "CreateLoadBalancerUDPListener"
  | SetLoadBalancerUDPListenerAttribute => "SetLoadBalancerUDPListenerAttribute"
  | DescribeLoadBalancerUDPListenerAttribute => "DescribeLoadBalancerUDPListenerAttribute"
  | CreateLoadBalancerHTTPListener => "CreateLoadBalancerHTTPListener"
  | SetLoadBalancerHTTPListenerAttribute => "SetLoadBalancerHTTPListenerAttribute"
  | DescribeLoadBalancerHTTPListenerAttribute => "DescribeLoadBalancerHTTPListenerAttribute"
  | CreateLoadBalancerHTTPSListener => "CreateLoadBalancerHTTPSListener"
  | SetLoadBalancerHTTPSListenerAttribute => "SetLoadBalancerHTTPSListenerAttribute"
  | DescribeLoadBalancerHTTPSListenerAttribute => "DescribeLoadBalancerHTTPSListenerAttribute"
  | StartLoadBalancerListener => "StartLoadBalancerListener"
  | StopLoadBalancerListener => "StopLoadBalancerListener"
  | DeleteLoadBalancerListener => "DeleteLoadBalancerListener"
  | DescribeLoadBalancerListeners => "DescribeLoadBalancerListeners"
  | AddBackendServers => "AddBackendServers"
  | RemoveBackendServers => "RemoveBackendServers"
  | SetBackendServers => "SetBackendServers"
  | DescribeHealthStatus => "DescribeHealthStatus"
  | CreateVServerGroup => "CreateVServerGroup"
  | SetVServerGroupAttribute => "SetVServerGroupAttribute"
  | AddVServerGroupBackendServers => "AddVServerGroupBackendServers"
  | RemoveVServerGroupBackendServers => "RemoveVServerGroupBackendServers"
  | ModifyVServerGroupBackendServers => "ModifyVServerGroupBackendServers"
  | DeleteVServerGroup => "DeleteVServerGroup"
  | DescribeVServerGroups => "DescribeVServerGroups"
  | DescribeVServerGroupAttribute => "DescribeVServerGroupAttribute"
  end.
Definition Slb_signature (m : SlbMethod) : Service * string := (SLB, Slb_name m).
Definition Slb_call {W} `{!AlibabaSdk W} (client : alibabacloudClient W) (m : SlbMethod)
    : SdkCall W (Slb_signature m) :=
  match m with
  | CreateLoadBalancer => sdk_do (slbClient client) "CreateLoadBalancer"
  | DeleteLoadBalancer => sdk_do (slbClient client) "DeleteLoadBalancer"
  | DescribeLoadBalancers => sdk_do (slbClient client) "DescribeLoadBalancers"
  | CreateLoadBalancerTCPListener => sdk_do (slbClient client) "CreateLoadBalancerTCPListener"
  | SetLoadBalancerTCPListenerAttribute => sdk_do (slbClient client) "SetLoadBalancerTCPListenerAttribute"
  | DescribeLoadBalancerTCPListenerAttribute => sdk_do (slbClient client) "DescribeLoadBalancerTCPListenerAttribute"
  | CreateLoadBalancerUDPListener => sdk_do (slbClient client) "CreateLoadBalancerUDPListener"
  | SetLoadBalancerUDPListenerAttribute => sdk_do (slbClient client) "SetLoadBalancerUDPListenerAttribute"
  | DescribeLoadBalancerUDPListenerAttribute => sdk_do (slbClient client) "DescribeLoadBalancerUDPListenerAttribute"
  | CreateLoadBalancerHTTPListener => sdk_do (slbClient client) "CreateLoadBalancerHTTPListener"
  | SetLoadBalancerHTTPListenerAttribute => sdk_do (slbClient client) "SetLoadBalancerHTTPListenerAttribute"
  | DescribeLoadBalancerHTTPListenerAttribute => sdk_do (slbClient client) "DescribeLoadBalancerHTTPListenerAttribute"
  | CreateLoadBalancerHTTPSListener => sdk_do (slbClient client) "CreateLoadBalancerHTTPSListener"
  | SetLoadBalancerHTTPSListenerAttribute => sdk_do (slbClient client) "SetLoadBalancerHTTPSListenerAttribute"
  | DescribeLoadBalancerHTTPSListenerAttribute => sdk_do (slbClient client) "DescribeLoadBalancerHTTPSListenerAttribute"
  | StartLoadBalancerListener => sdk_do (slbClient client) "StartLoadBalancerListener"
  | StopLoadBalancerListener => sdk_do (slbClient client) "StopLoadBalancerListener"
  | DeleteLoadBalancerListener => sdk_do (slbClient client) "DeleteLoadBalancerListener"
  | DescribeLoadBalancerListeners => sdk_do (slbClient client) "DescribeLoadBalancerListeners"
  | AddBackendServers => sdk_do (slbClient client) "AddBackendServers"
  | RemoveBackendServers => sdk_do (slbClient client) "RemoveBackendServers"
  | SetBackendServers => sdk_do (slbClient client) "SetBackendServers"
  | DescribeHealthStatus => sdk_do (slbClient client) "DescribeHealthStatus"
  | CreateVServerGroup => sdk_do (slbClient client) "CreateVServerGroup"
  | SetVServerGroupAttribute => sdk_do (slbClient client) "SetVServerGroupAttribute"
  | AddVServerGroupBackendServers => sdk_do (slbClient client) "AddVServerGroupBackendServers"
  | RemoveVServerGroupBackendServers => sdk_do (slbClient client) "RemoveVServerGroupBackendServers"
  | ModifyVServerGroupBackendServers => sdk_do (slbClient client) "ModifyVServerGroupBackendServers"
  | DeleteVServerGroup => sdk_do (slbClient client) "DeleteVServerGroup"
  | DescribeVServerGroups => sdk_do (slbClient client) "DescribeVServerGroups"
  | DescribeVServerGroupAttribute => sdk_do (slbClient client) "DescribeVServerGroupAttribute"
  end.

(** *** ResourceGroups *)

Inductive ResourceGroupsMethod := ListResourceGroups.
#[export] Instance ResourceGroupsMethod_eq_dec : EqDecision ResourceGroupsMethod.
Proof. solve_decision. Defined.
Definition ResourceGroups_methods : list ResourceGroupsMethod :=
  [ListResourceGroups].
Definition ResourceGroups_name (m : ResourceGroupsMethod) : string :=
  match m with
  | ListResourceGroups => "ListResourceGroups"
  end.
Definition ResourceGroups_signature (m : ResourceGroupsMethod) : Service * string := (RM, ResourceGroups_name m).
Definition ResourceGroups_call {W} `{!AlibabaSdk W} (client : alibabacloudClient W) (m : ResourceGroupsMethod)
    : SdkCall W (ResourceGroups_signature m) :=
  match m with
  | ListResourceGroups => sdk_do (rmClient client) "ListResourceGroups"
  end.

(** ** The interface *)

Inductive Method :=
  | InEcs (m : EcsMethod)
  | InTags (m : TagsMethod)
  | InNetwork (m : NetworkMethod)
  | InDisk (m : DiskMethod)
  | InRegionZone (m : RegionZoneMethod)
  | InImages (m : ImagesMethod)
  | InSecurityGroup (m : SecurityGroupMethod)
  | InVpc (m : VpcMethod)
  | InNatgateway (m : NatgatewayMethod)
  | InEip (m : EipMethod)
  | InSlb (m : SlbMethod)
  | InResourceGroups (m : ResourceGroupsMethod).
#[export] Instance Method_eq_dec : EqDecision Method.
Proof. solve_decision. Defined.

Definition all_methods : list Method :=
  map InEcs Ecs_methods ++
  map InTags Tags_methods ++
  map InNetwork Network_methods ++
  map InDisk Disk_methods ++
  map InRegionZone RegionZone_methods ++
  map InImages Images_methods ++
  map InSecurityGroup SecurityGroup_methods ++
  map InVpc Vpc_methods ++
  map InNatgateway Natgateway_methods ++
  map InEip Eip_methods ++
  map InSlb Slb_methods ++
  map InResourceGroups ResourceGroups_methods.

Definition method_name (m : Method) : string :=
  match m with
  | InEcs m => Ecs_name m
  | InTags m => Tags_name m
  | InNetwork m => Network_name m
  | InDisk m => Disk_name m
  | InRegionZone m => RegionZone_name m
  | InImages m => Images_name m
  | InSecurityGroup m => SecurityGroup_name m
  | InVpc m => Vpc_name m
  | InNatgateway m => Natgateway_name m
  | InEip m => Eip_name m
  | InSlb m => Slb_name m
  | InResourceGroups m => ResourceGroups_name m
  end.

Definition method_signature (m : Method) : Service * string :=
  match m with
  | InEcs m => Ecs_signature m
  | InTags m => Tags_signature m
  | InNetwork m => Network_signature m
  | InDisk m => Disk_signature m
  | InRegionZone m => RegionZone_signature m
  | InImages m => Images_signature m
  | InSecurityGroup m => SecurityGroup_signature m
  | InVpc m => Vpc_signature m
  | InNatgateway m => Natgateway_signature m
  | InEip m => Eip_signature m
  | InSlb m => Slb_signature m
  | InResourceGroups m => ResourceGroups_signature m
  end.

Definition MethodCall (W : Type) `{!AlibabaSdk W} (m : Method) : Type := SdkCall W (method_signature m).

(** The [Client] interface: both halves. *)
Record FullClient (W : Type) `{!AlibabaSdk W} := mkFullClient {
  fc_capi : Client W;
  fc_call : forall m, MethodCall W m;
}.
#[global] Arguments mkFullClient {W _}.
#[global] Arguments fc_capi {W _}.
#[global] Arguments fc_call {W _}.

Definition alibabacloudClient_call {W} `{!AlibabaSdk W} (client : alibabacloudClient W) (m : Method)
    : MethodCall W m :=
  match m with
  | InEcs m => Ecs_call client m
  | InTags m => Tags_call client m
  | InNetwork m => Network_call client m
  | InDisk m => Disk_call client m
  | InRegionZone m => RegionZone_call client m
  | InImages m => Images_call client m
  | InSecurityGroup m => SecurityGroup_call client m
  | InVpc m => Vpc_call client m
  | InNatgateway m => Natgateway_call client m
  | InEip m => Eip_call client m
  | InSlb m => Slb_call client m
  | InResourceGroups m => ResourceGroups_call client m
  end.

(** ** Theorems *)

Lemma all_methods_complete m : m ∈ all_methods.
Proof. apply (bool_decide_unpack _). by destruct m as [[]|[]|[]|[]|[]|[]|[]|[]|[]|[]|[]|[]]. Qed.

Lemma all_methods_count : NoDup all_methods /\ length all_methods = 100%nat.
Proof. split; [|done]. apply (bool_decide_unpack _). by vm_compute. Qed.

(** Go writes an initialism in capitals where the SDK does not. *)
Definition lower (c : ascii) : ascii :=
  let n := nat_of_ascii c in
  if decide (65 <= n <= 90)%nat then ascii_of_nat (n + 32) else c.
Fixpoint lower_case (s : string) : string :=
  match s with
  | EmptyString => EmptyString
  | String c s => String (lower c) (lower_case s)
  end.

Lemma signatures_distinct : NoDup (map method_signature all_methods).
Proof. apply (bool_decide_unpack _). by vm_compute. Qed.

Lemma method_signature_inj m m' : method_signature m = method_signature m' -> m = m'.
Proof.
  intros E. destruct (list_elem_of_lookup_1 _ _ (all_methods_complete m)) as [i Hi].
  destruct (list_elem_of_lookup_1 _ _ (all_methods_complete m')) as [j Hj].
  assert (i = j) as <-; [|congruence].
  apply (NoDup_lookup _ _ _ (method_signature m) signatures_distinct).
  - by rewrite list_lookup_fmap, Hi.
  - by rewrite list_lookup_fmap, Hj, E.
Qed.

(** The tables agree: the SDK's method has the name of the interface's, up to
    the case of its initialisms, and no two methods of the interface are served
    by the same one.  That a method calls no other than its own is in the types
    ([SdkCall]), as it is in Go's. *)
Lemma signatures_match m :
  lower_case (method_signature m).2 = lower_case (method_name m) /\
  forall m', method_signature m' = method_signature m -> m' = m.
Proof.
  split; [by destruct m as [[]|[]|[]|[]|[]|[]|[]|[]|[]|[]|[]|[]]|].
  intros m1. apply method_signature_inj.
Qed.
