(* ===== verification/Metrics.v ===== *)
(** * Metrics

    [pkg/metrics/metrics.go]: the Prometheus counters, as the counts they hold.
    The latency histogram is kept as its number of observations per operation;
    the observed seconds are wall-clock time and are not modelled.  Registering
    the collectors with the metrics endpoint is not modelled. *)

From S2P Require Import Api.

Definition ResultSuccess : string := "success".
Definition ResultError : string := "error".

Record Metrics := mkMetrics {
  CloudAPIRequests : gmap (string * string) nat;      (* operation, result *)
  CloudAPIRequestDuration : gmap string nat;          (* operation *)
  CloudAPIThrottleRetries : gmap string nat;          (* operation *)
  InstanceOps : gmap (string * string) nat;           (* action, result *)
}.
#[export] Instance eta_Metrics : Eta Metrics := fun m =>
  mkMetrics (CloudAPIRequests m) (CloudAPIRequestDuration m) (CloudAPIThrottleRetries m)
    (InstanceOps m).

(** [counter.WithLabelValues(labels).Inc()] *)
Definition inc `{Countable K} (k : K) (m : gmap K nat) : gmap K nat :=
  <[k := S (default O (m !! k))]> m.

(** The value of a counter; a label never incremented reads 0. *)
Definition count `{Countable K} (k : K) (m : gmap K nat) : nat := default O (m !! k).

Definition result_label (err : option error) : string :=
  match err with None => ResultSuccess | Some _ => ResultError end.

Definition ObserveCloudAPI (operation : string) (err : option error) (m : Metrics) : Metrics :=
  m <| CloudAPIRequestDuration ::= inc operation |>
    <| CloudAPIRequests ::= inc (operation, result_label err) |>.

Definition ObserveThrottleRetry (operation : string) (m : Metrics) : Metrics :=
  m <| CloudAPIThrottleRetries ::= inc operation |>.

Definition ObserveInstanceOp (action : string) (err : option error) (m : Metrics) : Metrics :=
  m <| InstanceOps ::= inc (action, result_label err) |>.

Lemma count_inc `{Countable K} (k j : K) m :
  count j (inc k m) = ((if decide (k = j) then 1 else 0) + count j m)%nat.
Proof.
  unfold count, inc. destruct (decide (k = j)) as [->|Hne].
  - by rewrite lookup_insert_eq.
  - by rewrite lookup_insert_ne.
Qed.

Lemma count_inc_eq `{Countable K} (k : K) m : count k (inc k m) = S (count k m).
Proof. by rewrite count_inc, decide_True. Qed.

Lemma count_inc_ne `{Countable K} (k j : K) m : k <> j -> count j (inc k m) = count j m.
Proof. intros. by rewrite count_inc, decide_False. Qed.

(** All requests counted for an operation, whatever their result. *)
Definition requests (op : string) (m : Metrics) : nat :=
  (count (op, ResultSuccess) (CloudAPIRequests m) + count (op, ResultError) (CloudAPIRequests m))%nat.

Lemma requests_ObserveCloudAPI op err m :
  requests op (ObserveCloudAPI op err m) = S (requests op m).
Proof.
  unfold requests, ObserveCloudAPI. destruct err; cbn [CloudAPIRequests update result_label].
  all: rewrite !count_inc.
  all: repeat (destruct (decide _); simplify_eq); try lia; done.
Qed.
