(* ===== verification/Retry.v ===== *)
(** * Throttle retries

    [pkg/client/retry.go]: which SDK errors are throttling errors, and the
    retry loop with capped exponential backoff and jitter that every cloud call
    goes through.  Durations are 64-bit nanosecond counts, so the doubling and
    the jitter are computed modulo 2^64; the bounds below say they never wrap.

    The loop is [for attempt := 0; ; attempt++]; the model runs it on
    [throttleMaxRetries + 1] units of fuel, the number of calls it can make. *)

From S2P Require Import Api Metrics.

Open Scope Z_scope.

(** ** 64-bit arithmetic *)

(** An [int64] result: two's complement wrap-around. *)
Definition i64 (x : Z) : Z := (x + 2 ^ 63) `mod` 2 ^ 64 - 2 ^ 63.

Lemma i64_small x : - 2 ^ 63 <= x < 2 ^ 63 -> i64 x = x.
Proof. intros. unfold i64. rewrite Z.mod_small by lia. lia. Qed.

Lemma i64_range x : - 2 ^ 63 <= i64 x < 2 ^ 63.
Proof. unfold i64. pose proof (Z.mod_pos_bound (x + 2 ^ 63) (2 ^ 64) ltac:(lia)). lia. Qed.

Lemma i64_congr x : exists k, i64 x = x + k * 2 ^ 64.
Proof.
  exists (- ((x + 2 ^ 63) / 2 ^ 64)). unfold i64.
  pose proof (Z.div_mod (x + 2 ^ 63) (2 ^ 64) ltac:(lia)). lia.
Qed.

(** ** The state of a client

    The world behind the SDK, the process's metrics, and the sleeps made so
    far (latest first). *)
Record ClientState (W : Type) := mkClientState {
  cs_world : W;
  cs_metrics : Metrics;
  cs_sleeps : list Z;
}.
#[global] Arguments mkClientState {W}.
#[global] Arguments cs_world {W}.
#[global] Arguments cs_metrics {W}.
#[global] Arguments cs_sleeps {W}.
#[export] Instance eta_ClientState W : Eta (ClientState W) := fun s =>
  mkClientState (cs_world s) (cs_metrics s) (cs_sleeps s).

(** A call on the world. *)
Definition on_world {W A} (m : M W A) : M (ClientState W) A := fun s =>
  let '(r, w') := m (cs_world s) in (r, mkClientState w' (cs_metrics s) (cs_sleeps s)).

Definition observe {W} (f : Metrics -> Metrics) : M (ClientState W) () :=
  modify (fun s => mkClientState (cs_world s) (f (cs_metrics s)) (cs_sleeps s)).

Definition throttleSleep {W} (d : Z) : M (ClientState W) () :=
  modify (fun s => mkClientState (cs_world s) (cs_metrics s) (d :: cs_sleeps s)).

(** [rand.Int63n(n)]: panics unless [n > 0], else some number below [n]. *)
Class GoRand (W : Type) := Int63n : Z -> M W Z.

Class GoRandLaws (W : Type) `{GoRand W} : Prop := {
  Int63n_pos n w : 0 < n -> exists k w', Int63n n w = (Ok k, w') /\ 0 <= k < n;
}.

(** ** Tunables *)

Record RetryTunables := mkRetryTunables {
  throttleMaxRetries : nat;
  throttleBaseDelay : Z;
  throttleMaxDelay : Z;
}.

Definition Millisecond : Z := 1000000.

(** The values the package variables are initialised to. *)
Definition defaultRetryTunables : RetryTunables :=
  mkRetryTunables 5 (200 * Millisecond) (5 * Second).

(** ** Operations *)

Definition throttlingCodes : list string :=
  ["ServiceUnavailable"; "RequestThrottled"; "RequestLimitExceeded"].

Definition isThrottlingError (err : error) : bool :=
  match as_server_error err with
  | Some (hs, code) =>
      Contains code "Throttling" ||
      bool_decide (code ∈ throttlingCodes) ||
      bool_decide (hs = 429 \/ hs = 503)
  | None => false
  end.

Section retry.
Context {W : Type} `{!GoRand W} (tn : RetryTunables).

Fixpoint retry_loop {A} (op : string) (fn : M W A) (fuel : nat) (attempt : nat) (delay : Z)
    : M (ClientState W) A :=
  match fuel with
  | O => panic "retry_loop: out of fuel"
  | S fuel' =>
      r ← try (on_world fn);
      match r with
      | inr a => observe (ObserveCloudAPI op None) ;; mret a
      | inl err =>
          if negb (isThrottlingError err) then
            observe (ObserveCloudAPI op (Some err)) ;; throw err
          else if decide (throttleMaxRetries tn <= attempt)%nat then
            observe (ObserveCloudAPI op (Some err)) ;; throw err
          else
            observe (ObserveThrottleRetry op) ;;
            jitter ← on_world (Int63n (i64 (i64 (Z.quot delay 2) + 1)));
            let sleep := i64 (delay + jitter) in
            let sleep := if decide (throttleMaxDelay tn < sleep) then throttleMaxDelay tn
                         else sleep in
            throttleSleep sleep ;;
            let delay' := i64 (delay * 2) in
            let delay' := if decide (throttleMaxDelay tn < delay') then throttleMaxDelay tn
                          else delay' in
            retry_loop op fn fuel' (S attempt) delay'
      end
  end.

Definition retryThrottled_with {A} (op : string) (fn : M W A) : M (ClientState W) A :=
  retry_loop op fn (S (throttleMaxRetries tn)) 0 (throttleBaseDelay tn).
End retry.

Definition retryThrottled {W} `{!GoRand W} {A} (op : string) (fn : M W A)
    : M (ClientState W) A :=
  retryThrottled_with defaultRetryTunables op fn.

(** ** Lemmas *)

Lemma wp_on_world {W A} (m : M W A) (s : ClientState W) Q :
  wp m (cs_world s) (fun r w' => Q r (mkClientState w' (cs_metrics s) (cs_sleeps s))) ->
  wp (on_world m) s Q.
Proof. unfold wp, on_world. by destruct (m (cs_world s)). Qed.

Lemma wp_observe {W} f (s : ClientState W) (Q : result () -> ClientState W -> Prop) :
  Q (Ok ()) (mkClientState (cs_world s) (f (cs_metrics s)) (cs_sleeps s)) -> wp (observe f) s Q.
Proof. done. Qed.

Lemma wp_throttleSleep {W} d (s : ClientState W) (Q : result () -> ClientState W -> Prop) :
  Q (Ok ()) (mkClientState (cs_world s) (cs_metrics s) (d :: cs_sleeps s)) ->
  wp (throttleSleep d) s Q.
Proof. done. Qed.

(** The tunables of the program, and those the tests use, are well formed: a
    positive base delay no larger than the cap, and a cap that can be doubled. *)
Definition tunables_ok (tn : RetryTunables) : Prop :=
  0 < throttleBaseDelay tn <= throttleMaxDelay tn /\ throttleMaxDelay tn < 2 ^ 61.

Lemma default_tunables_ok : tunables_ok defaultRetryTunables.
Proof. by repeat split. Qed.

(** The delay stays between the base and the cap, the jitter's argument is
    positive, and nothing wraps. *)
Lemma delay_arith tn delay :
  tunables_ok tn -> throttleBaseDelay tn <= delay <= throttleMaxDelay tn ->
  i64 (i64 (Z.quot delay 2) + 1) = Z.quot delay 2 + 1 /\ 0 < Z.quot delay 2 + 1 /\
  i64 (delay * 2) = delay * 2 /\
  (forall j, 0 <= j < Z.quot delay 2 + 1 -> i64 (delay + j) = delay + j).
Proof.
  intros [[Hb Hm] Hc] [Hl Hu].
  assert (0 <= Z.quot delay 2 <= delay) by (rewrite Z.quot_div_nonneg by lia; split;
    [apply Z.div_pos; lia|apply Z.div_le_upper_bound; lia]).
  split_and!; [|lia| |].
  - rewrite (i64_small (Z.quot delay 2)) by lia. rewrite i64_small; lia.
  - rewrite i64_small; lia.
  - intros j Hj. rewrite i64_small; lia.
Qed.

(** ** The loop invariant

    Everything the callers and the theorems below need to know of a run of the
    loop, proved once by induction on the fuel.  [I] is an invariant of the world that
    throttled requests and the random source preserve. *)

(** A throttled request leaves [I] alone: it was refused.  What a request that
    was not throttled does is up to it. *)
Definition throttled_keeps {W A} (I : W -> Prop) (fn : M W A) : Prop :=
  forall w e w', I w -> fn w = (Err e, w') -> isThrottlingError e = true -> I w'.

Lemma throttled_keeps_keeps {W A} (I : W -> Prop) (fn : M W A) : keeps I fn -> throttled_keeps I fn.
Proof. intros Hk w e w' HI E _. specialize (Hk w HI). by rewrite E in Hk. Qed.

Section loop.
Context {W : Type} `{!GoRand W} `{!GoRandLaws W} (tn : RetryTunables) (Htn : tunables_ok tn).
Context {A : Type} (op : string) (fn : M W A).
Context (I : W -> Prop) (I_fn : throttled_keeps I fn)
        (I_rand : forall n w, I w -> I (Int63n n w).2).

(** A counter that every call to [fn] increments and nothing else changes. *)
Definition counts_calls (calls : W -> nat) : Prop :=
  (forall w, calls (fn w).2 = S (calls w)) /\ (forall n w, calls (Int63n n w).2 = calls w).

(** What one run of [n] calls did. *)
Record ran (budget : nat) (s : ClientState W) (r : result A) (s' : ClientState W) (n : nat)
    : Prop := {
  ran_calls calls : counts_calls calls -> calls (cs_world s') = (n + calls (cs_world s))%nat;
  ran_bounds : (1 <= n <= budget)%nat;
  ran_last : exists w, I w /\ fn w = (r, cs_world s');
  ran_sleeps : exists new, cs_sleeps s' = new ++ cs_sleeps s /\ S (length new) = n /\
                 Forall (fun d => 0 < d <= throttleMaxDelay tn) new;
  ran_exhausted e : r = Err e -> isThrottlingError e = true -> n = budget;
  ran_requests : (forall p, r <> Panic p) ->
                 requests op (cs_metrics s') = S (requests op (cs_metrics s));
  ran_retries : (forall p, r <> Panic p) ->
                S (count op (CloudAPIThrottleRetries (cs_metrics s'))) =
                (n + count op (CloudAPIThrottleRetries (cs_metrics s)))%nat;
}.

Lemma ran_stop budget s r w' met' :
  I (cs_world s) -> fn (cs_world s) = (r, w') -> (1 <= budget)%nat ->
  (forall e, r = Err e -> isThrottlingError e = true -> budget = 1%nat) ->
  ((forall p, r <> Panic p) -> exists err, met' = ObserveCloudAPI op err (cs_metrics s)) ->
  ran budget s r (mkClientState w' met' (cs_sleeps s)) 1.
Proof.
  intros HI Hfn Hb Hex Hmet. split; cbn.
  - intros calls [Hc _]. specialize (Hc (cs_world s)). by rewrite Hfn in Hc.
  - lia.
  - eauto.
  - exists []. split_and!; [done|done|constructor].
  - intros e He Ht. by rewrite (Hex e).
  - intros Hp. destruct (Hmet Hp) as [err ->]. apply requests_ObserveCloudAPI.
  - intros Hp. by destruct (Hmet Hp) as [err ->].
Qed.

Lemma ran_step budget s w1 d e r s' n :
  fn (cs_world s) = (Err e, w1) -> 0 < d <= throttleMaxDelay tn ->
  forall w2, (exists k x, Int63n k w1 = (x, w2)) ->
  ran budget (mkClientState w2 (ObserveThrottleRetry op (cs_metrics s)) (d :: cs_sleeps s)) r s' n ->
  ran (S budget) s r s' (S n).
Proof.
  intros Hfn Hd w2 (k & x & Hw2) [C B L Sl Ex Rq Rt]. cbn in *.
  split; cbn; try done.
  - intros calls Hcc. rewrite (C calls Hcc). destruct Hcc as [Hc Hr].
    specialize (Hc (cs_world s)). specialize (Hr k w1).
    rewrite Hfn in Hc. rewrite Hw2 in Hr. cbn in Hc, Hr. lia.
  - lia.
  - destruct Sl as (new & -> & Hn & HF). exists (new ++ [d]).
    split_and!; [by rewrite <- app_assoc|rewrite length_app; cbn; lia|].
    apply Forall_app. split; [done|by constructor].
  - intros e' He' Ht'. by rewrite (Ex e').
  - intros Hp. rewrite (Rt Hp), count_inc_eq. lia.
Qed.

Lemma retry_loop_ran fuel : forall attempt delay s,
  (1 <= fuel)%nat -> (fuel + attempt = S (throttleMaxRetries tn))%nat ->
  throttleBaseDelay tn <= delay <= throttleMaxDelay tn -> I (cs_world s) ->
  wp (retry_loop tn op fn fuel attempt delay) s (fun r s' => exists n, ran fuel s r s' n).
Proof.
  induction fuel as [|fuel IH]; intros attempt delay s Hf Hfa Hd HI; [lia|].
  cbn [retry_loop]. apply wp_bind, wp_try, wp_on_world.
  destruct (fn (cs_world s)) as [r w1] eqn:Hfn. eapply wp_run; [exact Hfn|].
  destruct r as [a|err|p].
  - apply wp_bind, wp_observe, wp_ret. exists 1%nat. cbn.
    apply ran_stop; eauto with lia. done.
  - destruct (isThrottlingError err) eqn:Ht; cbn [negb].
    2: { apply wp_bind, wp_observe, wp_throw. exists 1%nat. cbn.
         apply ran_stop; eauto with lia. intros ? [= <-]. congruence. }
    destruct (decide (throttleMaxRetries tn <= attempt)%nat) as [Hex|Hex].
    { apply wp_bind, wp_observe, wp_throw. exists 1%nat. cbn. apply ran_stop; eauto with lia. }
    pose proof (I_fn _ _ _ HI Hfn Ht) as HI1.
    destruct (delay_arith tn delay Htn Hd) as (-> & Hpos & Hdbl & Hjit).
    apply wp_bind, wp_observe, wp_bind, wp_on_world.
    destruct (Int63n_pos _ w1 Hpos) as (j & w2 & Hrand & Hj).
    pose proof (I_rand (Z.quot delay 2 + 1) _ HI1) as HI2.
    rewrite Hrand in HI2. cbn in HI2. eapply wp_run; [exact Hrand|].
    apply wp_bind, wp_throttleSleep. rewrite Hdbl, Hjit by lia. cbn [cs_world cs_metrics cs_sleeps].
    eapply wp_mono.
    { apply IH; [lia|lia| |done]. destruct Htn as [? ?]. destruct (decide _); lia. }
    intros r s' [n Hn]. exists (S n). eapply ran_step; [done| |eauto|exact Hn].
    destruct Htn as [? ?]. destruct (decide _); lia.
  - exists 1%nat. apply ran_stop; eauto with lia; [done|]. intros Hp. by destruct (Hp p).
Qed.

Lemma retryThrottled_ran s : I (cs_world s) ->
  wp (retryThrottled_with tn op fn) s
    (fun r s' => exists n, ran (S (throttleMaxRetries tn)) s r s' n).
Proof.
  intros HI. apply retry_loop_ran; [lia|lia| |done]. destruct Htn. lia.
Qed.
End loop.

(** ** Invariance *)

(** A property of the world, of a client state. *)
Definition of_world {W} (I : W -> Prop) (s : ClientState W) : Prop := I (cs_world s).

Class RandKeeps {W} `{!GoRand W} (I : W -> Prop) : Prop := keep_Int63n n : keeps I (Int63n n).

Section keeps.
Context {W : Type} `{!GoRand W} (I : W -> Prop).

Lemma keeps_on_world {A} (m : M W A) : keeps I m -> keeps (of_world I) (on_world m).
Proof. intros Hm s Hs. unfold on_world. specialize (Hm _ Hs). by destruct (m (cs_world s)). Qed.

Lemma keeps_observe f : keeps (of_world I) (observe f).
Proof. by intros s. Qed.

Lemma keeps_throttleSleep d : keeps (of_world I) (throttleSleep d).
Proof. by intros s. Qed.
#[local] Hint Resolve keeps_on_world keeps_observe keeps_throttleSleep keep_Int63n : keeps.

Lemma keeps_retry_loop `{!RandKeeps I} tn {A} op (fn : M W A) fuel : keeps I fn ->
  forall attempt delay, keeps (of_world I) (retry_loop tn op fn fuel attempt delay).
Proof.
  intros Hfn. induction fuel as [|fuel IH]; intros attempt delay; cbn [retry_loop];
    [apply keeps_panic|].
  keeps_tac; apply IH.
Qed.

Lemma keeps_retryThrottled `{!RandKeeps I} {A} op (fn : M W A) :
  keeps I fn -> keeps (of_world I) (retryThrottled op fn).
Proof. intros. by apply keeps_retry_loop. Qed.
End keeps.
#[export] Hint Resolve keeps_on_world keeps_observe keeps_throttleSleep : keeps.
#[export] Hint Extern 2 (keeps (of_world ?I) (retryThrottled ?op ?fn)) =>
  apply (keeps_retryThrottled I op fn) : keeps.

(** What a retried call returned, its last request returned, in a world that
    satisfies every invariant of the request and of the random source. *)
Lemma retryThrottled_last {W} `{!GoRand W} `{!GoRandLaws W} (I : W -> Prop) `{!RandKeeps I}
    {A} op (fn : M W A) s r s' :
  throttled_keeps I fn -> I (cs_world s) -> retryThrottled op fn s = (r, s') ->
  exists w, I w /\ fn w = (r, cs_world s').
Proof.
  intros Hfn HI Hr.
  pose proof (retryThrottled_ran defaultRetryTunables default_tunables_ok op fn I Hfn
                keep_Int63n s HI) as Hw.
  apply (wp_elim _ _ _ _ _ Hw) in Hr as (n & [_ _ L _ _ _ _]). done.
Qed.

(** A retried call, by a property that its throttled requests and the random
    source keep, for worlds whose random source may panic. *)
Lemma wp_retryThrottled {W} `{!GoRand W} (I : W -> Prop) {A} (Q : result A -> W -> Prop)
    op (fn : M W A) s :
  (forall w, I w -> wp fn w (fun r w' => Q r w' /\
     forall e, r = Err e -> isThrottlingError e = true -> I w')) ->
  (forall n w, I w -> I (Int63n n w).2) ->
  (forall w p, I w -> Q (Panic p) w) -> (forall w e, I w -> Q (Err e) w) ->
  I (cs_world s) -> wp (retryThrottled op fn) s (fun r s' => Q r (cs_world s')).
Proof.
  intros Hfn Hrand Hp He. unfold retryThrottled, retryThrottled_with.
  generalize (throttleBaseDelay defaultRetryTunables) as delay.
  generalize O as attempt. revert s.
  generalize (S (throttleMaxRetries defaultRetryTunables)) as fuel.
  induction fuel as [|fuel IH]; intros s attempt delay HI; cbn [retry_loop]; [by apply wp_panic, Hp|].
  apply wp_bind, wp_try, wp_on_world. eapply wp_mono; [by apply Hfn|]. intros [a|e|p] w' [HQ HI'].
  - by apply wp_bind, wp_observe, wp_ret.
  - destruct (isThrottlingError e) eqn:Ht; cbn [negb]; [|by apply wp_bind, wp_observe, wp_throw].
    specialize (HI' e eq_refl Ht). case_decide; [by apply wp_bind, wp_observe, wp_throw|].
    apply wp_bind, wp_observe, wp_bind, wp_on_world. cbn [cs_world].
    lazymatch goal with |- wp (Int63n ?k) ?w0 _ => pose proof (Hrand k w0 HI') as HI2 end.
    wp_call as [j|e'|p'] w2 eqn E; cbn in HI2; [|by apply He|by apply Hp].
    by apply wp_bind, wp_throttleSleep, IH.
  - done.
Qed.

(** A request that never panics does not make the loop panic. *)
Lemma retryThrottled_no_panic {W} `{!GoRand W} `{!GoRandLaws W} {A} op (fn : M W A) s p :
  (forall w p', (fn w).1 <> Panic p') -> (retryThrottled op fn s).1 <> Panic p.
Proof.
  intros Hp. destruct (retryThrottled op fn s) as [r s'] eqn:Hr. cbn. intros ->.
  assert (RandKeeps (fun _ : W => True)) by by intros ? ? ?.
  destruct (retryThrottled_last (fun _ => True) op fn s (Panic p) s' ltac:(by intros ? ?) I Hr)
    as (w & _ & E).
  specialize (Hp w p). by rewrite E in Hp.
Qed.

(** ** Theorems *)

Section theorems.
Context {W : Type} `{!GoRand W} {A : Type} (op : string) (fn : M W A).

(** C13. A cloud call made through [retryThrottled] makes between one and six
    requests; it returns what its last request returned, it returns a
    throttling error only after all six, and it sleeps once before every
    request but the first, each time for more than zero and at most five
    seconds.  The loop needs no more fuel than it is given: the only panic it
    can end in is one of the request itself. *)
Theorem retryThrottled_bounded `{!GoRandLaws W} calls s r s' :
  counts_calls fn calls ->
  retryThrottled op fn s = (r, s') ->
  exists n new,
    (1 <= n <= 6)%nat /\ calls (cs_world s') = (n + calls (cs_world s))%nat /\
    (exists w, fn w = (r, cs_world s')) /\
    (forall e, r = Err e -> isThrottlingError e = true -> n = 6%nat) /\
    cs_sleeps s' = new ++ cs_sleeps s /\ S (length new) = n /\
    Forall (fun d => 0 < d <= 5 * Second) new.
Proof.
  intros Hc Hr.
  pose proof (retryThrottled_ran defaultRetryTunables default_tunables_ok op fn
                (fun _ => True) ltac:(done) ltac:(done) s ltac:(done)) as Hw.
  apply (wp_elim _ _ _ _ _ Hw) in Hr as (n & [C B (w & _ & L) (new & ? & ? & ?) Ex _ _]).
  cbn in B, Ex. exists n, new. split_and!; eauto; lia.
Qed.

(** A success or an error that is not a throttling error is returned at
    once: one request, no sleep, and one request counted with its result. *)
Theorem retryThrottled_immediate s r w' :
  fn (cs_world s) = (r, w') ->
  match r with Ok _ => True | Err e => isThrottlingError e = false | Panic _ => False end ->
  retryThrottled op fn s =
    (r, mkClientState w'
          (ObserveCloudAPI op (match r with Err e => Some e | _ => None end) (cs_metrics s))
          (cs_sleeps s)).
Proof.
  intros Hfn Hr. unfold retryThrottled, retryThrottled_with. cbn [retry_loop].
  unfold mbind, M_bind, try, on_world. rewrite Hfn.
  destruct r as [a|e|]; [done| |done]. by rewrite Hr.
Qed.

(** Every call that returns is counted once in the request counter, under
    its operation, and once in the retry counter for each request it
    repeated. *)
Theorem retryThrottled_metrics `{!GoRandLaws W} calls s r s' :
  counts_calls fn calls ->
  retryThrottled op fn s = (r, s') -> (forall p, r <> Panic p) ->
  requests op (cs_metrics s') = S (requests op (cs_metrics s)) /\
  (count op (CloudAPIThrottleRetries (cs_metrics s')) + calls (cs_world s) + 1 =
   count op (CloudAPIThrottleRetries (cs_metrics s)) + calls (cs_world s'))%nat.
Proof.
  intros Hc Hr Hp.
  pose proof (retryThrottled_ran defaultRetryTunables default_tunables_ok op fn
                (fun _ => True) ltac:(done) ltac:(done) s ltac:(done)) as Hw.
  apply (wp_elim _ _ _ _ _ Hw) in Hr as (n & [C B _ _ _ Rq Rt]).
  specialize (C _ Hc). specialize (Rt Hp). specialize (Rq Hp). lia.
Qed.
End theorems.

(** ** A concrete run

    A world that counts requests; [flaky k] answers its first [k] requests with
    a throttling error and the later ones with their number. *)

Definition countingRand : GoRand nat := fun n w => (Ok (n - 1), w).

Lemma countingRand_laws : @GoRandLaws nat countingRand.
Proof. split. intros n w Hn. exists (n - 1), w. split; [done|lia]. Qed.

Definition flaky (k : nat) : M nat nat := fun w =>
  if decide (w < k)%nat then (Err (ServerError 400 "Throttling.User" "throttled"), S w)
  else (Ok w, S w).

Lemma flaky_counts k : @counts_calls nat countingRand nat (flaky k) id.
Proof. split; [|done]. intros w. unfold flaky. by destruct (decide _). Qed.

Definition emptyMetrics : Metrics := mkMetrics ∅ ∅ ∅ ∅.
Definition freshClient {W} (w : W) : ClientState W := mkClientState w emptyMetrics [].

Lemma retryThrottled_bounded_witness :
  exists n new,
    (1 <= n <= 6)%nat /\
    cs_sleeps (@retryThrottled nat countingRand nat "RunInstances" (flaky 2) (freshClient 0%nat)).2
      = new ++ [] /\ S (length new) = n.
Proof.
  destruct (@retryThrottled nat countingRand nat "RunInstances" (flaky 2) (freshClient 0%nat))
    as [r s'] eqn:E.
  destruct (@retryThrottled_bounded nat countingRand nat "RunInstances" (flaky 2) countingRand_laws
    id (freshClient 0%nat) r s' (flaky_counts 2) E) as (n & new & ? & _ & _ & _ & ? & ? & _).
  exists n, new. done.
Defined.

Lemma retryThrottled_immediate_witness :
  (@retryThrottled nat countingRand nat "RunInstances" (flaky 0) (freshClient 0%nat)).1 = Ok 0%nat.
Proof.
  rewrite (@retryThrottled_immediate nat countingRand nat "RunInstances" (flaky 0)
    (freshClient 0%nat) (Ok 0%nat) 1%nat eq_refl I). reflexivity.
Defined.

Lemma retryThrottled_metrics_witness :
  requests "RunInstances"
    (cs_metrics (@retryThrottled nat countingRand nat "RunInstances" (flaky 9)
                   (freshClient 0%nat)).2) = 1%nat.
Proof.
  destruct (@retryThrottled nat countingRand nat "RunInstances" (flaky 9) (freshClient 0%nat))
    as [r s'] eqn:E.
  refine (proj1 (@retryThrottled_metrics nat countingRand nat "RunInstances" (flaky 9)
    countingRand_laws id (freshClient 0%nat) r s' (flaky_counts 9) E _)).
  intros p ->. apply (f_equal fst) in E. vm_compute in E. discriminate.
Defined.
