(* ===== verification/EcsSdk.v ===== *)
(** * The ECS SDK

    The Alibaba Cloud SDK is third-party code: its operations are parameters.
    [EcsSdk W] lists the calls [pkg/client/capi.go] makes, with the request
    fields it sets and the response fields it reads.  The [Create...Request]
    constructors are part of the parameter: a field the program does not set
    keeps the value the SDK gives it. *)

From S2P Require Import Api CloudClient Metrics Retry.

Record DescribeInstancesRequest := mkDescribeInstancesRequest {
  dir_RegionId : string;
  dir_InstanceIds : string;
  dir_Tag : list SDKTag;
}.
#[export] Instance eta_DescribeInstancesRequest : Eta DescribeInstancesRequest := fun r =>
  mkDescribeInstancesRequest (dir_RegionId r) (dir_InstanceIds r) (dir_Tag r).

(** An element of [DescribeInstancesResponse.Instances.Instance]. *)
Record SdkInstance := mkSdkInstance {
  si_InstanceId : string;
  si_Status : string;
  si_HostName : string;
  si_InnerIpAddress : list string;
  si_PublicIpAddress : list string;
}.

Record RunInstancesDataDisk := mkRunInstancesDataDisk {
  rdd_Category : string;
  rdd_Size : string;
  rdd_PerformanceLevel : string;
  rdd_KMSKeyId : string;
  rdd_DeleteWithInstance : string;
  rdd_Encrypted : string;
}.

(** [requests.Integer] and [requests.Float] fields hold the number they were
    made from; [None] is a field left unset. *)
Record RunInstancesRequest := mkRunInstancesRequest {
  rr_RegionId : string;
  rr_ZoneId : string;
  rr_InstanceType : string;
  rr_ImageId : string;
  rr_InstanceName : string;
  rr_HostName : string;
  rr_VSwitchId : string;
  rr_SystemDiskCategory : string;
  rr_SystemDiskSize : string;
  rr_SystemDiskPerformanceLevel : string;
  rr_RamRoleName : string;
  rr_UserData : string;
  rr_ResourceGroupId : string;
  rr_Amount : string;
  rr_ClientToken : string;
  rr_QueryParams : gmap string string;
  rr_SpotStrategy : string;
  rr_SpotPriceLimit : option float64;
  rr_HttpEndpoint : string;
  rr_HttpTokens : string;
  rr_HttpPutResponseHopLimit : option Z;
  rr_SecurityGroupIds : option (list string);
  rr_DataDisk : option (list RunInstancesDataDisk);
  rr_Tag : option (list SDKTag);
}.
#[export] Instance eta_RunInstancesRequest : Eta RunInstancesRequest := fun r =>
  mkRunInstancesRequest (rr_RegionId r) (rr_ZoneId r) (rr_InstanceType r) (rr_ImageId r)
    (rr_InstanceName r) (rr_HostName r) (rr_VSwitchId r) (rr_SystemDiskCategory r)
    (rr_SystemDiskSize r) (rr_SystemDiskPerformanceLevel r) (rr_RamRoleName r) (rr_UserData r)
    (rr_ResourceGroupId r) (rr_Amount r) (rr_ClientToken r) (rr_QueryParams r)
    (rr_SpotStrategy r) (rr_SpotPriceLimit r) (rr_HttpEndpoint r) (rr_HttpTokens r)
    (rr_HttpPutResponseHopLimit r) (rr_SecurityGroupIds r) (rr_DataDisk r) (rr_Tag r).

Record StopInstanceRequest := mkStopInstanceRequest {
  sir_InstanceId : string;
  sir_ForceStop : string;
}.
#[export] Instance eta_StopInstanceRequest : Eta StopInstanceRequest := fun r =>
  mkStopInstanceRequest (sir_InstanceId r) (sir_ForceStop r).

Record DeleteInstanceRequest := mkDeleteInstanceRequest {
  del_InstanceId : string;
  del_Force : string;
}.
#[export] Instance eta_DeleteInstanceRequest : Eta DeleteInstanceRequest := fun r =>
  mkDeleteInstanceRequest (del_InstanceId r) (del_Force r).

Record ModifyInstanceMetadataOptionsRequest := mkModifyInstanceMetadataOptionsRequest {
  mmr_InstanceId : string;
  mmr_HttpEndpoint : string;
  mmr_HttpTokens : string;
  mmr_HttpPutResponseHopLimit : option Z;
}.
#[export] Instance eta_ModifyInstanceMetadataOptionsRequest :
  Eta ModifyInstanceMetadataOptionsRequest := fun r =>
  mkModifyInstanceMetadataOptionsRequest (mmr_InstanceId r) (mmr_HttpEndpoint r)
    (mmr_HttpTokens r) (mmr_HttpPutResponseHopLimit r).

(** An element of [DescribeInstanceTypesResponse.InstanceTypes.InstanceType]. *)
Record SdkInstanceType := mkSdkInstanceType {
  sit_InstanceTypeId : string;
  sit_CpuCoreCount : Z;
  sit_MemorySize : float64;      (* GiB *)
}.

(** [DescribeDisksRequest] and [DescribeNetworkInterfacesRequest]. *)
Record ByInstanceRequest := mkByInstanceRequest {
  bir_RegionId : string;
  bir_InstanceId : string;
}.

Record TagResourcesRequest := mkTagResourcesRequest {
  trr_RegionId : string;
  trr_ResourceType : string;
  trr_ResourceId : list string;
  trr_Tag : list SDKTag;
}.

Class EcsSdk (W : Type) := {
  CreateDescribeInstancesRequest : DescribeInstancesRequest;
  CreateRunInstancesRequest : RunInstancesRequest;
  CreateStopInstanceRequest : StopInstanceRequest;
  CreateDeleteInstanceRequest : DeleteInstanceRequest;
  CreateModifyInstanceMetadataOptionsRequest : ModifyInstanceMetadataOptionsRequest;
  ecs_DescribeInstances : DescribeInstancesRequest -> M W (list SdkInstance);
  ecs_RunInstances : RunInstancesRequest -> M W (list string);
  ecs_StopInstance : StopInstanceRequest -> M W ();
  ecs_DeleteInstance : DeleteInstanceRequest -> M W ();
  ecs_ModifyInstanceMetadataOptions : ModifyInstanceMetadataOptionsRequest -> M W ();
  ecs_DescribeInstanceTypes : list string -> M W (list SdkInstanceType);
  ecs_DescribeDisks : ByInstanceRequest -> M W (list string);
  ecs_DescribeNetworkInterfaces : ByInstanceRequest -> M W (list string);
  ecs_TagResources : TagResourcesRequest -> M W ();
}.

(** [fmt.Sprintf(`["%s"]`, instanceID)]: the InstanceIds filter for one
    instance. *)
Definition json_id_array (id : string) : string := "[" +:+ quote_str +:+ id +:+ quote_str +:+ "]".

(** ** What the model relies on of the SDK

    The documented behaviour of DescribeInstances, over the abstract cloud:
    listing changes nothing, a list by id holds the instance of that id when it
    is in the client's region, a list by tag holds instances of the region with
    the tag, and instance ids are not empty.  The request names no page, so a
    list is the first page: one that is not full has every such instance, and
    one that is full has some that are not released, if there are any (the
    service stops listing an instance once it is released). *)
Definition DescribeInstancesPageSize : nat := 10.

Class EcsSdkLaws {W} `{!EcsSdk W} (cloud_of : W -> Cloud) (region : string) : Prop := {
  sdk_describe_keeps req cl : keeps (fun w => cloud_of w = cl) (ecs_DescribeInstances req);
  sdk_describe_id id w l w' :
    ecs_DescribeInstances
      (CreateDescribeInstancesRequest <| dir_InstanceIds := json_id_array id |>) w = (Ok l, w') ->
    (forall inst, inst ∈ l -> si_InstanceId inst = id /\
       exists i, cloud_of w !! id = Some i /\ ci_Region i = region /\ ci_Status i = si_Status inst) /\
    (forall i, cloud_of w !! id = Some i -> ci_Region i = region -> l <> []);
  sdk_describe_tag r k v w l w' :
    r <> "" ->
    ecs_DescribeInstances
      (CreateDescribeInstancesRequest <| dir_RegionId := r |> <| dir_Tag := [mkSDKTag k v] |>) w
      = (Ok l, w') ->
    (forall inst, inst ∈ l -> exists i, cloud_of w !! si_InstanceId inst = Some i /\
       ci_Region i = r /\ mkSDKTag k v ∈ ci_Tags i /\ ci_Status i = si_Status inst) /\
    ((length l < DescribeInstancesPageSize)%nat ->
     forall id i, cloud_of w !! id = Some i -> ci_Region i = r -> mkSDKTag k v ∈ ci_Tags i ->
       exists inst, inst ∈ l /\ si_InstanceId inst = id /\ si_Status inst = ci_Status i) /\
    ((DescribeInstancesPageSize <= length l)%nat ->
     forall id i, cloud_of w !! id = Some i -> live_tagged r k v i ->
       exists inst, inst ∈ l /\ si_Status inst <> InstanceStateDeleted);
  sdk_id_nonempty w : cloud_of w !! "" = None;
}.

(** No call of the SDK panics. *)
Class EcsSdkTotal (W : Type) `{!EcsSdk W} : Prop := {
  sdk_disks_total req w p : (ecs_DescribeDisks req w).1 <> Panic p;
  sdk_enis_total req w p : (ecs_DescribeNetworkInterfaces req w).1 <> Panic p;
  sdk_tag_total req w p : (ecs_TagResources req w).1 <> Panic p;
}.

(** What the calls may change: a request for one instance makes at most one,
    with a fresh id, in the region and with the tags it asks for, whether or not
    it answers with an error; a throttled one was refused.  Stopping and
    deleting make none, and the other calls leave the instances alone. *)
Class EcsSdkEffects {W} `{!EcsSdk W} (cloud_of : W -> Cloud) : Prop := {
  sdk_run_effect req w r w' :
    rr_Amount req = "1" -> ecs_RunInstances req w = (r, w') ->
    cloud_of w' = cloud_of w \/
    exists id i, cloud_of w !! id = None /\ ci_Region i = rr_RegionId req /\
      ci_Tags i = default [] (rr_Tag req) /\ cloud_of w' = <[id := i]> (cloud_of w);
  sdk_run_throttled req cl : throttled_keeps (fun w => cloud_of w = cl) (ecs_RunInstances req);
  sdk_stop_effect req cl : keeps (fun w => settles cl (cloud_of w)) (ecs_StopInstance req);
  sdk_delete_effect req cl : keeps (fun w => settles cl (cloud_of w)) (ecs_DeleteInstance req);
  sdk_modify_keeps req cl : keeps (fun w => cloud_of w = cl) (ecs_ModifyInstanceMetadataOptions req);
  sdk_disks_keeps req cl : keeps (fun w => cloud_of w = cl) (ecs_DescribeDisks req);
  sdk_enis_keeps req cl : keeps (fun w => cloud_of w = cl) (ecs_DescribeNetworkInterfaces req);
  sdk_tag_keeps req cl :
    trr_ResourceType req <> "instance" -> keeps (fun w => cloud_of w = cl) (ecs_TagResources req);
}.
