(* ===== verification/HostName.v ===== *)
(** * ECS host names

    [hostNameOK] of [pkg/client/capi.go], the loop as it is written, and its
    equivalence with the rule its comment states. *)

From S2P Require Import Api.

Definition in_range (lo hi : ascii) (ch : ascii) : bool :=
  (nat_of_ascii lo <=? nat_of_ascii ch)%nat && (nat_of_ascii ch <=? nat_of_ascii hi)%nat.
Definition is_digit (ch : ascii) : bool := in_range "0" "9" ch.
Definition is_letter (ch : ascii) : bool := in_range "a" "z" ch || in_range "A" "Z" ch.
Definition is_hostsep (ch : ascii) : bool := Ascii.eqb ch "-" || Ascii.eqb ch ".".

(** [for i := 0; i < len(name); i++ { ... }]: [None] is [return false] inside
    the loop, [Some allDigits] its normal end.  [prev] is [name[i-1]]. *)
Fixpoint hostname_loop (len i : nat) (prev : option ascii) (rest : list ascii)
    (allDigits : bool) : option bool :=
  match rest with
  | [] => Some allDigits
  | ch :: rest' =>
      if is_digit ch then hostname_loop len (S i) (Some ch) rest' allDigits
      else if is_letter ch then hostname_loop len (S i) (Some ch) rest' false
      else if is_hostsep ch then
        if decide (i = O \/ i = len - 1)%nat then None
        else match prev with
             | Some p => if is_hostsep p then None
                         else hostname_loop len (S i) (Some ch) rest' false
             | None => hostname_loop len (S i) (Some ch) rest' false
             end
      else None
  end.

Definition hostNameOK (name : string) : bool :=
  let bytes := list_ascii_of_string name in
  let len := length bytes in
  if decide (len < 2 \/ 64 < len)%nat then false
  else match hostname_loop len 0 None bytes true with
       | Some allDigits => negb allDigits
       | None => false
       end.

(** ** The rule

    "2-64 characters of letters, digits, hyphens and dots, starting and ending
    alphanumeric, with no doubled separator and at least one non-digit." *)

Definition is_alnum (ch : ascii) : bool := is_digit ch || is_letter ch.

Record hostname_rule (l : list ascii) : Prop := {
  hr_length : (2 <= length l <= 64)%nat;
  hr_chars i ch : l !! i = Some ch -> is_alnum ch = true \/ is_hostsep ch = true;
  hr_first ch : l !! 0%nat = Some ch -> is_alnum ch = true;
  hr_last ch : l !! (length l - 1)%nat = Some ch -> is_alnum ch = true;
  hr_single i a b : l !! i = Some a -> l !! S i = Some b ->
                    ~ (is_hostsep a = true /\ is_hostsep b = true);
  hr_nondigit : exists ch, ch ∈ l /\ is_digit ch = false;
}.

(** ** Equivalence *)

Lemma hostsep_not_alnum ch : is_hostsep ch = true -> is_alnum ch = false.
Proof.
  unfold is_hostsep. rewrite orb_true_iff, !Ascii.eqb_eq. by intros [-> | ->].
Qed.

(** What the loop has accepted when it stops normally in state [i], [prev]. *)
Definition loop_rule (len i : nat) (prev : option ascii) (rest : list ascii) : Prop :=
  (forall j ch, rest !! j = Some ch ->
     is_alnum ch = true \/
     (is_hostsep ch = true /\ (i + j)%nat <> O /\ (i + j)%nat <> (len - 1)%nat)) /\
  (forall a b, prev = Some a -> rest !! O = Some b -> ~ (is_hostsep a = true /\ is_hostsep b = true)) /\
  (forall j a b, rest !! j = Some a -> rest !! S j = Some b ->
     ~ (is_hostsep a = true /\ is_hostsep b = true)).

Lemma loop_rule_cons len i prev ch rest :
  loop_rule len i prev (ch :: rest) <->
  (is_alnum ch = true \/ (is_hostsep ch = true /\ i <> O /\ i <> (len - 1)%nat)) /\
  (forall a, prev = Some a -> ~ (is_hostsep a = true /\ is_hostsep ch = true)) /\
  loop_rule len (S i) (Some ch) rest.
Proof.
  unfold loop_rule. split.
  - intros (H1 & H2 & H3). split_and!.
    + specialize (H1 O ch eq_refl). by rewrite Nat.add_0_r in H1.
    + intros a ->. by apply H2.
    + intros j c Hc. specialize (H1 (S j) c Hc). by rewrite Nat.add_succ_r in H1.
    + intros a b [= <-] Hb. by apply (H3 O).
    + intros j a b Ha Hb. by apply (H3 (S j)).
  - intros (H1 & H2 & H3 & H4 & H5). split_and!.
    + intros [|j] c; cbn; [intros [= <-]; by rewrite Nat.add_0_r|].
      intros Hc. specialize (H3 j c Hc). by rewrite Nat.add_succ_r.
    + intros a b -> [= <-]. by apply H2.
    + intros [|j] a b; cbn; [intros [= <-] Hb; by apply (H4 ch)|]. apply H5.
Qed.

(** The three classes of character, as the branches of the loop test them. *)
Lemma not_hostsep ch : is_alnum ch = true -> is_hostsep ch = false.
Proof. destruct (is_hostsep ch) eqn:E; [|done]. apply hostsep_not_alnum in E. congruence. Qed.

Lemma hostname_loop_alnum len i prev ch rest :
  is_alnum ch = true ->
  loop_rule len i prev (ch :: rest) <-> loop_rule len (S i) (Some ch) rest.
Proof.
  intros Ha. rewrite loop_rule_cons, (not_hostsep _ Ha), Ha. split; [by intros (_ & _ & ?)|].
  intros ?. split_and!; [by left| |done]. by intros ? _ [_ [=]].
Qed.

Lemma hostname_loop_sep len i prev ch rest :
  is_alnum ch = false -> is_hostsep ch = true ->
  loop_rule len i prev (ch :: rest) <->
  ~ (i = O \/ i = len - 1)%nat /\ (forall a, prev = Some a -> is_hostsep a = false) /\
  loop_rule len (S i) (Some ch) rest.
Proof.
  intros Ha Hs. rewrite loop_rule_cons, Ha, Hs. split.
  - intros ([?|(_ & ? & ?)] & Hp & ?); [done|]. split_and!; [lia| |done].
    intros a E. specialize (Hp a E). by destruct (is_hostsep a); [destruct Hp|].
  - intros (? & Hp & ?). split_and!; [right; lia| |done].
    intros a E [E' _]. specialize (Hp a E). congruence.
Qed.

Lemma hostname_loop_spec len rest : forall i prev d r,
  hostname_loop len i prev rest d = Some r <->
  loop_rule len i prev rest /\ r = (d && forallb is_digit rest).
Proof.
  induction rest as [|ch rest IH]; intros i prev d r.
  { cbn. rewrite andb_true_r. unfold loop_rule. split.
    - intros [= <-]. split; [|done]. split_and!; by intros.
    - by intros [_ ->]. }
  cbn [hostname_loop forallb]. destruct (is_digit ch) eqn:Hd.
  { rewrite IH, hostname_loop_alnum; [done|]. unfold is_alnum. by rewrite Hd. }
  destruct (is_letter ch) eqn:Hl.
  { rewrite IH, hostname_loop_alnum by (unfold is_alnum; by rewrite Hd, Hl).
    by rewrite andb_false_r. }
  assert (is_alnum ch = false) as Ha by (unfold is_alnum; by rewrite Hd, Hl).
  rewrite andb_false_r. destruct (is_hostsep ch) eqn:Hs.
  2: { rewrite loop_rule_cons, Ha, Hs. split; [done|]. by intros [[[?|[? _]] _] _]. }
  rewrite hostname_loop_sep by done.
  destruct (decide (i = O \/ i = (len - 1)%nat)) as [Hi|Hi].
  { split; [done|]. by intros [[? _] _]. }
  destruct prev as [p|].
  - destruct (is_hostsep p) eqn:Hp.
    + split; [done|]. intros [(_ & H & _) _]. specialize (H p eq_refl). congruence.
    + rewrite IH. cbn. split; [|by intros [(_ & _ & ?) ->]].
      intros [? ->]. split_and!; try done. by intros a [= <-].
  - rewrite IH. cbn. split; [|by intros [(_ & _ & ?) ->]]. intros [? ->]. by split_and!.
Qed.

Lemma forallb_digit_false l :
  forallb is_digit l = false <-> exists ch, ch ∈ l /\ is_digit ch = false.
Proof.
  induction l as [|a l IH]; cbn.
  { split; [done|]. by intros (ch & ?%not_elem_of_nil & _). }
  rewrite andb_false_iff, IH. setoid_rewrite elem_of_cons. naive_solver.
Qed.

Lemma hostname_rule_loop l :
  hostname_rule l <->
  (2 <= length l <= 64)%nat /\ loop_rule (length l) 0 None l /\ forallb is_digit l = false.
Proof.
  rewrite forallb_digit_false. split.
  - intros [HL HC HF HLa HS HN]. split_and!; [lia|lia| |done].
    split_and!; [|by intros|exact HS].
    intros j ch Hj. destruct (HC j ch Hj) as [Ha|Hs]; [by left|].
    assert (is_alnum ch = false) as Hna by by apply hostsep_not_alnum.
    right. split_and!; [done| |].
    + intros E. cbn in E. subst j. by rewrite (HF ch Hj) in Hna.
    + intros E. cbn in E. subst j. by rewrite (HLa ch Hj) in Hna.
  - intros (HL & (H1 & _ & H3) & HN). split; [lia| | | |exact H3|done].
    + intros i ch Hi. destruct (H1 i ch Hi) as [?|(? & _)]; auto.
    + intros ch Hi. destruct (H1 0%nat ch Hi) as [?|(_ & ? & _)]; [done|lia].
    + intros ch Hi. destruct (H1 _ ch Hi) as [?|(_ & _ & ?)]; [done|lia].
Qed.

(** C26. [hostNameOK] accepts a name exactly when it is 2 to 64 characters of
    letters, digits, hyphens and dots, starts and ends alphanumeric, holds no
    doubled separator and is not all digits. *)
Theorem hostNameOK_spec name :
  hostNameOK name = true <-> hostname_rule (list_ascii_of_string name).
Proof.
  rewrite hostname_rule_loop. unfold hostNameOK.
  set (l := list_ascii_of_string name).
  destruct (decide _) as [Hlen|Hlen]; [naive_solver lia|].
  destruct (hostname_loop (length l) 0 None l true) as [r|] eqn:E.
  - apply hostname_loop_spec in E as [Hr ->]. cbn. rewrite negb_true_iff. naive_solver lia.
  - split; [done|]. intros (_ & Hr & _).
    assert (hostname_loop (length l) 0 None l true = Some (true && forallb is_digit l)) as E'
      by by apply hostname_loop_spec.
    congruence.
Qed.

Example hostNameOK_examples :
  hostNameOK "caworkers-c-abc12-xy34" = true /\ hostNameOK "w" = false /\
  hostNameOK "worker..cluster" = false /\ hostNameOK "12345" = false /\
  hostNameOK "-worker" = false /\ hostNameOK "worker_0" = false.
Proof. by vm_compute. Qed.
