(* ===== verification/Encoding.v ===== *)
(** * Encodings

    The standard-library encodings the user-data path goes through:
    [encoding/base64] (StdEncoding), [encoding/hex], [crypto/sha512] and the
    string escaping of [encoding/json]; executable, with the round trip of
    base64. *)

From S2P Require Import Api.

Open Scope N_scope.

(** Linear arithmetic with division and remainder. *)
Ltac dlia := zify; Z.to_euclidean_division_equations; lia.

Definition bytes_of (s : string) : list N := map N_of_ascii (list_ascii_of_string s).
Definition string_of (l : list N) : string := string_of_list_ascii (map ascii_of_N l).

(** ** Base64 *)

Definition alphabet : list ascii :=
  list_ascii_of_string "ABCDEFGHIJKLMNOPQRSTUVWXYZabcdefghijklmnopqrstuvwxyz0123456789+/".

Definition enc_char (n : N) : ascii := default "A"%char (alphabet !! N.to_nat n).
Definition dec_char (c : ascii) : option N :=
  (fun x => N.of_nat x.1) <$> list_find (fun a => a = c) alphabet.

Fixpoint base64_encode (l : list N) : list ascii :=
  match l with
  | a :: b :: c :: l' =>
      enc_char (a / 4) :: enc_char ((a mod 4) * 16 + b / 16) ::
      enc_char ((b mod 16) * 4 + c / 64) :: enc_char (c mod 64) :: base64_encode l'
  | [a; b] => [enc_char (a / 4); enc_char ((a mod 4) * 16 + b / 16); enc_char ((b mod 16) * 4);
               "="%char]
  | [a] => [enc_char (a / 4); enc_char ((a mod 4) * 16); "="%char; "="%char]
  | [] => []
  end.

(** [base64.StdEncoding.EncodeToString] *)
Definition EncodeToString (s : string) : string :=
  string_of_list_ascii (base64_encode (bytes_of s)).

Definition is_pad (c : ascii) : bool := Ascii.eqb c "=".

(** One quantum of four characters after another; padding only in the last. *)
Fixpoint base64_decode (l : list ascii) : option (list N) :=
  match l with
  | [] => Some []
  | x :: y :: z :: w :: l' =>
      a ← dec_char x;
      b ← dec_char y;
      if is_pad z then
        if is_pad w && bool_decide (l' = []) then Some [a * 4 + b / 16] else None
      else
        c ← dec_char z;
        if is_pad w then
          if bool_decide (l' = []) then Some [a * 4 + b / 16; (b mod 16) * 16 + c / 4] else None
        else
          d ← dec_char w;
          rest ← base64_decode l';
          Some (a * 4 + b / 16 :: (b mod 16) * 16 + c / 4 :: (c mod 4) * 64 + d :: rest)
  | _ => None
  end.

(** [base64.StdEncoding.DecodeString]: carriage returns and line feeds are
    skipped. *)
Definition is_newline (c : ascii) : bool :=
  Ascii.eqb c (ascii_of_nat 10) || Ascii.eqb c (ascii_of_nat 13).
Definition DecodeString (s : string) : option string :=
  string_of <$> base64_decode (filter (fun c => is_newline c = false) (list_ascii_of_string s)).

Example base64_examples :
  EncodeToString "ign" = "aWdu" /\ EncodeToString "ig" = "aWc=" /\ EncodeToString "i" = "aQ==" /\
  DecodeString "aWc=" = Some "ig" /\ DecodeString "aWc" = None /\ DecodeString "a*==" = None.
Proof. by vm_compute. Qed.

(** *** Round trip *)

Lemma dec_enc_char n : n < 64 -> dec_char (enc_char n) = Some n.
Proof.
  assert (Forall (fun n => dec_char (enc_char (N.of_nat n)) = Some (N.of_nat n)) (seq 0 64)) as Hall
    by (apply (bool_decide_unpack _); by vm_compute).
  rewrite List.Forall_forall in Hall. intros Hn.
  specialize (Hall (N.to_nat n)). rewrite N2Nat.id in Hall. apply Hall, in_seq. lia.
Qed.

Lemma enc_char_not n c : dec_char c = None -> n < 64 -> enc_char n <> c.
Proof. intros Hc Hn E. apply dec_enc_char in Hn. congruence. Qed.

Lemma enc_char_pad n : n < 64 -> is_pad (enc_char n) = false.
Proof.
  intros Hn. destruct (is_pad (enc_char n)) eqn:E; [|done].
  apply Ascii.eqb_eq in E. by apply enc_char_not in E; [| |exact Hn].
Qed.

Lemma byte_bounds a b :
  a < 256 -> b < 256 -> a / 4 < 64 /\ a mod 4 * 16 + b / 16 < 64 /\ b mod 16 * 4 < 64 /\
    (forall c, c < 256 -> b mod 16 * 4 + c / 64 < 64 /\ c mod 64 < 64).
Proof. intros. split_and!; [dlia..|]. intros. dlia. Qed.

Definition byte_list (l : list N) : Prop := Forall (fun b => b < 256) l.

(** Induction three elements at a time. *)
Lemma list_ind3 {A} (P : list A -> Prop) :
  P [] -> (forall a, P [a]) -> (forall a b, P [a; b]) ->
  (forall a b c l, P l -> P (a :: b :: c :: l)) -> forall l, P l.
Proof.
  intros H0 H1 H2 H3. fix IH 1. intros [|a [|b [|c l]]]; [done|apply H1|apply H2|apply H3, IH].
Qed.

Lemma base64_decode_encode l : byte_list l -> base64_decode (base64_encode l) = Some l.
Proof.
  induction l as [|a|a b|a b c l IH] using list_ind3; unfold byte_list; rewrite ?Forall_cons_iff;
    cbn [base64_encode base64_decode].
  - done.
  - intros [Ha _]. destruct (byte_bounds a a Ha Ha) as (H1 & _ & _ & _).
    rewrite !dec_enc_char by dlia. cbn [mbind option_bind]. do 2 f_equal. dlia.
  - intros (Ha & Hb & _). destruct (byte_bounds a b Ha Hb) as (H1 & H2 & H3 & _).
    rewrite !dec_enc_char, (enc_char_pad (b mod 16 * 4)) by done. cbn [mbind option_bind].
    do 2 f_equal; [dlia|]. f_equal. dlia.
  - intros (Ha & Hb & Hc & Hl). destruct (byte_bounds a b Ha Hb) as (H1 & H2 & _ & H3).
    destruct (H3 c Hc) as [H4 H5].
    rewrite !dec_enc_char, !enc_char_pad, (IH Hl) by done. cbn [mbind option_bind].
    do 2 f_equal; [dlia|]. f_equal; [dlia|]. f_equal. dlia.
Qed.

(** The encoder emits alphabet characters and padding, so no line feed. *)
Lemma base64_encode_clean l : byte_list l ->
  Forall (fun c => is_newline c = false) (base64_encode l).
Proof.
  assert (forall n, n < 64 -> is_newline (enc_char n) = false) as He.
  { intros n Hn. unfold is_newline. apply orb_false_iff.
    split; apply Ascii.eqb_neq, enc_char_not; done. }
  induction l as [|a|a b|a b c l IH] using list_ind3; unfold byte_list; rewrite ?Forall_cons_iff;
    cbn [base64_encode].
  - done.
  - intros [Ha _]. repeat constructor; apply He; dlia.
  - intros (Ha & Hb & _). repeat constructor; apply He; dlia.
  - intros (Ha & Hb & Hc & Hl). repeat constructor; [apply He; dlia..|by apply IH].
Qed.

Lemma filter_all {A} (P : A -> Prop) `{forall x, Decision (P x)} l : Forall P l -> filter P l = l.
Proof. induction 1; [done|]. rewrite filter_cons_True by done. by f_equal. Qed.

Lemma string_bytes_roundtrip s : string_of (bytes_of s) = s.
Proof.
  unfold string_of, bytes_of. rewrite map_map. rewrite (map_ext _ id).
  - by rewrite map_id, string_of_list_ascii_of_string.
  - intros c. apply ascii_N_embedding.
Qed.

Lemma bytes_of_range s : byte_list (bytes_of s).
Proof.
  apply Forall_fmap, Forall_forall. intros c _. apply N_ascii_bounded.
Qed.

Lemma DecodeString_EncodeToString s : DecodeString (EncodeToString s) = Some s.
Proof.
  unfold DecodeString, EncodeToString. rewrite list_ascii_of_string_of_list_ascii.
  rewrite filter_all by apply base64_encode_clean, bytes_of_range.
  rewrite base64_decode_encode by apply bytes_of_range. cbn. by rewrite string_bytes_roundtrip.
Qed.

(** Four characters for every three bytes begun. *)
Lemma base64_encode_length l : (length (base64_encode l) = 4 * ((length l + 2) / 3))%nat.
Proof.
  induction l as [|a|a b|a b c l IH] using list_ind3; [done..|].
  cbn [base64_encode length]. rewrite IH.
  replace (S (S (S (length l))) + 2)%nat with (length l + 2 + 1 * 3)%nat by dlia.
  rewrite Nat.div_add by dlia. dlia.
Qed.

Lemma EncodeToString_length s :
  String.length (EncodeToString s) = (4 * ((String.length s + 2) / 3))%nat.
Proof.
  unfold EncodeToString.
  assert (forall l, String.length (string_of_list_ascii l) = length l) as H
    by (induction l; cbn; congruence).
  rewrite H, base64_encode_length. unfold bytes_of. rewrite length_map.
  rewrite <- H, string_of_list_ascii_of_string. done.
Qed.

(** ** Hexadecimal and JSON strings *)

Definition hex_digit (n : N) : ascii :=
  default "0"%char (list_ascii_of_string "0123456789abcdef" !! N.to_nat n).
Definition hex_byte (b : N) : string :=
  String (hex_digit (b / 16)) (String (hex_digit (b mod 16)) EmptyString).
(** [hex.EncodeToString] *)
Definition hex_encode (l : list N) : string := String.concat "" (map hex_byte l).

(** The length of the UTF-8 encoded code point at the head of a byte list, for
    a lead byte of at least 128; [None] when it is not one
    ([utf8.DecodeRuneInString] returning RuneError of width 1). *)
Definition utf8_len (l : list N) : option nat :=
  let cont b := (128 <=? b) && (b <=? 191) in
  let within lo hi b := (lo <=? b) && (b <=? hi) in
  match l with
  | a :: l' =>
      if within 194 223 a then
        match l' with b :: _ => if cont b then Some 2%nat else None | _ => None end
      else if within 224 239 a then
        match l' with
        | b :: c :: _ =>
            let ok := if a =? 224 then within 160 191 b
                      else if a =? 237 then within 128 159 b else cont b in
            if ok && cont c then Some 3%nat else None
        | _ => None
        end
      else if within 240 244 a then
        match l' with
        | b :: c :: d :: _ =>
            let ok := if a =? 240 then within 144 191 b
                      else if a =? 244 then within 128 143 b else cont b in
            if ok && cont c && cont d then Some 4%nat else None
        | _ => None
        end
      else None
  | [] => None
  end.

Definition backslash : string := String (ascii_of_nat 92) EmptyString.

(** One byte below 128: [encoding/json] with HTML escaping. *)
Definition json_ascii (b : N) : string :=
  if (b =? 34) || (b =? 92) then backslash +:+ String (ascii_of_N b) EmptyString
  else if b =? 8 then backslash +:+ "b" else if b =? 12 then backslash +:+ "f"
  else if b =? 10 then backslash +:+ "n" else if b =? 13 then backslash +:+ "r"
  else if b =? 9 then backslash +:+ "t"
  else if (b <? 32) || (b =? 38) || (b =? 60) || (b =? 62) then backslash +:+ "u00" +:+ hex_byte b
  else String (ascii_of_N b) EmptyString.

Fixpoint json_escape (fuel : nat) (l : list N) : string :=
  match fuel, l with
  | S fuel', b :: l' =>
      if b <? 128 then json_ascii b +:+ json_escape fuel' l'
      else match utf8_len l with
           | None => backslash +:+ "ufffd" +:+ json_escape fuel' l'
           | Some n =>
               let r := take n l in
               let out := if decide (r = [226; 128; 168]) then backslash +:+ "u2028"
                          else if decide (r = [226; 128; 169]) then backslash +:+ "u2029"
                          else string_of r in
               out +:+ json_escape fuel' (drop n l)
           end
  | _, _ => ""
  end.

(** [json.Marshal] of a string: every step consumes a byte, so the number of
    bytes is enough fuel. *)
Definition json_string (s : string) : string :=
  let l := bytes_of s in quote_str +:+ json_escape (length l) l +:+ quote_str.

Example json_string_ex :
  json_string "https://b/k?a=1&b=<2>" =
    quote_str +:+ "https://b/k?a=1" +:+ backslash +:+ "u0026b=" +:+ backslash +:+ "u003c2" +:+
    backslash +:+ "u003e" +:+ quote_str.
Proof. by vm_compute. Qed.

(** A character JSON leaves as it is. *)
Definition json_plain (c : ascii) : bool :=
  let b := N_of_ascii c in
  (32 <=? b) && (b <? 128) && negb ((b =? 34) || (b =? 92) || (b =? 38) || (b =? 60) || (b =? 62)).

Lemma json_ascii_plain c :
  json_plain c = true -> json_ascii (N_of_ascii c) = String c EmptyString /\ (N_of_ascii c <? 128) = true.
Proof. by destruct c as [[] [] [] [] [] [] [] []]; vm_compute. Qed.

Lemma json_string_plain s : all_chars json_plain s = true -> json_string s = quote_str +:+ s +:+ quote_str.
Proof.
  intros Hs. unfold json_string. f_equal.
  assert (json_escape (length (bytes_of s)) (bytes_of s) = s) as ->; [|done].
  induction s as [|c s IH]; [done|]. cbn in Hs. apply andb_true_iff in Hs as [Hc Hs].
  change (bytes_of (String c s)) with (N_of_ascii c :: bytes_of s).
  cbn [length json_escape]. destruct (json_ascii_plain c Hc) as [-> ->].
  rewrite (IH Hs). done.
Qed.

(** ** SHA-512

    FIPS 180-4 on 64-bit words.  The constants are computed from their
    definition: the first 64 bits of the fractional parts of the square roots
    of the first eight primes and of the cube roots of the first eighty. *)

Definition w64 (x : N) : N := N.land x (2 ^ 64 - 1).
Definition add64 (x y : N) : N := w64 (x + y).
Definition rotr (n x : N) : N := N.lor (N.shiftr x n) (w64 (N.shiftl x (64 - n))).
Definition not64 (x : N) : N := N.lxor x (2 ^ 64 - 1).

Definition is_prime (n : N) : bool :=
  forallb (fun d => negb (n mod N.of_nat d =? 0)) (seq 2 (N.to_nat n - 2)).
Definition primes : list N := take 80 (filter (fun n => is_prime n = true) (map N.of_nat (seq 2 408))).

(** The integer cube root, bit by bit from bit [k - 1] down. *)
Fixpoint cbrt_bits (k : nat) (x r : N) : N :=
  match k with
  | O => r
  | S k' => let r' := r + 2 ^ N.of_nat k' in
            cbrt_bits k' x (if r' * r' * r' <=? x then r' else r)
  end.

Definition sha512_K : list N :=
  Eval vm_compute in map (fun p => w64 (cbrt_bits 70 (p * 2 ^ 192) 0)) primes.
Definition sha512_H0 : list N :=
  Eval vm_compute in map (fun p => w64 (N.sqrt (p * 2 ^ 128))) (take 8 primes).

(** Padding: a one bit, zeroes, and the length in bits on 128 bits. *)
Definition be_bytes (n : nat) (x : N) : list N :=
  map (fun i => (x / 2 ^ (8 * N.of_nat i)) mod 256) (reverse (seq 0 n)).
Definition sha_pad (l : list N) : list N :=
  let len := length l in
  let zeros := ((111 - (len mod 128)) mod 128)%nat in
  let zeros := if (112 <=? len mod 128)%nat then (128 + 111 - len mod 128)%nat else zeros in
  l ++ [128] ++ replicate zeros 0 ++ be_bytes 16 (8 * N.of_nat len).

Fixpoint be_words (fuel : nat) (l : list N) : list N :=
  match fuel with
  | O => []
  | S f => foldl (fun acc b => acc * 256 + b) 0 (take 8 l) :: be_words f (drop 8 l)
  end.

(** The message schedule, latest word first. *)
Fixpoint schedule (n : nat) (w : list N) : list N :=
  match n with
  | O => w
  | S n' =>
      let at_ i := nth (i - 1) w 0 in
      let x15 := at_ 15%nat in let x2 := at_ 2%nat in
      let s0 := N.lxor (N.lxor (rotr 1 x15) (rotr 8 x15)) (N.shiftr x15 7) in
      let s1 := N.lxor (N.lxor (rotr 19 x2) (rotr 61 x2)) (N.shiftr x2 6) in
      schedule n' (w64 (at_ 16%nat + s0 + at_ 7%nat + s1) :: w)
  end.

Definition sha_round (st : list N) (kw : N * N) : list N :=
  match st with
  | [a; b; c; d; e; f; g; h] =>
      let S1 := N.lxor (N.lxor (rotr 14 e) (rotr 18 e)) (rotr 41 e) in
      let ch := N.lxor (N.land e f) (N.land (not64 e) g) in
      let t1 := w64 (h + S1 + ch + kw.1 + kw.2) in
      let S0 := N.lxor (N.lxor (rotr 28 a) (rotr 34 a)) (rotr 39 a) in
      let maj := N.lxor (N.lxor (N.land a b) (N.land a c)) (N.land b c) in
      [add64 t1 (w64 (S0 + maj)); a; b; c; add64 d t1; e; f; g]
  | _ => st
  end.

Definition sha_block (st : list N) (block : list N) : list N :=
  let ws := reverse (schedule 64 (reverse (be_words 16 block))) in
  zip_with add64 st (foldl sha_round st (zip sha512_K ws)).

Fixpoint sha_blocks (fuel : nat) (st l : list N) : list N :=
  match fuel with
  | O => st
  | S f => sha_blocks f (sha_block st (take 128 l)) (drop 128 l)
  end.

(** [sha512.Sum512]: 64 bytes. *)
Definition Sum512 (s : string) : list N :=
  let l := sha_pad (bytes_of s) in
  mjoin (map (be_bytes 8) (sha_blocks (length l / 128) sha512_H0 l)).

(** The test vector of FIPS 180-4. *)
Example Sum512_abc :
  hex_encode (Sum512 "abc") =
  "ddaf35a193617abacc417349ae20413112e6fa4e89a97ea20a9eeee64b55d39a" +:+
  "2192992a274fc1a836ba3c23a3feebbd454d4423643ce80e2a9ac94fa54ca49f".
Proof. by vm_compute. Qed.
