(* ===== verification/Credential.v ===== *)
(** * Credentials, Apsara overrides and the client constructor

    [resolveCredentialFrom], [firstNonEmptyFrom], [roleSessionExpirationFrom]
    and [NewCAPIClient] of [pkg/client/capi.go], and [applyApsaraOverrides] of
    [pkg/client/apsara.go].  The environment is a function from variable names
    to values, the empty string standing for an unset variable as it does for
    [os.Getenv].  The SDK's client constructors and its endpoint table are
    parameters. *)

From S2P Require Import Api.

(** [strconv.Atoi]: an optional sign and decimal digits, in the range of
    [int]; [None] is an error. *)
Definition digit_value (c : ascii) : option Z :=
  let n := Z.of_nat (nat_of_ascii c) in
  if decide (48 <= n <= 57)%Z then Some (n - 48)%Z else None.

Fixpoint digits_value (acc : Z) (s : string) : option Z :=
  match s with
  | EmptyString => Some acc
  | String c s' => d ← digit_value c; digits_value (10 * acc + d)%Z s'
  end.

(** The sign and the rest. *)
Definition split_sign (s : string) : bool * string :=
  match s with
  | String c s' =>
      if Ascii.eqb c "-" then (true, s') else if Ascii.eqb c "+" then (false, s') else (false, s)
  | EmptyString => (false, s)
  end.

Definition Atoi (s : string) : option Z :=
  let '(neg, body) := split_sign s in
  if decide (body = "") then None
  else
    n ← digits_value 0 body;
    let v := if neg then (- n)%Z else n in
    if decide (- 2 ^ 63 <= v < 2 ^ 63)%Z then Some v else None.

Example Atoi_ex :
  Atoi "3600" = Some 3600%Z /\ Atoi "-7" = Some (-7)%Z /\ Atoi "12h" = None /\ Atoi "" = None /\
  Atoi "9223372036854775808" = None.
Proof. by vm_compute. Qed.

Lemma Atoi_range s n : Atoi s = Some n -> (- 2 ^ 63 <= n < 2 ^ 63)%Z.
Proof.
  unfold Atoi. destruct (split_sign s) as [neg body]. destruct (decide _); [done|].
  destruct (digits_value _ _); cbn; [|done].
  destruct (decide _); [|done]. by intros [= <-].
Qed.

Definition Env := string -> string.

Fixpoint firstNonEmptyFrom (getenv : Env) (keys : list string) : string :=
  match keys with
  | [] => ""
  | k :: keys' => if decide (getenv k = "") then firstNonEmptyFrom getenv keys' else getenv k
  end.

(** The credentials of the SDK's [auth/credentials] package. *)
Inductive Credential :=
  | NewEcsRamRoleCredential (roleName : string)
  | NewRamRoleArnCredential (accessKeyId accessKeySecret roleArn session : string) (expiration : Z)
  | NewAccessKeyCredential (accessKeyId accessKeySecret : string).

Definition defaultRoleSessionName : string := "capa-controller".
Definition defaultRoleSessionExpiration : Z := 3600.

Definition roleSessionExpirationFrom (getenv : Env) : Z :=
  let v := getenv "ALIBABA_CLOUD_ROLE_SESSION_EXPIRATION" in
  if decide (v = "") then defaultRoleSessionExpiration
  else match Atoi v with
       | Some n => if decide (900 <= n)%Z then n else defaultRoleSessionExpiration
       | None => defaultRoleSessionExpiration
       end.

Definition ak_vars : list string := ["ALIBABA_CLOUD_ACCESS_KEY_ID"; "ALIBABACLOUD_ACCESS_KEY_ID"].
Definition sk_vars : list string :=
  ["ALIBABA_CLOUD_ACCESS_KEY_SECRET"; "ALIBABACLOUD_ACCESS_KEY_SECRET"].

Definition static_source : string :=
  "static AccessKey from environment (no auto-rotation; prefer an ECS RAM role or ALIBABA_CLOUD_ROLE_ARN in production)".
Definition discovered_source : string := "ECS RAM role (auto-discovered from metadata)".

Definition resolveCredentialFrom (getenv : Env) : Credential * string :=
  let role := getenv "ALIBABA_CLOUD_ECS_METADATA" in
  if decide (role <> "") then
    (NewEcsRamRoleCredential role, "ECS RAM role (explicit: " +:+ role +:+ ")")
  else
    let ak := firstNonEmptyFrom getenv ak_vars in
    let sk := firstNonEmptyFrom getenv sk_vars in
    let roleArn := getenv "ALIBABA_CLOUD_ROLE_ARN" in
    if decide (roleArn <> "" /\ ak <> "" /\ sk <> "") then
      let session := firstNonEmptyFrom getenv ["ALIBABA_CLOUD_ROLE_SESSION_NAME"] in
      let session := if decide (session = "") then defaultRoleSessionName else session in
      (NewRamRoleArnCredential ak sk roleArn session (roleSessionExpirationFrom getenv),
       "RAM RoleArn AssumeRole (role=" +:+ roleArn +:+ ", session=" +:+ session +:+ ")")
    else if decide (ak <> "" /\ sk <> "") then (NewAccessKeyCredential ak sk, static_source)
    else (NewEcsRamRoleCredential "", discovered_source).

Definition resolveCredential (getenv : Env) : Credential := (resolveCredentialFrom getenv).1.
Definition CredentialSource (getenv : Env) : string := (resolveCredentialFrom getenv).2.

(** ** Apsara overrides *)

(** [sdk.Config], the fields the program sets; [cfg_Transport] is the header
    map of the injecting transport, when one is installed. *)
Record SdkConfig := mkSdkConfig {
  cfg_UserAgent : string;
  cfg_Scheme : string;
  cfg_AutoRetry : bool;
  cfg_MaxRetryTime : Z;
  cfg_Transport : option (gmap string string);
}.
#[export] Instance eta_SdkConfig : Eta SdkConfig := fun c =>
  mkSdkConfig (cfg_UserAgent c) (cfg_Scheme c) (cfg_AutoRetry c) (cfg_MaxRetryTime c)
    (cfg_Transport c).

Definition apsaraEndpointEnv : list (string * string) :=
  [("Ecs", "ALIBABA_CLOUD_ENDPOINT_ECS"); ("Vpc", "ALIBABA_CLOUD_ENDPOINT_VPC");
   ("Slb", "ALIBABA_CLOUD_ENDPOINT_SLB");
   ("ResourceManager", "ALIBABA_CLOUD_ENDPOINT_RESOURCEMANAGER")].
Definition envApsaraScheme : string := "ALIBABA_CLOUD_SCHEME".
Definition envApsaraOrganization : string := "ALIBABA_CLOUD_ORGANIZATION_ID".
Definition envApsaraResourceGroup : string := "ALIBABA_CLOUD_RESOURCE_GROUP_ID".
Definition envApsaraCallerSource : string := "ALIBABA_CLOUD_CALLER_SDK_SOURCE".

(** The transport's effect on a request: its headers, with those of the map
    set over the ones the request has ([headerInjector.RoundTrip]). *)
Definition RoundTrip (headers req : gmap string string) : gmap string string := headers ∪ req.

(** [endpoints.AddEndpointMapping(regionID, product, endpoint)]. *)
Class Endpoints (W : Type) := AddEndpointMapping : string -> string -> string -> M W ().

Section apsara.
Context {W : Type} `{!Endpoints W} (getenv : Env).

(** One turn of the loop over the endpoint table. *)
Definition map_endpoint (regionID product env : string) (applied : bool) : M W bool :=
  let ep := firstNonEmptyFrom getenv [env] in
  if decide (ep = "") then mret applied
  else
    r ← try (AddEndpointMapping regionID product ep);
    match r with
    | inl _ => mret applied
    | inr _ => mret true
    end.

(** The table is a Go map: [order] is the order this run ranges over it in,
    any permutation of [apsaraEndpointEnv]. *)
Fixpoint map_endpoints (regionID : string) (order : list (string * string)) (applied : bool)
    : M W bool :=
  match order with
  | [] => mret applied
  | (product, env) :: order' =>
      applied' ← map_endpoint regionID product env applied;
      map_endpoints regionID order' applied'
  end.

Definition apsara_headers (regionID : string) : gmap string string :=
  let org := firstNonEmptyFrom getenv [envApsaraOrganization] in
  let rg := firstNonEmptyFrom getenv [envApsaraResourceGroup] in
  let h : gmap string string := ∅ in
  let h := if decide (org = "") then h else <["x-acs-organizationid" := org]> h in
  let h := if decide (rg = "") then h else <["x-acs-resourcegroupid" := rg]> h in
  if decide (h = ∅) then h
  else
    let h := <["x-acs-regionid" := regionID]> h in
    let src := firstNonEmptyFrom getenv [envApsaraCallerSource] in
    if decide (src = "") then h else <["x-acs-caller-sdk-source" := src]> h.

Definition applyApsaraOverrides (order : list (string * string)) (cfg : SdkConfig)
    (regionID : string) : M W (bool * SdkConfig) :=
  applied ← map_endpoints regionID order false;
  let scheme := firstNonEmptyFrom getenv [envApsaraScheme] in
  let '(applied, cfg) :=
    if decide (scheme = "") then (applied, cfg) else (true, cfg <| cfg_Scheme := scheme |>) in
  let headers := apsara_headers regionID in
  if decide (headers = ∅) then mret (applied, cfg)
  else mret (true, cfg <| cfg_Transport := Some headers |>).
End apsara.

(** ** [NewCAPIClient] *)

Definition machineProviderUserAgent (version : string) : string :=
  "openshift.io cluster-api-provider-alibaba:" +:+ version.

(** The SDK's [NewClientWithOptions] constructors. *)
Class SdkConstructors (W Ecs Vpc Slb Rm : Type) := {
  ecs_NewClientWithOptions : string -> SdkConfig -> Credential -> M W Ecs;
  vpc_NewClientWithOptions : string -> SdkConfig -> Credential -> M W Vpc;
  slb_NewClientWithOptions : string -> SdkConfig -> Credential -> M W Slb;
  rm_NewClientWithOptions : string -> SdkConfig -> Credential -> M W Rm;
}.

Definition capiSdkConfig (version : string) : SdkConfig :=
  mkSdkConfig (machineProviderUserAgent version) "HTTPS" true 3 None.

Definition NewCAPIClient {W Ecs Vpc Slb Rm} `{!Endpoints W} `{!SdkConstructors W Ecs Vpc Slb Rm}
    (version : string) (getenv : Env) (order : list (string * string)) (regionID : string)
    : M W (Ecs * Vpc * Slb * Rm) :=
  '(_, sdkConfig) ← applyApsaraOverrides getenv order (capiSdkConfig version) regionID;
  let cred := resolveCredential getenv in
  ecsClient ← wrap ("failed to create ECS client for region " +:+ regionID +:+ ": ")
                (ecs_NewClientWithOptions regionID sdkConfig cred);
  vpcClient ← wrap "failed to create VPC client: "
                (vpc_NewClientWithOptions regionID sdkConfig cred);
  slbClient ← wrap "failed to create SLB client: "
                (slb_NewClientWithOptions regionID sdkConfig cred);
  rmClient ← wrap "failed to create ResourceManager client: "
               (rm_NewClientWithOptions regionID sdkConfig cred);
  mret (ecsClient, vpcClient, slbClient, rmClient).

(** ** Theorems *)

Lemma roleSessionExpirationFrom_bounds getenv :
  (900 <= roleSessionExpirationFrom getenv < 2 ^ 63)%Z.
Proof.
  unfold roleSessionExpirationFrom. destruct (decide _); [by split|].
  destruct (Atoi _) as [m|] eqn:E; [|by split]. destruct (decide _); [|by split].
  split; [done|]. apply Atoi_range in E. lia.
Qed.

(** What a credential must be to be usable. *)
Definition credential_ok (getenv : Env) (c : Credential) : Prop :=
  match c with
  | NewEcsRamRoleCredential _ => True
  | NewRamRoleArnCredential ak sk arn session e =>
      ak <> "" /\ sk <> "" /\ arn <> "" /\ session <> "" /\ (900 <= e < 2 ^ 63)%Z /\
      getenv "ALIBABA_CLOUD_ECS_METADATA" = ""
  | NewAccessKeyCredential ak sk =>
      ak <> "" /\ sk <> "" /\
      getenv "ALIBABA_CLOUD_ECS_METADATA" = "" /\ getenv "ALIBABA_CLOUD_ROLE_ARN" = ""
  end.

(** C36. Whatever the environment, the credential is complete: an assumed role has
    both halves of the base key, a session name and an expiration of at least
    900 seconds that fits an [int]; a static key has both halves and is used
    only when neither a role name nor a role ARN is configured. *)
Theorem resolveCredential_ok getenv : credential_ok getenv (resolveCredential getenv).
Proof.
  unfold resolveCredential, resolveCredentialFrom.
  destruct (decide (getenv "ALIBABA_CLOUD_ECS_METADATA" <> "")) as [|Hr]; [done|].
  apply dec_stable in Hr. destruct (decide _) as [(? & ? & ?)|Harn].
  - cbn [fst credential_ok]. split_and!; try done; try apply roleSessionExpirationFrom_bounds.
    destruct (decide _); done.
  - destruct (decide _) as [[? ?]|]; [|done]. cbn [fst credential_ok].
    split_and!; try done. destruct (decide (getenv "ALIBABA_CLOUD_ROLE_ARN" = "")); [done|tauto].
Qed.

(** The label logged at start-up carries no secret: environments that differ
    only in the access keys, and agree on which of them are set, give the same
    label. *)
Theorem CredentialSource_no_secret getenv getenv' :
  (forall k, k ∉ ak_vars -> k ∉ sk_vars -> getenv k = getenv' k) ->
  (firstNonEmptyFrom getenv ak_vars = "" <-> firstNonEmptyFrom getenv' ak_vars = "") ->
  (firstNonEmptyFrom getenv sk_vars = "" <-> firstNonEmptyFrom getenv' sk_vars = "") ->
  CredentialSource getenv = CredentialSource getenv'.
Proof.
  intros Heq Hak Hsk.
  assert (forall k, bool_decide (k ∈ ak_vars ++ sk_vars) = false -> getenv k = getenv' k) as H.
  { intros k Hk%bool_decide_eq_false. rewrite not_elem_of_app in Hk. apply Heq; tauto. }
  unfold CredentialSource, resolveCredentialFrom. cbn [firstNonEmptyFrom].
  rewrite <- !(H "ALIBABA_CLOUD_ECS_METADATA"), <- !(H "ALIBABA_CLOUD_ROLE_ARN"),
    <- !(H "ALIBABA_CLOUD_ROLE_SESSION_NAME") by done.
  destruct (decide (getenv "ALIBABA_CLOUD_ECS_METADATA" <> "")); [done|].
  set (P := firstNonEmptyFrom getenv ak_vars) in *. set (Q := firstNonEmptyFrom getenv sk_vars) in *.
  set (P' := firstNonEmptyFrom getenv' ak_vars) in *.
  set (Q' := firstNonEmptyFrom getenv' sk_vars) in *.
  destruct (decide (getenv "ALIBABA_CLOUD_ROLE_ARN" <> "" /\ P <> "" /\ Q <> "")),
    (decide (getenv "ALIBABA_CLOUD_ROLE_ARN" <> "" /\ P' <> "" /\ Q' <> "")); try first [done|tauto].
  destruct (decide (P <> "" /\ Q <> "")), (decide (P' <> "" /\ Q' <> "")); first [done|tauto].
Qed.

(** An environment of assignments. *)
Definition env_of (l : list (string * string)) : Env := fun k =>
  default "" (list_to_map (M := gmap string string) l !! k).

Lemma CredentialSource_no_secret_witness :
  CredentialSource (env_of [("ALIBABA_CLOUD_ACCESS_KEY_ID", "LTAI1");
                            ("ALIBABA_CLOUD_ACCESS_KEY_SECRET", "s3cret")]) =
  CredentialSource (env_of [("ALIBABA_CLOUD_ACCESS_KEY_ID", "LTAI2");
                            ("ALIBABACLOUD_ACCESS_KEY_SECRET", "0ther")]).
Proof.
  apply CredentialSource_no_secret; [|split; done..].
  intros k H1 H2. unfold ak_vars, sk_vars in *. rewrite !elem_of_cons in H1, H2.
  unfold env_of. cbn. rewrite !lookup_insert_ne by naive_solver. done.
Defined.

(** ** Apsara: nothing configured, nothing changed; and the order of the table
    does not matter *)

Definition apsara_vars : list string :=
  map snd apsaraEndpointEnv ++ [envApsaraScheme; envApsaraOrganization; envApsaraResourceGroup].

(** What the model relies on of the SDK's endpoint table: entries for different
    products are independent, and adding one does not panic. *)
Class EndpointsLaws (W : Type) `{!Endpoints W} : Prop := {
  AddEndpointMapping_returns r p e w s w' : AddEndpointMapping r p e w <> (Panic s, w');
  AddEndpointMapping_comm r p p' e e' w : p <> p' ->
    (AddEndpointMapping r p e (AddEndpointMapping r p' e' w).2).2 =
    (AddEndpointMapping r p' e' (AddEndpointMapping r p e w).2).2;
  AddEndpointMapping_result r p p' e e' w : p <> p' ->
    (AddEndpointMapping r p e (AddEndpointMapping r p' e' w).2).1 = (AddEndpointMapping r p e w).1;
}.

Section apsara_theorems.
Context {W : Type} `{!Endpoints W} `{!EndpointsLaws W} (getenv : Env) (regionID : string).
Implicit Types w : W.

(** One turn as a pure step: did it apply, and the new world. *)
Definition endpoint_step (pe : string * string) w : bool * W :=
  let ep := firstNonEmptyFrom getenv [pe.2] in
  if decide (ep = "") then (false, w)
  else let q := AddEndpointMapping regionID pe.1 ep w in
       (match q.1 with Ok _ => true | _ => false end, q.2).

Lemma map_endpoints_cons pe order applied w :
  map_endpoints getenv regionID (pe :: order) applied w =
  map_endpoints getenv regionID order (applied || (endpoint_step pe w).1) (endpoint_step pe w).2.
Proof.
  destruct pe as [p env]. cbn [map_endpoints]. unfold mbind, M_bind, map_endpoint, endpoint_step.
  cbn [fst snd]. destruct (decide _); [by rewrite orb_false_r|].
  unfold mbind, M_bind, try.
  destruct (AddEndpointMapping _ _ _ w) as [[[]|e|s] w'] eqn:E; cbn.
  - by rewrite orb_true_r.
  - by rewrite orb_false_r.
  - by destruct (AddEndpointMapping_returns _ _ _ _ _ _ E).
Qed.

Lemma endpoint_step_comm x y w : x.1 <> y.1 ->
  (endpoint_step x (endpoint_step y w).2).2 = (endpoint_step y (endpoint_step x w).2).2 /\
  (endpoint_step x (endpoint_step y w).2).1 = (endpoint_step x w).1.
Proof.
  intros Hne. unfold endpoint_step.
  destruct (decide (firstNonEmptyFrom getenv [x.2] = "")),
    (decide (firstNonEmptyFrom getenv [y.2] = "")); try done.
  cbn [fst snd]. split.
  - by apply AddEndpointMapping_comm.
  - by rewrite AddEndpointMapping_result.
Qed.

Lemma map_endpoints_perm order order' : order ≡ₚ order' -> NoDup order.*1 -> forall applied w,
  map_endpoints getenv regionID order applied w = map_endpoints getenv regionID order' applied w.
Proof.
  induction 1 as [|x l l' _ IH|x y l|l1 l2 l3 H1 IH1 _ IH2]; intros Hnd applied w.
  - done.
  - rewrite !map_endpoints_cons. apply IH. by apply NoDup_cons_1_2 in Hnd.
  - rewrite !map_endpoints_cons. cbn in Hnd. inversion_clear Hnd as [|? ? Hx _].
    rewrite elem_of_cons in Hx.
    assert (x.1 <> y.1) as Hne by (intros E; apply Hx; by left).
    destruct (endpoint_step_comm x y w Hne) as [-> ->].
    destruct (endpoint_step_comm y x w (not_eq_sym Hne)) as [_ ->].
    f_equal. by rewrite <- !orb_assoc, (orb_comm (endpoint_step x w).1).
  - rewrite IH1 by done. apply IH2. by rewrite <- H1.
Qed.

(** The Apsara overrides do not depend on the order in which Go ranges over
    the endpoint table. *)
Theorem applyApsaraOverrides_order order cfg w :
  order ≡ₚ apsaraEndpointEnv ->
  applyApsaraOverrides getenv order cfg regionID w =
  applyApsaraOverrides getenv apsaraEndpointEnv cfg regionID w.
Proof.
  intros Hp. unfold applyApsaraOverrides, mbind, M_bind.
  rewrite (map_endpoints_perm apsaraEndpointEnv order); [done|done|].
  by apply (bool_decide_unpack _); vm_compute.
Qed.

(** With no Apsara variable set the overrides change nothing: not the
    configuration, not the endpoint table; and they report that. *)
Theorem applyApsaraOverrides_noop order cfg w :
  order ≡ₚ apsaraEndpointEnv ->
  (forall k, k ∈ apsara_vars -> getenv k = "") ->
  applyApsaraOverrides getenv order cfg regionID w = (Ok (false, cfg), w).
Proof.
  intros Hp Hk.
  assert (forall order applied, Forall (fun pe => pe.2 ∈ apsara_vars) order ->
            map_endpoints getenv regionID order applied w = (Ok applied, w)) as Hmap.
  { clear order Hp. induction order as [|pe order IH]; intros applied HF; [done|].
    apply Forall_cons_1 in HF as [H1 H2]. rewrite map_endpoints_cons. unfold endpoint_step.
    cbn [firstNonEmptyFrom]. rewrite (Hk _ H1). cbn. rewrite orb_false_r. by apply IH. }
  unfold applyApsaraOverrides, mbind, M_bind. rewrite Hmap.
  2: { rewrite Hp. by apply (bool_decide_unpack _); vm_compute. }
  unfold apsara_headers. cbn [firstNonEmptyFrom].
  by rewrite (Hk envApsaraScheme), (Hk envApsaraOrganization), (Hk envApsaraResourceGroup)
    by (apply (bool_decide_unpack _); by vm_compute).
Qed.
End apsara_theorems.

(** A table that accepts every endpoint. *)
Definition tableEndpoints : Endpoints (gmap (string * string) string) :=
  fun r p e w => (Ok (), <[(r, p) := e]> w).

Lemma tableEndpoints_laws : @EndpointsLaws _ tableEndpoints.
Proof.
  split; [done| |done]. intros r p p' e e' w Hne. cbn. apply insert_insert_ne. congruence.
Qed.

Lemma applyApsaraOverrides_order_witness :
  @applyApsaraOverrides _ tableEndpoints (env_of [("ALIBABA_CLOUD_ENDPOINT_ECS", "ecs.local")])
    (reverse apsaraEndpointEnv) (capiSdkConfig "v1") "r" ∅ =
  @applyApsaraOverrides _ tableEndpoints (env_of [("ALIBABA_CLOUD_ENDPOINT_ECS", "ecs.local")])
    apsaraEndpointEnv (capiSdkConfig "v1") "r" ∅.
Proof.
  apply (@applyApsaraOverrides_order _ tableEndpoints tableEndpoints_laws).
  apply reverse_Permutation.
Defined.

Lemma applyApsaraOverrides_noop_witness :
  @applyApsaraOverrides _ tableEndpoints (env_of []) apsaraEndpointEnv (capiSdkConfig "v1") "r" ∅ =
  (Ok (false, capiSdkConfig "v1"), ∅).
Proof.
  apply (@applyApsaraOverrides_noop _ tableEndpoints tableEndpoints_laws); [done|].
  intros k _. unfold env_of. cbn. by rewrite lookup_empty.
Defined.
