(* ===== verification/Oss.v ===== *)
(** * Offloaded Ignition objects

    [pkg/client/oss.go]: the OSS endpoint, and the upload and removal of an
    Ignition payload.  The OSS SDK is a parameter. *)

From S2P Require Import Api CloudClient Credential.

(** [ossEndpointFor]. *)
Definition ossEndpointFor (endpoint region : string) : string :=
  if decide (endpoint = "") then "https://oss-" +:+ region +:+ "-internal.aliyuncs.com"
  else endpoint.

(** The OSS SDK: a client is made from an endpoint and a key pair, a bucket from
    a client and a name. *)
Class OssSdk (W : Type) := {
  OssClient : Type;
  OssBucket : Type;
  oss_New : string -> string -> string -> M W OssClient;
  oss_Bucket : OssClient -> string -> M W OssBucket;
  oss_PutObject : OssBucket -> string -> string -> M W ();
  oss_SignURL : OssBucket -> string -> Z -> M W string;     (* HTTP GET *)
  oss_DeleteObject : OssBucket -> string -> M W ();
}.

(** [int64(d.Seconds())]: whole seconds and the fraction are added as
    [float64] and truncated. *)
Definition float_of_Z (z : Z) : float64 := binary_normalize 53 1024 z 0 false.
Definition Seconds (d : Z) : float64 :=
  SFadd 53 1024 (float_of_Z (Z.quot d Second))
    (SFdiv 53 1024 (float_of_Z (Z.rem d Second)) (float_of_Z Second)).

(** A Go [float64] to [int64] conversion truncates; outside the range of
    [int64] the language leaves the value to the implementation. *)
Class GoFloat := int64_out_of_range : float64 -> Z.

Definition float_trunc (f : float64) : option Z :=
  match f with
  | S754_zero _ => Some 0%Z
  | S754_finite sg m e =>
      let a := if (0 <=? e)%Z then (Zpos m * 2 ^ e)%Z else Z.quot (Zpos m) (2 ^ (- e)) in
      Some (if sg then (- a)%Z else a)
  | S754_infinity _ | S754_nan => None
  end.

Definition int64_of_float `{!GoFloat} (f : float64) : Z :=
  match float_trunc f with
  | Some z => if decide (- 2 ^ 63 <= z < 2 ^ 63)%Z then z else int64_out_of_range f
  | None => int64_out_of_range f
  end.

Definition Hour : Z := (3600 * Second)%Z.

Example Seconds_ex `{!GoFloat} :
  int64_of_float (Seconds Hour) = 3600%Z /\ int64_of_float (Seconds (90 * Second)) = 90%Z /\
  int64_of_float (Seconds 1999999999) = 1%Z.
Proof. by vm_compute. Qed.

Section oss.
Context {W : Type} `{!OssSdk W} `{!GoFloat} (getenv : Env).

Definition newOSSClient (endpoint region : string) : M W OssClient :=
  let ak := firstNonEmptyFrom getenv ak_vars in
  let sk := firstNonEmptyFrom getenv sk_vars in
  if decide (ak = "" \/ sk = "") then
    throw (ErrorString "OSS ignition offload requires ALIBABA_CLOUD_ACCESS_KEY_{ID,SECRET} in the controller environment")
  else oss_New (ossEndpointFor endpoint region) ak sk.

Definition PutIgnitionObject_ (p : IgnitionStoreParams) : M W string :=
  cli ← newOSSClient (isp_Endpoint p) (isp_RegionID p);
  bucket ← wrap ("OSS bucket " +:+ isp_Bucket p +:+ ": ") (oss_Bucket cli (isp_Bucket p));
  wrap ("OSS put " +:+ isp_Bucket p +:+ "/" +:+ isp_Key p +:+ ": ")
    (oss_PutObject bucket (isp_Key p) (isp_Data p)) ;;
  let expiry := if decide (isp_Expiry p <= 0)%Z then Hour else isp_Expiry p in
  wrap ("OSS sign " +:+ isp_Bucket p +:+ "/" +:+ isp_Key p +:+ ": ")
    (oss_SignURL bucket (isp_Key p) (int64_of_float (Seconds expiry))).

Definition DeleteIgnitionObject_ (p : IgnitionStoreParams) : M W () :=
  cli ← newOSSClient (isp_Endpoint p) (isp_RegionID p);
  bucket ← wrap ("OSS bucket " +:+ isp_Bucket p +:+ ": ") (oss_Bucket cli (isp_Bucket p));
  wrap ("OSS delete " +:+ isp_Bucket p +:+ "/" +:+ isp_Key p +:+ ": ")
    (oss_DeleteObject bucket (isp_Key p)).
End oss.

(** ** Invariance

    A property of the world that the OSS calls keep is kept by both
    operations. *)
Class OssKeeps {W} `{!OssSdk W} (I : W -> Prop) : Prop := {
  keep_New e ak sk : keeps I (oss_New e ak sk);
  keep_Bucket c b : keeps I (oss_Bucket c b);
  keep_PutObject b k d : keeps I (oss_PutObject b k d);
  keep_SignURL b k n : keeps I (oss_SignURL b k n);
  keep_DeleteObject b k : keeps I (oss_DeleteObject b k);
}.
#[export] Hint Resolve keep_New keep_Bucket keep_PutObject keep_SignURL keep_DeleteObject : keeps.

Section keeps.
Context {W : Type} `{!OssSdk W} `{!GoFloat} (getenv : Env) (I : W -> Prop) `{!OssKeeps I}.

Lemma newOSSClient_keeps e r : keeps I (newOSSClient getenv e r).
Proof. unfold newOSSClient. keeps_tac. Qed.
#[local] Hint Resolve newOSSClient_keeps : keeps.

Lemma DeleteIgnitionObject_keeps p : keeps I (DeleteIgnitionObject_ getenv p).
Proof. unfold DeleteIgnitionObject_. keeps_tac. Qed.

Lemma PutIgnitionObject_keeps p : keeps I (PutIgnitionObject_ getenv p).
Proof. unfold PutIgnitionObject_. keeps_tac. Qed.
End keeps.
