(* ===== verification/SimSdk.v ===== *)
(** * A simulated SDK

    A concrete cloud that keeps the SDK's promises: instances in a finite map,
    listings by filter, no randomness.  It instantiates the parameters of the
    model where a theorem is applied to a concrete run; no theorem depends on
    it. *)

From S2P Require Import Api CloudClient Retry EcsSdk Oss.

Record SimWorld := mkSimWorld {
  sim_cloud : Cloud;
  sim_runs : list RunInstancesRequest;       (* latest first *)
}.
#[export] Instance eta_SimWorld : Eta SimWorld := fun w => mkSimWorld (sim_cloud w) (sim_runs w).

#[export] Instance float64_eq_dec : EqDecision float64.
Proof. unfold float64. solve_decision. Defined.
#[export] Instance CloudInstance_eq_dec : EqDecision CloudInstance.
Proof. solve_decision. Defined.
#[export] Instance RunInstancesDataDisk_eq_dec : EqDecision RunInstancesDataDisk.
Proof. solve_decision. Defined.
#[export] Instance RunInstancesRequest_eq_dec : EqDecision RunInstancesRequest.
Proof. solve_decision. Defined.
#[export] Instance SimWorld_eq_dec : EqDecision SimWorld.
Proof. solve_decision. Defined.

(** Instance ids are not empty. *)
Definition sim_cloud_of (w : SimWorld) : Cloud := delete "" (sim_cloud w).

Definition sim_region : string := "cn-hangzhou".

Definition sim_matches (req : DescribeInstancesRequest) (x : string * CloudInstance) : Prop :=
  (dir_InstanceIds req = "" \/ dir_InstanceIds req = json_id_array x.1) /\
  ci_Region x.2 = (if decide (dir_RegionId req = "") then sim_region else dir_RegionId req) /\
  Forall (fun t => t ∈ ci_Tags x.2) (dir_Tag req).
#[export] Instance sim_matches_dec req x : Decision (sim_matches req x).
Proof. unfold sim_matches. apply _. Defined.

Definition sim_instance (x : string * CloudInstance) : SdkInstance :=
  mkSdkInstance x.1 (ci_Status x.2) ("host-" +:+ x.1) ["10.0.0.7"] [].

Definition sim_describe (req : DescribeInstancesRequest) : M SimWorld (list SdkInstance) := fun w =>
  (Ok (map sim_instance (filter (sim_matches req) (map_to_list (sim_cloud_of w)))), w).

Definition sim_run (req : RunInstancesRequest) : M SimWorld (list string) := fun w =>
  let id := "i-" +:+ pretty (length (sim_runs w)) in
  if decide (sim_cloud w !! id = None) then
    (Ok [id], mkSimWorld
       (<[id := mkCloudInstance (rr_RegionId req) InstanceStatePending (default [] (rr_Tag req))]>
          (sim_cloud w)) (req :: sim_runs w))
  else (Err (ServerError 500 "InternalError" "try again"), w).

Definition sim_delete (req : DeleteInstanceRequest) : M SimWorld () := fun w =>
  match sim_cloud w !! del_InstanceId req with
  | Some _ => (Ok (), w <| sim_cloud ::= delete (del_InstanceId req) |>)
  | None => (Err (ServerError 404 "InvalidInstanceId.NotFound" "not found"), w)
  end.

Definition emptyRunRequest : RunInstancesRequest :=
  mkRunInstancesRequest "" "" "" "" "" "" "" "" "" "" "" "" "" "" "" ∅ "" None "" "" None None
    None None.

#[export] Instance simSdk : EcsSdk SimWorld := {|
  CreateDescribeInstancesRequest := mkDescribeInstancesRequest "" "" [];
  CreateRunInstancesRequest := emptyRunRequest;
  CreateStopInstanceRequest := mkStopInstanceRequest "" "";
  CreateDeleteInstanceRequest := mkDeleteInstanceRequest "" "";
  CreateModifyInstanceMetadataOptionsRequest := mkModifyInstanceMetadataOptionsRequest "" "" "" None;
  ecs_DescribeInstances := sim_describe;
  ecs_RunInstances := sim_run;
  ecs_StopInstance _ := mret ();
  ecs_DeleteInstance := sim_delete;
  ecs_ModifyInstanceMetadataOptions _ := mret ();
  ecs_DescribeInstanceTypes _ :=
    mret [mkSdkInstanceType "ecs.g7.large" 2 (S754_finite false 4503599627370496 (-49))];
  ecs_DescribeDisks _ := mret ["d-1"; ""];
  ecs_DescribeNetworkInterfaces _ := throw (ServerError 403 "Forbidden.RAM" "denied");
  ecs_TagResources _ := throw (ServerError 400 "InvalidTag" "tag");
|}.
#[export] Instance simRand : GoRand SimWorld := fun n w => (Ok (n - 1)%Z, w).

#[export] Instance simRand_laws : GoRandLaws SimWorld.
Proof. split. intros n w Hn. exists (n - 1)%Z, w. split; [done|lia]. Qed.
#[export] Instance simRand_keeps (I : SimWorld -> Prop) : RandKeeps I.
Proof. by intros n w. Qed.
#[export] Instance simSdk_total : EcsSdkTotal SimWorld.
Proof. by split. Qed.

Lemma app_inj_l (s t u : string) : s +:+ t = s +:+ u -> t = u.
Proof. induction s as [|a s IH]; [done|]. rewrite !app_String. intros [= ?]. auto. Qed.

Lemma app_inj_char (s t : string) c : s +:+ String c "" = t +:+ String c "" -> s = t.
Proof.
  revert t. induction s as [|a s IH]; intros [|b t]; [done| | |].
  - rewrite app_String. intros [= _ H]. by destruct t.
  - rewrite app_String. intros [= _ H]. by destruct s.
  - rewrite !app_String. intros [= -> H]. by rewrite (IH _ H).
Qed.

Lemma json_id_array_inj a b : json_id_array a = json_id_array b -> a = b.
Proof.
  unfold json_id_array, quote_str. intros H%app_inj_l%app_inj_l.
  change (String (ascii_of_nat 34) "" +:+ "]") with ("" +:+ String (ascii_of_nat 34) "" +:+ "]") in H.
  rewrite <- !app_assoc_string in H. apply app_inj_char in H. rewrite !app_empty_r in H.
  by apply app_inj_char in H.
Qed.

Lemma sim_describe_elem req w l w' inst :
  sim_describe req w = (Ok l, w') ->
  inst ∈ l <-> exists id i, inst = sim_instance (id, i) /\ sim_matches req (id, i) /\
                 sim_cloud_of w !! id = Some i.
Proof.
  intros [= <- _]. rewrite list_elem_of_fmap. split.
  - intros ([id i] & -> & [Hm Hx]%list_elem_of_filter). apply elem_of_map_to_list in Hx. eauto.
  - intros (id & i & -> & Hm & Hx). exists (id, i). split; [done|].
    apply list_elem_of_filter. by rewrite elem_of_map_to_list.
Qed.

#[export] Instance simSdk_laws : EcsSdkLaws sim_cloud_of sim_region.
Proof.
  split.
  - by intros req cl w.
  - intros id w l w' H. cbn in H. pose proof (fun inst => sim_describe_elem _ _ _ _ inst H) as He.
    split.
    + intros inst (id' & i & -> & (Hid & Hr & _) & Hl)%He. cbn in *.
      destruct Hid as [?|Hid%json_id_array_inj]; [done|]. subst id'. eauto.
    + intros i Hl Hr ->. apply (not_elem_of_nil (sim_instance (id, i))). apply He.
      exists id, i. split_and!; [done| |done]. split_and!; cbn; auto.
  - intros r k v w l w' Hne H. cbn in H. pose proof (fun inst => sim_describe_elem _ _ _ _ inst H) as He.
    split.
    + intros inst (id' & i & -> & (_ & Hr & Ht) & Hl)%He. cbn in *.
      apply Forall_cons_1 in Ht as [Ht _]. rewrite decide_False in Hr by done. by exists i.
    + assert (forall id i, sim_cloud_of w !! id = Some i -> ci_Region i = r -> mkSDKTag k v ∈ ci_Tags i ->
        sim_instance (id, i) ∈ l) as Hall.
      { intros id i Hl Hr Ht. apply He. exists id, i. split_and!; [done| |done].
        split_and!; cbn; [by left| |by constructor]. by rewrite decide_False. }
      split.
      * intros _ id i Hl Hr Ht. exists (sim_instance (id, i)). split; [auto|done].
      * intros _ id i Hl (Hr & Ht & Hs). exists (sim_instance (id, i)). split; [auto|done].
  - intros w. apply lookup_delete_eq.
Qed.

#[export] Instance simSdk_effects : EcsSdkEffects sim_cloud_of.
Proof.
  assert (forall s, "" <> "i-" +:+ s) as Hne by (intros s; by rewrite app_String).
  split; try (by intros req cl w); try (by intros req cl H w).
  - intros req w r w' _. cbn. unfold sim_run. case_decide as Hid; intros [= <- <-]; [right|by left].
    eexists _, (mkCloudInstance _ _ _). split_and!; [|reflexivity..|].
    + unfold sim_cloud_of. rewrite lookup_delete_ne by done. exact Hid.
    + unfold sim_cloud_of. cbn. by rewrite delete_insert_ne.
  - intros req cl w e w' Hw. cbn. unfold sim_run. case_decide; [done|by intros [= <- <-]].
  - intros req cl w Hw. cbn. unfold sim_delete.
    destruct (sim_cloud w !! _) eqn:E; [|done]. cbn.
    transitivity (sim_cloud_of w); [done|]. intros id i Hi. exists i. split; [|done].
    unfold sim_cloud_of in *. cbn in Hi. rewrite delete_delete in Hi.
    by apply lookup_delete_Some in Hi as [_ Hi].
Qed.

(** An object store that accepts everything, and the formatting functions. *)
#[export] Instance simOss : OssSdk SimWorld := {|
  OssClient := ();
  OssBucket := string;
  oss_New _ _ _ := mret ();
  oss_Bucket _ b := mret b;
  oss_PutObject _ _ _ := mret ();
  oss_SignURL b k n := mret ("https://" +:+ b +:+ "/" +:+ k +:+ "?expires=" +:+ fmt_d n);
  oss_DeleteObject _ _ := mret ();
|}.
#[export] Instance simOss_keeps (I : SimWorld -> Prop) : OssKeeps I.
Proof. by split; intros; intros w. Qed.

#[export] Instance simFmt : GoFmt := {|
  fmt_q s := quote_str +:+ s +:+ quote_str;
  fmt_duration d := fmt_d d +:+ "ns";
|}.
#[export] Instance simFloat : GoFloat := fun _ => (- 2 ^ 63)%Z.

(** A cloud with one instance, tagged with its machine's name. *)
Definition sim_machine_tags (name : string) : list SDKTag :=
  [mkSDKTag "owner" "team-a"; mkSDKTag MachineNameTagKey name].
Definition sim_one : SimWorld :=
  mkSimWorld (<["i-7" := mkCloudInstance sim_region InstanceStateRunning
                           (sim_machine_tags "worker-1")]> ∅) [].

Definition sim_params (name : string) : CreateInstanceParams :=
  mkCreateInstanceParams sim_region "cn-hangzhou-b" "ecs.g7.large" "img-1" name name ["sg-1"] "vsw-1"
    "cloud_essd" 120 "PL1" (Some true) "kms-1"
    [mkDataDiskParam "cloud_essd" 200 "PL1" (Some true) "kms-2"] "role" "aWdu"
    (sim_machine_tags name) "rg-1" "" None "enabled" "required" 2 "uid-1".

(** ** Sample objects *)

Definition sim_meta (name : string) : ObjectMeta :=
  mkObjectMeta name "default" ("uid-" +:+ name) ∅ ∅ [] None.

Definition sim_spec : AlibabaCloudMachineSpec :=
  mkAlibabaCloudMachineSpec None "ecs.g7.large" "" "" "cn-hangzhou-b" ["sg-1"] "vsw-1"
    (Some (mkSystemDisk "cloud_essd" 120 "PL1" (Some true) "kms-1")) None "role" "" None
    [mkTag "owner" "team-a"] None None None.
Definition sim_status : AlibabaCloudMachineStatus :=
  mkAlibabaCloudMachineStatus false None None None None [] [] None None None.
Definition sim_acm (name : string) : AlibabaCloudMachine :=
  mkAlibabaCloudMachine (sim_meta name) sim_spec sim_status.

Definition sim_machine (name : string) : Machine :=
  mkMachine (sim_meta name) "" (Some "bootstrap") ""
    "AlibabaCloudMachine" name "infrastructure.cluster.x-k8s.io".

Definition sim_cluster (store : option IgnitionStorageSpec) : AlibabaCloudCluster :=
  mkAlibabaCloudCluster (sim_meta "c1")
    (mkAlibabaCloudClusterSpec sim_region "vpc-1" "img-rhcos" "rg-1" (mkAPIEndpoint "api.c1" 6443)
       [] store [])
    (mkAlibabaCloudClusterStatus true None "vpc-1" (mkAPIEndpoint "api.c1" 6443) "" [] []).
Definition sim_store : IgnitionStorageSpec := mkIgnitionStorageSpec "ign" "" 3600 8.
