(* ===== verification/Capi.v ===== *)
(** * The ECS half of the cloud client

    [pkg/client/capi.go]: describe, delete, harden, capacity, find by tag,
    create (adopt-before-create, request construction, tagging of the disks and
    network interfaces), over the SDK ([EcsSdk]) and the retry loop ([Retry]).
    [capi_client] packs them as a [Client]; [capi_client_laws] shows that they
    keep the promises of the interface when the SDK keeps its own. *)

From S2P Require Import Api CloudClient Metrics Retry EcsSdk HostName Credential Oss SimSdk.

(** [x * y] on [float64], and the constant 1024. *)
Definition float_mul (x y : float64) : float64 := SFmul 53 1024 x y.
Definition float_1024 : float64 := S754_finite false 4503599627370496 (-42).

Definition toTagResourcesTags (tags : list SDKTag) : list SDKTag :=
  map (fun t => mkSDKTag (st_Key t) (st_Value t)) tags.

(** The request [CreateECSInstance] builds, assignment by assignment. *)
Definition run_data_disk (d : DataDiskParam) : RunInstancesDataDisk :=
  mkRunInstancesDataDisk (ddp_Category d) (fmt_d (ddp_Size d)) (ddp_PerformanceLevel d)
    (ddp_KMSKeyID d) "true"
    (match ddp_Encrypted d with
     | Some true => "true" | Some false => "false" | None => "" end).

Definition set_query (k v : string) (req : RunInstancesRequest) : RunInstancesRequest :=
  req <| rr_QueryParams ::= insert k v |>.

(** [if P { req.f = v }] *)
Definition when {R} (P : Prop) `{Decision P} (assign : R -> R) (req : R) : R :=
  if decide P then assign req else req.

Definition runInstancesRequest (req0 : RunInstancesRequest) (p : CreateInstanceParams)
    : RunInstancesRequest :=
  let req := req0 <| rr_RegionId := cip_RegionID p |> <| rr_ZoneId := cip_ZoneID p |>
    <| rr_InstanceType := cip_InstanceType p |> <| rr_ImageId := cip_ImageID p |> in
  let req := when (cip_InstanceName p <> "")
    (fun req => req <| rr_InstanceName := cip_InstanceName p |>) req in
  let req := when (cip_HostName p <> "")
    (when (hostNameOK (cip_HostName p)) (fun req => req <| rr_HostName := cip_HostName p |>)) req in
  let req := req <| rr_VSwitchId := cip_VSwitchID p |>
    <| rr_SystemDiskCategory := cip_SystemDiskCategory p |>
    <| rr_SystemDiskSize := fmt_d (cip_SystemDiskSize p) |>
    <| rr_SystemDiskPerformanceLevel := cip_SystemDiskPerformanceLevel p |>
    <| rr_RamRoleName := cip_RAMRoleName p |> <| rr_UserData := cip_UserData p |>
    <| rr_ResourceGroupId := cip_ResourceGroupID p |> <| rr_Amount := "1" |> in
  let req := when (cip_ClientToken p <> "")
    (fun req => req <| rr_ClientToken := cip_ClientToken p |>) req in
  let req := when (cip_SystemDiskEncrypted p = Some true) (fun req =>
    when (cip_SystemDiskKMSKeyID p <> "")
      (set_query "SystemDisk.KMSKeyId" (cip_SystemDiskKMSKeyID p))
      (set_query "SystemDisk.Encrypted" "true" req)) req in
  let req := when (cip_SpotStrategy p <> "")
    (fun req => req <| rr_SpotStrategy := cip_SpotStrategy p |>) req in
  let req := when (is_Some (cip_SpotPriceLimit p))
    (fun req => req <| rr_SpotPriceLimit := cip_SpotPriceLimit p |>) req in
  let req := when (cip_HttpEndpoint p <> "")
    (fun req => req <| rr_HttpEndpoint := cip_HttpEndpoint p |>) req in
  let req := when (cip_HttpTokens p <> "")
    (fun req => req <| rr_HttpTokens := cip_HttpTokens p |>) req in
  let req := when (0 < cip_HttpPutResponseHopLimit p)%Z
    (fun req => req <| rr_HttpPutResponseHopLimit := Some (cip_HttpPutResponseHopLimit p) |>) req in
  let req := when (0 < length (cip_SecurityGroupIDs p))%nat
    (fun req => req <| rr_SecurityGroupIds := Some (cip_SecurityGroupIDs p) |>) req in
  let req := set_query "SystemDisk.DeleteWithInstance" "true" req in
  let req := when (0 < length (cip_DataDisks p))%nat
    (fun req => req <| rr_DataDisk := Some (map run_data_disk (cip_DataDisks p)) |>) req in
  req <| rr_Tag := Some (map (fun t => mkSDKTag (st_Key t) (st_Value t)) (cip_Tags p)) |>.

Section capi.
Context {W : Type} `{!GoRand W} `{!EcsSdk W} `{!GoFmt} `{!GoFloat}.
Abbreviation MC := (M (ClientState W)).

Definition DescribeInstanceByID_ (instanceID : string) : MC (option InstanceDescription) :=
  let req := CreateDescribeInstancesRequest <| dir_InstanceIds := json_id_array instanceID |> in
  resp ← wrap ("DescribeInstances(" +:+ instanceID +:+ "): ")
           (retryThrottled "DescribeInstances" (ecs_DescribeInstances req));
  match resp with
  | [] => mret None
  | inst :: _ =>
      mret (Some (mkInstanceDescription (si_InstanceId inst) (si_Status inst)
                    (si_HostName inst) (si_InnerIpAddress inst) (si_PublicIpAddress inst)))
  end.

(** [m] with the outcome counted as an instance operation. *)
Definition with_op {A} (op prefix : string) (m : MC A) : MC A :=
  a ← catch m (fun err =>
        observe (ObserveInstanceOp op (Some err)) ;; throw (WrapError prefix err));
  observe (ObserveInstanceOp op None) ;; mret a.

Definition DeleteECSInstance_ (instanceID : string) (force : bool) : MC () :=
  let stopReq := CreateStopInstanceRequest <| sir_InstanceId := instanceID |> in
  let stopReq := if force then stopReq <| sir_ForceStop := "true" |> else stopReq in
  _ ← try (on_world (ecs_StopInstance stopReq));
  let delReq := CreateDeleteInstanceRequest <| del_InstanceId := instanceID |>
                  <| del_Force := "true" |> in
  with_op "delete" ("DeleteInstance(" +:+ instanceID +:+ "): ")
    (retryThrottled "DeleteInstance" (ecs_DeleteInstance delReq)).

Definition metadataRequest (instanceID httpEndpoint httpTokens : string) (hopLimit : Z)
    : ModifyInstanceMetadataOptionsRequest :=
  let req := CreateModifyInstanceMetadataOptionsRequest <| mmr_InstanceId := instanceID |> in
  let req := if decide (httpEndpoint = "") then req
             else req <| mmr_HttpEndpoint := httpEndpoint |> in
  let req := if decide (httpTokens = "") then req
             else req <| mmr_HttpTokens := httpTokens |> in
  if decide (0 < hopLimit)%Z then req <| mmr_HttpPutResponseHopLimit := Some hopLimit |>
  else req.

Definition ModifyInstanceMetadata_ (instanceID httpEndpoint httpTokens : string)
    (hopLimit : Z) : MC () :=
  with_op "harden" ("ModifyInstanceMetadataOptions(" +:+ instanceID +:+ "): ")
    (retryThrottled "ModifyInstanceMetadataOptions"
       (ecs_ModifyInstanceMetadataOptions
          (metadataRequest instanceID httpEndpoint httpTokens hopLimit))).

Fixpoint find_type (instanceType : string) (l : list SdkInstanceType) : option (Z * Z) :=
  match l with
  | [] => None
  | it :: l' =>
      if decide (sit_InstanceTypeId it = instanceType)
      then Some (sit_CpuCoreCount it, int64_of_float (float_mul (sit_MemorySize it) float_1024))
      else find_type instanceType l'
  end.

Definition InstanceTypeCapacity_ (instanceType : string) : MC (Z * Z) :=
  resp ← wrap ("DescribeInstanceTypes(" +:+ instanceType +:+ "): ")
           (retryThrottled "DescribeInstanceTypes" (ecs_DescribeInstanceTypes [instanceType]));
  match find_type instanceType resp with
  | Some r => mret r
  | None => throw (ErrorString ("instance type " +:+ fmt_q instanceType +:+
                                " not found by DescribeInstanceTypes"))
  end.

Fixpoint first_not_deleted (l : list SdkInstance) : string :=
  match l with
  | [] => ""
  | inst :: l' => if decide (si_Status inst = InstanceStateDeleted) then first_not_deleted l'
                  else si_InstanceId inst
  end.

Definition FindInstanceByTag_ (region key value : string) : MC string :=
  let req := CreateDescribeInstancesRequest <| dir_RegionId := region |>
               <| dir_Tag := [mkSDKTag key value] |> in
  resp ← wrap ("DescribeInstances by tag " +:+ key +:+ "=" +:+ value +:+ ": ")
           (retryThrottled "DescribeInstances" (ecs_DescribeInstances req));
  mret (first_not_deleted resp).

(** [tagInstanceDisks] and [tagInstanceENIs]: list the resources of the
    instance, drop empty ids, tag the rest; every failure is swallowed. *)
Definition tag_resources (describe : ByInstanceRequest -> M W (list string))
    (resourceType : string) (region instanceID : string) (tags : list SDKTag) : MC () :=
  r ← try (on_world (describe (mkByInstanceRequest region instanceID)));
  match r with
  | inl _ => mret ()
  | inr all =>
      let ids := filter (fun id => id <> "") all in
      match ids with
      | [] => mret ()
      | _ =>
          _ ← try (retryThrottled ("TagResources(" +:+ resourceType +:+ ")")
                     (ecs_TagResources (mkTagResourcesRequest region resourceType ids
                                          (toTagResourcesTags tags))));
          mret ()
      end
  end.

Definition tagInstanceDisks := tag_resources ecs_DescribeDisks "disk".
Definition tagInstanceENIs := tag_resources ecs_DescribeNetworkInterfaces "eni".

(** The creation proper, after the idempotency guard. *)
Definition runInstances (params : CreateInstanceParams) : MC CreateInstanceResponse :=
  let req := runInstancesRequest CreateRunInstancesRequest params in
  resp ← catch (retryThrottled "RunInstances" (ecs_RunInstances req)) (fun err =>
           observe (ObserveInstanceOp "create" (Some err)) ;;
           throw (WrapError "RunInstances: " err));
  match resp with
  | [] =>
      observe (ObserveInstanceOp "create" (Some (ErrorString "no instance IDs"))) ;;
      throw (ErrorString "RunInstances returned no instance IDs")
  | instanceID :: _ =>
      observe (ObserveInstanceOp "create" None) ;;
      (match cip_Tags params with
       | [] => mret ()
       | tags =>
           tagInstanceDisks (cip_RegionID params) instanceID tags ;;
           tagInstanceENIs (cip_RegionID params) instanceID tags
       end) ;;
      mret (mkCreateInstanceResponse instanceID)
  end.

Definition CreateECSInstance_ (params : CreateInstanceParams) : MC CreateInstanceResponse :=
  let mv := machineTag (cip_Tags params) in
  if decide (mv = "") then runInstances params
  else
    existing ← FindInstanceByTag_ (cip_RegionID params) MachineNameTagKey mv;
    if decide (existing = "") then runInstances params
    else observe (ObserveInstanceOp "adopt" None) ;; mret (mkCreateInstanceResponse existing).
End capi.

(** ** The client *)

Section client.
Context {W : Type} `{!GoRand W} `{!EcsSdk W} `{!OssSdk W} `{!GoFmt} `{!GoFloat} (getenv : Env).

Definition capi_client : Client (ClientState W) :=
  mkClient DescribeInstanceByID_ CreateECSInstance_ DeleteECSInstance_ FindInstanceByTag_
    ModifyInstanceMetadata_ InstanceTypeCapacity_
    (fun p => on_world (PutIgnitionObject_ getenv p))
    (fun p => on_world (DeleteIgnitionObject_ getenv p)).
End client.

(** ** What the listing calls leave alone *)

(** A property of the world that listing instances and drawing a random number
    keep: in particular, how many instances were created. *)
Class ListKeeps {W} `{!GoRand W} `{!EcsSdk W} (I : W -> Prop) : Prop := {
  list_rand :: RandKeeps I;
  list_describe req : keeps I (ecs_DescribeInstances req);
}.
#[export] Hint Resolve list_describe : keeps.

Section listing.
Context {W : Type} `{!GoRand W} `{!EcsSdk W} `{!GoFmt} (I : W -> Prop) `{!ListKeeps I}.

Lemma DescribeInstanceByID_keeps id : keeps (of_world I) (DescribeInstanceByID_ id).
Proof. unfold DescribeInstanceByID_. keeps_tac. Qed.

Lemma FindInstanceByTag_keeps r k v : keeps (of_world I) (FindInstanceByTag_ r k v).
Proof. unfold FindInstanceByTag_. keeps_tac. Qed.
End listing.
#[export] Hint Resolve DescribeInstanceByID_keeps FindInstanceByTag_keeps : keeps.

(** ** What the other calls keep *)

Section calls.
Context {W : Type} `{!GoRand W} `{!EcsSdk W} (I : W -> Prop) `{!RandKeeps I}.

Lemma with_op_keeps {A} op prefix (m : M (ClientState W) A) :
  keeps (of_world I) m -> keeps (of_world I) (with_op op prefix m).
Proof. intros Hm. unfold with_op. keeps_tac; done. Qed.

Lemma tag_resources_keeps describe kind rg id tags :
  (forall req, keeps I (describe req)) ->
  (forall req, trr_ResourceType req = kind -> keeps I (ecs_TagResources req)) ->
  keeps (of_world I) (tag_resources describe kind rg id tags).
Proof.
  intros Hd Ht. unfold tag_resources. by keeps_tac; apply Ht.
Qed.

Lemma DeleteECSInstance_keeps id force :
  (forall req, keeps I (ecs_StopInstance req)) -> (forall req, keeps I (ecs_DeleteInstance req)) ->
  keeps (of_world I) (DeleteECSInstance_ id force).
Proof.
  intros Hs Hd. unfold DeleteECSInstance_. cbv zeta. apply keeps_bind.
  - by apply keeps_try, keeps_on_world.
  - intros _. by apply with_op_keeps, keeps_retryThrottled.
Qed.

Lemma ModifyInstanceMetadata_keeps id e t h :
  (forall req, keeps I (ecs_ModifyInstanceMetadataOptions req)) ->
  keeps (of_world I) (ModifyInstanceMetadata_ id e t h).
Proof. intros Hm. by apply with_op_keeps, keeps_retryThrottled. Qed.

Class TagKeeps : Prop := {
  tk_disks req : keeps I (ecs_DescribeDisks req);
  tk_enis req : keeps I (ecs_DescribeNetworkInterfaces req);
  tk_tag req : trr_ResourceType req <> "instance" -> keeps I (ecs_TagResources req);
}.

Lemma tagInstanceDisks_keeps `{!TagKeeps} rg id tags :
  keeps (of_world I) (tagInstanceDisks rg id tags).
Proof. apply tag_resources_keeps; [apply tk_disks|intros req Hk; apply tk_tag; by rewrite Hk]. Qed.

Lemma tagInstanceENIs_keeps `{!TagKeeps} rg id tags :
  keeps (of_world I) (tagInstanceENIs rg id tags).
Proof. apply tag_resources_keeps; [apply tk_enis|intros req Hk; apply tk_tag; by rewrite Hk]. Qed.
End calls.

(** The value of a successful call wrapped with an error prefix. *)
Lemma wrap_bind_Ok {S A B} prefix (m : M S A) (k : A -> B) s b s' :
  (a ← wrap prefix m; mret (k a)) s = (Ok b, s') -> exists a, m s = (Ok a, s') /\ b = k a.
Proof.
  unfold mbind, M_bind, wrap, catch. destruct (m s) as [[a|e|p] s1]; cbn; [|done..].
  intros [= <- <-]. eauto.
Qed.

Section client_laws.
Context {W : Type} `{!GoRand W} `{!GoRandLaws W} `{!EcsSdk W} `{!OssSdk W} `{!GoFmt}
  `{!GoFloat} (getenv : Env).
Context (cloud_of : W -> Cloud) (region : string) `{!EcsSdkLaws cloud_of region}.
Context (Hrand : forall cl, RandKeeps (fun w => cloud_of w = cl)).

#[local] Instance cloud_ListKeeps cl : ListKeeps (fun w => cloud_of w = cl).
Proof. split; [apply Hrand|intros req; apply sdk_describe_keeps]. Qed.

(** The instances a by-id query finds. *)
Lemma DescribeInstanceByID_run id s r s' :
  DescribeInstanceByID_ id s = (Ok r, s') ->
  (r = None /\ forall i, cloud_of (cs_world s) !! id = Some i -> ci_Region i <> region) \/
  exists d i, r = Some d /\ idesc_InstanceID d = id /\ cloud_of (cs_world s) !! id = Some i /\
    ci_Region i = region /\ ci_Status i = idesc_Status d.
Proof.
  unfold DescribeInstanceByID_, mbind, M_bind, wrap, catch.
  destruct (retryThrottled _ _ s) as [q s1] eqn:E.
  destruct q as [l|e|p]; cbn; [|done..].
  apply (retryThrottled_last (fun w => cloud_of w = cloud_of (cs_world s))) in E
    as (w & Hw & E); [|apply throttled_keeps_keeps, sdk_describe_keeps|done].
  apply sdk_describe_id in E as [He Hn]. rewrite Hw in *.
  destruct l as [|inst l].
  - intros [= <- _]. left. split; [done|]. intros i Hi Hr. by apply (Hn i).
  - intros [= <- _]. right. destruct (He inst) as (Hid & i & ? & ? & ?); [by left|].
    eexists _, i. by split_and!.
Qed.

Lemma first_not_deleted_spec (l : list SdkInstance) :
  (forall inst, inst ∈ l -> si_InstanceId inst <> "") ->
  (first_not_deleted l = "" /\
     forall inst, inst ∈ l -> si_Status inst = InstanceStateDeleted) \/
  exists inst, inst ∈ l /\ si_Status inst <> InstanceStateDeleted /\
    first_not_deleted l = si_InstanceId inst /\ si_InstanceId inst <> "".
Proof.
  induction l as [|inst l IH]; cbn [first_not_deleted]; intros Hne.
  { left. split; [done|]. by intros ? ?%not_elem_of_nil. }
  destruct (decide (si_Status inst = InstanceStateDeleted)) as [Hd|Hd].
  2: { right. exists inst. split_and!; try done; [by left|]. apply Hne. by left. }
  destruct IH as [[-> Hl]|(j & ? & ? & ? & ?)].
  - intros j Hj. apply Hne. by right.
  - left. split; [done|]. intros j [->|]%elem_of_cons; auto.
  - right. exists j. split_and!; try done. by right.
Qed.

(** What a listing by tag says of the world it was made in. *)
Lemma tag_listing r k v w l w' :
  r <> "" ->
  ecs_DescribeInstances
    (CreateDescribeInstancesRequest <| dir_RegionId := r |> <| dir_Tag := [mkSDKTag k v] |>) w
    = (Ok l, w') ->
  (first_not_deleted l = "" /\
     forall id i, cloud_of w !! id = Some i -> ~ live_tagged r k v i) \/
  (first_not_deleted l <> "" /\
     exists i, cloud_of w !! first_not_deleted l = Some i /\ live_tagged r k v i).
Proof.
  intros Hr E. apply sdk_describe_tag in E as (He & Hn & Hfull); [|done].
  assert (forall inst, inst ∈ l -> si_InstanceId inst <> "") as Hids.
  { intros inst Hin E'. destruct (He inst Hin) as (i & Hi & _). by rewrite E', sdk_id_nonempty in Hi. }
  destruct (first_not_deleted_spec l Hids) as [[-> Hd]|(inst & Hin & Hnd & -> & Hid)].
  - left. split; [done|]. intros id' i Hi (Hreg & Ht & Hs).
    destruct (decide (length l < DescribeInstancesPageSize)%nat) as [Hlen|Hlen].
    + destruct (Hn Hlen id' i Hi Hreg Ht) as (inst & Hin & _ & Hst). apply Hs. rewrite <- Hst. auto.
    + destruct (Hfull ltac:(lia) id' i Hi) as (inst & Hin & Hst); [by split_and!|]. by apply Hst, Hd.
  - right. split; [done|]. destruct (He inst Hin) as (i & Hi & Hreg & Ht & Hst).
    exists i. split; [done|]. split_and!; congruence.
Qed.

(** The instances a by-tag query finds. *)
Lemma FindInstanceByTag_run r k v s id s' :
  r <> "" -> FindInstanceByTag_ r k v s = (Ok id, s') ->
  (id = "" /\ forall id' i, cloud_of (cs_world s) !! id' = Some i -> ~ live_tagged r k v i) \/
  (id <> "" /\ exists i, cloud_of (cs_world s) !! id = Some i /\ live_tagged r k v i).
Proof.
  intros Hr Hrun. unfold FindInstanceByTag_ in Hrun.
  apply wrap_bind_Ok in Hrun as (l & E & ->).
  apply (retryThrottled_last (fun w => cloud_of w = cloud_of (cs_world s))) in E
    as (w & Hw & E); [|apply throttled_keeps_keeps, sdk_describe_keeps|done].
  apply tag_listing in E; [|done]. by rewrite Hw in E.
Qed.

Lemma run_cloud {A} (m : M (ClientState W) A) s r s' :
  (forall cl, keeps (of_world (fun w => cloud_of w = cl)) m) -> m s = (r, s') ->
  cloud_of (cs_world s') = cloud_of (cs_world s).
Proof. intros Hm E. specialize (Hm _ s eq_refl). by rewrite E in Hm. Qed.

(** What the client reports of the instances. *)
Lemma capi_client_laws_of :
  (forall cl, OssKeeps (fun w => cloud_of w = cl)) ->
  ClientLaws (fun s => cloud_of (cs_world s)) region (capi_client getenv).
Proof.
  intros Hoss. split; cbn.
  - intros id s s' i [[_ H1]|(d & ? & ? & _)]%DescribeInstanceByID_run; [apply H1|done].
  - intros id s d s' [[? _]|(d' & i & [= <-] & ? & ? & ? & ?)]%DescribeInstanceByID_run; [done|].
    split; [done|]. by exists i.
  - intros id s r s'. apply run_cloud. intros cl. apply DescribeInstanceByID_keeps, _.
  - intros r k v s s' Hr [[_ H1]|[? _]]%FindInstanceByTag_run; [apply H1|done|done].
  - intros r k v s id s' Hr [[? _]|[_ ?]]%FindInstanceByTag_run Hid; done.
  - intros r k v s res s'. apply run_cloud. intros cl. apply FindInstanceByTag_keeps, _.
  - intros p0 s r s'. apply run_cloud. intros cl. apply keeps_on_world.
    apply DeleteIgnitionObject_keeps, _.
Qed.

(** C19. Adopt before create: when an instance of the region already carries the
    machine's tag, [CreateECSInstance] creates none, whatever it returns: the
    cloud is as it was, and so is everything else that listing instances and
    drawing random numbers leave alone (such as the number of RunInstances
    requests).  If it succeeds, it returns a live instance with that tag. *)
Theorem CreateECSInstance_adopts params s r s' id i (I : W -> Prop) :
  ListKeeps I -> I (cs_world s) ->
  machineTag (cip_Tags params) <> "" -> cip_RegionID params <> "" ->
  cloud_of (cs_world s) !! id = Some i ->
  live_tagged (cip_RegionID params) MachineNameTagKey (machineTag (cip_Tags params)) i ->
  CreateECSInstance_ params s = (r, s') ->
  I (cs_world s') /\ cloud_of (cs_world s') = cloud_of (cs_world s) /\
  forall resp, r = Ok resp -> exists j, cloud_of (cs_world s) !! cir_InstanceID resp = Some j /\
    live_tagged (cip_RegionID params) MachineNameTagKey (machineTag (cip_Tags params)) j.
Proof.
  intros HI Hs Hmv Hreg Hi Hlive. unfold CreateECSInstance_. rewrite decide_False by done.
  unfold mbind, M_bind. destruct (FindInstanceByTag_ _ _ _ s) as [q s1] eqn:E.
  assert (I (cs_world s1)) as HI1.
  { pose proof (FindInstanceByTag_keeps I (cip_RegionID params) MachineNameTagKey
      (machineTag (cip_Tags params)) s Hs) as H1. by rewrite E in H1. }
  assert (cloud_of (cs_world s1) = cloud_of (cs_world s)) as Hc.
  { eapply run_cloud; [|exact E]. intros cl. apply FindInstanceByTag_keeps, _. }
  destruct q as [existing|e|p]; [|by intros [= <- <-]..].
  apply FindInstanceByTag_run in E as [[-> Hno]|[Hne Hex]]; [|..|done].
  { by destruct (Hno id i Hi). }
  rewrite decide_False by done. intros [= <- <-]. split_and!; [done|done|].
  by intros resp [= <-].
Qed.
End client_laws.

(** ** The request *)

Lemma set_query_lookup k v q req :
  rr_QueryParams (set_query k v req) !! q =
  if decide (k = q) then Some v else rr_QueryParams req !! q.
Proof.
  unfold set_query. cbn. destruct (decide (k = q)) as [->|];
    [by rewrite lookup_insert_eq|by rewrite lookup_insert_ne].
Qed.

(** Reading a field through a conditional assignment. *)
Lemma when_read {R T} (f : R -> T) (P : Prop) `{Decision P} (assign : R -> R) (req : R) :
  f (when P assign req) = if decide P then f (assign req) else f req.
Proof. unfold when. by destruct (decide P). Qed.

Lemma if_same {T} (P : Prop) `{Decision P} (x : T) : (if decide P then x else x) = x.
Proof. by destruct (decide P). Qed.

Ltac read f := repeat (rewrite (when_read f); cbn [f update set_query]; rewrite ?if_same).

Lemma map_SDKTag_id l : map (fun t => mkSDKTag (st_Key t) (st_Value t)) l = l.
Proof. induction l as [|[] l IH]; cbn; by f_equal. Qed.

(** The query parameters of the request. *)
Lemma runInstancesRequest_query params :
  rr_QueryParams (runInstancesRequest emptyRunRequest params) =
  <["SystemDisk.DeleteWithInstance" := "true"]>
    (if decide (cip_SystemDiskEncrypted params = Some true) then
       if decide (cip_SystemDiskKMSKeyID params <> "")
       then <["SystemDisk.KMSKeyId" := cip_SystemDiskKMSKeyID params]>
              (<["SystemDisk.Encrypted" := "true"]> ∅)
       else <["SystemDisk.Encrypted" := "true"]> ∅
     else ∅).
Proof. unfold runInstancesRequest. cbn. read rr_QueryParams. done. Qed.

Lemma runInstancesRequest_UserData req p : rr_UserData (runInstancesRequest req p) = cip_UserData p.
Proof. unfold runInstancesRequest. cbn. by read rr_UserData. Qed.

(** C27. What the request promises whatever the parameters: every disk it creates,
    system disk included, is deleted with the instance; the system disk is
    encrypted exactly when that was asked for, with the requested key; each data
    disk has the requested size and encryption; the instance carries exactly the
    given tags, the client token that makes the call idempotent, the user data,
    and a host name only when it is one that RunInstances accepts; and one
    instance is asked for. *)
Theorem runInstancesRequest_faithful params :
  let req := runInstancesRequest emptyRunRequest params in
  rr_QueryParams req !! "SystemDisk.DeleteWithInstance" = Some "true" /\
  (rr_QueryParams req !! "SystemDisk.Encrypted" = Some "true" <->
     cip_SystemDiskEncrypted params = Some true) /\
  (rr_QueryParams req !! "SystemDisk.KMSKeyId" =
     if decide (cip_SystemDiskEncrypted params = Some true /\ cip_SystemDiskKMSKeyID params <> "")
     then Some (cip_SystemDiskKMSKeyID params) else None) /\
  Forall2 (fun d r => rdd_DeleteWithInstance r = "true" /\ rdd_Size r = fmt_d (ddp_Size d) /\
                      (rdd_Encrypted r = "true" <-> ddp_Encrypted d = Some true))
    (cip_DataDisks params) (default [] (rr_DataDisk req)) /\
  rr_Tag req = Some (cip_Tags params) /\
  rr_ClientToken req = cip_ClientToken params /\
  rr_UserData req = cip_UserData params /\
  rr_HostName req = (if hostNameOK (cip_HostName params) then cip_HostName params else "") /\
  rr_Amount req = "1".
Proof.
  cbv zeta. rewrite runInstancesRequest_query. split_and!.
  - by rewrite lookup_insert_eq.
  - rewrite lookup_insert_ne by done.
    destruct (decide (cip_SystemDiskEncrypted params = Some true)); [|by split].
    split; [done|]. intros _. destruct (decide _).
    + by rewrite lookup_insert_ne, lookup_insert_eq.
    + by rewrite lookup_insert_eq.
  - rewrite lookup_insert_ne by done.
    destruct (decide (cip_SystemDiskEncrypted params = Some true)) as [H1|H1].
    2: { by rewrite decide_False by tauto. }
    destruct (decide (cip_SystemDiskKMSKeyID params <> "")) as [H2|H2].
    + rewrite decide_True by done. by rewrite lookup_insert_eq.
    + rewrite decide_False by tauto. by rewrite lookup_insert_ne.
  - unfold runInstancesRequest. cbn. read rr_DataDisk.
    destruct (cip_DataDisks params) as [|d ds]; cbn; [constructor|].
    change (run_data_disk d :: map run_data_disk ds) with (map run_data_disk (d :: ds)).
    apply Forall2_fmap_r, Forall_Forall2_diag, Forall_forall. intros x _. cbn.
    split_and!; [done|done|]. by destruct (ddp_Encrypted x) as [[]|].
  - unfold runInstancesRequest. cbn. by rewrite map_SDKTag_id.
  - unfold runInstancesRequest. cbn. read rr_ClientToken. destruct (decide _) as [|E]; [done|].
    by apply dec_stable in E.
  - unfold runInstancesRequest. cbn. by read rr_UserData.
  - unfold runInstancesRequest. cbn. read rr_HostName.
    destruct (decide (cip_HostName params <> "")) as [_|E].
    + destruct (decide (Is_true (hostNameOK (cip_HostName params)))) as [E|E];
        destruct (hostNameOK (cip_HostName params)); done.
    + apply dec_stable in E as ->. done.
  - unfold runInstancesRequest. cbn. by read rr_Amount.
Qed.

(** ** What the client may change *)

Lemma runInstancesRequest_fixed req0 p :
  rr_RegionId (runInstancesRequest req0 p) = cip_RegionID p /\
  rr_Tag (runInstancesRequest req0 p) = Some (cip_Tags p) /\
  rr_Amount (runInstancesRequest req0 p) = "1".
Proof.
  unfold runInstancesRequest. cbn. split_and!.
  - by read rr_RegionId.
  - by rewrite map_SDKTag_id.
  - by read rr_Amount.
Qed.

Section client_effects.
Context {W : Type} `{!GoRand W} `{!GoRandLaws W} `{!EcsSdk W} `{!OssSdk W} `{!GoFmt}
  `{!GoFloat} (getenv : Env).
Context (cloud_of : W -> Cloud) (region : string) `{!EcsSdkLaws cloud_of region}.
Context `{!EcsSdkEffects cloud_of}.
Context (Hrand : forall I : Cloud -> Prop, RandKeeps (fun w => I (cloud_of w))).
Context (Hoss : forall cl, OssKeeps (fun w => cloud_of w = cl)).
Abbreviation at_cloud cl := (fun w => cloud_of w = cl).
Abbreviation settled cl := (fun w => settles cl (cloud_of w)).

#[local] Instance rand_at cl : RandKeeps (at_cloud cl).
Proof. apply (Hrand (fun c => c = cl)). Qed.
#[local] Instance rand_settled cl : RandKeeps (settled cl).
Proof. apply (Hrand (settles cl)). Qed.
#[local] Instance tag_at cl : TagKeeps (at_cloud cl).
Proof. split; intros; first [apply sdk_disks_keeps|apply sdk_enis_keeps|by apply sdk_tag_keeps]. Qed.
#[local] Instance list_at cl : ListKeeps (at_cloud cl).
Proof. split; [apply _|intros req; apply sdk_describe_keeps]. Qed.
(** One creation: the retries before the last request were refused, and tagging
    the disks and interfaces makes nothing. *)
Lemma runInstances_effect p s r s' :
  runInstances p s = (r, s') ->
  cloud_of (cs_world s') = cloud_of (cs_world s) \/
  exists id i, cloud_of (cs_world s) !! id = None /\ ci_Region i = cip_RegionID p /\
    ci_Tags i = cip_Tags p /\ cloud_of (cs_world s') = <[id := i]> (cloud_of (cs_world s)).
Proof.
  destruct (runInstancesRequest_fixed CreateRunInstancesRequest p) as (Hreg & Htag & Ham).
  intros Hrun. refine (wp_elim _ _ _ _ (fun _ t => cloud_of (cs_world t) = _ \/ _) _ Hrun).
  clear Hrun r s'. unfold runInstances. cbv zeta. set (req := runInstancesRequest _ p) in *.
  wp_go. wp_call as q s1 eqn E.
  apply (retryThrottled_last (at_cloud (cloud_of (cs_world s)))) in E as (w & Hw & E);
    [|apply sdk_run_throttled|done].
  apply sdk_run_effect in E; [|done]. rewrite Hw, Hreg, Htag in E. cbn in E.
  destruct q as [ids|e|pn]; [|by wp_go; apply wp_observe; wp_go|done].
  eapply wp_mono; [apply (keeps_wp (of_world (at_cloud (cloud_of (cs_world s1)))))|].
  - destruct ids as [|id ids]; keeps_tac;
      first [apply tagInstanceDisks_keeps|apply tagInstanceENIs_keeps]; apply _.
  - done.
  - intros ? t Ht. cbv beta in Ht. unfold of_world in Ht. rewrite Ht. exact E.
Qed.

Lemma CreateECSInstance_effect p s r s' :
  machineTag (cip_Tags p) <> "" -> cip_RegionID p <> "" ->
  CreateECSInstance_ p s = (r, s') ->
  cloud_of (cs_world s') = cloud_of (cs_world s) \/
  appears (cip_RegionID p) (machineTag (cip_Tags p)) (cip_Tags p)
    (cloud_of (cs_world s)) (cloud_of (cs_world s')).
Proof.
  intros Hmt Hreg. unfold CreateECSInstance_. rewrite decide_False by done.
  cbv zeta.
  destruct (FindInstanceByTag_ (cip_RegionID p) MachineNameTagKey (machineTag (cip_Tags p)) s)
    as [q s1] eqn:E. rewrite (M_bind_run _ _ _ _ _ E).
  assert (cloud_of (cs_world s1) = cloud_of (cs_world s)) as Hc.
  { eapply run_cloud; [|exact E]. intros cl. apply FindInstanceByTag_keeps, _. }
  destruct q as [id|e|pn]; [|by intros [= _ <-]; left..].
  apply (FindInstanceByTag_run cloud_of region rand_at) in E as [[-> Hno]|[Hid _]]; [..|done].
  - intros [He|He]%runInstances_effect; [left; congruence|right]. rewrite Hc in He. by split.
  - rewrite decide_False by done. intros [= _ <-]. by left.
Qed.

(** The client over the SDK keeps the effect half of the interface too: a
    creation makes at most one instance, in the region asked for and with the
    tags asked for, and none when a live instance there has the machine's tag,
    however its requests fail; deletion makes none and retags none; the other
    calls leave the instances alone. *)
Lemma capi_client_effects_of :
  ClientEffects (fun s => cloud_of (cs_world s)) (capi_client getenv).
Proof.
  split; cbn.
  - intros p s r s'. apply CreateECSInstance_effect.
  - intros id s r s'. apply run_cloud. intros cl. apply DescribeInstanceByID_keeps, _.
  - intros rg k v s r s'. apply run_cloud. intros cl. apply FindInstanceByTag_keeps, _.
  - intros id force s r s' E.
    pose proof (DeleteECSInstance_keeps (settled (cloud_of (cs_world s))) id force
      (fun req => sdk_stop_effect req _) (fun req => sdk_delete_effect req _) s (reflexivity _)) as Hs.
    by rewrite E in Hs.
  - intros id e t h s r s'. apply run_cloud. intros cl. apply (ModifyInstanceMetadata_keeps (at_cloud cl)). intros req. apply sdk_modify_keeps.
  - intros p s r s'. apply run_cloud. intros cl. apply keeps_on_world, PutIgnitionObject_keeps, _.
  - intros p s r s'. apply run_cloud. intros cl. apply keeps_on_world, DeleteIgnitionObject_keeps, _.
Qed.

(** C12. The client over the SDK keeps both halves of the promise of the [Client]
    interface the controllers are verified against: what it reports of the
    instances ([ClientLaws]: a description or a look-up by tag says what is in
    the cloud, of its region, and leaves the cloud as it is) and what it may
    change ([ClientEffects]: creation makes one instance at most, and none when
    a live one has the machine's tag; deletion makes none and retags none; the
    other calls leave the instances alone). *)
Theorem capi_client_laws :
  ClientLaws (fun s => cloud_of (cs_world s)) region (capi_client getenv) /\
  ClientEffects (fun s => cloud_of (cs_world s)) (capi_client getenv).
Proof. split; [apply capi_client_laws_of; [apply _|exact rand_at|exact Hoss]|exact capi_client_effects_of]. Qed.
End client_effects.

(** ** Creation succeeds when RunInstances does *)

Section created.
Context {W : Type} `{!GoRand W} `{!GoRandLaws W} `{!EcsSdk W} `{!EcsSdkTotal W}.

Lemma tag_resources_ok describe kind region id tags s :
  (forall req w p, (describe req w).1 <> Panic p) ->
  exists s', tag_resources describe kind region id tags s = (Ok (), s').
Proof.
  intros Hp. unfold tag_resources, mbind, M_bind.
  edestruct (try_total (on_world (describe (mkByInstanceRequest region id))) s)
    as ([e|all] & s1 & ->).
  { intros p. unfold on_world. specialize (Hp (mkByInstanceRequest region id) (cs_world s) p).
    by destruct (describe _ _). }
  { by eexists. }
  destruct (filter _ all) as [|x xs]; [by eexists|].
  match goal with |- context [try ?m s1] => destruct (try_total m s1) as (q & s2 & ->) end.
  - intros p. apply retryThrottled_no_panic. intros w p'. apply sdk_tag_total.
  - by eexists.
Qed.

(** C29. Once RunInstances has returned an instance id, [CreateECSInstance]
    returns that id, whatever happens to the tagging of its disks and network
    interfaces: a created instance is never lost to a later failure. *)
Theorem runInstances_created params s id ids s1 :
  retryThrottled "RunInstances"
    (ecs_RunInstances (runInstancesRequest CreateRunInstancesRequest params)) s
    = (Ok (id :: ids), s1) ->
  exists s', runInstances params s = (Ok (mkCreateInstanceResponse id), s').
Proof.
  intros Hrun. unfold runInstances, mbind, M_bind, catch. rewrite Hrun. cbn.
  destruct (cip_Tags params) as [|t tags]; [by eexists|].
  set (s2 := mkClientState _ _ _).
  destruct (tag_resources_ok ecs_DescribeDisks "disk" (cip_RegionID params) id (t :: tags) s2)
    as [s3 E3]; [apply sdk_disks_total|].
  destruct (tag_resources_ok ecs_DescribeNetworkInterfaces "eni" (cip_RegionID params) id
    (t :: tags) s3) as [s4 E4]; [apply sdk_enis_total|].
  unfold mbind, M_bind, tagInstanceDisks, tagInstanceENIs. rewrite E3, E4. by eexists.
Qed.
End created.

(** [DeleteECSInstance] reports every error of DeleteInstance, an
    instance-not-found error included: deleting an instance that is already gone
    is an error of the call, which its caller sees and retries. *)
Theorem DeleteECSInstance_error {W} `{!GoRand W} `{!EcsSdk W} id force s e w1 r w2 :
  let stopReq := CreateStopInstanceRequest <| sir_InstanceId := id |> in
  ecs_StopInstance (if force : bool then stopReq <| sir_ForceStop := "true" |> else stopReq)
    (cs_world s) = (r, w1) -> (forall p, r <> Panic p) ->
  ecs_DeleteInstance (CreateDeleteInstanceRequest <| del_InstanceId := id |> <| del_Force := "true" |>)
    w1 = (Err e, w2) -> isThrottlingError e = false ->
  exists s', DeleteECSInstance_ id force s =
    (Err (WrapError ("DeleteInstance(" +:+ id +:+ "): ") e), s') /\ cs_world s' = w2.
Proof.
  intros stopReq Hstop Hr Hdel He. unfold DeleteECSInstance_, mbind, M_bind, try, on_world.
  fold stopReq. rewrite Hstop. set (s1 := mkClientState w1 _ _).
  assert (exists s2, retryThrottled "DeleteInstance" (ecs_DeleteInstance
    (CreateDeleteInstanceRequest <| del_InstanceId := id |> <| del_Force := "true" |>)) s1
    = (Err e, s2) /\ cs_world s2 = w2) as (s2 & E2 & Hw2).
  { eexists. split; [by apply (retryThrottled_immediate _ _ s1 (Err e) w2 Hdel)|done]. }
  unfold with_op, mbind, M_bind, catch, throw.
  destruct r as [[]|e'|p]; [| |by destruct (Hr p)].
  all: rewrite E2; cbn; eexists; split; [done|by destruct s2].
Qed.

(** ** Concrete runs *)

Lemma capi_client_laws_witness :
  ClientLaws (fun s => sim_cloud_of (cs_world s)) sim_region
    (capi_client (W := SimWorld) (env_of [])) /\
  ClientEffects (fun s => sim_cloud_of (cs_world s)) (capi_client (W := SimWorld) (env_of [])).
Proof. apply (capi_client_laws (env_of []) sim_cloud_of sim_region); apply _. Defined.

Lemma CreateECSInstance_adopts_witness :
  sim_runs (cs_world (CreateECSInstance_ (sim_params "worker-1") (freshClient sim_one)).2) = [].
Proof.
  destruct (CreateECSInstance_ (sim_params "worker-1") (freshClient sim_one)) as [r s'] eqn:E.
  refine (proj1 (CreateECSInstance_adopts sim_cloud_of sim_region ltac:(apply _)
    (sim_params "worker-1") (freshClient sim_one) r s' "i-7"
    (mkCloudInstance sim_region InstanceStateRunning (sim_machine_tags "worker-1"))
    (fun w => sim_runs w = []) _ _ _ _ _ _ E)).
  - split; [apply _|]. by intros req w.
  - reflexivity.
  - discriminate.
  - discriminate.
  - reflexivity.
  - apply (bool_decide_unpack _). reflexivity.
Defined.

Lemma runInstances_created_witness :
  exists s', runInstances (sim_params "worker-2") (freshClient sim_one) =
    (Ok (mkCreateInstanceResponse "i-0"), s').
Proof.
  destruct (retryThrottled "RunInstances"
    (ecs_RunInstances (runInstancesRequest CreateRunInstancesRequest (sim_params "worker-2")))
    (freshClient sim_one)) as [r s1] eqn:E.
  assert (r = Ok ["i-0"]) as -> by (apply (f_equal fst) in E; by vm_compute in E).
  apply (runInstances_created (sim_params "worker-2") (freshClient sim_one) "i-0" [] s1 E).
Defined.

Lemma DeleteECSInstance_error_witness :
  exists s', DeleteECSInstance_ "i-9" true (freshClient sim_one) =
    (Err (WrapError "DeleteInstance(i-9): "
            (ServerError 404 "InvalidInstanceId.NotFound" "not found")), s') /\
    cs_world s' = sim_one.
Proof.
  apply (DeleteECSInstance_error "i-9" true (freshClient sim_one)
    (ServerError 404 "InvalidInstanceId.NotFound" "not found") sim_one (Ok ()) sim_one);
    [reflexivity|discriminate|reflexivity|reflexivity].
Defined.
