(* ===== verification/Ignition.v ===== *)
(** * User data and its offload to OSS

    The user-data half of [internal/controller/alibabacloudmachine_controller.go]:
    [getUserData], [maybeOffloadUserData], [ignitionObjectKey],
    [buildIgnitionPointer], and the small conversions of a machine's spec into
    client parameters. *)

From S2P Require Import Api CloudClient Retry Encoding Oss SimSdk Capi Credential.

(** ** Kubernetes access

    The reads of the controller-runtime client and the Cluster API lookups the
    controllers make, over a world; library code, so parameters. *)
Class KubeReader (W : Type) := {
  get_Secret : ObjectKey -> M W Secret;
}.

Definition defaultMaxUserDataBytes : Z := 16384.

(** [ignitionObjectKey]. *)
Definition ignitionObjectKey (cluster : AlibabaCloudCluster) (m : AlibabaCloudMachine) : string :=
  "capi-ignition/" +:+ acc_Name cluster +:+ "/" +:+ acm_Namespace m +:+ "/" +:+ acm_Name m +:+ ".ign".

(** [buildIgnitionPointer]: the JSON of the nested maps, keys in sorted order.
    Marshalling strings and maps of strings cannot fail. *)
Definition json_field (k v : string) : string := json_string k +:+ ":" +:+ v.
Definition json_object (fields : list (string * string)) : string :=
  "{" +:+ String.concat "," (map (fun '(k, v) => json_field k v) fields) +:+ "}".

Definition buildIgnitionPointer (url raw : string) : string :=
  let hash := "sha512-" +:+ hex_encode (Sum512 raw) in
  json_object
    [("ignition", json_object
       [("config", json_object
          [("replace", json_object
             [("source", json_string url);
              ("verification", json_object [("hash", json_string hash)])])]);
        ("version", json_string "3.4.0")])].

Definition firstIP (ips : list string) : string :=
  match ips with
  | ip :: _ => ip
  | [] => ""
  end.

Definition toSDKTags (tags : list Tag) (machineName clusterName : string) : list SDKTag :=
  mkSDKTag ("kubernetes.io/cluster/" +:+ clusterName) "owned" ::
  mkSDKTag "k8s.io/cluster-api-machine" machineName ::
  map (fun t => mkSDKTag (tag_Key t) (tag_Value t)) tags.

Definition toSDKDataDisks (disks : list DataDisk) : list DataDiskParam :=
  map (fun d => mkDataDiskParam (dd_Category d) (dd_Size d) (dd_PerformanceLevel d)
                  (dd_Encrypted d) (dd_KMSKeyID d)) disks.

Section user_data.
Context {W : Type} `{!KubeReader W} `{!GoFmt}.

(** The secret that holds the bootstrap data: the machine's, else the legacy
    one of the spec. *)
Definition userDataSecretName (machine : Machine) (m : AlibabaCloudMachine) : option string :=
  match mach_DataSecretName machine with
  | Some n => if decide (n <> "") then Some n else spec_UserDataSecret (acm_Spec m)
  | None => spec_UserDataSecret (acm_Spec m)
  end.

Definition getUserData (machine : Machine) (m : AlibabaCloudMachine) : M W string :=
  match userDataSecretName machine m with
  | None => mret ""
  | Some secretName =>
      secret ← wrap ("failed to get bootstrap/user-data secret " +:+ fmt_q secretName +:+ ": ")
                 (get_Secret (mkObjectKey (acm_Namespace m) secretName));
      match secret !! "value" with
      | None => throw (ErrorString ("bootstrap/user-data secret " +:+ fmt_q secretName +:+
                                    " has no 'value' key"))
      | Some raw => mret (EncodeToString raw)
      end
  end.

(** The bytes a machine boots from, in base64. *)
Lemma getUserData_run machine m w ud w' :
  getUserData machine m w = (Ok ud, w') ->
  match userDataSecretName machine m with
  | None => ud = "" /\ w' = w
  | Some name => exists secret raw, get_Secret (mkObjectKey (acm_Namespace m) name) w = (Ok secret, w') /\
      secret !! "value" = Some raw /\ ud = EncodeToString raw
  end.
Proof.
  unfold getUserData. destruct (userDataSecretName machine m) as [name|]; [|by intros [= <- <-]].
  unfold mbind, M_bind, wrap, catch. destruct (get_Secret _ w) as [[secret|e|p] w1]; [|done..].
  destruct (secret !! "value") as [raw|] eqn:Ev; [|done]. intros [= <- <-]. by exists secret, raw.
Qed.

Definition userDataThreshold (cluster : AlibabaCloudCluster) : Z :=
  match cspec_IgnitionStorage (acc_Spec cluster) with
  | Some store => if decide (0 < is_MaxUserDataBytes store)%Z then is_MaxUserDataBytes store
                  else defaultMaxUserDataBytes
  | None => defaultMaxUserDataBytes
  end.

Definition decodeError : error := ErrorString "illegal base64 data".

Definition userDataTooLarge (len threshold : Z) : error :=
  TerminalError "UserDataTooLarge"
    ("user-data is " +:+ fmt_d len +:+ " bytes (> " +:+ fmt_d threshold +:+
     ") and spec.ignitionStorage.ossBucket is not set to offload it to OSS").

(** [maybeOffloadUserData]: reads and writes the machine, calls the client. *)
Definition maybeOffloadUserData (c : Client W) (cluster : AlibabaCloudCluster)
    (region userData : string) : M (AlibabaCloudMachine * W) string :=
  let threshold := userDataThreshold cluster in
  let len := Z.of_nat (String.length userData) in
  if decide (len <= threshold)%Z then mret userData
  else
    match cspec_IgnitionStorage (acc_Spec cluster) with
    | Some store =>
        if decide (is_OSSBucket store = "") then throw (userDataTooLarge len threshold)
        else
          match DecodeString userData with
          | None => throw (WrapError "decode user-data for OSS offload: " decodeError)
          | Some raw =>
              '(m, _) ← get;
              let key := ignitionObjectKey cluster m in
              let expiry := i64 (is_ExpirySeconds store * Second) in
              url ← wrap "offload user-data to OSS: "
                      (on_snd (PutIgnitionObject c
                         (mkIgnitionStoreParams (is_OSSBucket store) (is_OSSEndpoint store)
                            region key raw expiry)));
              on_fst (modify (set_status (fun s =>
                s <| stat_IgnitionOSS :=
                  Some (mkIgnitionOSSRef (is_OSSBucket store) (is_OSSEndpoint store) key) |>))) ;;
              mret (EncodeToString (buildIgnitionPointer url raw))
          end
    | None =>
        throw (userDataTooLarge len threshold)
    end.
End user_data.

(** ** Theorems *)

(** The tag by which an instance is adopted and swept is the machine's name:
    the tags of the spec come after it and cannot shadow it. *)
Lemma machineTag_toSDKTags tags machineName clusterName :
  machineTag (toSDKTags tags machineName clusterName) = machineName.
Proof.
  unfold toSDKTags. cbn [machineTag st_Key]. rewrite decide_False; [by rewrite decide_True|].
  intros E. apply (f_equal (fun s => String.get 1 s)) in E. done.
Qed.

Lemma toSDKTags_elem tags machineName clusterName :
  mkSDKTag MachineNameTagKey machineName ∈ toSDKTags tags machineName clusterName.
Proof. right. left. Qed.

Section offload.
Context {W : Type} `{!GoFmt} (c : Client W) (cluster : AlibabaCloudCluster) (region : string).

Definition store_ref (store : IgnitionStorageSpec) (m : AlibabaCloudMachine) : IgnitionOSSRef :=
  mkIgnitionOSSRef (is_OSSBucket store) (is_OSSEndpoint store) (ignitionObjectKey cluster m).

(** The upload the offload makes. *)
Definition offload_params (store : IgnitionStorageSpec) (m : AlibabaCloudMachine) (raw : string)
    : IgnitionStoreParams :=
  mkIgnitionStoreParams (is_OSSBucket store) (is_OSSEndpoint store) region
    (ignitionObjectKey cluster m) raw (i64 (is_ExpirySeconds store * Second)).

(** What one run does, in every case. *)
Lemma maybeOffloadUserData_run raw m w :
  let userData := EncodeToString raw in
  let len := Z.of_nat (String.length userData) in
  maybeOffloadUserData c cluster region userData (m, w) =
  if decide (len <= userDataThreshold cluster)%Z then (Ok userData, (m, w))
  else match cspec_IgnitionStorage (acc_Spec cluster) with
       | Some store =>
           if decide (is_OSSBucket store = "") then
             (Err (userDataTooLarge len (userDataThreshold cluster)), (m, w))
           else match PutIgnitionObject c (offload_params store m raw) w with
                | (Ok url, w') =>
                    (Ok (EncodeToString (buildIgnitionPointer url raw)),
                     (set_status (fun s => s <| stat_IgnitionOSS := Some (store_ref store m) |>) m,
                      w'))
                | (Err e, w') => (Err (WrapError "offload user-data to OSS: " e), (m, w'))
                | (Panic p, w') => (Panic p, (m, w'))
                end
       | None => (Err (userDataTooLarge len (userDataThreshold cluster)), (m, w))
       end.
Proof.
  cbv zeta. unfold maybeOffloadUserData. destruct (decide _); [done|].
  destruct (cspec_IgnitionStorage _) as [store|]; [|done].
  destruct (decide _); [done|]. rewrite DecodeString_EncodeToString.
  unfold mbind, M_bind, get, wrap, catch, on_snd, on_fst, offload_params. cbn.
  by destruct (PutIgnitionObject c _ w) as [[url|e|p] w'].
Qed.

(** How the bytes [raw] reach the instance as the user data [ud].  They are
    within the limit, and [ud] is their base64; or their base64 is too long, they
    were uploaded as they are under the key recorded in the machine's status, and
    [ud] is the base64 of a pointer to the upload's URL pinned to their
    SHA-512. *)
Definition delivers (raw : string) (m : AlibabaCloudMachine) (w : W) (ud : string)
    (m' : AlibabaCloudMachine) (w' : W) : Prop :=
  let len := Z.of_nat (String.length (EncodeToString raw)) in
  ((len <= userDataThreshold cluster)%Z /\ DecodeString ud = Some raw /\ ud = EncodeToString raw /\
     stat_IgnitionOSS (acm_Status m') = stat_IgnitionOSS (acm_Status m) /\ w' = w) \/
  ((userDataThreshold cluster < len)%Z /\ exists store url,
    cspec_IgnitionStorage (acc_Spec cluster) = Some store /\ is_OSSBucket store <> "" /\
    PutIgnitionObject c (offload_params store m raw) w = (Ok url, w') /\
    stat_IgnitionOSS (acm_Status m') = Some (store_ref store m) /\
    DecodeString ud = Some (buildIgnitionPointer url raw)).

Lemma maybeOffloadUserData_delivers raw m w ud m' w' :
  maybeOffloadUserData c cluster region (EncodeToString raw) (m, w) = (Ok ud, (m', w')) ->
  delivers raw m w ud m' w'.
Proof.
  rewrite maybeOffloadUserData_run. unfold delivers. destruct (decide _) as [Hle|Hgt].
  - intros [= <- <- <-]. left. by rewrite DecodeString_EncodeToString.
  - destruct (cspec_IgnitionStorage _) as [store|] eqn:Es; [|done].
    destruct (decide _) as [|Hb]; [done|].
    destruct (PutIgnitionObject c _ w) as [[url|e|p] w1] eqn:Ep; [|done..].
    intros [= <- <- <-]. right. split; [lia|]. exists store, url.
    by rewrite DecodeString_EncodeToString.
Qed.

Lemma maybeOffloadUserData_empty m w :
  maybeOffloadUserData c cluster region "" (m, w) = (Ok "", (m, w)).
Proof.
  unfold maybeOffloadUserData. rewrite decide_True; [done|]. unfold userDataThreshold.
  destruct (cspec_IgnitionStorage _); [case_decide|]; cbn; unfold defaultMaxUserDataBytes; lia.
Qed.

(** User data over the limit with nowhere to put it is a terminal error,
    made without any cloud call and without touching the machine. *)
Theorem maybeOffloadUserData_too_large raw m w :
  (userDataThreshold cluster < Z.of_nat (4 * ((String.length raw + 2) / 3)))%Z ->
  (forall store, cspec_IgnitionStorage (acc_Spec cluster) = Some store -> is_OSSBucket store = "") ->
  exists msg, maybeOffloadUserData c cluster region (EncodeToString raw) (m, w) =
    (Err (TerminalError "UserDataTooLarge" msg), (m, w)).
Proof.
  intros Hlen Hs. rewrite maybeOffloadUserData_run, decide_False.
  2: { rewrite EncodeToString_length. lia. }
  destruct (cspec_IgnitionStorage _) as [store|]; [|by eexists].
  rewrite decide_True by auto. by eexists.
Qed.
End offload.

(** ** Concrete runs *)

Lemma maybeOffloadUserData_too_large_witness :
  exists msg, maybeOffloadUserData (capi_client (env_of []))
    (sim_cluster (Some (mkIgnitionStorageSpec "" "" 0 8))) sim_region
    (EncodeToString "ignition config") (sim_acm "worker-1", freshClient sim_one) =
    (Err (TerminalError "UserDataTooLarge" msg), (sim_acm "worker-1", freshClient sim_one)).
Proof.
  apply maybeOffloadUserData_too_large.
  - reflexivity.
  - intros store [= <-]. reflexivity.
Defined.
