(* ===== verification/MachineController.v ===== *)
(** * The AlibabaCloudMachine controller

    [internal/controller/alibabacloudmachine_controller.go].  A reconcile works
    on one [AlibabaCloudMachine] held in memory and on the world behind the
    Kubernetes client and the cloud client, so its state is the pair of them; an
    error or an early return leaves what was already written into the object,
    and the deferred patch of [Reconcile] sends it to the API server.

    [reconcileNormal], [reconcileDelete] and [findOrCreateInstance] are
    handlers in the monad; the parts that only compute are functions. *)

From S2P Require Import Api ProviderID CloudClient Ignition.

(** The Cluster API and controller-runtime calls of [Reconcile]. *)
Class MachineKube (W : Type) := {
  mk_reader :: KubeReader W;
  get_AlibabaCloudMachine : ObjectKey -> M W AlibabaCloudMachine;
  get_AlibabaCloudCluster : ObjectKey -> M W AlibabaCloudCluster;
  GetOwnerMachine : ObjectMeta -> M W (option Machine);
  GetClusterFromMetadata : ObjectMeta -> M W (option Cluster);
  IsPaused : Cluster -> AlibabaCloudMachine -> bool;
  (** [patch.NewHelper] takes the object as it was read; [Patch] sends the
      difference with the object as it is. *)
  patch_NewHelper : AlibabaCloudMachine -> M W ();
  patch_Patch : AlibabaCloudMachine -> AlibabaCloudMachine -> list string -> M W ();
}.

(** ** Data *)

Record instanceInfo := mkInstanceInfo {
  info_InstanceID : string;
  info_State : InstanceState;
  info_HostName : string;
  info_PrivateIP : string;
  info_PublicIP : string;
}.

Definition defaultHTTPEndpoint : string := "enabled".
Definition defaultHTTPTokens : string := "required".

(** ** Pure parts *)

Definition resolveMetadataOptions (o : option MetadataOptions) : string * string * Z :=
  match o with
  | None => (defaultHTTPEndpoint, defaultHTTPTokens, 0%Z)
  | Some o =>
      (if decide (mo_HttpEndpoint o <> "") then mo_HttpEndpoint o else defaultHTTPEndpoint,
       if decide (mo_HttpTokens o <> "") then mo_HttpTokens o else defaultHTTPTokens,
       mo_HttpPutResponseHopLimit o)
  end.

(** [alibabaErrorCode]: the server error code in the chain, or empty. *)
Definition alibabaErrorCode (err : error) : string :=
  match as_server_error err with
  | Some (_, code) => code
  | None => ""
  end.

Definition capacity_codes : list string :=
  ["Invalid.Zone.NotEnoughResource"; "InsufficientCapacity"; "OperationDenied.NoStock"].
Definition spot_codes : list string :=
  ["Invalid.SpotStrategy.NotSupported"; "Invalid.SpotPriceLimit.Exceeded"].

Definition classifyCreateError (err : error) : error :=
  if decide (alibabaErrorCode err ∈ capacity_codes) then
    TerminalError "InstanceCapacityExhausted" "Instance capacity exhausted in current zone"
  else if decide (alibabaErrorCode err ∈ spot_codes) then
    TerminalError "SpotConfigurationRejected"
      ("spot configuration rejected by Alibaba Cloud: " +:+ alibabaErrorCode err)
  else WrapError "failed to create ECS instance: " err.

Definition machineAddresses (info : instanceInfo) : list MachineAddress :=
  let addr t a := if decide (a <> "") then [mkMachineAddress t a] else [] in
  addr MachineInternalDNS (info_HostName info) ++ addr MachineInternalIP (info_PrivateIP info) ++
  addr MachineExternalIP (info_PublicIP info).

Definition syncInstanceStatus (info : instanceInfo) (m : AlibabaCloudMachine) : AlibabaCloudMachine :=
  set_status (fun s => s <| stat_InstanceID := Some (info_InstanceID info) |>
    <| stat_InstanceState := Some (info_State info) |>
    <| stat_Addresses := machineAddresses info |>) m.

(** The failure domain entry the machine is assigned to. *)
Definition findFailureDomain (zoneID : string) (c : AlibabaCloudCluster) : option CoreFailureDomain :=
  head (filter (fun fd => cfd_Name fd = zoneID) (cstat_FailureDomains (acc_Status c))).

(** The disk settings of the request: the spec's system disk, or the defaults. *)
Definition resolveSystemDisk (m : AlibabaCloudMachine) : SystemDisk :=
  match spec_SystemDisk (acm_Spec m) with
  | Some sd => sd
  | None => mkSystemDisk "cloud_efficiency" 40 "" None ""
  end.

Definition resolveImage (m : AlibabaCloudMachine) (c : AlibabaCloudCluster) : string :=
  if decide (spec_ImageID (acm_Spec m) = "") then cspec_BootImageID (acc_Spec c)
  else spec_ImageID (acm_Spec m).

(** The parameters of the create call. *)
Definition createParams (machine : Machine) (c : AlibabaCloudCluster) (m : AlibabaCloudMachine)
    (region imageID userData : string) : CreateInstanceParams :=
  let s := acm_Spec m in
  let sd := resolveSystemDisk m in
  let '(httpEndpoint, httpTokens, hopLimit) := resolveMetadataOptions (spec_MetadataOptions s) in
  {| cip_RegionID := region;
     cip_ZoneID := spec_ZoneID s;
     cip_InstanceType := spec_InstanceType s;
     cip_ImageID := imageID;
     cip_InstanceName := mach_Name machine;
     cip_HostName := mach_Name machine;
     cip_SecurityGroupIDs := spec_SecurityGroupIDs s;
     cip_VSwitchID := spec_VSwitchID s;
     cip_SystemDiskCategory := sd_Category sd;
     cip_SystemDiskSize := sd_Size sd;
     cip_SystemDiskPerformanceLevel := sd_PerformanceLevel sd;
     cip_SystemDiskEncrypted := sd_Encrypted sd;
     cip_SystemDiskKMSKeyID := sd_KMSKeyID sd;
     cip_DataDisks := toSDKDataDisks (data_disks s);
     cip_RAMRoleName := spec_RAMRoleName s;
     cip_UserData := userData;
     cip_Tags := toSDKTags (spec_Tags s) (mach_Name machine) (acc_Name c);
     cip_ResourceGroupID := cspec_ResourceGroupID (acc_Spec c);
     cip_SpotStrategy := spec_SpotStrategy s;
     cip_SpotPriceLimit := spec_SpotPriceLimit s;
     cip_HttpEndpoint := httpEndpoint;
     cip_HttpTokens := httpTokens;
     cip_HttpPutResponseHopLimit := hopLimit;
     cip_ClientToken := meta_UID (acm_ObjectMeta m) |}.

(** ** The handlers *)

Section controller.
Context {W : Type} `{!MachineKube W} `{!KubeLib} `{!GoFmt}.
Context (AlibabaCloudClientBuilder : string -> M W (Client W)).

Abbreviation St := (AlibabaCloudMachine * W)%type.

Definition machine_of : M St AlibabaCloudMachine := on_fst get.
Definition update_machine (f : AlibabaCloudMachine -> AlibabaCloudMachine) : M St () :=
  on_fst (modify f).

Definition with_condition (c : Condition) : AlibabaCloudMachine -> AlibabaCloudMachine :=
  set_condition c.

(** [conditions.Set(alibabaCloudMachine, metav1.Condition{Type: Ready, ...})] *)
Definition set_ready (status : ConditionStatus) (reason message : string) : M St () :=
  update_machine (with_condition (condition ReadyCondition status reason message)).

Definition setFailed (reason message : string) : M St () :=
  update_machine (set_status (fun s => s <| stat_FailureReason := Some reason |>
    <| stat_FailureMessage := Some message |> <| stat_Ready := false |>)) ;;
  set_ready ConditionFalse reason message.

Definition describeInstance (c : Client W) (instanceID : string) : M W (option instanceInfo) :=
  resp ← wrap ("failed to describe instance " +:+ instanceID +:+ ": ")
           (DescribeInstanceByID c instanceID);
  mret ((fun d => mkInstanceInfo (idesc_InstanceID d) (idesc_Status d) (idesc_HostName d)
                    (firstIP (idesc_InnerIpAddress d)) (firstIP (idesc_PublicIpAddress d))) <$> resp).

Definition deleteInstance (c : Client W) : M St () :=
  m ← machine_of;
  instanceID ← deref (stat_InstanceID (acm_Status m));
  wrap ("failed to delete ECS instance " +:+ instanceID +:+ ": ")
    (on_snd (DeleteECSInstance c instanceID true)).

(** [resolveFailureDomain]: the zone is assigned before the vSwitch attribute
    is looked at, so it stays assigned when that lookup fails. *)
Definition resolveFailureDomain (machine : Machine) (cluster : AlibabaCloudCluster) : M St () :=
  let zoneID := mach_FailureDomain machine in
  if decide (zoneID = "") then mret ()
  else
    match findFailureDomain zoneID cluster with
    | None => throw (ErrorString ("failure domain " +:+ fmt_q zoneID +:+
                                  " not found in AlibabaCloudCluster status"))
    | Some fd =>
        update_machine (fun m =>
          if decide (spec_ZoneID (acm_Spec m) = "")
          then set_spec (fun s => s <| spec_ZoneID := zoneID |>) m else m) ;;
        m ← machine_of;
        if decide (spec_VSwitchID (acm_Spec m) = "") then
          match cfd_Attributes fd !! "vSwitchID" with
          | Some vsw =>
              if decide (vsw = "") then
                throw (ErrorString ("failure domain " +:+ fmt_q zoneID +:+ " has no vSwitchID attribute"))
              else update_machine (set_spec (fun s => s <| spec_VSwitchID := vsw |>))
          | None =>
              throw (ErrorString ("failure domain " +:+ fmt_q zoneID +:+ " has no vSwitchID attribute"))
          end
        else mret ()
    end.

Definition noBootImage : error :=
  TerminalError "NoBootImage"
    "spec.imageID is empty and the cluster has no spec.bootImageID to fall back to".

Definition createInstance (c : Client W) (machine : Machine) (cluster : AlibabaCloudCluster)
    : M St () :=
  m ← machine_of;
  userData ← on_snd (getUserData machine m);
  let imageID := resolveImage m cluster in
  if decide (imageID = "") then throw noBootImage
  else
    let region := resolveRegion m (Some cluster) in
    update_machine (fun m =>
      if decide (spec_RegionID (acm_Spec m) = "")
      then set_spec (fun s => s <| spec_RegionID := region |>) m else m) ;;
    userData ← maybeOffloadUserData c cluster region userData;
    m ← machine_of;
    resp ← catch (on_snd (CreateECSInstance c (createParams machine cluster m region imageID userData)))
             (fun createErr => throw (classifyCreateError createErr));
    let instanceID := cir_InstanceID resp in
    update_machine (fun m =>
      set_status (fun s => s <| stat_InstanceID := Some instanceID |>
                    <| stat_InstanceState := Some InstanceStatePending |>)
        (set_spec (fun s => s <| spec_ProviderID := Some (providerIDFor region instanceID) |>) m)).

(** [maybeHardenMetadata]: every failure is logged and retried later. *)
Definition maybeHardenMetadata (c : Client W) (machine : option Machine) (instanceID : string)
    : M St () :=
  m ← machine_of;
  match spec_MetadataOptions (acm_Spec m) with
  | None => mret ()
  | Some mo =>
      if decide (mo_HttpTokensAfterBoot mo = "") then mret ()
      else if decide (stat_MetadataHardened (acm_Status m) = Some true) then mret ()
      else
        match machine with
        | None => mret ()
        | Some mach =>
            if decide (mach_NodeRefName mach = "") then mret ()
            else
              let '(httpEndpoint, _, hopLimit) := resolveMetadataOptions (Some mo) in
              r ← try (on_snd (ModifyInstanceMetadata c instanceID httpEndpoint
                                 (mo_HttpTokensAfterBoot mo) hopLimit));
              match r with
              | inl _ => mret ()
              | inr _ => update_machine (set_status (fun s => s <| stat_MetadataHardened := Some true |>))
              end
        end
  end.

Definition instanceMismatch (pidInstance instanceID : string) : error :=
  TerminalError "ProviderIDInstanceMismatch"
    ("spec.providerID names instance " +:+ pidInstance +:+ " but status.instanceID is " +:+
     instanceID +:+ "; providerID is immutable, so this machine can never bind its Node").
Definition instanceDisappeared (instanceID : string) : error :=
  TerminalError "InstanceDisappeared" ("ECS instance " +:+ instanceID +:+ " no longer exists").
Definition instanceTerminalState (instanceID state : string) : error :=
  TerminalError "InstanceTerminalState"
    ("ECS instance " +:+ instanceID +:+ " is in terminal state " +:+ fmt_q state).

(** The part of [findOrCreateInstance] for a machine with an instance. *)
Definition findInstance (c : Client W) (machine : Machine) (cluster : AlibabaCloudCluster)
    (instanceID : string) : M St (option instanceInfo) :=
  m ← machine_of;
  let pidInstance := from_option providerInstanceID "" (spec_ProviderID (acm_Spec m)) in
  if decide (pidInstance <> "" /\ pidInstance <> instanceID) then
    throw (instanceMismatch pidInstance instanceID)
  else
    info ← on_snd (describeInstance c instanceID);
    match info with
    | None => throw (instanceDisappeared instanceID)
    | Some info =>
        update_machine (fun m =>
          match spec_ProviderID (acm_Spec m) with
          | None => set_spec (fun s => s <| spec_ProviderID :=
                      Some (providerIDFor (resolveRegion m (Some cluster)) instanceID) |>) m
          | Some _ => m
          end) ;;
        update_machine (syncInstanceStatus info) ;;
        if decide (info_State info = InstanceStateRunning) then
          maybeHardenMetadata c (Some machine) instanceID ;;
          mret (Some info)
        else if decide (info_State info = InstanceStateDeleted \/ info_State info = InstanceStateStopped)
        then throw (instanceTerminalState instanceID (info_State info))
        else mret None
    end.

(** The log line after the create reads [*Status.InstanceID]. *)
Definition findOrCreateInstance (c : Client W) (machine : Machine) (cluster : AlibabaCloudCluster)
    : M St (option instanceInfo) :=
  m ← machine_of;
  match stat_InstanceID (acm_Status m) with
  | Some instanceID => findInstance c machine cluster instanceID
  | None =>
      createInstance c machine cluster ;;
      m ← machine_of;
      _ ← deref (stat_InstanceID (acm_Status m));
      mret None
  end.

Definition requeue : Result := mkResult requeueAfter.
Definition done_ : Result := mkResult 0.

Definition reconcileNormal (machine : Machine) (cluster : AlibabaCloudCluster) : M St Result :=
  update_machine (set_finalizers (fun l => AddFinalizer l MachineFinalizer)) ;;
  if negb (cstat_Ready (acc_Status cluster)) then
    set_ready ConditionFalse "ClusterInfrastructureNotReady" "cluster infrastructure not ready" ;;
    mret requeue
  else
    m ← machine_of;
    if decide (mach_DataSecretName machine = None /\ spec_UserDataSecret (acm_Spec m) = None) then
      set_ready ConditionFalse "WaitingForBootstrapData"
        "bootstrap data secret reference is not yet available" ;;
      mret requeue
    else
      catch (resolveFailureDomain machine cluster) (fun err =>
        set_ready ConditionFalse "FailureDomainError" (Error err) ;; throw err) ;;
      m ← machine_of;
      let region := resolveRegion m (Some cluster) in
      c ← catch (on_snd (AlibabaCloudClientBuilder region)) (fun err =>
            set_ready ConditionFalse "AlibabaClientError" (Error err) ;;
            throw (WrapError "failed to create Alibaba Cloud client: " err));
      r ← try (findOrCreateInstance c machine cluster);
      match r with
      | inl err =>
          match as_terminal_error err with
          | Some (reason, message) => setFailed reason message ;; mret done_
          | None =>
              set_ready ConditionFalse "InstanceReconcileError" (Error err) ;; throw err
          end
      | inr None => mret requeue
      | inr (Some _) =>
          set_ready ConditionTrue "AlibabaCloudMachineReady" "" ;;
          update_machine (set_status (fun s => s <| stat_Ready := true |>
            <| stat_Initialization := Some (mkInitializationStatus (Some true)) |>)) ;;
          mret done_
      end.

(** ** Deletion *)

(** [cleanupOffloadedIgnition]: best effort. *)
Definition cleanupOffloadedIgnition (c : Client W) (region : string) : M St () :=
  m ← machine_of;
  match stat_IgnitionOSS (acm_Status m) with
  | None => mret ()
  | Some ref =>
      _ ← try (on_snd (DeleteIgnitionObject c
                 (mkIgnitionStoreParams (oss_Bucket ref) (oss_Endpoint ref) region (oss_Key ref) "" 0)));
      mret ()
  end.

(** The instance handle of a machine: its status, else its providerID. *)
Definition instanceHandle (m : AlibabaCloudMachine) : string :=
  match stat_InstanceID (acm_Status m) with
  | Some id => id
  | None => from_option providerInstanceID "" (spec_ProviderID (acm_Spec m))
  end.

Definition release_finalizer : M St () :=
  update_machine (set_finalizers (fun l => RemoveFinalizer l MachineFinalizer)).

(** The recorded instance is gone: sweep by tag, and release when that too
    finds nothing. *)
Definition sweepAndRelease (c : Client W) (region : string) : M St Result :=
  m ← machine_of;
  orphanID ← on_snd (FindInstanceByTag c region MachineNameTagKey (acm_Name m));
  if decide (orphanID <> "") then
    wrap ("failed to delete orphan ECS " +:+ orphanID +:+ ": ")
      (on_snd (DeleteECSInstance c orphanID true)) ;;
    mret requeue
  else
    cleanupOffloadedIgnition c region ;;
    release_finalizer ;;
    mret done_.

(** The recorded instance is still there. *)
Definition awaitTermination (c : Client W) (instanceID : string) (info : instanceInfo)
    : M St Result :=
  update_machine (set_status (fun s => s <| stat_InstanceState := Some (info_State info) |>)) ;;
  set_ready ConditionFalse "Deleting" ("ECS instance " +:+ instanceID +:+ " is " +:+
    fmt_q (info_State info) +:+ "; waiting for termination") ;;
  (if decide (info_State info = InstanceStateStopping \/ info_State info = InstanceStateDeleted)
   then mret () else deleteInstance c) ;;
  mret requeue.

Definition reconcileDelete : M St Result :=
  m ← machine_of;
  let instanceID := instanceHandle m in
  match regionFromMachine m with
  | inl regionErr =>
      if decide (instanceID = "") then release_finalizer ;; mret done_
      else throw (WrapError ("cannot determine region to delete instance " +:+ instanceID +:+ ": ")
                    regionErr)
  | inr region =>
      update_machine (fun m =>
        if decide (stat_InstanceID (acm_Status m) = None /\ instanceID <> "")
        then set_status (fun s => s <| stat_InstanceID := Some instanceID |>) m else m) ;;
      c ← wrap "failed to create Alibaba Cloud client: " (on_snd (AlibabaCloudClientBuilder region));
      info ← (if decide (instanceID = "") then mret None
              else on_snd (describeInstance c instanceID));
      match info with
      | None => sweepAndRelease c region
      | Some info => awaitTermination c instanceID info
      end
  end.

(** ** [Reconcile] *)

(** The body, between the creation of the patch helper and the deferred
    patch. *)
Definition reconcileMachine : M St Result :=
  m ← machine_of;
  if negb (IsZero (meta_DeletionTimestamp (acm_ObjectMeta m))) then reconcileDelete
  else
    machine ← on_snd (GetOwnerMachine (acm_ObjectMeta m));
    match machine with
    | None => mret done_
    | Some machine =>
        cluster ← wrap ("AlibabaCloudMachine owner Machine is missing cluster label " +:+
                        "or cluster does not exist: ")
                    (on_snd (GetClusterFromMetadata (mach_ObjectMeta machine)));
        match cluster with
        | None => mret done_
        | Some cluster =>
            if IsPaused cluster m then mret done_
            else
              alibabaCluster ← wrap "failed to get AlibabaCloudCluster: "
                (on_snd (get_AlibabaCloudCluster
                           (mkObjectKey (acm_Namespace m) (clus_InfraName cluster))));
              reconcileNormal machine alibabaCluster
        end
    end.

(** The deferred function runs whatever the body returned; its error is
    returned unless the body already had one. *)
Definition Reconcile (req : ObjectKey) : M W Result := fun w =>
  match get_AlibabaCloudMachine req w with
  | (Err e, w1) => if IsNotFound e then (Ok done_, w1) else (Err e, w1)
  | (Panic p, w1) => (Panic p, w1)
  | (Ok m0, w1) =>
      match patch_NewHelper m0 w1 with
      | (Err e, w2) => (Err e, w2)
      | (Panic p, w2) => (Panic p, w2)
      | (Ok _, w2) =>
          let '(r, (m', w3)) := reconcileMachine (m0, w2) in
          match patch_Patch m0 m' [ReadyCondition] w3 with
          | (Ok _, w4) => (r, w4)
          | (Err e, w4) => (match r with Ok _ => Err e | _ => r end, w4)
          | (Panic p, w4) => (Panic p, w4)
          end
      end
  end.
End controller.

(** ** The promises of the client builder *)

Class BuilderLaws {W} (cloud_of : W -> Cloud) (builder : string -> M W (Client W)) : Prop := {
  builder_client region w c w' : builder region w = (Ok c, w') -> ClientLaws cloud_of region c;
  builder_cloud region w r w' : builder region w = (r, w') -> cloud_of w' = cloud_of w;
}.
