(* ===== verification/SimClient.v ===== *)
(** * A client over a cloud in memory

    The smallest [Client] that keeps the promises of the interface: the world
    is the map of instances.  It instantiates the client of the controllers'
    theorems at concrete runs; no theorem depends on it. *)

From S2P Require Import Api CloudClient.

(** Instance ids are not empty. *)
Definition mem_cloud (w : Cloud) : Cloud := delete "" w.

Definition mem_describe (region id : string) : M Cloud (option InstanceDescription) := fun w =>
  (Ok (match mem_cloud w !! id with
       | Some i => if decide (ci_Region i = region)
                   then Some (mkInstanceDescription id (ci_Status i) ("host-" +:+ id) ["10.0.0.7"] [])
                   else None
       | None => None
       end), w).

Definition mem_find (r k v : string) : M Cloud string := fun w =>
  (Ok (match filter (fun x => live_tagged r k v x.2) (map_to_list (mem_cloud w)) with
       | x :: _ => x.1
       | [] => ""
       end), w).

(** One instance can be created. *)
Definition mem_create (p : CreateInstanceParams) : M Cloud CreateInstanceResponse := fun w =>
  let id := "i-new" in
  match mem_find (cip_RegionID p) MachineNameTagKey (machineTag (cip_Tags p)) w with
  | (Ok "", _) =>
      if decide (w !! id = None) then
        (Ok (mkCreateInstanceResponse id),
         <[id := mkCloudInstance (cip_RegionID p) InstanceStatePending (cip_Tags p)]> w)
      else (Err (ServerError 403 "OperationDenied.NoStock" "sold out"), w)
  | (Ok existing, _) => (Ok (mkCreateInstanceResponse existing), w)
  | (Err e, _) => (Err e, w)
  | (Panic p, _) => (Panic p, w)
  end.

Lemma mem_create_run p w :
  (exists resp w', mem_create p w = (Ok resp, w')) \/
  mem_create p w = (Err (ServerError 403 "OperationDenied.NoStock" "sold out"), w).
Proof.
  unfold mem_create.
  destruct (mem_find (cip_RegionID p) MachineNameTagKey (machineTag (cip_Tags p)) w) as [r w1] eqn:E.
  injection E as <- _. case_match; [|by left; eexists _, _].
  case_decide; [left; by eexists _, _|by right].
Qed.

Definition mem_delete (id : string) (force : bool) : M Cloud () := fun w =>
  match w !! id with
  | Some _ => (Ok (), delete id w)
  | None => (Err (ServerError 404 "InvalidInstanceId.NotFound" "not found"), w)
  end.

Definition memClient (region : string) : Client Cloud :=
  mkClient (mem_describe region) mem_create mem_delete mem_find
    (fun _ _ _ _ => mret ()) (fun _ => mret (2, 16384)%Z)
    (fun p => mret ("https://" +:+ isp_Bucket p +:+ "/" +:+ isp_Key p)) (fun _ => mret ()).

Definition memBuilder (region : string) : M Cloud (Client Cloud) := mret (memClient region).

#[export] Instance memClient_laws region : ClientLaws mem_cloud region (memClient region).
Proof.
  split.
  - intros id w w' i [= Hd _] Hi. rewrite Hi in Hd. by destruct (decide _).
  - intros id w d w' [= Hd _]. destruct (mem_cloud w !! id) as [i|] eqn:Hi; [|done].
    destruct (decide (ci_Region i = region)); [|done]. injection Hd as <-. split; [done|]. eauto.
  - by intros id w r w' [= _ <-].
  - intros r k v w w' _ [= Hf _] id i Hi Hl.
    destruct (filter _ _) as [|[id' i'] l] eqn:E.
    + apply (not_elem_of_nil (id, i)). rewrite <- E. apply list_elem_of_filter.
      split; [done|]. by apply elem_of_map_to_list.
    + cbn in Hf. subst id'. assert ((EmptyString, i') ∈ map_to_list (mem_cloud w)) as Hin.
      { eapply list_elem_of_filter. rewrite E. left. }
      apply elem_of_map_to_list in Hin. unfold mem_cloud in Hin. by rewrite lookup_delete_eq in Hin.
  - intros r k v w id w' _ [= Hf _] Hne.
    destruct (filter _ _) as [|[id' i'] l] eqn:E; [done|]. cbn in Hf. subst id'.
    assert ((id, i') ∈ filter (fun x => live_tagged r k v x.2) (map_to_list (mem_cloud w))) as Hin
      by (rewrite E; left).
    apply list_elem_of_filter in Hin as [Hl Hin%elem_of_map_to_list]. eauto.
  - by intros r k v w res w' [= _ <-].
  - by intros p w r w' [= _ <-].
Qed.

#[export] Instance memClient_effects region : ClientEffects mem_cloud (memClient region).
Proof.
  split.
  - intros p w r w' Hmt Hreg Hrun. change (mem_create p w = (r, w')) in Hrun. unfold mem_create in Hrun. revert Hrun.
    destruct (mem_find _ _ _ w) as [[[|a s]|e|q] w1] eqn:Hf; [|by intros [= <- <-]; left..].
    case_decide as Hid; intros [= <- <-]; [right|by left]. split.
    + intros id i. eapply (find_none (c := memClient region)); [exact Hreg|exact Hf].
    + eexists _, (mkCloudInstance _ _ _). split_and!; [|reflexivity..|].
      * unfold mem_cloud. by rewrite lookup_delete_ne.
      * unfold mem_cloud. by rewrite delete_insert_ne.
  - by intros id w r w' [= _ <-].
  - by intros rg k v w r w' [= _ <-].
  - intros id force w r w'. cbn. unfold mem_delete.
    destruct (w !! id) as [i|]; intros [= <- <-]; [|done].
    intros id' i' Hi. exists i'. split; [|done]. unfold mem_cloud in *.
    rewrite delete_delete in Hi. by apply lookup_delete_Some in Hi as [_ Hi].
  - by intros id e t h w r w' [= _ <-].
  - by intros p w r w' [= _ <-].
  - by intros p w r w' [= _ <-].
Qed.

(** ** The object helpers *)

#[export] Instance memKube : KubeLib := {|
  AddFinalizer l f := if decide (f ∈ l) then l else l ++ [f];
  RemoveFinalizer l f := filter (fun g => g <> f) l;
  conditions_Set l c := c :: filter (fun d => cond_Type d <> cond_Type c) l;
  conditions_Get l t := head (filter (fun d => cond_Type d = t) l);
|}.

#[export] Instance memKube_laws : KubeLibLaws.
Proof.
  split; cbn.
  - intros l f g. destruct (decide (f ∈ l)) as [Hf|Hf].
    + split; [by right|]. by intros [->|].
    + rewrite elem_of_app, list_elem_of_singleton. tauto.
  - intros l f g. apply (list_elem_of_filter (fun g => g <> f)).
  - intros l c. by rewrite decide_True by done.
  - intros l c t Ht. rewrite decide_False by done. f_equal.
    apply list_filter_filter_l. congruence.
Qed.
