(* ===== verification/FakeClient.v ===== *)
(** * The test double of the cloud client

    [pkg/client/fake/fake.go]: a [Client] whose eight CAPI methods call a
    function the test sets, or answer with a constant, and whose hundred service
    methods fail.  With every function set it is the client those functions make
    up ([FakeClient_answers]), so all that is
    proved of the controllers over any client holds of it; with none set it is
    a cloud without instances, whose creations come to nothing. *)

From S2P Require Import Api ProviderID CloudClient ServiceClient MachineController.

Record FakeClient (W : Type) := mkFakeClient {
  DescribeInstanceByIDFn : option (string -> M W (option InstanceDescription));
  CreateECSInstanceFn : option (CreateInstanceParams -> M W CreateInstanceResponse);
  DeleteECSInstanceFn : option (string -> bool -> M W ());
  FindInstanceByTagFn : option (string -> string -> string -> M W string);
  ModifyInstanceMetadataFn : option (string -> string -> string -> Z -> M W ());
  InstanceTypeCapacityFn : option (string -> M W (Z * Z));
  PutIgnitionObjectFn : option (IgnitionStoreParams -> M W string);
  DeleteIgnitionObjectFn : option (IgnitionStoreParams -> M W ());
}.
#[global] Arguments mkFakeClient {W}.
#[global] Arguments DescribeInstanceByIDFn {W}.
#[global] Arguments CreateECSInstanceFn {W}.
#[global] Arguments DeleteECSInstanceFn {W}.
#[global] Arguments FindInstanceByTagFn {W}.
#[global] Arguments ModifyInstanceMetadataFn {W}.
#[global] Arguments InstanceTypeCapacityFn {W}.
#[global] Arguments PutIgnitionObjectFn {W}.
#[global] Arguments DeleteIgnitionObjectFn {W}.

Section fake.
Context {W : Type} (f : FakeClient W).

Definition fake_DescribeInstanceByID (id : string) : M W (option InstanceDescription) :=
  match DescribeInstanceByIDFn f with
  | Some fn => fn id
  | None => mret None
  end.

Definition fake_CreateECSInstance (p : CreateInstanceParams) : M W CreateInstanceResponse :=
  match CreateECSInstanceFn f with
  | Some fn => fn p
  | None => mret (mkCreateInstanceResponse "i-fake")
  end.

Definition fake_DeleteECSInstance (id : string) (force : bool) : M W () :=
  match DeleteECSInstanceFn f with
  | Some fn => fn id force
  | None => mret ()
  end.

Definition fake_FindInstanceByTag (region key value : string) : M W string :=
  match FindInstanceByTagFn f with
  | Some fn => fn region key value
  | None => mret ""
  end.

Definition fake_ModifyInstanceMetadata (instanceID httpEndpoint httpTokens : string) (hopLimit : Z)
    : M W () :=
  match ModifyInstanceMetadataFn f with
  | Some fn => fn instanceID httpEndpoint httpTokens hopLimit
  | None => mret ()
  end.

Definition fake_InstanceTypeCapacity (instanceType : string) : M W (Z * Z) :=
  match InstanceTypeCapacityFn f with
  | Some fn => fn instanceType
  | None => mret (0, 0)%Z
  end.

Definition fake_PutIgnitionObject (p : IgnitionStoreParams) : M W string :=
  match PutIgnitionObjectFn f with
  | Some fn => fn p
  | None => mret ("https://fake-bucket.oss-fake-internal.aliyuncs.com/" +:+ isp_Key p)
  end.

Definition fake_DeleteIgnitionObject (p : IgnitionStoreParams) : M W () :=
  match DeleteIgnitionObjectFn f with
  | Some fn => fn p
  | None => mret ()
  end.

Definition fake_capi : Client W :=
  mkClient fake_DescribeInstanceByID fake_CreateECSInstance fake_DeleteECSInstance
    fake_FindInstanceByTag fake_ModifyInstanceMetadata fake_InstanceTypeCapacity
    fake_PutIgnitionObject fake_DeleteIgnitionObject.
End fake.

(** ** The stubs of the service methods *)

Definition stub_Ecs {W} `{!AlibabaSdk W} (m : EcsMethod) : SdkCall W (Ecs_signature m) :=
  match m with
  | RunInstances => fun _ => throw (ErrorString "FakeClient: RunInstances not implemented")
  | CreateInstance => fun _ => throw (ErrorString "FakeClient: CreateInstance not implemented")
  | DescribeInstances => fun _ => throw (ErrorString "FakeClient: DescribeInstances not implemented")
  | DeleteInstances => fun _ => throw (ErrorString "FakeClient: DeleteInstances not implemented")
  | StartInstance => fun _ => throw (ErrorString "FakeClient: StartInstance not implemented")
  | RebootInstance => fun _ => throw (ErrorString "FakeClient: RebootInstance not implemented")
  | StopInstance => fun _ => throw (ErrorString "FakeClient: StopInstance not implemented")
  | StartInstances => fun _ => throw (ErrorString "FakeClient: StartInstances not implemented")
  | RebootInstances => fun _ => throw (ErrorString "FakeClient: RebootInstances not implemented")
  | StopInstances => fun _ => throw (ErrorString "FakeClient: StopInstances not implemented")
  | DeleteInstance => fun _ => throw (ErrorString "FakeClient: DeleteInstance not implemented")
  | AttachInstanceRAMRole => fun _ => throw (ErrorString "FakeClient: AttachInstanceRAMRole not implemented")
  | DetachInstanceRAMRole => fun _ => throw (ErrorString "FakeClient: DetachInstanceRAMRole not implemented")
  | DescribeInstanceStatus => fun _ => throw (ErrorString "FakeClient: DescribeInstanceStatus not implemented")
  | ReActivateInstances => fun _ => throw (ErrorString "FakeClient: ReActivateInstances not implemented")
  | DescribeUserData => fun _ => throw (ErrorString "FakeClient: DescribeUserData not implemented")
  | DescribeInstanceTypes => fun _ => throw (ErrorString "FakeClient: DescribeInstanceTypes not implemented")
  | ModifyInstanceAttribute => fun _ => throw (ErrorString "FakeClient: ModifyInstanceAttribute not implemented")
  | ModifyInstanceMetadataOptions => fun _ => throw (ErrorString "FakeClient: ModifyInstanceMetadataOptions not implemented")
  end.

Definition stub_Tags {W} `{!AlibabaSdk W} (m : TagsMethod) : SdkCall W (Tags_signature m) :=
  match m with
  | TagResources => fun _ => throw (ErrorString "FakeClient: TagResources not implemented")
  | ListTagResources => fun _ => throw (ErrorString "FakeClient: ListTagResources not implemented")
  | UntagResources => fun _ => throw (ErrorString "FakeClient: UntagResources not implemented")
  end.

Definition stub_Network {W} `{!AlibabaSdk W} (m : NetworkMethod) : SdkCall W (Network_signature m) :=
  match m with
  | AllocatePublicIPAddress => fun _ => throw (ErrorString "FakeClient: AllocatePublicIPAddress not implemented")
  end.

Definition stub_Disk {W} `{!AlibabaSdk W} (m : DiskMethod) : SdkCall W (Disk_signature m) :=
  match m with
  | CreateDisk => fun _ => throw (ErrorString "FakeClient: CreateDisk not implemented")
  | AttachDisk => fun _ => throw (ErrorString "FakeClient: AttachDisk not implemented")
  | DescribeDisks => fun _ => throw (ErrorString "FakeClient: DescribeDisks not implemented")
  | ModifyDiskChargeType => fun _ => throw (ErrorString "FakeClient: ModifyDiskChargeType not implemented")
  | ModifyDiskAttribute => fun _ => throw (ErrorString "FakeClient: ModifyDiskAttribute not implemented")
  | ModifyDiskSpec => fun _ => throw (ErrorString "FakeClient: ModifyDiskSpec not implemented")
  | ReplaceSystemDisk => fun _ => throw (ErrorString "FakeClient: ReplaceSystemDisk not implemented")
  | ReInitDisk => fun _ => throw (ErrorString "FakeClient: ReInitDisk not implemented")
  | ResetDisk => fun _ => throw (ErrorString "FakeClient: ResetDisk not implemented")
  | ResizeDisk => fun _ => throw (ErrorString "FakeClient: ResizeDisk not implemented")
  | DetachDisk => fun _ => throw (ErrorString "FakeClient: DetachDisk not implemented")
  | DeleteDisk => fun _ => throw (ErrorString "FakeClient: DeleteDisk not implemented")
  end.

Definition stub_RegionZone {W} `{!AlibabaSdk W} (m : RegionZoneMethod) : SdkCall W (RegionZone_signature m) :=
  match m with
  | DescribeRegions => fun _ => throw (ErrorString "FakeClient: DescribeRegions not implemented")
  | DescribeZones => fun _ => throw (ErrorString "FakeClient: DescribeZones not implemented")
  end.

Definition stub_Images {W} `{!AlibabaSdk W} (m : ImagesMethod) : SdkCall W (Images_signature m) :=
  match m with
  | DescribeImages => fun _ => throw (ErrorString "FakeClient: DescribeImages not implemented")
  end.

Definition stub_SecurityGroup {W} `{!AlibabaSdk W} (m : SecurityGroupMethod) : SdkCall W (SecurityGroup_signature m) :=
  match m with
  | CreateSecurityGroup => fun _ => throw (ErrorString "FakeClient: CreateSecurityGroup not implemented")
  | AuthorizeSecurityGroup => fun _ => throw (ErrorString "FakeClient: AuthorizeSecurityGroup not implemented")
  | AuthorizeSecurityGroupEgress => fun _ => throw (ErrorString "FakeClient: AuthorizeSecurityGroupEgress not implemented")
  | RevokeSecurityGroup => fun _ => throw (ErrorString "FakeClient: RevokeSecurityGroup not implemented")
  | RevokeSecurityGroupEgress => fun _ => throw (ErrorString "FakeClient: RevokeSecurityGroupEgress not implemented")
  | JoinSecurityGroup => fun _ => throw (ErrorString "FakeClient: JoinSecurityGroup not implemented")
  | LeaveSecurityGroup => fun _ => throw (ErrorString "FakeClient: LeaveSecurityGroup not implemented")
  | DescribeSecurityGroupAttribute => fun _ => throw (ErrorString "FakeClient: DescribeSecurityGroupAttribute not implemented")
  | DescribeSecurityGroups => fun _ => throw (ErrorString "FakeClient: DescribeSecurityGroups not implemented")
  | DescribeSecurityGroupReferences => fun _ => throw (ErrorString "FakeClient: DescribeSecurityGroupReferences not implemented")
  | ModifySecurityGroupAttribute => fun _ => throw (ErrorString "FakeClient: ModifySecurityGroupAttribute not implemented")
  | ModifySecurityGroupEgressRule => fun _ => throw (ErrorString "FakeClient: ModifySecurityGroupEgressRule not implemented")
  | ModifySecurityGroupPolicy => fun _ => throw (ErrorString "FakeClient: ModifySecurityGroupPolicy not implemented")
  | ModifySecurityGroupRule => fun _ => throw (ErrorString "FakeClient: ModifySecurityGroupRule not implemented")
  | DeleteSecurityGroup => fun _ => throw (ErrorString "FakeClient: DeleteSecurityGroup not implemented")
  end.

Definition stub_Vpc {W} `{!AlibabaSdk W} (m : VpcMethod) : SdkCall W (Vpc_signature m) :=
  match m with
  | CreateVpc => fun _ => throw (ErrorString "FakeClient: CreateVpc not implemented")
  | DeleteVpc => fun _ => throw (ErrorString "FakeClient: DeleteVpc not implemented")
  | DescribeVpcs => fun _ => throw (ErrorString "FakeClient: DescribeVpcs not implemented")
  | CreateVSwitch => fun _ => throw (ErrorString "FakeClient: CreateVSwitch not implemented")
  | DeleteVSwitch => fun _ => throw (ErrorString "FakeClient: DeleteVSwitch not implemented")
  | DescribeVSwitches => fun _ => throw (ErrorString "FakeClient: DescribeVSwitches not implemented")
  end.

Definition stub_Natgateway {W} `{!AlibabaSdk W} (m : NatgatewayMethod) : SdkCall W (Natgateway_signature m) :=
  match m with
  | CreateNatGateway => fun _ => throw (ErrorString "FakeClient: CreateNatGateway not implemented")
  | DescribeNatGateways => fun _ => throw (ErrorString "FakeClient: DescribeNatGateways not implemented")
  | DeleteNatGateway => fun _ => throw (ErrorString "FakeClient: DeleteNatGateway not implemented")
  end.

Definition stub_Eip {W} `{!AlibabaSdk W} (m : EipMethod) : SdkCall W (Eip_signature m) :=
  match m with
  | AllocateEipAddress => fun _ => throw (ErrorString "FakeClient: AllocateEipAddress not implemented")
  | AssociateEipAddress => fun _ => throw (ErrorString "FakeClient: AssociateEipAddress not implemented")
  | ModifyEipAddressAttribute => fun _ => throw (ErrorString "FakeClient: ModifyEipAddressAttribute not implemented")
  | DescribeEipAddresses => fun _ => throw (ErrorString "FakeClient: DescribeEipAddresses not implemented")
  | UnassociateEipAddress => fun _ => throw (ErrorString "FakeClient: UnassociateEipAddress not implemented")
  | ReleaseEipAddress => fun _ => throw (ErrorString "FakeClient: ReleaseEipAddress not implemented")
  end.

Definition stub_Slb {W} `{!AlibabaSdk W} (m : SlbMethod) : SdkCall W (Slb_signature m) :=
  match m with
  | CreateLoadBalancer => fun _ => throw (ErrorString "FakeClient: CreateLoadBalancer not implemented")
  | DeleteLoadBalancer => fun _ => throw (ErrorString "FakeClient: DeleteLoadBalancer not implemented")
  | DescribeLoadBalancers => fun _ => throw (ErrorString "FakeClient: DescribeLoadBalancers not implemented")
  | CreateLoadBalancerTCPListener => fun _ => throw (ErrorString "FakeClient: CreateLoadBalancerTCPListener not implemented")
  | SetLoadBalancerTCPListenerAttribute => fun _ => throw (ErrorString "FakeClient: SetLoadBalancerTCPListenerAttribute not implemented")
  | DescribeLoadBalancerTCPListenerAttribute => fun _ => throw (ErrorString "FakeClient: DescribeLoadBalancerTCPListenerAttribute not implemented")
  | CreateLoadBalancerUDPListener => fun _ => throw (ErrorString "FakeClient: CreateLoadBalancerUDPListener not implemented")
  | SetLoadBalancerUDPListenerAttribute => fun _ => throw (ErrorString "FakeClient: SetLoadBalancerUDPListenerAttribute not implemented")
  | DescribeLoadBalancerUDPListenerAttribute => fun _ => throw (ErrorString "FakeClient: DescribeLoadBalancerUDPListenerAttribute not implemented")
  | CreateLoadBalancerHTTPListener => fun _ => throw (ErrorString "FakeClient: CreateLoadBalancerHTTPListener not implemented")
  | SetLoadBalancerHTTPListenerAttribute => fun _ => throw (ErrorString "FakeClient: SetLoadBalancerHTTPListenerAttribute not implemented")
  | DescribeLoadBalancerHTTPListenerAttribute => fun _ => throw (ErrorString "FakeClient: DescribeLoadBalancerHTTPListenerAttribute not implemented")
  | CreateLoadBalancerHTTPSListener => fun _ => throw (ErrorString "FakeClient: CreateLoadBalancerHTTPSListener not implemented")
  | SetLoadBalancerHTTPSListenerAttribute => fun _ => throw (ErrorString "FakeClient: SetLoadBalancerHTTPSListenerAttribute not implemented")
  | DescribeLoadBalancerHTTPSListenerAttribute => fun _ => throw (ErrorString "FakeClient: DescribeLoadBalancerHTTPSListenerAttribute not implemented")
  | StartLoadBalancerListener => fun _ => throw (ErrorString "FakeClient: StartLoadBalancerListener not implemented")
  | StopLoadBalancerListener => fun _ => throw (ErrorString "FakeClient: StopLoadBalancerListener not implemented")
  | DeleteLoadBalancerListener => fun _ => throw (ErrorString "FakeClient: DeleteLoadBalancerListener not implemented")
  | DescribeLoadBalancerListeners => fun _ => throw (ErrorString "FakeClient: DescribeLoadBalancerListeners not implemented")
  | AddBackendServers => fun _ => throw (ErrorString "FakeClient: AddBackendServers not implemented")
  | RemoveBackendServers => fun _ => throw (ErrorString "FakeClient: RemoveBackendServers not implemented")
  | SetBackendServers => fun _ => throw (ErrorString "FakeClient: SetBackendServers not implemented")
  | DescribeHealthStatus => fun _ => throw (ErrorString "FakeClient: DescribeHealthStatus not implemented")
  | CreateVServerGroup => fun _ => throw (ErrorString "FakeClient: CreateVServerGroup not implemented")
  | SetVServerGroupAttribute => fun _ => throw (ErrorString "FakeClient: SetVServerGroupAttribute not implemented")
  | AddVServerGroupBackendServers => fun _ => throw (ErrorString "FakeClient: AddVServerGroupBackendServers not implemented")
  | RemoveVServerGroupBackendServers => fun _ => throw (ErrorString "FakeClient: RemoveVServerGroupBackendServers not implemented")
  | ModifyVServerGroupBackendServers => fun _ => throw (ErrorString "FakeClient: ModifyVServerGroupBackendServers not implemented")
  | DeleteVServerGroup => fun _ => throw (ErrorString "FakeClient: DeleteVServerGroup not implemented")
  | DescribeVServerGroups => fun _ => throw (ErrorString "FakeClient: DescribeVServerGroups not implemented")
  | DescribeVServerGroupAttribute => fun _ => throw (ErrorString "FakeClient: DescribeVServerGroupAttribute not implemented")
  end.

Definition stub_ResourceGroups {W} `{!AlibabaSdk W} (m : ResourceGroupsMethod) : SdkCall W (ResourceGroups_signature m) :=
  match m with
  | ListResourceGroups => fun _ => throw (ErrorString "FakeClient: ListResourceGroups not implemented")
  end.

Definition fake_call {W} `{!AlibabaSdk W} (m : Method) : MethodCall W m :=
  match m with
  | InEcs m => stub_Ecs m
  | InTags m => stub_Tags m
  | InNetwork m => stub_Network m
  | InDisk m => stub_Disk m
  | InRegionZone m => stub_RegionZone m
  | InImages m => stub_Images m
  | InSecurityGroup m => stub_SecurityGroup m
  | InVpc m => stub_Vpc m
  | InNatgateway m => stub_Natgateway m
  | InEip m => stub_Eip m
  | InSlb m => stub_Slb m
  | InResourceGroups m => stub_ResourceGroups m
  end.

Definition fake_client {W} `{!AlibabaSdk W} (f : FakeClient W) : FullClient W :=
  mkFullClient (fake_capi f) fake_call.

(** ** Theorems *)

(** A fake with every function set, to those of a client. *)
Definition populated {W} (c : Client W) : FakeClient W :=
  mkFakeClient (Some (DescribeInstanceByID c)) (Some (CreateECSInstance c))
    (Some (DeleteECSInstance c)) (Some (FindInstanceByTag c)) (Some (ModifyInstanceMetadata c))
    (Some (InstanceTypeCapacity c)) (Some (PutIgnitionObject c)) (Some (DeleteIgnitionObject c)).
Definition empty_fake {W} : FakeClient W := mkFakeClient None None None None None None None None.

Lemma fake_capi_populated {W} (c : Client W) : fake_capi (populated c) = c.
Proof. by destruct c. Qed.

(** What a test over the double exercises.  A method whose function is set is
    that function; a double with every function set is the client it was made
    of.  Each of the eight methods of the controllers whose function is not set
    succeeds with its constant and changes nothing.  Each of the hundred service
    methods fails with an error that names it, and changes nothing. *)
Theorem FakeClient_answers {W} `{!AlibabaSdk W} (f : FakeClient W) :
  (forall c, fc_capi (fake_client (populated c)) = c) /\
  (let c := fc_capi (fake_client f) in
   (DescribeInstanceByIDFn f = None -> forall id, DescribeInstanceByID c id = mret None) /\
   (CreateECSInstanceFn f = None ->
      forall p, CreateECSInstance c p = mret (mkCreateInstanceResponse "i-fake")) /\
   (DeleteECSInstanceFn f = None -> forall id force, DeleteECSInstance c id force = mret ()) /\
   (FindInstanceByTagFn f = None -> forall r k v, FindInstanceByTag c r k v = mret "") /\
   (ModifyInstanceMetadataFn f = None ->
      forall id e t h, ModifyInstanceMetadata c id e t h = mret ()) /\
   (InstanceTypeCapacityFn f = None -> forall t, InstanceTypeCapacity c t = mret (0, 0)%Z) /\
   (PutIgnitionObjectFn f = None -> forall p, PutIgnitionObject c p =
      mret ("https://fake-bucket.oss-fake-internal.aliyuncs.com/" +:+ isp_Key p)) /\
   (DeleteIgnitionObjectFn f = None -> forall p, DeleteIgnitionObject c p = mret ())) /\
  forall m request, fc_call (fake_client f) m request =
    throw (ErrorString ("FakeClient: " +:+ method_name m +:+ " not implemented")).
Proof.
  split; [by intros []|]. split.
  - unfold fake_client, fake_capi, fake_DescribeInstanceByID, fake_CreateECSInstance,
      fake_DeleteECSInstance, fake_FindInstanceByTag, fake_ModifyInstanceMetadata,
      fake_InstanceTypeCapacity, fake_PutIgnitionObject, fake_DeleteIgnitionObject.
    cbn. split_and!; by intros ->.
  - by intros [[]|[]|[]|[]|[]|[]|[]|[]|[]|[]|[]|[]].
Qed.

(** The double with no function set keeps the promises of the interface, for a
    cloud without instances. *)
Lemma empty_fake_laws {W} region : ClientLaws (fun _ : W => ∅) region (fake_capi empty_fake).
Proof. split; try done. by intros r k v w id w' _ [= <- _]. Qed.

Lemma empty_fake_effects {W} : ClientEffects (fun _ : W => ∅) (fake_capi empty_fake).
Proof. split; by intros; try left. Qed.

(** So a machine reconciled over it twice fails: the instance its creation
    returned is not there. *)
Lemma empty_fake_disappears {W} `{!MachineKube W} `{!GoFmt} (machine : Machine) (cluster : AlibabaCloudCluster)
    (m : AlibabaCloudMachine) (w : W) id :
  stat_InstanceID (acm_Status m) = Some id ->
  (forall pid, spec_ProviderID (acm_Spec m) = Some pid -> providerInstanceID pid = id) ->
  findOrCreateInstance (fake_capi empty_fake) machine cluster (m, w) =
    (Err (instanceDisappeared id), (m, w)).
Proof.
  intros Hid Hpid. unfold findOrCreateInstance, machine_of, mbind, M_bind. cbn. rewrite Hid.
  unfold findInstance, machine_of, mbind, M_bind. cbn. rewrite decide_False; [done|].
  destruct (spec_ProviderID (acm_Spec m)) as [pid|]; cbn; [|by intros []].
  intros [_ Hne]. by apply Hne, Hpid.
Qed.
