(* ===== verification/CapiCore.v ===== *)
(** * Coexistence with the Cluster API core

    [internal/controller/capi_core.go]: which namespaces run a Cluster API core,
    and what their number means. *)

From stdpp Require Import sorting.
From S2P Require Import Api.

Definition capiCoreProviderLabel : string := "cluster.x-k8s.io/provider".
Definition capiCoreProviderValue : string := "cluster-api".
Definition ocpHostedCAPINamespace : string := "openshift-cluster-api".

Inductive CAPICoreMode := CAPICoreBundled | CAPICoreReused | CAPICoreConflict | CAPICoreNone.
#[export] Instance CAPICoreMode_eq_dec : EqDecision CAPICoreMode.
Proof. solve_decision. Defined.

(** [c.List(ctx, deploys, client.MatchingLabels{label: value})]: the namespaces
    of the deployments that carry the label, one per deployment. *)
Class ListDeployments (W : Type) := list_deployments : string -> string -> M W (list string).

(** Byte order on strings, as [sort.Strings] uses. *)
Definition string_le (a b : string) : Prop := String.leb a b = true.
#[export] Instance string_le_dec : RelDecision string_le.
Proof. intros a b. unfold string_le. apply _. Defined.
#[export] Instance string_le_total : Total string_le.
Proof. intros a b. unfold string_le. destruct (String.leb_total a b) as [-> | ->]; auto. Qed.

(** The set the loop collects, in some order, sorted. *)
Definition core_namespaces (deploys : list string) : list string :=
  merge_sort string_le (elements (list_to_set deploys : gset string)).

Definition DetectCAPICoreNamespaces {W} `{!ListDeployments W} : M W (list string) :=
  deploys ← list_deployments capiCoreProviderLabel capiCoreProviderValue;
  mret (core_namespaces deploys).

Definition ClassifyCAPICore (namespaces : list string) : CAPICoreMode :=
  match namespaces with
  | [] => CAPICoreNone
  | [ns] => if decide (ns = ocpHostedCAPINamespace) then CAPICoreReused else CAPICoreBundled
  | _ => CAPICoreConflict
  end.

(** ** Lemmas *)

Lemma core_namespaces_perm deploys :
  core_namespaces deploys ≡ₚ elements (list_to_set deploys : gset string).
Proof. apply merge_sort_Permutation. Qed.

Lemma core_namespaces_elem deploys ns : ns ∈ core_namespaces deploys <-> ns ∈ deploys.
Proof.
  rewrite core_namespaces_perm, elem_of_elements, elem_of_list_to_set. done.
Qed.

Lemma core_namespaces_NoDup deploys : NoDup (core_namespaces deploys).
Proof. rewrite core_namespaces_perm. apply NoDup_elements. Qed.

(** The detected namespaces are sorted, hold no duplicate and are exactly
    those of the labelled deployments; and the mode says how many cores there
    are, however many deployments each has: none, one in the platform's
    namespace, one elsewhere, or a conflict of two or more. *)
Theorem CAPICore_mode deploys :
  let namespaces := core_namespaces deploys in
  Sorted string_le namespaces /\ NoDup namespaces /\
  (forall ns, ns ∈ namespaces <-> ns ∈ deploys) /\
  match ClassifyCAPICore namespaces with
  | CAPICoreNone => deploys = []
  | CAPICoreReused => deploys <> [] /\ forall ns, ns ∈ deploys -> ns = ocpHostedCAPINamespace
  | CAPICoreBundled => exists ns, ns <> ocpHostedCAPINamespace /\ namespaces = [ns] /\
                         ns ∈ deploys /\ forall ns', ns' ∈ deploys -> ns' = ns
  | CAPICoreConflict => exists ns ns', ns <> ns' /\ ns ∈ deploys /\ ns' ∈ deploys
  end.
Proof.
  cbv zeta. split_and!; [apply (Sorted_merge_sort _)|apply core_namespaces_NoDup|
    apply core_namespaces_elem|].
  pose proof (core_namespaces_elem deploys) as He. pose proof (core_namespaces_NoDup deploys) as Hnd.
  destruct (core_namespaces deploys) as [|a [|b l]]; cbn [ClassifyCAPICore].
  - destruct deploys as [|d l]; [done|]. exfalso. apply (not_elem_of_nil d), He. left.
  - assert (forall ns, ns ∈ deploys -> ns = a) as Ha
      by (intros ns Hin; apply He in Hin; by apply list_elem_of_singleton in Hin).
    assert (a ∈ deploys) as Hin by (apply He; left).
    destruct (decide (a = ocpHostedCAPINamespace)) as [->|Hne]; [|by exists a].
    split; [|done]. intros Hd. rewrite Hd in Hin. by apply not_elem_of_nil in Hin.
  - exists a, b. inversion_clear Hnd as [|? ? Hnin _]. split_and!.
    + intros ->. apply Hnin. left.
    + apply He. left.
    + apply He. right. left.
Qed.
