(* ===== verification/ClusterController.v ===== *)
(** * The AlibabaCloudCluster controller

    [internal/controller/alibabacloudcluster_controller.go].  The state of a
    reconcile is the cluster object in memory and the world; the two runtime
    preflights report in conditions and never fail the reconcile. *)

From S2P Require Import Api CloudClient CapiCore.

(** The reads and the library calls of the controller. *)
Class ClusterKube (W : Type) := {
  ck_deployments :: ListDeployments W;
  ck_get_AlibabaCloudCluster : ObjectKey -> M W AlibabaCloudCluster;
  ck_GetOwnerCluster : ObjectMeta -> M W (option Cluster);
  ck_IsPaused : Cluster -> AlibabaCloudCluster -> bool;
  ck_NewHelper : AlibabaCloudCluster -> M W ();
  ck_Patch : AlibabaCloudCluster -> AlibabaCloudCluster -> list string -> M W ();
  list_nodes : M W (list Node);
  time_Now : W -> Time;
}.

Definition uninitializedTaintKey : string := "node.cloudprovider.kubernetes.io/uninitialized".
Definition DefaultCCMGracePeriod : Z := (300 * Second)%Z.

Definition set_cstatus (f : AlibabaCloudClusterStatus -> AlibabaCloudClusterStatus)
    (c : AlibabaCloudCluster) : AlibabaCloudCluster := c <| acc_Status ::= f |>.
Definition set_cfinalizers (f : list string -> list string) (c : AlibabaCloudCluster)
    : AlibabaCloudCluster := c <| acc_ObjectMeta ::= fun o => o <| meta_Finalizers ::= f |> |>.

(** ** Pure parts *)

(** [reconcileFailureDomains] *)
Definition toFailureDomain (fd : FailureDomain) : CoreFailureDomain :=
  mkCoreFailureDomain (fd_ZoneID fd) (Some false) {["vSwitchID" := fd_VSwitchID fd]}.
Definition reconcileFailureDomains (c : AlibabaCloudCluster) : AlibabaCloudCluster :=
  match cspec_FailureDomains (acc_Spec c) with
  | [] => c
  | fds => set_cstatus (fun s => s <| cstat_FailureDomains := map toFailureDomain fds |>) c
  end.

(** [reconcileVPC] *)
Definition reconcileVPC (c : AlibabaCloudCluster) : AlibabaCloudCluster :=
  if decide (cstat_VpcID (acc_Status c) <> "") then c
  else if decide (cspec_VpcID (acc_Spec c) <> "")
       then set_cstatus (fun s => s <| cstat_VpcID := cspec_VpcID (acc_Spec c) |>) c
       else c.

(** [reconcileControlPlaneEndpoint] *)
Definition reconcileControlPlaneEndpoint (c : AlibabaCloudCluster) : AlibabaCloudCluster :=
  if decide (ep_Host (cspec_ControlPlaneEndpoint (acc_Spec c)) <> "")
  then set_cstatus (fun s => s <| cstat_ControlPlaneEndpoint := cspec_ControlPlaneEndpoint (acc_Spec c) |>) c
  else c.

(** The nodes the loop collects: older than the cutoff and still tainted. *)
Definition stuck_nodes (cutoff : Time) (nodes : list Node) : list string :=
  map node_Name (filter (fun n => ~ (cutoff < node_CreationTimestamp n)%Z /\
                                  uninitializedTaintKey ∈ node_Taints n) nodes).

(** ** The handlers *)

Section cluster.
Context {W : Type} `{!ClusterKube W} `{!KubeLib} `{!GoFmt}.
Context (AlibabaCloudClientBuilder : string -> M W (Client W)).
Context (CCMGracePeriod : Z).
(** The event recorder, when one is configured: reason and message of a
    warning on the cluster; recording returns no error. *)
Context (Recorder : option (string -> string -> M W ())).

Abbreviation St := (AlibabaCloudCluster * W)%type.

Definition cluster_of : M St AlibabaCloudCluster := on_fst get.
Definition update_cluster (f : AlibabaCloudCluster -> AlibabaCloudCluster) : M St () :=
  on_fst (modify f).

Definition with_ccondition (c : Condition) : AlibabaCloudCluster -> AlibabaCloudCluster :=
  set_condition c.
Definition set_ccond (type : string) (status : ConditionStatus) (reason message : string) : M St () :=
  update_cluster (with_ccondition (condition type status reason message)).

Definition event (reason message : string) : M St () :=
  match Recorder with
  | Some record => _ ← try (on_snd (record reason message)); mret ()
  | None => mret ()
  end.

Definition checkCloudControllerManager : M St () :=
  r ← try (on_snd list_nodes);
  match r with
  | inl _ => mret ()
  | inr nodes =>
      now ← on_snd (fun w => (Ok (time_Now w), w));
      let stuck := stuck_nodes (now - CCMGracePeriod)%Z nodes in
      if decide (0 < length stuck)%nat then
        let msg := fmt_d (Z.of_nat (length stuck)) +:+ " Node(s) stuck with the " +:+
          fmt_q uninitializedTaintKey +:+ " taint for over " +:+ fmt_duration CCMGracePeriod +:+
          " — is the Alibaba cloud-controller-manager (CCM) running? CAPA does not initialize Nodes; without the CCM, workers never become Ready. Nodes: "
          +:+ fmt_v_strings stuck in
        set_ccond CloudControllerManagerReadyCondition ConditionFalse
          NodesAwaitingCloudProviderReason msg ;;
        event NodesAwaitingCloudProviderReason msg
      else
        set_ccond CloudControllerManagerReadyCondition ConditionTrue
          CloudControllerManagerHealthyReason ""
  end.

Definition checkClusterAPICore : M St () :=
  r ← try (on_snd DetectCAPICoreNamespaces);
  match r with
  | inl _ => mret ()
  | inr namespaces =>
      match ClassifyCAPICore namespaces with
      | CAPICoreConflict =>
          let msg := "Cluster API core (cluster.x-k8s.io) detected in multiple namespaces " +:+
            fmt_v_strings namespaces +:+
            " — a self-bundled core and the OCP-hosted core (cluster-capi-operator) are mutually exclusive and will fight over the shared CRDs/webhooks/leader election. Run provider-only against the OCP-hosted core, or remove the OCP-hosted core and keep the self-bundled one." in
          set_ccond ClusterAPICoreReadyCondition ConditionFalse
            MultipleCAPICoresConflictReason msg ;;
          event MultipleCAPICoresConflictReason msg
      | CAPICoreReused =>
          set_ccond ClusterAPICoreReadyCondition ConditionTrue ReusingHostedCAPICoreReason
            ("reusing the OCP-hosted Cluster API core in " +:+ fmt_q ocpHostedCAPINamespace +:+
             " (provider-only)")
      | CAPICoreBundled =>
          set_ccond ClusterAPICoreReadyCondition ConditionTrue BundledCAPICoreReason
            ("using the self-bundled Cluster API core in " +:+ fmt_q (default "" (head namespaces)))
      | CAPICoreNone => mret ()
      end
  end.

Definition reconcileClusterNormal : M St Result :=
  update_cluster (set_cfinalizers (fun l => AddFinalizer l ClusterFinalizer)) ;;
  c ← cluster_of;
  catch (_ ← on_snd (AlibabaCloudClientBuilder (cspec_Region (acc_Spec c))); mret ()) (fun err =>
    set_ccond ReadyCondition ConditionFalse "AlibabaClientError" (Error err) ;;
    throw (WrapError "failed to create Alibaba Cloud client: " err)) ;;
  update_cluster reconcileFailureDomains ;;
  update_cluster reconcileVPC ;;
  update_cluster reconcileControlPlaneEndpoint ;;
  c ← cluster_of;
  if decide (ep_Host (cstat_ControlPlaneEndpoint (acc_Status c)) = "") then
    set_ccond ReadyCondition ConditionFalse "ControlPlaneEndpointMissing"
      "spec.controlPlaneEndpoint is required (BYO infrastructure) and is not set" ;;
    mret (mkResult requeueAfter)
  else
    checkCloudControllerManager ;;
    checkClusterAPICore ;;
    set_ccond ReadyCondition ConditionTrue "AlibabaCloudClusterReady" "" ;;
    update_cluster (set_cstatus (fun s => s <| cstat_Ready := true |>
      <| cstat_Initialization := Some (mkInitializationStatus (Some true)) |>)) ;;
    mret (mkResult 0).

(** [deleteSLB] and [deleteVPC] log that deletion is not implemented. *)
Definition deleteSLB : M St () := mret ().
Definition deleteVPC : M St () := mret ().

Definition reconcileClusterDelete : M St Result :=
  deleteSLB ;;
  c ← cluster_of;
  (if decide (cspec_VpcID (acc_Spec c) = "") then deleteVPC else mret ()) ;;
  update_cluster (set_cfinalizers (fun l => RemoveFinalizer l ClusterFinalizer)) ;;
  mret (mkResult 0).

Definition owned_conditions : list string :=
  [ReadyCondition; CloudControllerManagerReadyCondition; ClusterAPICoreReadyCondition].

Definition ReconcileCluster (req : ObjectKey) : M W Result := fun w =>
  match ck_get_AlibabaCloudCluster req w with
  | (Err e, w1) => if IsNotFound e then (Ok (mkResult 0), w1) else (Err e, w1)
  | (Panic p, w1) => (Panic p, w1)
  | (Ok c0, w1) =>
      match ck_GetOwnerCluster (acc_ObjectMeta c0) w1 with
      | (Err e, w2) => (Err e, w2)
      | (Panic p, w2) => (Panic p, w2)
      | (Ok None, w2) => (Ok (mkResult 0), w2)
      | (Ok (Some cluster), w2) =>
          if ck_IsPaused cluster c0 then (Ok (mkResult 0), w2)
          else
            match ck_NewHelper c0 w2 with
            | (Err e, w3) => (Err e, w3)
            | (Panic p, w3) => (Panic p, w3)
            | (Ok _, w3) =>
                let '(r, (c', w4)) :=
                  (if negb (IsZero (meta_DeletionTimestamp (acc_ObjectMeta c0)))
                   then reconcileClusterDelete else reconcileClusterNormal) (c0, w3) in
                match ck_Patch c0 c' owned_conditions w4 with
                | (Ok _, w5) => (r, w5)
                | (Err e, w5) => (match r with Ok _ => Err e | _ => r end, w5)
                | (Panic p, w5) => (Panic p, w5)
                end
            end
      end
  end.
End cluster.

(** [enqueueAlibabaCloudClusterForCluster]: the request for the infrastructure
    object a changed Cluster refers to, when it is of this provider's group. *)
Definition GroupVersion_Group : string := "infrastructure.cluster.x-k8s.io".
Definition enqueueForCluster (cluster : Cluster) : list ObjectKey :=
  if decide (clus_InfraKind cluster = "" \/ clus_InfraName cluster = "") then []
  else if decide (clus_InfraAPIGroup cluster <> GroupVersion_Group) then []
  else [mkObjectKey (meta_Namespace (clus_ObjectMeta cluster)) (clus_InfraName cluster)].
