(* ===== verification/MachineDelete.v ===== *)
(** * Deletion of a machine

    What [reconcileDelete] guarantees: the finalizer is released only when
    nothing of the machine is left in the cloud, a present instance is deleted
    unless it is already on its way out, the nil-able status is never
    dereferenced when nil, and repeated reconciles get to the release. *)

From S2P Require Import Api ProviderID CloudClient Oss SimSdk Ignition MachineController SimClient.

Definition has_finalizer (m : AlibabaCloudMachine) : Prop := MachineFinalizer ∈ acm_Finalizers m.
#[export] Instance has_finalizer_dec m : Decision (has_finalizer m).
Proof. unfold has_finalizer. apply _. Defined.

Section delete_theorems.
Context {W : Type} `{!MachineKube W} `{!KubeLib} `{!KubeLibLaws} `{!GoFmt}.
Context (builder : string -> M W (Client W)) (cloud_of : W -> Cloud)
  `{!BuilderLaws cloud_of builder}.
Implicit Types (m : AlibabaCloudMachine) (w : W).

(** Nothing of the machine is left in the cloud of [region]: not the instance
    it records, nor one tagged with its name. *)
Definition nothing_left (region handle name : string) (cl : Cloud) : Prop :=
  (handle <> "" -> forall i, cl !! handle = Some i -> ci_Region i <> region) /\
  (forall id i, cl !! id = Some i -> ~ live_tagged region MachineNameTagKey name i).

Lemma describeInstance_run region c id w r w' :
  ClientLaws cloud_of region c ->
  describeInstance c id w = (r, w') ->
  cloud_of w' = cloud_of w /\
  match r with
  | Ok None => forall i, cloud_of w !! id = Some i -> ci_Region i <> region
  | Ok (Some info) => info_InstanceID info = id /\
      exists i, cloud_of w !! id = Some i /\ ci_Region i = region /\ ci_Status i = info_State info
  | _ => True
  end.
Proof.
  intros Hc. unfold describeInstance, mbind, M_bind, wrap, catch.
  destruct (DescribeInstanceByID c id w) as [[[d|]|e|p] w1] eqn:E; cbn; intros [= <- <-].
  all: split; [by eapply describe_cloud|].
  - by eapply describe_some.
  - intros i Hi. by eapply describe_none.
  - done.
  - done.
Qed.

Lemma sweepAndRelease_releases region c m w :
  ClientLaws cloud_of region c -> region <> "" -> has_finalizer m ->
  wp (sweepAndRelease c region) (m, w) (fun r s' =>
    ~ has_finalizer s'.1 ->
    r = Ok done_ /\ cloud_of s'.2 = cloud_of w /\
    forall id i, cloud_of w !! id = Some i ->
      ~ live_tagged region MachineNameTagKey (acm_Name m) i).
Proof.
  intros Hc Hr Hfin. unfold sweepAndRelease, machine_of. wp_go.
  wp_call as [id|e|p] w1 eqn Ef; [|tauto..].
  assert (cloud_of w1 = cloud_of w) as Hw1 by by eapply find_cloud.
  destruct (decide (id <> "")) as [Hid|Hid].
  { wp_go. wp_call as [[]|e|p] w2 eqn Ed; [wp_go|..]; tauto. }
  apply dec_stable in Hid as ->. pose proof (find_none _ _ _ _ _ Hr Ef) as Hnone.
  unfold cleanupOffloadedIgnition, machine_of. wp_go.
  destruct (stat_IgnitionOSS _) as [ref|].
  - wp_go. wp_call as r w2 eqn Ei. pose proof (delete_ignition_cloud _ _ _ _ Ei) as Hw2.
    destruct r as [[]|e|p]; [..|tauto]; unfold release_finalizer, update_machine; wp_go;
      intros _; (split_and!; [done|congruence|done]).
  - unfold release_finalizer, update_machine. wp_go. intros _. by split_and!.
Qed.

(** What a run that releases the finalizer has seen. *)
Definition released (m : AlibabaCloudMachine) (w : W) (r : result Result) (w' : W) : Prop :=
  r = Ok done_ /\ cloud_of w' = cloud_of w /\
  ((instanceHandle m = "" /\ regionFromMachine m = inl regionError) \/
   exists region, regionFromMachine m = inr region /\
     nothing_left region (instanceHandle m) (acm_Name m) (cloud_of w')).

Lemma reconcileDelete_released m w :
  has_finalizer m ->
  wp (reconcileDelete builder) (m, w) (fun r s' => ~ has_finalizer s'.1 -> released m w r s'.2).
Proof.
  intros Hfin. unfold released.
  unfold reconcileDelete, machine_of, update_machine. wp_go.
  destruct (regionFromMachine m) as [e|region] eqn:Hreg.
  { destruct (decide (instanceHandle m = "")) as [Hh|Hh].
    - unfold release_finalizer, update_machine. wp_go. intros _. split_and!; [done..|left].
      split; [done|]. unfold regionFromMachine in Hreg. repeat case_match; by simplify_eq.
    - wp_go. tauto. }
  wp_go. set (m1 := if decide _ then _ else m).
  assert (has_finalizer m1 /\ acm_Name m1 = acm_Name m) as [Hfin1 Hn1]
    by (subst m1; by destruct (decide _)).
  wp_call as [c|e|p] w1 eqn Eb; [|tauto..].
  pose proof (builder_client _ _ _ _ Eb) as Hc. pose proof (builder_cloud _ _ _ _ Eb) as Hw1.
  pose proof (regionFromMachine_nonempty _ _ Hreg) as Hne.
  assert (forall w2, cloud_of w2 = cloud_of w ->
    (instanceHandle m <> "" ->
     forall i, cloud_of w !! instanceHandle m = Some i -> ci_Region i <> region) ->
    wp (sweepAndRelease c region) (m1, w2) (fun r s' => ~ has_finalizer s'.1 ->
      r = Ok done_ /\ cloud_of s'.2 = cloud_of w /\
      ((instanceHandle m = "" /\ @inr error string region = inl regionError) \/
       exists region', @inr error string region = inr region' /\
         nothing_left region' (instanceHandle m) (acm_Name m) (cloud_of s'.2)))) as Hsweep.
  { intros w2 Hw2 Hgone. eapply wp_mono; [by apply sweepAndRelease_releases|].
    intros r s' Hs Hrel. destruct (Hs Hrel) as (-> & Hcl & Hno). rewrite Hw2 in *.
    split_and!; [done|done|right]. exists region. split; [done|]. rewrite Hcl, <- Hn1.
    by split. }
  destruct (decide (instanceHandle m = "")) as [Hh|Hh].
  { wp_go. apply Hsweep; [done|]. by rewrite Hh. }
  wp_go. wp_call as r w2 eqn Ed. apply (describeInstance_run region) in Ed as [Hw2 Hd]; [|done].
  destruct r as [[info|]|e|p]; [|apply Hsweep; [congruence|]|tauto..].
  2: { intros _. by rewrite <- Hw1. }
  unfold awaitTermination, set_ready, update_machine, deleteInstance, machine_of. wp_go.
  destruct (decide (_ \/ _)); wp_go; [by intros Hk; destruct (Hk Hfin1)|].
  wp_deref as id; [wp_go|by intros Hk; destruct (Hk Hfin1)].
  wp_call as [[]|e|p] w3 eqn Edel; wp_go; intros Hk; by destruct (Hk Hfin1).
Qed.

(** C1. The finalizer is released only when nothing is left, and the cloud is
    then as it was before the reconcile.  Either the machine has neither an
    instance handle nor a region; or no instance of its region is there under
    its handle and no live one tagged with its name. *)
Theorem reconcileDelete_releases m w r m' w' :
  has_finalizer m -> reconcileDelete builder (m, w) = (r, (m', w')) -> ~ has_finalizer m' ->
  r = Ok done_ /\ cloud_of w' = cloud_of w /\
  ((instanceHandle m = "" /\ regionFromMachine m = inl regionError) \/
   exists region, regionFromMachine m = inr region /\
     nothing_left region (instanceHandle m) (acm_Name m) (cloud_of w')).
Proof. intros Hfin. revert r m' w'. wp_start. by apply reconcileDelete_released. Qed.

(** The machine while it waits: the handle recovered into the status, the
    state the cloud reports, and the Ready condition. *)
Definition awaiting (m : AlibabaCloudMachine) (state : string) : AlibabaCloudMachine :=
  with_condition (condition ReadyCondition ConditionFalse "Deleting"
    ("ECS instance " +:+ instanceHandle m +:+ " is " +:+ fmt_q state +:+ "; waiting for termination"))
    (set_status (fun s => s <| stat_InstanceID := Some (instanceHandle m) |>
                            <| stat_InstanceState := Some state |>) m).

Definition leaving (state : string) : Prop :=
  state = InstanceStateStopping \/ state = InstanceStateDeleted.

(** C24. While the recorded instance is there the finalizer stays, and a delete
    is issued for it, unless it is Stopping or Deleted: in particular a
    Stopped instance is deleted.  The delete is issued for the recorded
    instance even when only the providerID records it: the status it is read
    from is never nil. *)
Theorem reconcileDelete_present m w region c w1 d w2 :
  instanceHandle m <> "" -> regionFromMachine m = inr region ->
  builder region w = (Ok c, w1) ->
  DescribeInstanceByID c (instanceHandle m) w1 = (Ok (Some d), w2) ->
  reconcileDelete builder (m, w) =
    if decide (leaving (idesc_Status d)) then (Ok requeue, (awaiting m (idesc_Status d), w2))
    else match DeleteECSInstance c (instanceHandle m) true w2 with
         | (Ok _, w3) => (Ok requeue, (awaiting m (idesc_Status d), w3))
         | (Err e, w3) =>
             (Err (WrapError ("failed to delete ECS instance " +:+ instanceHandle m +:+ ": ") e),
              (awaiting m (idesc_Status d), w3))
         | (Panic p, w3) => (Panic p, (awaiting m (idesc_Status d), w3))
         end.
Proof.
  intros Hh Hr Hb Hd.
  assert ((if decide (stat_InstanceID (acm_Status m) = None /\ instanceHandle m <> "")
           then set_status (fun s => s <| stat_InstanceID := Some (instanceHandle m) |>) m else m)
          = set_status (fun s => s <| stat_InstanceID := Some (instanceHandle m) |>) m) as Hm1.
  { destruct (decide _) as [|Hn]; [done|]. unfold instanceHandle.
    destruct (stat_InstanceID (acm_Status m)) as [id|] eqn:E; [|tauto].
    destruct m as [? ? []]. cbn in E. by subst. }
  unfold reconcileDelete, mbind, M_bind, machine_of, update_machine, on_fst, get, modify, wrap,
    catch, on_snd. rewrite Hr, Hb, decide_False by done.
  unfold describeInstance, mbind, M_bind, wrap, catch. rewrite Hm1, Hd. cbn [fst snd].
  unfold awaitTermination, set_ready, deleteInstance, mbind, M_bind, machine_of, update_machine,
    on_fst, get, modify, wrap, catch, on_snd. cbn.
  destruct (decide (_ \/ _)) as [Hl1|Hl1], (decide (leaving _)) as [Hl2|Hl2];
    [done|by destruct (Hl2 Hl1)|by destruct (Hl1 Hl2)|].
  match goal with |- context [deref ?x] => change x with (Some (instanceHandle m)) end.
  cbn [deref]. unfold mret, M_ret.
  by destruct (DeleteECSInstance c _ true w2) as [[[]|e|p] w3].
Qed.
End delete_theorems.

(** ** Progress

    Repeated reconciles release the finalizer.  [rank] measures how much of the
    machine is left in the cloud; [env] is what happens in the cloud between
    two reconciles. *)

Section progress.
Context {W : Type} `{!KubeLib} `{!KubeLibLaws} `{!GoFmt}.
Context (builder : string -> M W (Client W)) (cloud_of : W -> Cloud)
  `{!BuilderLaws cloud_of builder}.
Context (env : W -> W) (rank : Cloud -> nat).

(** The cloud answers, and makes progress: a delete either shrinks what is
    left, or changes nothing because the instance is on its way out already;
    and an instance on its way out goes on. *)
Class Responsive : Prop := {
  resp_build region w : region <> "" -> exists c w', builder region w = (Ok c, w');
  resp_describe region w c w' id w0 :
    builder region w = (Ok c, w') -> exists d w1, DescribeInstanceByID c id w0 = (Ok d, w1);
  resp_find region w c w' r k v w0 :
    builder region w = (Ok c, w') -> exists id w1, FindInstanceByTag c r k v w0 = (Ok id, w1);
  resp_ignition region w c w' p w0 q w1 :
    builder region w = (Ok c, w') -> DeleteIgnitionObject c p w0 <> (Panic q, w1);
  resp_delete region w c w' id i w0 r w1 :
    builder region w = (Ok c, w') -> cloud_of w0 !! id = Some i ->
    DeleteECSInstance c id true w0 = (r, w1) ->
    rank (cloud_of w1) < rank (cloud_of w0) \/
    (leaving (ci_Status i) /\ cloud_of w1 = cloud_of w0);
  resp_env w : rank (cloud_of (env w)) <= rank (cloud_of w);
  resp_env_leaving w id i : cloud_of w !! id = Some i -> leaving (ci_Status i) ->
    rank (cloud_of (env w)) < rank (cloud_of w);
}.

(** One reconcile, whatever it returns, and the environment's turn. *)
Definition round (s : AlibabaCloudMachine * W) : AlibabaCloudMachine * W :=
  let s' := (reconcileDelete builder s).2 in (s'.1, env s'.2).

Context `{!Responsive}.

Lemma rank_after w w' : cloud_of w' = cloud_of w -> rank (cloud_of (env w')) <= rank (cloud_of w).
Proof. intros <-. apply resp_env. Qed.

(** A delete of an existing instance, and the environment's turn. *)
Lemma delete_round region w c w' id i w0 r w1 :
  builder region w = (Ok c, w') -> cloud_of w0 !! id = Some i ->
  DeleteECSInstance c id true w0 = (r, w1) ->
  rank (cloud_of (env w1)) < rank (cloud_of w0).
Proof.
  intros Hb Hi Hd. destruct (resp_delete _ _ _ _ _ _ _ _ _ Hb Hi Hd) as [Hlt|[Hl Heq]].
  - pose proof (resp_env w1). lia.
  - rewrite <- Heq in Hi |- *. by eapply resp_env_leaving.
Qed.

(** The goal of a round: released, or nothing that matters changed and less is
    left. *)
Definition progressed (m : AlibabaCloudMachine) (n : nat) (s' : AlibabaCloudMachine * W) : Prop :=
  ~ has_finalizer s'.1 \/
  (has_finalizer s'.1 /\ acm_Spec s'.1 = acm_Spec m /\ rank (cloud_of (env s'.2)) < n).

Lemma released_no_finalizer m :
  ~ has_finalizer (set_finalizers (fun l => RemoveFinalizer l MachineFinalizer) m).
Proof. unfold has_finalizer. cbn. intros Hin. by apply RemoveFinalizer_elem in Hin as [? _]. Qed.

Lemma sweep_progress region w0 c w0' m m1 w :
  builder region w0 = (Ok c, w0') -> region <> "" ->
  has_finalizer m1 -> acm_Spec m1 = acm_Spec m ->
  wp (sweepAndRelease c region) (m1, w) (fun _ s' => progressed m (rank (cloud_of w)) s').
Proof.
  intros Hb Hr Hfin Hspec. pose proof (builder_client _ _ _ _ Hb) as Hc.
  unfold sweepAndRelease, machine_of. wp_go.
  destruct (resp_find _ _ _ _ region MachineNameTagKey (acm_Name m1) w Hb) as (id & w1 & Ef).
  eapply wp_run; [exact Ef|]. cbv beta iota. pose proof (find_cloud _ _ _ _ _ _ Ef) as Hw1.
  case_decide as Hid.
  - destruct (find_some _ _ _ _ _ _ Hr Ef Hid) as (i & Hi & _). rewrite <- Hw1 in Hi.
    wp_go. wp_call as r w2 eqn Ed. pose proof (delete_round _ _ _ _ _ _ _ _ _ Hb Hi Ed) as Hlt.
    rewrite <- Hw1. destruct r as [[]|e|p]; wp_go; by right.
  - unfold cleanupOffloadedIgnition, machine_of, release_finalizer, update_machine. wp_go.
    destruct (stat_IgnitionOSS _) as [ref|]; wp_go; [|left; apply released_no_finalizer].
    wp_call as r w2 eqn Ei. destruct r as [[]|e|p].
    + wp_go. left. apply released_no_finalizer.
    + wp_go. left. apply released_no_finalizer.
    + by destruct (resp_ignition _ _ _ _ _ _ _ _ Hb Ei).
Qed.

(** The handle is in the status from the second step on. *)
Lemma recovered_handle m : instanceHandle m <> "" ->
  stat_InstanceID (acm_Status
    (if decide (stat_InstanceID (acm_Status m) = None /\ instanceHandle m <> "")
     then set_status (fun s => s <| stat_InstanceID := Some (instanceHandle m) |>) m else m)) =
  Some (instanceHandle m).
Proof.
  intros Hh. destruct (decide _) as [|Hn]; [done|]. unfold instanceHandle.
  destruct (stat_InstanceID (acm_Status m)) eqn:E; [done|tauto].
Qed.

Lemma reconcileDelete_progress m w region :
  has_finalizer m -> regionFromMachine m = inr region ->
  wp (reconcileDelete builder) (m, w) (fun _ s' => progressed m (rank (cloud_of w)) s').
Proof.
  intros Hfin Hreg. unfold reconcileDelete, machine_of, update_machine. wp_go.
  rewrite Hreg. wp_go. set (m1 := if decide _ then _ else m).
  assert (has_finalizer m1 /\ acm_Spec m1 = acm_Spec m) as [Hfin1 Hspec]
    by (subst m1; by destruct (decide _)).
  pose proof (regionFromMachine_nonempty _ _ Hreg) as Hne.
  destruct (resp_build _ w Hne) as (c & w1 & Eb). eapply wp_run; [exact Eb|]. cbv beta iota.
  pose proof (builder_client _ _ _ _ Eb) as Hc. pose proof (builder_cloud _ _ _ _ Eb) as Hw1.
  destruct (decide (instanceHandle m = "")) as [Hh|Hh].
  { wp_go. rewrite <- Hw1. by eapply sweep_progress. }
  unfold describeInstance. wp_go.
  destruct (resp_describe _ _ _ _ (instanceHandle m) w1 Eb) as (d & w2 & Ed).
  eapply wp_run; [exact Ed|]. cbv beta iota. wp_go. pose proof (describe_cloud _ _ _ _ Ed) as Hw2.
  destruct d as [d|]; cbn [fmap option_fmap option_map].
  2: { rewrite <- Hw1, <- Hw2. by eapply sweep_progress. }
  destruct (describe_some _ _ _ _ Ed) as (_ & i & Hi & _ & Hst). rewrite <- Hw2 in Hi.
  rewrite <- Hw1, <- Hw2.
  unfold awaitTermination, set_ready, update_machine, deleteInstance, machine_of. wp_go.
  destruct (decide (_ \/ _)) as [Hl|Hl].
  - wp_go. right. split_and!; [done..|]. cbn. eapply resp_env_leaving; [done|]. by rewrite Hst.
  - wp_go.
    assert (stat_InstanceID (acm_Status m1) = Some (instanceHandle m)) as Hid by apply recovered_handle, Hh.
    match goal with |- wp (deref ?x) _ _ => change x with (stat_InstanceID (acm_Status m1)) end.
    rewrite Hid. wp_go. wp_call as r w3 eqn Edel.
    pose proof (delete_round _ _ _ _ _ _ _ _ _ Eb Hi Edel) as Hlt.
    destruct r as [[]|e|p]; wp_go; by right.
Qed.

Lemma regionFromMachine_ext m m' : acm_Spec m' = acm_Spec m -> regionFromMachine m' = regionFromMachine m.
Proof. intros E. unfold regionFromMachine. by rewrite E. Qed.

(** C9. Deletion completes: when the cloud answers and makes progress, at most
    [rank + 1] reconciles release the finalizer, whatever errors some of them
    return. *)
Theorem reconcileDelete_completes m w region :
  has_finalizer m -> regionFromMachine m = inr region ->
  exists n, n <= S (rank (cloud_of w)) /\ ~ has_finalizer (Nat.iter n round (m, w)).1.
Proof.
  remember (rank (cloud_of w)) as k eqn:Hk. assert (rank (cloud_of w) <= k) as Hle by lia. clear Hk.
  revert m w Hle. induction k as [k IH] using lt_wf_ind. intros m w Hle Hfin Hreg.
  destruct (reconcileDelete_progress m w region Hfin Hreg) as [Hrel|(Hfin' & Hspec & Hlt)].
  { exists 1. split; [lia|]. exact Hrel. }
  pose proof (regionFromMachine_ext _ _ Hspec) as Hreg'. rewrite Hreg in Hreg'.
  set (s1 := round (m, w)).
  assert (rank (cloud_of s1.2) < rank (cloud_of w)) as Hlt1 by exact Hlt.
  destruct (IH (rank (cloud_of s1.2))) with (m := s1.1) (w := s1.2) as (n & Hn & Hrel);
    [lia|lia|exact Hfin'|exact Hreg'|].
  exists (S n). split; [lia|]. rewrite Nat.iter_succ_r.
  rewrite <- (surjective_pairing s1) in Hrel. exact Hrel.
Qed.
End progress.

(** ** Concrete runs *)

#[export] Instance memBuilder_laws : BuilderLaws mem_cloud memBuilder.
Proof.
  split.
  - intros region w c w' [= <- _]. apply memClient_laws.
  - by intros region w r w' [= _ <-].
Qed.

(** Between two reconciles, instances on their way out vanish. *)
Definition mem_env (w : Cloud) : Cloud := filter (fun x => ~ leaving (ci_Status x.2)) w.

Lemma mem_env_cloud w : mem_cloud (mem_env w) = filter (fun x => ~ leaving (ci_Status x.2)) (mem_cloud w).
Proof. unfold mem_cloud, mem_env. by rewrite map_filter_delete. Qed.

#[export] Instance mem_responsive : Responsive memBuilder mem_cloud mem_env size.
Proof.
  split.
  - intros region w _. by eexists _, _.
  - intros region w c w' id w0 [= <- _]. by eexists _, _.
  - intros region w c w' r k v w0 [= <- _]. by eexists _, _.
  - intros region w c w' p w0 q w1 [= <- _]. done.
  - intros region w c w' id i w0 r w1 [= <- _] Hi. unfold mem_cloud in Hi.
    apply lookup_delete_Some in Hi as [Hne Hi]. cbn. unfold mem_delete. rewrite Hi.
    intros [= _ <-]. left. unfold mem_cloud. rewrite delete_delete.
    apply map_subset_size, delete_subset. exists i. by apply lookup_delete_Some.
  - intros w. rewrite mem_env_cloud. apply map_subseteq_size, map_filter_subseteq.
  - intros w id i Hi Hl. rewrite mem_env_cloud.
    apply map_subset_size. split; [apply map_filter_subseteq|].
    intros Hsub. eapply map_subseteq_spec in Hsub; [|exact Hi].
    by apply map_lookup_filter_Some in Hsub as [_ ?].
Qed.

Definition mem_acm : AlibabaCloudMachine :=
  set_finalizers (fun _ => [MachineFinalizer])
    (set_spec (fun s => s <| spec_ProviderID := Some (providerIDFor sim_region "i-7") |>)
       (sim_acm "worker-1")).

Definition mem_one : Cloud :=
  <["i-7" := mkCloudInstance sim_region InstanceStateStopped (sim_machine_tags "worker-1")]> ∅.

Lemma reconcileDelete_releases_witness :
  nothing_left sim_region "i-7" "worker-1" ∅.
Proof.
  destruct (reconcileDelete memBuilder (mem_acm, ∅)) as [r [m' w']] eqn:E.
  assert (acm_Finalizers m' = []) as Hf.
  { change m' with (r, (m', w')).2.1. rewrite <- E. by vm_compute. }
  destruct (reconcileDelete_releases memBuilder mem_cloud mem_acm ∅ r m' w')
    as (_ & Hc & [[Hh _]|(region & Hr & Hn)]).
  - left.
  - exact E.
  - unfold has_finalizer. rewrite Hf. apply not_elem_of_nil.
  - vm_compute in Hh. discriminate.
  - vm_compute in Hr. injection Hr as <-. rewrite Hc in Hn. exact Hn.
Defined.

Lemma reconcileDelete_present_witness :
  (reconcileDelete memBuilder (mem_acm, mem_one)).1 = Ok requeue /\
  (reconcileDelete memBuilder (mem_acm, mem_one)).2.2 = ∅.
Proof.
  rewrite (reconcileDelete_present memBuilder mem_acm mem_one sim_region (memClient sim_region)
    mem_one (mkInstanceDescription "i-7" InstanceStateStopped "host-i-7" ["10.0.0.7"] []) mem_one).
  - by vm_compute.
  - discriminate.
  - reflexivity.
  - reflexivity.
  - reflexivity.
Defined.

Lemma reconcileDelete_completes_witness :
  exists n, (n <= 2)%nat /\
    ~ has_finalizer (Nat.iter n (round memBuilder mem_env) (mem_acm, mem_one)).1.
Proof.
  destruct (reconcileDelete_completes memBuilder mem_cloud mem_env size mem_acm mem_one sim_region)
    as (n & Hn & Hrel).
  - left.
  - reflexivity.
  - exists n. split; [exact Hn|exact Hrel].
Defined.
