(* ===== verification/MachineNormal.v ===== *)
(** * Provisioning of a machine

    What [reconcileNormal] guarantees: how every outcome is recorded, when a
    machine becomes Ready, what the create call asks for, that the delete path
    can find what the create path made, and the failure-domain and hardening
    rules. *)

From S2P Require Import Api ProviderID CloudClient EcsSdk Encoding Capi Ignition Oss SimSdk.
From S2P Require Import MachineController SimClient MachineDelete.

(** ** What a step leaves alone *)

(** Only [reconcileNormal] itself records readiness and failures: the steps it
    calls leave these fields and the object's metadata as they were. *)
Record untouched (m m' : AlibabaCloudMachine) : Prop := {
  un_meta : acm_ObjectMeta m' = acm_ObjectMeta m;
  un_ready : stat_Ready (acm_Status m') = stat_Ready (acm_Status m);
  un_init : stat_Initialization (acm_Status m') = stat_Initialization (acm_Status m);
  un_reason : stat_FailureReason (acm_Status m') = stat_FailureReason (acm_Status m);
  un_message : stat_FailureMessage (acm_Status m') = stat_FailureMessage (acm_Status m);
  un_conditions : stat_Conditions (acm_Status m') = stat_Conditions (acm_Status m);
}.

#[export] Instance untouched_preorder : PreOrder untouched.
Proof.
  split; [by intros m; split|]. intros m1 m2 m3 [] []. split; congruence.
Qed.

Lemma untouched_spec f m : untouched m (set_spec f m).
Proof. by split. Qed.

Section normal.
Context {W : Type} `{!MachineKube W} `{!KubeLib} `{!KubeLibLaws} `{!GoFmt}.
Context (builder : string -> M W (Client W)) (cloud_of : W -> Cloud)
  `{!BuilderLaws cloud_of builder}.
Implicit Types (m : AlibabaCloudMachine) (w : W).

Lemma get_modify_fst {A} (f : AlibabaCloudMachine -> AlibabaCloudMachine) (k : () -> M _ A) m w :
  (update_machine f ≫= k) (m, w) = k tt (f m, w).
Proof. done. Qed.

Lemma maybeOffloadUserData_untouched c cluster region ud m w :
  wp (maybeOffloadUserData c cluster region ud) (m, w) (fun _ s' => untouched m s'.1).
Proof.
  unfold maybeOffloadUserData. wp_go. case_decide; [by wp_go|].
  destruct (cspec_IgnitionStorage _) as [store|]; [|by wp_go].
  case_decide; [by wp_go|]. destruct (DecodeString ud) as [raw|]; [|by wp_go].
  wp_go. wp_call as [url|e|p] w1 eqn Ep; wp_go; by split.
Qed.

Lemma createInstance_untouched c machine cluster m w :
  wp (createInstance c machine cluster) (m, w) (fun r s' =>
    untouched m s'.1 /\ (r = Ok () -> is_Some (stat_InstanceID (acm_Status s'.1)))).
Proof.
  unfold createInstance, machine_of, update_machine. wp_go.
  wp_call as [ud|e|p] w1 eqn Eu; [|done..].
  case_decide; [by wp_go|]. wp_go. set (m1 := if decide _ then _ else m).
  assert (untouched m m1) as Hm1 by (subst m1; case_decide; by split).
  eapply wp_mono; [apply maybeOffloadUserData_untouched|].
  intros [ud'|e|p] [m2 w2] Hm2; cbn in Hm2; [|split; [by etransitivity|done]..].
  wp_go. wp_call as [resp|e|p] w3 eqn Ec; wp_go.
  - split; [|by eexists]. etransitivity; [exact Hm1|]. etransitivity; [exact Hm2|]. by split.
  - split; [by etransitivity|done].
  - split; [by etransitivity|done].
Qed.

Lemma maybeHardenMetadata_untouched c machine id m w :
  wp (maybeHardenMetadata c machine id) (m, w) (fun _ s' =>
    untouched m s'.1 /\ acm_Spec s'.1 = acm_Spec m /\
    stat_InstanceID (acm_Status s'.1) = stat_InstanceID (acm_Status m) /\
    stat_InstanceState (acm_Status s'.1) = stat_InstanceState (acm_Status m)).
Proof.
  unfold maybeHardenMetadata, machine_of, update_machine. wp_go.
  destruct (spec_MetadataOptions _) as [mo|]; [|by wp_go].
  case_decide; [by wp_go|]. case_decide; [by wp_go|].
  destruct machine as [mach|]; [|by wp_go]. case_decide; [by wp_go|].
  cbn [resolveMetadataOptions]. wp_go. wp_call as [[]|e|p] w1 eqn Em; by wp_go.
Qed.

(** The providerID of a machine whose instance is [id]: the one it had, which
    names that instance or none at all, or else the one made for it. *)
Definition provider_names (region id : string) (m m' : AlibabaCloudMachine) : Prop :=
  match spec_ProviderID (acm_Spec m) with
  | Some pid => spec_ProviderID (acm_Spec m') = Some pid /\
                (providerInstanceID pid = "" \/ providerInstanceID pid = id)
  | None => spec_ProviderID (acm_Spec m') = Some (providerIDFor region id)
  end.

(** What a find or create that reports a ready instance has checked. *)
Definition ready_instance (region : string) (w : W) (info : instanceInfo)
    (m m' : AlibabaCloudMachine) : Prop :=
  stat_InstanceID (acm_Status m') = Some (info_InstanceID info) /\
  stat_InstanceState (acm_Status m') = Some InstanceStateRunning /\
  provider_names region (info_InstanceID info) m m' /\
  exists i, cloud_of w !! info_InstanceID info = Some i /\ ci_Region i = region /\
    ci_Status i = InstanceStateRunning.

Lemma findInstance_spec region c machine cluster id m w :
  ClientLaws cloud_of region c -> region = resolveRegion m (Some cluster) ->
  wp (findInstance c machine cluster id) (m, w) (fun r s' =>
    untouched m s'.1 /\ forall info, r = Ok (Some info) -> ready_instance region w info m s'.1).
Proof.
  intros Hc Hregion. unfold findInstance, machine_of. wp_go. case_decide as Hpid; [by wp_go|]. wp_go.
  wp_call as [[info|]|e|p] w1 eqn Ed; [|by wp_go..].
  apply (describeInstance_run cloud_of region) in Ed as (Hw1 & Hid & i & Hi & Hreg & Hst); [|done].
  unfold update_machine. wp_go. set (m1 := match spec_ProviderID _ with Some _ => _ | None => _ end).
  set (m2 := syncInstanceStatus info m1).
  assert (untouched m m2) as Hm2.
  { subst m2 m1. by destruct (spec_ProviderID (acm_Spec m)). }
  assert (provider_names region id m m2) as Hnames.
  { subst m2 m1. unfold provider_names.
    destruct (spec_ProviderID (acm_Spec m)) as [pid|] eqn:Epid; cbn in *; [|by rewrite Hregion].
    split; [done|]. destruct (decide (providerInstanceID pid = "")); [by left|].
    destruct (decide (providerInstanceID pid = id)); [by right|tauto]. }
  case_decide as Hrun.
  - wp_go. eapply wp_mono; [apply maybeHardenMetadata_untouched|].
    intros r [m3 w3] (Hm3 & Hspec & Hsid & Hsst). cbn in *.
    destruct r as [[]|e|p]; wp_go; (split; [by etransitivity|]); [|done..].
    intros info' [= <-]. unfold ready_instance, provider_names. rewrite Hsid, Hsst, Hspec, Hid.
    split_and!; [by subst m2; rewrite <- Hid|by subst m2; cbn; f_equal|exact Hnames|].
    exists i. split_and!; congruence.
  - case_decide; by wp_go.
Qed.

Lemma findOrCreateInstance_spec region c machine cluster m w :
  ClientLaws cloud_of region c -> region = resolveRegion m (Some cluster) ->
  wp (findOrCreateInstance c machine cluster) (m, w) (fun r s' =>
    untouched m s'.1 /\ forall info, r = Ok (Some info) -> ready_instance region w info m s'.1).
Proof.
  intros Hc Hregion. unfold findOrCreateInstance, machine_of. wp_go.
  destruct (stat_InstanceID (acm_Status m)) as [id|]; [by apply findInstance_spec|].
  wp_go. eapply wp_mono; [apply createInstance_untouched|].
  intros [[]|e|p] [m1 w1] [Hm1 Hs]; cbn in *; [|by split..].
  wp_go. cbn. destruct (Hs eq_refl) as [id ->]. by wp_go.
Qed.

Lemma resolveFailureDomain_untouched machine cluster m w :
  wp (resolveFailureDomain machine cluster) (m, w) (fun _ s' =>
    untouched m s'.1 /\ resolveRegion s'.1 (Some cluster) = resolveRegion m (Some cluster) /\
    spec_ProviderID (acm_Spec s'.1) = spec_ProviderID (acm_Spec m) /\ s'.2 = w).
Proof.
  unfold resolveFailureDomain, update_machine, machine_of. case_decide; [by wp_go|].
  destruct (findFailureDomain _ _) as [fd|]; [|by wp_go]. wp_go.
  set (m1 := if decide _ then _ else m).
  assert (untouched m m1 /\ resolveRegion m1 (Some cluster) = resolveRegion m (Some cluster) /\
    spec_ProviderID (acm_Spec m1) = spec_ProviderID (acm_Spec m)) as (Hm1 & Hr & Hpid) by (subst m1; case_decide; by split).
  case_decide; [|by wp_go]. destruct (cfd_Attributes fd !! _) as [vsw|]; [|by wp_go].
  case_decide; wp_go; [done|]. split_and!; [|done..]. etransitivity; [exact Hm1|by split].
Qed.

(** ** Outcomes *)

Definition same_failure m m' : Prop :=
  stat_FailureReason (acm_Status m') = stat_FailureReason (acm_Status m) /\
  stat_FailureMessage (acm_Status m') = stat_FailureMessage (acm_Status m).
Definition same_ready m m' : Prop :=
  stat_Ready (acm_Status m') = stat_Ready (acm_Status m) /\
  stat_Initialization (acm_Status m') = stat_Initialization (acm_Status m).

(** The content of the Ready condition. *)
Definition ready_condition m : option (string * ConditionStatus * string * string) :=
  cond_content <$> conditions_Get (stat_Conditions (acm_Status m)) ReadyCondition.

Lemma ready_condition_set st rs msg m :
  ready_condition (with_condition (condition ReadyCondition st rs msg) m) =
  Some (ReadyCondition, st, rs, msg).
Proof.
  unfold ready_condition, with_condition. cbn.
  apply (conditions_Get_Set _ (condition ReadyCondition st rs msg)).
Qed.

(** The object once its finalizer is set. *)
Definition adopted m : AlibabaCloudMachine := set_finalizers (fun l => AddFinalizer l MachineFinalizer) m.

(** The error of one of the three steps of a reconcile, with the reason it is
    reported under. *)
Definition step_error machine cluster m w (reason : string) (err : error) : Prop :=
  (reason = "FailureDomainError" /\
   exists s, resolveFailureDomain machine cluster (adopted m, w) = (Err err, s)) \/
  exists m1, resolveFailureDomain machine cluster (adopted m, w) = (Ok (), (m1, w)) /\
    ((reason = "AlibabaClientError" /\
      exists w2, builder (resolveRegion m (Some cluster)) w = (Err err, w2)) \/
     (reason = "InstanceReconcileError" /\
      exists c w2 s, builder (resolveRegion m (Some cluster)) w = (Ok c, w2) /\
        findOrCreateInstance c machine cluster (m1, w2) = (Err err, s))).

(** After an error [e]: the Ready condition is False, with the error of the step
    that failed as its message; and [e] is that error, not a terminal one when
    it is the instance's, or the error of the client's construction with its
    prefix. *)
Definition error_recorded machine cluster m w (e : error) m' : Prop :=
  exists reason err, step_error machine cluster m w reason err /\
    ready_condition m' = Some (ReadyCondition, ConditionFalse, reason, Error err) /\
    e = (if decide (reason = "AlibabaClientError")
         then WrapError "failed to create Alibaba Cloud client: " err else err) /\
    (reason = "InstanceReconcileError" -> as_terminal_error err = None).

(** The end of a path that reports an error in the Ready condition. *)
Ltac error_path Hfin Hfail Hready :=
  unfold set_ready, update_machine; wp_go; split; [exact Hfin|];
  split_and!; [exact Hfail|exact Hready|eexists _, _; split_and!; [|apply ready_condition_set|done|done];
    unfold step_error; by eauto 15].

(** The recorded failure. *)
Definition failed_with m (reason message : string) : Prop :=
  stat_FailureReason (acm_Status m) = Some reason /\
  stat_FailureMessage (acm_Status m) = Some message /\
  stat_Ready (acm_Status m) = false /\
  ready_condition m = Some (ReadyCondition, ConditionFalse, reason, message).

Definition provisioned m : Prop :=
  stat_Ready (acm_Status m) = true /\
  stat_Initialization (acm_Status m) = Some (mkInitializationStatus (Some true)) /\
  ready_condition m = Some (ReadyCondition, ConditionTrue, "AlibabaCloudMachineReady", "").

(** C3. Every reconcile of a live machine keeps its finalizer and ends in one of
    four ways, unless a call panics, which leaves readiness and the recorded
    failure as they were.  It asks to be requeued, and neither readiness nor the
    recorded failure changed; or it stops with a terminal failure of the instance
    step, its reason and message recorded in status and condition, with the
    machine not ready; or it stops with
    the machine ready, its instance Running in the machine's region, and as its
    providerID the one it had, which names that instance or parses to none, or
    one made for that instance; or it returns an error, to be retried, and again
    neither readiness nor the recorded failure changed, the Ready condition
    being False with that error as its message (without the prefix the return
    adds when the client cannot be built). *)
Theorem reconcileNormal_outcome machine cluster m w r m' w' :
  reconcileNormal builder machine cluster (m, w) = (r, (m', w')) ->
  has_finalizer m' /\
  match r with
  | Ok res =>
      (res = requeue /\ same_failure m m' /\ same_ready m m') \/
      (res = done_ /\ exists err reason message,
         step_error machine cluster m w "InstanceReconcileError" err /\
         as_terminal_error err = Some (reason, message) /\ failed_with m' reason message) \/
      (res = done_ /\ same_failure m m' /\ provisioned m' /\
       exists info, ready_instance (resolveRegion m (Some cluster)) w info m m')
  | Err e => same_failure m m' /\ same_ready m m' /\ error_recorded machine cluster m w e m'
  | Panic _ => same_failure m m' /\ same_ready m m'
  end.
Proof.
  revert r m' w'. wp_start.
  unfold reconcileNormal, update_machine, machine_of. wp_go.
  fold (adopted m). set (m0 := adopted m).
  assert (has_finalizer m0) as Hfin.
  { unfold has_finalizer. cbn. apply AddFinalizer_elem. by left. }
  assert (forall m1, untouched m0 m1 -> has_finalizer m1) as Hfin'.
  { intros m1 [E _ _ _ _ _]. unfold has_finalizer, acm_Finalizers. by rewrite E. }
  assert (forall m1, untouched m0 m1 -> same_failure m m1 /\ same_ready m m1) as Hsame.
  { by intros m1 []. }
  destruct (cstat_Ready (acc_Status cluster)); cbn [negb];
    [|unfold set_ready, update_machine; wp_go; split; [exact Hfin|by left]].
  wp_go. case_decide as Hboot; [unfold set_ready, update_machine; wp_go; split; [exact Hfin|by left]|].
  wp_go. eapply wp_mono_run; [apply resolveFailureDomain_untouched|].
  intros r [m1 w1] Efd (Hm1 & Hr1 & Hp1 & Hw1); cbn in Hm1, Hr1, Hp1, Hw1. subst w1.
  destruct (Hsame _ Hm1) as [Hsf Hsr]. pose proof (Hfin' _ Hm1) as Hfin1.
  destruct r as [[]|e|p]; [|error_path Hfin1 Hsf Hsr|by split].
  wp_go. change (resolveRegion m0 (Some cluster)) with (resolveRegion m (Some cluster)) in Hr1.
  rewrite Hr1. wp_call as [c|e|p] w2 eqn Eb; [|error_path Hfin1 Hsf Hsr|by split].
  pose proof (builder_client _ _ _ _ Eb) as Hc. pose proof (builder_cloud _ _ _ _ Eb) as Hw2.
  wp_go. eapply wp_mono_run; [by apply (findOrCreateInstance_spec (resolveRegion m (Some cluster)))|].
  intros r [m3 w3] Efc [Hm3 Hready]; cbn in Hm3, Hready.
  assert (untouched m0 m3) as Hm03 by by etransitivity.
  destruct (Hsame _ Hm03) as [Hsf3 Hsr3]. pose proof (Hfin' _ Hm03) as Hfin3.
  destruct r as [[info|]|e|p]; [| | |by split].
  - unfold set_ready, update_machine. wp_go. split; [exact Hfin3|]. right; right.
    split_and!; [done|exact Hsf3|split_and!; [done..|apply ready_condition_set]|].
    destruct (Hready info eq_refl) as (? & ? & Hnames & i & ? & ? & ?).
    exists info. split_and!; [done..| |].
    { unfold provider_names in *. by rewrite Hp1 in Hnames. }
    exists i. rewrite <- Hw2. by split_and!.
  - wp_go. split; [exact Hfin3|]. by left.
  - destruct (as_terminal_error e) as [[reason message]|] eqn:Eterm; [|error_path Hfin3 Hsf3 Hsr3].
    unfold setFailed, set_ready, update_machine. wp_go. split; [exact Hfin3|].
    right; left. split; [done|]. exists e, reason, message.
    split_and!; [unfold step_error; by eauto 15|done|split_and!; [done..|apply ready_condition_set]].
Qed.

(** ** Hardening *)

(** The machine after a successful hardening. *)
Definition hardened (m : AlibabaCloudMachine) : AlibabaCloudMachine :=
  set_status (fun s => s <| stat_MetadataHardened := Some true |>) m.

(** The hardening is due: the spec asks for it, it is not recorded as done, and
    the node has joined. *)
Definition hardening_due (machine : Machine) m : option (string * string * Z) :=
  mo ← spec_MetadataOptions (acm_Spec m);
  if decide (mo_HttpTokensAfterBoot mo <> "" /\ stat_MetadataHardened (acm_Status m) <> Some true /\
             mach_NodeRefName machine <> "")
  then Some (if decide (mo_HttpEndpoint mo <> "") then mo_HttpEndpoint mo else "enabled",
             mo_HttpTokensAfterBoot mo, mo_HttpPutResponseHopLimit mo)
  else None.

Lemma maybeHardenMetadata_due c machine id m w :
  maybeHardenMetadata c (Some machine) id (m, w) =
  match hardening_due machine m with
  | Some (endpoint, tokens, hops) =>
      match ModifyInstanceMetadata c id endpoint tokens hops w with
      | (Ok _, w2) => (Ok (), (hardened m, w2))
      | (Err _, w2) => (Ok (), (m, w2))
      | (Panic p, w2) => (Panic p, (m, w2))
      end
  | None => (Ok (), (m, w))
  end.
Proof.
  unfold maybeHardenMetadata, machine_of, hardening_due, mbind, M_bind, on_fst, get. cbn.
  destruct (spec_MetadataOptions _) as [mo|]; cbn; [|done].
  destruct (decide (mo_HttpTokensAfterBoot mo = "")) as [Hb|Hb]; [by rewrite decide_False by tauto|].
  destruct (decide (stat_MetadataHardened _ = _)) as [Hh|Hh]; [by rewrite decide_False by tauto|].
  destruct (decide (mach_NodeRefName machine = "")) as [Hn|Hn]; [by rewrite decide_False by tauto|].
  destruct (decide (_ /\ _)) as [_|]; [|tauto]. unfold try, on_snd.
  by destruct (ModifyInstanceMetadata _ _ _ _ _ w) as [[[]|e|p] w2].
Qed.

Lemma maybeHardenMetadata_run c machine id m w :
  maybeHardenMetadata c (Some machine) id (m, w) = (Ok (), (m, w)) \/
  exists endpoint tokens hops q w2,
    ModifyInstanceMetadata c id endpoint tokens hops w = (q, w2) /\
    maybeHardenMetadata c (Some machine) id (m, w) =
      match q with
      | Ok _ => (Ok (), (hardened m, w2))
      | Err _ => (Ok (), (m, w2))
      | Panic p => (Panic p, (m, w2))
      end.
Proof.
  rewrite maybeHardenMetadata_due. destruct (hardening_due machine m) as [[[ep tk] hop]|]; [right|by left].
  destruct (ModifyInstanceMetadata c id ep tk hop w) as [q w2] eqn:E.
  exists ep, tk, hop, q, w2. split; [done|]. by destruct q.
Qed.

(** ** An existing instance *)

(** The machine after a successful describe: the providerID recovered when it
    was lost, and the status synced. *)
Definition observed (cluster : AlibabaCloudCluster) (id : string) (info : instanceInfo) m :=
  syncInstanceStatus info
    match spec_ProviderID (acm_Spec m) with
    | None => set_spec (fun s => s <| spec_ProviderID :=
                Some (providerIDFor (resolveRegion m (Some cluster)) id) |>) m
    | Some _ => m
    end.

Definition info_of (d : InstanceDescription) : instanceInfo :=
  mkInstanceInfo (idesc_InstanceID d) (idesc_Status d) (idesc_HostName d)
    (firstIP (idesc_InnerIpAddress d)) (firstIP (idesc_PublicIpAddress d)).


(** ** Creation *)

Lemma regionFromMachine_regionID m : spec_RegionID (acm_Spec m) <> "" ->
  regionFromMachine m = inr (spec_RegionID (acm_Spec m)).
Proof. apply regionFromMachine_spec. Qed.

Lemma maybeOffloadUserData_spec_same c cluster region ud m w :
  wp (maybeOffloadUserData c cluster region ud) (m, w) (fun _ s' =>
    acm_Spec s'.1 = acm_Spec m /\ acm_ObjectMeta s'.1 = acm_ObjectMeta m).
Proof.
  unfold maybeOffloadUserData. wp_go. case_decide; [by wp_go|].
  destruct (cspec_IgnitionStorage _) as [store|]; [|by wp_go].
  case_decide; [by wp_go|]. destruct (DecodeString ud) as [raw|]; [|by wp_go].
  wp_go. wp_call as [url|e|p] w1 eqn Ep; by wp_go.
Qed.

(** The machine with its status as it was before the create: the status write
    was lost, the spec write was not. *)
Definition status_lost (m m' : AlibabaCloudMachine) : AlibabaCloudMachine :=
  m' <| acm_Status := acm_Status m |>.
(** The same without the region of the spec: the providerID is all there is. *)
Definition only_providerID (m m' : AlibabaCloudMachine) : AlibabaCloudMachine :=
  set_spec (fun s => s <| spec_RegionID := "" |>) (status_lost m m').

(** What is known after a create call [p] that returned [id]. *)
Record recoverable (machine : Machine) (cluster : AlibabaCloudCluster) (m m' : AlibabaCloudMachine)
    (p : CreateInstanceParams) (id : string) : Prop := {
  rec_region : cip_RegionID p = resolveRegion m (Some cluster);
  rec_image : cip_ImageID p <> "";
  rec_name : cip_InstanceName p = mach_Name machine /\ machineTag (cip_Tags p) = mach_Name machine;
  rec_token : cip_ClientToken p = meta_UID (acm_ObjectMeta m);
  rec_spec : spec_RegionID (acm_Spec m') = cip_RegionID p /\
    spec_ProviderID (acm_Spec m') = Some (providerIDFor (cip_RegionID p) id);
  rec_found : instanceHandle m' = id /\ regionFromMachine m' = inr (cip_RegionID p);
  rec_status_lost : regionFromMachine (status_lost m m') = inr (cip_RegionID p) /\
    (stat_InstanceID (acm_Status m) = None -> no_sep id = true -> instanceHandle (status_lost m m') = id);
  rec_only_providerID : no_sep id = true ->
    (no_sep (cip_RegionID p) = true -> regionFromMachine (only_providerID m m') = inr (cip_RegionID p)) /\
    (stat_InstanceID (acm_Status m) = None -> instanceHandle (only_providerID m m') = id);
}.

(** C5. What the create path makes, the delete path finds.  After a successful
    create, the spec names the region it was made in and has the providerID of
    that region and the instance the client returned; the delete path finds
    both.  It finds them too when the status write was lost, the region in the
    spec and, if the machine recorded no instance before, the instance in the
    providerID; and the providerID alone gives both, without the spec's region.
    (The providerID gives back ids, and regions, without a dot or a slash.)  The
    create call was made in that region, with a boot image, under the machine's
    name and tag, and with the object's UID as its idempotency token. *)
Theorem createInstance_recoverable c machine cluster m w m' w' :
  resolveRegion m (Some cluster) <> "" ->
  createInstance c machine cluster (m, w) = (Ok (), (m', w')) ->
  exists p id w1, CreateECSInstance c p w1 = (Ok (mkCreateInstanceResponse id), w') /\
    recoverable machine cluster m m' p id.
Proof.
  intros Hreg Hrun.
  refine (wp_elim _ _ _ _ (fun r s' => r = Ok () -> exists p id w1,
    CreateECSInstance c p w1 = (Ok (mkCreateInstanceResponse id), s'.2) /\
    recoverable machine cluster m s'.1 p id) _ Hrun eq_refl).
  clear Hrun m' w'. unfold createInstance, machine_of, update_machine. wp_go.
  wp_call as [ud|e|p] w1 eqn Eu; [|done..].
  case_decide as Himg; [by wp_go|]. wp_go. set (region := resolveRegion m (Some cluster)) in *.
  set (m1 := if decide _ then _ else m).
  assert (spec_RegionID (acm_Spec m1) = region /\ acm_ObjectMeta m1 = acm_ObjectMeta m)
    as [Hm1 Hmeta].
  { subst m1 region. unfold resolveRegion. case_decide as Hr; [by case_decide|].
    by rewrite decide_True by done. }
  eapply wp_mono; [apply maybeOffloadUserData_spec_same|].
  intros [ud'|e|p] [m2 w2] [Hs2 Hmeta2]; cbn in Hs2, Hmeta2; [|done..].
  wp_go. wp_call as [resp|e|p] w3 eqn Ec; wp_go; [|done..]. intros _.
  eexists _, (cir_InstanceID resp), w2. destruct resp as [id]. split; [exact Ec|].
  set (m3 := set_status _ (set_spec _ m2)).
  assert (spec_RegionID (acm_Spec m3) = region) as H3 by (cbn; by rewrite Hs2).
  assert (regionFromMachine m3 = inr region) as Hr3
    by (rewrite <- H3; apply regionFromMachine_spec; by rewrite H3).
  split; unfold createParams; destruct (resolveMetadataOptions _) as [[ep tk] hop];
    cbn [cip_RegionID cip_ImageID cip_InstanceName cip_Tags cip_ClientToken].
  - done.
  - done.
  - split; [done|apply machineTag_toSDKTags].
  - by rewrite Hmeta2, Hmeta.
  - done.
  - done.
  - split; [rewrite <- Hr3; by apply regionFromMachine_ext|].
    intros Hnone Hns. unfold instanceHandle. cbn. rewrite Hnone. by apply providerInstanceID_for.
  - intros Hns. split.
    + intros Hnr. by apply (regionFromMachine_for _ region id).
    + intros Hnone. unfold instanceHandle. cbn. rewrite Hnone. by apply providerInstanceID_for.
Qed.

(** The user data of a create call [p] made at [w1], from the world [w] in which
    the secret is read. *)
Definition user_data_of c machine cluster m w (p : CreateInstanceParams) m' w1 : Prop :=
  match userDataSecretName machine m with
  | None => cip_UserData p = "" /\ w1 = w
  | Some name => exists secret raw w0,
      get_Secret (mkObjectKey (acm_Namespace m) name) w = (Ok secret, w0) /\
      secret !! "value" = Some raw /\
      delivers c cluster (resolveRegion m (Some cluster)) raw m w0 (cip_UserData p) m' w1
  end.

End normal.

(** C33. The parameters of the create call keep the secure baseline whatever the
    machine's spec says: metadata needs a token unless the spec asks for
    optional tokens by name; the first two tags are the cluster's and the
    machine's and those of the spec follow, so that they cannot hide the
    machine's from adoption and sweep; the system disk is the spec's in category,
    size, performance level, encryption and key, or an unencrypted 40 GiB
    cloud_efficiency disk when the spec has none; and so is each data disk. *)
Theorem createParams_secure machine cluster m region imageID ud :
  let p := createParams machine cluster m region imageID ud in
  (cip_HttpTokens p <> "required" ->
   exists o, spec_MetadataOptions (acm_Spec m) = Some o /\ cip_HttpTokens p = mo_HttpTokens o /\
             mo_HttpTokens o <> "") /\
  cip_HttpTokens p <> "" /\ cip_HttpEndpoint p <> "" /\
  (exists tags, cip_Tags p = mkSDKTag ("kubernetes.io/cluster/" +:+ acc_Name cluster) "owned" ::
                             mkSDKTag MachineNameTagKey (mach_Name machine) :: tags /\
     Forall2 (fun t q => q = mkSDKTag (tag_Key t) (tag_Value t)) (spec_Tags (acm_Spec m)) tags) /\
  machineTag (cip_Tags p) = mach_Name machine /\
  (cip_SystemDiskCategory p, cip_SystemDiskSize p, cip_SystemDiskPerformanceLevel p,
   cip_SystemDiskEncrypted p, cip_SystemDiskKMSKeyID p) =
    match spec_SystemDisk (acm_Spec m) with
    | Some sd => (sd_Category sd, sd_Size sd, sd_PerformanceLevel sd, sd_Encrypted sd, sd_KMSKeyID sd)
    | None => ("cloud_efficiency", 40%Z, "", None, "")
    end /\
  Forall2 (fun d q => q = mkDataDiskParam (dd_Category d) (dd_Size d) (dd_PerformanceLevel d)
                            (dd_Encrypted d) (dd_KMSKeyID d))
    (data_disks (acm_Spec m)) (cip_DataDisks p).
Proof.
  cbv zeta. unfold createParams. destruct (resolveMetadataOptions _) as [[ep tk] hop] eqn:Emd.
  cbn [cip_HttpTokens cip_HttpEndpoint cip_Tags cip_SystemDiskEncrypted cip_SystemDiskKMSKeyID
       cip_SystemDiskSize cip_SystemDiskCategory cip_SystemDiskPerformanceLevel cip_DataDisks].
  assert ((tk <> "required" -> exists o, spec_MetadataOptions (acm_Spec m) = Some o /\
             tk = mo_HttpTokens o /\ mo_HttpTokens o <> "") /\ tk <> "" /\ ep <> "") as (H1 & H2 & H3).
  { unfold resolveMetadataOptions in Emd.
    destruct (spec_MetadataOptions (acm_Spec m)) as [o|]; simplify_eq; [|by split_and!].
    destruct (decide (mo_HttpTokens o <> "")), (decide (mo_HttpEndpoint o <> "")); split_and!;
      try done; eauto. }
  split_and!; [done..| |apply machineTag_toSDKTags| |].
  - eexists. split; [done|]. by apply Forall2_fmap_r, Forall_Forall2_diag, Forall_forall.
  - unfold resolveSystemDisk. by destruct (spec_SystemDisk (acm_Spec m)).
  - unfold toSDKDataDisks. by apply Forall2_fmap_r, Forall_Forall2_diag, Forall_forall.
Qed.

(** ** Errors of the create call *)

(** A create error is terminal exactly when the server's code, anywhere in
    the chain of wrapped errors, says that the zone has no capacity or that the
    spot configuration is rejected; every other error keeps its cause, so that
    it is retried, and a throttling error is still recognised as one. *)
Theorem classifyCreateError_terminal err :
  as_terminal_error err = None ->
  (is_Some (as_terminal_error (classifyCreateError err)) <->
     alibabaErrorCode err ∈ capacity_codes ++ spot_codes) /\
  (alibabaErrorCode err ∉ capacity_codes ++ spot_codes ->
     as_server_error (classifyCreateError err) = as_server_error err).
Proof.
  intros Hnt. rewrite elem_of_app. unfold classifyCreateError.
  destruct (decide (alibabaErrorCode err ∈ capacity_codes)) as [H1|H1].
  { split; [|tauto]. split; [by left|by eexists]. }
  destruct (decide (alibabaErrorCode err ∈ spot_codes)) as [H2|H2].
  { split; [|tauto]. split; [by right|by eexists]. }
  split; [|done]. cbn. rewrite Hnt. split; [by intros []|tauto].
Qed.

(** ** Failure domains *)

(** The entry that a zone selects. *)
Lemma findFailureDomain_spec zoneID c fd :
  findFailureDomain zoneID c = Some fd ->
  cfd_Name fd = zoneID /\ fd ∈ cstat_FailureDomains (acc_Status c).
Proof.
  unfold findFailureDomain. intros H. destruct (filter _ _) as [|fd' l] eqn:E; [done|].
  injection H as ->.
  assert (fd ∈ filter (fun fd => cfd_Name fd = zoneID) (cstat_FailureDomains (acc_Status c))) as Hin
    by (rewrite E; left).
  by apply list_elem_of_filter in Hin.
Qed.

Lemma findFailureDomain_None zoneID c :
  findFailureDomain zoneID c = None <->
  forall fd, fd ∈ cstat_FailureDomains (acc_Status c) -> cfd_Name fd <> zoneID.
Proof.
  unfold findFailureDomain. split.
  - intros H fd Hin Hn. destruct (filter _ _) as [|fd' l] eqn:E; [|done].
    apply (not_elem_of_nil fd). rewrite <- E. by apply list_elem_of_filter.
  - intros H. destruct (filter _ _) as [|fd l] eqn:E; [done|].
    assert (fd ∈ filter (fun fd => cfd_Name fd = zoneID) (cstat_FailureDomains (acc_Status c))) as Hin
      by (rewrite E; left).
    apply list_elem_of_filter in Hin as [Hn Hin]. by destruct (H fd Hin).
Qed.

(** Failure-domain resolution makes no cloud call and touches only the zone
    and the vSwitch of the spec.  It succeeds on a machine with a failure domain
    exactly when the cluster publishes that domain and either the spec names a
    vSwitch or the domain has one; then a zone or vSwitch that the spec names is
    kept, and one that it does not name is the domain's. *)
Theorem resolveFailureDomain_spec {W} `{!GoFmt} machine cluster m (w : W) :
  let zone := mach_FailureDomain machine in
  exists r m',
    resolveFailureDomain machine cluster (m, w) = (r, (m', w)) /\
    m' = set_spec (fun s => s <| spec_ZoneID := spec_ZoneID (acm_Spec m') |>
                              <| spec_VSwitchID := spec_VSwitchID (acm_Spec m') |>) m /\
    (zone = "" -> r = Ok () /\ m' = m) /\
    (zone <> "" ->
       (r = Ok () <-> exists fd, findFailureDomain zone cluster = Some fd /\
          (spec_VSwitchID (acm_Spec m) <> "" \/ default "" (cfd_Attributes fd !! "vSwitchID") <> ""))
       /\ (forall fd, findFailureDomain zone cluster = Some fd -> r = Ok () ->
             spec_ZoneID (acm_Spec m') =
               (if decide (spec_ZoneID (acm_Spec m) = "") then zone else spec_ZoneID (acm_Spec m)) /\
             spec_VSwitchID (acm_Spec m') =
               (if decide (spec_VSwitchID (acm_Spec m) = "")
                then default "" (cfd_Attributes fd !! "vSwitchID")
                else spec_VSwitchID (acm_Spec m)))).
Proof.
  cbv zeta. unfold resolveFailureDomain, update_machine, machine_of, mbind, M_bind, on_fst, modify, get.
  assert (m = set_spec (fun s => s <| spec_ZoneID := spec_ZoneID (acm_Spec m) |>
                              <| spec_VSwitchID := spec_VSwitchID (acm_Spec m) |>) m) as Hself
    by by destruct m as [? [] ?].
  destruct (decide (mach_FailureDomain machine = "")) as [Hz|Hz].
  { eexists _, m. split_and!; [done|exact Hself|done|done]. }
  destruct (findFailureDomain _ cluster) as [fd|] eqn:Ef.
  2: { eexists _, m. split_and!; [done|exact Hself|done|]. intros _. split; [|done].
       split; [done|]. by intros (fd & ? & _). }
  set (m1 := if decide (spec_ZoneID _ = "") then _ else m).
  assert (m1 = set_spec (fun s => s <| spec_ZoneID := spec_ZoneID (acm_Spec m1) |>
                              <| spec_VSwitchID := spec_VSwitchID (acm_Spec m1) |>) m /\
          spec_VSwitchID (acm_Spec m1) = spec_VSwitchID (acm_Spec m) /\
          spec_ZoneID (acm_Spec m1) =
            (if decide (spec_ZoneID (acm_Spec m) = "") then mach_FailureDomain machine
             else spec_ZoneID (acm_Spec m))) as (H1 & H2 & H3).
  { subst m1. destruct (decide (spec_ZoneID (acm_Spec m) = "")); [|by split_and!].
    split_and!; [by destruct m as [? [] ?]|done|done]. }
  cbn. rewrite H2. destruct (decide (spec_VSwitchID (acm_Spec m) = "")) as [Hv|Hv].
  - destruct (cfd_Attributes fd !! "vSwitchID") as [vsw|] eqn:Ea; [destruct (decide (vsw = "")) as [->|Hvsw]|].
    + eexists _, m1. split_and!; [done|done|done|]. intros _. split; [|done]. split; [done|].
      intros (fd' & [= <-] & Hor). rewrite Ea in Hor. cbn in Hor. tauto.
    + eexists _, (set_spec (fun s => s <| spec_VSwitchID := vsw |>) m1).
      split_and!; [done| |done|].
      * cbn. rewrite H1 at 1. done.
      * intros _. split; [split; [|done]|].
        -- intros _. exists fd. split; [done|]. right. by rewrite Ea.
        -- intros fd' [= <-] _. by rewrite Ea.
    + eexists _, m1. split_and!; [done|done|done|]. intros _. split; [|done]. split; [done|].
      intros (fd' & [= <-] & Hor). rewrite Ea in Hor. cbn in Hor. tauto.
  - eexists _, m1. split_and!; [done|done|done|]. intros _. split; [split; [|done]|].
    + intros _. exists fd. split; [done|]. by left.
    + intros fd' [= <-] _. by rewrite H2.
Qed.

(** C35. Metadata hardening never interferes, and is done once.  It returns no
    error.  It calls the cloud exactly when it is due: the spec asks for it, it
    is not recorded as done, and the node has joined; the call is for the
    instance, with the spec's tokens and hop limit.  A call that succeeds is
    recorded, and nothing else of the machine ever changes; as long as the
    record stands, no later reconcile calls again. *)
Theorem maybeHardenMetadata_once {W} (c : Client W) machine id m w r m' w' :
  maybeHardenMetadata c (Some machine) id (m, w) = (r, (m', w')) ->
  (forall e, r <> Err e) /\
  match hardening_due machine m with
  | None => r = Ok () /\ m' = m /\ w' = w
  | Some (endpoint, tokens, hops) =>
      mach_NodeRefName machine <> "" /\
      exists q, ModifyInstanceMetadata c id endpoint tokens hops w = (q, w') /\
        m' = (if q is Ok _ then hardened m else m) /\
        (q = Ok () -> r = Ok () /\ forall m2 machine2 id2 w2,
           stat_MetadataHardened (acm_Status m2) = stat_MetadataHardened (acm_Status m') ->
           maybeHardenMetadata c machine2 id2 (m2, w2) = (Ok (), (m2, w2)))
  end.
Proof.
  rewrite maybeHardenMetadata_due. destruct (hardening_due machine m) as [[[ep tk] hop]|] eqn:Edue.
  2: { by intros [= <- <- <-]. }
  intros Hrun. split; [intros e ->; by destruct (ModifyInstanceMetadata c id ep tk hop w) as [[] ?]|].
  split.
  { unfold hardening_due in Edue. destruct (spec_MetadataOptions _) as [mo|]; [cbn in Edue|done].
    case_decide; [tauto|done]. }
  destruct (ModifyInstanceMetadata c id ep tk hop w) as [q w2]. exists q.
  destruct q as [[]|e|p]; injection Hrun as <- <- <-; split_and!; try done.
  intros _. split; [done|]. intros m2 machine2 id2 w3 Hm2.
  unfold maybeHardenMetadata, machine_of, mbind, M_bind, on_fst, get.
  destruct (spec_MetadataOptions _) as [mo|]; [|done].
  destruct (decide (mo_HttpTokensAfterBoot mo = "")); [done|]. by rewrite decide_True.
Qed.

(** ** Concrete runs *)

(** An API server that answers every read with the same objects and loses every
    write. *)
Definition lossyKube {W} : MachineKube W := {|
  mk_reader := {| get_Secret _ := mret {["value" := "ignition"]} |};
  get_AlibabaCloudMachine _ := mret (sim_acm "worker-1");
  get_AlibabaCloudCluster _ := mret (sim_cluster None);
  GetOwnerMachine _ := mret (Some (sim_machine "worker-1"));
  GetClusterFromMetadata _ :=
    mret (Some (mkCluster (sim_meta "c1") "AlibabaCloudCluster" "c1"
                  "infrastructure.cluster.x-k8s.io" false));
  IsPaused _ _ := false;
  patch_NewHelper _ := mret ();
  patch_Patch _ _ _ := mret ();
|}.
#[export] Instance memMachineKube : MachineKube Cloud := lossyKube.

(** A machine whose instance [i-7] is running. *)
Definition mem_running : Cloud :=
  <["i-7" := mkCloudInstance sim_region InstanceStateRunning (sim_machine_tags "worker-1")]> ∅.
Definition mem_recorded : AlibabaCloudMachine :=
  set_status (fun s => s <| stat_InstanceID := Some "i-7" |>) (sim_acm "worker-1").

Lemma reconcileNormal_outcome_witness :
  provisioned (reconcileNormal memBuilder (sim_machine "worker-1") (sim_cluster None)
                 (mem_recorded, mem_running)).2.1 /\
  exists info, ready_instance mem_cloud sim_region mem_running info mem_recorded
    (reconcileNormal memBuilder (sim_machine "worker-1") (sim_cluster None)
                 (mem_recorded, mem_running)).2.1.
Proof.
  destruct (reconcileNormal memBuilder (sim_machine "worker-1") (sim_cluster None)
              (mem_recorded, mem_running)) as [r [m' w']] eqn:E.
  assert (r = Ok done_) as -> by (change r with (r, (m', w')).1; rewrite <- E; by vm_compute).
  assert (stat_FailureReason (acm_Status m') = None) as Hf.
  { change m' with (@Ok Result done_, (m', w')).2.1. rewrite <- E. by vm_compute. }
  destruct (reconcileNormal_outcome memBuilder mem_cloud _ _ _ _ _ _ _ E) as
    [_ [(Hrq & _)|[(_ & err & reason & message & _ & _ & Hfr & _)|(_ & _ & Hp & Hi)]]].
  - discriminate.
  - rewrite Hf in Hfr. discriminate.
  - split; [exact Hp|exact Hi].
Defined.


Lemma createInstance_recoverable_witness :
  exists m' w',
    createInstance (memClient sim_region) (sim_machine "worker-1") (sim_cluster None)
      (sim_acm "worker-1", ∅) = (Ok (), (m', w')) /\
    regionFromMachine (status_lost (sim_acm "worker-1") m') = inr sim_region /\
    regionFromMachine (only_providerID (sim_acm "worker-1") m') = inr sim_region /\
    instanceHandle (only_providerID (sim_acm "worker-1") m') = "i-new".
Proof.
  destruct (createInstance (memClient sim_region) (sim_machine "worker-1") (sim_cluster None)
      (sim_acm "worker-1", ∅)) as [r [m' w']] eqn:E.
  assert (r = Ok ()) as -> by (change r with (r, (m', w')).1; rewrite <- E; by vm_compute).
  destruct (createInstance_recoverable (memClient sim_region) (sim_machine "worker-1")
      (sim_cluster None) (sim_acm "worker-1") ∅ m' w' ltac:(discriminate) E)
    as (p & id & w1 & Hc & [Hreg _ _ _ _ [Hh _] [Hl _] Ho]).
  assert (id = "i-new") as ->.
  { rewrite <- Hh. change m' with (@Ok () (), (m', w')).2.1. rewrite <- E. by vm_compute. }
  destruct (Ho eq_refl) as [Hor Hoh]. rewrite Hreg in Hl, Hor.
  exists m', w'. split_and!; [done|exact Hl|by apply Hor|by apply Hoh].
Defined.


Lemma classifyCreateError_terminal_witness :
  is_Some (as_terminal_error (classifyCreateError
    (WrapError "RunInstances: " (ServerError 403 "OperationDenied.NoStock" "sold out")))).
Proof.
  apply classifyCreateError_terminal; [reflexivity|].
  apply (bool_decide_unpack _). reflexivity.
Defined.

Definition hardening_acm : AlibabaCloudMachine :=
  set_spec (fun s => s <| spec_MetadataOptions :=
    Some (mkMetadataOptions "" "optional" "required" 2) |>) mem_recorded.

Definition joined_machine : Machine :=
  mkMachine (sim_meta "worker-1") "" None "node-1"
    "AlibabaCloudMachine" "worker-1" "infrastructure.cluster.x-k8s.io".

Lemma maybeHardenMetadata_once_witness :
  exists m' w', maybeHardenMetadata (memClient sim_region) (Some joined_machine) "i-7"
      (hardening_acm, mem_running) = (Ok (), (m', w')) /\
    m' = hardened hardening_acm /\
    forall machine2 w2, maybeHardenMetadata (memClient sim_region) machine2 "i-7" (m', w2) =
      (Ok (), (m', w2)).
Proof.
  destruct (maybeHardenMetadata (memClient sim_region) (Some joined_machine) "i-7"
    (hardening_acm, mem_running)) as [r [m' w']] eqn:E.
  destruct (maybeHardenMetadata_once _ _ _ _ _ _ _ _ E) as (_ & H).
  assert (hardening_due joined_machine hardening_acm = Some ("enabled", "required", 2%Z)) as Edue by done.
  rewrite Edue in H. destruct H as (_ & q & Eq & Hm & Hq).
  assert (q = Ok ()) as -> by (by injection Eq).
  destruct (Hq eq_refl) as [-> Hskip]. exists m', w'. split_and!; [done|exact Hm|].
  intros machine2 w2. by apply Hskip.
Defined.

(** ** Two ways to leave an instance behind *)

(** A machine that has passed one reconcile: it has its finalizer, and no region
    of its own. *)
Definition fresh_acm (name : string) : AlibabaCloudMachine :=
  set_finalizers (fun _ => [MachineFinalizer]) (sim_acm name).

(** The region and the providerID are written into the object in memory and
    reach the API server only with the deferred patch.  When that patch is lost
    (the controller dies, the API server refuses it) and the machine is then
    deleted, the stored object has neither handle nor region, so the finalizer
    is released without a look at the cloud, and the instance that was created
    lives on. *)
Theorem lost_patch_leaks_instance :
  let created := reconcileNormal memBuilder (sim_machine "worker-1") (sim_cluster None)
                   (fresh_acm "worker-1", ∅) in
  created.1 = Ok requeue /\
  let w := created.2.2 in
  let deleted := reconcileDelete memBuilder (fresh_acm "worker-1", w) in
  deleted.1 = Ok done_ /\ ~ has_finalizer deleted.2.1 /\ deleted.2.2 = w /\
  exists i, mem_cloud w !! "i-new" = Some i /\
    live_tagged sim_region MachineNameTagKey "worker-1" i.
Proof.
  cbv zeta. split; [by vm_compute|]. split_and!; [by vm_compute| |by vm_compute|].
  - apply (bool_decide_unpack _). by vm_compute.
  - eexists. split; [by vm_compute|]. apply (bool_decide_unpack _). by vm_compute.
Qed.

(** The create path tags the instance with the name of the owner Machine, the
    delete path sweeps by the name of the AlibabaCloudMachine.  When the two
    differ and the writes of the handle were lost, the sweep finds nothing and
    the finalizer is released with the instance alive. *)
Theorem sweep_misses_renamed_machine :
  let m := set_spec (fun s => s <| spec_RegionID := sim_region |>) (fresh_acm "infra-1") in
  let created := createInstance (memClient sim_region) (sim_machine "worker-1") (sim_cluster None)
                   (m, ∅) in
  created.1 = Ok () /\
  let w := created.2.2 in
  let deleted := reconcileDelete memBuilder (m, w) in
  deleted.1 = Ok done_ /\ ~ has_finalizer deleted.2.1 /\ deleted.2.2 = w /\
  exists i, mem_cloud w !! "i-new" = Some i /\ ci_Region i = sim_region /\
    mkSDKTag MachineNameTagKey "worker-1" ∈ ci_Tags i.
Proof.
  cbv zeta. split; [by vm_compute|]. split_and!; [by vm_compute| |by vm_compute|].
  - apply (bool_decide_unpack _). by vm_compute.
  - eexists. split; [by vm_compute|]. split; [done|]. apply (bool_decide_unpack _). by vm_compute.
Qed.

Definition slash_acm : AlibabaCloudMachine :=
  set_spec (fun s => s <| spec_ProviderID := Some "alicloud://cn-hangzhou/i-7" |>) (sim_acm "worker-1").

Lemma providerID_roundtrip_witness :
  regionFromMachine slash_acm = inr "cn-hangzhou" /\
  providerInstanceID "alicloud://cn-hangzhou/i-7" = "i-7".
Proof.
  destruct (providerID_roundtrip slash_acm "cn-hangzhou" "i-7" "/" ltac:(discriminate)
    eq_refl eq_refl eq_refl eq_refl eq_refl) as (Hr & Hi & _).
  split; [exact Hr|exact Hi].
Defined.
