(* ===== verification/ClusterProofs.v ===== *)
(** * What the cluster controller guarantees

    Readiness and the control-plane endpoint, the preflights, the published
    failure domains and their use by the machine controller. *)

From S2P Require Import Api CloudClient CapiCore ClusterController Ignition MachineController.
From S2P Require Import MachineDelete MachineNormal SimSdk SimClient.

(** The steps between the finalizer and the readiness test. *)
Definition prepared `{!KubeLib} (c : AlibabaCloudCluster) : AlibabaCloudCluster :=
  reconcileControlPlaneEndpoint (reconcileVPC (reconcileFailureDomains
    (set_cfinalizers (fun l => AddFinalizer l ClusterFinalizer) c))).

Lemma prepared_conditions `{!KubeLib} (c : AlibabaCloudCluster) :
  cstat_Conditions (acc_Status (prepared c)) = cstat_Conditions (acc_Status c).
Proof.
  unfold prepared, reconcileControlPlaneEndpoint, reconcileVPC, reconcileFailureDomains.
  destruct (cspec_FailureDomains _); by repeat case_decide.
Qed.

Lemma prepared_deletion `{!KubeLib} (c : AlibabaCloudCluster) :
  meta_DeletionTimestamp (acc_ObjectMeta (prepared c)) = meta_DeletionTimestamp (acc_ObjectMeta c).
Proof.
  unfold prepared, reconcileControlPlaneEndpoint, reconcileVPC, reconcileFailureDomains.
  destruct (cspec_FailureDomains _); by repeat case_decide.
Qed.

(** The endpoint a cluster ends with: the spec's, or else the one published
    before. *)
Definition published_endpoint (c : AlibabaCloudCluster) : APIEndpoint :=
  if decide (ep_Host (cspec_ControlPlaneEndpoint (acc_Spec c)) = "")
  then cstat_ControlPlaneEndpoint (acc_Status c) else cspec_ControlPlaneEndpoint (acc_Spec c).

(** What a reconcile makes of a cluster, its conditions apart: the finalizer is
    set, the VPC, the endpoint and the failure domains are published, and
    readiness is recorded or not. *)
Definition publishes `{!KubeLib} (ready : bool) (c c' : AlibabaCloudCluster) : Prop :=
  let status := acc_Status c in
  acc_Spec c' = acc_Spec c /\
  acc_ObjectMeta c' = (acc_ObjectMeta c) <| meta_Finalizers ::= fun l => AddFinalizer l ClusterFinalizer |> /\
  acc_Status c' =
    {| cstat_Ready := ready || cstat_Ready status;
       cstat_Initialization := if ready then Some (mkInitializationStatus (Some true))
                               else cstat_Initialization status;
       cstat_VpcID := if decide (cstat_VpcID status = "") then cspec_VpcID (acc_Spec c)
                      else cstat_VpcID status;
       cstat_ControlPlaneEndpoint := published_endpoint c;
       cstat_SLBInstanceID := cstat_SLBInstanceID status;
       cstat_FailureDomains :=
         match cspec_FailureDomains (acc_Spec c) with
         | [] => cstat_FailureDomains status
         | fds => map (fun fd => mkCoreFailureDomain (fd_ZoneID fd) (Some false)
                                   {["vSwitchID" := fd_VSwitchID fd]}) fds
         end;
       cstat_Conditions := cstat_Conditions (acc_Status c') |}.

Lemma prepared_publishes_status `{!KubeLib} c : publishes false c (prepared c).
Proof.
  unfold publishes, published_endpoint, prepared, reconcileControlPlaneEndpoint, reconcileVPC,
    reconcileFailureDomains.
  destruct c as [o [rg vpc img group ep tags ign fds] [ready init svpc sep slb sfds conds]]; cbn.
  destruct fds; cbn; repeat (case_decide; cbn in *); split_and!; try done; f_equal; naive_solver.
Qed.

(** A cluster that reports Ready has an endpoint that can be reached. *)
Definition ready_has_endpoint (c : AlibabaCloudCluster) : Prop :=
  cstat_Ready (acc_Status c) = true -> ep_Host (cstat_ControlPlaneEndpoint (acc_Status c)) <> "".

(** Everything of a cluster but its conditions. *)
Definition but_conditions (c : AlibabaCloudCluster) : AlibabaCloudCluster :=
  set_cstatus (fun s => s <| cstat_Conditions := [] |>) c.

Section cluster_theorems.
Context {W : Type} `{!ClusterKube W} `{!KubeLib} `{!KubeLibLaws} `{!GoFmt}.
Context (builder : string -> M W (Client W)) (grace : Z)
  (recorder : option (string -> string -> M W ())).
Implicit Types (c : AlibabaCloudCluster) (w : W).

Definition ccondition (t : string) c : option (string * ConditionStatus * string * string) :=
  cond_content <$> conditions_Get (cstat_Conditions (acc_Status c)) t.

Lemma ccondition_set t st rs msg c :
  ccondition t (with_ccondition (condition t st rs msg) c) = Some (t, st, rs, msg).
Proof. apply (conditions_Get_Set _ (condition t st rs msg)). Qed.

Lemma ccondition_set_ne t t' st rs msg c :
  t' <> t -> ccondition t' (with_ccondition (condition t st rs msg) c) = ccondition t' c.
Proof. intros Hne. unfold ccondition. cbn. by rewrite conditions_Get_Set_ne. Qed.

(** A preflight changes conditions only, and none but its own; and it returns
    no error. *)
Definition informational (t : string) (m : M (AlibabaCloudCluster * W) ()) : Prop :=
  forall c w, wp m (c, w) (fun r s' => (forall e, r <> Err e) /\
    but_conditions s'.1 = but_conditions c /\
    forall t', t' <> t -> ccondition t' s'.1 = ccondition t' c).

Lemma event_informational t reason msg : informational t (event recorder reason msg).
Proof.
  intros c w. unfold event. destruct recorder as [record|]; [|by wp_go].
  wp_go. wp_call as [[]|e|p] w1 eqn E; by wp_go.
Qed.

Lemma set_ccond_informational t st rs msg : informational t (set_ccond t st rs msg).
Proof.
  intros c w. unfold set_ccond, update_cluster. wp_go. split_and!; [done..|].
  intros t' Ht. by apply ccondition_set_ne.
Qed.

Lemma informational_bind t m (k : () -> M (AlibabaCloudCluster * W) ()) :
  informational t m -> (forall u, informational t (k u)) -> informational t (m ≫= k).
Proof.
  intros Hm Hk c w. wp_go. eapply wp_mono; [apply Hm|]. intros [u|e|p] [c1 w1] (He1 & Hb1 & Hc1); [|done..].
  eapply wp_mono; [apply Hk|]. intros r [c2 w2] (He2 & Hb2 & Hc2). cbn in *. split_and!; [done|congruence|].
  intros t' Ht. by rewrite Hc2, Hc1.
Qed.

Lemma checkCloudControllerManager_informational :
  informational CloudControllerManagerReadyCondition (checkCloudControllerManager grace recorder).
Proof.
  intros c w. unfold checkCloudControllerManager. wp_go.
  wp_call as [nodes|e|p] w1 eqn E1; [|by wp_go..]. wp_go.
  eapply wp_run; [done|]. cbv beta iota zeta. case_decide.
  - apply (informational_bind CloudControllerManagerReadyCondition).
    + apply set_ccond_informational.
    + intros u. apply event_informational.
  - apply set_ccond_informational.
Qed.

Lemma checkClusterAPICore_informational :
  informational ClusterAPICoreReadyCondition (checkClusterAPICore recorder).
Proof.
  intros c w. unfold checkClusterAPICore. wp_go.
  wp_call as [ns|e|p] w1 eqn E1; [|by wp_go..]. wp_go.
  destruct (ClassifyCAPICore ns); try apply set_ccond_informational; [|by wp_go].
  apply (informational_bind ClusterAPICoreReadyCondition).
  - apply set_ccond_informational.
  - intros u. apply event_informational.
Qed.

Definition endpoint_missing : Condition :=
  condition ReadyCondition ConditionFalse "ControlPlaneEndpointMissing"
    "spec.controlPlaneEndpoint is required (BYO infrastructure) and is not set".

Lemma prepared_ready c c1 : but_conditions c1 = but_conditions (prepared c) ->
  cstat_Ready (acc_Status c1) = cstat_Ready (acc_Status c).
Proof.
  intros E. change (cstat_Ready (acc_Status (but_conditions c1)) = cstat_Ready (acc_Status c)).
  rewrite E. destruct (prepared_publishes_status c) as (_ & _ & Es).
  change (cstat_Ready (acc_Status (prepared c)) = cstat_Ready (acc_Status c)). by rewrite Es.
Qed.

(** One reconcile of a live cluster. *)
Lemma reconcileClusterNormal_run c w :
  wp (reconcileClusterNormal builder grace recorder) (c, w) (fun r s' =>
  let c' := s'.1 in
  (ready_has_endpoint c -> ready_has_endpoint c') /\
  match r with
  | Ok res =>
      if decide (ep_Host (cstat_ControlPlaneEndpoint (acc_Status (prepared c))) = "") then
        res = mkResult requeueAfter /\ c' = with_ccondition endpoint_missing (prepared c)
      else
        res = mkResult 0 /\
        but_conditions c' = but_conditions (set_cstatus (fun s => s <| cstat_Ready := true |>
          <| cstat_Initialization := Some (mkInitializationStatus (Some true)) |>) (prepared c)) /\
        ccondition ReadyCondition c' =
          Some (ReadyCondition, ConditionTrue, "AlibabaCloudClusterReady", "") /\
        forall t, t ∉ owned_conditions -> ccondition t c' = ccondition t (prepared c)
  | Err e => exists err,
      builder (cspec_Region (acc_Spec c)) w = (Err err, s'.2) /\
      e = WrapError "failed to create Alibaba Cloud client: " err /\
      c' = with_ccondition (condition ReadyCondition ConditionFalse "AlibabaClientError" (Error err))
             (set_cfinalizers (fun l => AddFinalizer l ClusterFinalizer) c)
  | Panic _ => cstat_Ready (acc_Status c') = cstat_Ready (acc_Status c)
  end).
Proof.
  assert (forall c1, but_conditions c1 = but_conditions (prepared c) ->
    ready_has_endpoint c -> ready_has_endpoint c1) as Hprep.
  { intros c1 E Hinv. unfold ready_has_endpoint.
    change (cstat_Ready (acc_Status c1)) with (cstat_Ready (acc_Status (but_conditions c1))).
    change (cstat_ControlPlaneEndpoint (acc_Status c1))
      with (cstat_ControlPlaneEndpoint (acc_Status (but_conditions c1))).
    rewrite E. unfold prepared, reconcileControlPlaneEndpoint, reconcileVPC, reconcileFailureDomains.
    destruct (cspec_FailureDomains _); repeat case_decide; cbn; auto. }
  unfold reconcileClusterNormal, update_cluster, cluster_of. wp_go.
  wp_call as [cl|e|p] w1 eqn Eb; [|unfold set_ccond, update_cluster; wp_go; split; [done|by exists e]|by wp_go].
  wp_go. fold (prepared c). case_decide as Hhost.
  { unfold set_ccond, update_cluster. wp_go. split; [by apply Hprep|by split]. }
  wp_go. eapply wp_mono; [apply checkCloudControllerManager_informational|].
  intros r1 [c1 w2] (He1 & Hb1 & Hc1); cbn in Hb1, Hc1. change (but_conditions c1 = but_conditions (prepared c)) in Hb1.
  destruct r1 as [[]|e|p]; [|by destruct (He1 e)|by split; [apply Hprep|apply prepared_ready]].
  wp_go. eapply wp_mono; [apply checkClusterAPICore_informational|].
  intros r2 [c2 w3] (He2 & Hb2 & Hc2); cbn in Hb2, Hc2. rewrite Hb1 in Hb2.
  destruct r2 as [[]|e|p]; [|by destruct (He2 e)|by split; [apply Hprep|apply prepared_ready]].
  unfold set_ccond, update_cluster. wp_go. split.
  - intros _ _. cbn. change (ep_Host (cstat_ControlPlaneEndpoint (acc_Status (but_conditions c2))) <> "").
    by rewrite Hb2.
  - split_and!; [done| |apply (ccondition_set ReadyCondition ConditionTrue "AlibabaCloudClusterReady" "" c2)|].
    + apply (f_equal (set_cstatus (fun s => s <| cstat_Ready := true |>
        <| cstat_Initialization := Some (mkInitializationStatus (Some true)) |>))) in Hb2. exact Hb2.
    + intros t Ht. unfold owned_conditions in Ht.
      rewrite !not_elem_of_cons in Ht. destruct Ht as (Ht1 & Ht2 & Ht3 & _).
      trans (ccondition t c2); [by apply ccondition_set_ne|]. by rewrite Hc2, Hc1.
Qed.

(** A change of conditions only. *)
Lemma but_conditions_publishes ready c c1 c' :
  publishes ready c c1 -> but_conditions c' = but_conditions c1 -> publishes ready c c'.
Proof.
  intros (Hs & Ho & Ht) E. unfold publishes.
  pose proof (f_equal acc_Spec E) as Es. pose proof (f_equal acc_ObjectMeta E) as Eo.
  pose proof (f_equal acc_Status E) as Et. cbn in Es, Eo, Et. rewrite Ht in Et.
  split_and!; [congruence..|]. destruct (acc_Status c'). by injection Et as -> -> -> -> -> ->.
Qed.


(** C32. The CCM preflight says what the nodes say.  When the nodes can be
    listed, the condition is False exactly when some node older than the grace
    period still has the cloud provider's taint, and True otherwise; when they
    cannot, the cluster is left as it is. *)
Theorem checkCloudControllerManager_verdict c w r c' w' :
  checkCloudControllerManager grace recorder (c, w) = (r, (c', w')) ->
  match list_nodes w with
  | (Ok nodes, w1) =>
      let stuck n := (node_CreationTimestamp n <= time_Now w1 - grace)%Z /\
                     uninitializedTaintKey ∈ node_Taints n in
      ((exists n, n ∈ nodes /\ stuck n) /\ exists msg,
         ccondition CloudControllerManagerReadyCondition c' =
           Some (CloudControllerManagerReadyCondition, ConditionFalse,
                 NodesAwaitingCloudProviderReason, msg)) \/
      ((forall n, n ∈ nodes -> ~ stuck n) /\
         ccondition CloudControllerManagerReadyCondition c' =
           Some (CloudControllerManagerReadyCondition, ConditionTrue,
                 CloudControllerManagerHealthyReason, ""))
  | _ => c' = c
  end.
Proof.
  unfold checkCloudControllerManager, mbind, M_bind, try, on_snd.
  destruct (list_nodes w) as [[nodes|e|p] w1]; [|by intros [= _ <- _]..].
  assert (forall n, n ∈ nodes ->
    (node_CreationTimestamp n <= time_Now w1 - grace)%Z /\ uninitializedTaintKey ∈ node_Taints n ->
    node_Name n ∈ stuck_nodes (time_Now w1 - grace)%Z nodes) as Hin.
  { intros n Hn [Hc Ht]. apply list_elem_of_fmap. exists n. split; [done|].
    apply list_elem_of_filter. split; [|done]. split; [lia|done]. }
  destruct (stuck_nodes (time_Now w1 - grace)%Z nodes) as [|x l] eqn:E; cbn.
  - intros [= _ <- _]. right. split.
    + intros n Hn Hs. by eapply not_elem_of_nil, Hin.
    + apply (ccondition_set CloudControllerManagerReadyCondition ConditionTrue
               CloudControllerManagerHealthyReason "").
  - intros Hrun. left. split.
    + assert (x ∈ stuck_nodes (time_Now w1 - grace)%Z nodes) as Hx by (rewrite E; left).
      apply list_elem_of_fmap in Hx as (n & _ & Hn). apply list_elem_of_filter in Hn as [[Hc Ht] Hn].
      exists n. split_and!; [done|lia|done].
    + eexists. rewrite decide_True in Hrun by lia.
      unfold event, mbind, M_bind, try, on_snd in Hrun. cbn in Hrun.
      destruct recorder as [record|]; cbn in Hrun;
        [match type of Hrun with context [record ?a ?b ?c] =>
           destruct (record a b c) as [[[]|e|p] w2]; cbn in Hrun end|];
        injection Hrun as _ <- _; apply ccondition_set.
Qed.
End cluster_theorems.

(** ** What the cluster publishes *)

Lemma prepared_failureDomains `{!KubeLib} c :
  cspec_FailureDomains (acc_Spec c) <> [] ->
  cstat_FailureDomains (acc_Status (prepared c)) = map toFailureDomain (cspec_FailureDomains (acc_Spec c)).
Proof.
  intros Hne. unfold prepared, reconcileControlPlaneEndpoint, reconcileVPC, reconcileFailureDomains.
  cbn. destruct (cspec_FailureDomains (acc_Spec c)) as [|fd fds]; [done|].
  repeat (case_decide; cbn); done.
Qed.

(** The published facts.  The VPC in the status, once set, never changes; it
    is the one of the spec when it was empty; a non-empty list of failure
    domains in the spec is published entry by entry, while an empty one leaves
    the published list as it was, stale entries included. *)
Theorem prepared_publishes `{!KubeLib} c :
  (cstat_VpcID (acc_Status c) <> "" -> cstat_VpcID (acc_Status (prepared c)) = cstat_VpcID (acc_Status c)) /\
  (cstat_VpcID (acc_Status c) = "" -> cstat_VpcID (acc_Status (prepared c)) = cspec_VpcID (acc_Spec c)) /\
  (cspec_FailureDomains (acc_Spec c) <> [] ->
   cstat_FailureDomains (acc_Status (prepared c)) = map toFailureDomain (cspec_FailureDomains (acc_Spec c))) /\
  (cspec_FailureDomains (acc_Spec c) = [] ->
   cstat_FailureDomains (acc_Status (prepared c)) = cstat_FailureDomains (acc_Status c)).
Proof.
  unfold prepared. set (c0 := set_cfinalizers _ c).
  assert (forall d, cstat_VpcID (acc_Status (reconcileControlPlaneEndpoint d)) = cstat_VpcID (acc_Status d) /\
    cstat_FailureDomains (acc_Status (reconcileControlPlaneEndpoint d)) =
    cstat_FailureDomains (acc_Status d)) as Hep.
  { intros d. unfold reconcileControlPlaneEndpoint. by case_decide. }
  assert (forall d, cstat_FailureDomains (acc_Status (reconcileVPC d)) =
    cstat_FailureDomains (acc_Status d)) as Hvpc.
  { intros d. unfold reconcileVPC. by repeat case_decide. }
  assert (forall d, cstat_VpcID (acc_Status (reconcileFailureDomains d)) = cstat_VpcID (acc_Status d) /\
    acc_Spec (reconcileFailureDomains d) = acc_Spec d) as Hfd.
  { intros d. unfold reconcileFailureDomains. by destruct (cspec_FailureDomains _). }
  destruct (Hep (reconcileVPC (reconcileFailureDomains c0))) as [-> ->]. rewrite Hvpc.
  destruct (Hfd c0) as [Hv Hs]. split_and!.
  - intros Hne. unfold reconcileVPC. rewrite Hv. by rewrite decide_True.
  - intros He. unfold reconcileVPC. rewrite Hv, Hs. rewrite decide_False by (by intros []).
    case_decide as Hsp; [done|]. rewrite Hv. cbn in *. congruence.
  - intros Hne. unfold reconcileFailureDomains. cbn. by destruct (cspec_FailureDomains (acc_Spec c)).
  - intros He. unfold reconcileFailureDomains. cbn. by rewrite He.
Qed.

Lemma findFailureDomain_first zone fds c fd :
  cstat_FailureDomains (acc_Status c) = map toFailureDomain fds ->
  NoDup (fd_ZoneID <$> fds) -> fd ∈ fds -> fd_ZoneID fd = zone ->
  findFailureDomain zone c = Some (toFailureDomain fd).
Proof.
  unfold findFailureDomain. intros -> Hnd Hin Hz. subst zone.
  induction fds as [|fd' fds IH]; [by apply not_elem_of_nil in Hin|].
  cbn in Hnd. inversion_clear Hnd as [|? ? Hnin Hnd'].
  apply elem_of_cons in Hin as [->|Hin].
  - cbn. by rewrite decide_True.
  - change (map toFailureDomain (fd' :: fds)) with (toFailureDomain fd' :: map toFailureDomain fds).
    rewrite filter_cons_False; [by apply IH|]. cbn. intros E. apply Hnin. rewrite E.
    apply list_elem_of_fmap. by exists fd.
Qed.

(** What the cluster controller publishes, the machine controller can use: a
    machine assigned to a zone of the cluster's spec, with no zone or vSwitch of
    its own, gets that zone and its vSwitch. *)
Lemma domains_resolve {W} `{!KubeLib} `{!GoFmt} c fd machine m (w : W) :
  NoDup (fd_ZoneID <$> cspec_FailureDomains (acc_Spec c)) ->
  fd ∈ cspec_FailureDomains (acc_Spec c) -> fd_ZoneID fd <> "" -> fd_VSwitchID fd <> "" ->
  mach_FailureDomain machine = fd_ZoneID fd ->
  spec_ZoneID (acm_Spec m) = "" -> spec_VSwitchID (acm_Spec m) = "" ->
  resolveFailureDomain machine (prepared c) (m, w) =
    (Ok (), (set_spec (fun s => s <| spec_ZoneID := fd_ZoneID fd |>
                                  <| spec_VSwitchID := fd_VSwitchID fd |>) m, w)).
Proof.
  intros Hnd Hin Hz Hv Hm Hmz Hmv.
  assert (cstat_FailureDomains (acc_Status (prepared c)) =
          map toFailureDomain (cspec_FailureDomains (acc_Spec c))) as Hpub.
  { apply prepared_failureDomains. by destruct (cspec_FailureDomains (acc_Spec c)); [set_solver|]. }
  pose proof (findFailureDomain_first (fd_ZoneID fd) _ _ fd Hpub Hnd Hin eq_refl) as Hfind.
  unfold resolveFailureDomain, update_machine, machine_of, mbind, M_bind, on_fst, modify, get.
  rewrite Hm. destruct (decide (fd_ZoneID fd = "")) as [|_]; [done|]. rewrite Hfind.
  destruct (decide (spec_ZoneID (acm_Spec m) = "")) as [_|]; [|done]. cbn.
  destruct (decide (spec_VSwitchID (acm_Spec m) = "")) as [_|]; [|done].
  rewrite lookup_singleton_eq. by destruct (decide (fd_VSwitchID fd = "")).
Qed.

(** ** Deletion *)

Lemma reconcileClusterDelete_run {W} `{!KubeLib} c (w : W) :
  reconcileClusterDelete (c, w) =
    (Ok (mkResult 0), (set_cfinalizers (fun l => RemoveFinalizer l ClusterFinalizer) c, w)).
Proof.
  unfold reconcileClusterDelete, deleteSLB, deleteVPC, cluster_of, update_cluster, mbind, M_bind,
    on_fst, get, modify. cbn. by destruct (decide _).
Qed.

(** A cluster's deletion never blocks and makes no cloud call: it releases
    the finalizer whatever the cluster recorded. *)
Theorem reconcileClusterDelete_releases {W} `{!KubeLib} `{!KubeLibLaws} c (w : W) :
  exists c', reconcileClusterDelete (c, w) = (Ok (mkResult 0), (c', w)) /\
    (ClusterFinalizer ∉ meta_Finalizers (acc_ObjectMeta c')) /\
    acc_Spec c' = acc_Spec c /\ acc_Status c' = acc_Status c.
Proof.
  eexists. split; [apply reconcileClusterDelete_run|].
  cbn. split_and!; [|done..]. intros Hin. by apply RemoveFinalizer_elem in Hin as [? _].
Qed.

(** ** Concrete runs *)

Definition sim_nodes : list Node :=
  [mkNode "worker-1" 100%Z "alicloud://cn-hangzhou.i-7" [uninitializedTaintKey]
     [(NodeInternalIP, "10.0.0.7"); (NodeHostName, "worker-1")];
   mkNode "worker-2" 9000000000000%Z "" [uninitializedTaintKey] []].

#[export] Instance memClusterKube : ClusterKube Cloud := {|
  ck_deployments := fun _ _ => mret ["capi-system"; "capi-system"];
  ck_get_AlibabaCloudCluster _ := mret (sim_cluster None);
  ck_GetOwnerCluster _ := mret None;
  ck_IsPaused _ _ := false;
  ck_NewHelper _ := mret ();
  ck_Patch _ _ _ := mret ();
  list_nodes := mret sim_nodes;
  time_Now _ := 9000000000001%Z;
|}.


Lemma checkCloudControllerManager_verdict_witness :
  exists msg, ccondition CloudControllerManagerReadyCondition
    (checkCloudControllerManager DefaultCCMGracePeriod None (sim_cluster None, (∅ : Cloud))).2.1 =
    Some (CloudControllerManagerReadyCondition, ConditionFalse, NodesAwaitingCloudProviderReason, msg).
Proof.
  destruct (checkCloudControllerManager DefaultCCMGracePeriod None (sim_cluster None, (∅ : Cloud)))
    as [r [c' w']] eqn:E.
  destruct (checkCloudControllerManager_verdict DefaultCCMGracePeriod None _ _ _ _ _ E)
    as [(_ & msg & Hc)|[Hno _]].
  - exists msg. exact Hc.
  - exfalso. apply (Hno (mkNode "worker-1" 100%Z "alicloud://cn-hangzhou.i-7" [uninitializedTaintKey]
      [(NodeInternalIP, "10.0.0.7"); (NodeHostName, "worker-1")])); [left|].
    split; [vm_compute; discriminate|left].
Defined.

Definition zoned_cluster : AlibabaCloudCluster :=
  mkAlibabaCloudCluster (sim_meta "c1")
    (mkAlibabaCloudClusterSpec sim_region "vpc-1" "img-rhcos" "rg-1" (mkAPIEndpoint "api.c1" 6443)
       [] None [mkFailureDomain "zone-a" "vsw-a"; mkFailureDomain "zone-b" "vsw-b"])
    (acc_Status (sim_cluster None)).
Definition zoneless_acm : AlibabaCloudMachine :=
  set_spec (fun s => s <| spec_ZoneID := "" |> <| spec_VSwitchID := "" |>) (sim_acm "worker-1").
