(* ===== verification/Webhook.v ===== *)
(** * The admission webhooks

    [internal/webhook/v1beta1]: defaulting and validation of the
    AlibabaCloudMachine and AlibabaCloudCluster objects.  The validation
    functions return the list of field errors in the order the code appends
    them; a [field.Path] is the list of its elements.  The API error that
    [apierrors.NewInvalid] builds from such a list is a parameter.

    An object decoded from JSON has no NaN, and [reflect.DeepEqual] of two
    decoded objects never compares a pointer with itself; on the other field
    types it is equality. *)

From S2P Require Import Api.

(** ** Field errors *)

Inductive PathElement := PathChild (name : string) | PathIndex (i : nat).
Definition Path := list PathElement.
Definition NewPath (names : list string) : Path := map PathChild names.
Definition Child (p : Path) (names : list string) : Path := p ++ NewPath names.
Definition Index (p : Path) (i : nat) : Path := p ++ [PathIndex i].

Inductive BadValue := BadString (s : string) | BadInt (n : Z) | BadFloat (x : float64).

Inductive FieldError :=
  | Required (p : Path) (detail : string)
  | Invalid (p : Path) (v : BadValue) (detail : string)
  | Duplicate (p : Path) (v : BadValue)
  | Forbidden (p : Path) (detail : string).
Abbreviation ErrorList := (list FieldError).

(** ** Comparisons *)

Definition float_zero : float64 := S754_zero false.

(** [reflect.DeepEqual] on two [*float64]. *)
Definition DeepEqualFloat (x y : option float64) : bool :=
  match x, y with
  | None, None => true
  | Some x, Some y => SFeqb x y
  | _, _ => false
  end.

(** [reflect.DeepEqual] on the other fields: strings, a [*SystemDisk], a
    [[]DataDisk] whose nil-ness counts. *)
Definition DeepEqual {A} `{EqDecision A} (x y : A) : bool := bool_decide (x = y).

(** ** Shared rules: [webhook.go] *)

Section tags.
Context (parent : Path).

(** [validateTags] from index [i] on, having seen the keys [seen]. *)
Fixpoint validateTags_from (i : nat) (seen : gset string) (tags : list Tag) : ErrorList :=
  match tags with
  | [] => []
  | t :: tags =>
      let keyPath := Child (Index parent i) ["key"] in
      if decide (TrimSpace (tag_Key t) = "") then
        Required keyPath "tag key must not be empty" :: validateTags_from (S i) seen tags
      else
        (if decide (tag_Key t ∈ seen) then [Duplicate keyPath (BadString (tag_Key t))] else []) ++
        validateTags_from (S i) ({[tag_Key t]} ∪ seen) tags
  end.

Definition validateTags (tags : list Tag) : ErrorList := validateTags_from 0 ∅ tags.
End tags.

(** ** Machines: [alibabacloudmachine_webhook.go] *)

Definition defaultSystemDiskCategory : string := "cloud_essd".
Definition defaultSystemDiskSizeGiB : Z := 40.
Definition minDiskSizeGiB : Z := 20.
Definition ecsInstanceTypePrefix : string := "ecs.".

(** The assignments of [Default]. *)
Definition defaulted (m : AlibabaCloudMachine) : AlibabaCloudMachine :=
  match spec_SystemDisk (acm_Spec m) with
  | None =>
      set_spec (fun s => s <| spec_SystemDisk :=
        Some (mkSystemDisk defaultSystemDiskCategory defaultSystemDiskSizeGiB "" None "") |>) m
  | Some d =>
      let d := if decide (sd_Category d = "") then d <| sd_Category := defaultSystemDiskCategory |> else d in
      let d := if decide (sd_Size d = 0%Z) then d <| sd_Size := defaultSystemDiskSizeGiB |> else d in
      set_spec (fun s => s <| spec_SystemDisk := Some d |>) m
  end.

Definition min_size_detail : string := "must be at least " +:+ fmt_d minDiskSizeGiB +:+ " GiB".

Definition validateDiskExtras (category perfLevel : string) (encrypted : option bool)
    (kmsKeyID : string) (path : Path) : ErrorList :=
  (if decide (kmsKeyID <> "" /\ encrypted <> Some true)
   then [Invalid (Child path ["kmsKeyID"]) (BadString kmsKeyID) "kmsKeyID requires encrypted=true"]
   else []) ++
  (if decide (perfLevel <> "" /\ category <> "cloud_essd")
   then [Invalid (Child path ["performanceLevel"]) (BadString perfLevel)
           "performanceLevel is only valid for the cloud_essd category"]
   else []).

Definition validateSpot (m : AlibabaCloudMachine) (spec : Path) : ErrorList :=
  let plPath := Child spec ["spotPriceLimit"] in
  if decide (spec_SpotStrategy (acm_Spec m) = "SpotWithPriceLimit") then
    match spec_SpotPriceLimit (acm_Spec m) with
    | None => [Required plPath "spotPriceLimit is required when spotStrategy is SpotWithPriceLimit"]
    | Some x =>
        if SFleb x float_zero then [Invalid plPath (BadFloat x) "must be greater than 0"] else []
    end
  else
    match spec_SpotPriceLimit (acm_Spec m) with
    | None => []
    | Some x => [Invalid plPath (BadFloat x)
                   "spotPriceLimit is only allowed when spotStrategy is SpotWithPriceLimit"]
    end.

Definition validateInstanceType (t : string) (spec : Path) : ErrorList :=
  if decide (TrimSpace t = "") then [Required (Child spec ["instanceType"]) "instanceType is required"]
  else if HasPrefix t ecsInstanceTypePrefix then []
  else [Invalid (Child spec ["instanceType"]) (BadString t)
          "must be an Alibaba Cloud ECS instance type (e.g. ecs.g7.large)"].

Definition validateMachineSpec (m : AlibabaCloudMachine) : ErrorList :=
  let spec := NewPath ["spec"] in
  let s := acm_Spec m in
  validateInstanceType (spec_InstanceType s) spec ++
  match spec_SystemDisk s with
  | Some d =>
      if decide (sd_Size d <> 0%Z /\ (sd_Size d < minDiskSizeGiB)%Z)
      then [Invalid (Child spec ["systemDisk"; "size"]) (BadInt (sd_Size d)) min_size_detail]
      else []
  | None => []
  end ++
  concat (imap (fun i d =>
    if decide (dd_Size d < minDiskSizeGiB)%Z
    then [Invalid (Child (Index (Child spec ["dataDisks"]) i) ["size"]) (BadInt (dd_Size d)) min_size_detail]
    else []) (data_disks s)) ++
  match spec_SystemDisk s with
  | Some d => validateDiskExtras (sd_Category d) (sd_PerformanceLevel d) (sd_Encrypted d)
                (sd_KMSKeyID d) (Child spec ["systemDisk"])
  | None => []
  end ++
  concat (imap (fun i d =>
    validateDiskExtras (dd_Category d) (dd_PerformanceLevel d) (dd_Encrypted d) (dd_KMSKeyID d)
      (Index (Child spec ["dataDisks"]) i)) (data_disks s)) ++
  validateSpot m spec ++
  validateTags (Child spec ["tags"]) (spec_Tags s).

Definition immutable (child : Path) (same : bool) : ErrorList :=
  if same then [] else [Forbidden child "field is immutable"].

Definition immutableOnceSet (child : Path) (oldVal newVal : string) : ErrorList :=
  if decide (oldVal <> "" /\ oldVal <> newVal)
  then [Forbidden child "field is immutable once set"] else [].

Definition validateMachineImmutable (oldM newM : AlibabaCloudMachine) : ErrorList :=
  let spec := NewPath ["spec"] in
  let o := acm_Spec oldM in
  let n := acm_Spec newM in
  immutable (Child spec ["instanceType"]) (DeepEqual (spec_InstanceType o) (spec_InstanceType n)) ++
  immutable (Child spec ["imageID"]) (DeepEqual (spec_ImageID o) (spec_ImageID n)) ++
  immutableOnceSet (Child spec ["regionID"]) (spec_RegionID o) (spec_RegionID n) ++
  immutableOnceSet (Child spec ["zoneID"]) (spec_ZoneID o) (spec_ZoneID n) ++
  immutableOnceSet (Child spec ["vSwitchID"]) (spec_VSwitchID o) (spec_VSwitchID n) ++
  immutable (Child spec ["systemDisk"]) (DeepEqual (spec_SystemDisk o) (spec_SystemDisk n)) ++
  immutable (Child spec ["dataDisks"]) (DeepEqual (spec_DataDisks o) (spec_DataDisks n)) ++
  immutable (Child spec ["spotStrategy"]) (DeepEqual (spec_SpotStrategy o) (spec_SpotStrategy n)) ++
  immutable (Child spec ["spotPriceLimit"])
    (DeepEqualFloat (spec_SpotPriceLimit o) (spec_SpotPriceLimit n)) ++
  match spec_ProviderID o with
  | Some p =>
      if decide (spec_ProviderID n = Some p) then []
      else [Forbidden (Child spec ["providerID"]) "providerID is immutable once set"]
  | None => []
  end.

(** ** Clusters: [alibabacloudcluster_webhook.go] *)

Definition validateEndpoint (ep : APIEndpoint) (epPath : Path) : ErrorList :=
  if decide (ep_Host ep <> "" \/ ep_Port ep <> 0%Z) then
    (if decide (ep_Host ep = "")
     then [Required (Child epPath ["host"]) "host is required when port is set"] else []) ++
    (if decide (ep_Port ep <= 0 \/ 65535 < ep_Port ep)%Z
     then [Invalid (Child epPath ["port"]) (BadInt (ep_Port ep)) "must be between 1 and 65535"] else [])
  else [].

(** The loop over the failure domains, from index [i] on. *)
Fixpoint validateDomains_from (fds_path : Path) (i : nat) (seen : gset string)
    (fds : list FailureDomain) : ErrorList :=
  match fds with
  | [] => []
  | fd :: fds =>
      let fdPath := Index fds_path i in
      (if decide (TrimSpace (fd_ZoneID fd) = "")
       then [Required (Child fdPath ["zoneID"]) "zoneID is required"]
       else if decide (fd_ZoneID fd ∈ seen)
       then [Duplicate (Child fdPath ["zoneID"]) (BadString (fd_ZoneID fd))]
       else []) ++
      (if decide (TrimSpace (fd_VSwitchID fd) = "")
       then [Required (Child fdPath ["vSwitchID"]) "vSwitchID is required"] else []) ++
      validateDomains_from fds_path (S i)
        (if decide (TrimSpace (fd_ZoneID fd) = "") then seen else {[fd_ZoneID fd]} ∪ seen) fds
  end.

Definition validateClusterSpec (c : AlibabaCloudCluster) : ErrorList :=
  let spec := NewPath ["spec"] in
  (if decide (TrimSpace (cspec_Region (acc_Spec c)) = "")
   then [Required (Child spec ["region"]) "region is required"] else []) ++
  validateEndpoint (cspec_ControlPlaneEndpoint (acc_Spec c)) (Child spec ["controlPlaneEndpoint"]) ++
  validateDomains_from (Child spec ["failureDomains"]) 0 ∅ (cspec_FailureDomains (acc_Spec c)).

(** ** The handlers

    An admission request carries a [runtime.Object]; the handlers assert its
    type.  They return no warnings. *)

Inductive Object :=
  | MachineObject (m : AlibabaCloudMachine)
  | ClusterObject (c : AlibabaCloudCluster)
  | OtherObject (type : string).

(** [%T]. *)
Definition type_of (o : Object) : string :=
  match o with
  | MachineObject _ => "*v1beta1.AlibabaCloudMachine"
  | ClusterObject _ => "*v1beta1.AlibabaCloudCluster"
  | OtherObject t => t
  end.

(** [apierrors.NewInvalid(gk, name, allErrs)], for the kind of the group. *)
Class Apierrors := NewInvalid : string -> string -> ErrorList -> error.

Definition response := (list string * option error)%type.

Section handlers.
Context `{!Apierrors}.

Definition machineKind : string := "AlibabaCloudMachine".
Definition clusterKind : string := "AlibabaCloudCluster".

Definition aggregateErrors (kind name : string) (allErrs : ErrorList) : option error :=
  match allErrs with [] => None | _ => Some (NewInvalid kind name allErrs) end.

Definition expected_machine (o : Object) : error :=
  ErrorString ("expected an AlibabaCloudMachine but got a " +:+ type_of o).
Definition expected_cluster (o : Object) : error :=
  ErrorString ("expected an AlibabaCloudCluster but got a " +:+ type_of o).

(** [Default] writes into the object of the request. *)
Definition Default : M Object () :=
  obj ← get;
  match obj with
  | MachineObject m => modify (fun _ => MachineObject (defaulted m))
  | _ => throw (expected_machine obj)
  end.

Definition ValidateCreate (obj : Object) : response :=
  match obj with
  | MachineObject m => ([], aggregateErrors machineKind (acm_Name m) (validateMachineSpec m))
  | _ => ([], Some (expected_machine obj))
  end.

Definition ValidateUpdate (oldObj newObj : Object) : response :=
  match newObj, oldObj with
  | MachineObject newM, MachineObject oldM =>
      ([], aggregateErrors machineKind (acm_Name newM)
             (validateMachineSpec newM ++ validateMachineImmutable oldM newM))
  | MachineObject _, _ => ([], Some (expected_machine oldObj))
  | _, _ => ([], Some (expected_machine newObj))
  end.

Definition ValidateDelete (_ : Object) : response := ([], None).

Definition ValidateCreateCluster (obj : Object) : response :=
  match obj with
  | ClusterObject c => ([], aggregateErrors clusterKind (acc_Name c) (validateClusterSpec c))
  | _ => ([], Some (expected_cluster obj))
  end.

Definition ValidateUpdateCluster (oldObj newObj : Object) : response :=
  match newObj, oldObj with
  | ClusterObject newC, ClusterObject oldC =>
      ([], aggregateErrors clusterKind (acc_Name newC)
             (validateClusterSpec newC ++
              if decide (cspec_Region (acc_Spec oldC) <> cspec_Region (acc_Spec newC))
              then [Forbidden (NewPath ["spec"; "region"]) "region is immutable"] else []))
  | ClusterObject _, _ => ([], Some (expected_cluster oldObj))
  | _, _ => ([], Some (expected_cluster newObj))
  end.

Definition ValidateDeleteCluster (_ : Object) : response := ([], None).

(** ** What the API server stores

    The mutating webhook runs before the validating one, on creation and on
    update; an error of either rejects the request. *)

Definition admit_create (req : AlibabaCloudMachine) : option AlibabaCloudMachine :=
  match Default (MachineObject req) with
  | (Ok _, MachineObject m) =>
      match (ValidateCreate (MachineObject m)).2 with None => Some m | Some _ => None end
  | _ => None
  end.

Definition admit_update (old req : AlibabaCloudMachine) : option AlibabaCloudMachine :=
  match Default (MachineObject req) with
  | (Ok _, MachineObject m) =>
      match (ValidateUpdate (MachineObject old) (MachineObject m)).2 with
      | None => Some m
      | Some _ => None
      end
  | _ => None
  end.
End handlers.

(** ** Validity, declaratively *)

Lemma app_nil_iff {A} (l k : list A) : l ++ k = [] <-> l = [] /\ k = [].
Proof. split; [apply app_eq_nil|by intros [-> ->]]. Qed.

Lemma if_nil_iff (P : Prop) `{!Decision P} {A} (x : A) : (if decide P then [x] else []) = [] <-> ~ P.
Proof. by destruct (decide P). Qed.

Lemma concat_imap_nil {A B} (f : nat -> A -> list B) (P : A -> Prop) l :
  (forall i a, f i a = [] <-> P a) -> concat (imap f l) = [] <-> Forall P l.
Proof.
  revert f. induction l as [|a l IH]; intros f Hf; cbn; [by split; constructor|].
  rewrite app_nil_iff, Hf, list.Forall_cons. by rewrite (IH (f ∘ S)) by (intros; apply Hf).
Qed.

Record valid_extras (category perf : string) (enc : option bool) (kms : string) : Prop := {
  ve_kms : kms <> "" -> enc = Some true;
  ve_perf : perf <> "" -> category = "cloud_essd";
}.

Definition valid_spot (s : AlibabaCloudMachineSpec) : Prop :=
  if decide (spec_SpotStrategy s = "SpotWithPriceLimit")
  then exists x, spec_SpotPriceLimit s = Some x /\ SFleb x float_zero = false
  else spec_SpotPriceLimit s = None.

Definition valid_tags (tags : list Tag) : Prop :=
  Forall (fun t => TrimSpace (tag_Key t) <> "") tags /\ NoDup (tag_Key <$> tags).

(** The machine specs the webhook accepts. *)
Record valid_spec (s : AlibabaCloudMachineSpec) : Prop := {
  vs_type : exists rest, spec_InstanceType s = "ecs." +:+ rest;
  vs_system_size d : spec_SystemDisk s = Some d -> sd_Size d = 0%Z \/ (20 <= sd_Size d)%Z;
  vs_system d : spec_SystemDisk s = Some d ->
    valid_extras (sd_Category d) (sd_PerformanceLevel d) (sd_Encrypted d) (sd_KMSKeyID d);
  vs_data : Forall (fun d => (20 <= dd_Size d)%Z /\
    valid_extras (dd_Category d) (dd_PerformanceLevel d) (dd_Encrypted d) (dd_KMSKeyID d)) (data_disks s);
  vs_spot : valid_spot s;
  vs_tags : valid_tags (spec_Tags s);
}.

Lemma validateDiskExtras_nil category perf enc kms path :
  validateDiskExtras category perf enc kms path = [] <-> valid_extras category perf enc kms.
Proof.
  unfold validateDiskExtras. rewrite app_nil_iff, !if_nil_iff. split.
  - intros [Hk Hp]. split; intros ?.
    + destruct (decide (enc = Some true)); [done|tauto].
    + destruct (decide (category = "cloud_essd")); [done|tauto].
  - intros [Hk Hp]. split; intros [? H]; [by apply H, Hk|by apply H, Hp].
Qed.

Lemma validateSpot_nil m p : validateSpot m p = [] <-> valid_spot (acm_Spec m).
Proof.
  unfold validateSpot, valid_spot. case_decide.
  - destruct (spec_SpotPriceLimit _) as [x|]; [|by split; [|intros (? & ? & _)]].
    destruct (SFleb x float_zero) eqn:E.
    + split; [done|]. intros (y & [= <-] & ?). congruence.
    + split; [by eauto|done].
  - by destruct (spec_SpotPriceLimit _).
Qed.

Lemma validateTags_from_nil parent i seen tags :
  validateTags_from parent i seen tags = [] <->
  Forall (fun t => TrimSpace (tag_Key t) <> "") tags /\ NoDup (tag_Key <$> tags) /\
  Forall (fun t => tag_Key t ∉ seen) tags.
Proof.
  revert i seen. induction tags as [|t tags IH]; intros i seen; cbn.
  { split; [intros _; split_and!; constructor|done]. }
  case_decide as Hb.
  { split; [done|]. intros (Hf & _). by apply Forall_cons_1 in Hf as [? _]. }
  rewrite app_nil_iff, if_nil_iff, IH, !list.Forall_cons, list.NoDup_cons. split.
  - intros (Hs & Hbl & Hnd & Hf). split_and!; [done..| |done|done|].
    + intros (t' & E & Hin)%list_elem_of_fmap. rewrite list.Forall_forall in Hf.
      apply (Hf t' Hin). rewrite <- E. set_solver.
    + eapply list.Forall_impl; [exact Hf|]. set_solver.
  - intros ((_ & Hbl) & (Hnin & Hnd) & (Hs & Hf)). split_and!; [done..|].
    rewrite list.Forall_forall in *. intros t' Hin [E%elem_of_singleton|?]%elem_of_union; [|by apply (Hf t')].
    apply Hnin. rewrite <- E. by apply list_elem_of_fmap_2.
Qed.

Lemma validateTags_nil parent tags : validateTags parent tags = [] <-> valid_tags tags.
Proof.
  unfold validateTags, valid_tags. rewrite validateTags_from_nil. split; [tauto|].
  intros [? ?]. split_and!; [done..|]. apply list.Forall_true. set_solver.
Qed.

Lemma validateInstanceType_nil t p :
  validateInstanceType t p = [] <-> exists rest, t = "ecs." +:+ rest.
Proof.
  unfold validateInstanceType, ecsInstanceTypePrefix. case_decide as Hb.
  - split; [done|]. intros [rest ->]. exfalso. revert Hb. apply (TrimSpace_keeps "e"%char).
    + by vm_compute.
    + rewrite app_String. left.
  - rewrite <- HasPrefix_spec. by destruct (HasPrefix t "ecs.").
Qed.

Lemma validateMachineSpec_nil m : validateMachineSpec m = [] <-> valid_spec (acm_Spec m).
Proof.
  unfold validateMachineSpec. cbv zeta. set (s := acm_Spec m). rewrite !app_nil_iff.
  rewrite (concat_imap_nil _ (fun d => (20 <= dd_Size d)%Z))
    by (intros i d; rewrite if_nil_iff; unfold minDiskSizeGiB; lia).
  rewrite (concat_imap_nil _ (fun d => valid_extras (dd_Category d) (dd_PerformanceLevel d)
    (dd_Encrypted d) (dd_KMSKeyID d))) by (intros i d; apply validateDiskExtras_nil).
  rewrite validateInstanceType_nil, validateSpot_nil, validateTags_nil. fold s. split.
  - intros (Ht & Hss & Hds & Hse & Hde & Hspot & Htags). split; [done| | | |done|done].
    + intros d E. rewrite E in Hss. apply if_nil_iff in Hss. unfold minDiskSizeGiB in Hss. lia.
    + intros d E. rewrite E in Hse. by apply validateDiskExtras_nil in Hse.
    + by apply list.Forall_and.
  - intros [Ht Hss Hse Hd Hspot Htags]. apply list.Forall_and in Hd as [Hd He]. split_and!; [done| |done| |done..].
    + destruct (spec_SystemDisk s) as [d|]; [|done]. apply if_nil_iff. unfold minDiskSizeGiB.
      destruct (Hss d eq_refl); lia.
    + destruct (spec_SystemDisk s) as [d|]; [|done]. by apply validateDiskExtras_nil, Hse.
Qed.

Lemma defaulted_disk m :
  exists d, spec_SystemDisk (acm_Spec (defaulted m)) = Some d /\ sd_Category d <> "" /\ sd_Size d <> 0%Z.
Proof.
  destruct m as [meta [] status]. unfold defaulted, set_spec. cbn.
  destruct spec_SystemDisk as [[cat size perf enc kms]|]; cbn; eexists; (split; [done|]); [|done].
  by case_decide; case_decide; cbn.
Qed.

Lemma defaulted_idem m : defaulted (defaulted m) = defaulted m.
Proof.
  destruct m as [meta [] status]. unfold defaulted, set_spec. cbn.
  destruct spec_SystemDisk as [[cat size perf enc kms]|]; cbn; [|done].
  repeat (case_decide; cbn in *; try done).
Qed.

(** Whether a machine is defaulted depends on its system disk alone. *)
Lemma defaulted_same_disk m m' :
  spec_SystemDisk (acm_Spec m') = spec_SystemDisk (acm_Spec m) -> defaulted m = m -> defaulted m' = m'.
Proof.
  destruct m as [meta [] status], m' as [meta' [] status']. unfold defaulted, set_spec. cbn. intros ->.
  destruct spec_SystemDisk as [d|]; cbn; [|done]. intros [= E]. by rewrite E.
Qed.

Lemma defaulted_valid m : valid_spec (acm_Spec m) -> valid_spec (acm_Spec (defaulted m)).
Proof.
  destruct m as [meta [] status]; unfold defaulted, set_spec; cbn;
    destruct spec_SystemDisk as [[cat size perf enc kms]|]; cbn.
  - intros [Ht Hss Hse Hd Hspot Htags]. split; cbn in *; [done| | |done..].
    + intros d [= <-]. specialize (Hss _ eq_refl).
      repeat (case_decide; cbn in *); unfold defaultSystemDiskSizeGiB; lia.
    + intros d [= <-]. destruct (Hse _ eq_refl) as [Hk Hp]. cbn in *.
      repeat (case_decide; cbn in * ); subst; split; auto.
  - intros [Ht Hss Hse Hd Hspot Htags]. split; cbn in *; [done| | |done..].
    + intros d [= <-]. cbn. unfold defaultSystemDiskSizeGiB. lia.
    + intros d [= <-]. by split.
Qed.

(** C38. Defaulting fills in the system disk, only where it is unset: the
    category with cloud_essd and the size with 40 GiB, for a machine without a
    system disk as for one that leaves them out, whose other settings stay.
    Nothing else of the object changes; doing it twice is doing it once; and it
    never makes a machine invalid: a spec the validator accepts is accepted
    after defaulting, and one whose disk was complete is as it was. *)
Theorem Default_fills m :
  exists m', Default (MachineObject m) = (Ok (), MachineObject m') /\
    spec_SystemDisk (acm_Spec m') =
      Some match spec_SystemDisk (acm_Spec m) with
           | Some d => mkSystemDisk (if decide (sd_Category d = "") then "cloud_essd" else sd_Category d)
                         (if decide (sd_Size d = 0%Z) then 40%Z else sd_Size d)
                         (sd_PerformanceLevel d) (sd_Encrypted d) (sd_KMSKeyID d)
           | None => mkSystemDisk "cloud_essd" 40 "" None ""
           end /\
    set_spec (fun s => s <| spec_SystemDisk := spec_SystemDisk (acm_Spec m) |>) m' = m /\
    Default (MachineObject m') = (Ok (), MachineObject m') /\
    (valid_spec (acm_Spec m) -> valid_spec (acm_Spec m')) /\
    ((exists d, spec_SystemDisk (acm_Spec m) = Some d /\ sd_Category d <> "" /\ sd_Size d <> 0%Z) -> m' = m).
Proof.
  exists (defaulted m). split_and!; [done| | | |apply defaulted_valid|].
  - destruct m as [meta [] status]; unfold defaulted, set_spec; cbn.
    destruct spec_SystemDisk as [[cat size perf enc kms]|]; cbn; [|done]. by repeat case_decide.
  - destruct m as [meta [] status]; unfold defaulted, set_spec; cbn.
    by destruct spec_SystemDisk as [[cat size perf enc kms]|].
  - unfold Default, modify, mbind, M_bind, get. by rewrite defaulted_idem.
  - intros (d & Hd & Hc & Hs). unfold defaulted. rewrite Hd.
    destruct (decide (sd_Category d = "")); [done|]. destruct (decide (sd_Size d = 0%Z)); [done|].
    destruct m as [meta [] status]. cbn in Hd. by subst.
Qed.

(** ** Immutability *)

Definition float_eq (x y : option float64) : Prop := x = y \/ DeepEqualFloat x y = true.

(** What no sequence of updates changes: the fields that define the instance,
    and, once they are set, its location and identity. *)
Record pinned (o n : AlibabaCloudMachineSpec) : Prop := {
  pin_type : spec_InstanceType n = spec_InstanceType o;
  pin_image : spec_ImageID n = spec_ImageID o;
  pin_system : spec_SystemDisk n = spec_SystemDisk o;
  pin_data : spec_DataDisks n = spec_DataDisks o;
  pin_strategy : spec_SpotStrategy n = spec_SpotStrategy o;
  pin_price : float_eq (spec_SpotPriceLimit o) (spec_SpotPriceLimit n);
  pin_region : spec_RegionID o <> "" -> spec_RegionID n = spec_RegionID o;
  pin_zone : spec_ZoneID o <> "" -> spec_ZoneID n = spec_ZoneID o;
  pin_vswitch : spec_VSwitchID o <> "" -> spec_VSwitchID n = spec_VSwitchID o;
  pin_provider p : spec_ProviderID o = Some p -> spec_ProviderID n = Some p;
}.

Lemma SFeqb_cases x y : SFeqb x y = true ->
  x = y \/ (exists a b, x = S754_zero a /\ y = S754_zero b).
Proof.
  destruct x as [a|a| |a m e], y as [b|b| |b n f]; cbn; try (by eauto);
    try (destruct a; done); try (destruct b; done).
  - destruct a, b; cbn; try done; by left.
  - unfold SFeqb, SFcompare. destruct a, b; try done; destruct (Z.compare_spec e f) as [->| |]; try done;
      change (Pos.compare_cont Eq m n) with (Pos.compare m n);
      destruct (Pos.compare_spec m n) as [->| |]; try done; by left.
Qed.

Lemma float_eq_trans x y z : float_eq x y -> float_eq y z -> float_eq x z.
Proof.
  unfold float_eq. intros [->|Hxy]; [done|]. intros [->|Hyz]; [by right|].
  destruct x as [x|], y as [y|], z as [z|]; cbn in *; try done; [|by left].
  apply SFeqb_cases in Hxy as [->|(a & b & -> & ->)]; [by right|].
  apply SFeqb_cases in Hyz as [<-|(a' & b' & _ & ->)]; by right.
Qed.

#[export] Instance pinned_preorder : PreOrder pinned.
Proof.
  split; [intros s; by split; [..|left| | | |]|].
  intros s1 s2 s3 [T1 I1 S1 D1 ST1 P1 R1 Z1 V1 Pr1] [T2 I2 S2 D2 ST2 P2 R2 Z2 V2 Pr2].
  split; [congruence..|by eapply float_eq_trans| | | |by auto];
    intros Hne; [rewrite R2, R1|rewrite Z2, Z1|rewrite V2, V1]; rewrite ?R1, ?Z1, ?V1; done.
Qed.

Lemma immutable_nil p b : immutable p b = [] <-> b = true.
Proof. by destruct b. Qed.

Lemma immutableOnceSet_nil p o n : immutableOnceSet p o n = [] <-> (o <> "" -> n = o).
Proof.
  unfold immutableOnceSet. rewrite if_nil_iff. split.
  - intros Hn Hne. destruct (decide (o = n)); [done|tauto].
  - intros Hn [Hne Hd]. by apply Hd; symmetry; apply Hn.
Qed.

Lemma validateMachineImmutable_nil o n :
  validateMachineImmutable o n = [] <->
  pinned (acm_Spec o) (acm_Spec n) /\
  DeepEqualFloat (spec_SpotPriceLimit (acm_Spec o)) (spec_SpotPriceLimit (acm_Spec n)) = true.
Proof.
  unfold validateMachineImmutable, DeepEqual. cbv zeta.
  rewrite !app_nil_iff, !immutable_nil, !immutableOnceSet_nil, !bool_decide_eq_true.
  assert (forall x p, match x with Some q => if decide (spec_ProviderID (acm_Spec n) = Some q) then []
      else [Forbidden p "providerID is immutable once set"] | None => [] end = [] <->
    (forall q, x = Some q -> spec_ProviderID (acm_Spec n) = Some q)) as Hp.
  { intros [q|] p; [|done]. case_decide; split; try done; intros Hq; [by intros ? [= <-]|].
    by specialize (Hq q eq_refl). }
  rewrite Hp. split.
  - intros (? & ? & ? & ? & ? & ? & ? & ? & Hf & ?). split; [|done]. split; try done. by right.
  - intros [[] Hf]. split_and!; try done.
Qed.

Section admission.
Context `{!Apierrors}.

Lemma aggregateErrors_nil kind name l : aggregateErrors kind name l = None <-> l = [].
Proof. by destruct l. Qed.


Lemma admit_create_Some req m :
  admit_create req = Some m <-> m = defaulted req /\ valid_spec (acm_Spec m).
Proof.
  unfold admit_create, Default, mbind, M_bind, get, modify. cbn. unfold aggregateErrors.
  rewrite <- validateMachineSpec_nil.
  destruct (validateMachineSpec (defaulted req)) as [|e l] eqn:E.
  - split; [by intros [= <-]|by intros [-> _]].
  - split; [done|]. intros [-> Hv]. congruence.
Qed.

Lemma admit_update_Some old req m :
  admit_update old req = Some m <->
  m = defaulted req /\ valid_spec (acm_Spec m) /\ pinned (acm_Spec old) (acm_Spec m) /\
  DeepEqualFloat (spec_SpotPriceLimit (acm_Spec old)) (spec_SpotPriceLimit (acm_Spec m)) = true.
Proof.
  unfold admit_update, Default, mbind, M_bind, get, modify. cbn. unfold aggregateErrors.
  rewrite <- validateMachineSpec_nil, <- validateMachineImmutable_nil.
  destruct (validateMachineSpec (defaulted req) ++ _) as [|e l] eqn:E.
  - apply app_nil_iff in E as [E1 E2]. split; [by intros [= <-]|by intros [-> _]].
  - split; [done|]. intros (-> & Hv & Hi). by rewrite Hv, Hi in E.
Qed.

(** One accepted update. *)
Definition updated (old new : AlibabaCloudMachine) : Prop :=
  exists req, admit_update old req = Some new.

(** C14. Whatever updates the API server accepts after it accepted a machine,
    the stored spec is valid and defaulted, and the fields that define the
    instance are those the machine was created with; region, zone, vSwitch
    and providerID keep the first value they were given. *)
Theorem stored_machine_pinned req m0 m :
  admit_create req = Some m0 -> rtc updated m0 m ->
  valid_spec (acm_Spec m) /\ defaulted m = m /\ pinned (acm_Spec m0) (acm_Spec m).
Proof.
  intros [Hm0 Hv0]%admit_create_Some Hrtc.
  assert (forall x, defaulted (defaulted x) = defaulted x) as Hidem by (intros x; apply defaulted_idem).
  revert Hv0 Hm0. induction Hrtc as [m|m1 m2 m3 [req' Hstep] Hrtc IH] in req |- *; intros Hv0 Hm0.
  - split_and!; [done|by rewrite Hm0, Hidem|done].
  - apply admit_update_Some in Hstep as (Hm2 & Hv2 & Hp & _).
    destruct (IH req' Hv2 Hm2) as (? & ? & ?). split_and!; [done..|]. by etransitivity.
Qed.

(** C39. Defaulting runs on updates too, and the system disk is immutable: a
    machine stored without a complete system disk, by an older version or
    while the webhook was off, has every later update rejected, the removal of
    its finalizer included. *)
Theorem undefaulted_machine_frozen old req :
  defaulted old <> old -> admit_update old req = None.
Proof.
  intros Hne. destruct (admit_update old req) as [m|] eqn:E; [|done]. exfalso. apply Hne.
  apply admit_update_Some in E as (-> & _ & Hp & _). apply pin_system in Hp.
  destruct (defaulted_disk req) as (d & Hd & Hc & Hs). rewrite Hd in Hp.
  destruct old as [meta [] status]. cbn in Hp. subst. unfold defaulted, set_spec. cbn.
  destruct d as [cat size perf enc kms]. cbn in *. repeat (case_decide; cbn in *; try done).
Qed.

Lemma admit_update_same old new :
  valid_spec (acm_Spec new) -> defaulted new = new -> pinned (acm_Spec old) (acm_Spec new) ->
  DeepEqualFloat (spec_SpotPriceLimit (acm_Spec old)) (spec_SpotPriceLimit (acm_Spec new)) = true ->
  admit_update old new = Some new.
Proof. intros ? Hd ? ?. apply admit_update_Some. rewrite Hd. by split_and!. Qed.
End admission.

(** ** Clusters *)

Definition valid_endpoint (ep : APIEndpoint) : Prop :=
  (ep_Host ep = "" /\ ep_Port ep = 0%Z) \/ (ep_Host ep <> "" /\ (1 <= ep_Port ep <= 65535)%Z).

Definition valid_domains (fds : list FailureDomain) : Prop :=
  Forall (fun fd => TrimSpace (fd_ZoneID fd) <> "" /\ TrimSpace (fd_VSwitchID fd) <> "") fds /\
  NoDup (fd_ZoneID <$> fds).

Record valid_cluster (s : AlibabaCloudClusterSpec) : Prop := {
  vc_region : TrimSpace (cspec_Region s) <> "";
  vc_endpoint : valid_endpoint (cspec_ControlPlaneEndpoint s);
  vc_domains : valid_domains (cspec_FailureDomains s);
}.

Lemma TrimSpace_nonempty s : TrimSpace s <> "" -> s <> "".
Proof. intros Hne ->. by apply Hne. Qed.

Lemma validateEndpoint_nil ep p : validateEndpoint ep p = [] <-> valid_endpoint ep.
Proof.
  unfold validateEndpoint, valid_endpoint. case_decide as Hset.
  - rewrite app_nil_iff, !if_nil_iff. split; [intros [Hh Hp]; right; split; [done|lia]|].
    intros [[Hh Hp]|[Hh Hp]]; [by destruct Hset|]. split; [done|lia].
  - split; [intros _|done]. destruct (decide (ep_Host ep = "")) as [|Hh]; [|tauto].
    destruct (decide (ep_Port ep = 0%Z)) as [|Hp]; [by left|tauto].
Qed.

Lemma validateDomains_from_nil p i seen fds :
  validateDomains_from p i seen fds = [] <->
  valid_domains fds /\ Forall (fun fd => fd_ZoneID fd ∉ seen) fds.
Proof.
  unfold valid_domains. revert i seen. induction fds as [|fd fds IH]; intros i seen; cbn.
  { split; [intros _; split_and!; constructor|done]. }
  rewrite !app_nil_iff, if_nil_iff, IH, !list.Forall_cons, list.NoDup_cons.
  case_decide as Hz; [by split; [intros [? _]|intros [[[[? _] _] _] _]]|]. rewrite if_nil_iff. split.
  - intros (Hs & Hv & (Hall & Hnd) & Hf). split_and!; [done..| |done|done|].
    + intros (fd' & E & Hin)%list_elem_of_fmap. rewrite list.Forall_forall in Hf.
      apply (Hf fd' Hin). rewrite <- E. set_solver.
    + eapply list.Forall_impl; [exact Hf|]. set_solver.
  - intros ((((_ & Hv) & Hall) & Hnin & Hnd) & Hs & Hf). split_and!; [done..|].
    rewrite list.Forall_forall in *. intros fd' Hin [E%elem_of_singleton|?]%elem_of_union; [|by apply (Hf fd')].
    apply Hnin. rewrite <- E. by apply list_elem_of_fmap_2.
Qed.

Lemma validateClusterSpec_nil c : validateClusterSpec c = [] <-> valid_cluster (acc_Spec c).
Proof.
  unfold validateClusterSpec. cbv zeta.
  rewrite !app_nil_iff, if_nil_iff, validateEndpoint_nil, validateDomains_from_nil. split.
  - intros (? & ? & ? & _). by split.
  - intros [? ? ?]. split_and!; [done..|]. apply list.Forall_true. set_solver.
Qed.

Lemma validateClusterSpec_domains c :
  validateClusterSpec c = [] -> valid_domains (cspec_FailureDomains (acc_Spec c)).
Proof. intros Hc. apply vc_domains. by apply validateClusterSpec_nil. Qed.

(** C37. The validator accepts a cluster exactly when its region is not blank, its
    control plane endpoint is either unset or a host with a port in range, and
    every failure domain has a zone and a vSwitch, no zone named twice; an
    update is accepted exactly when, besides, the region is unchanged. *)
Theorem validateCluster_valid `{!Apierrors} old c :
  ((ValidateCreateCluster (ClusterObject c)).2 = None <-> valid_cluster (acc_Spec c)) /\
  ((ValidateUpdateCluster (ClusterObject old) (ClusterObject c)).2 = None <->
   valid_cluster (acc_Spec c) /\ cspec_Region (acc_Spec old) = cspec_Region (acc_Spec c)).
Proof.
  cbn. rewrite !aggregateErrors_nil, app_nil_iff, validateClusterSpec_nil, if_nil_iff. split; [done|]. split.
  - intros [? Hr]. split; [done|].
    destruct (decide (cspec_Region (acc_Spec old) = cspec_Region (acc_Spec c))); tauto.
  - intros [? Hr]. split; [done|]. tauto.
Qed.

(** Deletion is always allowed, and a request whose object is of another type
    is refused, untouched by defaulting. *)
Theorem other_objects_refused `{!Apierrors} o :
  (ValidateDelete o).2 = None /\ (ValidateDeleteCluster o).2 = None /\
  match o with
  | MachineObject m => Default o = (Ok (), MachineObject (defaulted m)) /\
      (ValidateCreateCluster o).2 = Some (expected_cluster o)
  | _ => Default o = (Err (expected_machine o), o) /\
      (ValidateCreate o).2 = Some (expected_machine o) /\
      (forall old, (ValidateUpdate old o).2 = Some (expected_machine o)) /\
      (forall m, (ValidateUpdate o (MachineObject m)).2 = Some (expected_machine o))
  end.
Proof. by destruct o. Qed.
