(* ===== verification/Admission.v ===== *)
(** * The webhooks and the controllers together

    The machine controller's own writes to the spec pass the webhook, and a
    cluster the webhook accepts publishes failure domains the machine
    controller can use. *)

From S2P Require Import Api ProviderID CloudClient Encoding Capi Ignition Oss SimSdk.
From S2P Require Import MachineController SimClient ClusterController MachineDelete.
From S2P Require Import MachineNormal ClusterProofs Webhook.

(** ** What the controller writes into a spec *)

(** Only the region, the zone, the vSwitch and the providerID change, and a
    value that was set stays. *)
Record resolved (o n : AlibabaCloudMachineSpec) : Prop := {
  res_same : n = o <| spec_ProviderID := spec_ProviderID n |> <| spec_RegionID := spec_RegionID n |>
                   <| spec_ZoneID := spec_ZoneID n |> <| spec_VSwitchID := spec_VSwitchID n |>;
  res_region : spec_RegionID o <> "" -> spec_RegionID n = spec_RegionID o;
  res_zone : spec_ZoneID o <> "" -> spec_ZoneID n = spec_ZoneID o;
  res_vswitch : spec_VSwitchID o <> "" -> spec_VSwitchID n = spec_VSwitchID o;
  res_provider p : spec_ProviderID o = Some p -> spec_ProviderID n = Some p;
}.

Lemma resolved_refl s : resolved s s.
Proof. by split; [destruct s|..]. Qed.

Lemma resolved_pinned o n : resolved o n -> pinned o n.
Proof.
  intros [Hs ? ? ? ?]. split; try done; [by rewrite Hs..| ]. left. by rewrite Hs.
Qed.

Lemma resolved_valid o n : resolved o n -> valid_spec o -> valid_spec n.
Proof. intros [-> _ _ _ _] [Ht Hss Hse Hd Hspot Htags]. by split. Qed.

Section controller.
Context {W : Type} `{!MachineKube W} `{!KubeLib} `{!GoFmt}.
Context (builder : string -> M W (Client W)).
Context (o : AlibabaCloudMachineSpec).
Abbreviation St := (AlibabaCloudMachine * W)%type.

(** The invariant of a reconcile that started from the spec [o]: a machine
    without an instance id has a spec without a providerID to protect. *)
Definition own_writes (s : St) : Prop :=
  resolved o (acm_Spec s.1) /\
  (is_Some (stat_InstanceID (acm_Status s.1)) \/ spec_ProviderID o = None).

Lemma own_machine : keeps own_writes machine_of.
Proof. by intros [m w]. Qed.

Lemma own_world {A} (c : M W A) : keeps own_writes (on_snd c).
Proof. intros [m w]. unfold on_snd. by destruct (c w). Qed.

Lemma own_update f :
  (forall m, acm_Spec (f m) = acm_Spec m /\
     (is_Some (stat_InstanceID (acm_Status m)) -> is_Some (stat_InstanceID (acm_Status (f m))))) ->
  keeps own_writes (update_machine (W := W) f).
Proof.
  intros Hf [m w] [Hr Hi]. destruct (Hf m) as [Hs Hid]. unfold update_machine, own_writes. cbn in *.
  rewrite Hs. split; [done|]. destruct Hi; [by left; auto|by right].
Qed.

Lemma own_resolve f :
  (forall s, resolved o s -> resolved o (f s)) ->
  keeps own_writes (update_machine (W := W) (set_spec f)).
Proof. intros Hf [m w] [Hr Hi]. split; [by apply Hf|done]. Qed.

Lemma own_if (P : AlibabaCloudMachine -> Prop) `{!forall m, Decision (P m)} f :
  (forall m, P m -> resolved o (acm_Spec m) -> resolved o (f (acm_Spec m))) ->
  keeps own_writes (update_machine (W := W) (fun m => if decide (P m) then set_spec f m else m)).
Proof.
  intros Hf [m w] [Hr Hi]. unfold update_machine, own_writes. cbn in *.
  case_decide; [|done]. split; [by apply Hf|done].
Qed.

Lemma own_set_ready st reason msg : keeps own_writes (set_ready (W := W) st reason msg).
Proof. by apply own_update. Qed.

Hint Resolve own_machine own_world own_set_ready : keeps.

Lemma resolved_region region s : spec_RegionID s = "" -> resolved o s ->
  resolved o (s <| spec_RegionID := region |>).
Proof.
  intros Hr [Hs Hre Hz Hv Hp]. destruct s. cbn in *. split; cbn; [by injection Hs; intros; subst| |done..].
  intros Hne. clear Hs. specialize (Hre Hne). congruence.
Qed.
Lemma resolved_zone zone s : spec_ZoneID s = "" -> resolved o s ->
  resolved o (s <| spec_ZoneID := zone |>).
Proof.
  intros Hr [Hs Hre Hz Hv Hp]. destruct s. cbn in *. split; cbn; [by injection Hs; intros; subst|done| |done..].
  intros Hne. clear Hs. specialize (Hz Hne). congruence.
Qed.
Lemma resolved_vswitch vsw s : spec_VSwitchID s = "" -> resolved o s ->
  resolved o (s <| spec_VSwitchID := vsw |>).
Proof.
  intros Hr [Hs Hre Hz Hv Hp]. destruct s. cbn in *. split; cbn; [by injection Hs; intros; subst|done|done| |done].
  intros Hne. clear Hs. specialize (Hv Hne). congruence.
Qed.
Lemma resolved_provider p s : spec_ProviderID s = None \/ spec_ProviderID o = None -> resolved o s ->
  resolved o (s <| spec_ProviderID := p |>).
Proof.
  intros Hr [Hs Hre Hz Hv Hp]. destruct s. cbn in *. split; cbn; [by injection Hs; intros; subst|done..|].
  intros q Hq. clear Hs. destruct Hr as [->|]; [|congruence]. by specialize (Hp q Hq).
Qed.

Lemma own_resolveFailureDomain machine cluster :
  keeps own_writes (resolveFailureDomain (W := W) machine cluster).
Proof.
  unfold resolveFailureDomain. case_decide; [apply keeps_ret|].
  destruct (findFailureDomain _ _) as [fd|]; [|apply keeps_throw].
  apply keeps_bind; [apply own_if; intros; by apply resolved_zone|intros _].
  intros [m w] Hown. unfold machine_of, mbind, M_bind, on_fst, get. case_decide as Hv; [|done].
  destruct (cfd_Attributes fd !! _) as [vsw|]; [|done]. case_decide; [done|].
  destruct Hown as [Hr Hi]. split; [by apply resolved_vswitch|done].
Qed.

Lemma own_maybeOffloadUserData c cluster region ud :
  keeps own_writes (maybeOffloadUserData c cluster region ud).
Proof.
  unfold maybeOffloadUserData. keeps_tac; try apply own_world; try apply own_machine.
  all: by apply own_update.
Qed.
(** The machine whose providerID the create writes has none in [o]. *)
Lemma own_createInstance c machine cluster :
  spec_ProviderID o = None -> keeps own_writes (createInstance c machine cluster).
Proof.
  intros Hnone. unfold createInstance.
  apply keeps_bind; [apply own_machine|intros m0].
  apply keeps_bind; [apply own_world|intros ud]. cbv zeta. case_decide; [apply keeps_throw|].
  apply keeps_bind; [apply own_if; intros; by apply resolved_region|intros _].
  apply keeps_bind; [apply own_maybeOffloadUserData|intros ud'].
  apply keeps_bind; [apply own_machine|intros m1].
  apply keeps_bind; [apply keeps_catch; [apply own_world|intros e; apply keeps_throw]|intros resp].
  intros [m w] [Hr Hi]. split; [|by right]. cbn. apply resolved_provider; [by right|done].
Qed.

Lemma own_maybeHardenMetadata c machine id :
  keeps own_writes (maybeHardenMetadata c machine id).
Proof.
  unfold maybeHardenMetadata. keeps_tac; try apply own_world; try apply own_machine.
  all: by apply own_update.
Qed.

Lemma own_findInstance c machine cluster id :
  keeps own_writes (findInstance c machine cluster id).
Proof.
  unfold findInstance. apply keeps_bind; [apply own_machine|intros m0]. cbv zeta.
  case_decide; [apply keeps_throw|].
  apply keeps_bind; [apply own_world|intros [info|]]; [|apply keeps_throw].
  apply keeps_bind.
  - intros [m w] [Hr Hi]. unfold update_machine, own_writes. cbn in *.
    destruct (spec_ProviderID (acm_Spec m)) eqn:E; [done|]. split; [|done].
    apply resolved_provider; [by left|done].
  - intros _. apply keeps_bind; [by apply own_update|intros _].
    repeat case_decide; [|apply keeps_throw|apply keeps_ret].
    apply keeps_bind; [apply own_maybeHardenMetadata|intros _; apply keeps_ret].
Qed.

Lemma own_findOrCreateInstance c machine cluster :
  keeps own_writes (findOrCreateInstance c machine cluster).
Proof.
  intros [m w] Hown. unfold findOrCreateInstance, machine_of.
  rewrite (M_bind_run _ _ _ (Ok m) (m, w)) by done.
  destruct (stat_InstanceID (acm_Status m)) as [id|] eqn:Eid; [by apply own_findInstance|].
  destruct Hown as [Hr [[id Hid]|Hnone]]; [cbn in Hid; congruence|].
  eapply (keeps_bind own_writes); [by apply own_createInstance| |by split; [|right]].
  intros []. apply keeps_bind; [apply own_machine|intros m1].
  apply keeps_bind; [apply keeps_deref|intros ?; apply keeps_ret].
Qed.

Lemma own_reconcileNormal machine cluster :
  keeps own_writes (reconcileNormal builder machine cluster).
Proof.
  unfold reconcileNormal, setFailed.
  keeps_tac; try apply own_world; try apply own_machine; try apply own_set_ready;
    try apply own_resolveFailureDomain; try apply own_findOrCreateInstance.
  all: by apply own_update.
Qed.

Lemma own_reconcileDelete : keeps own_writes (reconcileDelete builder).
Proof.
  unfold reconcileDelete, sweepAndRelease, awaitTermination, cleanupOffloadedIgnition, deleteInstance,
    release_finalizer.
  keeps_tac; try apply own_world; try apply own_machine; try apply own_set_ready; apply own_update;
    intros x; case_decide || idtac; done.
Qed.

Lemma own_reconcileMachine : keeps own_writes (reconcileMachine builder).
Proof.
  unfold reconcileMachine. keeps_tac; try apply own_world; try apply own_machine.
  all: try apply own_reconcileNormal; try apply own_reconcileDelete.
Qed.
End controller.

Section writes.
Context {W : Type} `{!MachineKube W} `{!KubeLib} `{!GoFmt} `{!Apierrors}.
Context (builder : string -> M W (Client W)).

(** C4. The webhook never rejects what the machine controller writes.  From a
    stored machine (valid and defaulted, its price limit a number as JSON's
    are) that has an instance id or no providerID yet, the object a reconcile
    ends with, successful or not, is accepted as an update and stored
    unchanged: only region, zone, vSwitch and providerID differ, each written
    once. *)
Theorem reconcile_writes_admitted m w r m' w' :
  valid_spec (acm_Spec m) -> defaulted m = m ->
  DeepEqualFloat (spec_SpotPriceLimit (acm_Spec m)) (spec_SpotPriceLimit (acm_Spec m)) = true ->
  (is_Some (stat_InstanceID (acm_Status m)) \/ spec_ProviderID (acm_Spec m) = None) ->
  reconcileMachine builder (m, w) = (r, (m', w')) ->
  resolved (acm_Spec m) (acm_Spec m') /\ admit_update m m' = Some m'.
Proof.
  intros Hv Hd Hf Hid Hrun.
  pose proof (own_reconcileMachine builder (acm_Spec m) (m, w) (conj (resolved_refl _) Hid)) as [Hr _].
  rewrite Hrun in Hr. cbn in Hr. split; [done|]. apply admit_update_same.
  - by eapply resolved_valid.
  - apply defaulted_same_disk with m; [by rewrite (res_same _ _ Hr)|done].
  - by apply resolved_pinned.
  - by rewrite (res_same _ _ Hr).
Qed.
End writes.

(** C23. A cluster the webhook accepts publishes failure domains the machine
    controller can use: a machine assigned to one of the zones, with no zone or
    vSwitch of its own, gets that zone and its vSwitch. *)
Theorem accepted_cluster_places {W} `{!KubeLib} `{!GoFmt} `{!Apierrors} c fd machine m (w : W) :
  (ValidateCreateCluster (ClusterObject c)).2 = None ->
  fd ∈ cspec_FailureDomains (acc_Spec c) -> mach_FailureDomain machine = fd_ZoneID fd ->
  spec_ZoneID (acm_Spec m) = "" -> spec_VSwitchID (acm_Spec m) = "" ->
  resolveFailureDomain machine (prepared c) (m, w) =
    (Ok (), (set_spec (fun s => s <| spec_ZoneID := fd_ZoneID fd |>
                                  <| spec_VSwitchID := fd_VSwitchID fd |>) m, w)).
Proof.
  intros Hv Hin Hm Hz Hvs.
  assert (valid_domains (cspec_FailureDomains (acc_Spec c))) as [Hall Hnd].
  { apply validateClusterSpec_domains. cbn in Hv. unfold aggregateErrors in Hv.
    by destruct (validateClusterSpec c). }
  rewrite list.Forall_forall in Hall. destruct (Hall fd Hin) as [Hfz Hfv].
  apply domains_resolve; try done; by apply TrimSpace_nonempty.
Qed.

(** ** Concrete requests *)

#[export] Instance simApierrors : Apierrors := fun kind name errs =>
  APIStatusError StatusReasonOther (kind +:+ " " +:+ name +:+ " is invalid: " +:+ fmt_d (Z.of_nat (length errs))).

Definition requested_acm : AlibabaCloudMachine :=
  set_spec (fun s => s <| spec_SystemDisk := None |>) (sim_acm "worker-1").
Definition with_region (m : AlibabaCloudMachine) : AlibabaCloudMachine :=
  set_spec (fun s => s <| spec_RegionID := sim_region |>) m.

Lemma stored_machine_pinned_witness :
  let m := with_region (defaulted requested_acm) in
  valid_spec (acm_Spec m) /\ defaulted m = m /\
  pinned (acm_Spec (defaulted requested_acm)) (acm_Spec m).
Proof.
  apply (stored_machine_pinned requested_acm (defaulted requested_acm)).
  - by vm_compute.
  - apply rtc_once. exists (with_region requested_acm). by vm_compute.
Defined.

Lemma undefaulted_machine_frozen_witness :
  admit_update requested_acm (set_finalizers (fun _ => []) requested_acm) = None.
Proof. apply (undefaulted_machine_frozen requested_acm). discriminate. Defined.

Lemma reconcile_writes_admitted_witness :
  let m := sim_acm "worker-1" in
  let m' := (reconcileMachine memBuilder (m, (∅ : Cloud))).2.1 in
  resolved (acm_Spec m) (acm_Spec m') /\ admit_update m m' = Some m'.
Proof.
  cbv zeta. destruct (reconcileMachine memBuilder (sim_acm "worker-1", (∅ : Cloud)))
    as [r [m' w']] eqn:E.
  apply (reconcile_writes_admitted memBuilder (sim_acm "worker-1") (∅ : Cloud) r m' w').
  - apply validateMachineSpec_nil. by vm_compute.
  - reflexivity.
  - reflexivity.
  - right. reflexivity.
  - exact E.
Defined.

Lemma accepted_cluster_places_witness :
  exists m', resolveFailureDomain (mkMachine (sim_meta "worker-1") "zone-b" None ""
    "AlibabaCloudMachine" "worker-1" GroupVersion_Group)
    (prepared zoned_cluster) (zoneless_acm, ()) = (Ok (), (m', ())) /\
    spec_VSwitchID (acm_Spec m') = "vsw-b".
Proof.
  eexists. split.
  - apply (accepted_cluster_places zoned_cluster (mkFailureDomain "zone-b" "vsw-b"));
      [by vm_compute|right; left|reflexivity|reflexivity|reflexivity].
  - reflexivity.
Defined.
