(* ===== verification/MachineInvariant.v ===== *)
(** * Invariants of a machine reconcile

    The walk through the handlers of [MachineController], once: a property of
    the machine in memory and the world that every call a reconcile makes keeps,
    and every kind of write it makes, the reconcile keeps.  [ReconcileInv]
    lists what is asked of the property; [Uniqueness] and [Lifecycle] are its
    clients. *)

From S2P Require Import Api ProviderID CloudClient Encoding Capi Ignition Oss SimSdk.
From S2P Require Import MachineController SimClient MachineDelete MachineNormal.

(** The writes of a reconcile to its machine: the name, the namespace and the
    tags stay, a region that was set stays, and so does the finalizer. *)
Definition writes (f : AlibabaCloudMachine -> AlibabaCloudMachine) : Prop := forall m,
  (acm_Name (f m) = acm_Name m /\ acm_Namespace (f m) = acm_Namespace m) /\
  spec_Tags (acm_Spec (f m)) = spec_Tags (acm_Spec m) /\
  (spec_RegionID (acm_Spec m) <> "" -> spec_RegionID (acm_Spec (f m)) = spec_RegionID (acm_Spec m)) /\
  (has_finalizer m -> has_finalizer (f m)).

(** What deletion asks of the property: the calls of a client the builder made,
    of which [V] holds, and the writes keep it. *)
Class DeleteInv {W} (builder : string -> M W (Client W)) (V : Client W -> Prop)
    (I : AlibabaCloudMachine * W -> Prop) : Prop := {
  di_builder region : keeps I (on_snd (builder region));
  di_client region : yields V (builder region);
  di_describe c id : V c -> keeps I (on_snd (DescribeInstanceByID c id));
  di_find c rg k v : V c -> keeps I (on_snd (FindInstanceByTag c rg k v));
  di_delete c id force : V c -> keeps I (on_snd (DeleteECSInstance c id force));
  di_delete_object c p : V c -> keeps I (on_snd (DeleteIgnitionObject c p));
  di_write f : writes f -> keeps I (update_machine f);
}.

(** What a reconcile asks: the calls of the API server and the other calls of
    the client, down to the creation of an instance for a machine of which [P]
    holds, in the machine's own region. *)
Class ReconcileInv {W} `{!MachineKube W} (builder : string -> M W (Client W))
    (P : Machine -> Prop) (V : Client W -> Prop) (I : AlibabaCloudMachine * W -> Prop) : Prop := {
  ri_deletion :: DeleteInv builder V I;
  ri_secret k : keeps I (on_snd (get_Secret k));
  ri_owner om : keeps I (on_snd (GetOwnerMachine om));
  ri_owner_ok m w machine w' :
    I (m, w) -> GetOwnerMachine (acm_ObjectMeta m) w = (Ok (Some machine), w') -> P machine;
  ri_cluster om : keeps I (on_snd (GetClusterFromMetadata om));
  ri_infra k : keeps I (on_snd (get_AlibabaCloudCluster k));
  ri_infra_ok k : yields (fun c => cspec_Region (acc_Spec c) <> "") (get_AlibabaCloudCluster k);
  ri_metadata c id e t h : V c -> keeps I (on_snd (ModifyInstanceMetadata c id e t h));
  ri_put c p : V c -> keeps I (on_snd (PutIgnitionObject c p));
  ri_create c machine cluster image ud m w :
    V c -> P machine -> spec_RegionID (acm_Spec m) <> "" -> I (m, w) ->
    I (m, (CreateECSInstance c
             (createParams machine cluster m (spec_RegionID (acm_Spec m)) image ud) w).2);
}.

Section deletion.
Context {W : Type} `{!KubeLib} `{!KubeLibLaws} `{!GoFmt}.
Context {builder : string -> M W (Client W)} {V : Client W -> Prop}.
Context {I : AlibabaCloudMachine * W -> Prop} `{HI : !DeleteInv builder V I}.
Abbreviation St := (AlibabaCloudMachine * W)%type.

Lemma inv_machine : keeps I machine_of.
Proof. by intros [m w]. Qed.

Lemma inv_status f : keeps I (update_machine (W := W) (set_status f)).
Proof. by apply di_write. Qed.

Lemma inv_ready st reason msg : keeps I (set_ready (W := W) st reason msg).
Proof. by apply di_write. Qed.

Lemma inv_spec f :
  (forall s, spec_Tags (f s) = spec_Tags s /\
     (spec_RegionID s <> "" -> spec_RegionID (f s) = spec_RegionID s)) ->
  keeps I (update_machine (W := W) (set_spec f)).
Proof. intros Hf. apply di_write. intros m. destruct (Hf (acm_Spec m)). by split_and!. Qed.

Lemma inv_finalizer :
  keeps I (update_machine (W := W) (set_finalizers (fun l => AddFinalizer l MachineFinalizer))).
Proof.
  apply di_write. intros m. split_and!; [done..|]. intros _. unfold has_finalizer. cbn.
  apply AddFinalizer_elem. by left.
Qed.

Lemma inv_describe c id : V c -> keeps I (on_snd (describeInstance c id)).
Proof.
  intros Hc. unfold describeInstance. apply keeps_on_snd_bind; [|intros ?; apply keeps_on_snd_ret].
  by apply keeps_on_snd_wrap, di_describe.
Qed.

Lemma inv_with_client {B} region (h : error -> M St (Client W)) (k : Client W -> M St B) :
  (forall e, keeps I (h e)) -> (forall e, yields V (h e)) -> (forall c, V c -> keeps I (k c)) ->
  keeps I (c ← catch (on_snd (builder region)) h; k c).
Proof.
  intros Hh Hy Hk. apply (keeps_bind_yields _ V); [| |done].
  - apply yields_catch; [|done]. apply yields_on_snd, di_client.
  - apply keeps_catch; [apply di_builder|done].
Qed.

(** Deletion, for a property that does not mind the release. *)
Lemma inv_reconcileDelete : keeps I (release_finalizer (W := W)) -> keeps I (reconcileDelete builder).
Proof.
  intros Hrel. unfold reconcileDelete.
  apply keeps_bind; [apply inv_machine|intros m0]. cbv zeta.
  destruct (regionFromMachine m0) as [e|region]; [keeps_tac; done|].
  apply keeps_bind; [apply di_write; intros m; by case_decide|intros _].
  apply inv_with_client; [intros e; apply keeps_throw|intros e; apply yields_throw|].
  intros c Hc. apply keeps_bind; [keeps_tac; by apply inv_describe|].
  intros [info|].
  - unfold awaitTermination, deleteInstance.
    keeps_tac; first [apply inv_machine|apply inv_ready|apply inv_status|by apply di_delete].
  - unfold sweepAndRelease, cleanupOffloadedIgnition. keeps_tac; try done.
    all: first [apply inv_machine|by apply di_find|by apply di_delete|by apply di_delete_object].
Qed.
End deletion.

Section walk.
Context {W : Type} `{!MachineKube W} `{!KubeLib} `{!KubeLibLaws} `{!GoFmt}.
Context {builder : string -> M W (Client W)} {P : Machine -> Prop} {V : Client W -> Prop}.
Context {I : AlibabaCloudMachine * W -> Prop} `{HI : !ReconcileInv builder P V I}.
Abbreviation St := (AlibabaCloudMachine * W)%type.

Lemma inv_resolveFailureDomain machine cluster :
  keeps I (resolveFailureDomain (W := W) machine cluster).
Proof.
  unfold resolveFailureDomain. keeps_tac; try apply inv_machine; [|by apply inv_spec].
  apply di_write. intros m. by case_decide.
Qed.

Section with_client.
Context (c : Client W) (Hc : V c).

Lemma inv_getUserData machine m : keeps I (on_snd (getUserData machine m)).
Proof.
  unfold getUserData. destruct (userDataSecretName _ _); [|apply keeps_on_snd_ret].
  apply keeps_on_snd_bind; [apply keeps_on_snd_wrap, ri_secret|intros secret].
  destruct (secret !! _); [apply keeps_on_snd_ret|apply keeps_on_snd_throw].
Qed.

Lemma inv_offload cluster region ud : keeps I (maybeOffloadUserData c cluster region ud).
Proof. unfold maybeOffloadUserData. keeps_tac; [by apply ri_put|apply inv_status]. Qed.

Lemma inv_harden machine id : keeps I (maybeHardenMetadata c machine id).
Proof.
  unfold maybeHardenMetadata.
  keeps_tac; try apply inv_machine; [by apply ri_metadata|apply inv_status].
Qed.

Lemma inv_findInstance machine cluster id : keeps I (findInstance c machine cluster id).
Proof.
  unfold findInstance. keeps_tac; try apply inv_machine; try by apply inv_describe.
  all: try apply inv_harden.
  all: apply di_write; intros m; try done. by destruct (spec_ProviderID (acm_Spec m)).
Qed.

Lemma inv_createInstance machine cluster :
  P machine -> cspec_Region (acc_Spec cluster) <> "" -> keeps I (createInstance c machine cluster).
Proof.
  intros HP Hreg. apply keeps_of_wp. intros [m w] Hs.
  unfold createInstance, machine_of, update_machine. wp_go.
  pose proof (inv_getUserData machine m (m, w) Hs) as HI1. unfold on_snd in HI1.
  wp_call as [ud|e|p] w1 eqn E; cbn in HI1; [|done..]. case_decide; [by wp_go|]. wp_go.
  set (region := resolveRegion m (Some cluster)).
  assert (region <> "") as Hne by (subst region; unfold resolveRegion; by case_decide).
  set (m1 := if decide _ then _ else m).
  assert (I (m1, w1)) as HI2.
  { apply (di_write (fun m => if decide (spec_RegionID (acm_Spec m) = "")
      then set_spec (fun s => s <| spec_RegionID := region |>) m else m)) in HI1; [done|].
    intros m'. by case_decide. }
  assert (spec_RegionID (acm_Spec m1) = region) as Hm1.
  { subst m1 region. unfold resolveRegion. repeat case_decide; done. }
  eapply wp_mono; [apply wp_and; [apply keeps_wp; [apply inv_offload|exact HI2]|
    apply maybeOffloadUserData_spec_same]|].
  intros r [m2 w2] [HI3 [Hspec _]]. cbn in Hspec. destruct r as [ud'|e|p]; [|done..]. wp_go.
  rewrite <- Hspec in Hm1. wp_call as r w3 eqn Ec.
  assert (I (m2, w3)) as HI4.
  { change w3 with (r, w3).2. rewrite <- Ec, <- Hm1. apply ri_create; [done..|congruence|done]. }
  destruct r as [resp|e|p]; wp_go; [|done..].
  lazymatch goal with |- I (set_status ?f (set_spec ?g _), _) =>
    by refine (di_write (fun m => set_status f (set_spec g m)) _ (m2, w3) HI4) end.
Qed.
End with_client.

Ltac inv_step :=
  first [ apply inv_machine | apply inv_ready | apply inv_status | apply inv_finalizer
        | apply inv_resolveFailureDomain | apply keeps_ret | apply keeps_throw ].

(** The reconcile of a live machine, from its first write on: that write adds
    the finalizer. *)
Lemma inv_provision machine cluster :
  P machine -> cspec_Region (acc_Spec cluster) <> "" ->
  forall m w, I (set_finalizers (fun l => AddFinalizer l MachineFinalizer) m, w) ->
  wp (reconcileNormal builder machine cluster) (m, w) (fun _ s' => I s').
Proof.
  intros HP Hreg m w Hs. unfold reconcileNormal. apply wp_bind. unfold update_machine at 1.
  apply wp_on_fst, wp_modify. apply keeps_wp; [|exact Hs]. unfold setFailed.
  destruct (negb _); [keeps_tac; inv_step|].
  apply keeps_bind; [inv_step|intros m0]. case_decide; [keeps_tac; inv_step|].
  apply keeps_bind; [keeps_tac; inv_step|intros _].
  apply keeps_bind; [inv_step|intros m1]. cbv zeta. apply inv_with_client.
  - intros e. keeps_tac; inv_step.
  - intros e. apply yields_bind. intros _. apply yields_throw.
  - intros c Hc. unfold findOrCreateInstance.
    keeps_tac; first [inv_step|by apply inv_findInstance|by apply inv_createInstance].
Qed.

Lemma inv_reconcileNormal machine cluster :
  P machine -> cspec_Region (acc_Spec cluster) <> "" ->
  keeps I (reconcileNormal builder machine cluster).
Proof.
  intros HP Hreg. apply keeps_of_wp. intros [m w] Hs. apply inv_provision; [done..|].
  by apply (inv_finalizer (m, w)).
Qed.

(** A whole reconcile, given what deletion does. *)
Lemma inv_reconcileMachine :
  keeps I (reconcileDelete builder) -> keeps I (reconcileMachine builder).
Proof.
  intros Hdel. apply keeps_of_wp. intros [m w] Hs. unfold reconcileMachine, machine_of. wp_go.
  destruct (negb _); [by apply keeps_wp|]. wp_go.
  pose proof (ri_owner (acm_ObjectMeta m) _ Hs) as Hs1. unfold on_snd in Hs1.
  wp_call as [[machine|]|e|p] w1 eqn E; cbn in Hs1; [|done..].
  pose proof (ri_owner_ok _ _ _ _ Hs E) as Hm. apply keeps_wp; [|exact Hs1].
  apply keeps_bind; [apply keeps_wrap, ri_cluster|intros [cluster|]]; [|apply keeps_ret].
  destruct (IsPaused _ _); [apply keeps_ret|].
  eapply keeps_bind_yields;
    [apply yields_wrap, yields_on_snd, ri_infra_ok|apply keeps_wrap, ri_infra|].
  intros infra Hr. by apply inv_reconcileNormal.
Qed.
End walk.

(** ** The top of a reconcile *)

(** A reconcile either ends before the handlers run, having read at most, or is
    the run of the handlers on the object that was read, and then the patch. *)
Lemma Reconcile_run {W} `{!MachineKube W} `{!KubeLib} `{!GoFmt} builder req (w : W) :
  (exists m0 w1 w2, get_AlibabaCloudMachine req w = (Ok m0, w1) /\ patch_NewHelper m0 w1 = (Ok (), w2) /\
     let s' := (reconcileMachine builder (m0, w2)).2 in
     (Reconcile builder req w).2 = (patch_Patch m0 s'.1 [ReadyCondition] s'.2).2) \/
  (Reconcile builder req w).2 = (get_AlibabaCloudMachine req w).2 \/
  exists m0 w1, get_AlibabaCloudMachine req w = (Ok m0, w1) /\
    (Reconcile builder req w).2 = (patch_NewHelper m0 w1).2.
Proof.
  unfold Reconcile. destruct (get_AlibabaCloudMachine req w) as [[m0|e|p] w1] eqn:Eg;
    [|right; left; by repeat case_match..].
  destruct (patch_NewHelper m0 w1) as [[[]|e|p] w2] eqn:Eh;
    [|right; right; exists m0, w1; by rewrite Eh..].
  left. exists m0, w1, w2. split_and!; [done|done|].
  destruct (reconcileMachine builder (m0, w2)) as [r [m' w3]]. cbn.
  by destruct (patch_Patch m0 m' [ReadyCondition] w3) as [[[]|e|p] w4].
Qed.

(** ** Properties of the machine and the cloud *)

(** No tag of the spec has the reserved key. *)
Definition tags_ok (m : AlibabaCloudMachine) : Prop :=
  Forall (fun t => tag_Key t <> MachineNameTagKey) (spec_Tags (acm_Spec m)).

Lemma createParams_tags machine cluster m region image ud :
  cip_Tags (createParams machine cluster m region image ud) =
    toSDKTags (spec_Tags (acm_Spec m)) (mach_Name machine) (acc_Name cluster) /\
  cip_RegionID (createParams machine cluster m region image ud) = region.
Proof. unfold createParams. by destruct (resolveMetadataOptions _) as [[??]?]. Qed.

(** What the Kubernetes side gives a reconcile: its calls do not touch the
    cloud, and the objects have the names and regions Kubernetes requires of
    them. *)
Class KubeEffects {W} `{!MachineKube W} (cloud_of : W -> Cloud) : Prop := {
  ke_secret k cl : keeps (fun w => cloud_of w = cl) (get_Secret k);
  ke_machine k cl : keeps (fun w => cloud_of w = cl) (get_AlibabaCloudMachine k);
  ke_infra k cl : keeps (fun w => cloud_of w = cl) (get_AlibabaCloudCluster k);
  ke_infra_ok k : yields (fun c => cspec_Region (acc_Spec c) <> "") (get_AlibabaCloudCluster k);
  ke_owner om cl : keeps (fun w => cloud_of w = cl) (GetOwnerMachine om);
  ke_owner_ok om : yields (fun m => forall machine, m = Some machine -> mach_Name machine <> "")
                     (GetOwnerMachine om);
  ke_cluster om cl : keeps (fun w => cloud_of w = cl) (GetClusterFromMetadata om);
  ke_helper m cl : keeps (fun w => cloud_of w = cl) (patch_NewHelper m);
  ke_patch o m owned cl : keeps (fun w => cloud_of w = cl) (patch_Patch o m owned);
}.

(** The builder makes clients whose effects are those of the interface. *)
Class BuilderEffects {W} (cloud_of : W -> Cloud) (builder : string -> M W (Client W)) : Prop := {
  be_client region : yields (ClientEffects cloud_of) (builder region);
  be_cloud region cl : keeps (fun w => cloud_of w = cl) (builder region);
}.

(** A property of the machine and the instances that settling instances, the
    writes of a reconcile and the release of the finalizer keep; and that the
    appearance of the machine's instance keeps. *)
Class CloudSettles (K : AlibabaCloudMachine -> Cloud -> Prop) : Prop := {
  ci_settles m cl cl' : settles cl cl' -> K m cl -> K m cl';
  ci_write f m cl : writes f -> K m cl -> K (f m) cl;
  ci_release `{!KubeLib} m cl : K m cl -> K (set_finalizers (fun l => RemoveFinalizer l MachineFinalizer) m) cl;
}.

Class CloudInv (P : Machine -> Prop) (K : AlibabaCloudMachine -> Cloud -> Prop) : Prop := {
  ci_settling :: CloudSettles K;
  ci_appears machine m cname cl cl' :
    P machine -> spec_RegionID (acm_Spec m) <> "" ->
    appears (spec_RegionID (acm_Spec m)) (mach_Name machine)
      (toSDKTags (spec_Tags (acm_Spec m)) (mach_Name machine) cname) cl cl' ->
    K m cl -> K m cl';
}.

Definition of_cloud {W} (cloud_of : W -> Cloud) (K : AlibabaCloudMachine -> Cloud -> Prop)
    (s : AlibabaCloudMachine * W) : Prop := K s.1 (cloud_of s.2).

Section cloud.
Context {W : Type} (builder : string -> M W (Client W)) (cloud_of : W -> Cloud).
Context `{!BuilderEffects cloud_of builder}.
Context (K : AlibabaCloudMachine -> Cloud -> Prop) `{!CloudSettles K}.

Lemma quiet_of_cloud {A} (c : M W A) :
  (forall cl, keeps (fun w => cloud_of w = cl) c) -> keeps (of_cloud cloud_of K) (on_snd c).
Proof.
  intros Hc [m w] Hs. unfold on_snd, of_cloud in *. specialize (Hc _ w eq_refl).
  destruct (c w) as [r w']. cbn in *. by rewrite Hc.
Qed.

Lemma same_of_cloud {A} (c : M W A) :
  (forall w r w', c w = (r, w') -> cloud_of w' = cloud_of w) -> keeps (of_cloud cloud_of K) (on_snd c).
Proof.
  intros Hc. apply quiet_of_cloud. intros cl w Hw. specialize (Hc w).
  destruct (c w) as [r w']. cbn. by rewrite (Hc r w').
Qed.

Lemma release_of_cloud `{!KubeLib} : keeps (of_cloud cloud_of K) (release_finalizer (W := W)).
Proof. intros [m w] Hs. by apply ci_release. Qed.

#[export] Instance cloud_DeleteInv : DeleteInv builder (ClientEffects cloud_of) (of_cloud cloud_of K).
Proof.
  split.
  - intros region. apply quiet_of_cloud, be_cloud.
  - apply be_client.
  - intros c id Hc. apply same_of_cloud. intros w r w'. apply describe_effect.
  - intros c rg k v Hc. apply same_of_cloud. intros w r w'. apply find_effect.
  - intros c id force Hc [m w] Hs. unfold on_snd, of_cloud in *.
    destruct (DeleteECSInstance c id force w) as [r w'] eqn:E.
    eapply ci_settles; [by eapply delete_effect|done].
  - intros c p Hc. apply same_of_cloud. intros w r w'. apply delete_ignition_effect.
  - intros f Hf [m w] Hs. by apply ci_write.
Qed.

Lemma delete_of_cloud `{!KubeLib} `{!KubeLibLaws} `{!GoFmt} :
  keeps (of_cloud cloud_of K) (reconcileDelete builder).
Proof. apply inv_reconcileDelete, release_of_cloud. Qed.
End cloud.

Section reconcile.
Context {W : Type} `{!MachineKube W} (builder : string -> M W (Client W)) (cloud_of : W -> Cloud).
Context `{!KubeEffects cloud_of} `{!BuilderEffects cloud_of builder}.
Context (P : Machine -> Prop) (K : AlibabaCloudMachine -> Cloud -> Prop) `{!CloudInv P K}.
Context (HP : forall om, yields (fun m => forall machine, m = Some machine -> P machine) (GetOwnerMachine om)).
Context (Hname : forall machine, P machine -> mach_Name machine <> "").

Lemma cloud_ReconcileInv : ReconcileInv builder P (ClientEffects cloud_of) (of_cloud cloud_of K).
Proof.
  split; [by apply cloud_DeleteInv, ci_settling|..]; try (intros; apply quiet_of_cloud; intros cl;
    first [apply ke_secret|apply ke_owner|apply ke_cluster|apply ke_infra]).
  - intros m w machine w' _ E. by eapply HP.
  - apply ke_infra_ok.
  - intros c id e t h Hc. apply same_of_cloud. intros w r w'. apply metadata_effect.
  - intros c p Hc. apply same_of_cloud. intros w r w'. apply put_ignition_effect.
  - intros c machine cluster image ud m w Hc Hm Hr Hs. unfold of_cloud in *. cbn in *.
    destruct (createParams_tags machine cluster m (spec_RegionID (acm_Spec m)) image ud) as [Ht Hg].
    destruct (CreateECSInstance c _ w) as [r w'] eqn:E. cbn.
    apply create_effect in E; rewrite ?Ht, ?Hg, ?machineTag_toSDKTags in *; [|auto..].
    destruct E as [->|E]; [done|]. by eapply ci_appears.
Qed.

Lemma reconcile_of_cloud `{!KubeLib} `{!KubeLibLaws} `{!GoFmt} :
  keeps (of_cloud cloud_of K) (reconcileMachine builder).
Proof.
  pose proof cloud_ReconcileInv. apply inv_reconcileMachine, delete_of_cloud; apply _.
Qed.
End reconcile.
