(* ===== verification/Uniqueness.v ===== *)
(** * One instance per machine

    At most one live instance has a machine's tag, as a property of the cloud
    ([unique]); what keeps it: the environment's drift, the SDK calls, the
    client's operations, and a whole reconcile run by itself ([system_unique],
    for any client).  The tag is looked up before each creation, so lost writes,
    retries and unanswered requests do not matter.  [ConcurrentMachines] has the
    same of reconciles that run at the same time. *)

From S2P Require Import Api ProviderID CloudClient Retry EcsSdk Oss SimSdk Capi Credential Ignition.
From S2P Require Import MachineController SimClient MachineNormal MachineInvariant.

(** ** The cloud *)

(** In every region, every machine tag is on at most one live instance. *)
Definition unique (cl : Cloud) : Prop :=
  forall region name id1 id2 i1 i2,
    cl !! id1 = Some i1 -> live_tagged region MachineNameTagKey name i1 ->
    cl !! id2 = Some i2 -> live_tagged region MachineNameTagKey name i2 -> id1 = id2.

(** The environment starts, stops and deletes instances and creates instances
    of its own; it does not put a machine tag on any, nor bring one back. *)
Definition drifts (cl cl' : Cloud) : Prop :=
  forall id i', cl' !! id = Some i' ->
    (exists i, cl !! id = Some i /\ ci_Region i' = ci_Region i /\ ci_Tags i' = ci_Tags i /\
       (ci_Status i = InstanceStateDeleted -> ci_Status i' = InstanceStateDeleted)) \/
    forall name, mkSDKTag MachineNameTagKey name ∉ ci_Tags i'.

Lemma settles_drifts cl cl' : settles cl cl' -> drifts cl cl'.
Proof. intros H id i' Hi. left. by apply H. Qed.

Lemma unique_drifts cl cl' : drifts cl cl' -> unique cl -> unique cl'.
Proof.
  intros Hd Hu region name id1 id2 i1 i2 H1 L1 H2 L2.
  assert (forall id i, cl' !! id = Some i -> live_tagged region MachineNameTagKey name i ->
    exists i0, cl !! id = Some i0 /\ live_tagged region MachineNameTagKey name i0) as Hback.
  { intros id i Hi (Hr & Ht & Hs).
    destruct (Hd _ _ Hi) as [(i0 & Hi0 & Er & Et & Es)|Hno]; [|by destruct (Hno name)].
    exists i0. split; [done|]. split_and!; [congruence|by rewrite <- Et|auto]. }
  destruct (Hback _ _ H1 L1) as (j1 & Hj1 & M1). destruct (Hback _ _ H2 L2) as (j2 & Hj2 & M2).
  by eapply Hu.
Qed.

(** Only the machine's own name is a machine tag in the list. *)
Definition tagged_only (name : string) (tags : list SDKTag) : Prop :=
  forall v, mkSDKTag MachineNameTagKey v ∈ tags -> v = name.

Lemma unique_appears region name tags cl cl' :
  appears region name tags cl cl' -> tagged_only name tags -> unique cl -> unique cl'.
Proof.
  intros (Hno & id & i & Hid & Hr & Ht & ->) Honly Hu rg nm id1 id2 i1 i2 H1 L1 H2 L2.
  assert (forall id' i', cl !! id' = Some i' -> live_tagged rg MachineNameTagKey nm i' ->
    live_tagged rg MachineNameTagKey nm i -> False) as Hold.
  { intros id' i' Hi' Hl (Er & Et & _). rewrite Ht in Et. apply Honly in Et as ->.
    apply (Hno id' i' Hi'). by rewrite <- Hr, Er. }
  apply lookup_insert_Some in H1 as [[<- <-]|[_ H1]];
    apply lookup_insert_Some in H2 as [[<- <-]|[_ H2]]; [done| | |by eapply Hu].
  - by destruct (Hold _ _ H2 L2 L1).
  - by destruct (Hold _ _ H1 L1 L2).
Qed.

(** ** The machine's tags *)

Lemma toSDKTags_only tags name cluster :
  Forall (fun t => tag_Key t <> MachineNameTagKey) tags ->
  tagged_only name (toSDKTags tags name cluster).
Proof.
  intros Ht v. unfold toSDKTags. rewrite !elem_of_cons. intros [[=]|[[= ->]|Hin]]; [done|].
  apply list_elem_of_fmap in Hin as (t & [= Hk _] & Hin). rewrite list.Forall_forall in Ht.
  by destruct (Ht t Hin).
Qed.

(** ** The controller *)

Section controller.
Context {W : Type} `{!MachineKube W} `{!KubeLib} `{!KubeLibLaws} `{!GoFmt} (cloud_of : W -> Cloud).
Context `{!KubeEffects cloud_of}.
Context (builder : string -> M W (Client W)) `{!BuilderEffects cloud_of builder}.

(** No machine that is read carries the reserved tag. *)
Context (Htags : forall k, yields tags_ok (get_AlibabaCloudMachine k)).

(** The invariant along one reconcile. *)
Definition sole (m : AlibabaCloudMachine) (cl : Cloud) : Prop := tags_ok m /\ unique cl.

#[export] Instance sole_inv : CloudInv (fun machine => mach_Name machine <> "") sole.
Proof.
  split; [split|].
  - intros m cl cl' Hs [Ht Hu]. split; [done|]. eapply unique_drifts; [|done]. by apply settles_drifts.
  - intros f m cl Hf [Ht Hu]. split; [|done]. unfold tags_ok. by destruct (Hf m) as (_ & -> & _).
  - intros ? m cl [Ht Hu]. by split.
  - intros machine m cname cl cl' Hn Hr Happ [Ht Hu]. split; [done|].
    eapply unique_appears; [done| |done]. by apply toSDKTags_only.
Qed.

Lemma sole_reconcileMachine : keeps (of_cloud cloud_of sole) (reconcileMachine builder).
Proof.
  exact (reconcile_of_cloud builder cloud_of (fun machine => mach_Name machine <> "") sole
           ke_owner_ok (fun machine Hm => Hm)).
Qed.

Lemma unique_Reconcile req : keeps (fun w => unique (cloud_of w)) (Reconcile builder req).
Proof.
  intros w Hu. pose proof (ke_machine req _ w eq_refl) as Hget. cbn in Hget.
  destruct (Reconcile_run builder req w) as [(m0 & w1 & w2 & Eg & Eh & ->)|[->|(m0 & w1 & Eg & ->)]].
  - rewrite Eg in Hget. pose proof (ke_helper m0 _ w1 eq_refl) as Hh. rewrite Eh in Hh. cbn in *.
    assert (sole m0 (cloud_of w2)) as Hs.
    { split; [|by rewrite Hh, Hget]. by eapply Htags. }
    apply (sole_reconcileMachine (m0, w2)) in Hs as [_ Hs]. by rewrite (ke_patch _ _ _ _ _ eq_refl).
  - by rewrite Hget.
  - rewrite Eg in Hget. cbn in Hget. by rewrite (ke_helper m0 _ w1 eq_refl), Hget.
Qed.

(** ** The system *)

(** One reconcile of some machine, whatever it returns, or one step of the
    environment. *)
Inductive system_step : W -> W -> Prop :=
  | step_reconcile req w : system_step w (Reconcile builder req w).2
  | step_environment w w' : drifts (cloud_of w) (cloud_of w') -> system_step w w'.

(** The system keeps the invariant, whatever the client, as long as it keeps the
    promises of the interface. *)
Lemma system_unique w0 w :
  unique (cloud_of w0) -> rtc system_step w0 w -> unique (cloud_of w).
Proof.
  intros Hu Hrtc. induction Hrtc as [w|w1 w2 w3 Hstep _ IH]; [done|]. apply IH.
  destruct Hstep as [req w|w w' Hd]; [by apply unique_Reconcile|by eapply unique_drifts].
Qed.
End controller.

(** ** The client of the program

    [alibabaClient.NewCAPIClient], which [cmd/main.go] passes as the builder,
    makes the client of [Capi] over the SDK, whose effects are those the theorem
    needs. *)

(** Building a client keeps a property of the world. *)
Class SetupKeeps {W Ecs Vpc Slb Rm} `{!Endpoints W} `{!SdkConstructors W Ecs Vpc Slb Rm}
    (I : W -> Prop) : Prop := {
  setup_endpoint r p e : keeps I (AddEndpointMapping r p e);
  setup_ecs r c cr : keeps I (ecs_NewClientWithOptions r c cr);
  setup_vpc r c cr : keeps I (vpc_NewClientWithOptions r c cr);
  setup_slb r c cr : keeps I (slb_NewClientWithOptions r c cr);
  setup_rm r c cr : keeps I (rm_NewClientWithOptions r c cr);
}.

Section program.
Context {W Ecs Vpc Slb Rm : Type} `{!GoRand W} `{!GoRandLaws W} `{!EcsSdk W} `{!OssSdk W} `{!GoFmt}
  `{!GoFloat} `{!Endpoints W} `{!SdkConstructors W Ecs Vpc Slb Rm}.
Context (version : string) (getenv : Env) (order : list (string * string)).

Definition capi_builder (regionID : string) : M (ClientState W) (Client (ClientState W)) :=
  _ ← on_world (NewCAPIClient version getenv order regionID);
  mret (capi_client getenv).

Section setup.
Context (I : W -> Prop) `{!SetupKeeps I}.

Lemma map_endpoints_keeps rg l : forall applied,
  keeps I (map_endpoints (W := W) getenv rg l applied).
Proof.
  induction l as [|[product env] l IH]; intros applied; cbn [map_endpoints]; [apply keeps_ret|].
  apply keeps_bind; [|intros ?; apply IH]. unfold map_endpoint. keeps_tac. apply setup_endpoint.
Qed.

Lemma NewCAPIClient_keeps rg : keeps I (NewCAPIClient (W := W) version getenv order rg).
Proof.
  unfold NewCAPIClient, applyApsaraOverrides. keeps_tac.
  all: first [apply map_endpoints_keeps|apply setup_ecs|apply setup_vpc|apply setup_slb|apply setup_rm].
Qed.

Lemma capi_builder_keeps rg : keeps (of_world I) (capi_builder rg).
Proof.
  unfold capi_builder. apply keeps_bind; [|intros _; apply keeps_ret].
  apply keeps_on_world, NewCAPIClient_keeps.
Qed.
End setup.

Context (cloud_of : W -> Cloud) (region : string) `{!EcsSdkLaws cloud_of region}
  `{!EcsSdkEffects cloud_of}.
Context (Hrand : forall I : Cloud -> Prop, RandKeeps (fun w => I (cloud_of w))).
Context (Hoss : forall cl, OssKeeps (fun w => cloud_of w = cl)).
Context (Hsetup : forall cl, SetupKeeps (fun w => cloud_of w = cl)).

Lemma capi_builder_effects : BuilderEffects (fun s => cloud_of (cs_world s)) capi_builder.
Proof.
  split.
  - intros rg. apply yields_bind. intros _ s c s' [= <- _].
    by apply (capi_client_effects_of getenv cloud_of region).
  - intros rg cl. apply (capi_builder_keeps (fun w => cloud_of w = cl)).
Qed.
End program.

(** ** Concrete instances *)

#[export] Instance memBuilder_effects : BuilderEffects mem_cloud memBuilder.
Proof. split; [intros region w c w' [= <- _]; apply _|by intros region cl w]. Qed.

#[export] Instance simEndpoints : Endpoints SimWorld := fun _ _ _ => mret ().
#[export] Instance simConstructors : SdkConstructors SimWorld () () () () := {|
  ecs_NewClientWithOptions _ _ _ := mret ();
  vpc_NewClientWithOptions _ _ _ := mret ();
  slb_NewClientWithOptions _ _ _ := mret ();
  rm_NewClientWithOptions _ _ _ := mret ();
|}.
#[export] Instance sim_setup (I : SimWorld -> Prop) :
  SetupKeeps (Ecs := ()) (Vpc := ()) (Slb := ()) (Rm := ()) I.
Proof. by split; intros; intros w. Qed.
