(* ===== verification/Interleaving.v ===== *)
(** * Interleaved reconciles

    The manager runs several reconciles at a time ([MaxConcurrentReconciles]),
    never two of the same object, and the cloud and the API server change under
    them.  A reconcile is atomic only call by call: between two of its calls
    anything may happen.

    [Sched W] is a world as one such reconcile sees it: each call is served in
    the next of a list of worlds the schedule chose, and the log keeps the world
    before and after each call.  The handlers need not know: the interfaces to
    the SDK and to Kubernetes are lifted from [W] to [Sched W] call by call, and
    the reconcile's code runs over them as it is.  The trace of a reconcile is
    its log; a run of the manager interleaves traces and steps of the
    environment, each call in the world the one before it left ([system_step]).

    [interleaving_sound] is the rely/guarantee principle for such runs: when
    each reconcile guarantees something of its own calls as long as it can rely
    on what happens between them, and what the others guarantee is what it
    relies on, then all the guarantees hold. *)

From S2P Require Import Api CloudClient Retry EcsSdk Oss Credential Ignition MachineController.

#[export] Instance ObjectKey_eq_dec : EqDecision ObjectKey.
Proof. solve_decision. Defined.
#[export] Instance ObjectKey_countable : Countable ObjectKey.
Proof.
  refine (inj_countable' (fun k => (key_Namespace k, key_Name k)) (fun p => mkObjectKey p.1 p.2) _).
  by intros [].
Defined.

(** ** The world as one reconcile sees it *)

Record Sched (W : Type) := mkSched {
  sch_future : list W;          (* the worlds its next calls are served in *)
  sch_log : list (W * W);       (* its calls, before and after, latest first *)
}.
#[global] Arguments mkSched {W}.
#[global] Arguments sch_future {W}.
#[global] Arguments sch_log {W}.

(** One call.  When the schedule has no more worlds the process is stopped:
    this call and all later ones are not made. *)
Definition at_call {W A} (m : M W A) : M (Sched W) A := fun s =>
  match sch_future s with
  | [] => (Panic "process stopped", s)
  | w :: future =>
      let '(r, w') := m w in (r, mkSched future ((w, w') :: sch_log s))
  end.

Section lifted.
Context {W : Type}.

#[export] Instance sched_rand `{!GoRand W} : GoRand (Sched W) := fun n => at_call (Int63n n).

#[export] Instance sched_ecs `{!EcsSdk W} : EcsSdk (Sched W) := {|
  CreateDescribeInstancesRequest := CreateDescribeInstancesRequest (W := W);
  CreateRunInstancesRequest := CreateRunInstancesRequest (W := W);
  CreateStopInstanceRequest := CreateStopInstanceRequest (W := W);
  CreateDeleteInstanceRequest := CreateDeleteInstanceRequest (W := W);
  CreateModifyInstanceMetadataOptionsRequest := CreateModifyInstanceMetadataOptionsRequest (W := W);
  ecs_DescribeInstances req := at_call (ecs_DescribeInstances req);
  ecs_RunInstances req := at_call (ecs_RunInstances req);
  ecs_StopInstance req := at_call (ecs_StopInstance req);
  ecs_DeleteInstance req := at_call (ecs_DeleteInstance req);
  ecs_ModifyInstanceMetadataOptions req := at_call (ecs_ModifyInstanceMetadataOptions req);
  ecs_DescribeInstanceTypes types := at_call (ecs_DescribeInstanceTypes types);
  ecs_DescribeDisks req := at_call (ecs_DescribeDisks req);
  ecs_DescribeNetworkInterfaces req := at_call (ecs_DescribeNetworkInterfaces req);
  ecs_TagResources req := at_call (ecs_TagResources req);
|}.

#[export] Instance sched_oss `{!OssSdk W} : OssSdk (Sched W) := {|
  OssClient := OssClient (W := W);
  OssBucket := OssBucket (W := W);
  oss_New e ak sk := at_call (oss_New e ak sk);
  oss_Bucket c b := at_call (oss_Bucket c b);
  oss_PutObject b k d := at_call (oss_PutObject b k d);
  oss_SignURL b k n := at_call (oss_SignURL b k n);
  oss_DeleteObject b k := at_call (oss_DeleteObject b k);
|}.

#[export] Instance sched_endpoints `{!Endpoints W} : Endpoints (Sched W) := fun r p e =>
  at_call (AddEndpointMapping r p e).

#[export] Instance sched_constructors {Ecs Vpc Slb Rm} `{!SdkConstructors W Ecs Vpc Slb Rm} :
  SdkConstructors (Sched W) Ecs Vpc Slb Rm := {|
  ecs_NewClientWithOptions r c cr := at_call (ecs_NewClientWithOptions r c cr);
  vpc_NewClientWithOptions r c cr := at_call (vpc_NewClientWithOptions r c cr);
  slb_NewClientWithOptions r c cr := at_call (slb_NewClientWithOptions r c cr);
  rm_NewClientWithOptions r c cr := at_call (rm_NewClientWithOptions r c cr);
|}.

#[export] Instance sched_kube `{!MachineKube W} : MachineKube (ClientState (Sched W)) := {|
  mk_reader := {| get_Secret k := on_world (at_call (get_Secret k)) |};
  get_AlibabaCloudMachine k := on_world (at_call (get_AlibabaCloudMachine k));
  get_AlibabaCloudCluster k := on_world (at_call (get_AlibabaCloudCluster k));
  GetOwnerMachine om := on_world (at_call (GetOwnerMachine om));
  GetClusterFromMetadata om := on_world (at_call (GetClusterFromMetadata om));
  IsPaused := IsPaused (W := W);
  patch_NewHelper m := on_world (at_call (patch_NewHelper m));
  patch_Patch o m owned := on_world (at_call (patch_Patch o m owned));
|}.
End lifted.

(** ** One call *)

Lemma wp_at_call {W A} (m : M W A) s (Q : result A -> Sched W -> Prop) :
  Q (Panic "process stopped") s ->
  (forall b r a future, m b = (r, a) -> Q r (mkSched future ((b, a) :: sch_log s))) ->
  wp (at_call m) s Q.
Proof.
  intros Hstop Hrun. unfold wp, at_call. destruct (sch_future s) as [|w future]; [done|].
  destruct (m w) eqn:E. by apply Hrun.
Qed.

(** ** Rely and guarantee along a log *)

Section rely.
Context {W : Type} (rely : W -> W -> Prop).
Implicit Types (log : list (W * W)) (s : Sched W).

(** What happened between the calls is what the reconcile relies on. *)
Fixpoint relied log : Prop :=
  match log with
  | (b, _) :: ((_, a) :: _) as l => rely a b /\ relied l
  | _ => True
  end.

Lemma relied_cons b a log :
  relied ((b, a) :: log) <->
  match log with [] => True | (_, a') :: _ => rely a' b end /\ relied log.
Proof. destruct log as [|[b' a'] log]; cbn; tauto. Qed.

(** A property of the world that held after the last call, if what came before
    can be relied on. *)
Definition latest (P : W -> Prop) s : Prop :=
  match sch_log s with
  | [] => False
  | (b, a) :: _ => relied (sch_log s) -> P a
  end.

(** Calls keep it, if they keep a property that the reconcile relies on. *)
Lemma latest_cons P b a log future future' :
  (forall w w', rely w w' -> P w -> P w') -> (P b -> P a) ->
  latest P (mkSched future log) -> latest P (mkSched future' ((b, a) :: log)).
Proof.
  intros Hrely Hcall Hs. unfold latest in *. cbn [sch_log] in *.
  destruct log as [|[b' a'] log]; [done|]. intros Hr. apply relied_cons in Hr as [Hr1 Hr2].
  apply Hcall, (Hrely a' b Hr1), (Hs Hr2).
Qed.
End rely.

Section guarantee.
Context {W : Type} (rely guar : W -> W -> Prop).
Implicit Types (log : list (W * W)) (s : Sched W).

(** Each call keeps the guarantee, if what happened before it could be relied
    on. *)
Fixpoint log_ok log : Prop :=
  match log with
  | [] => True
  | (b, a) :: l => (relied rely log -> guar b a) /\ log_ok l
  end.

Lemma log_ok_app_r l1 l2 : log_ok (l1 ++ l2) -> log_ok l2.
Proof. induction l1 as [|[b a] l1 IH]; [done|]. intros [_ H]. auto. Qed.

Definition guaranteed s : Prop := log_ok (sch_log s).

Lemma keeps_at_call {A} (m : M W A) :
  (forall w r w', m w = (r, w') -> guar w w') -> keeps guaranteed (at_call m).
Proof.
  intros Hm. apply keeps_of_wp. intros s Hs. apply wp_at_call; [done|].
  intros b r a future E. split; [|done]. intros _. by eapply Hm.
Qed.
End guarantee.

(** ** The system *)

Section system.
Context {W R : Type} (prog : ObjectKey -> M (ClientState (Sched W)) R) (env : W -> W -> Prop).

(** The calls of a reconcile under a schedule, in order. *)
Definition trace (k : ObjectKey) (metrics : Metrics.Metrics) (future : list W) : list (W * W) :=
  reverse (sch_log (cs_world (prog k (mkClientState (mkSched future []) metrics [])).2)).

(** The world, and the calls each running reconcile has still to make.  A
    reconcile starts when none of its object is running, with any schedule; it
    makes its next call when the world is the one its schedule foresaw; it may
    stop at any point. *)
Abbreviation System := (W * gmap ObjectKey (list (W * W)))%type.

Inductive system_step : System -> System -> Prop :=
  | step_start w T k metrics future :
      T !! k = None -> system_step (w, T) (w, <[k := trace k metrics future]> T)
  | step_call w T k w' rest :
      T !! k = Some ((w, w') :: rest) -> system_step (w, T) (w', <[k := rest]> T)
  | step_stop w T k : system_step (w, T) (w, delete k T)
  | step_env w T w' : env w w' -> system_step (w, T) (w', T).

(** Turns of running reconciles, each served in the world it foresaw. *)
Definition advance (x : System) (k : ObjectKey) : System :=
  match x.2 !! k with
  | Some ((_, w') :: rest) => (w', <[k := rest]> x.2)
  | _ => x
  end.

Fixpoint enabled (x : System) (turns : list ObjectKey) : Prop :=
  match turns with
  | [] => True
  | k :: turns =>
      match x.2 !! k with
      | Some ((w, _) :: _) => w = x.1
      | _ => False
      end /\ enabled (advance x k) turns
  end.

#[export] Instance enabled_dec `{!EqDecision W} x turns : Decision (enabled x turns).
Proof.
  revert x. induction turns as [|k turns IH]; intros x; cbn; [apply _|].
  destruct (x.2 !! k) as [[|[w w'] rest]|]; apply _.
Defined.

Lemma enabled_steps turns : forall x,
  enabled x turns -> rtc system_step x (fold_left advance turns x).
Proof.
  induction turns as [|k turns IH]; intros [w T]; cbn; [done|]. intros [Hk Ht].
  eapply rtc_l; [|by apply IH]. unfold advance. cbn in *.
  destruct (T !! k) as [[|[b a] rest]|] eqn:E; [done| |done]. subst b. by apply step_call.
Qed.

Context (rely guar : ObjectKey -> W -> W -> Prop) (Inv : W -> Prop).
Context `{!forall k, PreOrder (rely k)}.
Context (Hprog : forall k metrics future,
  guaranteed (rely k) (guar k)
    (cs_world (prog k (mkClientState (mkSched future []) metrics [])).2)).
Context (Hothers : forall k k' w w', k <> k' -> guar k w w' -> rely k' w w').
Context (Henv : forall k w w', env w w' -> rely k w w').
Context (Hguar : forall k w w', guar k w w' -> Inv w -> Inv w').
Context (Hinv_env : forall w w', env w w' -> Inv w -> Inv w').

(** A running reconcile: what it has done could be relied on, up to now. *)
Definition running (w : W) (k : ObjectKey) (rest : list (W * W)) : Prop :=
  exists done, log_ok (rely k) (guar k) (reverse rest ++ done) /\ relied (rely k) done /\
    match done with [] => True | (_, a) :: _ => rely k a w end.

Definition good (x : System) : Prop := Inv x.1 /\ map_Forall (running x.1) x.2.

Lemma running_rely w w' k rest : rely k w w' -> running w k rest -> running w' k rest.
Proof.
  intros Hr (done & Hok & Hrel & Hlast). exists done. split_and!; [done..|].
  destruct done as [|[b a] done]; [done|]. by etransitivity.
Qed.

Lemma good_step x y : system_step x y -> good x -> good y.
Proof.
  intros [w T k metrics future Hk|w T k w' rest Hk|w T k|w T w' He] [HI HT]; split; cbn in *.
  - done.
  - apply map_Forall_insert_2; [|done]. exists []. split_and!; [|done..].
    unfold trace. rewrite reverse_involutive, app_nil_r. apply Hprog.
  - destruct (HT k _ Hk) as (done & Hok & Hrel & Hlast).
    rewrite reverse_cons, <- app_assoc in Hok. apply log_ok_app_r in Hok as [Hg _].
    apply (Hguar k w); [|done]. by apply Hg, relied_cons.
  - destruct (HT k _ Hk) as (done & Hok & Hrel & Hlast).
    assert (relied (rely k) ((w, w') :: done)) as Hrel'.
    { by apply relied_cons. }
    rewrite reverse_cons, <- app_assoc in Hok.
    pose proof (log_ok_app_r _ _ _ _ Hok) as [Hg _]. specialize (Hg Hrel').
    apply map_Forall_lookup. intros k' rest' [[<- <-]|[Hne Hk']]%lookup_insert_Some.
    + exists ((w, w') :: done). split_and!; [done..|reflexivity].
    + apply (running_rely w); [|by apply HT]. apply (Hothers k); [done|by apply Hg].
  - done.
  - by apply map_Forall_delete.
  - by eapply Hinv_env.
  - intros k rest Hk. apply (running_rely w); [by apply Henv|by apply HT].
Qed.

(** Rely/guarantee: the invariant holds in every state the system reaches. *)
Lemma interleaving_sound w0 w T :
  Inv w0 -> rtc system_step (w0, ∅) (w, T) -> Inv w.
Proof.
  intros HI Hrtc. assert (good (w0, ∅)) as Hg by (split; [done|apply map_Forall_empty]).
  change (Inv (w, T).1). revert Hg Hrtc. generalize (w0, ∅ : gmap ObjectKey (list (W * W))) (w, T).
  intros x y Hg Hrtc. induction Hrtc as [x|x y z Hstep _ IH]; [apply Hg|]. by eapply IH, good_step.
Qed.
End system.
