(* ===== verification/ConcurrentMachines.v ===== *)
(** * One instance per machine, with reconciles interleaved

    [Uniqueness] runs the reconciles one after another.  Here they run at the
    same time, call by call ([Interleaving]), under an environment that changes
    the instances between any two calls.  The code prevents a second instance
    by looking for the first before it creates one; between the two calls it
    relies on nobody else giving an instance its machine's tag, which holds
    because the queue never runs two reconciles of one object and two objects
    have owners of different names. *)

From S2P Require Import Api ProviderID CloudClient Retry EcsSdk Oss SimSdk Capi Credential Ignition.
From S2P Require Import MachineController SimClient MachineNormal MachineInvariant Uniqueness Interleaving.

(** ** What a reconcile relies on and guarantees *)

Section client.
Context {W : Type} `{!GoRand W} `{!EcsSdk W} `{!OssSdk W} `{!GoFmt} `{!GoFloat} (getenv : Env).
Context (cloud_of : W -> Cloud) (region : string) `{!EcsSdkLaws cloud_of region}
  `{!EcsSdkEffects cloud_of}.
Abbreviation at_cloud cl := (fun w => cloud_of w = cl).
Context (Hrand : forall cl, RandKeeps (at_cloud cl)) (Hoss : forall cl, OssKeeps (at_cloud cl)).

(** Nobody else gives an instance the tag of the machine [name]. *)
Definition relies (name : string) (w w' : W) : Prop := no_new name (cloud_of w) (cloud_of w').

(** A call gives no instance a machine tag, or it creates the instance of the
    machine [name] where there is none. *)
Definition guarantees (name : string) (w w' : W) : Prop :=
  (forall n, no_new n (cloud_of w) (cloud_of w')) \/
  name <> "" /\
  exists rg tags, tagged_only name tags /\ appears rg name tags (cloud_of w) (cloud_of w').

#[export] Instance relies_preorder name : PreOrder (relies name).
Proof.
  unfold relies. split; [by intros w|]. intros w1 w2 w3 H12 H23. by transitivity (cloud_of w2).
Qed.

Lemma guarantees_relies name n w w' :
  (name = n -> name = "") -> guarantees name w w' -> relies n w w'.
Proof.
  intros Hne [Hn|(Hname & rg & tags & Ht & _ & id & i & Hid & _ & Hi & E)]; [by apply Hn|].
  unfold relies. rewrite E. intros id' i' rg' Hi' Hl.
  apply lookup_insert_Some in Hi' as [[<- <-]|[_ Hi']]; [|by exists i'].
  destruct Hl as (_ & Hl & _). rewrite Hi in Hl. apply Ht in Hl. by destruct Hname; apply Hne.
Qed.

Lemma unique_no_new cl cl' : (forall n, no_new n cl cl') -> unique cl -> unique cl'.
Proof.
  intros Hn Hu rg name id1 id2 i1 i2 H1 L1 H2 L2.
  destruct (Hn name _ _ _ H1 L1) as (j1 & ? & ?). destruct (Hn name _ _ _ H2 L2) as (j2 & ? & ?).
  by eapply Hu.
Qed.

Lemma drifts_no_new cl cl' n : drifts cl cl' -> no_new n cl cl'.
Proof.
  intros Hd id i rg Hi (Hr & Ht & Hs).
  destruct (Hd _ _ Hi) as [(i0 & Hi0 & Er & Et & Es)|Hno]; [|by destruct (Hno n)].
  exists i0. split; [done|]. split_and!; [congruence|by rewrite <- Et|auto].
Qed.

Lemma guarantees_unique name w w' :
  guarantees name w w' -> unique (cloud_of w) -> unique (cloud_of w').
Proof.
  intros [Hn|(_ & rg & tags & Ht & Ha)]; [by apply unique_no_new|by eapply unique_appears].
Qed.

Context (name : string).

(** The log of a reconcile of the machine [name]. *)
Definition sound : Sched W -> Prop := guaranteed (relies name) (guarantees name).

(** No live instance of the machine in the region, when the last call returned. *)
Definition clear (rg : string) : Sched W -> Prop :=
  latest (relies name) (fun w => forall id i, cloud_of w !! id = Some i ->
    ~ live_tagged rg MachineNameTagKey name i).

(** Calls that leave the instances as they are, or let them settle. *)
Lemma quiet_call {A} (m : M W A) : (forall cl, keeps (at_cloud cl) m) -> keeps sound (at_call m).
Proof.
  intros Hm. apply keeps_at_call. intros w r w' E. left. specialize (Hm _ w eq_refl).
  rewrite E in Hm. cbn in Hm. by rewrite Hm.
Qed.

Lemma settling_call {A} (m : M W A) :
  (forall cl, keeps (fun w => settles cl (cloud_of w)) m) -> keeps sound (at_call m).
Proof.
  intros Hm. apply keeps_at_call. intros w r w' E. left. intros n. apply settles_no_new.
  specialize (Hm _ w (reflexivity _)). by rewrite E in Hm.
Qed.

Lemma clear_cons rg b a log future future' :
  no_new name (cloud_of b) (cloud_of a) ->
  clear rg (mkSched future log) -> clear rg (mkSched future' ((b, a) :: log)).
Proof.
  intros Hba Hc. apply (latest_cons _ _ _ _ _ future); [| |exact Hc].
  - intros w w' Hr Hno id i Hi Hl. destruct (Hr _ _ _ Hi Hl) as (j & Hj & Hlj). by apply (Hno id j).
  - intros Hno id i Hi Hl. destruct (Hba _ _ _ Hi Hl) as (j & Hj & Hlj). by apply (Hno id j).
Qed.

Lemma quiet_clear {A} (m : M W A) rg :
  (forall cl, keeps (at_cloud cl) m) -> keeps (clear rg) (at_call m).
Proof.
  intros Hm. apply keeps_of_wp. intros [f log] Hc. apply wp_at_call; [done|].
  intros b r a future E. specialize (Hm _ b eq_refl). rewrite E in Hm. cbn in Hm.
  apply (clear_cons _ _ _ _ f); [by rewrite Hm|done].
Qed.

#[local] Instance sound_rand : RandKeeps sound.
Proof. intros n. apply quiet_call. intros cl. apply Hrand. Qed.
#[local] Instance sound_list : ListKeeps sound.
Proof. split; [apply _|]. intros req. apply quiet_call. intros cl. apply sdk_describe_keeps. Qed.
#[local] Instance sound_tag : TagKeeps sound.
Proof.
  split; intros; apply quiet_call; intros cl;
    first [apply sdk_disks_keeps|apply sdk_enis_keeps|by apply sdk_tag_keeps].
Qed.
#[local] Instance sound_oss : OssKeeps sound.
Proof.
  split; intros; apply quiet_call; intros cl;
    destruct (Hoss cl) as [HN HB HP HS HD]; first [apply HN|apply HB|apply HP|apply HS|apply HD].
Qed.

(** ** Look before you create *)

Lemma FindInstanceByTag_clear rg s :
  rg <> "" -> of_world sound s ->
  wp (FindInstanceByTag_ rg MachineNameTagKey name) s (fun r s' =>
    of_world sound s' /\ (r = Ok "" -> clear rg (cs_world s'))).
Proof.
  intros Hrg Hs. unfold FindInstanceByTag_. cbv zeta. apply wp_bind, wp_wrap.
  eapply wp_mono.
  - apply (wp_retryThrottled sound (fun r w => sound w /\ forall l, r = Ok l ->
      first_not_deleted l = "" -> clear rg w)); [..|exact Hs].
    + intros w Hw. apply wp_at_call; [done|]. intros b r a future E.
      assert (cloud_of a = cloud_of b) as Hc.
      { lazymatch type of E with ecs_DescribeInstances ?req _ = _ =>
          pose proof (sdk_describe_keeps req (cloud_of b) b eq_refl) as Hk end.
        by rewrite E in Hk. }
      assert (sound (mkSched future ((b, a) :: sch_log w))) as Hw'.
      { split; [|done]. intros _. left. by rewrite Hc. }
      split; [|by intros]. split; [done|]. intros l -> Hl _.
      apply (tag_listing cloud_of region) in E as [[_ Hno]|[Hne _]]; [by rewrite Hc|done..].
    + intros n w Hw. by apply sound_rand.
    + by intros.
    + by intros.
  - intros [l|e|p] s' [Hw Hl]; [|by split..]. split; [done|]. intros [= E]. by apply (Hl l).
Qed.

Lemma runInstances_sound p s :
  name <> "" -> tagged_only name (cip_Tags p) -> of_world sound s -> clear (cip_RegionID p) (cs_world s) ->
  wp (runInstances p) s (fun _ => of_world sound).
Proof.
  intros Hname Ht Hs Hc. unfold runInstances. cbv zeta. apply wp_bind, wp_catch.
  destruct (runInstancesRequest_fixed (CreateRunInstancesRequest (W := Sched W)) p) as (Hreg & Htag & Ham).
  eapply wp_mono.
  - apply (wp_retryThrottled (fun w => sound w /\ clear (cip_RegionID p) w) (fun _ => sound));
      [..|by split].
    + intros w [Hw Hcw]. apply wp_at_call; [done|]. intros b r a future E.
      assert (sound (mkSched future ((b, a) :: sch_log w))) as Hw'.
      { split; [|done]. intros [Hr1 Hr2]%relied_cons. unfold guarantees.
        apply sdk_run_effect in E as [->|(id & i & Hid & Hri & Hti & E)]; [by left| |done].
        right. split; [done|]. exists (cip_RegionID p), (cip_Tags p). split; [done|]. split.
        - unfold clear, latest in Hcw. destruct (sch_log w) as [|[b' a'] log]; [done|].
          intros id' i' Hi' Hl'. destruct (Hr1 _ _ _ Hi' Hl') as (j & Hj & Hlj).
          by apply (Hcw Hr2 id' j).
        - exists id, i. rewrite Htag in Hti. by rewrite Hreg in Hri. }
      split; [done|]. intros e -> He. split; [done|].
      pose proof (sdk_run_throttled _ _ b e a eq_refl E He) as Hk. cbn in Hk.
      destruct w as [f log]. apply (clear_cons _ _ _ _ f); [by rewrite Hk|done].
    + intros n w [Hw Hcw]. split; [by apply sound_rand|].
      apply quiet_clear; [|done]. intros cl. apply Hrand.
    + by intros w pn [Hw _].
    + by intros w e [Hw _].
  - intros [ids|e|pn] s' Hw; [|by apply wp_bind, wp_observe, wp_throw|done].
    apply keeps_wp; [|exact Hw]. destruct ids as [|id ids]; keeps_tac;
      first [apply tagInstanceDisks_keeps|apply tagInstanceENIs_keeps]; apply _.
Qed.

Lemma CreateECSInstance_sound p :
  machineTag (cip_Tags p) = name -> name <> "" -> cip_RegionID p <> "" ->
  tagged_only name (cip_Tags p) -> keeps (of_world sound) (CreateECSInstance_ p).
Proof.
  intros Hm Hn Hreg Ht. apply keeps_of_wp. intros s Hs. unfold CreateECSInstance_. cbv zeta.
  rewrite Hm, decide_False by done. apply wp_bind.
  eapply wp_mono; [by apply FindInstanceByTag_clear|]. intros [id|e|pn] s' [Hs' Hc]; [|done..].
  case_decide as Hid; [subst id|].
  - apply runInstances_sound; [done..|]. by apply Hc.
  - apply wp_bind, wp_observe. exact Hs'.
Qed.
End client.

(** ** The controller *)

Lemma yields_call {W A} (P : A -> Prop) (m : M W A) :
  yields P m -> yields P (on_world (at_call m) : M (ClientState (Sched W)) A).
Proof.
  intros Hm s a s'. unfold on_world, at_call. destruct (sch_future (cs_world s)) as [|w f]; [done|].
  destruct (m w) as [r w'] eqn:E. intros [= -> _]. by eapply Hm.
Qed.

Definition key_of (om : ObjectMeta) : ObjectKey := mkObjectKey (meta_Namespace om) (meta_Name om).

Section program.
Context {W Ecs Vpc Slb Rm : Type} `{!GoRand W} `{!EcsSdk W} `{!OssSdk W} `{!GoFmt} `{!GoFloat}
  `{!Endpoints W} `{!SdkConstructors W Ecs Vpc Slb Rm} `{!MachineKube W} `{!KubeLib} `{!KubeLibLaws}.
Context (version : string) (getenv : Env) (order : list (string * string)).
Context (cloud_of : W -> Cloud) (region : string) `{!EcsSdkLaws cloud_of region}
  `{!EcsSdkEffects cloud_of} `{!KubeEffects cloud_of}.
Abbreviation at_cloud cl := (fun w => cloud_of w = cl).
Context (Hrand : forall cl, RandKeeps (at_cloud cl)) (Hoss : forall cl, OssKeeps (at_cloud cl)).
Context (Hsetup : forall cl, SetupKeeps (at_cloud cl)).

(** The machine that owns an object, by name. *)
Context (owner : ObjectKey -> string).
Context (Hread : forall k, yields (fun m => tags_ok m /\ key_of (acm_ObjectMeta m) = k)
                             (get_AlibabaCloudMachine k)).
Context (Howner : forall om, yields (fun o => forall machine, o = Some machine ->
                               mach_Name machine = owner (key_of om)) (GetOwnerMachine om)).

(** The reconcile of the program, over its own client. *)
Definition sched_Reconcile : ObjectKey -> M (ClientState (Sched W)) Result :=
  Reconcile (capi_builder version getenv order).

Section one.
Context (k : ObjectKey).
Abbreviation ok := (of_world (sound cloud_of (owner k))).

Definition mine (s : AlibabaCloudMachine * ClientState (Sched W)) : Prop :=
  tags_ok s.1 /\ key_of (acm_ObjectMeta s.1) = k /\ ok s.2.

Lemma kube_call {A} (m : M W A) :
  (forall cl, keeps (at_cloud cl) m) -> keeps ok (on_world (at_call m)).
Proof. intros Hm. by apply keeps_on_world, quiet_call. Qed.

Lemma mine_call {A} (c : M (ClientState (Sched W)) A) : keeps ok c -> keeps mine (on_snd c).
Proof.
  intros Hc [m s] (Ht & Hk & Hs). unfold on_snd. specialize (Hc s Hs). by destruct (c s).
Qed.

#[local] Instance mine_deletion : DeleteInv (capi_builder version getenv order)
  (fun c => c = capi_client getenv) mine.
Proof.
  pose proof (sound_rand cloud_of Hrand (owner k)). pose proof (sound_list cloud_of region Hrand (owner k)).
  pose proof (sound_oss cloud_of Hoss (owner k)).
  split.
  - intros rg. apply mine_call, capi_builder_keeps. split; intros; apply quiet_call; intros cl;
      destruct (Hsetup cl) as [HA HE HV HS HR]; first [apply HA|apply HE|apply HV|apply HS|apply HR].
  - intros rg. apply yields_bind. by intros _ s c s' [= <- _].
  - intros c id ->. apply (mine_call (DescribeInstanceByID_ id)), DescribeInstanceByID_keeps, _.
  - intros c rg key v ->. apply (mine_call (FindInstanceByTag_ rg key v)), FindInstanceByTag_keeps, _.
  - intros c id force ->. apply (mine_call (DeleteECSInstance_ id force)).
    apply (DeleteECSInstance_keeps (sound cloud_of (owner k))); intros req; apply settling_call; intros cl; [apply sdk_stop_effect|apply sdk_delete_effect].
  - intros c p ->. apply (mine_call (on_world (DeleteIgnitionObject_ getenv p))), keeps_on_world,
      DeleteIgnitionObject_keeps, _.
  - intros f Hf [m s] (Ht & Hk & Hs). destruct (Hf m) as ([Hn Hns] & Htags & _).
    unfold acm_Name, acm_Namespace in *. split_and!; [|cbn|done].
    + unfold tags_ok. cbn. by rewrite Htags.
    + unfold key_of. by rewrite Hn, Hns.
Qed.

#[local] Instance mine_reconcile : ReconcileInv (capi_builder version getenv order)
  (fun machine => mach_Name machine = owner k /\ owner k <> "") (fun c => c = capi_client getenv) mine.
Proof.
  pose proof (sound_rand cloud_of Hrand (owner k)). pose proof (sound_oss cloud_of Hoss (owner k)).
  split; [apply _|..]; try (intros; apply mine_call, kube_call; intros cl;
    first [apply ke_secret|apply ke_owner|apply ke_cluster|apply ke_infra]).
  - intros m s machine s' (_ & Hk & _) E. cbn in E.
    pose proof (yields_call _ _ (Howner (acm_ObjectMeta m)) _ _ _ E machine eq_refl) as Hn.
    pose proof (yields_call _ _ (ke_owner_ok (cloud_of := cloud_of) (acm_ObjectMeta m)) _ _ _ E
      machine eq_refl) as Hne.
    cbn in Hk. rewrite Hk in Hn. by rewrite <- Hn.
  - intros key. apply yields_call, ke_infra_ok.
  - intros c id e t h ->. apply (mine_call (ModifyInstanceMetadata_ id e t h)).
    apply (ModifyInstanceMetadata_keeps (sound cloud_of (owner k))). intros req. apply quiet_call. intros cl. apply sdk_modify_keeps.
  - intros c p ->. apply (mine_call (on_world (PutIgnitionObject_ getenv p))), keeps_on_world,
      PutIgnitionObject_keeps, _.
  - intros c machine cluster image ud m s -> [Hm Hn] Hr (Ht & Hk & Hs).
    destruct (createParams_tags machine cluster m (spec_RegionID (acm_Spec m)) image ud) as [Htag Hg].
    split_and!; [done..|]. cbn. apply (CreateECSInstance_sound cloud_of region Hrand (owner k)); [|done| | |exact Hs].
    + by rewrite Htag, machineTag_toSDKTags.
    + by rewrite Hg.
    + rewrite Htag, <- Hm. by apply toSDKTags_only.
Qed.

Lemma mine_reconcileMachine : keeps mine (reconcileMachine (capi_builder version getenv order)).
Proof.
  apply inv_reconcileMachine, inv_reconcileDelete. by intros [m s].
Qed.

(** The calls of one reconcile keep the guarantee. *)
Lemma sched_Reconcile_sound : keeps ok (sched_Reconcile k).
Proof.
  intros s Hs. unfold sched_Reconcile.
  pose proof (kube_call _ (ke_machine k) s Hs) as Hget.
  destruct (Reconcile_run (capi_builder version getenv order) k s)
    as [(m0 & s1 & s2 & Eg & Eh & ->)|[->|(m0 & s1 & Eg & ->)]].
  - pose proof (kube_call _ (ke_helper m0) s1) as Hh. cbn in Eg, Eh, Hget. rewrite Eg in Hget.
    rewrite Eh in Hh. apply kube_call; [intros cl; apply ke_patch|].
    apply (mine_reconcileMachine (m0, s2)). destruct (yields_call _ _ (Hread k) _ _ _ Eg) as [Ht Hk].
    split_and!; [done..|]. by apply Hh.
  - exact Hget.
  - cbn in Eg, Hget. rewrite Eg in Hget. by apply (kube_call _ (ke_helper m0)).
Qed.
End one.

(** C6. No machine ever has two instances, whatever runs at the same time.  If no
    machine tag is on two live instances of a region, none ever is: after any
    interleaving, call by call, of any number of reconciles of different
    machines by the program, over its own client, each stopping anywhere, with
    any writes lost and any requests throttled or unanswered, while instances
    stop, are deleted and unrelated ones appear between any two calls.  The
    stored machines must not carry the reserved tag key themselves, and machines
    of different keys must have owners of different names. *)
Theorem machines_sole w0 w running :
  (forall k k', owner k = owner k' -> owner k <> "" -> k = k') ->
  unique (cloud_of w0) ->
  rtc (system_step sched_Reconcile (fun w w' => drifts (cloud_of w) (cloud_of w')))
    (w0, ∅) (w, running) ->
  unique (cloud_of w).
Proof.
  intros Hinj Hu. apply (interleaving_sound sched_Reconcile _ (fun k => relies cloud_of (owner k))
    (fun k => guarantees cloud_of (owner k)) (fun w => unique (cloud_of w))).
  - intros k metrics future. by apply sched_Reconcile_sound.
  - intros k k' w1 w2 Hne. apply guarantees_relies. intros E. destruct (decide (owner k = "")) as [|Hn]; [done|].
    by destruct Hne; apply Hinj.
  - intros k w1 w2 Hd. by apply drifts_no_new.
  - intros k w1 w2. apply guarantees_unique.
  - intros w1 w2. apply unique_drifts.
  - done.
Qed.
End program.

(** ** A concrete interleaving

    Two machines, reconciled in turns call by call, over the simulated SDK and
    an API server that loses every write. *)

#[export] Instance twoKube : MachineKube SimWorld := {|
  mk_reader := {| get_Secret _ := mret {["value" := "ignition"]} |};
  get_AlibabaCloudMachine k :=
    if decide (key_Namespace k = "default") then mret (sim_acm (key_Name k))
    else throw (APIStatusError StatusReasonNotFound "not found");
  get_AlibabaCloudCluster _ := mret (sim_cluster None);
  GetOwnerMachine om :=
    mret (if decide (meta_Namespace om = "default" /\ meta_Name om <> "")
          then Some (sim_machine (meta_Name om)) else None);
  GetClusterFromMetadata _ :=
    mret (Some (mkCluster (sim_meta "c1") "AlibabaCloudCluster" "c1"
                  "infrastructure.cluster.x-k8s.io" false));
  IsPaused _ _ := false;
  patch_NewHelper _ := mret ();
  patch_Patch _ _ _ := mret ();
|}.

Definition two_owner (k : ObjectKey) : string :=
  if decide (key_Namespace k = "default") then key_Name k else "".

#[export] Instance twoKube_effects : KubeEffects sim_cloud_of.
Proof.
  split; unfold keeps, yields; try (by intros; subst).
  - intros k cl w. cbn. by case_decide.
  - by intros k w c w' [= <- _].
  - intros om w m w' [= <- _] machine. by case_decide as Hd; intros [= <-]; destruct Hd.
Qed.

Lemma twoKube_read k :
  yields (fun m => tags_ok m /\ key_of (acm_ObjectMeta m) = k) (get_AlibabaCloudMachine k).
Proof.
  intros w m w'. cbn. case_decide as Hd; [|done]. intros [= <- _]. split.
  - apply list.Forall_cons. by split; [|apply Forall_nil].
  - destruct k as [ns name]. cbn in *. by subst.
Qed.

Lemma twoKube_owner om :
  yields (fun o => forall machine, o = Some machine -> mach_Name machine = two_owner (key_of om))
    (GetOwnerMachine om).
Proof.
  intros w o w' [= <- _] machine. case_decide as Hd; [|done]. intros [= <-].
  unfold two_owner. cbn. by rewrite decide_True by apply Hd.
Qed.

Lemma two_owner_inj k k' : two_owner k = two_owner k' -> two_owner k <> "" -> k = k'.
Proof.
  destruct k as [ns n], k' as [ns' n']. unfold two_owner. cbn. intros E Hne.
  repeat case_decide; congruence.
Qed.

Definition two_Reconcile : ObjectKey -> M (ClientState (Sched SimWorld)) Result :=
  sched_Reconcile (Ecs := ()) (Vpc := ()) (Slb := ()) (Rm := ()) "0.1.0" (env_of []) apsaraEndpointEnv.

(** The system played by a list of turns: the worlds each reconcile is served
    in, so far. *)
Definition serve (k : ObjectKey) (x : SimWorld * gmap ObjectKey (list SimWorld))
    : SimWorld * gmap ObjectKey (list SimWorld) :=
  let ws := default [] (x.2 !! k) ++ [x.1] in
  match sch_log (cs_world (two_Reconcile k (mkClientState (mkSched ws []) emptyMetrics [])).2) with
  | (_, w') :: log => if decide (length ws = S (length log)) then (w', <[k := ws]> x.2) else x
  | [] => x
  end.

Definition worker (name : string) : ObjectKey := mkObjectKey "default" name.
Definition turns : list ObjectKey :=
  concat (repeat [worker "worker-1"; worker "worker-2"] 16).
Definition no_instance : SimWorld := mkSimWorld ∅ [].
Definition played : SimWorld * gmap ObjectKey (list SimWorld) :=
  fold_left (fun x k => serve k x) turns (no_instance, ∅).

(** Both reconciles, started, with the schedule they get. *)
Definition future_of (name : string) : list SimWorld := default [] (played.2 !! worker name).
Definition started : SimWorld * gmap ObjectKey (list (SimWorld * SimWorld)) :=
  (no_instance, <[worker "worker-2" := trace two_Reconcile (worker "worker-2") emptyMetrics (future_of "worker-2")]>
    (<[worker "worker-1" := trace two_Reconcile (worker "worker-1") emptyMetrics (future_of "worker-1")]> ∅)).

Lemma turns_enabled : enabled started turns.
Proof. refine (@bool_decide_unpack _ (enabled_dec started turns) _). vm_compute. exact I. Qed.

Lemma machines_sole_witness :
  let w := (fold_left advance turns started).1 in
  size (sim_cloud_of w) = 2%nat /\ unique (sim_cloud_of w).
Proof.
  cbv zeta. split; [by vm_compute|].
  apply (machines_sole (Ecs := ()) (Vpc := ()) (Slb := ()) (Rm := ()) "0.1.0" (env_of [])
    apsaraEndpointEnv sim_cloud_of sim_region ltac:(intros; apply _) ltac:(intros; apply _)
    ltac:(intros; apply _) two_owner twoKube_read twoKube_owner no_instance _
    (fold_left advance turns started).2).
  - apply two_owner_inj.
  - intros region name id1 id2 i1 i2 H1. by vm_compute in H1.
  - eapply rtc_l; [by apply (step_start _ _ no_instance ∅ (worker "worker-1") emptyMetrics (future_of "worker-1"))|].
    eapply rtc_l; [by apply (step_start _ _ _ _ (worker "worker-2") emptyMetrics (future_of "worker-2"))|].
    rewrite <- surjective_pairing. apply enabled_steps. exact turns_enabled.
Defined.
