(* ===== verification/Lifecycle.v ===== *)
(** * No instance outlives its machine

    The whole life of one AlibabaCloudMachine: created, edited, reconciled any
    number of times, deleted, and removed by the API server when its finalizer
    is gone, with the cloud changing under it.  As long as the API server
    stores the patches, every live instance with the machine's tag belongs to a
    stored machine that has its finalizer and the region to find it in: the
    create path and the delete path together leave nothing behind.

    [lost_patch_leaks_instance] and [sweep_misses_renamed_machine] of
    [MachineNormal] show that the two assumptions, that patches are stored and
    that the machine has the name of its owner, are needed. *)

From S2P Require Import Api ProviderID CloudClient Encoding Capi Ignition Oss SimSdk.
From S2P Require Import MachineController SimClient MachineDelete MachineNormal MachineInvariant.
From S2P Require Import Uniqueness.

(** ** The invariant of the machine and the cloud *)

Section anchored.
Context (name : string).

(** No live instance has the machine's tag. *)
Definition untagged (cl : Cloud) : Prop :=
  forall id i region, cl !! id = Some i -> ~ live_tagged region MachineNameTagKey name i.

(** Every live instance with the machine's tag is in the region the machine
    records. *)
Definition anchored (m : AlibabaCloudMachine) (cl : Cloud) : Prop :=
  acm_Name m = name /\ tags_ok m /\
  forall id i region, cl !! id = Some i -> live_tagged region MachineNameTagKey name i ->
    region <> "" /\ spec_RegionID (acm_Spec m) = region.

Lemma untagged_no_new cl cl' : no_new name cl cl' -> untagged cl -> untagged cl'.
Proof.
  intros Hs Hu id i region Hi Hl. destruct (Hs id i region Hi Hl) as (i0 & Hi0 & Hl0).
  by apply (Hu id i0 region).
Qed.

#[export] Instance untagged_inv : CloudSettles (fun _ => untagged).
Proof. split; [|done..]. intros _ cl cl' Hs. by apply untagged_no_new, settles_no_new. Qed.

#[export] Instance anchored_inv :
  CloudInv (fun machine => mach_Name machine = name /\ name <> "") anchored.
Proof.
  split; [split|].
  - intros m cl cl' Hs (Hn & Ht & Hl). split_and!; [done..|]. intros id i region Hi Hli.
    destruct (settles_no_new name _ _ Hs _ _ _ Hi Hli) as (i0 & Hi0 & Hl0). by eapply Hl.
  - intros f m cl Hf (Hn & Ht & Hl). destruct (Hf m) as ([Hfn _] & Hft & Hfr & _).
    split_and!; [congruence|unfold tags_ok; by rewrite Hft|]. intros id i region Hi Hli.
    destruct (Hl id i region Hi Hli) as [Hne Hr]. split; [done|]. rewrite Hfr; [done|congruence].
  - intros ? m cl H. exact H.
  - intros machine m cname cl cl' [Hm Hne] Hr (_ & id & i & Hid & Hir & Hit & ->) (Hn & Ht & Hl).
    split_and!; [done..|]. intros id' i' region Hi' Hl'.
    apply lookup_insert_Some in Hi' as [[<- <-]|[_ Hi']]; [|by eapply Hl].
    destruct Hl' as (Hr' & _ & _). split; congruence.
Qed.
End anchored.

(** ** The API server *)

(** What is stored under the machine's key: reads return it, a patch replaces
    it, and removes it when it is being deleted and has no finalizer left; no
    other call touches it. *)
Definition after_patch (m : AlibabaCloudMachine) : option AlibabaCloudMachine :=
  if decide (IsZero (meta_DeletionTimestamp (acm_ObjectMeta m)) = false /\ acm_Finalizers m = [])
  then None else Some m.

Class ClientStored {W} (stored : W -> option AlibabaCloudMachine) (c : Client W) : Prop := {
  cs_describe id o : keeps (fun w => stored w = o) (DescribeInstanceByID c id);
  cs_find rg k v o : keeps (fun w => stored w = o) (FindInstanceByTag c rg k v);
  cs_create p o : keeps (fun w => stored w = o) (CreateECSInstance c p);
  cs_delete id force o : keeps (fun w => stored w = o) (DeleteECSInstance c id force);
  cs_metadata id e t h o : keeps (fun w => stored w = o) (ModifyInstanceMetadata c id e t h);
  cs_put p o : keeps (fun w => stored w = o) (PutIgnitionObject c p);
  cs_delete_object p o : keeps (fun w => stored w = o) (DeleteIgnitionObject c p);
}.

Class ApiServer {W} `{!MachineKube W} (stored : W -> option AlibabaCloudMachine)
    (builder : string -> M W (Client W)) : Prop := {
  as_get k o : keeps (fun w => stored w = o) (get_AlibabaCloudMachine k);
  as_get_stored k w m w' : get_AlibabaCloudMachine k w = (Ok m, w') -> stored w = Some m;
  as_helper m o : keeps (fun w => stored w = o) (patch_NewHelper m);
  as_patch o m owned w : stored (patch_Patch o m owned w).2 = after_patch m;
  as_secret k o : keeps (fun w => stored w = o) (get_Secret k);
  as_owner om o : keeps (fun w => stored w = o) (GetOwnerMachine om);
  as_cluster om o : keeps (fun w => stored w = o) (GetClusterFromMetadata om);
  as_infra k o : keeps (fun w => stored w = o) (get_AlibabaCloudCluster k);
  as_builder region o : keeps (fun w => stored w = o) (builder region);
  as_client region : yields (ClientStored stored) (builder region);
}.

(** ** One reconcile *)

Section life.
Context {W : Type} `{!MachineKube W} `{!KubeLib} `{!KubeLibLaws} `{!GoFmt}.
Context (cloud_of : W -> Cloud) (stored : W -> option AlibabaCloudMachine).
Context (builder : string -> M W (Client W)).
Context `{!BuilderLaws cloud_of builder} `{!BuilderEffects cloud_of builder}.
Context `{!KubeEffects cloud_of} `{!ApiServer stored builder}.
Context (name : string) (Hname : name <> "").
Context (Hown : forall om, yields (fun m => forall machine, m = Some machine -> mach_Name machine = name)
                             (GetOwnerMachine om)).

Lemma on_snd_keeps {A} (c : M W A) (J : W -> Prop) :
  keeps J c -> keeps (fun s : AlibabaCloudMachine * W => J s.2) (on_snd c).
Proof. intros Hc [m w] Hs. unfold on_snd. specialize (Hc w Hs). by destruct (c w). Qed.

(** The calls of a reconcile do not touch what is stored. *)
Lemma stored_inv o :
  ReconcileInv builder (fun _ => True) (ClientStored stored)
    (fun s : AlibabaCloudMachine * W => stored s.2 = o).
Proof.
  split; [split|..].
  - intros region. apply (on_snd_keeps _ (fun w => stored w = o)), as_builder.
  - apply as_client.
  - intros c id Hc. apply (on_snd_keeps _ (fun w => stored w = o)), cs_describe.
  - intros c rg k v Hc. apply (on_snd_keeps _ (fun w => stored w = o)), cs_find.
  - intros c id force Hc. apply (on_snd_keeps _ (fun w => stored w = o)), cs_delete.
  - intros c p Hc. apply (on_snd_keeps _ (fun w => stored w = o)), cs_delete_object.
  - by intros f Hf [m w].
  - intros k. apply (on_snd_keeps _ (fun w => stored w = o)), as_secret.
  - intros om. apply (on_snd_keeps _ (fun w => stored w = o)), as_owner.
  - done.
  - intros om. apply (on_snd_keeps _ (fun w => stored w = o)), as_cluster.
  - intros k. apply (on_snd_keeps _ (fun w => stored w = o)), as_infra.
  - apply ke_infra_ok.
  - intros c id e t h Hc. apply (on_snd_keeps _ (fun w => stored w = o)), cs_metadata.
  - intros c p Hc. apply (on_snd_keeps _ (fun w => stored w = o)), cs_put.
  - intros c machine cluster image ud m w Hc _ _ Hs. by apply (cs_create _ o w).
Qed.

Lemma stored_reconcileMachine o :
  keeps (fun s : AlibabaCloudMachine * W => stored s.2 = o) (reconcileMachine builder).
Proof.
  pose proof (stored_inv o). apply inv_reconcileMachine, inv_reconcileDelete. by intros [m w].
Qed.

(** A property of the machine alone that its writes keep. *)
Lemma finalizer_inv :
  ReconcileInv builder (fun _ => True) (fun _ => True)
    (fun s : AlibabaCloudMachine * W => has_finalizer s.1).
Proof.
  assert (forall A (c : M W A), keeps (fun s : AlibabaCloudMachine * W => has_finalizer s.1) (on_snd c))
    as Hw by (intros A c [m w] Hs; unfold on_snd; by destruct (c w)).
  split; [split|..]; try (intros; apply Hw).
  - by intros region w c w' E.
  - intros f Hf [m w] Hs. by apply Hf.
  - done.
  - apply ke_infra_ok.
  - by intros.
Qed.

Lemma anchored_region m cl id i region :
  anchored name m cl -> cl !! id = Some i -> live_tagged region MachineNameTagKey name i ->
  regionFromMachine m = inr region.
Proof.
  intros (_ & _ & Hl) Hi Hli. destruct (Hl _ _ _ Hi Hli) as [Hne <-]. by apply regionFromMachine_spec.
Qed.

(** A deletion that releases the finalizer leaves no instance of the machine. *)
Lemma released_untagged m w r w' :
  anchored name m (cloud_of w) -> released cloud_of m w r w' -> untagged name (cloud_of w').
Proof.
  intros Ha (_ & Hc & Hcase) id i region Hi Hl. rewrite Hc in Hi.
  pose proof (anchored_region _ _ _ _ _ Ha Hi Hl) as Hr.
  destruct Hcase as [[_ Hr']|(region' & Hr' & _ & Hno)]; rewrite Hr in Hr'; [done|].
  injection Hr' as <-. destruct Ha as [Hn _]. rewrite Hc, Hn in Hno. by apply (Hno id i).
Qed.

(** The machine has its finalizer as long as it may have an instance. *)
Definition guarded (m : AlibabaCloudMachine) (cl : Cloud) : Prop :=
  anchored name m cl /\ (has_finalizer m \/ untagged name cl).

Lemma reconcileDelete_guarded m w :
  guarded m (cloud_of w) ->
  wp (reconcileDelete builder) (m, w) (fun _ s' => has_finalizer s'.1 \/ untagged name (cloud_of s'.2)).
Proof.
  intros [Ha Hf]. destruct (decide (has_finalizer m)) as [Hfin|Hfin].
  - eapply wp_mono; [by apply (reconcileDelete_released builder cloud_of)|]. intros r [m' w'] Hrel.
    destruct (decide (has_finalizer m')) as [|Hn]; [by left|right].
    eapply released_untagged; [done|]. by apply Hrel.
  - destruct Hf as [?|Hu]; [done|]. eapply wp_mono; [apply keeps_wp|intros r s' Hs; right; exact Hs].
    + apply (delete_of_cloud builder cloud_of (fun _ => untagged name)).
    + exact Hu.
Qed.

Lemma reconcileMachine_guarded m w :
  guarded m (cloud_of w) ->
  let s' := (reconcileMachine builder (m, w)).2 in guarded s'.1 (cloud_of s'.2).
Proof.
  intros Hg. split.
  { refine (reconcile_of_cloud builder cloud_of (fun machine => mach_Name machine = name /\ name <> "")
      (anchored name) _ _ (m, w) (proj1 Hg)); [|by intros machine [-> _]].
    intros om w1 om' w1' E machine Hm. split; [|done]. by eapply Hown. }
  change (wp (reconcileMachine builder) (m, w) (fun _ s' => has_finalizer s'.1 \/ untagged name (cloud_of s'.2))).
  unfold reconcileMachine, machine_of. wp_go. destruct (negb _); [by apply reconcileDelete_guarded|].
  destruct Hg as [_ Hf]. wp_go. pose proof (ke_owner (acm_ObjectMeta m) _ w eq_refl) as Hw1.
  wp_call as [[machine|]|e|p] w1 eqn E1; cbn in Hw1; rewrite <- Hw1 in Hf; [|done..]. wp_go.
  pose proof (ke_cluster (mach_ObjectMeta machine) _ w1 eq_refl) as Hw2.
  wp_call as [[cluster|]|e|p] w2 eqn E2; cbn in Hw2; rewrite <- Hw2 in Hf; [|done..].
  destruct (IsPaused _ _); [by wp_go|]. wp_go.
  lazymatch goal with |- wp (get_AlibabaCloudCluster ?k) _ _ => pose proof (ke_infra k _ w2 eq_refl) as Hw3 end.
  wp_call as [infra|e|p] w3 eqn E3; cbn in Hw3; rewrite <- Hw3 in Hf; [|done..].
  pose proof finalizer_inv as Hfi.
  eapply wp_mono; [apply (inv_provision (I := fun s => has_finalizer s.1)); [done|by eapply ke_infra_ok|]|
    intros r s' Hs; left; exact Hs].
  unfold has_finalizer. cbn. apply AddFinalizer_elem. by left.
Qed.

(** ** The system *)

(** A write of someone else that the API server and the webhook accept: the name
    and a region that was set cannot change, and the finalizer is the
    controller's. *)
Definition edit (m m' : AlibabaCloudMachine) : Prop :=
  acm_Name m' = acm_Name m /\ tags_ok m' /\
  (spec_RegionID (acm_Spec m) <> "" -> spec_RegionID (acm_Spec m') = spec_RegionID (acm_Spec m)) /\
  (has_finalizer m -> has_finalizer m').

(** The life of the machine: its object is created, edited (its deletion
    requested, for one), reconciled, and removed when it has no finalizer;
    between these the cloud changes. *)
Inductive life_step : W -> W -> Prop :=
  | life_reconcile req w : life_step w (Reconcile builder req w).2
  | life_created w w' m :
      stored w = None -> stored w' = Some m -> acm_Name m = name -> tags_ok m ->
      cloud_of w' = cloud_of w -> life_step w w'
  | life_edited w w' m m' :
      stored w = Some m -> stored w' = Some m' -> edit m m' ->
      cloud_of w' = cloud_of w -> life_step w w'
  | life_removed w w' m :
      stored w = Some m -> ~ has_finalizer m -> stored w' = None ->
      cloud_of w' = cloud_of w -> life_step w w'
  | life_environment w w' :
      no_new name (cloud_of w) (cloud_of w') -> stored w' = stored w -> life_step w w'.

(** The invariant of the system. *)
Definition accounted (o : option AlibabaCloudMachine) (cl : Cloud) : Prop :=
  match o with
  | Some m => guarded m cl
  | None => untagged name cl
  end.

Lemma guarded_patched m cl : guarded m cl -> accounted (after_patch m) cl.
Proof.
  intros [Ha Hf]. unfold after_patch. case_decide as Hd; [|by split].
  destruct Hf as [Hf|Hu]; [|done]. destruct Hd as [_ Hnil]. unfold has_finalizer in Hf.
  rewrite Hnil in Hf. by apply not_elem_of_nil in Hf.
Qed.

Lemma accounted_Reconcile req : keeps (fun w => accounted (stored w) (cloud_of w)) (Reconcile builder req).
Proof.
  intros w Hw. pose proof (ke_machine req _ w eq_refl) as Hc. pose proof (as_get req _ w eq_refl) as Hs.
  cbn in Hc, Hs.
  destruct (Reconcile_run builder req w) as [(m0 & w1 & w2 & Eg & Eh & ->)|[->|(m0 & w1 & Eg & ->)]].
  - pose proof (as_get_stored _ _ _ _ Eg) as Hm. rewrite Hm in Hw. rewrite Eg in Hc.
    pose proof (ke_helper m0 _ w1 eq_refl) as Hh. rewrite Eh in Hh. cbn in *.
    rewrite <- Hc, <- Hh in Hw. apply reconcileMachine_guarded in Hw.
    rewrite as_patch, (ke_patch _ _ _ _ _ eq_refl). by apply guarded_patched.
  - by rewrite Hc, Hs.
  - rewrite Eg in Hc, Hs. cbn in *.
    by rewrite (as_helper m0 _ w1 eq_refl), (ke_helper m0 _ w1 eq_refl), Hc, Hs.
Qed.

Lemma accounted_step w w' :
  life_step w w' -> accounted (stored w) (cloud_of w) -> accounted (stored w') (cloud_of w').
Proof.
  intros [req w0|w0 w1 m Hs Hs' Hn Ht Hc|w0 w1 m m' Hs Hs' (Hn & Ht & Hr & Hf) Hc|w0 w1 m Hs Hn Hs' Hc
    |w0 w1 Hnew Hs] Ha.
  - by apply accounted_Reconcile.
  - rewrite Hs in Ha. rewrite Hs', Hc. split; [|by right]. split_and!; [done..|].
    intros id i region Hi Hl. by destruct (Ha id i region).
  - rewrite Hs in Ha. rewrite Hs', Hc. destruct Ha as [(Hn0 & _ & Hl) Hg]. split.
    + split_and!; [congruence|done|]. intros id i region Hi Hli. destruct (Hl id i region Hi Hli).
      split; [done|]. rewrite Hr; congruence.
    + destruct Hg as [Hg|Hg]; [left; by apply Hf|by right].
  - rewrite Hs in Ha. rewrite Hs', Hc. by destruct Ha as [_ [Hf|Hu]].
  - rewrite Hs. pose proof (untagged_no_new name _ _ Hnew) as Hu.
    destruct (stored w0) as [m|]; [|by apply Hu]. destruct Ha as [(Hn & Ht & Hl) Hf]. split.
    + split_and!; [done..|]. intros id i region Hi Hli. destruct (Hnew _ _ _ Hi Hli) as (i0 & ? & ?).
      by eapply Hl.
    + destruct Hf as [|Hf]; [by left|right; by apply Hu].
Qed.

(** C2. No instance outlives its machine.  Whatever the machine goes through,
    from before its object exists: every live instance with its tag, in any
    region, belongs to a stored object that has its finalizer and from which
    the delete path gets the instance's region.  In particular, once the
    object is gone, no live instance with its tag is left anywhere.  Creations
    whose answer was lost, retries, adoptions, edits and panics are all
    included; the patches must be stored, the object have its owner's name, and
    an edit by others leave the finalizer in place and a region once it is
    set, and add no tag under the reserved key ([edit]). *)
Theorem no_orphans w0 w :
  stored w0 = None -> untagged name (cloud_of w0) -> rtc life_step w0 w ->
  forall id i region, cloud_of w !! id = Some i -> live_tagged region MachineNameTagKey name i ->
    exists m, stored w = Some m /\ has_finalizer m /\ regionFromMachine m = inr region.
Proof.
  intros Hs Hu Hrtc. assert (accounted (stored w) (cloud_of w)) as Ha.
  { assert (accounted (stored w0) (cloud_of w0)) as H0' by by rewrite Hs.
    clear Hs Hu. induction Hrtc as [|w1 w2 w3 Hstep _ IH]; [done|]. by eapply IH, accounted_step. }
  intros id i region Hi Hl. destruct (stored w) as [m|]; [|by destruct (Ha id i region)].
  destruct Ha as [Ha [Hf|Hf]]; [|by destruct (Hf id i region)].
  exists m. split_and!; [done..|]. by eapply anchored_region.
Qed.
End life.

(** ** A concrete life

    The API server stores one machine; the cloud is that of [SimClient]. *)

Abbreviation LifeWorld := (option AlibabaCloudMachine * Cloud)%type.

Definition lift_client {S W} (c : Client W) : Client (S * W) :=
  mkClient (fun id => on_snd (DescribeInstanceByID c id)) (fun p => on_snd (CreateECSInstance c p))
    (fun id force => on_snd (DeleteECSInstance c id force))
    (fun rg k v => on_snd (FindInstanceByTag c rg k v))
    (fun id e t h => on_snd (ModifyInstanceMetadata c id e t h))
    (fun t => on_snd (InstanceTypeCapacity c t)) (fun p => on_snd (PutIgnitionObject c p))
    (fun p => on_snd (DeleteIgnitionObject c p)).

Section lift.
Context {S W : Type} (cloud_of : W -> Cloud) (c : Client W).

Lemma on_snd_run {A} (m : M W A) (s s' : S) w r w' :
  on_snd m (s, w) = (r, (s', w')) -> m w = (r, w').
Proof. unfold on_snd. destruct (m w). by intros [= <- _ <-]. Qed.

Ltac lift l := intros; repeat match goal with p : (S * W)%type |- _ => destruct p end;
  repeat match goal with E : _ = _ |- _ => apply on_snd_run in E end; eapply l; eauto.

#[export] Instance lift_laws region :
  ClientLaws cloud_of region c -> ClientLaws (fun s : S * W => cloud_of s.2) region (lift_client c).
Proof.
  intros Hc. split; cbn; [lift (describe_none (c := c))|lift (describe_some (c := c))|
    lift (describe_cloud (c := c))|lift (find_none (c := c))|lift (find_some (c := c))|
    lift (find_cloud (c := c))|lift (delete_ignition_cloud (c := c))].
Qed.

#[export] Instance lift_effects :
  ClientEffects cloud_of c -> ClientEffects (fun s : S * W => cloud_of s.2) (lift_client c).
Proof.
  intros Hc. split; cbn; [lift (create_effect (c := c))|lift (describe_effect (c := c))|
    lift (find_effect (c := c))|lift (delete_effect (c := c))|lift (metadata_effect (c := c))|
    lift (put_ignition_effect (c := c))|lift (delete_ignition_effect (c := c))].
Qed.

#[export] Instance lift_stored (f : S -> option AlibabaCloudMachine) :
  ClientStored (fun s : S * W => f s.1) (lift_client c).
Proof.
  split; intros; intros [s w] Hs; cbn; unfold on_snd;
    lazymatch goal with |- context [let '(_, _) := ?run in _] => by destruct run end.
Qed.
End lift.

#[export] Instance storeKube : MachineKube LifeWorld := {|
  mk_reader := {| get_Secret _ := mret {["value" := "ignition"]} |};
  get_AlibabaCloudMachine _ := '(o, _) ← get;
    match o with
    | Some m => mret m
    | None => throw (APIStatusError StatusReasonNotFound "not found")
    end;
  get_AlibabaCloudCluster _ := mret (sim_cluster None);
  GetOwnerMachine _ := mret (Some (sim_machine "worker-1"));
  GetClusterFromMetadata _ :=
    mret (Some (mkCluster (sim_meta "c1") "AlibabaCloudCluster" "c1"
                  "infrastructure.cluster.x-k8s.io" false));
  IsPaused _ _ := false;
  patch_NewHelper _ := mret ();
  patch_Patch _ m _ := modify (fun w => (after_patch m, w.2));
|}.

Definition storeBuilder (region : string) : M LifeWorld (Client LifeWorld) :=
  mret (lift_client (memClient region)).

Definition life_cloud (w : LifeWorld) : Cloud := mem_cloud w.2.

#[export] Instance store_laws : BuilderLaws life_cloud storeBuilder.
Proof.
  split; [intros region w c w' [= <- _]; apply (lift_laws mem_cloud), _|by intros region w r w' [= _ <-]].
Qed.
#[export] Instance store_effects : BuilderEffects life_cloud storeBuilder.
Proof.
  split; [intros region w c w' [= <- _]; apply (lift_effects mem_cloud), _|by intros region cl w].
Qed.

#[export] Instance storeKube_effects : KubeEffects life_cloud.
Proof.
  split; try (by intros ? ? [? ?]); try (by intros ? ? ? ? [? ?]).
  - by intros k cl [[m|] w].
  - by intros k w c w' [= <- _].
  - by intros om w m w' [= <- _] machine [= <-].
Qed.

#[export] Instance store_server : ApiServer fst storeBuilder.
Proof.
  split; try (by intros ? ? [? ?]); try (by intros ? ? ? ? [? ?]).
  - by intros k o [[m|] w].
  - intros k [[m0|] w] m w'; [by intros [= <- _]|done].
  - by intros o m owned [s w].
  - intros region w c w' [= <- _]. apply (lift_stored _ (fun o => o)).
Qed.

Definition life_key : ObjectKey := mkObjectKey "default" "worker-1".
Definition born : LifeWorld := (Some (sim_acm "worker-1"), ∅).
Definition provisioning : LifeWorld := (Reconcile storeBuilder life_key born).2.

Lemma no_orphans_witness :
  exists m, provisioning.1 = Some m /\ has_finalizer m /\ regionFromMachine m = inr sim_region.
Proof.
  assert (exists i, life_cloud provisioning !! "i-new" = Some i /\
    live_tagged sim_region MachineNameTagKey "worker-1" i) as (i & Hi & Hl).
  { eexists. split; [by vm_compute|]. apply (bool_decide_unpack _). by vm_compute. }
  apply (no_orphans life_cloud fst storeBuilder "worker-1" ltac:(done)
    ltac:(by intros om w m w' [= <- _] machine [= <-]) (None, ∅) provisioning) with (id := "i-new") (i := i).
  - reflexivity.
  - intros id j region Hj. by vm_compute in Hj.
  - eapply rtc_l; [apply (life_created _ _ _ _ _ born (sim_acm "worker-1")); try reflexivity|].
    + apply list.Forall_cons. by split; [|apply Forall_nil].
    + apply rtc_once. apply life_reconcile with (req := life_key).
  - exact Hi.
  - exact Hl.
Defined.
