(* ===== verification/LegacyClient.v ===== *)
(** * The client built from a credentials secret

    The second half of [pkg/client/client.go]: [NewClient] and the way it gets a
    credential, through a temporary file and an environment variable of the
    process that the SDK's profile provider reads.  Nothing in the program calls
    [NewClient] any more.

    The environment and the files belong to the process and are modelled; when
    creating or writing a file fails is up to the operating system. *)

From S2P Require Import Api CloudClient Ignition Credential.

Record Process := mkProcess {
  proc_env : gmap string string;
  proc_files : gmap string string;
}.
#[export] Instance eta_Process : Eta Process := fun p => mkProcess (proc_env p) (proc_files p).

(** The name [ioutil.TempFile] chooses, or its error; and whether a write to a
    file fails. *)
Class GoOs := {
  os_TempFile : string -> gmap string string -> error + string;
  os_Write : string -> string -> option error;
}.

Class GoOsLaws `{!GoOs} : Prop := {
  TempFile_fresh pattern files name : os_TempFile pattern files = inr name -> files !! name = None;
}.

(** The SDK's profile provider, for credentials of type [C]. *)
Class ProfileProvider (C : Type) := {
  ENVCredentialFile : string;
  profile_Resolve : string -> Process -> result C;
}.

Definition kubeCredentialCredentials : string := "credentials".

(** [defer f()], for a function that only changes the state: it runs whatever
    the rest of the body does. *)
Definition defer {S A} (f : S -> S) (m : M S A) : M S A := fun s =>
  let '(r, s') := m s in (r, f s').

Section client.
Context {W C : Type} `{!KubeReader W} `{!GoOs} `{!ProfileProvider C}.
Abbreviation St := (Process * W)%type.

Definition on_process (f : Process -> Process) (s : St) : St := (f s.1, s.2).

Definition TempFile (pattern : string) : M St string := fun s =>
  match os_TempFile pattern (proc_files s.1) with
  | inl e => (Err e, s)
  | inr name => (Ok name, on_process (fun p => p <| proc_files ::= insert name "" |>) s)
  end.

Definition WriteFile (name data : string) : M St () := fun s =>
  match os_Write name data with
  | Some e => (Err e, s)
  | None => (Ok (), on_process (fun p => p <| proc_files ::= insert name data |>) s)
  end.

Definition Remove (name : string) : St -> St :=
  on_process (fun p => p <| proc_files ::= delete name |>).
Definition Setenv (k v : string) : M St () :=
  modify (on_process (fun p => p <| proc_env ::= insert k v |>)).
Definition Unsetenv (k : string) : St -> St :=
  on_process (fun p => p <| proc_env ::= delete k |>).

Definition Resolve (profile : string) : M St C := fun s => (profile_Resolve profile s.1, s).

(** Closing the file leaves its content; the lock serialises the callers from
    the assignment of the variable on, and has no effect on one of them; the
    callers together are those of [ConcurrentCredentials]. *)
Definition fetchCredentialsIniFromSecret (secret : Secret) : M St C :=
  match secret !! kubeCredentialCredentials with
  | None => throw (ErrorString "failed to fetch key 'credentials' in secret data")
  | Some creds =>
      f ← TempFile "alibaba-creds-*";
      defer (Remove f)
        (WriteFile f creds ;;
         Setenv ENVCredentialFile f ;;
         defer (Unsetenv ENVCredentialFile) (Resolve "default"))
  end.

Definition getCredentialFromSecret (secretName namespace : string) : M St C :=
  if decide (secretName = "") then throw (ErrorString "secret name is empty")
  else
    secret ← catch (on_snd (get_Secret (mkObjectKey namespace secretName))) (fun err =>
      if IsNotFound err then
        throw (WrapError ("alibabacloud credentials secret " +:+ namespace +:+ "/" +:+ secretName +:+
                          " not found: ") err)
      else throw err);
    fetchCredentialsIniFromSecret secret.

(** [NewClient]: the four SDK clients over one configuration and credential. *)
Context {Ecs Vpc Slb Rm : Type}.
Context (ecs_New : string -> SdkConfig -> C -> M W Ecs) (vpc_New : string -> SdkConfig -> C -> M W Vpc)
        (slb_New : string -> SdkConfig -> C -> M W Slb) (rm_New : string -> SdkConfig -> C -> M W Rm).

Definition NewClient (version secretName namespace regionID : string)
    : M St (Ecs * Vpc * Slb * Rm) :=
  credential ← getCredentialFromSecret secretName namespace;
  let sdkConfig := mkSdkConfig (machineProviderUserAgent version) "HTTPS" false 0 None in
  ecsClient ← on_snd (ecs_New regionID sdkConfig credential);
  vpcClient ← on_snd (vpc_New regionID sdkConfig credential);
  slbClient ← on_snd (slb_New regionID sdkConfig credential);
  rmClient ← on_snd (rm_New regionID sdkConfig credential);
  mret (ecsClient, vpcClient, slbClient, rmClient).
End client.

(** ** Theorems *)

Section theorems.
Context {W C : Type} `{!KubeReader W} `{!GoOs} `{!GoOsLaws} `{!ProfileProvider C}.
Implicit Types (p : Process) (w : W).

(** What a call leaves of the process: the files as they were, and the
    environment as it was, up to the credential-file variable, which is either
    untouched or unset. *)
Definition cleaned_up p p' : Prop :=
  proc_files p' = proc_files p /\
  (proc_env p' = proc_env p \/ proc_env p' = delete ENVCredentialFile (proc_env p)).

(** The process the provider sees. *)
Definition with_credentials p (name creds : string) : Process :=
  mkProcess (<[ENVCredentialFile := name]> (proc_env p)) (<[name := creds]> (proc_files p)).

Lemma fetchCredentialsIniFromSecret_spec secret p w :
  wp (fetchCredentialsIniFromSecret (C := C) secret) (p, w) (fun r s' =>
    s'.2 = w /\ cleaned_up p s'.1 /\
    forall c, r = Ok c -> exists name creds,
      secret !! kubeCredentialCredentials = Some creds /\ proc_files p !! name = None /\
      profile_Resolve "default" (with_credentials p name creds) = Ok c).
Proof.
  unfold wp, fetchCredentialsIniFromSecret, cleaned_up.
  destruct (secret !! kubeCredentialCredentials) as [creds|] eqn:Es; [|by split_and!; [..|left|]].
  unfold mbind, M_bind, TempFile.
  destruct (os_TempFile _ _) as [e|name] eqn:Et; [by split_and!; [..|left|]|].
  apply TempFile_fresh in Et. cbn in Et. unfold defer, WriteFile.
  destruct (os_Write name creds) as [e|]; cbn.
  - split_and!; [done|by rewrite delete_insert_id|by left|done].
  - rewrite insert_insert_eq. split_and!; [done|by rewrite delete_insert_id| |].
    + right. by rewrite delete_insert_eq.
    + intros c Hc. by exists name, creds.
Qed.

(** The credential of the legacy client leaves no trace: whatever goes
    wrong on the way, and whether or not a credential comes out, the temporary
    file is gone, no other file changed, and the variable that named it is not
    set to it.  When one comes out, the SDK read it from a fresh file holding
    exactly the secret's data. *)
Theorem getCredentialFromSecret_clean secretName namespace p w r p' w' :
  getCredentialFromSecret (C := C) secretName namespace (p, w) = (r, (p', w')) ->
  cleaned_up p p' /\
  forall c, r = Ok c -> secretName <> "" /\
    exists secret name creds, (get_Secret (mkObjectKey namespace secretName) w) = (Ok secret, w') /\
      secret !! kubeCredentialCredentials = Some creds /\ proc_files p !! name = None /\
      profile_Resolve "default" (with_credentials p name creds) = Ok c.
Proof.
  revert r p' w'. wp_start. unfold getCredentialFromSecret.
  assert (forall p0 : Process, cleaned_up p0 p0) as Hrefl by (split; auto).
  case_decide as Hn; [by wp_go|]. wp_go. wp_call as [secret|e|q] w1 eqn E; [..|by split].
  - eapply wp_mono; [apply fetchCredentialsIniFromSecret_spec|].
    intros r [p1 w2] (Hw & Hc & Hr). cbn in *. subst w2. split; [done|].
    intros c Hok. destruct (Hr c Hok) as (name & creds & ? & ? & ?).
    split; [done|]. by exists secret, name, creds.
  - destruct (IsNotFound e); by wp_go.
Qed.
End theorems.

(** ** A concrete run *)

#[export] Instance simOs : GoOs := {|
  os_TempFile pattern files :=
    if decide (files !! "/tmp/alibaba-creds-1" = None) then inr "/tmp/alibaba-creds-1"
    else inl (ErrorString "file exists");
  os_Write name data :=
    if decide (data = "") then Some (ErrorString "disk full") else None;
|}.
#[export] Instance simOs_laws : GoOsLaws.
Proof. split. intros pattern files name. cbn. case_decide; [by intros [= <-]|done]. Qed.

(** A provider whose credential is the content of the file. *)
#[export] Instance simProfile : ProfileProvider string := {|
  ENVCredentialFile := "ALIBABA_CLOUD_CREDENTIALS_FILE";
  profile_Resolve profile p :=
    match proc_env p !! "ALIBABA_CLOUD_CREDENTIALS_FILE" ≫= fun f => proc_files p !! f with
    | Some content => Ok content
    | None => Err (ErrorString "no credentials file")
    end;
|}.
#[export] Instance simReader : KubeReader () := {|
  get_Secret k := if decide (key_Name k = "creds") then mret {["credentials" := "[default]"]}
                  else throw (APIStatusError StatusReasonNotFound "not found");
|}.

Lemma getCredentialFromSecret_clean_witness :
  let p := mkProcess ∅ {["/etc/hosts" := "127.0.0.1"]} in
  exists p', getCredentialFromSecret (C := string) "creds" "default" (p, ()) = (Ok "[default]", (p', ())) /\
    cleaned_up (C := string) p p'.
Proof.
  cbv zeta.
  destruct (getCredentialFromSecret (C := string) "creds" "default"
    (mkProcess ∅ {["/etc/hosts" := "127.0.0.1"]}, ())) as [r [p' []]] eqn:E.
  exists p'. split.
  - assert (r = Ok "[default]") as -> by (change r with (r, (p', ())).1; rewrite <- E; by vm_compute).
    done.
  - apply (getCredentialFromSecret_clean "creds" "default"
      (mkProcess ∅ {["/etc/hosts" := "127.0.0.1"]}) () r p' () E).
Defined.
