(* ===== verification/ConcurrentCredentials.v ===== *)
(** * The legacy client's credentials, with several callers

    [fetchCredentialsIniFromSecret] hands the credentials to the SDK through an
    environment variable, which all goroutines of the process share; a mutex
    serialises the callers from the assignment of the variable to its removal.
    [LegacyClient] runs one caller.  Here any number of them interleave, one
    statement at a time, under an environment that changes the process's other
    variables and files: no caller is given the credentials of another, and they
    do not wait for each other for ever ([fetch_isolated]). *)

From S2P Require Import Api CloudClient Ignition Credential LegacyClient.

Section callers.
Context {C : Type} `{!GoOs} `{!ProfileProvider C}.

(** Where a caller is in the function; [f] is its file.  After [Left] its defers
    have released the lock, and after [Returned] removed the file. *)
Inductive stage :=
  | Start
  | Created (f : string)
  | Written (f : string)
  | Entered (f : string)
  | Exported (f : string)
  | Resolved (f : string) (r : result C)
  | Cleared (f : string) (r : result C)
  | Left (f : string) (r : result C)
  | Returned (r : result C).

(** The process and the mutex. *)
Abbreviation Shared := (Process * bool)%type.

(** The next statement of a caller, with the deferred calls in the order they
    run; [None] when it waits for the lock or has returned. *)
Definition fetch_step (secret : Secret) (st : stage) (s : Shared) : option (stage * Shared) :=
  let '(p, locked) := s in
  match st with
  | Start =>
      match secret !! kubeCredentialCredentials with
      | None => Some (Returned (Err (ErrorString "failed to fetch key 'credentials' in secret data")), s)
      | Some _ =>
          match os_TempFile "alibaba-creds-*" (proc_files p) with
          | inl e => Some (Returned (Err e), s)
          | inr f => Some (Created f, (p <| proc_files ::= insert f "" |>, locked))
          end
      end
  | Created f =>
      let creds := default "" (secret !! kubeCredentialCredentials) in
      match os_Write f creds with
      | Some e => Some (Left f (Err e), s)
      | None => Some (Written f, (p <| proc_files ::= insert f creds |>, locked))
      end
  | Written f => if locked then None else Some (Entered f, (p, true))
  | Entered f => Some (Exported f, (p <| proc_env ::= insert ENVCredentialFile f |>, locked))
  | Exported f => Some (Resolved f (profile_Resolve "default" p), s)
  | Resolved f r => Some (Cleared f r, (p <| proc_env ::= delete ENVCredentialFile |>, locked))
  | Cleared f r => Some (Left f r, (p, false))
  | Left f r => Some (Returned r, (p <| proc_files ::= delete f |>, locked))
  | Returned _ => None
  end.

(** A caller by itself. *)
Fixpoint fetch_run (fuel : nat) (secret : Secret) (st : stage) (s : Shared) : stage * Shared :=
  match fuel with
  | O => (st, s)
  | S fuel =>
      match fetch_step secret st s with
      | Some (st', s') => fetch_run fuel secret st' s'
      | None => (st, s)
      end
  end.

(** It does what the sequential model says; eight statements are all there
    are. *)
Lemma fetch_run_alone {W} secret p (w : W) r p' w' :
  fetchCredentialsIniFromSecret secret (p, w) = (r, (p', w')) ->
  fetch_run 8 secret Start (p, false) = (Returned r, (p', false)) /\ w' = w.
Proof.
  unfold fetchCredentialsIniFromSecret. cbn [fetch_run fetch_step].
  destruct (secret !! kubeCredentialCredentials) as [creds|] eqn:Es; [|by intros [= <- <- <-]].
  unfold mbind, M_bind, TempFile. cbn [fst].
  destruct (os_TempFile "alibaba-creds-*" (proc_files p)) as [e|f]; [by intros [= <- <- <-]|].
  unfold defer, WriteFile. cbn [fetch_run fetch_step]. rewrite Es. cbn [default from_option id].
  destruct (os_Write f creds) as [e|]; cbn; by intros [= <- <- <-].
Qed.

(** ** The system *)

Abbreviation System := (Shared * gmap nat (Secret * stage))%type.

Definition file_of (st : stage) : option string :=
  match st with
  | Start | Returned _ => None
  | Created f | Written f | Entered f | Exported f => Some f
  | Resolved f _ | Cleared f _ | Left f _ => Some f
  end.

(** What the rest of the process and the system may do: anything but set the
    variable or touch a caller's file. *)
Definition unrelated (T : gmap nat (Secret * stage)) (p p' : Process) : Prop :=
  proc_env p' !! ENVCredentialFile = proc_env p !! ENVCredentialFile /\
  forall i secret st f, T !! i = Some (secret, st) -> file_of st = Some f ->
    proc_files p' !! f = proc_files p !! f.

Inductive caller_step : System -> System -> Prop :=
  | caller_call s T i secret : T !! i = None -> caller_step (s, T) (s, <[i := (secret, Start)]> T)
  | caller_advance s s' T i secret st st' :
      T !! i = Some (secret, st) -> fetch_step secret st s = Some (st', s') ->
      caller_step (s, T) (s', <[i := (secret, st')]> T)
  | caller_other p p' locked T :
      unrelated T p p' -> caller_step ((p, locked), T) ((p', locked), T).

(** ** The invariant *)

(** The profile provider reads the file the variable names, and what else that
    file names, such as the private key of a profile of a key pair;
    [self_contained] credentials name no other file. *)
Class ProfileLaws (self_contained : string -> bool) : Prop := {
  resolve_file profile p f creds :
    proc_env p !! ENVCredentialFile = Some f -> proc_files p !! f = Some creds ->
    self_contained creds = true ->
    profile_Resolve (C := C) profile p =
    profile_Resolve profile (mkProcess {[ENVCredentialFile := f]} {[f := creds]});
}.

(** The result of a caller with this secret, whoever else is there: what the
    provider made of a process in which the variable names a file with its data,
    and nothing else of that process matters when the data are self-contained; or
    an error before that, for want of the data or from the file system. *)
Definition of_secret (self_contained : string -> bool) (secret : Secret) (r : result C) : Prop :=
  (exists p f creds, secret !! kubeCredentialCredentials = Some creds /\
     proc_env p !! ENVCredentialFile = Some f /\ proc_files p !! f = Some creds /\
     r = profile_Resolve "default" p /\
     (self_contained creds = true ->
      r = profile_Resolve "default" (mkProcess {[ENVCredentialFile := f]} {[f := creds]}))) \/
  exists e, r = Err e /\
    (secret !! kubeCredentialCredentials = None \/
     (exists files, os_TempFile "alibaba-creds-*" files = inl e) \/
     exists f creds, secret !! kubeCredentialCredentials = Some creds /\ os_Write f creds = Some e).
Context (self_contained : string -> bool).

(** Between the lock and its release. *)
Definition critical (st : stage) : bool :=
  match st with Entered _ | Exported _ | Resolved _ _ | Cleared _ _ => true | _ => false end.

Definition has_file p f (secret : Secret) : Prop :=
  exists creds, secret !! kubeCredentialCredentials = Some creds /\ proc_files p !! f = Some creds.

(** What a caller at a stage knows. *)
Definition caller_ok p (locked : bool) (secret : Secret) (st : stage) : Prop :=
  (critical st = true -> locked = true) /\
  (forall f, file_of st = Some f -> is_Some (proc_files p !! f)) /\
  match st with
  | Start => True
  | Created f => is_Some (secret !! kubeCredentialCredentials)
  | Written f | Entered f => has_file p f secret
  | Exported f => has_file p f secret /\ proc_env p !! ENVCredentialFile = Some f
  | Resolved _ r | Cleared _ r | Left _ r | Returned r => of_secret self_contained secret r
  end.

Record invariant (x : System) : Prop := mkInvariant {
  inv_callers : forall i secret st, x.2 !! i = Some (secret, st) -> caller_ok x.1.1 x.1.2 secret st;
  inv_files : forall i j si sj sti stj f, x.2 !! i = Some (si, sti) -> x.2 !! j = Some (sj, stj) ->
    file_of sti = Some f -> file_of stj = Some f -> i = j;
  inv_mutex : forall i j si sj sti stj, x.2 !! i = Some (si, sti) -> x.2 !! j = Some (sj, stj) ->
    critical sti = true -> critical stj = true -> i = j;
  inv_held : x.1.2 = true -> exists i secret st, x.2 !! i = Some (secret, st) /\ critical st = true;
}.

(** A caller knows the same after a change that leaves its file and, inside the
    critical section, the variable and the lock. *)
Lemma caller_ok_frame p p' locked locked' secret st :
  (forall f, file_of st = Some f -> proc_files p' !! f = proc_files p !! f) ->
  (critical st = true ->
     locked' = locked /\ proc_env p' !! ENVCredentialFile = proc_env p !! ENVCredentialFile) ->
  caller_ok p locked secret st -> caller_ok p' locked' secret st.
Proof.
  intros Hf Hc (Hl & Hfile & Hst). split_and!.
  - intros Hcr. destruct (Hc Hcr) as [-> _]. auto.
  - intros f E. rewrite (Hf f E). auto.
  - assert (forall f, file_of st = Some f -> has_file p f secret -> has_file p' f secret) as Hhas.
    { intros f E (creds & Es & Ef). exists creds. by rewrite (Hf f E). }
    destruct st; cbn in *; auto. destruct Hst as [Hh He]. destruct (Hc eq_refl) as [_ ->]. auto.
Qed.

(** A statement of one caller: what the invariant needs of it. *)
Lemma invariant_step p p' locked locked' T i secret st st' :
  T !! i = Some (secret, st) -> invariant ((p, locked), T) ->
  caller_ok p' locked' secret st' ->
  (forall f, is_Some (proc_files p !! f) -> file_of st <> Some f ->
     proc_files p' !! f = proc_files p !! f) ->
  (critical st = false -> locked = true ->
     locked' = locked /\ proc_env p' !! ENVCredentialFile = proc_env p !! ENVCredentialFile) ->
  (forall f, file_of st' = Some f -> file_of st = Some f \/ proc_files p !! f = None) ->
  (critical st' = true -> critical st = true \/ locked = false) ->
  (locked' = true -> critical st' = true \/ critical st = false /\ locked = true) ->
  invariant ((p', locked'), <[i := (secret, st')]> T).
Proof.
  intros Hi [Hok Hfiles Hmutex Hheld] Hst' Hp Henv Hnew Hcrit Hlock.
  cbn [fst snd] in Hok, Hfiles, Hmutex, Hheld.
  assert (forall j sj stj f, T !! j = Some (sj, stj) -> i <> j -> file_of stj = Some f ->
    file_of st' = Some f -> False) as Hdiff.
  { intros j sj stj f Hj Hne Hfj Hf'. destruct (Hnew f Hf') as [Hf|Hno].
    - by apply Hne, (Hfiles i j secret sj st stj f).
    - destruct (Hok j sj stj Hj) as (_ & Hsome & _). destruct (Hsome f Hfj) as [? E]. by rewrite Hno in E. }
  assert (forall j sj stj, T !! j = Some (sj, stj) -> i <> j -> critical stj = true ->
    critical st' = true -> False) as Hexcl.
  { intros j sj stj Hj Hne Hcj Hc'. destruct (Hcrit Hc') as [Hc| ->].
    - by apply Hne, (Hmutex i j secret sj st stj).
    - destruct (Hok j sj stj Hj) as [Hl _]. by discriminate (Hl Hcj). }
  split; cbn [fst snd].
  - intros j sj stj [[<- [= <- <-]]|[Hne Hj]]%lookup_insert_Some; [done|].
    destruct (Hok j sj stj Hj) as (Hl & Hsome & Hst). apply (caller_ok_frame p p' locked locked'); [| |by split].
    + intros f Hf. apply Hp; [by apply Hsome|]. intros Hfi. by apply Hne, (Hfiles i j secret sj st stj f).
    + intros Hc. apply Henv; [|by apply Hl]. apply not_true_iff_false. intros Hci.
      by apply Hne, (Hmutex i j secret sj st stj).
  - intros j1 j2 s1 s2 st1 st2 f [[<- [= <- <-]]|[Hne1 Hj1]]%lookup_insert_Some
      [[<- [= <- <-]]|[Hne2 Hj2]]%lookup_insert_Some Hf1 Hf2; [done|..].
    + by destruct (Hdiff j2 s2 st2 f).
    + by destruct (Hdiff j1 s1 st1 f).
    + by eapply (Hfiles j1 j2).
  - intros j1 j2 s1 s2 st1 st2 [[<- [= <- <-]]|[Hne1 Hj1]]%lookup_insert_Some
      [[<- [= <- <-]]|[Hne2 Hj2]]%lookup_insert_Some Hc1 Hc2; [done|..].
    + by destruct (Hexcl j2 s2 st2).
    + by destruct (Hexcl j1 s1 st1).
    + by eapply (Hmutex j1 j2).
  - intros Hl. destruct (Hlock Hl) as [Hc|[Hc Hl0]].
    + exists i, secret, st'. by rewrite lookup_insert_eq.
    + destruct (Hheld Hl0) as (j & sj & stj & Hj & Hcj). exists j, sj, stj. split; [|done].
      rewrite lookup_insert_ne; [done|]. intros ->. simplify_eq. by rewrite Hc in Hcj.
Qed.
End callers.

Ltac step_tac :=
  eapply invariant_step; [done|done|split_and!|..]; cbn;
  try (intros; simplify_eq; by eauto); intros; simplify_eq; try done.

Section theorems.
Context {C : Type} `{!GoOs} `{!GoOsLaws} `{!ProfileProvider C}.
Context (self_contained : string -> bool) `{!ProfileLaws (C := C) self_contained}.

Lemma advance_invariant T i secret st s st' s' :
  T !! i = Some (secret, st) -> fetch_step secret st s = Some (st', s') ->
  invariant (C := C) self_contained (s, T) -> invariant self_contained (s', <[i := (secret, st')]> T).
Proof.
  destruct s as [p locked]. intros Hi Hstep Hinv.
  destruct (inv_callers _ _ Hinv i secret st Hi) as (Hl & Hsome & Hst). cbn in Hl, Hsome.
  destruct st as [|f|f|f|f|f r|f r|f r|r]; cbn in Hstep, Hl, Hsome, Hst.
  - destruct (secret !! kubeCredentialCredentials) as [creds|] eqn:Es; [|simplify_eq; step_tac; right; by eauto].
    destruct (os_TempFile _ _) as [e|f] eqn:Et; simplify_eq; [step_tac; right; by eauto 8|].
    apply TempFile_fresh in Et. step_tac.
    + rewrite lookup_insert_eq. by eexists.
    + rewrite lookup_insert_ne; [done|]. intros ->.
      match goal with Hf : is_Some _ |- _ => rewrite Et in Hf; by destruct Hf end.
  - destruct Hst as [creds Es]. rewrite Es in Hstep. cbn in Hstep.
    destruct (os_Write f creds) as [e|] eqn:Ew; simplify_eq; [step_tac; right; by eauto 10|]. step_tac.
    + rewrite lookup_insert_eq. by eexists.
    + exists creds. split; [done|apply lookup_insert_eq].
    + by rewrite lookup_insert_ne by congruence.
  - destruct locked; simplify_eq. by step_tac.
  - simplify_eq. step_tac. by rewrite lookup_insert_eq.
  - simplify_eq. step_tac. destruct Hst as ((creds & Es & Ef) & He).
    left. exists p, f, creds. split_and!; [done..|]. by apply (resolve_file "default").
  - simplify_eq. by step_tac.
  - simplify_eq. by step_tac.
  - simplify_eq. step_tac. by rewrite lookup_delete_ne by congruence.
  - done.
Qed.
Lemma caller_step_invariant x y : caller_step x y -> invariant (C := C) self_contained x -> invariant self_contained y.
Proof.
  intros [s T i secret Hi|s s' T i secret st st' Hi Hstep|p p' locked T [Henv Hfiles]] Hinv.
  - destruct Hinv as [Hok Hf Hm Hh]. split; cbn [fst snd] in *.
    + intros j sj stj [[<- [= <- <-]]|[_ Hj]]%lookup_insert_Some; [by split_and!|by eapply Hok].
    + intros j1 j2 s1 s2 st1 st2 f [[<- [= <- <-]]|[_ Hj1]]%lookup_insert_Some
        [[<- [= <- <-]]|[_ Hj2]]%lookup_insert_Some Hf1 Hf2; [done..|]. by eapply (Hf j1 j2).
    + intros j1 j2 s1 s2 st1 st2 [[<- [= <- <-]]|[_ Hj1]]%lookup_insert_Some
        [[<- [= <- <-]]|[_ Hj2]]%lookup_insert_Some Hc1 Hc2; [done..|]. by eapply (Hm j1 j2).
    + intros Hl. destruct (Hh Hl) as (j & sj & stj & Hj & Hc). exists j, sj, stj. split; [|done].
      rewrite lookup_insert_ne; [done|]. intros ->. by rewrite Hi in Hj.
  - by eapply advance_invariant.
  - destruct Hinv as [Hok Hf Hm Hh]. split; try done. intros i secret st Hi.
    apply (caller_ok_frame self_contained p p' locked locked); [|by intros|by eapply (Hok i)].
    intros f E. by eapply Hfiles.
Qed.

(** A caller that has not returned can go on, or waits for one that can. *)
Lemma fetch_progress p locked T i secret st :
  invariant (C := C) self_contained ((p, locked), T) -> T !! i = Some (secret, st) ->
  (exists r, st = Returned r) \/
  exists j sj stj, T !! j = Some (sj, stj) /\ is_Some (fetch_step sj stj (p, locked)).
Proof.
  intros Hinv Hi.
  assert (is_Some (fetch_step secret st (p, locked)) \/ (exists r, st = Returned r) \/ locked = true) as Hcase.
  { destruct st as [|f|f|f|f|f r|f r|f r|r]; cbn; try (left; by eexists); [| | |right; left; by eexists].
    - left. destruct (secret !! _); [|by eexists]. destruct (os_TempFile _ _); by eexists.
    - left. destruct (os_Write _ _); by eexists.
    - destruct locked; [by right; right|left; by eexists]. }
  destruct Hcase as [Hs|[Hr| ->]]; [right; by exists i, secret, st|by left|right].
  destruct (inv_held _ _ Hinv eq_refl) as (j & sj & stj & Hj & Hc). exists j, sj, stj. split; [done|].
  destruct stj; try done; by eexists.
Qed.

(** C16. Concurrent callers get their own credentials.  From a process without
    callers, through any interleaving of any number of them with the rest of
    the process, which is free to do anything but set the variable or touch a
    caller's file: what a caller returns is what the provider made of a process
    whose variable names a file with its own secret's data, though all of them
    pass through one variable, and depends on nothing else when the data name
    no other file; or it is the error of its own secret or file.  At most one
    is between the lock and its release; and as long as one has not returned,
    some caller can take a step. *)
Theorem fetch_isolated p0 p locked T :
  rtc caller_step ((p0, false), ∅) ((p, locked), T) ->
  (forall i secret r, T !! i = Some (secret, Returned r) -> of_secret (C := C) self_contained secret r) /\
  (forall i j si sj sti stj, T !! i = Some (si, sti) -> T !! j = Some (sj, stj) ->
     critical sti = true -> critical stj = true -> i = j) /\
  (forall i secret st, T !! i = Some (secret, st) -> (exists r, st = Returned r) \/
     exists j sj stj, T !! j = Some (sj, stj) /\ is_Some (fetch_step sj stj (p, locked))).
Proof.
  intros Hrtc. assert (invariant (C := C) self_contained ((p, locked), T)) as Hinv.
  { refine (rtc_ind_r (invariant self_contained) _ _ _ _ Hrtc); [by split|]. intros x y _ Hstep. by apply caller_step_invariant. }
  split_and!.
  - intros i secret r Hi. by destruct (inv_callers _ _ Hinv i secret _ Hi) as (_ & _ & Hr).
  - apply (inv_mutex _ _ Hinv).
  - intros i secret st. by apply fetch_progress.
Qed.
End theorems.

(** ** A concrete run *)

(** One turn of a caller, if it can take it. *)
Definition turn {C} `{!GoOs} `{!ProfileProvider C} (x : Process * bool * gmap nat (Secret * stage (C := C))) (i : nat) :=
  match x.2 !! i with
  | Some (secret, st) =>
      match fetch_step secret st x.1 with
      | Some (st', s') => (s', <[i := (secret, st')]> x.2)
      | None => x
      end
  | None => x
  end.

Lemma turns_steps {C} `{!GoOs} `{!ProfileProvider C} schedule x :
  rtc (caller_step (C := C)) x (fold_left turn schedule x).
Proof.
  revert x. induction schedule as [|i schedule IH]; intros [s T]; cbn; [done|].
  etrans; [|apply IH]. unfold turn. cbn. destruct (T !! i) as [[secret st]|] eqn:Ei; [|done].
  destruct (fetch_step secret st s) as [[st' s']|] eqn:Es; [|done].
  by apply rtc_once, (caller_advance _ _ _ _ _ st).
Qed.

(** A file gets the first of a few names that is free, and the provider's
    credential is the content. *)
Definition freshOs : GoOs := {|
  os_TempFile _ files :=
    match List.find (fun name => bool_decide (files !! name = None))
            ["/tmp/alibaba-creds-1"; "/tmp/alibaba-creds-2"; "/tmp/alibaba-creds-3"] with
    | Some name => inr name
    | None => inl (ErrorString "file exists")
    end;
  os_Write _ _ := None;
|}.
Lemma freshOs_laws : @GoOsLaws freshOs.
Proof.
  split. intros pattern files name. cbn -[List.find]. destruct (List.find _ _) eqn:E; [|done].
  intros [= <-]. apply List.find_some in E as [_ E]. by apply bool_decide_eq_true in E.
Qed.
Lemma simProfile_laws : ProfileLaws (C := string) (fun _ => true).
Proof.
  split. intros profile p f creds He Hf _. cbn in *. rewrite He. cbn. rewrite Hf.
  rewrite lookup_insert_eq. cbn. by rewrite lookup_singleton_eq.
Qed.

Definition two_callers : gmap nat (Secret * stage (C := string)) :=
  {[0%nat := ({["credentials" := "[a]"]}, Start); 1%nat := ({["credentials" := "[b]"]}, Start)]}.

(** Two callers, in turns; the second waits while the first has the lock. *)
Definition two_run :=
  fold_left (turn (H := freshOs)) [0; 1; 0; 1; 0; 1; 0; 1; 0; 0; 1; 0; 1; 1; 1; 0; 1; 1; 1]%nat
    ((mkProcess ∅ ∅, false), two_callers).

Lemma fetch_isolated_witness :
  two_run = ((mkProcess ∅ ∅, false),
    {[0%nat := ({["credentials" := "[a]"]}, Returned (Ok "[a]"));
      1%nat := ({["credentials" := "[b]"]}, Returned (Ok "[b]"))]}) /\
  of_secret (C := string) (H := freshOs) (fun _ => true) {["credentials" := "[a]"]} (Ok "[a]").
Proof.
  assert (two_run = ((mkProcess ∅ ∅, false),
    {[0%nat := ({["credentials" := "[a]"]}, Returned (Ok "[a]"));
      1%nat := ({["credentials" := "[b]"]}, Returned (Ok "[b]"))]})) as Erun by by vm_compute.
  split; [exact Erun|].
  assert (rtc (caller_step (H := freshOs)) ((mkProcess ∅ ∅, false), ∅) two_run) as Hrun.
  { eapply rtc_l; [by apply (caller_call _ _ 1%nat {["credentials" := "[b]"]})|].
    eapply rtc_l; [by apply (caller_call _ _ 0%nat {["credentials" := "[a]"]})|]. apply turns_steps. }
  rewrite Erun in Hrun.
  by apply (proj1 (@fetch_isolated _ freshOs freshOs_laws _ _ simProfile_laws _ _ _ _ Hrun) 0%nat).
Defined.
