(* ===== verification/Version.v ===== *)
(** * The version string and the utilities

    [pkg/version/version.go] and [pkg/utils/utils.go].  The version is parsed
    when the process starts, before [main]; semver is a library, a parameter. *)

From S2P Require Import GoStrings Api Credential.

(** [semver.Parse]; [semver.MustParse] panics where it fails. *)
Class Semver (V : Type) := semver_Parse : string -> error + V.

Section version.
Context {V : Type} `{!Semver V}.

Definition semver_MustParse {S} (s : string) : M S V :=
  match semver_Parse s with
  | inr v => mret v
  | inl err => panic ("semver: " +:+ Error err)
  end.

Definition parseVersionOrFallback {S} (raw : string) : M S V :=
  match semver_Parse (TrimLeft1 "v" raw) with
  | inr v => mret v
  | inl _ => semver_MustParse "0.0.0-dev"
  end.
End version.

Definition Raw : string := "v0.1.0-alpha.1".

(** The variables the build sets. *)
Record BuildVars := mkBuildVars {
  gitMajor : string;
  gitMinor : string;
  gitVersion : string;
  gitCommit : string;
  gitTreeState : string;
  buildDate : string;
  gitReleaseTag : string;
  gitReleaseCommit : string;
  gitBranch : string;
}.

Record Info := mkInfo {
  vi_Major : string;
  vi_Minor : string;
  vi_GitVersion : string;
  vi_GitCommit : string;
  vi_GitTreeState : string;
  vi_BuildDate : string;
  vi_GoVersion : string;
  vi_Compiler : string;
  vi_Platform : string;
  vi_GitReleaseTag : string;
  vi_GitReleaseCommit : string;
  vi_GitBranch : string;
}.

(** The constants of package [runtime]. *)
Record GoRuntime := mkGoRuntime { rt_Version : string; rt_Compiler : string; rt_GOOS : string; rt_GOARCH : string }.

Definition GetVersionInfo (b : BuildVars) (rt : GoRuntime) : Info :=
  mkInfo (gitMajor b) (gitMinor b) (gitVersion b) (gitCommit b) (gitTreeState b) (buildDate b)
    (rt_Version rt) (rt_Compiler rt) (rt_GOOS rt +:+ "/" +:+ rt_GOARCH rt)
    (gitReleaseTag b) (gitReleaseCommit b) (gitBranch b).

Definition Info_String (info : Info) : string := vi_GitVersion info.

Section print.
Context `{!GoFmt}.

Definition PrintShortDirtyVersionInfo (b : BuildVars) : string :=
  "Version Info: GitReleaseTag: " +:+ fmt_q (gitReleaseTag b) +:+ ", MajorVersion: " +:+
  fmt_q (gitMajor b) +:+ ", MinorVersion:" +:+ fmt_q (gitMinor b) +:+ ", GitReleaseCommit:" +:+
  fmt_q (gitReleaseCommit b) +:+ ", GitTreeState:" +:+ fmt_q (gitTreeState b).

Definition PrintShortCleanVersionInfo (b : BuildVars) : string :=
  "Version Info: GitReleaseTag: " +:+ fmt_q (gitReleaseTag b) +:+ ", MajorVersion: " +:+
  fmt_q (gitMajor b) +:+ ", MinorVersion:" +:+ fmt_q (gitMinor b).

Definition PrintVerboseVersionInfo (b : BuildVars) : string :=
  "Version Info: GitReleaseTag: " +:+ fmt_q (gitReleaseTag b) +:+ ", Major: " +:+
  fmt_q (gitMajor b) +:+ ", Minor: " +:+ fmt_q (gitMinor b) +:+ ", GitRelaseCommit: " +:+
  fmt_q (gitReleaseCommit b) +:+ ",Git Branch: " +:+ fmt_q (gitBranch b) +:+ ",Git commit: " +:+
  fmt_q (gitCommit b) +:+ ",Git tree state: " +:+ fmt_q (gitTreeState b).
End print.

(** ** Utilities *)

Definition ByteArray2String (byteVal : list ascii) : string := string_of_list_ascii byteVal.

(** The error of [strconv.Atoi] is passed on; its text is not looked at. *)
Definition String2IntPointer (numError : string -> error) (value : string) : error + Z :=
  match Atoi value with
  | Some intVal => inr intVal
  | None => inl (numError value)
  end.

(** ** Theorems *)

(** The version never stops the process from starting: whatever string the
    build put in, a version comes out without a panic, namely the one the
    string denotes, with any leading v's dropped, or the fallback. *)
Theorem parseVersionOrFallback_total {V} `{!Semver V} {S} dev raw (s : S) :
  semver_Parse "0.0.0-dev" = inr dev ->
  parseVersionOrFallback raw s =
    (Ok (match semver_Parse (TrimLeft1 "v" raw) with inr v => v | inl _ => dev end), s).
Proof.
  intros Hdev. unfold parseVersionOrFallback, semver_MustParse. rewrite Hdev.
  by destruct (semver_Parse (TrimLeft1 _ _)).
Qed.

Lemma String2IntPointer_range numError value n :
  String2IntPointer numError value = inr n -> (- 2 ^ 63 <= n < 2 ^ 63)%Z.
Proof.
  unfold String2IntPointer. destruct (Atoi value) as [m|] eqn:E; [|done]. intros [= <-].
  by eapply Atoi_range.
Qed.

(** A parser that accepts what starts with a digit. *)
#[export] Instance simSemver : Semver string := fun s =>
  match s with
  | String c _ => match digit_value c with Some _ => inr s | None => inl (ErrorString "No Major.Minor.Patch elements found") end
  | _ => inl (ErrorString "Version string empty")
  end.

Lemma parseVersionOrFallback_total_witness :
  parseVersionOrFallback "v0.1.0-alpha.1" () = (Ok "0.1.0-alpha.1", ()) /\
  parseVersionOrFallback "dirty-7df900c" () = (Ok "0.0.0-dev", ()).
Proof.
  split.
  - exact (parseVersionOrFallback_total "0.0.0-dev" "v0.1.0-alpha.1" () eq_refl).
  - exact (parseVersionOrFallback_total "0.0.0-dev" "dirty-7df900c" () eq_refl).
Defined.
