(* ===== verification/Memory.v ===== *)
(** * Go memory, and copies of what is in it

    The objects of the API hold pointers, slices and maps, so two values can
    share memory: an assignment between structs copies the references, not what
    they refer to.  The rest of the development reads objects as values; here
    they are laid out in a heap, to say what a deep copy is ([deep]) and to give
    the lemmas by which the generated copy functions ([DeepCopy]) are shown to
    be one.

    A Go type is described by a [gtype].  [holds t v d], at a heap and within a
    set of locations, says that [v] is a value of type [t] with content [d]: all
    it can reach lies in the set and is well typed, and [d] is what is read by
    following every reference. *)

From S2P Require Import Api.

Open Scope Z_scope.

Abbreviation loc := positive.

(** ** Types, values and heaps *)

(** Types without references: strings, integers, booleans and floats, and the
    structs of other packages that only hold such fields. *)
Inductive kind := KString | KInt | KBool | KFloat | KForeign (type : string).

Inductive gtype :=
  | Data (k : kind)
  | Ptr (t : gtype)
  | Slice (t : gtype)
  | Map (t : gtype)                          (* keyed by strings *)
  | Struct (fields : list (string * gtype))
  | Ext (name : string).                     (* a type of another package that has references *)

Inductive data :=
  | DString (s : string)
  | DInt (z : Z)
  | DBool (b : bool)
  | DFloat (f : float64)
  | DForeign (type : string) (fields : list data).

(** A slice is an array, an offset and a length. *)
Inductive value :=
  | VData (x : data)
  | VPtr (p : option loc)
  | VSlice (s : option (loc * nat * nat))
  | VMap (m : option loc)
  | VStruct (fields : gmap string value)
  | VExt (x : list value).

Inductive cell :=
  | CVal (v : value)
  | CArr (vs : list value)
  | CMap (m : gmap string value).

Abbreviation heap := (gmap loc cell).

(** The content of a value. *)
Inductive tree :=
  | TData (x : data)
  | TNil
  | TPtr (d : tree)
  | TSlice (ds : list tree)
  | TMap (m : gmap string tree)
  | TStruct (fields : gmap string tree)
  | TExt (ds : list tree).

Definition data_kind (x : data) : kind :=
  match x with
  | DString _ => KString
  | DInt _ => KInt
  | DBool _ => KBool
  | DFloat _ => KFloat
  | DForeign type _ => KForeign type
  end.

(** The types of other packages, and the order in which Go ranges over a map, are
    parameters. *)
Class GoTypes := {
  foreign_zero : string -> list data;
  ext_zero : string -> value;
  ext_holds : gset loc -> heap -> string -> value -> tree -> Prop;
  ext_DeepCopy : string -> value -> heap -> option (value * heap);
  map_range : gmap string value -> list (string * value);
}.

Definition zero_data `{!GoTypes} (k : kind) : data :=
  match k with
  | KString => DString ""
  | KInt => DInt 0
  | KBool => DBool false
  | KFloat => DFloat (S754_zero false)
  | KForeign type => DForeign type (foreign_zero type)
  end.

Fixpoint zero `{!GoTypes} (t : gtype) : value :=
  match t with
  | Data k => VData (zero_data k)
  | Ptr _ => VPtr None
  | Slice _ => VSlice None
  | Map _ => VMap None
  | Struct fields =>
      VStruct ((fix go fields := match fields with
                | [] => ∅
                | (f, t) :: fields => <[f := zero t]> (go fields)
                end) fields)
  | Ext name => ext_zero name
  end.

Fixpoint holds `{!GoTypes} (F : gset loc) (h : heap) (t : gtype) (v : value) (d : tree) : Prop :=
  match t with
  | Data k => exists x, v = VData x /\ d = TData x /\ data_kind x = k
  | Ptr t => v = VPtr None /\ d = TNil \/
      exists l x dx, v = VPtr (Some l) /\ d = TPtr dx /\ l ∈ F /\ h !! l = Some (CVal x) /\
        holds F h t x dx
  | Slice t => v = VSlice None /\ d = TNil \/
      exists l off len arr ds, v = VSlice (Some (l, off, len)) /\ d = TSlice ds /\ l ∈ F /\
        h !! l = Some (CArr arr) /\ (off + len <= length arr)%nat /\
        Forall2 (holds F h t) (take len (drop off arr)) ds
  | Map t => v = VMap None /\ d = TNil \/
      exists l m dm, v = VMap (Some l) /\ d = TMap dm /\ l ∈ F /\ h !! l = Some (CMap m) /\
        map_relation (fun _ => holds F h t) (fun _ _ => False) (fun _ _ => False) m dm
  | Struct fields =>
      exists m dm, v = VStruct m /\ d = TStruct dm /\
        dom m = list_to_set fields.*1 /\ dom dm = list_to_set fields.*1 /\
        (fix go fields := match fields with
         | [] => True
         | (f, t) :: fields => (exists x dx, m !! f = Some x /\ dm !! f = Some dx /\ holds F h t x dx) /\
                               go fields
         end) fields
  | Ext name => ext_holds F h name v d
  end.

(** ** Statements

    A statement changes the heap, or fails: a nil dereference, an index out of
    range, or a value that is not of the type the code expects. *)

Definition Mem (A : Type) : Type := heap -> option (A * heap).
#[export] Instance Mem_ret : MRet Mem := fun A a h => Some (a, h).
#[export] Instance Mem_bind : MBind Mem := fun A B k m h =>
  match m h with
  | Some (a, h') => k a h'
  | None => None
  end.

Definition fail {A} : Mem A := fun _ => None.
Definition alloc (c : cell) : Mem loc := fun h =>
  let l := fresh (dom h) in Some (l, <[l := c]> h).
Definition load (l : loc) : Mem cell := fun h => (fun c => (c, h)) <$> h !! l.
Definition store (l : loc) (c : cell) : Mem () := fun h =>
  match h !! l with
  | Some _ => Some ((), <[l := c]> h)
  | None => None
  end.

(** Access through a pointer, to an element of an array, to a key of a map. *)
Definition load_val (l : loc) : Mem value :=
  c ← load l; match c with CVal v => mret v | _ => fail end.
Definition load_elem (l : loc) (i : nat) : Mem value :=
  c ← load l;
  match c with
  | CArr vs => match vs !! i with Some v => mret v | None => fail end
  | _ => fail
  end.
Definition store_elem (l : loc) (i : nat) (v : value) : Mem () :=
  c ← load l;
  match c with
  | CArr vs => if decide (i < length vs)%nat then store l (CArr (<[i := v]> vs)) else fail
  | _ => fail
  end.
Definition store_key (l : loc) (k : string) (v : value) : Mem () :=
  c ← load l; match c with CMap m => store l (CMap (<[k := v]> m)) | _ => fail end.

(** ** Copying

    A [copier] is what a [DeepCopyInto] does to [*out], given [*in]. *)

Abbreviation copier := (value -> Mem value).

Section copy.
Context `{!GoTypes}.

(** [*out = *in] *)
Definition assign : copier := fun v => mret v.

(** [if *in != nil { *out = new(T); ... }], with [c] for the copy of [**in] into
    [**out].  This is also what the [DeepCopy] of a type does to its receiver. *)
Definition new (t : gtype) (c : copier) : copier := fun v =>
  match v with
  | VPtr None => mret v
  | VPtr (Some l) =>
      out ← alloc (CVal (zero t));
      x ← load_val l;
      y ← c x;
      store out (CVal y) ;;
      mret (VPtr (Some out))
  | _ => fail
  end.

(** The loop over the elements: the copy of element [i] of [*in] into element [i]
    of [*out], from [i] on. *)
Fixpoint copy_elems (c : copier) (l : loc) (off : nat) (out : loc) (i n : nat) : Mem () :=
  match n with
  | O => mret ()
  | S n =>
      x ← load_elem l (off + i);
      y ← c x;
      store_elem out i y ;;
      copy_elems c l off out (S i) n
  end.

(** [if *in != nil { *out = make(...); ... }] for a slice, element by element; the
    built-in [copy] is the loop that assigns. *)
Definition make_slice (t : gtype) (c : copier) : copier := fun v =>
  match v with
  | VSlice None => mret v
  | VSlice (Some (l, off, len)) =>
      out ← alloc (CArr (replicate len (zero t)));
      copy_elems c l off out 0 len ;;
      mret (VSlice (Some (out, O, len)))
  | _ => fail
  end.

(** The loop over the entries of a map. *)
Fixpoint copy_entries (c : copier) (entries : list (string * value)) (out : loc) : Mem () :=
  match entries with
  | [] => mret ()
  | (k, x) :: entries =>
      y ← c x;
      store_key out k y ;;
      copy_entries c entries out
  end.

Definition make_map (c : copier) : copier := fun v =>
  match v with
  | VMap None => mret v
  | VMap (Some l) =>
      out ← alloc (CMap ∅);
      cell ← load l;
      match cell with
      | CMap m => copy_entries c (map_range m) out ;; mret (VMap (Some out))
      | _ => fail
      end
  | _ => fail
  end.

(** The clauses of a [DeepCopyInto], each for one field, in order. *)
Fixpoint copy_fields (clauses : list (string * copier)) (src out : gmap string value)
    : Mem (gmap string value) :=
  match clauses with
  | [] => mret out
  | (f, c) :: clauses =>
      match src !! f with
      | Some x => y ← c x; copy_fields clauses src (<[f := y]> out)
      | None => fail
      end
  end.

(** [*out = *in], and then the clauses. *)
Definition copy_struct (clauses : list (string * copier)) : copier := fun v =>
  match v with
  | VStruct fields => out ← copy_fields clauses fields fields; mret (VStruct out)
  | _ => fail
  end.

(** A [DeepCopyObject]: the copy as a [runtime.Object], a nil interface for a nil
    pointer. *)
Definition object (type : string) (DeepCopy : copier) : value -> Mem (option (string * loc)) := fun p =>
  c ← DeepCopy p;
  match c with
  | VPtr (Some l) => mret (Some (type, l))
  | VPtr None => mret None
  | _ => fail
  end.
End copy.

(** ** What a content depends on *)

(** In [h'] the cells of [F] are what they are in [h]. *)
Definition agree (F : gset loc) (h h' : heap) : Prop :=
  forall l c, l ∈ F -> h !! l = Some c -> h' !! l = Some c.

Lemma agree_subseteq F h h' : h ⊆ h' -> agree F h h'.
Proof. intros Hs l c _ Hc. by eapply lookup_weaken. Qed.

Lemma agree_mono F F' h h' : F ⊆ F' -> agree F' h h' -> agree F h h'.
Proof. intros HF Ha l c Hl. apply Ha. set_solver. Qed.

Lemma agree_trans F h1 h2 h3 : agree F h1 h2 -> agree F h2 h3 -> agree F h1 h3.
Proof. intros H12 H23 l c Hl Hc. by apply H23, H12. Qed.

Lemma agree_refl F h : agree F h h.
Proof. by intros l c _. Qed.

Lemma agree_insert F h l c : l ∉ F -> agree F h (<[l := c]> h).
Proof. intros Hl l' c' Hl' Hc. rewrite lookup_insert_ne; [done|set_solver]. Qed.

(** The laws of the parameters: contents depend on the reachable cells only, and
    the copy functions of the other packages are deep copies. *)
Class GoTypesLaws `{!GoTypes} : Prop := {
  ext_frame F F' h h' name v d :
    F ⊆ F' -> agree F h h' -> ext_holds F h name v d -> ext_holds F' h' name v d;
  ext_deep name F h v d : ext_holds F h name v d ->
    exists F' v' h', ext_DeepCopy name v h = Some (v', h') /\ h ⊆ h' /\ F' ## dom h /\
      ext_holds F' h' name v' d;
  map_range_perm m : map_range m ≡ₚ map_to_list m;
}.

Section theory.
Context `{!GoTypes} `{!GoTypesLaws}.
Implicit Types (F : gset loc) (h : heap) (t : gtype) (v x : value) (d : tree) (c : copier).

(** Types by induction, with the fields of a struct. *)
Lemma gtype_induction (P : gtype -> Prop) :
  (forall k, P (Data k)) -> (forall t, P t -> P (Ptr t)) -> (forall t, P t -> P (Slice t)) ->
  (forall t, P t -> P (Map t)) ->
  (forall fields, (forall f t, (f, t) ∈ fields -> P t) -> P (Struct fields)) ->
  (forall name, P (Ext name)) -> forall t, P t.
Proof.
  intros HD HP HS HM HF HE. fix IH 1. intros [k|t|t|t|fields|name].
  1: apply HD. 1: apply HP, IH. 1: apply HS, IH. 1: apply HM, IH. 2: apply HE.
  assert (Forall (fun ft => P ft.2) fields) as Hall.
  { induction fields as [|[f t] fields IHf]; constructor; [apply IH|exact IHf]. }
  clear IH. apply HF. intros f t Hin. exact (proj1 (list.Forall_forall _ _) Hall (f, t) Hin).
Qed.

Lemma holds_struct F h fields v d :
  holds F h (Struct fields) v d <->
  exists m dm, v = VStruct m /\ d = TStruct dm /\
    dom m = list_to_set fields.*1 /\ dom dm = list_to_set fields.*1 /\
    forall f t, (f, t) ∈ fields -> exists x dx, m !! f = Some x /\ dm !! f = Some dx /\ holds F h t x dx.
Proof.
  assert (forall (m : gmap string value) (dm : gmap string tree),
    (fix go fields := match fields with
     | [] => True
     | (f, t) :: fields => (exists x dx, m !! f = Some x /\ dm !! f = Some dx /\ holds F h t x dx) /\
                           go fields
     end) fields <->
    forall f t, (f, t) ∈ fields -> exists x dx, m !! f = Some x /\ dm !! f = Some dx /\ holds F h t x dx)
    as Hgo.
  { intros m dm. induction fields as [|[f t] fields IH].
    - split; [|done]. intros _ f t Hin. by apply not_elem_of_nil in Hin.
    - rewrite IH. split.
      + intros [Hx Hr] f' t' [[= -> ->]|Hin]%elem_of_cons; auto.
      + intros Hall. split; [apply Hall; by left|]. intros f' t' Hin. apply Hall. by right. }
  cbn [holds]. split; intros (m & dm & -> & -> & Hm & Hd & Hx); exists m, dm;
    split_and!; try done; by apply Hgo.
Qed.

(** A content depends on the cells it reaches. *)
Lemma holds_frame t : forall F F' h h' v d,
  F ⊆ F' -> agree F h h' -> holds F h t v d -> holds F' h' t v d.
Proof.
  induction t as [k|t IH|t IH|t IH|fields IH|name] using gtype_induction;
    intros F F' h h' v d HF Ha Hv.
  - exact Hv.
  - destruct Hv as [Hv|(l & x & dx & -> & -> & Hl & Hc & Hx)]; [by left|right].
    exists l, x, dx. split_and!; [done|done|set_solver|by apply Ha|by eapply IH].
  - destruct Hv as [Hv|(l & off & len & arr & ds & -> & -> & Hl & Hc & Hlen & Hx)]; [by left|right].
    exists l, off, len, arr, ds. split_and!; [done|done|set_solver|by apply Ha|done|].
    eapply list.Forall2_impl; [exact Hx|]. intros x dx Hxd. by eapply IH.
  - destruct Hv as [Hv|(l & m & dm & -> & -> & Hl & Hc & Hx)]; [by left|right].
    exists l, m, dm. split_and!; [done|done|set_solver|by apply Ha|].
    intros k. specialize (Hx k). destruct (m !! k), (dm !! k); try done. by eapply IH.
  - apply holds_struct in Hv as (m & dm & -> & -> & Hm & Hd & Hx). apply holds_struct.
    exists m, dm. split_and!; [done..|]. intros f t Hin. destruct (Hx f t Hin) as (x & dx & ? & ? & ?).
    exists x, dx. split_and!; [done..|]. by eapply IH.
  - by eapply ext_frame.
Qed.

Lemma holds_weaken t F h h' v d : h ⊆ h' -> holds F h t v d -> holds F h' t v d.
Proof. intros Hs. apply holds_frame; [done|]. by apply agree_subseteq. Qed.

(** ** Deep copies *)

(** [c] copies a value of type [t] deeply: it does not fail, changes no cell,
    and its result has the same content and reaches only cells it allocated. *)
Definition deep t c : Prop := forall F h v d, holds F h t v d ->
  exists F' v' h', c v h = Some (v', h') /\ h ⊆ h' /\ F' ## dom h /\ holds F' h' t v' d.

(** A type without references. *)
Fixpoint flat t : bool :=
  match t with
  | Data _ => true
  | Struct fields =>
      (fix go fields := match fields with
       | [] => true
       | (_, t) :: fields => flat t && go fields
       end) fields
  | _ => false
  end.

Lemma flat_struct fields : flat (Struct fields) = true -> forall f t, (f, t) ∈ fields -> flat t = true.
Proof.
  cbn. induction fields as [|[f t] fields IH]; intros Hf f' t' Hin; [by apply not_elem_of_nil in Hin|].
  apply andb_prop in Hf as [Ht Hf]. apply elem_of_cons in Hin as [[= -> ->]|Hin]; [done|by eapply IH].
Qed.

Lemma holds_flat t : flat t = true -> forall F h F' h' v d, holds F h t v d -> holds F' h' t v d.
Proof.
  induction t as [k|t _|t _|t _|fields IH|name] using gtype_induction; intros Hf F h F' h' v d Hv; try done.
  apply holds_struct in Hv as (m & dm & -> & -> & Hm & Hd & Hx). apply holds_struct.
  exists m, dm. split_and!; [done..|]. intros f t Hin. destruct (Hx f t Hin) as (x & dx & ? & ? & ?).
  exists x, dx. split_and!; [done..|]. eapply IH; [done| |done]. by eapply flat_struct.
Qed.

(** Assignment copies deeply what has no references. *)
Lemma deep_assign t : flat t = true -> deep t assign.
Proof.
  intros Hf F h v d Hv. exists ∅, v, h. split_and!; [done|done|set_solver|]. by eapply holds_flat.
Qed.

Lemma deep_ext name : deep (Ext name) (ext_DeepCopy name).
Proof. intros F h v d Hv. by eapply ext_deep. Qed.

(** A fresh cell. *)
Lemma alloc_run (cl : cell) h : exists l, h !! l = None /\ alloc cl h = Some (l, <[l := cl]> h).
Proof.
  exists (fresh (dom h)). split; [|done]. apply not_elem_of_dom, is_fresh.
Qed.

(** A copy made from the heap [h] has reached [h1]: the cells of [h] are as they
    were, and the cell [out] and the cells of [F1] are new. *)
Definition copying h out F1 h1 : Prop :=
  h !! out = None /\ h ⊆ h1 /\ F1 ## dom h /\ out ∉ F1.

Lemma copying_alloc h out cl : h !! out = None -> copying h out ∅ (<[out := cl]> h).
Proof. intros Ho. split_and!; [done|by apply insert_subseteq|set_solver|set_solver]. Qed.

(** One more value is copied on the way, and the new cell written. *)
Lemma copying_step t c F h v d out F1 h1 cl :
  deep t c -> holds F h t v d -> copying h out F1 h1 -> h1 !! out = Some cl ->
  exists F2 v' h2, c v h1 = Some (v', h2) /\ F1 ⊆ F2 /\ h2 !! out = Some cl /\ forall cl',
    copying h out F2 (<[out := cl']> h2) /\ agree F1 h1 (<[out := cl']> h2) /\
    holds F2 (<[out := cl']> h2) t v' d.
Proof.
  intros Hc Hv (Ho & Hs & HF & HoF) Hcell.
  destruct (Hc F h1 v d) as (F' & v' & h2 & Ec & Hs2 & HF' & Hv'); [by eapply holds_weaken|].
  assert (out ∉ F') as HoF'.
  { intros Hin. apply (HF' out); [done|]. apply elem_of_dom. by eexists. }
  assert (dom h ⊆ dom h1) as Hdom by by apply subseteq_dom.
  exists (F1 ∪ F'), v', h2. split_and!; [done|set_solver|by eapply lookup_weaken|].
  intros cl'. split_and!.
  - split_and!; [done| |set_solver|set_solver].
    apply insert_subseteq_r; [done|by etrans].
  - eapply agree_trans; [by apply agree_subseteq|by apply agree_insert].
  - eapply (holds_frame t F'); [set_solver|by apply agree_insert|done].
Qed.

Lemma deep_new t c : deep t c -> deep (Ptr t) (new t c).
Proof.
  intros Hc F h v d [[-> ->]|(l & x & dx & -> & -> & Hl & Hcell & Hx)].
  { exists ∅, (VPtr None), h. split_and!; [done|done|set_solver|by left]. }
  destruct (alloc_run (CVal (zero t)) h) as (out & Hout & Ealloc).
  pose proof (copying_alloc h out (CVal (zero t)) Hout) as Hcp.
  destruct (copying_step t c F h x dx out ∅ _ (CVal (zero t)) Hc Hx Hcp)
    as (F' & y & h' & Ec & _ & Hout' & Hstep); [apply lookup_insert_eq|].
  destruct (Hstep (CVal y)) as ((_ & Hs & Hd & HoF) & _ & Hy). destruct Hcp as (_ & Hs0 & _).
  exists ({[out]} ∪ F'), (VPtr (Some out)), (<[out := CVal y]> h'). split_and!; [|done| |].
  - unfold new, mbind, Mem_bind. rewrite Ealloc. unfold load_val, load, mbind, Mem_bind.
    rewrite (lookup_weaken _ _ _ _ Hcell Hs0). cbn. rewrite Ec. unfold store. by rewrite Hout'.
  - apply not_elem_of_dom in Hout. set_solver.
  - right. exists out, y, dx. split_and!; [done|done|set_solver|by rewrite lookup_insert_eq|].
    eapply (holds_frame _ F'); [set_solver|apply agree_refl|done].
Qed.

(** The loop over a slice: the first elements are copied, [pre] with the content
    [dpre]; [xs] are the elements that are left. *)
Lemma copy_elems_deep t c (Hc : deep t c) F h l off out arr :
  h !! l = Some (CArr arr) -> forall xs ds pre dpre rest F1 h1,
  copying h out F1 h1 -> h1 !! out = Some (CArr (pre ++ rest)) -> length rest = length xs ->
  (forall i x, xs !! i = Some x -> arr !! (off + (length pre + i))%nat = Some x) ->
  Forall2 (holds F1 h1 t) pre dpre -> Forall2 (holds F h t) xs ds ->
  exists F2 ys h2, copy_elems c l off out (length pre) (length xs) h1 = Some ((), h2) /\
    copying h out F2 h2 /\ h2 !! out = Some (CArr ys) /\ length ys = (length pre + length xs)%nat /\
    Forall2 (holds F2 h2 t) ys (dpre ++ ds).
Proof.
  intros Hl. induction xs as [|x xs IH]; intros ds pre dpre rest F1 h1 Hcp Hout Hlen Hxs Hpre Hds.
  - apply Forall2_nil_inv_l in Hds as ->. destruct rest; [|done]. rewrite !app_nil_r in *.
    exists F1, pre, h1. split_and!; [done|done|done|cbn; lia|done].
  - apply Forall2_cons_inv_l in Hds as (dx & ds' & Hx & Hds & ->).
    destruct rest as [|z rest]; [done|].
    destruct (copying_step t c F h x dx out F1 h1 _ Hc Hx Hcp Hout)
      as (F2 & y & h2 & Ec & HF & Hout2 & Hstep).
    destruct (Hstep (CArr ((pre ++ [y]) ++ rest))) as (Hcp2 & Ha & Hy).
    destruct (IH ds' (pre ++ [y]) (dpre ++ [dx]) rest F2 (<[out := CArr ((pre ++ [y]) ++ rest)]> h2))
      as (F3 & ys & h3 & Er & Hcp3 & Hout3 & Hys & Hall).
    { done. } { by rewrite lookup_insert_eq. } { cbn in Hlen. lia. }
    { intros i x' Hi. rewrite length_app. cbn. specialize (Hxs (S i) x' Hi).
      by replace (length pre + 1 + i)%nat with (length pre + S i)%nat by lia. }
    { apply Forall2_app; [|by constructor]. eapply list.Forall2_impl; [exact Hpre|].
      intros. by eapply holds_frame. }
    { done. }
    rewrite length_app in Er, Hys. cbn in Er, Hys.
    exists F3, ys, h3. split_and!; [|done|done|cbn; lia|by rewrite <- app_assoc in Hall].
    destruct Hcp as (_ & Hs & _).
    specialize (Hxs O x eq_refl). rewrite Nat.add_0_r in Hxs.
    cbn [copy_elems length]. unfold load_elem, load, mbind, Mem_bind.
    rewrite (lookup_weaken _ _ _ _ Hl Hs). cbn. rewrite Hxs. cbn. rewrite Ec.
    unfold store_elem, load, mbind, Mem_bind. rewrite Hout2. cbn.
    rewrite decide_True by (rewrite length_app; cbn; lia).
    unfold store. rewrite Hout2. rewrite insert_app_r_alt, Nat.sub_diag by lia. cbn.
    rewrite <- app_assoc in Er. cbn in Er. by rewrite Nat.add_1_r in Er.
Qed.

Lemma deep_make_slice t c : deep t c -> deep (Slice t) (make_slice t c).
Proof.
  intros Hc F h v d [[-> ->]|(l & off & len & arr & ds & -> & -> & Hl & Hcell & Hlen & Hx)].
  { exists ∅, (VSlice None), h. split_and!; [done|done|set_solver|by left]. }
  destruct (alloc_run (CArr (replicate len (zero t))) h) as (out & Hout & Ealloc).
  assert (length (take len (drop off arr)) = len) as Hn.
  { rewrite length_take, length_drop. lia. }
  destruct (copy_elems_deep t c Hc F h l off out arr Hcell (take len (drop off arr)) ds [] []
    (replicate len (zero t)) ∅ _ (copying_alloc h out (CArr (replicate len (zero t))) Hout))
    as (F' & ys & h' & Er & (_ & Hs & Hd & HoF) & Hout' & Hys & Hall); try done.
  { apply lookup_insert_eq. } { by rewrite length_replicate. }
  { intros i x Hi. apply lookup_take_Some in Hi as [Hi _]. by rewrite lookup_drop in Hi. }
  rewrite Hn in Er, Hys. cbn in Er, Hys.
  exists ({[out]} ∪ F'), (VSlice (Some (out, O, len))), h'. split_and!; [|done| |].
  - unfold make_slice, mbind, Mem_bind. rewrite Ealloc. by rewrite Er.
  - apply not_elem_of_dom in Hout. set_solver.
  - right. exists out, O, len, ys, ds. split_and!; [done|done|set_solver|done|lia|].
    rewrite drop_0, take_ge by lia. eapply list.Forall2_impl; [exact Hall|].
    intros x dx Hxd. eapply (holds_frame _ F'); [set_solver|apply agree_refl|done].
Qed.

(** The loop over a map: the keys of [mo] are copied. *)
Lemma copy_entries_deep t c (Hc : deep t c) F h out (dm : gmap string tree) :
  forall entries F1 h1 mo, copying h out F1 h1 -> h1 !! out = Some (CMap mo) ->
  (forall k y, mo !! k = Some y -> exists dx, dm !! k = Some dx /\ holds F1 h1 t y dx) ->
  (forall k x, (k, x) ∈ entries -> exists dx, dm !! k = Some dx /\ holds F h t x dx) ->
  exists F2 mo' h2, copy_entries c entries out h1 = Some ((), h2) /\
    copying h out F2 h2 /\ h2 !! out = Some (CMap mo') /\
    dom mo' = dom mo ∪ list_to_set entries.*1 /\
    (forall k y, mo' !! k = Some y -> exists dx, dm !! k = Some dx /\ holds F2 h2 t y dx).
Proof.
  induction entries as [|[k x] entries IH]; intros F1 h1 mo Hcp Hout Hmo Hen.
  - exists F1, mo, h1. split_and!; [done|done|done|set_solver|done].
  - destruct (Hen k x) as (dx & Hdx & Hx); [by left|].
    destruct (copying_step t c F h x dx out F1 h1 _ Hc Hx Hcp Hout)
      as (F2 & y & h2 & Ec & HF & Hout2 & Hstep).
    destruct (Hstep (CMap (<[k := y]> mo))) as (Hcp2 & Ha & Hy).
    destruct (IH F2 (<[out := CMap (<[k := y]> mo)]> h2) (<[k := y]> mo))
      as (F3 & mo' & h3 & Er & Hcp3 & Hout3 & Hdom & Hall).
    { done. } { by rewrite lookup_insert_eq. }
    { intros k' y' [[-> ->]|[Hne Hk]]%lookup_insert_Some; [by exists dx|].
      destruct (Hmo k' y' Hk) as (dx' & ? & ?). exists dx'. split; [done|].
      by eapply holds_frame. }
    { intros k' x' Hin. apply Hen. by right. }
    exists F3, mo', h3. split_and!; [|done|done|rewrite Hdom; set_solver|done].
    cbn [copy_entries]. unfold mbind, Mem_bind at 1. rewrite Ec.
    unfold store_key, load, mbind, Mem_bind. rewrite Hout2. cbn.
    unfold store. by rewrite Hout2.
Qed.

Lemma map_content {A B} (R : A -> B -> Prop) (m : gmap string A) (dm : gmap string B) :
  map_relation (fun _ => R) (fun _ _ => False) (fun _ _ => False) m dm <->
  dom m = dom dm /\
  forall (k : string) (a : A), m !! k = Some a -> exists b, dm !! k = Some b /\ R a b.
Proof.
  split.
  - intros Hr. split.
    + apply set_eq. intros k. rewrite !elem_of_dom. specialize (Hr k).
      destruct (m !! k), (dm !! k); cbn in Hr; try done; split; intros [? ?]; try done; by eexists.
    + intros k x Hk. specialize (Hr k). rewrite Hk in Hr. destruct (dm !! k) as [dx|]; [|done].
      by exists dx.
  - intros [Hd Hall] k. destruct (m !! k) as [x|] eqn:Ek.
    + destruct (Hall k x Ek) as (dx & -> & Hx). done.
    + apply not_elem_of_dom in Ek. rewrite Hd in Ek. apply not_elem_of_dom in Ek. by rewrite Ek.
Qed.

Lemma deep_make_map t c : deep t c -> deep (Map t) (make_map c).
Proof.
  intros Hc F h v d [[-> ->]|(l & m & dm & -> & -> & Hl & Hcell & Hx)].
  { exists ∅, (VMap None), h. split_and!; [done|done|set_solver|by left]. }
  apply map_content in Hx as [Hdom Hx].
  destruct (alloc_run (CMap ∅) h) as (out & Hout & Ealloc).
  destruct (copy_entries_deep t c Hc F h out dm (map_range m) ∅ _ ∅
    (copying_alloc h out (CMap ∅) Hout))
    as (F' & mo & h' & Er & (_ & Hs & Hd & HoF) & Hout' & Hmo & Hall).
  { apply lookup_insert_eq. } { done. }
  { intros k x Hin. apply Hx. apply elem_of_map_to_list. by rewrite <- map_range_perm. }
  exists ({[out]} ∪ F'), (VMap (Some out)), h'. split_and!; [|done| |].
  - unfold make_map, load, mbind, Mem_bind. rewrite Ealloc.
    rewrite (lookup_weaken _ _ _ _ Hcell (insert_subseteq _ _ _ Hout)). cbn. by rewrite Er.
  - apply not_elem_of_dom in Hout. set_solver.
  - right. exists out, mo, dm. split_and!; [done|done|set_solver|done|].
    apply map_content. split.
    + rewrite Hmo, <- Hdom, dom_empty_L, (left_id_L ∅ (∪)).
      rewrite (list_to_set_perm_L _ _ (fmap_Permutation fst _ _ (map_range_perm m))).
      unfold_leibniz. symmetry. apply dom_alt.
    + intros k y Hk. destruct (Hall k y Hk) as (dx & ? & ?). exists dx. split; [done|].
      eapply (holds_frame _ F'); [set_solver|apply agree_refl|done].
Qed.

Lemma field_unique (fields : list (string * gtype)) f t t' :
  NoDup fields.*1 -> (f, t) ∈ fields -> (f, t') ∈ fields -> t = t'.
Proof.
  intros Hnd Ht Ht'. apply (elem_of_list_to_map_1 (M := gmap string)) in Ht, Ht'; [|done..].
  by simplify_eq.
Qed.

(** The clauses of a struct: those of [clauses] are left, and the fields of [out]
    without one hold their copies. *)
Lemma copy_fields_deep fields F h (src : gmap string value) (dm : gmap string tree) :
  NoDup fields.*1 ->
  (forall f t, (f, t) ∈ fields ->
    exists x dx, src !! f = Some x /\ dm !! f = Some dx /\ holds F h t x dx) ->
  forall clauses F1 h1 out, h ⊆ h1 -> F1 ## dom h -> dom out = list_to_set fields.*1 ->
  (forall f c, (f, c) ∈ clauses -> f ∈ fields.*1 /\ forall t, (f, t) ∈ fields -> deep t c) ->
  (forall f t, (f, t) ∈ fields -> exists y dx, out !! f = Some y /\ dm !! f = Some dx /\
    (f ∈ clauses.*1 \/ holds F1 h1 t y dx)) ->
  exists F2 out' h2, copy_fields clauses src out h1 = Some (out', h2) /\
    h ⊆ h2 /\ F2 ## dom h /\ dom out' = list_to_set fields.*1 /\
    (forall f t, (f, t) ∈ fields ->
      exists y dx, out' !! f = Some y /\ dm !! f = Some dx /\ holds F2 h2 t y dx).
Proof.
  intros Hnd Hsrc. induction clauses as [|[f c] clauses IH]; intros F1 h1 out Hs HF Hdom Hcl Hout.
  - exists F1, out, h1. split_and!; try done. intros f t Hin.
    destruct (Hout f t Hin) as (y & dx & ? & ? & [Hn|Hy]); [by apply not_elem_of_nil in Hn|].
    by exists y, dx.
  - destruct (Hcl f c) as [Hf Hc]; [by left|].
    pose proof Hf as ([f' t] & -> & Hft)%list_elem_of_fmap. cbn in *.
    destruct (Hsrc f' t Hft) as (x & dx & Ex & Edx & Hx).
    destruct (Hc t Hft F h1 x dx) as (F' & y & h2 & Ec & Hs2 & HF' & Hy); [by eapply holds_weaken|].
    assert (dom h ⊆ dom h1) as Hdh by by apply subseteq_dom.
    destruct (IH (F1 ∪ F') h2 (<[f' := y]> out)) as (F2 & out' & h3 & Er & Hrest).
    + by etrans.
    + set_solver.
    + rewrite dom_insert_L, Hdom. set_solver.
    + intros g c' Hin. apply Hcl. by right.
    + intros g t' Hin. destruct (decide (g = f')) as [->|Hne].
      * exists y, dx. rewrite lookup_insert_eq. split_and!; [done|done|].
        rewrite (field_unique fields f' t' t Hnd Hin Hft).
        right. eapply holds_frame; [|apply agree_refl|done]. set_solver.
      * destruct (Hout g t' Hin) as (y' & dx' & ? & ? & Hy'). exists y', dx'.
        rewrite lookup_insert_ne by done. split_and!; [done|done|].
        destruct Hy' as [[?|?]%elem_of_cons|Hy']; [done|by left|right].
        eapply holds_frame; [| |done]; [set_solver|by apply agree_subseteq].
    + exists F2, out', h3. split; [|exact Hrest].
      cbn [copy_fields]. rewrite Ex. unfold mbind, Mem_bind. by rewrite Ec.
Qed.

(** The clauses of a struct type: each is for a field, and each field that has
    references has one. *)
Fixpoint field (f : string) (fields : list (string * gtype)) : option gtype :=
  match fields with
  | [] => None
  | (g, t) :: fields => if String.eqb f g then Some t else field f fields
  end.

Definition covered (fields : list (string * gtype)) (clauses : list (string * copier)) : bool :=
  forallb (fun '(f, t) => flat t || existsb (String.eqb f) clauses.*1) fields.

Definition clause_deep fields (clause : string * copier) : Prop :=
  exists t, field clause.1 fields = Some t /\ deep t clause.2.

Lemma field_in f fields t : field f fields = Some t -> (f, t) ∈ fields.
Proof.
  induction fields as [|[g t'] fields IH]; cbn; [done|].
  destruct (String.eqb_spec f g) as [->|_]; [intros [= ->]; by left|right; auto].
Qed.

Lemma deep_copy_struct fields clauses :
  bool_decide (NoDup fields.*1) = true -> covered fields clauses = true ->
  Forall (clause_deep fields) clauses -> deep (Struct fields) (copy_struct clauses).
Proof.
  intros Hnd%bool_decide_eq_true Hcov Hcl F h v d Hv.
  apply holds_struct in Hv as (m & dm & -> & -> & Hm & Hd & Hx).
  destruct (copy_fields_deep fields F h m dm Hnd Hx clauses ∅ h m)
    as (F' & out & h' & Er & Hs & HF & Hout & Hall).
  { done. } { set_solver. } { done. }
  { intros f c Hin. rewrite list.Forall_forall in Hcl.
    destruct (Hcl (f, c) Hin) as (t & Ht%field_in & Hc). cbn in *. split.
    - apply list_elem_of_fmap. by exists (f, t).
    - intros t' Hin'. by rewrite (field_unique fields f t' t Hnd Hin' Ht). }
  { intros f t Hin. destruct (Hx f t Hin) as (x & dx & ? & ? & Hxd). exists x, dx.
    split_and!; [done|done|]. unfold covered in Hcov. rewrite forallb_forall in Hcov.
    specialize (Hcov (f, t) (proj1 (list_elem_of_In _ _) Hin)). cbn in Hcov.
    apply orb_prop in Hcov as [Hf|Hf]; [right; by eapply holds_flat|left].
    apply existsb_exists in Hf as (g & Hg & ->%String.eqb_eq). by apply list_elem_of_In. }
  exists F', (VStruct out), h'. split_and!; [|done|done|].
  - unfold copy_struct, mbind, Mem_bind. by rewrite Er.
  - apply holds_struct. by exists out, dm.
Qed.

(** What a caller relies on: the copy has the content of the original, and
    whatever is written later to the cells of one leaves the other as it is. *)
Definition isolates t c : Prop := forall F h v d, F ⊆ dom h -> holds F h t v d ->
  exists F' v' h', c v h = Some (v', h') /\ h ⊆ h' /\ holds F' h' t v' d /\
    (forall h2, (forall l, l ∉ F -> h2 !! l = h' !! l) -> holds F' h2 t v' d) /\
    (forall h2, (forall l, l ∉ F' -> h2 !! l = h' !! l) -> holds F h2 t v d).

Lemma deep_isolates t c : deep t c -> isolates t c.
Proof.
  intros Hc F h v d HF Hv. destruct (Hc F h v d Hv) as (F' & v' & h' & Ec & Hs & Hd & Hv').
  exists F', v', h'. split_and!; [done..| |]; intros h2 Hw.
  - eapply (holds_frame _ F' F' h'); [done| |done]. intros l cl Hl Hcl. rewrite Hw; [done|set_solver].
  - eapply (holds_frame _ F F h); [done| |done]. intros l cl Hl Hcl. rewrite Hw; [|set_solver].
    by eapply lookup_weaken.
Qed.

(** An object is nil when the pointer is, and the copy otherwise. *)
Definition copies_object (type : string) t (o : value -> Mem (option (string * loc))) : Prop :=
  forall F h p d, holds F h (Ptr t) p d ->
    p = VPtr None /\ o p h = Some (None, h) \/
    exists F' l h', p <> VPtr None /\ o p h = Some (Some (type, l), h') /\ h ⊆ h' /\
      F' ## dom h /\ holds F' h' (Ptr t) (VPtr (Some l)) d.

Lemma deep_object type t c : deep t c -> copies_object type t (object type (new t c)).
Proof.
  intros Hc F h p d Hp.
  destruct (deep_new t c Hc F h p d Hp) as (F' & p' & h' & Ec & Hs & Hd & Hp').
  assert (object type (new t c) p h = match p' with
    | VPtr (Some l) => Some (Some (type, l), h')
    | VPtr None => Some (None, h')
    | _ => None end) as Eo.
  { unfold object, mbind, Mem_bind. rewrite Ec. by destruct p' as [|[l|]| | | |]. }
  destruct Hp as [[-> ->]|(l & x & dx & -> & -> & _)].
  - left. split; [done|]. cbn in Ec. by simplify_eq.
  - right. destruct Hp' as [[-> ?]|(l' & x' & dx' & -> & ? & Hrest)]; [done|].
    exists F', l', h'. split_and!; try done. right. by exists l', x', dx'.
Qed.
End theory.

(** The deep copies of the clauses, by the shape of the types. *)
Create HintDb deep.
#[export] Hint Resolve deep_assign deep_ext deep_new deep_make_slice deep_make_map : deep.
#[export] Hint Extern 0 (flat _ = true) => reflexivity : deep.
#[export] Hint Extern 0 (GoTypesLaws) => tc_solve : deep.

Ltac deep_struct :=
  apply deep_copy_struct; [reflexivity|reflexivity|];
  repeat apply Forall_cons_2; try apply Forall_nil_2;
  (eexists; split; [reflexivity|cbn [snd]; auto with deep]).
