(* ===== verification/DeepCopy.v ===== *)
(** * The deep copies of the API types

    The generated functions of [api/v1beta1/zz_generated.deepcopy.go] and
    [api/controlplane/v1beta1/zz_generated.deepcopy.go], over the memory of
    [Memory].  For each struct type [T] of the API: [T_type] is its declaration;
    [T_DeepCopyInto] lists the clauses of [(in *T).DeepCopyInto(out)] in order,
    after its [*out = *in]; [T_DeepCopy] allocates the copy of a pointer that is
    not nil; and [T_DeepCopyObject], for the root types, returns it as a
    [runtime.Object].  The struct types of other packages are [Ext], with
    [ext_DeepCopy] for their own copy functions, when they hold references, and
    [KForeign] when they do not.

    [DeepCopy_isolated]: every one of these functions returns a value with the
    content of the original that shares no memory with it.  A clause that is
    missing for a field with references, or one that assigns such a field, makes
    it false.  This is what the template controller relies on when it keeps
    [tmpl.DeepCopy()] as the base of its patch and goes on to write [tmpl], and
    what every cache of the manager relies on. *)

From S2P Require Import Api Memory.

Open Scope Z_scope.

Section copies.
Context `{!GoTypes}.

Definition Tag_type : gtype := Struct [
    ("Key", Data KString);
    ("Value", Data KString)].
Definition Tag_DeepCopyInto : copier := copy_struct [].
Definition Tag_DeepCopy : copier := new Tag_type Tag_DeepCopyInto.

Definition IgnitionStorageSpec_type : gtype := Struct [
    ("OSSBucket", Data KString);
    ("OSSEndpoint", Data KString);
    ("ExpirySeconds", Data KInt);
    ("MaxUserDataBytes", Data KInt)].
Definition IgnitionStorageSpec_DeepCopyInto : copier := copy_struct [].
Definition IgnitionStorageSpec_DeepCopy : copier :=
  new IgnitionStorageSpec_type IgnitionStorageSpec_DeepCopyInto.

Definition FailureDomain_type : gtype := Struct [
    ("ZoneID", Data KString);
    ("VSwitchID", Data KString)].
Definition FailureDomain_DeepCopyInto : copier := copy_struct [].
Definition FailureDomain_DeepCopy : copier := new FailureDomain_type FailureDomain_DeepCopyInto.

Definition AlibabaCloudClusterSpec_type : gtype := Struct [
    ("Region", Data KString);
    ("VpcID", Data KString);
    ("BootImageID", Data KString);
    ("ResourceGroupID", Data KString);
    ("ControlPlaneEndpoint", Data (KForeign "clusterv1.APIEndpoint"));
    ("AdditionalTags", Slice Tag_type);
    ("IgnitionStorage", Ptr IgnitionStorageSpec_type);
    ("FailureDomains", Slice FailureDomain_type)].
Definition AlibabaCloudClusterSpec_DeepCopyInto : copier := copy_struct [
    ("ControlPlaneEndpoint", assign);
    ("AdditionalTags", make_slice Tag_type assign);
    ("IgnitionStorage", new IgnitionStorageSpec_type assign);
    ("FailureDomains", make_slice FailureDomain_type assign)].
Definition AlibabaCloudClusterSpec_DeepCopy : copier :=
  new AlibabaCloudClusterSpec_type AlibabaCloudClusterSpec_DeepCopyInto.

Definition IgnitionOSSRef_type : gtype := Struct [
    ("Bucket", Data KString);
    ("Endpoint", Data KString);
    ("Key", Data KString)].
Definition IgnitionOSSRef_DeepCopyInto : copier := copy_struct [].
Definition IgnitionOSSRef_DeepCopy : copier :=
  new IgnitionOSSRef_type IgnitionOSSRef_DeepCopyInto.

Definition AlibabaCloudClusterInitializationStatus_type : gtype := Struct [
    ("Provisioned", Ptr (Data KBool))].
Definition AlibabaCloudClusterInitializationStatus_DeepCopyInto : copier := copy_struct [
    ("Provisioned", new (Data KBool) assign)].
Definition AlibabaCloudClusterInitializationStatus_DeepCopy : copier :=
  new AlibabaCloudClusterInitializationStatus_type AlibabaCloudClusterInitializationStatus_DeepCopyInto.

Definition AlibabaCloudClusterStatus_type : gtype := Struct [
    ("Ready", Data KBool);
    ("Initialization", Ptr AlibabaCloudClusterInitializationStatus_type);
    ("VpcID", Data KString);
    ("ControlPlaneEndpoint", Data (KForeign "clusterv1.APIEndpoint"));
    ("SLBInstanceID", Data KString);
    ("FailureDomains", Slice (Ext "clusterv1.FailureDomain"));
    ("Conditions", Slice (Ext "metav1.Condition"))].
Definition AlibabaCloudClusterStatus_DeepCopyInto : copier := copy_struct [
    ("Initialization", new AlibabaCloudClusterInitializationStatus_type
       AlibabaCloudClusterInitializationStatus_DeepCopyInto);
    ("ControlPlaneEndpoint", assign);
    ("FailureDomains", make_slice (Ext "clusterv1.FailureDomain") (ext_DeepCopy "clusterv1.FailureDomain"));
    ("Conditions", make_slice (Ext "metav1.Condition") (ext_DeepCopy "metav1.Condition"))].
Definition AlibabaCloudClusterStatus_DeepCopy : copier :=
  new AlibabaCloudClusterStatus_type AlibabaCloudClusterStatus_DeepCopyInto.

Definition AlibabaCloudCluster_type : gtype := Struct [
    ("TypeMeta", Data (KForeign "metav1.TypeMeta"));
    ("ObjectMeta", Ext "metav1.ObjectMeta");
    ("Spec", AlibabaCloudClusterSpec_type);
    ("Status", AlibabaCloudClusterStatus_type)].
Definition AlibabaCloudCluster_DeepCopyInto : copier := copy_struct [
    ("TypeMeta", assign);
    ("ObjectMeta", ext_DeepCopy "metav1.ObjectMeta");
    ("Spec", AlibabaCloudClusterSpec_DeepCopyInto);
    ("Status", AlibabaCloudClusterStatus_DeepCopyInto)].
Definition AlibabaCloudCluster_DeepCopy : copier :=
  new AlibabaCloudCluster_type AlibabaCloudCluster_DeepCopyInto.
Definition AlibabaCloudCluster_DeepCopyObject : value -> Mem (option (string * loc)) :=
  object "AlibabaCloudCluster" AlibabaCloudCluster_DeepCopy.

Definition AlibabaCloudClusterList_type : gtype := Struct [
    ("TypeMeta", Data (KForeign "metav1.TypeMeta"));
    ("ListMeta", Ext "metav1.ListMeta");
    ("Items", Slice AlibabaCloudCluster_type)].
Definition AlibabaCloudClusterList_DeepCopyInto : copier := copy_struct [
    ("TypeMeta", assign);
    ("ListMeta", ext_DeepCopy "metav1.ListMeta");
    ("Items", make_slice AlibabaCloudCluster_type AlibabaCloudCluster_DeepCopyInto)].
Definition AlibabaCloudClusterList_DeepCopy : copier :=
  new AlibabaCloudClusterList_type AlibabaCloudClusterList_DeepCopyInto.
Definition AlibabaCloudClusterList_DeepCopyObject : value -> Mem (option (string * loc)) :=
  object "AlibabaCloudClusterList" AlibabaCloudClusterList_DeepCopy.

Definition AlibabaCloudClusterTemplateResource_type : gtype := Struct [
    ("Spec", AlibabaCloudClusterSpec_type)].
Definition AlibabaCloudClusterTemplateResource_DeepCopyInto : copier := copy_struct [
    ("Spec", AlibabaCloudClusterSpec_DeepCopyInto)].
Definition AlibabaCloudClusterTemplateResource_DeepCopy : copier :=
  new AlibabaCloudClusterTemplateResource_type AlibabaCloudClusterTemplateResource_DeepCopyInto.

Definition AlibabaCloudClusterTemplateSpec_type : gtype := Struct [
    ("Template", AlibabaCloudClusterTemplateResource_type)].
Definition AlibabaCloudClusterTemplateSpec_DeepCopyInto : copier := copy_struct [
    ("Template", AlibabaCloudClusterTemplateResource_DeepCopyInto)].
Definition AlibabaCloudClusterTemplateSpec_DeepCopy : copier :=
  new AlibabaCloudClusterTemplateSpec_type AlibabaCloudClusterTemplateSpec_DeepCopyInto.

Definition AlibabaCloudClusterTemplate_type : gtype := Struct [
    ("TypeMeta", Data (KForeign "metav1.TypeMeta"));
    ("ObjectMeta", Ext "metav1.ObjectMeta");
    ("Spec", AlibabaCloudClusterTemplateSpec_type)].
Definition AlibabaCloudClusterTemplate_DeepCopyInto : copier := copy_struct [
    ("TypeMeta", assign);
    ("ObjectMeta", ext_DeepCopy "metav1.ObjectMeta");
    ("Spec", AlibabaCloudClusterTemplateSpec_DeepCopyInto)].
Definition AlibabaCloudClusterTemplate_DeepCopy : copier :=
  new AlibabaCloudClusterTemplate_type AlibabaCloudClusterTemplate_DeepCopyInto.
Definition AlibabaCloudClusterTemplate_DeepCopyObject : value -> Mem (option (string * loc)) :=
  object "AlibabaCloudClusterTemplate" AlibabaCloudClusterTemplate_DeepCopy.

Definition AlibabaCloudClusterTemplateList_type : gtype := Struct [
    ("TypeMeta", Data (KForeign "metav1.TypeMeta"));
    ("ListMeta", Ext "metav1.ListMeta");
    ("Items", Slice AlibabaCloudClusterTemplate_type)].
Definition AlibabaCloudClusterTemplateList_DeepCopyInto : copier := copy_struct [
    ("TypeMeta", assign);
    ("ListMeta", ext_DeepCopy "metav1.ListMeta");
    ("Items", make_slice AlibabaCloudClusterTemplate_type AlibabaCloudClusterTemplate_DeepCopyInto)].
Definition AlibabaCloudClusterTemplateList_DeepCopy : copier :=
  new AlibabaCloudClusterTemplateList_type AlibabaCloudClusterTemplateList_DeepCopyInto.
Definition AlibabaCloudClusterTemplateList_DeepCopyObject : value -> Mem (option (string * loc)) :=
  object "AlibabaCloudClusterTemplateList" AlibabaCloudClusterTemplateList_DeepCopy.

Definition SystemDisk_type : gtype := Struct [
    ("Category", Data KString);
    ("Size", Data KInt);
    ("PerformanceLevel", Data KString);
    ("Encrypted", Ptr (Data KBool));
    ("KMSKeyID", Data KString)].
Definition SystemDisk_DeepCopyInto : copier := copy_struct [
    ("Encrypted", new (Data KBool) assign)].
Definition SystemDisk_DeepCopy : copier := new SystemDisk_type SystemDisk_DeepCopyInto.

Definition DataDisk_type : gtype := Struct [
    ("Category", Data KString);
    ("Size", Data KInt);
    ("Name", Data KString);
    ("PerformanceLevel", Data KString);
    ("Encrypted", Ptr (Data KBool));
    ("KMSKeyID", Data KString)].
Definition DataDisk_DeepCopyInto : copier := copy_struct [
    ("Encrypted", new (Data KBool) assign)].
Definition DataDisk_DeepCopy : copier := new DataDisk_type DataDisk_DeepCopyInto.

Definition MetadataOptions_type : gtype := Struct [
    ("HttpEndpoint", Data KString);
    ("HttpTokens", Data KString);
    ("HttpTokensAfterBoot", Data KString);
    ("HttpPutResponseHopLimit", Data KInt)].
Definition MetadataOptions_DeepCopyInto : copier := copy_struct [].
Definition MetadataOptions_DeepCopy : copier :=
  new MetadataOptions_type MetadataOptions_DeepCopyInto.

Definition AlibabaCloudMachineSpec_type : gtype := Struct [
    ("ProviderID", Ptr (Data KString));
    ("InstanceType", Data KString);
    ("ImageID", Data KString);
    ("RegionID", Data KString);
    ("ZoneID", Data KString);
    ("SecurityGroupIDs", Slice (Data KString));
    ("VSwitchID", Data KString);
    ("SystemDisk", Ptr SystemDisk_type);
    ("DataDisks", Slice DataDisk_type);
    ("RAMRoleName", Data KString);
    ("SpotStrategy", Data KString);
    ("SpotPriceLimit", Ptr (Data KFloat));
    ("Tags", Slice Tag_type);
    ("MetadataOptions", Ptr MetadataOptions_type);
    ("UserDataSecret", Ptr (Data (KForeign "corev1.LocalObjectReference")));
    ("CredentialsSecret", Ptr (Data (KForeign "corev1.LocalObjectReference")))].
Definition AlibabaCloudMachineSpec_DeepCopyInto : copier := copy_struct [
    ("ProviderID", new (Data KString) assign);
    ("SecurityGroupIDs", make_slice (Data KString) assign);
    ("SystemDisk", new SystemDisk_type SystemDisk_DeepCopyInto);
    ("DataDisks", make_slice DataDisk_type DataDisk_DeepCopyInto);
    ("SpotPriceLimit", new (Data KFloat) assign);
    ("Tags", make_slice Tag_type assign);
    ("MetadataOptions", new MetadataOptions_type assign);
    ("UserDataSecret", new (Data (KForeign "corev1.LocalObjectReference")) assign);
    ("CredentialsSecret", new (Data (KForeign "corev1.LocalObjectReference")) assign)].
Definition AlibabaCloudMachineSpec_DeepCopy : copier :=
  new AlibabaCloudMachineSpec_type AlibabaCloudMachineSpec_DeepCopyInto.

Definition AlibabaCloudMachineInitializationStatus_type : gtype := Struct [
    ("Provisioned", Ptr (Data KBool))].
Definition AlibabaCloudMachineInitializationStatus_DeepCopyInto : copier := copy_struct [
    ("Provisioned", new (Data KBool) assign)].
Definition AlibabaCloudMachineInitializationStatus_DeepCopy : copier :=
  new AlibabaCloudMachineInitializationStatus_type AlibabaCloudMachineInitializationStatus_DeepCopyInto.

Definition AlibabaCloudMachineStatus_type : gtype := Struct [
    ("Ready", Data KBool);
    ("Initialization", Ptr AlibabaCloudMachineInitializationStatus_type);
    ("InstanceID", Ptr (Data KString));
    ("InstanceState", Ptr (Data KString));
    ("MetadataHardened", Ptr (Data KBool));
    ("Addresses", Slice (Data (KForeign "clusterv1.MachineAddress")));
    ("Conditions", Slice (Ext "metav1.Condition"));
    ("FailureReason", Ptr (Data KString));
    ("FailureMessage", Ptr (Data KString));
    ("IgnitionOSS", Ptr IgnitionOSSRef_type)].
Definition AlibabaCloudMachineStatus_DeepCopyInto : copier := copy_struct [
    ("Initialization", new AlibabaCloudMachineInitializationStatus_type
       AlibabaCloudMachineInitializationStatus_DeepCopyInto);
    ("InstanceID", new (Data KString) assign);
    ("InstanceState", new (Data KString) assign);
    ("MetadataHardened", new (Data KBool) assign);
    ("Addresses", make_slice (Data (KForeign "clusterv1.MachineAddress")) assign);
    ("Conditions", make_slice (Ext "metav1.Condition") (ext_DeepCopy "metav1.Condition"));
    ("FailureReason", new (Data KString) assign);
    ("FailureMessage", new (Data KString) assign);
    ("IgnitionOSS", new IgnitionOSSRef_type assign)].
Definition AlibabaCloudMachineStatus_DeepCopy : copier :=
  new AlibabaCloudMachineStatus_type AlibabaCloudMachineStatus_DeepCopyInto.

Definition AlibabaCloudMachine_type : gtype := Struct [
    ("TypeMeta", Data (KForeign "metav1.TypeMeta"));
    ("ObjectMeta", Ext "metav1.ObjectMeta");
    ("Spec", AlibabaCloudMachineSpec_type);
    ("Status", AlibabaCloudMachineStatus_type)].
Definition AlibabaCloudMachine_DeepCopyInto : copier := copy_struct [
    ("TypeMeta", assign);
    ("ObjectMeta", ext_DeepCopy "metav1.ObjectMeta");
    ("Spec", AlibabaCloudMachineSpec_DeepCopyInto);
    ("Status", AlibabaCloudMachineStatus_DeepCopyInto)].
Definition AlibabaCloudMachine_DeepCopy : copier :=
  new AlibabaCloudMachine_type AlibabaCloudMachine_DeepCopyInto.
Definition AlibabaCloudMachine_DeepCopyObject : value -> Mem (option (string * loc)) :=
  object "AlibabaCloudMachine" AlibabaCloudMachine_DeepCopy.

Definition AlibabaCloudMachineList_type : gtype := Struct [
    ("TypeMeta", Data (KForeign "metav1.TypeMeta"));
    ("ListMeta", Ext "metav1.ListMeta");
    ("Items", Slice AlibabaCloudMachine_type)].
Definition AlibabaCloudMachineList_DeepCopyInto : copier := copy_struct [
    ("TypeMeta", assign);
    ("ListMeta", ext_DeepCopy "metav1.ListMeta");
    ("Items", make_slice AlibabaCloudMachine_type AlibabaCloudMachine_DeepCopyInto)].
Definition AlibabaCloudMachineList_DeepCopy : copier :=
  new AlibabaCloudMachineList_type AlibabaCloudMachineList_DeepCopyInto.
Definition AlibabaCloudMachineList_DeepCopyObject : value -> Mem (option (string * loc)) :=
  object "AlibabaCloudMachineList" AlibabaCloudMachineList_DeepCopy.

Definition AlibabaCloudMachineTemplateResource_type : gtype := Struct [
    ("Spec", AlibabaCloudMachineSpec_type)].
Definition AlibabaCloudMachineTemplateResource_DeepCopyInto : copier := copy_struct [
    ("Spec", AlibabaCloudMachineSpec_DeepCopyInto)].
Definition AlibabaCloudMachineTemplateResource_DeepCopy : copier :=
  new AlibabaCloudMachineTemplateResource_type AlibabaCloudMachineTemplateResource_DeepCopyInto.

Definition AlibabaCloudMachineTemplateSpec_type : gtype := Struct [
    ("Template", AlibabaCloudMachineTemplateResource_type)].
Definition AlibabaCloudMachineTemplateSpec_DeepCopyInto : copier := copy_struct [
    ("Template", AlibabaCloudMachineTemplateResource_DeepCopyInto)].
Definition AlibabaCloudMachineTemplateSpec_DeepCopy : copier :=
  new AlibabaCloudMachineTemplateSpec_type AlibabaCloudMachineTemplateSpec_DeepCopyInto.

Definition AlibabaCloudMachineTemplateStatus_type : gtype := Struct [
    ("Capacity", Map (Ext "resource.Quantity"))].
Definition AlibabaCloudMachineTemplateStatus_DeepCopyInto : copier := copy_struct [
    ("Capacity", make_map (ext_DeepCopy "resource.Quantity"))].
Definition AlibabaCloudMachineTemplateStatus_DeepCopy : copier :=
  new AlibabaCloudMachineTemplateStatus_type AlibabaCloudMachineTemplateStatus_DeepCopyInto.

Definition AlibabaCloudMachineTemplate_type : gtype := Struct [
    ("TypeMeta", Data (KForeign "metav1.TypeMeta"));
    ("ObjectMeta", Ext "metav1.ObjectMeta");
    ("Spec", AlibabaCloudMachineTemplateSpec_type);
    ("Status", AlibabaCloudMachineTemplateStatus_type)].
Definition AlibabaCloudMachineTemplate_DeepCopyInto : copier := copy_struct [
    ("TypeMeta", assign);
    ("ObjectMeta", ext_DeepCopy "metav1.ObjectMeta");
    ("Spec", AlibabaCloudMachineTemplateSpec_DeepCopyInto);
    ("Status", AlibabaCloudMachineTemplateStatus_DeepCopyInto)].
Definition AlibabaCloudMachineTemplate_DeepCopy : copier :=
  new AlibabaCloudMachineTemplate_type AlibabaCloudMachineTemplate_DeepCopyInto.
Definition AlibabaCloudMachineTemplate_DeepCopyObject : value -> Mem (option (string * loc)) :=
  object "AlibabaCloudMachineTemplate" AlibabaCloudMachineTemplate_DeepCopy.

Definition AlibabaCloudMachineTemplateList_type : gtype := Struct [
    ("TypeMeta", Data (KForeign "metav1.TypeMeta"));
    ("ListMeta", Ext "metav1.ListMeta");
    ("Items", Slice AlibabaCloudMachineTemplate_type)].
Definition AlibabaCloudMachineTemplateList_DeepCopyInto : copier := copy_struct [
    ("TypeMeta", assign);
    ("ListMeta", ext_DeepCopy "metav1.ListMeta");
    ("Items", make_slice AlibabaCloudMachineTemplate_type AlibabaCloudMachineTemplate_DeepCopyInto)].
Definition AlibabaCloudMachineTemplateList_DeepCopy : copier :=
  new AlibabaCloudMachineTemplateList_type AlibabaCloudMachineTemplateList_DeepCopyInto.
Definition AlibabaCloudMachineTemplateList_DeepCopyObject : value -> Mem (option (string * loc)) :=
  object "AlibabaCloudMachineTemplateList" AlibabaCloudMachineTemplateList_DeepCopy.

Definition NetworkInterface_type : gtype := Struct [
    ("SubnetID", Data KString);
    ("SecurityGroupIDs", Slice (Data KString))].
Definition NetworkInterface_DeepCopyInto : copier := copy_struct [
    ("SecurityGroupIDs", make_slice (Data KString) assign)].
Definition NetworkInterface_DeepCopy : copier :=
  new NetworkInterface_type NetworkInterface_DeepCopyInto.

Definition AlibabaCloudControlPlaneSpec_type : gtype := Struct [
    ("Mode", Data KString);
    ("Version", Data KString);
    ("ControlPlaneEndpoint", Data (KForeign "clusterv1.APIEndpoint"))].
Definition AlibabaCloudControlPlaneSpec_DeepCopyInto : copier := copy_struct [
    ("ControlPlaneEndpoint", assign)].
Definition AlibabaCloudControlPlaneSpec_DeepCopy : copier :=
  new AlibabaCloudControlPlaneSpec_type AlibabaCloudControlPlaneSpec_DeepCopyInto.

Definition AlibabaCloudControlPlaneInitializationStatus_type : gtype := Struct [
    ("ControlPlaneInitialized", Ptr (Data KBool))].
Definition AlibabaCloudControlPlaneInitializationStatus_DeepCopyInto : copier := copy_struct [
    ("ControlPlaneInitialized", new (Data KBool) assign)].
Definition AlibabaCloudControlPlaneInitializationStatus_DeepCopy : copier :=
  new AlibabaCloudControlPlaneInitializationStatus_type AlibabaCloudControlPlaneInitializationStatus_DeepCopyInto.

Definition AlibabaCloudControlPlaneStatus_type : gtype := Struct [
    ("Ready", Data KBool);
    ("ExternalManagedControlPlane", Ptr (Data KBool));
    ("Initialization", Ptr AlibabaCloudControlPlaneInitializationStatus_type);
    ("Version", Data KString);
    ("Conditions", Slice (Ext "metav1.Condition"))].
Definition AlibabaCloudControlPlaneStatus_DeepCopyInto : copier := copy_struct [
    ("ExternalManagedControlPlane", new (Data KBool) assign);
    ("Initialization", new AlibabaCloudControlPlaneInitializationStatus_type
       AlibabaCloudControlPlaneInitializationStatus_DeepCopyInto);
    ("Conditions", make_slice (Ext "metav1.Condition") (ext_DeepCopy "metav1.Condition"))].
Definition AlibabaCloudControlPlaneStatus_DeepCopy : copier :=
  new AlibabaCloudControlPlaneStatus_type AlibabaCloudControlPlaneStatus_DeepCopyInto.

Definition AlibabaCloudControlPlane_type : gtype := Struct [
    ("TypeMeta", Data (KForeign "metav1.TypeMeta"));
    ("ObjectMeta", Ext "metav1.ObjectMeta");
    ("Spec", AlibabaCloudControlPlaneSpec_type);
    ("Status", AlibabaCloudControlPlaneStatus_type)].
Definition AlibabaCloudControlPlane_DeepCopyInto : copier := copy_struct [
    ("TypeMeta", assign);
    ("ObjectMeta", ext_DeepCopy "metav1.ObjectMeta");
    ("Spec", assign);
    ("Status", AlibabaCloudControlPlaneStatus_DeepCopyInto)].
Definition AlibabaCloudControlPlane_DeepCopy : copier :=
  new AlibabaCloudControlPlane_type AlibabaCloudControlPlane_DeepCopyInto.
Definition AlibabaCloudControlPlane_DeepCopyObject : value -> Mem (option (string * loc)) :=
  object "AlibabaCloudControlPlane" AlibabaCloudControlPlane_DeepCopy.

Definition AlibabaCloudControlPlaneList_type : gtype := Struct [
    ("TypeMeta", Data (KForeign "metav1.TypeMeta"));
    ("ListMeta", Ext "metav1.ListMeta");
    ("Items", Slice AlibabaCloudControlPlane_type)].
Definition AlibabaCloudControlPlaneList_DeepCopyInto : copier := copy_struct [
    ("TypeMeta", assign);
    ("ListMeta", ext_DeepCopy "metav1.ListMeta");
    ("Items", make_slice AlibabaCloudControlPlane_type AlibabaCloudControlPlane_DeepCopyInto)].
Definition AlibabaCloudControlPlaneList_DeepCopy : copier :=
  new AlibabaCloudControlPlaneList_type AlibabaCloudControlPlaneList_DeepCopyInto.
Definition AlibabaCloudControlPlaneList_DeepCopyObject : value -> Mem (option (string * loc)) :=
  object "AlibabaCloudControlPlaneList" AlibabaCloudControlPlaneList_DeepCopy.

(** ** The types of the API *)

Record ApiType := mkApiType {
  at_name : string;
  at_type : gtype;
  at_DeepCopyInto : copier;
  at_DeepCopy : copier;
  at_DeepCopyObject : option (value -> Mem (option (string * loc)));
}.

Definition api_types : list ApiType := [
    mkApiType "Tag" Tag_type
      Tag_DeepCopyInto Tag_DeepCopy None;
    mkApiType "IgnitionStorageSpec" IgnitionStorageSpec_type
      IgnitionStorageSpec_DeepCopyInto IgnitionStorageSpec_DeepCopy None;
    mkApiType "FailureDomain" FailureDomain_type
      FailureDomain_DeepCopyInto FailureDomain_DeepCopy None;
    mkApiType "AlibabaCloudClusterSpec" AlibabaCloudClusterSpec_type
      AlibabaCloudClusterSpec_DeepCopyInto AlibabaCloudClusterSpec_DeepCopy None;
    mkApiType "IgnitionOSSRef" IgnitionOSSRef_type
      IgnitionOSSRef_DeepCopyInto IgnitionOSSRef_DeepCopy None;
    mkApiType "AlibabaCloudClusterInitializationStatus"
      AlibabaCloudClusterInitializationStatus_type AlibabaCloudClusterInitializationStatus_DeepCopyInto
      AlibabaCloudClusterInitializationStatus_DeepCopy None;
    mkApiType "AlibabaCloudClusterStatus"
      AlibabaCloudClusterStatus_type AlibabaCloudClusterStatus_DeepCopyInto
      AlibabaCloudClusterStatus_DeepCopy None;
    mkApiType "AlibabaCloudCluster" AlibabaCloudCluster_type
      AlibabaCloudCluster_DeepCopyInto AlibabaCloudCluster_DeepCopy (Some AlibabaCloudCluster_DeepCopyObject);
    mkApiType "AlibabaCloudClusterList" AlibabaCloudClusterList_type
      AlibabaCloudClusterList_DeepCopyInto AlibabaCloudClusterList_DeepCopy (Some AlibabaCloudClusterList_DeepCopyObject);
    mkApiType "AlibabaCloudClusterTemplateResource"
      AlibabaCloudClusterTemplateResource_type AlibabaCloudClusterTemplateResource_DeepCopyInto
      AlibabaCloudClusterTemplateResource_DeepCopy None;
    mkApiType "AlibabaCloudClusterTemplateSpec"
      AlibabaCloudClusterTemplateSpec_type AlibabaCloudClusterTemplateSpec_DeepCopyInto
      AlibabaCloudClusterTemplateSpec_DeepCopy None;
    mkApiType "AlibabaCloudClusterTemplate"
      AlibabaCloudClusterTemplate_type AlibabaCloudClusterTemplate_DeepCopyInto
      AlibabaCloudClusterTemplate_DeepCopy (Some AlibabaCloudClusterTemplate_DeepCopyObject);
    mkApiType "AlibabaCloudClusterTemplateList"
      AlibabaCloudClusterTemplateList_type AlibabaCloudClusterTemplateList_DeepCopyInto
      AlibabaCloudClusterTemplateList_DeepCopy (Some AlibabaCloudClusterTemplateList_DeepCopyObject);
    mkApiType "SystemDisk" SystemDisk_type
      SystemDisk_DeepCopyInto SystemDisk_DeepCopy None;
    mkApiType "DataDisk" DataDisk_type
      DataDisk_DeepCopyInto DataDisk_DeepCopy None;
    mkApiType "MetadataOptions" MetadataOptions_type
      MetadataOptions_DeepCopyInto MetadataOptions_DeepCopy None;
    mkApiType "AlibabaCloudMachineSpec" AlibabaCloudMachineSpec_type
      AlibabaCloudMachineSpec_DeepCopyInto AlibabaCloudMachineSpec_DeepCopy None;
    mkApiType "AlibabaCloudMachineInitializationStatus"
      AlibabaCloudMachineInitializationStatus_type AlibabaCloudMachineInitializationStatus_DeepCopyInto
      AlibabaCloudMachineInitializationStatus_DeepCopy None;
    mkApiType "AlibabaCloudMachineStatus"
      AlibabaCloudMachineStatus_type AlibabaCloudMachineStatus_DeepCopyInto
      AlibabaCloudMachineStatus_DeepCopy None;
    mkApiType "AlibabaCloudMachine" AlibabaCloudMachine_type
      AlibabaCloudMachine_DeepCopyInto AlibabaCloudMachine_DeepCopy (Some AlibabaCloudMachine_DeepCopyObject);
    mkApiType "AlibabaCloudMachineList" AlibabaCloudMachineList_type
      AlibabaCloudMachineList_DeepCopyInto AlibabaCloudMachineList_DeepCopy (Some AlibabaCloudMachineList_DeepCopyObject);
    mkApiType "AlibabaCloudMachineTemplateResource"
      AlibabaCloudMachineTemplateResource_type AlibabaCloudMachineTemplateResource_DeepCopyInto
      AlibabaCloudMachineTemplateResource_DeepCopy None;
    mkApiType "AlibabaCloudMachineTemplateSpec"
      AlibabaCloudMachineTemplateSpec_type AlibabaCloudMachineTemplateSpec_DeepCopyInto
      AlibabaCloudMachineTemplateSpec_DeepCopy None;
    mkApiType "AlibabaCloudMachineTemplateStatus"
      AlibabaCloudMachineTemplateStatus_type AlibabaCloudMachineTemplateStatus_DeepCopyInto
      AlibabaCloudMachineTemplateStatus_DeepCopy None;
    mkApiType "AlibabaCloudMachineTemplate"
      AlibabaCloudMachineTemplate_type AlibabaCloudMachineTemplate_DeepCopyInto
      AlibabaCloudMachineTemplate_DeepCopy (Some AlibabaCloudMachineTemplate_DeepCopyObject);
    mkApiType "AlibabaCloudMachineTemplateList"
      AlibabaCloudMachineTemplateList_type AlibabaCloudMachineTemplateList_DeepCopyInto
      AlibabaCloudMachineTemplateList_DeepCopy (Some AlibabaCloudMachineTemplateList_DeepCopyObject);
    mkApiType "NetworkInterface" NetworkInterface_type
      NetworkInterface_DeepCopyInto NetworkInterface_DeepCopy None;
    mkApiType "AlibabaCloudControlPlaneSpec"
      AlibabaCloudControlPlaneSpec_type AlibabaCloudControlPlaneSpec_DeepCopyInto
      AlibabaCloudControlPlaneSpec_DeepCopy None;
    mkApiType "AlibabaCloudControlPlaneInitializationStatus"
      AlibabaCloudControlPlaneInitializationStatus_type AlibabaCloudControlPlaneInitializationStatus_DeepCopyInto
      AlibabaCloudControlPlaneInitializationStatus_DeepCopy None;
    mkApiType "AlibabaCloudControlPlaneStatus"
      AlibabaCloudControlPlaneStatus_type AlibabaCloudControlPlaneStatus_DeepCopyInto
      AlibabaCloudControlPlaneStatus_DeepCopy None;
    mkApiType "AlibabaCloudControlPlane"
      AlibabaCloudControlPlane_type AlibabaCloudControlPlane_DeepCopyInto
      AlibabaCloudControlPlane_DeepCopy (Some AlibabaCloudControlPlane_DeepCopyObject);
    mkApiType "AlibabaCloudControlPlaneList"
      AlibabaCloudControlPlaneList_type AlibabaCloudControlPlaneList_DeepCopyInto
      AlibabaCloudControlPlaneList_DeepCopy (Some AlibabaCloudControlPlaneList_DeepCopyObject)].
End copies.

(** ** The copies are deep *)

Section proofs.
Context `{!GoTypes} `{!GoTypesLaws}.

Lemma Tag_deep : deep Tag_type Tag_DeepCopyInto.
Proof. deep_struct. Qed.
#[local] Hint Resolve Tag_deep : deep.

Lemma IgnitionStorageSpec_deep : deep IgnitionStorageSpec_type IgnitionStorageSpec_DeepCopyInto.
Proof. deep_struct. Qed.
#[local] Hint Resolve IgnitionStorageSpec_deep : deep.

Lemma FailureDomain_deep : deep FailureDomain_type FailureDomain_DeepCopyInto.
Proof. deep_struct. Qed.
#[local] Hint Resolve FailureDomain_deep : deep.

Lemma AlibabaCloudClusterSpec_deep : deep AlibabaCloudClusterSpec_type AlibabaCloudClusterSpec_DeepCopyInto.
Proof. deep_struct. Qed.
#[local] Hint Resolve AlibabaCloudClusterSpec_deep : deep.

Lemma IgnitionOSSRef_deep : deep IgnitionOSSRef_type IgnitionOSSRef_DeepCopyInto.
Proof. deep_struct. Qed.
#[local] Hint Resolve IgnitionOSSRef_deep : deep.

Lemma AlibabaCloudClusterInitializationStatus_deep :
  deep AlibabaCloudClusterInitializationStatus_type AlibabaCloudClusterInitializationStatus_DeepCopyInto.
Proof. deep_struct. Qed.
#[local] Hint Resolve AlibabaCloudClusterInitializationStatus_deep : deep.

Lemma AlibabaCloudClusterStatus_deep :
  deep AlibabaCloudClusterStatus_type AlibabaCloudClusterStatus_DeepCopyInto.
Proof. deep_struct. Qed.
#[local] Hint Resolve AlibabaCloudClusterStatus_deep : deep.

Lemma AlibabaCloudCluster_deep : deep AlibabaCloudCluster_type AlibabaCloudCluster_DeepCopyInto.
Proof. deep_struct. Qed.
#[local] Hint Resolve AlibabaCloudCluster_deep : deep.

Lemma AlibabaCloudClusterList_deep : deep AlibabaCloudClusterList_type AlibabaCloudClusterList_DeepCopyInto.
Proof. deep_struct. Qed.
#[local] Hint Resolve AlibabaCloudClusterList_deep : deep.

Lemma AlibabaCloudClusterTemplateResource_deep :
  deep AlibabaCloudClusterTemplateResource_type AlibabaCloudClusterTemplateResource_DeepCopyInto.
Proof. deep_struct. Qed.
#[local] Hint Resolve AlibabaCloudClusterTemplateResource_deep : deep.

Lemma AlibabaCloudClusterTemplateSpec_deep :
  deep AlibabaCloudClusterTemplateSpec_type AlibabaCloudClusterTemplateSpec_DeepCopyInto.
Proof. deep_struct. Qed.
#[local] Hint Resolve AlibabaCloudClusterTemplateSpec_deep : deep.

Lemma AlibabaCloudClusterTemplate_deep :
  deep AlibabaCloudClusterTemplate_type AlibabaCloudClusterTemplate_DeepCopyInto.
Proof. deep_struct. Qed.
#[local] Hint Resolve AlibabaCloudClusterTemplate_deep : deep.

Lemma AlibabaCloudClusterTemplateList_deep :
  deep AlibabaCloudClusterTemplateList_type AlibabaCloudClusterTemplateList_DeepCopyInto.
Proof. deep_struct. Qed.
#[local] Hint Resolve AlibabaCloudClusterTemplateList_deep : deep.

Lemma SystemDisk_deep : deep SystemDisk_type SystemDisk_DeepCopyInto.
Proof. deep_struct. Qed.
#[local] Hint Resolve SystemDisk_deep : deep.

Lemma DataDisk_deep : deep DataDisk_type DataDisk_DeepCopyInto.
Proof. deep_struct. Qed.
#[local] Hint Resolve DataDisk_deep : deep.

Lemma MetadataOptions_deep : deep MetadataOptions_type MetadataOptions_DeepCopyInto.
Proof. deep_struct. Qed.
#[local] Hint Resolve MetadataOptions_deep : deep.

Lemma AlibabaCloudMachineSpec_deep : deep AlibabaCloudMachineSpec_type AlibabaCloudMachineSpec_DeepCopyInto.
Proof. deep_struct. Qed.
#[local] Hint Resolve AlibabaCloudMachineSpec_deep : deep.

Lemma AlibabaCloudMachineInitializationStatus_deep :
  deep AlibabaCloudMachineInitializationStatus_type AlibabaCloudMachineInitializationStatus_DeepCopyInto.
Proof. deep_struct. Qed.
#[local] Hint Resolve AlibabaCloudMachineInitializationStatus_deep : deep.

Lemma AlibabaCloudMachineStatus_deep :
  deep AlibabaCloudMachineStatus_type AlibabaCloudMachineStatus_DeepCopyInto.
Proof. deep_struct. Qed.
#[local] Hint Resolve AlibabaCloudMachineStatus_deep : deep.

Lemma AlibabaCloudMachine_deep : deep AlibabaCloudMachine_type AlibabaCloudMachine_DeepCopyInto.
Proof. deep_struct. Qed.
#[local] Hint Resolve AlibabaCloudMachine_deep : deep.

Lemma AlibabaCloudMachineList_deep : deep AlibabaCloudMachineList_type AlibabaCloudMachineList_DeepCopyInto.
Proof. deep_struct. Qed.
#[local] Hint Resolve AlibabaCloudMachineList_deep : deep.

Lemma AlibabaCloudMachineTemplateResource_deep :
  deep AlibabaCloudMachineTemplateResource_type AlibabaCloudMachineTemplateResource_DeepCopyInto.
Proof. deep_struct. Qed.
#[local] Hint Resolve AlibabaCloudMachineTemplateResource_deep : deep.

Lemma AlibabaCloudMachineTemplateSpec_deep :
  deep AlibabaCloudMachineTemplateSpec_type AlibabaCloudMachineTemplateSpec_DeepCopyInto.
Proof. deep_struct. Qed.
#[local] Hint Resolve AlibabaCloudMachineTemplateSpec_deep : deep.

Lemma AlibabaCloudMachineTemplateStatus_deep :
  deep AlibabaCloudMachineTemplateStatus_type AlibabaCloudMachineTemplateStatus_DeepCopyInto.
Proof. deep_struct. Qed.
#[local] Hint Resolve AlibabaCloudMachineTemplateStatus_deep : deep.

Lemma AlibabaCloudMachineTemplate_deep :
  deep AlibabaCloudMachineTemplate_type AlibabaCloudMachineTemplate_DeepCopyInto.
Proof. deep_struct. Qed.
#[local] Hint Resolve AlibabaCloudMachineTemplate_deep : deep.

Lemma AlibabaCloudMachineTemplateList_deep :
  deep AlibabaCloudMachineTemplateList_type AlibabaCloudMachineTemplateList_DeepCopyInto.
Proof. deep_struct. Qed.
#[local] Hint Resolve AlibabaCloudMachineTemplateList_deep : deep.

Lemma NetworkInterface_deep : deep NetworkInterface_type NetworkInterface_DeepCopyInto.
Proof. deep_struct. Qed.
#[local] Hint Resolve NetworkInterface_deep : deep.

Lemma AlibabaCloudControlPlaneSpec_deep :
  deep AlibabaCloudControlPlaneSpec_type AlibabaCloudControlPlaneSpec_DeepCopyInto.
Proof. deep_struct. Qed.
#[local] Hint Resolve AlibabaCloudControlPlaneSpec_deep : deep.

Lemma AlibabaCloudControlPlaneInitializationStatus_deep :
  deep AlibabaCloudControlPlaneInitializationStatus_type AlibabaCloudControlPlaneInitializationStatus_DeepCopyInto.
Proof. deep_struct. Qed.
#[local] Hint Resolve AlibabaCloudControlPlaneInitializationStatus_deep : deep.

Lemma AlibabaCloudControlPlaneStatus_deep :
  deep AlibabaCloudControlPlaneStatus_type AlibabaCloudControlPlaneStatus_DeepCopyInto.
Proof. deep_struct. Qed.
#[local] Hint Resolve AlibabaCloudControlPlaneStatus_deep : deep.

Lemma AlibabaCloudControlPlane_deep :
  deep AlibabaCloudControlPlane_type AlibabaCloudControlPlane_DeepCopyInto.
Proof. deep_struct. Qed.
#[local] Hint Resolve AlibabaCloudControlPlane_deep : deep.

Lemma AlibabaCloudControlPlaneList_deep :
  deep AlibabaCloudControlPlaneList_type AlibabaCloudControlPlaneList_DeepCopyInto.
Proof. deep_struct. Qed.
#[local] Hint Resolve AlibabaCloudControlPlaneList_deep : deep.

Lemma api_types_deep :
  Forall (fun a => deep (at_type a) (at_DeepCopyInto a) /\
    at_DeepCopy a = new (at_type a) (at_DeepCopyInto a) /\
    if at_DeepCopyObject a is Some o then o = object (at_name a) (at_DeepCopy a) else True) api_types.
Proof.
  repeat apply Forall_cons_2; try apply Forall_nil_2; (split_and!; [auto with deep|done..]).
Qed.

(** C28. The deep copies of every type of the two API groups: [DeepCopyInto], and
    [DeepCopy] of a pointer, do not fail on a well-typed value, change no memory
    that was there, and return a value with the content of the original; whatever
    is written afterwards to the memory of the original leaves the content of the
    copy as it is, and the other way around.  [DeepCopyObject] of a nil pointer is
    a nil interface, and of any other pointer the deep copy under the name of its
    type. *)
Theorem DeepCopy_isolated :
  Forall (fun a =>
    isolates (at_type a) (at_DeepCopyInto a) /\ isolates (Ptr (at_type a)) (at_DeepCopy a) /\
    if at_DeepCopyObject a is Some o then copies_object (at_name a) (at_type a) o else True) api_types.
Proof.
  eapply list.Forall_impl; [exact api_types_deep|]. intros a (Hi & Hn & Ho). rewrite Hn in Ho |- *.
  split_and!; [by apply deep_isolates|by apply deep_isolates, deep_new|].
  destruct (at_DeepCopyObject a) as [o|]; [|done]. subst o. by apply deep_object.
Qed.
End proofs.

(** ** An instance: the types of other packages hold a map of labels *)

#[local] Instance no_ext : GoTypes := {
  foreign_zero _ := [];
  ext_zero _ := VExt [];
  ext_holds _ _ _ _ _ := False;
  ext_DeepCopy _ _ _ := None;
  map_range := map_to_list;
}.

#[local] Instance no_ext_laws : GoTypesLaws (H := no_ext).
Proof. by split. Qed.

Definition labels_fields : list (string * gtype) := [("Labels", Map (Data KString))].

Definition labelled : GoTypes := {|
  foreign_zero _ := [];
  ext_zero _ := VStruct {["Labels" := VMap None]};
  ext_holds F h _ := holds (H := no_ext) F h (Struct labels_fields);
  ext_DeepCopy _ := copy_struct [("Labels", make_map assign)];
  map_range := map_to_list;
|}.

Lemma labelled_laws : GoTypesLaws (H := labelled).
Proof.
  split.
  - intros F F' h h' name v d HF Ha Hv. by eapply (holds_frame (H := no_ext)).
  - intros name F h v d Hv.
    assert (deep (H := no_ext) (Struct labels_fields) (copy_struct [("Labels", make_map assign)])) as Hd
      by deep_struct.
    by apply (Hd F h v d).
  - done.
Qed.

(** The status of a machine template with one capacity, in three cells. *)
Definition sample_heap : heap := {[
  1%positive := CVal (VStruct {["Capacity" := VMap (Some 2%positive)]});
  2%positive := CMap {["cpu" := VStruct {["Labels" := VMap (Some 3%positive)]}]};
  3%positive := CMap {["unit" := VData (DString "cores")]} ]}.
Definition sample_cells : gset loc := {[ 1%positive; 2%positive; 3%positive ]}.
Definition sample_tree : tree :=
  TPtr (TStruct {["Capacity" := TMap {["cpu" := TStruct {["Labels" :=
    TMap {["unit" := TData (DString "cores")]}]}]}]}).

Lemma map_relation_singleton {A B} (R : A -> B -> Prop) k a b :
  R a b -> map_relation (M := gmap string) (fun _ => R) (fun _ _ => False) (fun _ _ => False)
    {[k := a]} {[k := b]}.
Proof.
  intros Hr. apply map_content. split; [by rewrite !dom_singleton_L|].
  intros k' a' [<- <-]%lookup_singleton_Some. exists b. by rewrite lookup_singleton_eq.
Qed.

Lemma sample_holds :
  holds (H := labelled) sample_cells sample_heap (Ptr AlibabaCloudMachineTemplateStatus_type)
    (VPtr (Some 1%positive)) sample_tree.
Proof.
  right. eexists _, _, _. split_and!; [done|done|set_solver|done|].
  eexists _, _. split_and!; [done|done|done|done| |done].
  eexists _, _. split_and!; [done|done|]. right. eexists _, _, _.
  split_and!; [done|done|set_solver|done|]. apply map_relation_singleton. cbn.
  eexists _, _. split_and!; [done|done|done|done| |done].
  eexists _, _. split_and!; [done|done|]. right. eexists _, _, _.
  split_and!; [done|done|set_solver|done|]. apply map_relation_singleton. cbn. by eexists.
Qed.

(** The labels of the original are changed after the copy. *)
Lemma DeepCopy_isolated_witness :
  exists F' p' h',
    AlibabaCloudMachineTemplateStatus_DeepCopy (H := labelled) (VPtr (Some 1%positive)) sample_heap =
      Some (p', h') /\
    forall s, holds (H := labelled) F' (<[3%positive := CMap {["unit" := VData (DString s)]}]> h')
      (Ptr AlibabaCloudMachineTemplateStatus_type) p' sample_tree.
Proof.
  destruct (Forall_lookup_1 _ _ 23 _ (@DeepCopy_isolated labelled labelled_laws) eq_refl) as (_ & Hcopy & _).
  destruct (Hcopy sample_cells sample_heap _ _ (ltac:(vm_compute; set_solver)) sample_holds)
    as (F' & p' & h' & Ec & _ & _ & Hw & _).
  exists F', p', h'. split; [exact Ec|]. intros s. apply Hw. intros l Hl.
  rewrite lookup_insert_ne; [done|]. intros <-. by apply Hl.
Defined.
