(* ===== verification/Provisioning.v ===== *)
(** * Provisioning completes

    Repeated reconciles bring a machine whose cluster is ready and whose
    bootstrap data is there to a decision: Ready, or a terminal failure
    recorded in its status.  The counterpart of [reconcileDelete_completes] in
    [MachineDelete]. *)

From S2P Require Import Api ProviderID CloudClient Encoding Capi Ignition Oss SimSdk.
From S2P Require Import MachineController SimClient MachineDelete MachineNormal.

(** A status a starting instance passes through. *)
Definition starting (state : string) : Prop :=
  state <> InstanceStateRunning /\ state <> InstanceStateStopped /\ state <> InstanceStateDeleted.

(** The failure domain of the machine, if it has one, is published with its
    vSwitch. *)
Definition domain_ok (machine : Machine) (cluster : AlibabaCloudCluster) : Prop :=
  mach_FailureDomain machine = "" \/
  exists fd vsw, findFailureDomain (mach_FailureDomain machine) cluster = Some fd /\
    cfd_Attributes fd !! "vSwitchID" = Some vsw /\ vsw <> "".

Section progress.
Context {W : Type} `{!MachineKube W} `{!KubeLib} `{!KubeLibLaws} `{!GoFmt}.
Context (builder : string -> M W (Client W)) (cloud_of : W -> Cloud)
  `{!BuilderLaws cloud_of builder}.
Context (env : W -> W) (boot : string -> Cloud -> nat) (limit : nat).

(** The API server and the cloud answer, creation succeeds or is refused for
    good, and an instance that is starting comes closer to the end of it, at
    most [limit] turns away. *)
Class Provisions : Prop := {
  prov_secret k w : exists s v w', get_Secret k w = (Ok s, w') /\ s !! "value" = Some v;
  prov_build region w : region <> "" -> exists c w', builder region w = (Ok c, w');
  prov_describe region w c w' id w0 :
    builder region w = (Ok c, w') -> exists d w1, DescribeInstanceByID c id w0 = (Ok d, w1);
  prov_create region w c w' p w0 :
    builder region w = (Ok c, w') ->
    exists r w1, CreateECSInstance c p w0 = (r, w1) /\
      match r with
      | Ok _ => True
      | Err e => is_Some (as_terminal_error (classifyCreateError e))
      | Panic _ => False
      end;
  prov_put region w c w' p w0 :
    builder region w = (Ok c, w') -> exists url w1, PutIgnitionObject c p w0 = (Ok url, w1);
  prov_metadata region w c w' id e t h w0 q w1 :
    builder region w = (Ok c, w') -> ModifyInstanceMetadata c id e t h w0 <> (Panic q, w1);
  prov_limit id cl : (boot id cl <= limit)%nat;
  prov_starts w id i : cloud_of w !! id = Some i -> starting (ci_Status i) ->
    (boot id (cloud_of (env w)) < boot id (cloud_of w))%nat;
}.

Context (machine : Machine) (cluster : AlibabaCloudCluster).

(** One reconcile, whatever it returns, and the environment's turn. *)
Definition normal_round (s : AlibabaCloudMachine * W) : AlibabaCloudMachine * W :=
  let s' := (reconcileNormal builder machine cluster s).2 in (s'.1, env s'.2).

(** The turns left. *)
Definition turns (s : AlibabaCloudMachine * W) : nat :=
  match stat_InstanceID (acm_Status s.1) with
  | None => S limit
  | Some id => boot id (cloud_of s.2)
  end.

(** Ready, or failed for good. *)
Definition decided (m : AlibabaCloudMachine) : Prop :=
  provisioned m \/ exists reason message, failed_with m reason message.

Context `{!Provisions}.

Lemma resolveFailureDomain_places m (w : W) :
  domain_ok machine cluster ->
  exists m1, resolveFailureDomain machine cluster (m, w) = (Ok (), (m1, w)) /\
    acm_Status m1 = acm_Status m /\ spec_RegionID (acm_Spec m1) = spec_RegionID (acm_Spec m).
Proof.
  intros Hd. unfold resolveFailureDomain. case_decide as Hn; [by eexists|].
  destruct Hd as [?|(fd & vsw & -> & Hvsw & Hne)]; [done|].
  unfold update_machine, machine_of, mbind, M_bind, on_fst, modify, get. rewrite Hvsw.
  destruct (decide (vsw = "")); [done|].
  case_decide; case_decide; eexists; split; try done.
Qed.

Lemma getUserData_encoded m w n :
  mach_DataSecretName machine = Some n -> n <> "" ->
  exists raw w', getUserData machine m w = (Ok (EncodeToString raw), w').
Proof.
  intros Hn Hne. unfold getUserData, userDataSecretName. rewrite Hn, decide_True by done.
  destruct (prov_secret (mkObjectKey (acm_Namespace m) n) w) as (s & v & w' & E & Hv).
  unfold mbind, M_bind, wrap, catch. rewrite E, Hv. by eexists _, _.
Qed.

(** The offload of encoded user data succeeds or fails for good. *)
Lemma offload_decides region w0 c w0' rg raw m w :
  builder region w0 = (Ok c, w0') ->
  wp (maybeOffloadUserData c cluster rg (EncodeToString raw)) (m, w) (fun r _ =>
    match r with
    | Ok _ => True
    | Err e => is_Some (as_terminal_error e)
    | Panic _ => False
    end).
Proof.
  intros Hb. unfold maybeOffloadUserData. wp_go. case_decide; [by wp_go|].
  destruct (cspec_IgnitionStorage _) as [store|]; [|by wp_go; eexists].
  case_decide; [by wp_go; eexists|]. rewrite DecodeString_EncodeToString. wp_go.
  lazymatch goal with |- wp (PutIgnitionObject c ?p) _ _ =>
    destruct (prov_put region w0 c w0' p w Hb) as (url & w1 & Ep) end.
  eapply wp_run; [exact Ep|]. by wp_go.
Qed.

(** How a find or create ends: with a ready instance, with a terminal error, or
    with an instance to wait for and fewer turns left. *)
Definition advanced (m : AlibabaCloudMachine) (w : W) {A} (r : result (option A))
    (s' : AlibabaCloudMachine * W) : Prop :=
  match r with
  | Ok (Some _) => True
  | Ok None => (turns (s'.1, env s'.2) < turns (m, w))%nat
  | Err e => is_Some (as_terminal_error e)
  | Panic _ => False
  end.

Lemma create_advances region w0 c w0' m w n :
  builder region w0 = (Ok c, w0') ->
  mach_DataSecretName machine = Some n -> n <> "" -> stat_InstanceID (acm_Status m) = None ->
  wp (findOrCreateInstance c machine cluster) (m, w) (advanced m w).
Proof.
  intros Hb Hn Hne Hid. unfold findOrCreateInstance, createInstance, machine_of, update_machine.
  wp_go. rewrite Hid. wp_go.
  destruct (getUserData_encoded m w n Hn Hne) as (raw & w1 & Eu).
  eapply wp_run; [exact Eu|]. cbv beta iota. case_decide; [wp_go; by eexists|]. wp_go.
  eapply wp_mono; [by eapply offload_decides|].
  intros [ud|e|p] [m2 w2] Ho; [|exact Ho..]. wp_go.
  lazymatch goal with |- wp (CreateECSInstance c ?p) _ _ =>
    destruct (prov_create region w0 c w0' p w2 Hb) as (r & w3 & Ec & Hr) end.
  eapply wp_run; [exact Ec|]. destruct r as [resp|e|q]; [|exact Hr|done]. wp_go.
  unfold advanced, turns. cbn. rewrite Hid. pose proof (prov_limit (cir_InstanceID resp)
    (cloud_of (env w3))). lia.
Qed.

Lemma harden_returns region w0 c w0' id m w :
  builder region w0 = (Ok c, w0') ->
  wp (maybeHardenMetadata c (Some machine) id) (m, w) (fun r _ => r = Ok ()).
Proof.
  intros Hb. unfold maybeHardenMetadata, machine_of, update_machine. wp_go.
  destruct (spec_MetadataOptions _) as [mo|]; [|by wp_go]. case_decide; [by wp_go|].
  case_decide; [by wp_go|]. case_decide; [by wp_go|].
  destruct (resolveMetadataOptions _) as [[he ht] hop]. wp_go.
  wp_call as [[]|e|p] w1 eqn Em; [by wp_go..|]. by destruct (prov_metadata _ _ _ _ _ _ _ _ _ _ _ Hb Em).
Qed.

Lemma find_advances region w0 c w0' m w id :
  builder region w0 = (Ok c, w0') -> stat_InstanceID (acm_Status m) = Some id ->
  wp (findOrCreateInstance c machine cluster) (m, w) (advanced m w).
Proof.
  intros Hb Hid. pose proof (builder_client _ _ _ _ Hb) as Hc.
  unfold findOrCreateInstance, findInstance, describeInstance, machine_of, update_machine. wp_go.
  rewrite Hid. wp_go. case_decide; [wp_go; by eexists|]. wp_go.
  destruct (prov_describe _ _ _ _ id w Hb) as (d & w1 & Ed). eapply wp_run; [exact Ed|]. wp_go.
  destruct d as [d|]; cbn [fmap option_fmap option_map]; [|wp_go; by eexists]. wp_go.
  destruct (describe_some _ _ _ _ Ed) as (Hdid & i & Hi & _ & Hst).
  pose proof (describe_cloud _ _ _ _ Ed) as Hw1.
  set (m2 := syncInstanceStatus _ _). cbn [info_State].
  case_decide as Hrun.
  - wp_go. eapply wp_mono; [by eapply harden_returns|]. intros r [m3 w3] ->. by wp_go.
  - case_decide as Hend; wp_go; [by eexists|]. unfold advanced, turns. cbn.
    rewrite Hid, Hdid, <- Hw1. eapply prov_starts; [by rewrite Hw1|].
    rewrite Hst. split_and!; [done|tauto..].
Qed.

Context (n : string) (Hready : cstat_Ready (acc_Status cluster) = true)
  (Hsecret : mach_DataSecretName machine = Some n) (Hn : n <> "")
  (Hdomain : domain_ok machine cluster) (Hregion : cspec_Region (acc_Spec cluster) <> "").

Lemma reconcileNormal_advances m w :
  wp (reconcileNormal builder machine cluster) (m, w) (fun _ s' =>
    decided s'.1 \/ (turns (s'.1, env s'.2) < turns (m, w))%nat).
Proof.
  unfold reconcileNormal, update_machine, machine_of. wp_go. rewrite Hready. cbn [negb]. wp_go.
  rewrite decide_False by (rewrite Hsecret; naive_solver). wp_go.
  set (m0 := set_finalizers _ m).
  destruct (resolveFailureDomain_places m0 w Hdomain) as (m1 & E1 & Hs1 & _).
  eapply wp_run; [exact E1|]. cbv beta iota. wp_go.
  destruct (prov_build (resolveRegion m1 (Some cluster)) w) as (c & w2 & Eb).
  { unfold resolveRegion. by case_decide. }
  eapply wp_run; [exact Eb|]. cbv beta iota. wp_go.
  pose proof (builder_cloud _ _ _ _ Eb) as Hw2.
  assert (turns (m1, w2) = turns (m, w)) as Ht by (unfold turns; cbn; by rewrite Hs1, Hw2).
  eapply (wp_mono _ _ (advanced m1 w2)).
  { destruct (stat_InstanceID (acm_Status m1)) as [id|] eqn:Hid;
      [by eapply find_advances|by eapply create_advances]. }
  intros r [m3 w3] Hr. destruct r as [[info|]|e|p]; [| | |done]; cbn in Hr.
  - unfold set_ready, update_machine. wp_go. left; left.
    split_and!; [done..|apply ready_condition_set].
  - wp_go. right. by rewrite <- Ht.
  - destruct Hr as [[reason message] ->]. unfold setFailed, set_ready, update_machine. wp_go.
    left; right. exists reason, message. split_and!; [done..|apply ready_condition_set].
Qed.

(** C10. Provisioning completes: from any machine, new or half-way, of a ready
    cluster with its bootstrap data and failure domain there, at most
    [limit + 2] reconciles end in a Ready machine or a terminal failure that is
    recorded in its status, when the API server and the cloud answer and
    starting instances get somewhere. *)
Theorem reconcileNormal_completes m w :
  exists k, (1 <= k <= limit + 2)%nat /\ decided (Nat.iter k normal_round (m, w)).1.
Proof.
  assert (turns (m, w) <= S limit)%nat as Hle.
  { unfold turns. cbn. destruct (stat_InstanceID _) as [id|]; [|done].
    pose proof (prov_limit id (cloud_of w)). lia. }
  enough (exists k, (1 <= k <= S (turns (m, w)))%nat /\ decided (Nat.iter k normal_round (m, w)).1)
    as (k & Hk & Hd) by (exists k; split; [lia|done]).
  clear Hle. remember (turns (m, w)) as t eqn:Ht. revert m w Ht.
  induction t as [t IH] using lt_wf_ind. intros m w Ht.
  destruct (reconcileNormal_advances m w) as [Hd|Hlt]; [by exists 1%nat; split; [lia|]|].
  set (s1 := normal_round (m, w)). change (turns s1 < turns (m, w))%nat in Hlt.
  destruct (IH (turns s1)) with (m := s1.1) (w := s1.2) as (k & Hk & Hd);
    [lia|by rewrite <- surjective_pairing|].
  exists (S k). split; [lia|]. rewrite Nat.iter_succ_r. by rewrite <- surjective_pairing in Hd.
Qed.
End progress.

(** ** A concrete history *)

#[export] Instance starting_dec state : Decision (starting state).
Proof. unfold starting. apply _. Defined.

(** Between two reconciles, starting instances come up. *)
Definition mem_boots (w : Cloud) : Cloud :=
  (fun i => if decide (starting (ci_Status i))
            then mkCloudInstance (ci_Region i) InstanceStateRunning (ci_Tags i) else i) <$> w.
Definition mem_boot (id : string) (w : Cloud) : nat :=
  match w !! id with
  | Some i => if decide (starting (ci_Status i)) then 1 else 0
  | None => 0
  end.

#[export] Instance mem_provisions :
  Provisions memBuilder mem_cloud mem_boots mem_boot 1.
Proof.
  split.
  - intros k w. eexists {["value" := _]}, _, _. split; [done|]. apply lookup_singleton_eq.
  - intros region w _. by eexists _, _.
  - intros region w c w' id w0 [= <- _]. by eexists _, _.
  - intros region w c w' p w0 [= <- _]. 
    destruct (mem_create_run p w0) as [(resp & w1 & E)|E]; (eexists _, _; split; [exact E|]);
      [done|by eexists].
  - intros region w c w' p w0 [= <- _]. by eexists _, _.
  - intros region w c w' id e t h w0 q w1 [= <- _]. done.
  - intros id cl. unfold mem_boot. repeat case_match; lia.
  - intros w id i Hi Hs. unfold mem_boot, mem_cloud, mem_boots in *.
    rewrite <- fmap_delete, lookup_fmap, Hi. cbn.
    destruct (decide (starting (ci_Status i))); [|done]. cbn.
    destruct (decide (starting _)) as [[? _]|]; [done|lia].
Qed.

Lemma reconcileNormal_completes_witness :
  exists k, (1 <= k <= 3)%nat /\
    decided (Nat.iter k (normal_round memBuilder mem_boots (sim_machine "worker-1") (sim_cluster None))
               (sim_acm "worker-1", (∅ : Cloud))).1.
Proof.
  apply (reconcileNormal_completes memBuilder mem_cloud mem_boots mem_boot 1
    (sim_machine "worker-1") (sim_cluster None) "bootstrap"); [done|done|done|by left|done].
Defined.
