(* ===== verification/TemplateController.v ===== *)
(** * The AlibabaCloudMachineTemplate controller

    [internal/controller/alibabacloudmachinetemplate_controller.go]: the
    scale-from-zero capacity of a template, from a cache per instance type.
    The reconciler is shared by concurrent reconciles and its mutex protects
    the look-up and the insertion, not what happens between them; the second
    half of the file is that interleaving as a step relation. *)

From S2P Require Import Api CloudClient Retry SimSdk SimClient.

(** ** Data *)

Inductive Format := DecimalSI | BinarySI.
(** [resource.NewQuantity(v, format)]. *)
Record Quantity := NewQuantity { q_Value : Z; q_Format : Format }.
(** [corev1.ResourceList]; a nil list reads as the empty one. *)
Abbreviation ResourceList := (gmap string Quantity).
Definition ResourceCPU : string := "cpu".
Definition ResourceMemory : string := "memory".
Definition ResourcePods : string := "pods".
Definition ResourceEphemeralStorage : string := "ephemeral-storage".

(** [equality.Semantic.DeepEqual] on resource lists: quantities by value, a nil
    list equal to an empty one. *)
Definition capacity_equal (a b : ResourceList) : bool := bool_decide (q_Value <$> a = q_Value <$> b).

Record AlibabaCloudMachineTemplate := mkTemplate {
  tmpl_ObjectMeta : ObjectMeta;
  tmpl_Spec : AlibabaCloudMachineSpec;       (* spec.template.spec *)
  tmpl_Capacity : ResourceList;              (* status.capacity *)
}.
#[export] Instance eta_Template : Eta AlibabaCloudMachineTemplate := fun t =>
  mkTemplate (tmpl_ObjectMeta t) (tmpl_Spec t) (tmpl_Capacity t).

Class TemplateKube (W : Type) := {
  get_Template : ObjectKey -> M W AlibabaCloudMachineTemplate;
  (** [r.Status().Patch(ctx, tmpl, client.MergeFrom(before))]: before, after. *)
  patch_TemplateStatus : AlibabaCloudMachineTemplate -> AlibabaCloudMachineTemplate -> M W ();
}.

Definition defaultMaxPodsPerNode : Z := 110.

(** [int64] multiplication. *)
Definition mul64 (x y : Z) : Z := i64 (x * y).

(** The cached part of a capacity. *)
Definition base_capacity (vcpu memMiB : Z) : ResourceList :=
  <[ResourceMemory := NewQuantity (mul64 (mul64 memMiB 1024) 1024) BinarySI]>
    {[ResourceCPU := NewQuantity vcpu DecimalSI]}.

(** The part that depends on the template. *)
Definition extend_capacity (spec : AlibabaCloudMachineSpec) (base : ResourceList) : ResourceList :=
  let out := <[ResourcePods := NewQuantity defaultMaxPodsPerNode DecimalSI]> base in
  match spec_SystemDisk spec with
  | Some d =>
      if decide (0 < sd_Size d)%Z
      then <[ResourceEphemeralStorage :=
               NewQuantity (mul64 (mul64 (mul64 (sd_Size d) 1024) 1024) 1024) BinarySI]> out
      else out
  | None => out
  end.

(** ** The handlers *)

(** The reconciler's cache: instance type to cpu and memory. *)
Abbreviation Cache := (gmap string ResourceList).

Section template.
Context {W : Type} `{!TemplateKube W}.
Context (AlibabaCloudClientBuilder : string -> M W (Client W)).
Abbreviation St := (Cache * W)%type.

Definition resolveCapacity (spec : AlibabaCloudMachineSpec) : M St ResourceList :=
  cache ← on_fst get;
  base ← match cache !! spec_InstanceType spec with
         | Some base => mret base
         | None =>
             cli ← on_snd (AlibabaCloudClientBuilder (spec_RegionID spec));
             '(vcpu, memMiB) ← on_snd (InstanceTypeCapacity cli (spec_InstanceType spec));
             let base := base_capacity vcpu memMiB in
             on_fst (modify <[spec_InstanceType spec := base]>) ;;
             mret base
         end;
  mret (extend_capacity spec base).

Definition ReconcileTemplate (req : ObjectKey) : M St Result :=
  tmpl ← try (on_snd (get_Template req));
  match tmpl with
  | inl err => if IsNotFound err then mret (mkResult 0) else throw err
  | inr tmpl =>
      let spec := tmpl_Spec tmpl in
      if decide (spec_InstanceType spec = "") then mret (mkResult 0)
      else if decide (spec_RegionID spec = "") then mret (mkResult 0)
      else
        capacity ← resolveCapacity spec;
        if capacity_equal (tmpl_Capacity tmpl) capacity then mret (mkResult 0)
        else
          on_snd (patch_TemplateStatus tmpl (tmpl <| tmpl_Capacity := capacity |>)) ;;
          mret (mkResult 0)
  end.

(** ** Instance types are static

    "Instance-type specs are static": the cloud's catalogue gives every
    region and call the same answer. *)
Class Catalogue (catalogue : string -> option (Z * Z)) : Prop := {
  catalogue_answer region c w w' t vcpu mem w1 w2 :
    AlibabaCloudClientBuilder region w = (Ok c, w') ->
    InstanceTypeCapacity c t w1 = (Ok (vcpu, mem), w2) -> catalogue t = Some (vcpu, mem);
}.

Context (catalogue : string -> option (Z * Z)) `{!Catalogue catalogue}.

(** The cache holds what the catalogue says. *)
Definition coherent (cache : Cache) : Prop :=
  forall t base, cache !! t = Some base ->
    exists vcpu mem, catalogue t = Some (vcpu, mem) /\ base = base_capacity vcpu mem.

Lemma coherent_insert cache t vcpu mem :
  coherent cache -> catalogue t = Some (vcpu, mem) ->
  coherent (<[t := base_capacity vcpu mem]> cache).
Proof.
  intros Hc Ht t' base. destruct (decide (t = t')) as [<-|Hne].
  - rewrite lookup_insert_eq. intros [= <-]. eauto.
  - rewrite lookup_insert_ne by done. apply Hc.
Qed.

(** The capacity of an instance type the catalogue has. *)
Definition has_capacity (spec : AlibabaCloudMachineSpec) (capacity : ResourceList) : Prop :=
  exists vcpu mem, catalogue (spec_InstanceType spec) = Some (vcpu, mem) /\
    capacity = extend_capacity spec (base_capacity vcpu mem).

Lemma resolveCapacity_spec spec cache w :
  coherent cache ->
  wp (resolveCapacity spec) (cache, w) (fun r s' =>
    coherent s'.1 /\ (is_Some (cache !! spec_InstanceType spec) -> s' = (cache, w)) /\
    forall capacity, r = Ok capacity -> has_capacity spec capacity /\
      is_Some (s'.1 !! spec_InstanceType spec)).
Proof.
  intros Hc. unfold resolveCapacity. wp_go.
  destruct (cache !! spec_InstanceType spec) as [base|] eqn:E.
  - wp_go. split_and!; [done..|]. intros ? [= <-]. destruct (Hc _ _ E) as (v & m & Hv & ->).
    split; [by exists v, m|]. by rewrite E.
  - assert (forall (s' : St), is_Some (@None ResourceList) -> s' = (cache, w)) as Hno by by intros ? [].
    wp_go. wp_call as [cli|e|p] w1 eqn Eb; [|by auto..].
    wp_go. wp_call as [[vcpu mem]|e|p] w2 eqn Ec; [|by auto..]. wp_go.
    pose proof (catalogue_answer _ _ _ _ _ _ _ _ _ Eb Ec) as Hv.
    split_and!; [by apply coherent_insert|by apply Hno|].
    intros ? [= <-]. split; [by exists vcpu, mem|]. rewrite lookup_insert_eq. by eexists.
Qed.

(** C30. A reconcile of a template with an instance type and a region that
    succeeds leaves the status at the catalogue's capacity: the status is
    patched with it, and nothing else of the template, exactly when it differs
    in value; the cache stays coherent and knows the type, and a type it knew
    costs no cloud call. *)
Theorem ReconcileTemplate_capacity req tmpl cache w w1 res cache' w' :
  coherent cache -> get_Template req w = (Ok tmpl, w1) ->
  spec_InstanceType (tmpl_Spec tmpl) <> "" -> spec_RegionID (tmpl_Spec tmpl) <> "" ->
  ReconcileTemplate req (cache, w) = (Ok res, (cache', w')) ->
  res = mkResult 0 /\ coherent cache' /\ is_Some (cache' !! spec_InstanceType (tmpl_Spec tmpl)) /\
  exists capacity w2, has_capacity (tmpl_Spec tmpl) capacity /\
    (is_Some (cache !! spec_InstanceType (tmpl_Spec tmpl)) -> w2 = w1) /\
    if capacity_equal (tmpl_Capacity tmpl) capacity then w' = w2
    else patch_TemplateStatus tmpl (tmpl <| tmpl_Capacity := capacity |>) w2 = (Ok (), w').
Proof.
  intros Hc Hget Hty Hre. unfold ReconcileTemplate.
  rewrite (M_bind_run _ _ _ (Ok (inr tmpl)) (cache, w1)) by (unfold try, on_snd; by rewrite Hget).
  cbv beta iota zeta. rewrite !decide_False by done.
  pose proof (resolveCapacity_spec (tmpl_Spec tmpl) cache w1 Hc) as Hwp. unfold wp in Hwp.
  unfold mbind at 1, M_bind.
  destruct (resolveCapacity (tmpl_Spec tmpl) (cache, w1)) as [[capacity|e|p] [cache2 w2]]; [|done..].
  destruct Hwp as (Hc2 & Hhit & Hok). cbn in *. destruct (Hok capacity eq_refl) as [Hcap Hin].
  destruct (capacity_equal (tmpl_Capacity tmpl) capacity) eqn:Eeq; intros Hrun.
  - injection Hrun as <- <- <-. split_and!; [done..|]. exists capacity, w2. rewrite Eeq.
    split_and!; [done| |done]. intros Hs. by injection (Hhit Hs).
  - unfold mbind, M_bind, on_snd in Hrun.
    destruct (patch_TemplateStatus _ _ w2) as [[[]|e|p] w3] eqn:Ep; [|done..].
    injection Hrun as <- <- <-. split_and!; [done..|]. exists capacity, w2. rewrite Eeq.
    split_and!; [done| |done]. intros Hs. by injection (Hhit Hs).
Qed.
End template.

(** ** The values *)

(** The value of a product in 64 bits: the number in their range that differs
    from it by a multiple of [2^64]. *)
Definition int64_of (x v : Z) : Prop :=
  (- 2 ^ 63 <= v < 2 ^ 63)%Z /\ exists k, (v = x + k * 2 ^ 64)%Z.

Lemma int64_of_exact x v : int64_of x v -> (- 2 ^ 63 <= x < 2 ^ 63)%Z -> v = x.
Proof. intros [Hv [k ->]] Hx. assert (k = 0)%Z as -> by lia. lia. Qed.

(** A product whose left factor is already one in 64 bits. *)
Lemma int64_of_mul x y z : int64_of x y -> int64_of (x * z) (mul64 y z).
Proof.
  intros [_ [k ->]]. split; [apply i64_range|]. unfold mul64.
  destruct (i64_congr ((x + k * 2 ^ 64) * z)) as [k' ->]. exists (k * z + k')%Z. lia.
Qed.
Lemma int64_of_mul64 x y : int64_of (x * y) (mul64 x y).
Proof. split; [apply i64_range|apply i64_congr]. Qed.

Definition capacity_value (r : string) (c : ResourceList) : option Z := q_Value <$> c !! r.

(** C31. The published values.  Cpu is the instance type's, pods is the kubelet's
    default, memory is the instance type's in bytes, and ephemeral storage is the
    system disk in bytes and is there exactly when the template sets its size;
    there is nothing else.  The two products are those of 64-bit integers: they
    are exact while the sizes fit (memory below 2^43 MiB, a disk below 2^33
    GiB), and beyond that they wrap around. *)
Theorem extend_capacity_values spec vcpu mem :
  let out := extend_capacity spec (base_capacity vcpu mem) in
  capacity_value ResourceCPU out = Some vcpu /\
  capacity_value ResourcePods out = Some 110%Z /\
  (exists v, capacity_value ResourceMemory out = Some v /\ int64_of (mem * 2 ^ 20) v /\
     ((0 <= mem < 2 ^ 43)%Z -> v = (mem * 2 ^ 20)%Z)) /\
  match spec_SystemDisk spec with
  | Some d =>
      if decide (0 < sd_Size d)%Z
      then exists v, capacity_value ResourceEphemeralStorage out = Some v /\
             int64_of (sd_Size d * 2 ^ 30) v /\ ((sd_Size d < 2 ^ 33)%Z -> v = (sd_Size d * 2 ^ 30)%Z)
      else capacity_value ResourceEphemeralStorage out = None
  | None => capacity_value ResourceEphemeralStorage out = None
  end /\
  dom out ⊆ {[ResourceCPU; ResourceMemory; ResourcePods; ResourceEphemeralStorage]}.
Proof.
  cbv zeta. unfold extend_capacity, base_capacity, capacity_value. cbv zeta.
  assert (int64_of (mem * 2 ^ 20) (mul64 (mul64 mem 1024) 1024)) as Hmem.
  { replace (mem * 2 ^ 20)%Z with (mem * 1024 * 1024)%Z by lia. apply int64_of_mul, int64_of_mul64. }
  assert ((0 <= mem < 2 ^ 43)%Z -> mul64 (mul64 mem 1024) 1024 = (mem * 2 ^ 20)%Z) as Hexact.
  { intros Hm. apply (int64_of_exact _ _ Hmem). lia. }
  assert (forall m : ResourceList, m !! ResourceMemory = Some (NewQuantity (mul64 (mul64 mem 1024) 1024) BinarySI) ->
    exists v, q_Value <$> m !! ResourceMemory = Some v /\ int64_of (mem * 2 ^ 20) v /\
      ((0 <= mem < 2 ^ 43)%Z -> v = (mem * 2 ^ 20)%Z)) as Hout.
  { intros m ->. by eexists. }
  destruct (spec_SystemDisk spec) as [d|]; [case_decide as Hd|].
  - assert (int64_of (sd_Size d * 2 ^ 30) (mul64 (mul64 (mul64 (sd_Size d) 1024) 1024) 1024)) as Hdisk.
    { replace (sd_Size d * 2 ^ 30)%Z with (sd_Size d * 1024 * 1024 * 1024)%Z by lia.
      apply int64_of_mul, int64_of_mul, int64_of_mul64. }
    split_and!; [| |apply Hout| |set_solver]; [by simplify_map_eq..|].
    eexists. split_and!; [by simplify_map_eq|exact Hdisk|]. intros Hs.
    apply (int64_of_exact _ _ Hdisk). lia.
  - split_and!; [| |apply Hout| |set_solver]; by simplify_map_eq.
  - split_and!; [| |apply Hout| |set_solver]; by simplify_map_eq.
Qed.

(** ** Concurrent reconciles

    A thread is one run of [resolveCapacity], at one of the points between which
    others can run. *)

Inductive Thread :=
  | Looking (spec : AlibabaCloudMachineSpec)                   (* before the first lock *)
  | Resolving (spec : AlibabaCloudMachineSpec)                 (* missed the cache *)
  | Storing (spec : AlibabaCloudMachineSpec) (base : ResourceList)   (* before the second lock *)
  | Done (spec : AlibabaCloudMachineSpec) (capacity : ResourceList)
  | Failed.

Section interleaving.
Context {W : Type}.
Context (builder : string -> M W (Client W)).

(** The cache, the world and the threads. *)
Definition Config := (Cache * W * list Thread)%type.

Inductive step : Config -> Config -> Prop :=
  | step_hit cache w ts i spec base :
      ts !! i = Some (Looking spec) -> cache !! spec_InstanceType spec = Some base ->
      step (cache, w, ts) (cache, w, <[i := Done spec (extend_capacity spec base)]> ts)
  | step_miss cache w ts i spec :
      ts !! i = Some (Looking spec) -> cache !! spec_InstanceType spec = None ->
      step (cache, w, ts) (cache, w, <[i := Resolving spec]> ts)
  | step_resolve cache w ts i spec c w1 vcpu mem w2 :
      ts !! i = Some (Resolving spec) -> builder (spec_RegionID spec) w = (Ok c, w1) ->
      InstanceTypeCapacity c (spec_InstanceType spec) w1 = (Ok (vcpu, mem), w2) ->
      step (cache, w, ts) (cache, w2, <[i := Storing spec (base_capacity vcpu mem)]> ts)
  | step_fail cache w ts i spec w' :
      ts !! i = Some (Resolving spec) ->
      step (cache, w, ts) (cache, w', <[i := Failed]> ts)
  | step_store cache w ts i spec base :
      ts !! i = Some (Storing spec base) ->
      step (cache, w, ts)
        (<[spec_InstanceType spec := base]> cache, w, <[i := Done spec (extend_capacity spec base)]> ts).

Context (catalogue : string -> option (Z * Z)) `{!Catalogue builder catalogue}.

Definition thread_ok (t : Thread) : Prop :=
  match t with
  | Storing spec base => exists vcpu mem,
      catalogue (spec_InstanceType spec) = Some (vcpu, mem) /\ base = base_capacity vcpu mem
  | Done spec capacity => has_capacity catalogue spec capacity
  | _ => True
  end.

Definition config_ok (k : Config) : Prop :=
  coherent catalogue k.1.1 /\ Forall thread_ok k.2.

Lemma step_ok k k' : step k k' -> config_ok k -> config_ok k'.
Proof.
  unfold config_ok. intros [cache w ts i spec base Hi Hb|cache w ts i spec Hi _
    |cache w ts i spec c w1 vcpu mem w2 Hi Eb Ec|cache w ts i spec w' Hi|cache w ts i spec base Hi];
    cbn; intros [Hc Ht].
  - split; [done|]. apply Forall_insert; [done|]. destruct (Hc _ _ Hb) as (v & m & Hv & ->). by exists v, m.
  - split; [done|]. by apply Forall_insert.
  - split; [done|]. apply Forall_insert; [done|]. exists vcpu, mem. split; [|done].
    by eapply catalogue_answer.
  - split; [done|]. by apply Forall_insert.
  - destruct (Forall_lookup_1 _ _ _ _ Ht Hi) as (v & m & Hv & ->). split.
    + by apply coherent_insert.
    + apply Forall_insert; [done|]. by exists v, m.
Qed.

(** C18. However concurrent reconciles interleave around the two critical
    sections, two misses of one type included, the cache only ever holds the
    catalogue's answers and every thread that finishes has the capacity of its
    own template. *)
Theorem concurrent_capacity w specs cache w' ts :
  rtc step (∅, w, Looking <$> specs) (cache, w', ts) ->
  coherent catalogue cache /\
  forall i spec capacity, ts !! i = Some (Done spec capacity) -> has_capacity catalogue spec capacity.
Proof.
  intros Hrtc. assert (config_ok (cache, w', ts)) as [Hc Ht].
  { remember (∅, w, Looking <$> specs) as k0 eqn:E0. remember (cache, w', ts) as k1 eqn:E1.
    assert (config_ok k0) as Hk0.
    { subst. split; [by intros t base|]. apply Forall_fmap. by apply list.Forall_true. }
    clear E0 E1. induction Hrtc as [|k1 k2 k3 Hs _ IH]; [done|]. apply IH. by eapply step_ok. }
  split; [done|]. intros i spec capacity Hi. apply (Forall_lookup_1 _ _ _ _ Ht Hi).
Qed.
End interleaving.

(** ** Concrete runs *)

Definition sim_template : AlibabaCloudMachineTemplate :=
  mkTemplate (sim_meta "workers") (sim_spec <| spec_RegionID := sim_region |>) ∅.

#[export] Instance memTemplateKube : TemplateKube Cloud := {|
  get_Template _ := mret sim_template;
  patch_TemplateStatus _ _ := mret ();
|}.
Definition memCatalogue (_ : string) : option (Z * Z) := Some (2, 16384)%Z.
#[export] Instance memCatalogue_laws : Catalogue memBuilder memCatalogue.
Proof. split. by intros region c w w' t vcpu mem w1 w2 [= <- _] [= <- <- _]. Qed.

Lemma ReconcileTemplate_capacity_witness :
  exists capacity, has_capacity memCatalogue (tmpl_Spec sim_template) capacity.
Proof.
  destruct (ReconcileTemplate_capacity memBuilder memCatalogue (mkObjectKey "default" "workers")
    sim_template ∅ (∅ : Cloud) (∅ : Cloud) (mkResult 0)
    {["ecs.g7.large" := base_capacity 2 16384]} (∅ : Cloud)) as (_ & _ & _ & capacity & _ & Hcap & _).
  - by intros t base.
  - reflexivity.
  - discriminate.
  - discriminate.
  - vm_compute. reflexivity.
  - by exists capacity.
Defined.

(** A disk of [2^33] GiB wraps around to a negative quantity. *)
Lemma extend_capacity_values_witness :
  capacity_value ResourceEphemeralStorage (extend_capacity sim_spec (base_capacity 2 16384)) =
    Some (120 * 2 ^ 30)%Z /\
  capacity_value ResourceEphemeralStorage
    (extend_capacity (sim_spec <| spec_SystemDisk := Some (mkSystemDisk "cloud_essd" (2 ^ 33) "" None "") |>)
       (base_capacity 2 16384)) = Some (- 2 ^ 63)%Z.
Proof.
  split; [|by vm_compute].
  destruct (extend_capacity_values sim_spec 2 16384) as (_ & _ & _ & Hd & _).
  cbn [spec_SystemDisk sim_spec] in Hd. rewrite decide_True in Hd by (by vm_compute).
  destruct Hd as (v & -> & _ & Hv). f_equal. by apply Hv.
Defined.

(** Two reconciles of one type, both missing the cache. *)
Lemma concurrent_capacity_witness :
  let spec := tmpl_Spec sim_template in
  exists cache ts, rtc (step memBuilder) (∅, (∅ : Cloud), Looking <$> [spec; spec]) (cache, (∅ : Cloud), ts) /\
    coherent memCatalogue cache /\
    has_capacity memCatalogue spec (extend_capacity spec (base_capacity 2 16384)).
Proof.
  cbv zeta. set (spec := tmpl_Spec sim_template). set (base := base_capacity 2 16384).
  assert (rtc (step memBuilder) (∅, (∅ : Cloud), Looking <$> [spec; spec])
    (<[spec_InstanceType spec := base]> ∅, (∅ : Cloud),
     [Done spec (extend_capacity spec base); Resolving spec])) as Hrtc.
  { eapply rtc_l; [by apply (step_miss _ ∅ ∅ _ 0 spec)|].
    eapply rtc_l; [by apply (step_miss _ ∅ ∅ _ 1 spec)|].
    eapply rtc_l; [by eapply (step_resolve _ ∅ ∅ _ 0 spec)|].
    eapply rtc_l; [by apply (step_store _ ∅ ∅ _ 0 spec base)|]. apply rtc_refl. }
  destruct (concurrent_capacity memBuilder memCatalogue (∅ : Cloud) [spec; spec] _ _ _ Hrtc) as [Hc Hd].
  eexists _, _. split; [exact Hrtc|]. split; [exact Hc|]. by apply (Hd 0%nat).
Defined.
