(* ===== verification/ControlPlaneController.v ===== *)
(** * The AlibabaCloudControlPlane controller

    [internal/controller/alibabacloudcontrolplane_controller.go]: it adopts a
    control plane that is managed elsewhere, and reports an unsupported mode.
    It takes no finalizer and makes no cloud call. *)

From S2P Require Import Api SimSdk SimClient.

(** ** Data: [api/controlplane/v1beta1] *)

Definition ControlPlaneModeExternal : string := "external".

Record AlibabaCloudControlPlaneSpec := mkControlPlaneSpec {
  cps_Mode : string;
  cps_Version : string;
  cps_ControlPlaneEndpoint : APIEndpoint;
}.

(** [Initialization] is the pointer's [ControlPlaneInitialized]. *)
Record AlibabaCloudControlPlaneStatus := mkControlPlaneStatus {
  cpst_Ready : bool;
  cpst_ExternalManagedControlPlane : option bool;
  cpst_Initialization : option (option bool);
  cpst_Version : string;
  cpst_Conditions : list Condition;
}.
#[export] Instance eta_ControlPlaneStatus : Eta AlibabaCloudControlPlaneStatus := fun s =>
  mkControlPlaneStatus (cpst_Ready s) (cpst_ExternalManagedControlPlane s) (cpst_Initialization s)
    (cpst_Version s) (cpst_Conditions s).

Record AlibabaCloudControlPlane := mkControlPlane {
  cp_ObjectMeta : ObjectMeta;
  cp_Spec : AlibabaCloudControlPlaneSpec;
  cp_Status : AlibabaCloudControlPlaneStatus;
}.
#[export] Instance eta_ControlPlane : Eta AlibabaCloudControlPlane := fun c =>
  mkControlPlane (cp_ObjectMeta c) (cp_Spec c) (cp_Status c).

Class ControlPlaneKube (W : Type) := {
  get_ControlPlane : ObjectKey -> M W AlibabaCloudControlPlane;
  cpk_GetOwnerCluster : ObjectMeta -> M W (option Cluster);
  cpk_IsPaused : Cluster -> AlibabaCloudControlPlane -> bool;
  cpk_NewHelper : AlibabaCloudControlPlane -> M W ();
  cpk_Patch : AlibabaCloudControlPlane -> AlibabaCloudControlPlane -> list string -> M W ();
}.

(** ** The handlers *)

#[export] Instance AlibabaCloudControlPlane_conditions : ConditionsSetter AlibabaCloudControlPlane := {
  GetConditions cp := cpst_Conditions (cp_Status cp);
  SetConditions conditions cp := cp <| cp_Status ::= fun s => s <| cpst_Conditions := conditions |> |>;
}.

Section controlplane.
Context {W : Type} `{!ControlPlaneKube W} `{!KubeLib} `{!GoFmt}.

(** [conditions.Set(cp, c)]. *)
Definition set_cp_condition (c : Condition) (cp : AlibabaCloudControlPlane) : AlibabaCloudControlPlane :=
  set_condition c cp.

Definition reconcileExternal (cp : AlibabaCloudControlPlane) : AlibabaCloudControlPlane :=
  let cp := cp <| cp_Status ::= fun s =>
    s <| cpst_ExternalManagedControlPlane := Some true |>
      <| cpst_Initialization := Some (Some true) |>
      <| cpst_Ready := true |> <| cpst_Version := cps_Version (cp_Spec cp) |> |> in
  set_cp_condition (condition ReadyCondition ConditionTrue "ExternalControlPlaneAdopted" "") cp.

Definition unsupportedMode (mode : string) : string :=
  "control plane mode " +:+ fmt_q mode +:+ " is not supported (only " +:+
  fmt_q ControlPlaneModeExternal +:+ " is implemented)".

(** What [Reconcile] does to the object between the creation of the patch
    helper and the deferred patch. *)
Definition reconcileControlPlane (cp : AlibabaCloudControlPlane) : AlibabaCloudControlPlane :=
  if negb (IsZero (meta_DeletionTimestamp (cp_ObjectMeta cp))) then cp
  else if decide (cps_Mode (cp_Spec cp) = ControlPlaneModeExternal \/ cps_Mode (cp_Spec cp) = "")
  then reconcileExternal cp
  else set_cp_condition (condition ReadyCondition ConditionFalse "UnsupportedMode"
                           (unsupportedMode (cps_Mode (cp_Spec cp)))) cp.

Definition ReconcileControlPlane (req : ObjectKey) : M W Result :=
  cp ← try (get_ControlPlane req);
  match cp with
  | inl err => if IsNotFound err then mret (mkResult 0) else throw err
  | inr cp =>
      cluster ← cpk_GetOwnerCluster (cp_ObjectMeta cp);
      if from_option (fun cluster => cpk_IsPaused cluster cp) false cluster then mret (mkResult 0)
      else
        cpk_NewHelper cp ;;
        cpk_Patch cp (reconcileControlPlane cp) [ReadyCondition] ;;
        mret (mkResult 0)
  end.

Context `{!KubeLibLaws}.

Definition cp_ready_condition (cp : AlibabaCloudControlPlane) :
    option (string * ConditionStatus * string * string) :=
  cond_content <$> conditions_Get (cpst_Conditions (cp_Status cp)) ReadyCondition.

Lemma cp_ready_set c cp : cond_Type c = ReadyCondition ->
  cp_ready_condition (set_cp_condition c cp) = Some (cond_content c).
Proof. intros Ht. unfold cp_ready_condition. cbn. rewrite <- Ht. apply conditions_Get_Set. Qed.

(** What a reconcile makes of a control plane. *)
Definition adopted (cp cp' : AlibabaCloudControlPlane) : Prop :=
  cpst_Ready (cp_Status cp') = true /\
  cpst_ExternalManagedControlPlane (cp_Status cp') = Some true /\
  cpst_Initialization (cp_Status cp') = Some (Some true) /\
  cpst_Version (cp_Status cp') = cps_Version (cp_Spec cp) /\
  cp_ready_condition cp' = Some (ReadyCondition, ConditionTrue, "ExternalControlPlaneAdopted", "").

Definition refused (cp cp' : AlibabaCloudControlPlane) : Prop :=
  cpst_Ready (cp_Status cp') = cpst_Ready (cp_Status cp) /\
  cpst_Initialization (cp_Status cp') = cpst_Initialization (cp_Status cp) /\
  cp_ready_condition cp' = Some (ReadyCondition, ConditionFalse, "UnsupportedMode",
                                 unsupportedMode (cps_Mode (cp_Spec cp))).

(** C40. A reconcile that gets past the reads and the pause test sends exactly
    one patch, whose object has the metadata and the spec it read; a deleted
    control plane is sent as it is, an external one (the default) as adopted
    and initialized at the version of its spec, one of another mode with a
    False Ready condition and its readiness as it was.  A missing object and a
    paused one cost no patch. *)
Theorem ReconcileControlPlane_patches req w :
  match get_ControlPlane req w with
  | (Err e, w1) =>
      ReconcileControlPlane req w = (if IsNotFound e then Ok (mkResult 0) else Err e, w1)
  | (Panic p, w1) => ReconcileControlPlane req w = (Panic p, w1)
  | (Ok cp, w1) =>
      exists cp', cp_ObjectMeta cp' = cp_ObjectMeta cp /\ cp_Spec cp' = cp_Spec cp /\
        (if negb (IsZero (meta_DeletionTimestamp (cp_ObjectMeta cp))) then cp' = cp
         else if decide (cps_Mode (cp_Spec cp) = "external" \/ cps_Mode (cp_Spec cp) = "")
         then adopted cp cp' else refused cp cp') /\
        forall cluster w2 w3, cpk_GetOwnerCluster (cp_ObjectMeta cp) w1 = (Ok cluster, w2) ->
          cpk_NewHelper cp w2 = (Ok (), w3) ->
          ReconcileControlPlane req w =
            if from_option (fun cluster => cpk_IsPaused cluster cp) false cluster
            then (Ok (mkResult 0), w2)
            else match cpk_Patch cp cp' [ReadyCondition] w3 with
                 | (Ok _, w4) => (Ok (mkResult 0), w4)
                 | (Err e, w4) => (Err e, w4)
                 | (Panic p, w4) => (Panic p, w4)
                 end
  end.
Proof.
  unfold ReconcileControlPlane, try, mbind, M_bind.
  destruct (get_ControlPlane req w) as [[cp|e|p] w1]; [|by destruct (IsNotFound e)|done].
  exists (reconcileControlPlane cp). split_and!.
  - unfold reconcileControlPlane. destruct (negb _); [done|]. by case_decide.
  - unfold reconcileControlPlane. destruct (negb _); [done|]. by case_decide.
  - unfold reconcileControlPlane, ControlPlaneModeExternal. destruct (negb _); [done|]. case_decide.
    + unfold adopted, reconcileExternal. split_and!; [done..|].
      by rewrite cp_ready_set.
    + unfold refused. split_and!; [done..|]. by rewrite cp_ready_set.
  - intros cluster w2 w3 -> Hh. destruct (from_option _ _ _); [done|]. rewrite Hh.
    by destruct (cpk_Patch _ _ _ w3) as [[] ?].
Qed.

(** Adoption is stable: reconciling the object a reconcile produced changes
    no more than the bookkeeping of its condition. *)
Theorem reconcileControlPlane_stable cp :
  let cp' := reconcileControlPlane cp in
  let cp'' := reconcileControlPlane cp' in
  cp_ObjectMeta cp'' = cp_ObjectMeta cp' /\ cp_Spec cp'' = cp_Spec cp' /\
  cp_ready_condition cp'' = cp_ready_condition cp' /\
  (cp_Status cp'') <| cpst_Conditions := [] |> = (cp_Status cp') <| cpst_Conditions := [] |>.
Proof.
  cbv zeta. unfold reconcileControlPlane. 
  destruct (negb (IsZero (meta_DeletionTimestamp (cp_ObjectMeta cp)))) eqn:Ed.
  { rewrite Ed. done. }
  case_decide as Hm.
  - cbn -[reconcileExternal].
    rewrite (Ed : negb (IsZero (meta_DeletionTimestamp (cp_ObjectMeta (reconcileExternal cp)))) = false).
    rewrite decide_True by done. unfold reconcileExternal. split_and!; [done..| |done]. by rewrite !cp_ready_set.
  - cbn -[set_cp_condition].
    rewrite (Ed : negb (IsZero (meta_DeletionTimestamp (cp_ObjectMeta (set_cp_condition _ cp)))) = false).
    rewrite decide_False by done. split_and!; [done..| |done]. by rewrite !cp_ready_set.
Qed.
End controlplane.

(** ** A concrete run *)

Definition sim_control_plane : AlibabaCloudControlPlane :=
  mkControlPlane (sim_meta "cp") (mkControlPlaneSpec "" "v1.33.0" (mkAPIEndpoint "api-int" 6443))
    (mkControlPlaneStatus false None None "" []).

#[export] Instance memControlPlaneKube : ControlPlaneKube AlibabaCloudControlPlane := {|
  get_ControlPlane _ := get;
  cpk_GetOwnerCluster _ := mret None;
  cpk_IsPaused _ _ := false;
  cpk_NewHelper _ := mret ();
  cpk_Patch _ after _ := modify (fun _ => after);
|}.

Lemma ReconcileControlPlane_patches_witness :
  exists cp', ReconcileControlPlane (mkObjectKey "default" "cp") sim_control_plane =
    (Ok (mkResult 0), cp') /\ adopted sim_control_plane cp'.
Proof.
  destruct (ReconcileControlPlane_patches (mkObjectKey "default" "cp") sim_control_plane)
    as (cp' & _ & _ & Had & Hrun).
  exists cp'. split; [|exact Had].
  rewrite (Hrun None sim_control_plane sim_control_plane eq_refl eq_refl). reflexivity.
Defined.

Lemma reconcileControlPlane_stable_witness :
  cp_ready_condition (reconcileControlPlane (reconcileControlPlane sim_control_plane)) =
  cp_ready_condition (reconcileControlPlane sim_control_plane).
Proof. apply (reconcileControlPlane_stable sim_control_plane). Defined.
