(* ===== verification/CsrController.v ===== *)
(** * The CSR approver

    [internal/controller/csr_controller.go]: which kubelet certificate requests
    are approved.  PEM and X.509 parsing are parameters; the decision itself,
    and the reconcile around it, are modelled. *)

From S2P Require Import Api ProviderID Oss SimSdk.

(** ** Data *)

(** [x509.CertificateRequest], the fields the controller reads; an IP address
    is its textual form, as [ip.String()] gives it. *)
Record CertificateRequest := mkCertificateRequest {
  cr_CommonName : string;
  cr_Organization : list string;
  cr_IPAddresses : list string;
  cr_DNSNames : list string;
}.

Inductive CSRConditionType := CertificateApproved | CertificateDenied | CertificateFailed.
#[export] Instance CSRConditionType_eq_dec : EqDecision CSRConditionType.
Proof. solve_decision. Defined.

Record CSRCondition := mkCSRCondition {
  csrc_Type : CSRConditionType;
  csrc_Status : ConditionStatus;
  csrc_Reason : string;
  csrc_Message : string;
}.

Record CertificateSigningRequest := mkCSR {
  csr_Name : string;
  csr_SignerName : string;
  csr_Username : string;
  csr_Request : string;
  csr_Conditions : list CSRCondition;
  csr_Certificate : string;
}.
#[export] Instance eta_CSR : Eta CertificateSigningRequest := fun c =>
  mkCSR (csr_Name c) (csr_SignerName c) (csr_Username c) (csr_Request c) (csr_Conditions c)
    (csr_Certificate c).

Definition KubeAPIServerClientKubeletSignerName : string := "kubernetes.io/kube-apiserver-client-kubelet".
Definition KubeletServingSignerName : string := "kubernetes.io/kubelet-serving".

Definition nodeBootstrapperUser : string :=
  "system:serviceaccount:openshift-machine-config-operator:node-bootstrapper".
Definition nodeUserPrefix : string := "system:node:".
Definition nodesGroup : string := "system:nodes".

(** The calls of the reconciler; [pem_Decode] gives the type and the bytes of
    the first block. *)
Class CsrKube (W : Type) := {
  csrk_get_CSR : ObjectKey -> M W CertificateSigningRequest;
  csrk_list_machines : M W (list AlibabaCloudMachine);
  csrk_list_nodes : M W (list Node);
  csrk_get_node : string -> M W Node;
  csrk_update_approval : CertificateSigningRequest -> M W ();
  pem_Decode : string -> option (string * string);
  x509_ParseCertificateRequest : string -> error + CertificateRequest;
}.

(** ** Pure parts *)

Definition isCSRDecided (csr : CertificateSigningRequest) : bool :=
  existsb (fun c => bool_decide (csrc_Type c = CertificateApproved \/ csrc_Type c = CertificateDenied))
    (csr_Conditions csr).

Definition containsStr (ss : list string) (want : string) : bool := bool_decide (want ∈ ss).

(** The two sets of the advertised addresses. *)
Definition node_ips (node : Node) : list string :=
  map snd (filter (fun a => a.1 = NodeInternalIP \/ a.1 = NodeExternalIP) (node_Addresses node)).
Definition node_dns (node : Node) : list string :=
  node_Name node ::
  map snd (filter (fun a => a.1 = NodeHostName \/ a.1 = NodeInternalDNS \/ a.1 = NodeExternalDNS)
             (node_Addresses node)).

Definition sansSubsetOfNode (cr : CertificateRequest) (node : Node) : bool :=
  if decide (cr_IPAddresses cr = [] /\ cr_DNSNames cr = []) then false
  else forallb (fun ip => bool_decide (ip ∈ node_ips node)) (cr_IPAddresses cr) &&
       forallb (fun d => bool_decide (d ∈ node_dns node)) (cr_DNSNames cr).

Definition nodeBackedByCAPAMachine (node : Node) (machines : list AlibabaCloudMachine) : bool :=
  let id := providerInstanceID (node_ProviderID node) in
  if decide (id = "") then false
  else existsb (fun m => match spec_ProviderID (acm_Spec m) with
                         | Some pid => bool_decide (providerInstanceID pid = id)
                         | None => false end) machines.

(** The instances that have joined as nodes. *)
Definition joined_instances (nodes : list Node) : list string :=
  filter (fun id => id <> "") (map (fun n => providerInstanceID (node_ProviderID n)) nodes).

Definition machine_pending (joined : list string) (m : AlibabaCloudMachine) : bool :=
  match spec_ProviderID (acm_Spec m), stat_InstanceID (acm_Status m) with
  | Some pid, Some _ => negb (bool_decide (providerInstanceID pid ∈ joined))
  | _, _ => false
  end.

(** ** The handlers *)

Section csr.
Context {W : Type} `{!CsrKube W} `{!GoFmt}.

Definition parseCSR (pemBytes : string) : error + CertificateRequest :=
  match pem_Decode pemBytes with
  | Some (t, bytes) =>
      if decide (t = "CERTIFICATE REQUEST") then x509_ParseCertificateRequest bytes
      else inl (ErrorString "PEM block is not a CERTIFICATE REQUEST")
  | None => inl (ErrorString "PEM block is not a CERTIFICATE REQUEST")
  end.

Definition hasPendingMachine (machines : list AlibabaCloudMachine) : M W bool :=
  nodes ← csrk_list_nodes;
  mret (existsb (machine_pending (joined_instances nodes)) machines).

(** [Some reason] is approval. *)
Definition shouldApprove (csr : CertificateSigningRequest) (cr : CertificateRequest)
    : M W (option string) :=
  if negb (HasPrefix (cr_CommonName cr) nodeUserPrefix) ||
     negb (containsStr (cr_Organization cr) nodesGroup) then mret None
  else
    let nodeName := TrimPrefix (cr_CommonName cr) nodeUserPrefix in
    machines ← csrk_list_machines;
    if decide (csr_SignerName csr = KubeAPIServerClientKubeletSignerName) then
      if decide (csr_Username csr <> nodeBootstrapperUser) then mret None
      else
        pending ← hasPendingMachine machines;
        if pending : bool then
          mret (Some ("bootstrap CSR for " +:+ fmt_q nodeName +:+
                      "; a provisioned AlibabaCloudMachine is awaiting its node"))
        else mret None
    else if decide (csr_SignerName csr = KubeletServingSignerName) then
      if decide (csr_Username csr <> nodeUserPrefix +:+ nodeName) then mret None
      else
        r ← try (csrk_get_node nodeName);
        match r with
        | inl err => if IsNotFound err then mret None else throw err
        | inr node =>
            if negb (sansSubsetOfNode cr node) then mret None
            else
              let provenance := if nodeBackedByCAPAMachine node machines then "CAPA-backed"
                                else "no AlibabaCloudMachine — e.g. an ABI-installed node" in
              mret (Some ("serving CSR SANs all match node " +:+ fmt_q nodeName +:+
                          " addresses (" +:+ provenance +:+ ")"))
        end
    else mret None.

Definition approve (reason : string) (csr : CertificateSigningRequest) : CertificateSigningRequest :=
  csr <| csr_Conditions ::= fun l =>
    l ++ [mkCSRCondition CertificateApproved ConditionTrue "CAPAApprove" reason] |>.

Definition ReconcileCSR (req : ObjectKey) : M W Result :=
  r ← try (csrk_get_CSR req);
  match r with
  | inl err => if IsNotFound err then mret (mkResult 0) else throw err
  | inr csr =>
      if isCSRDecided csr || negb (bool_decide (csr_Certificate csr = "")) then mret (mkResult 0)
      else if decide (csr_SignerName csr <> KubeAPIServerClientKubeletSignerName /\
                      csr_SignerName csr <> KubeletServingSignerName) then mret (mkResult 0)
      else
        match parseCSR (csr_Request csr) with
        | inl _ => mret (mkResult 0)
        | inr cr =>
            ok ← shouldApprove csr cr;
            match ok with
            | None => mret (mkResult 0)
            | Some reason =>
                wrap ("approve CSR " +:+ csr_Name csr +:+ ": ")
                  (csrk_update_approval (approve reason csr)) ;;
                mret (mkResult 0)
            end
        end
  end.
End csr.

(** ** What may be approved *)

(** The two safe cases.  A bootstrap request comes from the node bootstrapper
    while some provisioned machine has no node; a serving request comes from the
    node's own kubelet and asks for no name or address the node does not
    advertise. *)
Inductive safe (csr : CertificateSigningRequest) (cr : CertificateRequest) (nodeName : string)
    (machines : list AlibabaCloudMachine) (nodes : list Node) (get : string -> option Node) : Prop :=
  | safe_bootstrap m pid id :
      csr_SignerName csr = KubeAPIServerClientKubeletSignerName ->
      csr_Username csr = nodeBootstrapperUser ->
      m ∈ machines -> spec_ProviderID (acm_Spec m) = Some pid ->
      stat_InstanceID (acm_Status m) = Some id ->
      (forall n, n ∈ nodes -> providerInstanceID (node_ProviderID n) <> "" ->
         providerInstanceID (node_ProviderID n) <> providerInstanceID pid) ->
      safe csr cr nodeName machines nodes get
  | safe_serving n :
      csr_SignerName csr = KubeletServingSignerName ->
      csr_Username csr = nodeUserPrefix +:+ nodeName ->
      get nodeName = Some n ->
      (cr_IPAddresses cr <> [] \/ cr_DNSNames cr <> []) ->
      (forall ip, ip ∈ cr_IPAddresses cr -> ip ∈ node_ips n) ->
      (forall d, d ∈ cr_DNSNames cr -> d ∈ node_dns n) ->
      safe csr cr nodeName machines nodes get.

Lemma sansSubsetOfNode_spec cr node :
  sansSubsetOfNode cr node = true <->
  (cr_IPAddresses cr <> [] \/ cr_DNSNames cr <> []) /\
  (forall ip, ip ∈ cr_IPAddresses cr -> ip ∈ node_ips node) /\
  (forall d, d ∈ cr_DNSNames cr -> d ∈ node_dns node).
Proof.
  unfold sansSubsetOfNode. destruct (decide _) as [[H1 H2]|Hne].
  { split; [done|]. by intros [[?|?] _]. }
  rewrite andb_true_iff, !forallb_forall. setoid_rewrite bool_decide_eq_true.
  setoid_rewrite <- list_elem_of_In. split.
  - intros [Hi Hd]. split_and!; [|done..].
    destruct (cr_IPAddresses cr); [|by left]. destruct (cr_DNSNames cr); [tauto|by right].
  - by intros (_ & ? & ?).
Qed.

Lemma machine_pending_spec nodes m :
  machine_pending (joined_instances nodes) m = true <->
  exists pid id, spec_ProviderID (acm_Spec m) = Some pid /\ stat_InstanceID (acm_Status m) = Some id /\
    forall n, n ∈ nodes -> providerInstanceID (node_ProviderID n) <> "" ->
      providerInstanceID (node_ProviderID n) <> providerInstanceID pid.
Proof.
  unfold machine_pending.
  destruct (spec_ProviderID (acm_Spec m)) as [pid|]; [|by split; [|intros (? & ? & ? & _)]].
  destruct (stat_InstanceID (acm_Status m)) as [id|]; [|by split; [|intros (? & ? & _ & ? & _)]].
  rewrite negb_true_iff, bool_decide_eq_false. unfold joined_instances. split.
  - intros Hn. exists pid, id. split_and!; [done..|]. intros n Hin Hne E. apply Hn.
    apply list_elem_of_filter. split; [by rewrite <- E|]. apply list_elem_of_fmap. exists n. by rewrite E.
  - intros (? & ? & [= <-] & [= <-] & Hall) [Hne Hin]%list_elem_of_filter.
    apply list_elem_of_fmap in Hin as (n & E & Hin). rewrite E in Hne. by destruct (Hall n Hin Hne).
Qed.

(** ** Theorems *)

Section theorems.
Context {W : Type} `{!CsrKube W} `{!GoFmt}.
Implicit Types (w : W).

Definition nodes_at w : list Node :=
  match csrk_list_nodes w with (Ok l, _) => l | _ => [] end.
Definition node_at w (name : string) : option Node :=
  match csrk_get_node name w with (Ok n, _) => Some n | _ => None end.

(** The request is for a node identity, and safe in the cluster as this
    reconcile reads it. *)
Definition safe_in (csr : CertificateSigningRequest) (cr : CertificateRequest) w : Prop :=
  exists nodeName machines w1,
    cr_CommonName cr = nodeUserPrefix +:+ nodeName /\ nodesGroup ∈ cr_Organization cr /\
    csrk_list_machines w = (Ok machines, w1) /\
    safe csr cr nodeName machines (nodes_at w1) (node_at w1).

Lemma shouldApprove_sound csr cr w reason w' :
  shouldApprove csr cr w = (Ok (Some reason), w') -> safe_in csr cr w.
Proof.
  unfold shouldApprove. destruct (HasPrefix _ _) eqn:Hp; [|done].
  apply HasPrefix_spec in Hp as [nodeName Hcn].
  destruct (containsStr _ _) eqn:Hg; [|done]. apply bool_decide_eq_true in Hg.
  cbn [negb orb]. rewrite Hcn, TrimPrefix_app. unfold mbind, M_bind.
  destruct (csrk_list_machines w) as [[machines|e|p] w1] eqn:El; [|done..].
  intros Hrun. exists nodeName, machines, w1. split_and!; [done..|]. revert Hrun.
  destruct (decide (csr_SignerName csr = _)) as [Hs|_].
  - destruct (decide (csr_Username csr <> _)) as [|Hu]; [done|]. apply dec_stable in Hu.
    unfold hasPendingMachine, mbind, M_bind.
    destruct (csrk_list_nodes w1) as [[nodes|e|p] w2] eqn:En; [|done..]. cbn.
    destruct (existsb _ machines) eqn:Ex; [|done]. intros _.
    apply existsb_exists in Ex as (m & Hm & Hpend). apply list_elem_of_In in Hm.
    apply machine_pending_spec in Hpend as (pid & id & ? & ? & Hall).
    apply (safe_bootstrap _ _ _ _ _ _ m pid id); try done. unfold nodes_at. by rewrite En.
  - destruct (decide (csr_SignerName csr = _)) as [Hs|_]; [|done].
    destruct (decide (csr_Username csr <> _)) as [|Hu]; [done|]. apply dec_stable in Hu.
    unfold try. destruct (csrk_get_node nodeName w1) as [[n|e|p] w2] eqn:En; [..|done].
    2: { by destruct (IsNotFound e). }
    destruct (sansSubsetOfNode cr n) eqn:Hsan; [|done]. intros _.
    apply sansSubsetOfNode_spec in Hsan as (? & ? & ?).
    apply (safe_serving _ _ _ _ _ _ n); try done. unfold node_at. by rewrite En.
Qed.

(** C8. The decision is exact.  When the machines and the nodes can be listed, a
    request is approved if and only if it is for a node identity and falls
    under one of the two safe cases: a bootstrap request of the node
    bootstrapper while some provisioned machine has no node, or a serving
    request of a node's own kubelet for addresses the node advertises.  The
    second asks for no AlibabaCloudMachine behind the node, as the comment in
    the function says and against the documentation of the reconciler's type. *)
Theorem shouldApprove_iff csr cr w machines w1 nodes w2 :
  csrk_list_machines w = (Ok machines, w1) -> csrk_list_nodes w1 = (Ok nodes, w2) ->
  (exists reason w', shouldApprove csr cr w = (Ok (Some reason), w')) <-> safe_in csr cr w.
Proof.
  intros El En. split; [intros (reason & w' & Hr); by eapply shouldApprove_sound|].
  intros (nodeName & ms & w1' & Hcn & Hg & El' & Hsafe). rewrite El in El'. injection El' as <- <-.
  unfold shouldApprove. rewrite Hcn, HasPrefix_app, TrimPrefix_app.
  unfold containsStr. rewrite bool_decide_true by done. cbn [negb orb].
  unfold mbind, M_bind. rewrite El.
  destruct Hsafe as [m pid id Hs Hu Hm Hpid Hid Hall|n Hs Hu Hget Hne Hips Hdns].
  - rewrite Hs, Hu, decide_True, decide_False by (done || by intros []).
    unfold hasPendingMachine, mbind, M_bind. rewrite En. cbn.
    assert (existsb (machine_pending (joined_instances nodes)) machines = true) as ->.
    { apply existsb_exists. exists m. split; [by apply list_elem_of_In|].
      apply machine_pending_spec. exists pid, id. unfold nodes_at in Hall. by rewrite En in Hall. }
    by eexists _, _.
  - rewrite Hs, Hu, decide_False, decide_True, decide_False by (done || by intros []).
    unfold try. unfold node_at in Hget.
    destruct (csrk_get_node nodeName w1) as [[n'|e|p] w3]; simplify_eq.
    assert (sansSubsetOfNode cr n = true) as -> by by apply sansSubsetOfNode_spec.
    by eexists _, _.
Qed.

(** C7. A reconcile changes anything only by approving, and approves only what
    is safe: if the world after it differs in some respect that reads leave
    alone, then the request was neither decided nor issued, was for one of the
    two kubelet signers, parsed, and was safe; up to the end of the decision the
    world was as before in that respect; and the change is one call, which
    updates the approval of the request as it was read with one condition
    added, and whose error is what the reconcile returns. *)
Theorem ReconcileCSR_effect (I : W -> Prop) req w r w' :
  (forall k, keeps I (csrk_get_CSR k)) -> keeps I csrk_list_machines ->
  keeps I csrk_list_nodes -> (forall n, keeps I (csrk_get_node n)) ->
  I w -> ~ I w' -> ReconcileCSR req w = (r, w') ->
  exists csr cr w1 reason w2 u,
    csrk_get_CSR req w = (Ok csr, w1) /\ isCSRDecided csr = false /\ csr_Certificate csr = "" /\
    (csr_SignerName csr = KubeAPIServerClientKubeletSignerName \/
     csr_SignerName csr = KubeletServingSignerName) /\
    parseCSR (csr_Request csr) = inr cr /\ safe_in csr cr w1 /\
    shouldApprove csr cr w1 = (Ok (Some reason), w2) /\ I w1 /\ I w2 /\
    csrk_update_approval (csr <| csr_Conditions := csr_Conditions csr ++
      [mkCSRCondition CertificateApproved ConditionTrue "CAPAApprove" reason] |>) w2 = (u, w') /\
    r = match u with
        | Ok _ => Ok (mkResult 0)
        | Err e => Err (WrapError ("approve CSR " +:+ csr_Name csr +:+ ": ") e)
        | Panic p => Panic p
        end.
Proof.
  intros Kc Km Kn Kg Hw Hnw. unfold ReconcileCSR, mbind, M_bind, try.
  pose proof (Kc req w Hw) as Hw1.
  destruct (csrk_get_CSR req w) as [[csr|e|p] w1] eqn:Ec; cbn in Hw1;
    [|destruct (IsNotFound e); by intros [= _ <-]|by intros [= _ <-]].
  destruct (isCSRDecided csr) eqn:Hd; cbn [orb]; [by intros [= _ <-]|].
  destruct (bool_decide (csr_Certificate csr = "")) eqn:Hcert; cbn [negb]; [|by intros [= _ <-]].
  apply bool_decide_eq_true in Hcert.
  destruct (decide (_ /\ _)) as [|Hs]; [by intros [= _ <-]|].
  destruct (parseCSR _) as [e|cr] eqn:Hparse; [by intros [= _ <-]|].
  assert (keeps I (shouldApprove csr cr)) as Ks.
  { unfold shouldApprove, hasPendingMachine.
    repeat first [apply Km|apply Kn|apply Kg|keeps_step]. }
  pose proof (Ks w1 Hw1) as Hw2.
  destruct (shouldApprove csr cr w1) as [[[reason|]|e|p] w2] eqn:Es; cbn in Hw2;
    [|by intros [= _ <-]..].
  unfold wrap, catch.
  destruct (csrk_update_approval (approve reason csr) w2) as [u w3] eqn:Eu.
  intros Hrun. assert (w3 = w') as -> by (destruct u; by injection Hrun).
  exists csr, cr, w1, reason, w2, u. split_and!; try done; [| |by destruct u; injection Hrun].
  - destruct (decide (csr_SignerName csr = KubeAPIServerClientKubeletSignerName)); [by left|].
    right. apply dec_stable. tauto.
  - by eapply shouldApprove_sound.
Qed.

(** A machine is awaited until its node joins, whichever of the two forms of
    providerID the node carries: created by this provider and with no node of
    its instance it lets a bootstrap request through, and with such a node it
    does not. *)
Theorem pending_until_joined m region id nodes region' sep :
  no_sep id = true -> id <> "" -> is_sep sep = true ->
  spec_ProviderID (acm_Spec m) = Some (providerIDFor region id) ->
  stat_InstanceID (acm_Status m) = Some id ->
  ((forall n, n ∈ nodes -> providerInstanceID (node_ProviderID n) <> id) ->
   machine_pending (joined_instances nodes) m = true) /\
  (forall n, n ∈ nodes -> node_ProviderID n = providerScheme +:+ region' +:+ String sep id ->
   machine_pending (joined_instances nodes) m = false).
Proof.
  intros Hns Hne Hsep Hpid Hid. split.
  - intros Hall. apply machine_pending_spec. exists (providerIDFor region id), id.
    split_and!; [done..|]. intros n Hn _. rewrite providerInstanceID_for by done. by apply Hall.
  - intros n Hn Hnode. destruct (machine_pending _ m) eqn:E; [|done].
    apply machine_pending_spec in E as (pid & id' & Hpid' & _ & Hall). simplify_eq.
    rewrite providerInstanceID_for in Hall by done.
    pose proof (providerInstanceID_form region' sep id Hsep Hns) as Hform.
    rewrite <- Hnode in Hform. exfalso. apply (Hall n Hn); congruence.
Qed.
End theorems.

(** ** Concrete runs

    The world is the list of approved requests; one worker node renews its
    serving certificate. *)

Definition sim_csr : CertificateSigningRequest :=
  mkCSR "csr-1" KubeletServingSignerName "system:node:worker-1" "pem" [] "".
Definition sim_cr : CertificateRequest :=
  mkCertificateRequest "system:node:worker-1" ["system:nodes"] ["10.0.0.7"] ["worker-1"].
Definition sim_node : Node :=
  mkNode "worker-1" 0%Z "alicloud://cn-hangzhou.i-7" []
    [(NodeInternalIP, "10.0.0.7"); (NodeHostName, "worker-1")].

Definition simCsrKube : CsrKube (list CertificateSigningRequest) := {|
  csrk_get_CSR _ := mret sim_csr;
  csrk_list_machines := mret [];
  csrk_list_nodes := mret [sim_node];
  csrk_get_node n := if decide (n = "worker-1") then mret sim_node
                     else throw (APIStatusError StatusReasonNotFound "not found");
  csrk_update_approval csr := fun w => (Ok (), csr :: w);
  pem_Decode s := Some ("CERTIFICATE REQUEST", s);
  x509_ParseCertificateRequest _ := inr sim_cr;
|}.

Lemma shouldApprove_iff_witness :
  @safe_in _ simCsrKube sim_csr sim_cr [].
Proof.
  apply (@shouldApprove_iff _ simCsrKube _ sim_csr sim_cr [] [] [] [sim_node] []);
    [reflexivity|reflexivity|]. eexists _, _. reflexivity.
Defined.

Lemma ReconcileCSR_effect_witness :
  exists csr cr w1, @safe_in _ simCsrKube csr cr w1 /\
    (@ReconcileCSR _ simCsrKube _ (mkObjectKey "" "csr-1") []).2 <> [].
Proof.
  destruct (@ReconcileCSR _ simCsrKube _ (mkObjectKey "" "csr-1") []) as [r w'] eqn:E.
  assert (w' <> []) as Hne.
  { change w' with (r, w').2. rewrite <- E. vm_compute. discriminate. }
  destruct (@ReconcileCSR_effect _ simCsrKube _ (fun w => w = []) (mkObjectKey "" "csr-1") [] r w')
    as (csr & cr & w1 & _ & _ & _ & _ & _ & _ & _ & _ & Hsafe & _); try done.
  - by intros k w.
  - by intros w.
  - by intros w.
  - intros n w. cbn. by destruct (decide _).
  - exists csr, cr, w1. split; [exact Hsafe|exact Hne].
Defined.

Definition sim_pending : AlibabaCloudMachine :=
  set_status (fun s => s <| stat_InstanceID := Some "i-7" |>)
    (set_spec (fun s => s <| spec_ProviderID := Some (providerIDFor "cn-hangzhou" "i-7") |>)
       (sim_acm "worker-1")).

Lemma pending_until_joined_witness :
  machine_pending (joined_instances []) sim_pending = true /\
  machine_pending (joined_instances [sim_node]) sim_pending = false.
Proof.
  split.
  - apply (pending_until_joined sim_pending "cn-hangzhou" "i-7" [] "cn-hangzhou" ".");
      try reflexivity; [discriminate|]. intros n Hn. by apply not_elem_of_nil in Hn.
  - apply (pending_until_joined sim_pending "cn-hangzhou" "i-7" [sim_node] "cn-hangzhou" ".")
      with (n := sim_node); try reflexivity; [discriminate|left].
Defined.
