(* ===== verification/Wiring.v ===== *)
(** * How the controllers are woken

    The [SetupWithManager] of each controller, the [SetupWebhookWithManager] of
    each webhook and the scheme: what is reconciled, what is watched, and which
    events become requests.  A controller is what the builder of
    controller-runtime is given ([Controller]); what the library makes of it,
    the routing of events, and the predicates and mapping functions of the
    Cluster API's helpers are parameters with their documented behaviour
    ([RoutingLaws]).

    [wakeups] says which events wake which controller.  [Wakeups] follows an
    object through the queue. *)

From S2P Require Import Api ClusterController.

(** ** Kinds and the scheme *)

Record GroupKind := mkGroupKind { gk_Group : string; gk_Kind : string }.
#[export] Instance GroupKind_eq_dec : EqDecision GroupKind.
Proof. solve_decision. Defined.

Definition infrav1_Group : string := GroupVersion_Group.
Definition cpv1_Group : string := "controlplane.cluster.x-k8s.io".
Definition clusterv1_Group : string := "cluster.x-k8s.io".
Definition certv1_Group : string := "certificates.k8s.io".

Definition infrav1_kind : string -> GroupKind := mkGroupKind infrav1_Group.
Definition MachineKind : GroupKind := mkGroupKind clusterv1_Group "Machine".
Definition ClusterKind : GroupKind := mkGroupKind clusterv1_Group "Cluster".
Definition CSRKind : GroupKind := mkGroupKind certv1_Group "CertificateSigningRequest".
Definition NodeKind : GroupKind := mkGroupKind "" "Node".

Definition machineGroupKind : GroupKind := infrav1_kind "AlibabaCloudMachine".
Definition clusterGroupKind : GroupKind := infrav1_kind "AlibabaCloudCluster".

(** [SchemeBuilder.Register(&T{}, &TList{})], of the [init] of each file. *)
Definition Register (group type : string) : list GroupKind :=
  [mkGroupKind group type; mkGroupKind group (type +:+ "List")].
Definition cluster_init : list GroupKind := Register infrav1_Group "AlibabaCloudCluster".
Definition clustertemplate_init : list GroupKind := Register infrav1_Group "AlibabaCloudClusterTemplate".
Definition machine_init : list GroupKind := Register infrav1_Group "AlibabaCloudMachine".
Definition machinetemplate_init : list GroupKind := Register infrav1_Group "AlibabaCloudMachineTemplate".
Definition controlplane_init : list GroupKind := Register cpv1_Group "AlibabaCloudControlPlane".

Definition infrav1_AddToScheme : list GroupKind :=
  cluster_init ++ clustertemplate_init ++ machine_init ++ machinetemplate_init.
Definition cpv1_AddToScheme : list GroupKind := controlplane_init.

(** The [init] of [cmd/main.go], for the kinds the two libraries add. *)
Definition main_init (clientgoscheme clusterv1 : list GroupKind) : list GroupKind :=
  clientgoscheme ++ clusterv1 ++ infrav1_AddToScheme ++ cpv1_AddToScheme.

(** ** Events *)

(** An object of a watch, with what the program's functions look at; all that
    matters of the others is their kind and metadata. *)
Inductive Object :=
  | OMachine (m : Machine)
  | OCluster (c : Cluster)
  | OOther (kind : GroupKind) (meta : ObjectMeta).

Definition object_kind (o : Object) : GroupKind :=
  match o with OMachine _ => MachineKind | OCluster _ => ClusterKind | OOther k _ => k end.
Definition object_meta (o : Object) : ObjectMeta :=
  match o with OMachine m => mach_ObjectMeta m | OCluster c => clus_ObjectMeta c | OOther _ m => m end.
Definition object_key (o : Object) : ObjectKey :=
  mkObjectKey (meta_Namespace (object_meta o)) (meta_Name (object_meta o)).

Inductive Event :=
  | EvCreate (o : Object)
  | EvUpdate (old new : Object)
  | EvDelete (o : Object)
  | EvGeneric (o : Object).

Definition event_objects (e : Event) : list Object :=
  match e with EvUpdate old new => [old; new] | EvCreate o | EvDelete o | EvGeneric o => [o] end.
Definition latest_object (e : Event) : Object :=
  match e with EvUpdate _ new => new | EvCreate o | EvDelete o | EvGeneric o => o end.

(** ** Controllers, as the builder is given them *)

Record Watch := mkWatch {
  watch_Kind : GroupKind;
  watch_Map : Object -> list ObjectKey;        (* EnqueueRequestsFromMapFunc *)
  watch_Predicates : list (Event -> bool);     (* builder.WithPredicates *)
}.

(** The reconciler [Complete] is given, with the fields that are its own. *)
Inductive Reconciler :=
  | AlibabaCloudClusterReconciler (CCMGracePeriod : Z)
  | AlibabaCloudMachineReconciler
  | CertificateSigningRequestReconciler
  | AlibabaCloudControlPlaneReconciler
  | AlibabaCloudMachineTemplateReconciler.

Record Controller := mkController {
  ctl_For : GroupKind;
  ctl_Watches : list Watch;
  ctl_Options : option Z;                      (* MaxConcurrentReconciles *)
  ctl_EventFilters : list (Event -> bool);     (* for every watch of the controller *)
  ctl_Complete : Reconciler;
}.

Record WebhookSetup := mkWebhook {
  wh_For : GroupKind;
  wh_WithDefaulter : bool;
  wh_WithValidator : bool;
}.

Class Routing := {
  ResourceNotPaused : Event -> bool;                                 (* predicates *)
  ClusterUnpaused : Event -> bool;
  MachineToInfrastructureMapFunc : GroupKind -> Object -> list ObjectKey;   (* util *)
  enqueued : Controller -> Event -> list ObjectKey;                  (* controller-runtime *)
}.

Section setup.
Context `{!Routing}.

(** [enqueueAlibabaCloudClusterForCluster]: nothing for an object that is not a
    Cluster. *)
Definition enqueueAlibabaCloudClusterForCluster (obj : Object) : list ObjectKey :=
  match obj with
  | OCluster cluster => enqueueForCluster cluster
  | _ => []
  end.

Definition Machine_SetupWithManager (options : Z) : Controller := {|
  ctl_For := machineGroupKind;
  ctl_Watches := [mkWatch MachineKind (MachineToInfrastructureMapFunc machineGroupKind) []];
  ctl_Options := Some options;
  ctl_EventFilters := [ResourceNotPaused];
  ctl_Complete := AlibabaCloudMachineReconciler;
|}.

Definition Cluster_SetupWithManager (CCMGracePeriod options : Z) : Controller := {|
  ctl_For := clusterGroupKind;
  ctl_Options := Some options;
  ctl_EventFilters := [ResourceNotPaused];
  ctl_Watches := [mkWatch ClusterKind enqueueAlibabaCloudClusterForCluster [ClusterUnpaused]];
  ctl_Complete := AlibabaCloudClusterReconciler CCMGracePeriod;
|}.

Definition CSR_SetupWithManager : Controller := {|
  ctl_For := CSRKind;
  ctl_Watches := [];
  ctl_Options := None;
  ctl_EventFilters := [];
  ctl_Complete := CertificateSigningRequestReconciler;
|}.

Definition ControlPlane_SetupWithManager (options : Z) : Controller := {|
  ctl_For := mkGroupKind cpv1_Group "AlibabaCloudControlPlane";
  ctl_Watches := [];
  ctl_Options := Some options;
  ctl_EventFilters := [ResourceNotPaused];
  ctl_Complete := AlibabaCloudControlPlaneReconciler;
|}.

Definition MachineTemplate_SetupWithManager (options : Z) : Controller := {|
  ctl_For := infrav1_kind "AlibabaCloudMachineTemplate";
  ctl_Watches := [];
  ctl_Options := Some options;
  ctl_EventFilters := [];
  ctl_Complete := AlibabaCloudMachineTemplateReconciler;
|}.

Definition Machine_SetupWebhookWithManager : WebhookSetup := mkWebhook machineGroupKind true true.
Definition Cluster_SetupWebhookWithManager : WebhookSetup := mkWebhook clusterGroupKind false true.
End setup.

(** ** The laws of the library *)

Definition PausedAnnotation : string := "cluster.x-k8s.io/paused".

(** [annotations.HasPaused]. *)
Definition HasPaused (meta : ObjectMeta) : bool :=
  bool_decide (is_Some (meta_Annotations meta !! PausedAnnotation)).

(** An event wakes a controller for [k] when it passes the filters of the
    controller, and is about the object [k] of the kind reconciled or, through
    a watch whose predicates it passes, about an object mapped to [k].  An
    update is about the object before and after. *)
Definition wakes (c : Controller) (e : Event) (k : ObjectKey) : Prop :=
  Forall (fun p => p e = true) (ctl_EventFilters c) /\
  ((exists o, o ∈ event_objects e /\ object_kind o = ctl_For c /\ object_key o = k) \/
   exists w, w ∈ ctl_Watches c /\ Forall (fun p => p e = true) (watch_Predicates w) /\
     exists o, o ∈ event_objects e /\ object_kind o = watch_Kind w /\ k ∈ watch_Map w o).

Class RoutingLaws `{!Routing} : Prop := {
  ResourceNotPaused_spec e : ResourceNotPaused e = negb (HasPaused (object_meta (latest_object e)));
  ClusterUnpaused_create c : ClusterUnpaused (EvCreate (OCluster c)) = negb (clus_Paused c);
  ClusterUnpaused_update c c' :
    ClusterUnpaused (EvUpdate (OCluster c) (OCluster c')) = clus_Paused c && negb (clus_Paused c');
  ClusterUnpaused_delete c : ClusterUnpaused (EvDelete (OCluster c)) = false;
  ClusterUnpaused_generic c : ClusterUnpaused (EvGeneric (OCluster c)) = false;
  MachineToInfrastructure_spec gk o k :
    k ∈ MachineToInfrastructureMapFunc gk o <->
    exists m, o = OMachine m /\ mkGroupKind (mach_InfraAPIGroup m) (mach_InfraKind m) = gk /\
      k = mkObjectKey (meta_Namespace (mach_ObjectMeta m)) (mach_InfraName m);
  enqueued_spec c e k : k ∈ enqueued c e <-> wakes c e k;
}.

(** An event of one kind: the kinds of [OOther] are the other ones, and an
    update does not change the kind. *)
Definition typed_object (o : Object) : Prop :=
  match o with OOther k _ => k <> MachineKind /\ k <> ClusterKind | _ => True end.
Definition typed (e : Event) : Prop :=
  Forall typed_object (event_objects e) /\
  match e with EvUpdate old new => object_kind old = object_kind new | _ => True end.

(** The event is about the object [k] of kind [gk]. *)
Definition about (gk : GroupKind) (e : Event) (k : ObjectKey) : Prop :=
  exists o, o ∈ event_objects e /\ object_kind o = gk /\ object_key o = k.

(** The Cluster names [k] as its infrastructure. *)
Definition names_infra (c : Cluster) (k : ObjectKey) : Prop :=
  clus_InfraKind c <> "" /\ clus_InfraName c <> "" /\ clus_InfraAPIGroup c = GroupVersion_Group /\
  k = mkObjectKey (meta_Namespace (clus_ObjectMeta c)) (clus_InfraName c).

(** A Cluster that names [k] has come to be, not paused, or has been unpaused. *)
Definition cluster_resumed (e : Event) (k : ObjectKey) : Prop :=
  (exists c, e = EvCreate (OCluster c) /\ clus_Paused c = false /\ names_infra c k) \/
  exists c c', e = EvUpdate (OCluster c) (OCluster c') /\ clus_Paused c = true /\
    clus_Paused c' = false /\ (names_infra c k \/ names_infra c' k).

(** A Machine names [k] as its infrastructure. *)
Definition machine_names (e : Event) (k : ObjectKey) : Prop :=
  exists m, OMachine m ∈ event_objects e /\
    mkGroupKind (mach_InfraAPIGroup m) (mach_InfraKind m) = machineGroupKind /\
    k = mkObjectKey (meta_Namespace (mach_ObjectMeta m)) (mach_InfraName m).

Definition not_paused (e : Event) : Prop := HasPaused (object_meta (latest_object e)) = false.

(** ** Theorems *)

Lemma enqueueForCluster_spec c k : k ∈ enqueueForCluster c <-> names_infra c k.
Proof.
  unfold enqueueForCluster, names_infra. repeat case_decide.
  - split; [by intros ?%not_elem_of_nil|tauto].
  - split; [by intros ?%not_elem_of_nil|tauto].
  - rewrite list_elem_of_singleton.
    destruct (decide (clus_InfraAPIGroup c = GroupVersion_Group)) as [|]; [tauto|done].
Qed.

Section laws.
Context `{!Routing} `{!RoutingLaws}.
Implicit Types (e : Event) (k : ObjectKey) (c : Cluster).

Lemma filter_not_paused e : Forall (fun p => p e = true) [ResourceNotPaused] <-> not_paused e.
Proof.
  rewrite list.Forall_singleton, ResourceNotPaused_spec. unfold not_paused.
  by destruct (HasPaused _).
Qed.

(** A controller without watches is woken by its own kind only. *)
Lemma wakes_own e k (c : Controller) :
  ctl_Watches c = [] -> wakes c e k <-> Forall (fun p => p e = true) (ctl_EventFilters c) /\ about (ctl_For c) e k.
Proof.
  intros Hw. unfold wakes. rewrite Hw. split; intros [Hf Ho]; (split; [done|]).
  - by destruct Ho as [?|(w & ?%not_elem_of_nil & _)].
  - by left.
Qed.

Lemma machine_watch e k :
  (exists o, o ∈ event_objects e /\ object_kind o = MachineKind /\
     k ∈ MachineToInfrastructureMapFunc machineGroupKind o) <-> machine_names e k.
Proof.
  unfold machine_names. split.
  - intros (o & Ho & _ & (m & -> & Hm)%MachineToInfrastructure_spec). by exists m.
  - intros (m & Hm & Hr). exists (OMachine m). split_and!; [done..|].
    apply MachineToInfrastructure_spec. by exists m.
Qed.

Lemma cluster_watch e k : typed e ->
  (ClusterUnpaused e = true /\ exists o, o ∈ event_objects e /\ object_kind o = ClusterKind /\
     k ∈ enqueueAlibabaCloudClusterForCluster o) <-> cluster_resumed e k.
Proof.
  intros [Ht Hk]. split.
  - intros (Hu & o & Ho & _ & Hin). destruct o as [|c|]; [by apply not_elem_of_nil in Hin| |by apply not_elem_of_nil in Hin].
    apply enqueueForCluster_spec in Hin. destruct e as [o|old new|o|o]; cbn [event_objects] in Ho.
    + apply list_elem_of_singleton in Ho as <-. rewrite ClusterUnpaused_create in Hu. left.
      exists c. by destruct (clus_Paused c).
    + right. apply elem_of_cons in Ho as [<-|<-%list_elem_of_singleton].
      * destruct new as [|c'|gk m]; [done| |].
        2: { apply list.Forall_cons in Ht as [_ Ht]. apply list.Forall_cons in Ht as [[_ Hn] _]. by destruct Hn. }
        rewrite ClusterUnpaused_update in Hu. exists c, c'. apply andb_prop in Hu as [? Hu].
        by destruct (clus_Paused c'); split_and!; try left.
      * destruct old as [|c'|gk m]; [done| |].
        2: { apply list.Forall_cons in Ht as [[_ Hn] _]. by destruct Hn. }
        rewrite ClusterUnpaused_update in Hu. exists c', c. apply andb_prop in Hu as [? Hu].
        by destruct (clus_Paused c); split_and!; try right.
    + apply list_elem_of_singleton in Ho as <-. by rewrite ClusterUnpaused_delete in Hu.
    + apply list_elem_of_singleton in Ho as <-. by rewrite ClusterUnpaused_generic in Hu.
  - intros [(c & -> & Hp & Hn)|(c & c' & -> & Hp & Hp' & Hn)].
    + rewrite ClusterUnpaused_create, Hp. split; [done|]. exists (OCluster c).
      split_and!; [by left|done|by apply enqueueForCluster_spec].
    + rewrite ClusterUnpaused_update, Hp, Hp'. split; [done|].
      destruct Hn as [Hn|Hn]; [exists (OCluster c)|exists (OCluster c')];
        (split_and!; [|done|by apply enqueueForCluster_spec]); [by left|by right; left].
Qed.

Lemma machine_enqueued n e k :
  k ∈ enqueued (Machine_SetupWithManager n) e <->
  not_paused e /\ (about machineGroupKind e k \/ machine_names e k).
Proof.
  rewrite enqueued_spec. unfold wakes. rewrite filter_not_paused, <- machine_watch. cbn.
  setoid_rewrite list_elem_of_singleton. apply and_iff_compat_l, or_iff_compat_l. split.
  - intros (w & -> & _ & Hw). exact Hw.
  - intros Hw. eexists. split_and!; [done|by apply Forall_nil_2|exact Hw].
Qed.

Lemma cluster_enqueued grace n e k : typed e ->
  k ∈ enqueued (Cluster_SetupWithManager grace n) e <->
  not_paused e /\ (about clusterGroupKind e k \/ cluster_resumed e k).
Proof.
  intros Ht. rewrite enqueued_spec. unfold wakes.
  rewrite filter_not_paused, <- cluster_watch by done. cbn. setoid_rewrite list_elem_of_singleton.
  apply and_iff_compat_l, or_iff_compat_l. split.
  - intros (w & -> & Hp & Hw). cbn in Hp, Hw. by rewrite list.Forall_singleton in Hp.
  - intros [Hp Hw]. eexists. split_and!; [done|by apply list.Forall_singleton|exact Hw].
Qed.

(** Kinds a controller neither reconciles nor watches do not wake it: the
    machine and control-plane controllers miss the unpausing of a Cluster, and
    the cluster controller the nodes its preflight is about. *)
Lemma unwatched (c : Controller) e k :
  (forall o, o ∈ event_objects e -> object_kind o ∉ ctl_For c :: map watch_Kind (ctl_Watches c)) ->
  k ∉ enqueued c e.
Proof.
  intros Hk. rewrite enqueued_spec. intros [_ [(o & Ho & Hf & _)|(w & Hw & _ & o & Ho & Hf & _)]];
    apply (Hk o Ho); rewrite Hf; [by left|right]. by apply (list_elem_of_fmap_2 watch_Kind).
Qed.

Lemma cluster_event_wakes_no_machine n c c' k :
  (k ∉ enqueued (Machine_SetupWithManager n) (EvUpdate (OCluster c) (OCluster c'))) /\
  k ∉ enqueued (ControlPlane_SetupWithManager n) (EvUpdate (OCluster c) (OCluster c')).
Proof. split; apply unwatched; cbn; set_solver. Qed.

Lemma node_event_wakes_no_cluster grace n meta meta' k :
  k ∉ enqueued (Cluster_SetupWithManager grace n) (EvUpdate (OOther NodeKind meta) (OOther NodeKind meta')).
Proof. apply unwatched. cbn. set_solver. Qed.

(** C21. What wakes the controllers.  A machine is reconciled when it or a Machine
    that names it changes; a cluster when it changes or when a Cluster that
    names it appears unpaused or is unpaused; the other three kinds when they
    change themselves.  The first three ignore events of an object that carries
    the paused annotation.  So no event of a Cluster wakes the controllers of
    machines and control planes, and no event of a Node wakes any. *)
Theorem wakeups grace n e k : typed e ->
  (k ∈ enqueued (Machine_SetupWithManager n) e <->
     not_paused e /\ (about machineGroupKind e k \/ machine_names e k)) /\
  (k ∈ enqueued (Cluster_SetupWithManager grace n) e <->
     not_paused e /\ (about clusterGroupKind e k \/ cluster_resumed e k)) /\
  (k ∈ enqueued (ControlPlane_SetupWithManager n) e <->
     not_paused e /\ about (mkGroupKind cpv1_Group "AlibabaCloudControlPlane") e k) /\
  (k ∈ enqueued CSR_SetupWithManager e <-> about CSRKind e k) /\
  (k ∈ enqueued (MachineTemplate_SetupWithManager n) e <->
     about (infrav1_kind "AlibabaCloudMachineTemplate") e k).
Proof.
  intros Ht. split_and!; [apply machine_enqueued|by apply cluster_enqueued|..];
    rewrite enqueued_spec, wakes_own by done.
  - by rewrite filter_not_paused.
  - split; [by intros [_ ?]|]. split; [by apply Forall_nil_2|done].
  - split; [by intros [_ ?]|]. split; [by apply Forall_nil_2|done].
Qed.
End laws.

(** ** The scheme knows every kind that is reconciled, watched or admitted *)

Definition controllers `{!Routing} (grace n : Z) : list Controller :=
  [Cluster_SetupWithManager grace n; Machine_SetupWithManager n; CSR_SetupWithManager;
   ControlPlane_SetupWithManager n; MachineTemplate_SetupWithManager n].

Definition setup_kinds `{!Routing} (grace n : Z) : list GroupKind :=
  flat_map (fun c => ctl_For c :: map watch_Kind (ctl_Watches c)) (controllers grace n) ++
  map wh_For [Machine_SetupWebhookWithManager; Cluster_SetupWebhookWithManager].

Lemma setup_in_scheme `{!Routing} grace n clientgo clusterv1 :
  CSRKind ∈ clientgo -> MachineKind ∈ clusterv1 -> ClusterKind ∈ clusterv1 ->
  setup_kinds grace n ⊆ main_init clientgo clusterv1.
Proof.
  intros Hcsr Hm Hc gk Hin. unfold main_init. rewrite !elem_of_app.
  assert (gk ∈ [CSRKind; MachineKind; ClusterKind] \/ gk ∈ infrav1_AddToScheme \/ gk ∈ cpv1_AddToScheme)
    as Hcase.
  { revert gk Hin. apply list.Forall_forall.
    repeat apply Forall_cons_2; try apply Forall_nil_2; set_solver. }
  destruct Hcase as [Hcase|[?|?]]; [|tauto..].
  repeat (apply elem_of_cons in Hcase as [->|Hcase]; [tauto|]). by apply not_elem_of_nil in Hcase.
Qed.

(** ** An instance *)

#[export] Instance sim_routing : Routing := {
  ResourceNotPaused e := negb (HasPaused (object_meta (latest_object e)));
  ClusterUnpaused e :=
    match e with
    | EvCreate (OCluster c) => negb (clus_Paused c)
    | EvUpdate (OCluster c) (OCluster c') => clus_Paused c && negb (clus_Paused c')
    | EvDelete (OCluster _) | EvGeneric (OCluster _) => false
    | _ => true
    end;
  MachineToInfrastructureMapFunc gk o :=
    match o with
    | OMachine m =>
        if decide (mkGroupKind (mach_InfraAPIGroup m) (mach_InfraKind m) = gk)
        then [mkObjectKey (meta_Namespace (mach_ObjectMeta m)) (mach_InfraName m)] else []
    | _ => []
    end;
  enqueued c e :=
    if decide (Forall (fun p => p e = true) (ctl_EventFilters c)) then
      map object_key (filter (fun o => object_kind o = ctl_For c) (event_objects e)) ++
      (w ← filter (fun w => Forall (fun p => p e = true) (watch_Predicates w)) (ctl_Watches c);
       o ← filter (fun o => object_kind o = watch_Kind w) (event_objects e);
       watch_Map w o)
    else [];
}.

#[export] Instance sim_routing_laws : RoutingLaws.
Proof.
  split; [done..| |].
  - intros gk o k. cbn. destruct o as [m|c|gk' om].
    + case_decide as Hd; [rewrite list_elem_of_singleton|split; [by intros ?%not_elem_of_nil|]].
      * split; [intros ->; by exists m|by intros (m' & [= ->] & _ & ->)].
      * by intros (m' & [= ->] & ? & _).
    + split; [by intros ?%not_elem_of_nil|by intros (m & ? & _)].
    + split; [by intros ?%not_elem_of_nil|by intros (m & ? & _)].
  - intros c e k. unfold wakes. cbn. case_decide as Hf.
    + rewrite elem_of_app, list_elem_of_fmap, list_elem_of_bind. setoid_rewrite list_elem_of_bind.
      setoid_rewrite list_elem_of_filter. naive_solver.
    + split; [by intros ?%not_elem_of_nil|tauto].
Qed.

(** A Cluster is unpaused: its infrastructure is reconciled, its machines are
    not. *)
Definition sim_paused (paused : bool) : Cluster :=
  mkCluster (mkObjectMeta "c1" "default" "uid-c1" ∅ ∅ [] None) "AlibabaCloudCluster" "c1"
    GroupVersion_Group paused.
Definition unpause : Event := EvUpdate (OCluster (sim_paused true)) (OCluster (sim_paused false)).

Lemma unpause_typed : typed unpause.
Proof. split; [|done]. by repeat constructor. Qed.

Lemma wakeups_witness :
  mkObjectKey "default" "c1" ∈ enqueued (Cluster_SetupWithManager DefaultCCMGracePeriod 1) unpause /\
  forall k, k ∉ enqueued (Machine_SetupWithManager 1) unpause.
Proof.
  split.
  - apply (wakeups DefaultCCMGracePeriod 1 unpause (mkObjectKey "default" "c1") unpause_typed).
    split; [done|right]. right. exists (sim_paused true), (sim_paused false). by repeat split; left.
  - intros k [_ [(o & Ho & Hk & _)|(m & Hm & _)]]%(wakeups DefaultCCMGracePeriod 1 unpause k unpause_typed).
    + by repeat (apply elem_of_cons in Ho as [->|Ho]; [done|]); apply not_elem_of_nil in Ho.
    + by repeat (apply elem_of_cons in Hm as [?|Hm]; [done|]); apply not_elem_of_nil in Hm.
Defined.
