(* ===== verification/Wakeups.v ===== *)
(** * No cluster is forgotten

    The queue of a controller, for one object: events of the API server put its
    key in ([Wiring]), a reconcile takes it out, and an error, a panic or a
    requeue puts it back.  Nothing else makes the controller look at the object
    before the periodic resync, so an object the controller lets go of must be
    woken by whatever it waits for.

    [cluster_not_forgotten]: this holds of AlibabaCloudCluster objects.
    [forgotten_machine]: it does not hold of machines whose Cluster is
    unpaused; [forgotten_annotated]: nor of clusters when the Cluster itself
    carries the paused annotation. *)

From S2P Require Import Api CloudClient CapiCore ClusterController ClusterProofs Wiring.
From S2P Require Import Ignition MachineController SimSdk SimClient ServiceClient FakeClient.

(** ** The queue *)

Section queue.
Context {W : Type} `{!Routing} (ctl : Controller) (k : ObjectKey) (reconcile : M W Result).
(** What the API server reports of a change, and the changes it makes. *)
Context (emits : W -> W -> Event -> Prop) (permitted : W -> W -> Prop).

Definition woken (w w' : W) : Prop := exists e, emits w w' e /\ k ∈ enqueued ctl e.

(** The results that put the key back. *)
Definition again (r : result Result) : bool :=
  match r with
  | Ok res => bool_decide (0 < RequeueAfter res)%Z
  | _ => true
  end.

(** The world, and whether the key is in the queue.  A key may be queued for no
    reason, as by the resync; it is never lost for no reason. *)
Inductive queue_step : W * bool -> W * bool -> Prop :=
  | queue_change w q w' q' :
      permitted w w' -> (q = true \/ woken w w' -> q' = true) -> queue_step (w, q) (w', q')
  | queue_reconcile w r w' q' :
      reconcile w = (r, w') -> (again r = true \/ woken w w' -> q' = true) ->
      queue_step (w, true) (w', q').

(** An object that is not in the queue is at rest, when rest ends only with an
    event that wakes the controller. *)
Context (rest : W -> Prop) `{!forall w, Decision (rest w)}.
Context (Hchange : forall w w', permitted w w' -> rest w -> ~ rest w' -> woken w w').
Context (Hreconcile : forall w r w', reconcile w = (r, w') -> again r = false -> rest w').

Lemma queued_or_rest w0 w q :
  rtc queue_step (w0, true) (w, q) -> q = true \/ rest w.
Proof.
  intros Hrtc. change ((fun x : W * bool => x.2 = true \/ rest x.1) (w, q)).
  refine (rtc_ind_r _ (w0, true) _ _ _ Hrtc); [by left|].
  intros x y _ [w1 q1 w2 q2 Hp Hq|w1 r w2 q2 E Hq] Hx; cbn in *.
  - destruct q1; [left; auto|]. destruct Hx as [?|Hr]; [done|].
    destruct (decide (rest w2)) as [|Hn]; [by right|left]. auto.
  - destruct (again r) eqn:Er; [left; auto|]. right. by eapply Hreconcile.
Qed.
End queue.

(** ** AlibabaCloudCluster *)

#[export] Instance ObjectMeta_eq_dec : EqDecision ObjectMeta.
Proof. solve_decision. Defined.
#[export] Instance ConditionStatus_eq_dec : EqDecision ConditionStatus.
Proof. solve_decision. Defined.
#[export] Instance Condition_eq_dec : EqDecision Condition.
Proof. solve_decision. Defined.
#[export] Instance APIEndpoint_eq_dec : EqDecision APIEndpoint.
Proof. solve_decision. Defined.
#[export] Instance FailureDomain_eq_dec : EqDecision FailureDomain.
Proof. solve_decision. Defined.
#[export] Instance CoreFailureDomain_eq_dec : EqDecision CoreFailureDomain.
Proof. solve_decision. Defined.
#[export] Instance IgnitionStorageSpec_eq_dec : EqDecision IgnitionStorageSpec.
Proof. solve_decision. Defined.
#[export] Instance InitializationStatus_eq_dec : EqDecision InitializationStatus.
Proof. solve_decision. Defined.
#[export] Instance AlibabaCloudClusterSpec_eq_dec : EqDecision AlibabaCloudClusterSpec.
Proof. solve_decision. Defined.
#[export] Instance AlibabaCloudClusterStatus_eq_dec : EqDecision AlibabaCloudClusterStatus.
Proof. solve_decision. Defined.
#[export] Instance AlibabaCloudCluster_eq_dec : EqDecision AlibabaCloudCluster.
Proof. solve_decision. Defined.
#[export] Instance Cluster_eq_dec : EqDecision Cluster.
Proof. solve_decision. Defined.

Definition cluster_object (c : AlibabaCloudCluster) : Object := OOther clusterGroupKind (acc_ObjectMeta c).

(** What the API server has under the key, and the Cluster the owner reference
    of the object is for; [owned] tells whether there is such a reference. *)
Class ClusterServer {W} `{!ClusterKube W} (k : ObjectKey) (object : W -> option AlibabaCloudCluster)
    (owner : W -> option Cluster) (owned : ObjectMeta -> bool) : Prop := {
  cs_get w r w' : ck_get_AlibabaCloudCluster k w = (r, w') ->
    match r with
    | Ok c => object w' = Some c
    | Err e => IsNotFound e = true -> object w' = None
    | Panic _ => True
    end;
  cs_owner meta w r w' : ck_GetOwnerCluster meta w = (r, w') ->
    object w' = object w /\ (r = Ok None -> owned meta = false) /\
    forall cl, r = Ok (Some cl) -> owner w' = Some cl;
  cs_paused cl c : ck_IsPaused cl c = clus_Paused cl || HasPaused (acc_ObjectMeta c);
  (** A patch that succeeds stores the object, or removes it when it is being
      deleted and has no finalizer left. *)
  cs_patch c c' conds w w' : ck_Patch c c' conds w = (Ok (), w') ->
    object w' = if decide (IsZero (meta_DeletionTimestamp (acc_ObjectMeta c')) = false /\
                           meta_Finalizers (acc_ObjectMeta c') = []) then None else Some c';
}.

Section cluster.
Context {W : Type} `{!ClusterKube W} `{!KubeLib} `{!KubeLibLaws} `{!GoFmt} `{!Routing} `{!RoutingLaws}.
Context (builder : string -> M W (Client W)) (grace n : Z)
  (recorder : option (string -> string -> M W ())).
Context (k : ObjectKey) (object : W -> option AlibabaCloudCluster) (owner : W -> option Cluster)
  (owned : ObjectMeta -> bool) `{!ClusterServer k object owner owned}.
Implicit Types (c : AlibabaCloudCluster) (cl : Cluster) (w : W).

(** The events of a change. *)
Inductive cluster_emits w w' : Event -> Prop :=
  | emits_create c : object w = None -> object w' = Some c ->
      cluster_emits w w' (EvCreate (cluster_object c))
  | emits_update c c' : object w = Some c -> object w' = Some c' -> c <> c' ->
      cluster_emits w w' (EvUpdate (cluster_object c) (cluster_object c'))
  | emits_owner_create cl : owner w = None -> owner w' = Some cl ->
      cluster_emits w w' (EvCreate (OCluster cl))
  | emits_owner_update cl cl' : owner w = Some cl -> owner w' = Some cl' -> cl <> cl' ->
      cluster_emits w w' (EvUpdate (OCluster cl) (OCluster cl')).

(** Anything may change, as long as the object is stored under its key, and its
    Cluster names it and does not itself carry the paused annotation. *)
Definition contract w : Prop :=
  (forall c, object w = Some c -> object_key (cluster_object c) = k) /\
  forall cl, owner w = Some cl -> names_infra cl k /\ HasPaused (clus_ObjectMeta cl) = false.

(** There is nothing to reconcile, or it must not be: the object is not there,
    has no owner yet, or is paused. *)
Definition blocked w : Prop :=
  match object w with
  | None => True
  | Some c => owned (acc_ObjectMeta c) = false \/ HasPaused (acc_ObjectMeta c) = true \/
              match owner w with None => True | Some cl => clus_Paused cl = true end
  end.

(** The work is done: the cluster is ready or, when it is being deleted, let
    go. *)
Definition settled w : Prop :=
  match object w with
  | None => True
  | Some c => if IsZero (meta_DeletionTimestamp (acc_ObjectMeta c))
              then cstat_Ready (acc_Status c) = true
              else ClusterFinalizer ∉ meta_Finalizers (acc_ObjectMeta c)
  end.

#[export] Instance rest_dec w : Decision (blocked w \/ settled w).
Proof.
  unfold blocked, settled. destruct (object w) as [c|]; [|left; by left].
  destruct (IsZero _), (owner w); apply _.
Defined.

Lemma rest_ends w w' :
  contract w' -> blocked w \/ settled w -> ~ (blocked w' \/ settled w') ->
  woken (Cluster_SetupWithManager grace n) k cluster_emits w w'.
Proof.
  intros [Hkey Hown] Hr Hn. unfold blocked, settled in Hn.
  destruct (object w') as [c'|] eqn:Ec'; [|tauto].
  destruct (owner w') as [cl'|] eqn:Eo'; [|tauto].
  assert (HasPaused (acc_ObjectMeta c') = false) as Hp' by (apply not_true_iff_false; tauto).
  assert (forall e, typed e -> latest_object e = cluster_object c' -> about clusterGroupKind e k ->
    cluster_emits w w' e -> woken (Cluster_SetupWithManager grace n) k cluster_emits w w') as Hobj.
  { intros e Ht Hl Ha He. exists e. split; [done|]. apply cluster_enqueued; [done|].
    split; [|by left]. unfold not_paused. by rewrite Hl. }
  destruct (object w) as [c|] eqn:Ec.
  2: { apply (Hobj (EvCreate (cluster_object c'))); [by repeat constructor|done| |by constructor].
       exists (cluster_object c'). split_and!; [by left|done|by apply Hkey]. }
  destruct (decide (c = c')) as [->|Hne].
  2: { apply (Hobj (EvUpdate (cluster_object c) (cluster_object c'))); [by repeat constructor|done| |by constructor].
       exists (cluster_object c'). split_and!; [by right; left|done|by apply Hkey]. }
  destruct (Hown cl' eq_refl) as [Hnames Hann].
  assert (forall e, typed e -> latest_object e = OCluster cl' -> cluster_resumed e k ->
    cluster_emits w w' e -> woken (Cluster_SetupWithManager grace n) k cluster_emits w w') as Howner.
  { intros e Ht Hl Ha He. exists e. split; [done|]. apply cluster_enqueued; [done|].
    split; [|by right]. unfold not_paused. by rewrite Hl. }
  assert (clus_Paused cl' = false) as Hup by (apply not_true_iff_false; tauto).
  assert (match owner w with None => True | Some cl => clus_Paused cl = true end) as Hpaused.
  { unfold blocked, settled in Hr. rewrite Ec in Hr.
    destruct Hr as [[?|[?|?]]|?]; [| |done|]; exfalso; apply Hn; auto. }
  destruct (owner w) as [cl|] eqn:Eo.
  - apply (Howner (EvUpdate (OCluster cl) (OCluster cl'))); [by repeat constructor|done| |].
    + right. exists cl, cl'. split_and!; [done|exact Hpaused|done|by right].
    + constructor; [done..|]. intros ->. by rewrite Hup in Hpaused.
  - apply (Howner (EvCreate (OCluster cl'))); [by repeat constructor|done| |by constructor].
    left. by exists cl'.
Qed.

Lemma reconcile_rests w r w' :
  ReconcileCluster builder grace recorder k w = (r, w') -> again r = false ->
  blocked w' \/ settled w'.
Proof.
  unfold ReconcileCluster. destruct (ck_get_AlibabaCloudCluster k w) as [[c|e|p] w1] eqn:Eg;
    apply cs_get in Eg; cbn in Eg.
  2: { destruct (IsNotFound e); [|by intros [= <- <-]]. intros [= <- <-] _. left.
       unfold blocked. by rewrite Eg. }
  2: { by intros [= <- <-]. }
  destruct (ck_GetOwnerCluster (acc_ObjectMeta c) w1) as [[[cl|]|e|p] w2] eqn:Eo;
    apply cs_owner in Eo as (Hobj & Hnone & Hsome); rewrite Eg in Hobj; [| |by intros [= <- <-]..].
  2: { intros [= <- <-] _. left. unfold blocked. rewrite Hobj. by left; apply Hnone. }
  rewrite cs_paused. destruct (clus_Paused cl || HasPaused (acc_ObjectMeta c)) eqn:Ep.
  { intros [= <- <-] _. left. unfold blocked. rewrite Hobj, (Hsome cl eq_refl).
    apply orb_prop in Ep as [?|?]; auto. }
  destruct (ck_NewHelper c w2) as [[[]|e|p] w3]; [|by intros [= <- <-]..].
  destruct ((if negb (IsZero (meta_DeletionTimestamp (acc_ObjectMeta c)))
             then reconcileClusterDelete else reconcileClusterNormal builder grace recorder) (c, w3))
    as [r1 [c' w4]] eqn:Eb.
  destruct (ck_Patch c c' owned_conditions w4) as [[[]|e|p] w5] eqn:Epatch;
    [|by destruct r1; intros [= <- <-]..].
  intros [= <- <-] Hag. right. apply cs_patch in Epatch. unfold settled.
  destruct r1 as [res|e|p]; [|done..].
  destruct (IsZero (meta_DeletionTimestamp (acc_ObjectMeta c))) eqn:Ed; cbn [negb] in Eb.
  - destruct (wp_elim _ _ _ _ _ (reconcileClusterNormal_run builder grace recorder c w3) Eb) as [_ Hm].
    cbn in Hm. case_decide as Hh; [by destruct Hm as [-> _]|]. destruct Hm as (_ & Hc & _ & _).
    assert (meta_DeletionTimestamp (acc_ObjectMeta c') = meta_DeletionTimestamp (acc_ObjectMeta c)) as Hdel.
    { apply (f_equal (fun x => meta_DeletionTimestamp (acc_ObjectMeta x))) in Hc.
      cbn in Hc. rewrite Hc. apply prepared_deletion. }
    apply (f_equal (fun x => cstat_Ready (acc_Status x))) in Hc. cbn in Hc.
    rewrite Epatch, Hdel, Ed. rewrite decide_False by (by intros [? _]). by rewrite Hdel, Ed.
  - rewrite reconcileClusterDelete_run in Eb. injection Eb as <- <- <-.
    rewrite Epatch. case_decide; [done|]. cbn. rewrite Ed. intros Hin.
    by apply RemoveFinalizer_elem in Hin as [? _].
Qed.

(** C11. No cluster is forgotten: from a queued key, through any number of
    reconciles and any changes of the object and its Cluster that leave the
    object under its key and the Cluster naming it and without the paused
    annotation on the Cluster itself, the key of an AlibabaCloudCluster is in
    the queue, or the object is absent, unowned or paused, or the work is done,
    with the cluster Ready or let go.  In particular a cluster whose Cluster has
    been unpaused through its spec is reconciled.  (The events of a Cluster that
    carries the annotation itself are filtered out, so that a cluster can be
    forgotten then: [forgotten_annotated].) *)
Theorem cluster_not_forgotten w0 w q :
  rtc (queue_step (Cluster_SetupWithManager grace n) k (ReconcileCluster builder grace recorder k)
         cluster_emits (fun _ => contract)) (w0, true) (w, q) ->
  q = true \/ blocked w \/ settled w.
Proof.
  apply (queued_or_rest _ _ _ _ _ (fun w => blocked w \/ settled w)).
  - intros w1 w2. apply rest_ends.
  - apply reconcile_rests.
Qed.
End cluster.

(** ** A concrete server *)

Record ClusterWorld := mkClusterWorld {
  cw_object : option AlibabaCloudCluster;
  cw_owner : option Cluster;
}.

Definition not_found : error := APIStatusError StatusReasonNotFound "not found".

#[export] Instance simClusterKube : ClusterKube ClusterWorld := {|
  ck_deployments := fun _ _ => mret [];
  ck_get_AlibabaCloudCluster _ w := (if cw_object w is Some c then Ok c else Err not_found, w);
  ck_GetOwnerCluster _ w := (if cw_owner w is Some cl then Ok (Some cl) else Err not_found, w);
  ck_IsPaused cl c := clus_Paused cl || HasPaused (acc_ObjectMeta c);
  ck_NewHelper _ := mret ();
  ck_Patch _ c' _ w := (Ok (), mkClusterWorld
    (if decide (IsZero (meta_DeletionTimestamp (acc_ObjectMeta c')) = false /\
                meta_Finalizers (acc_ObjectMeta c') = []) then None else Some c') (cw_owner w));
  list_nodes := mret [];
  time_Now _ := 0%Z;
|}.

Definition sim_key : ObjectKey := mkObjectKey "default" "c1".
Definition sim_owned (_ : ObjectMeta) : bool := true.

#[export] Instance sim_cluster_server : ClusterServer sim_key cw_object cw_owner sim_owned.
Proof.
  split; [| |done|by intros c c' conds w w' [= <-]].
  - intros w r w' [= <- <-]. by destruct (cw_object w).
  - intros meta w r w' [= <- <-]. split; [done|]. destruct (cw_owner w) eqn:E; split; try done.
    by intros ? [= <-].
Qed.

Definition fake_builder {W} (_ : string) : M W (Client W) := mret (fake_capi empty_fake).

(** A cluster that is not ready yet, of a Cluster that is paused or not. *)
Definition pending_cluster : AlibabaCloudCluster :=
  set_cstatus (fun s => s <| cstat_Ready := false |>) (sim_cluster None).
Definition sim_world (paused : bool) : ClusterWorld :=
  mkClusterWorld (Some pending_cluster) (Some (sim_paused paused)).

Lemma sim_contract paused : contract sim_key cw_object cw_owner (sim_world paused).
Proof. split; [by intros c [= <-]|]. intros cl [= <-]. by repeat split. Qed.

Lemma paused_run :
  ReconcileCluster fake_builder DefaultCCMGracePeriod None sim_key (sim_world true) =
    (Ok (mkResult 0), sim_world true).
Proof. reflexivity. Qed.

Lemma cluster_not_forgotten_witness :
  let step := queue_step (Cluster_SetupWithManager DefaultCCMGracePeriod 1) sim_key
    (ReconcileCluster fake_builder DefaultCCMGracePeriod None sim_key)
    (cluster_emits cw_object cw_owner) (fun _ => contract sim_key cw_object cw_owner) in
  rtc step (sim_world true, true) (sim_world true, false) /\
  rtc step (sim_world true, true) (sim_world false, true) /\
  ~ rtc step (sim_world true, true) (sim_world false, false).
Proof.
  intros step. assert (rtc step (sim_world true, true) (sim_world true, false)) as Hrest.
  { apply rtc_once. refine (queue_reconcile _ _ _ _ _ _ _ _ _ paused_run _).
    intros [?|(e & He & _)]; [done|]. by destruct He; simplify_eq. }
  split_and!; [done| |].
  - eapply rtc_r; [exact Hrest|]. by apply queue_change; [apply sim_contract|].
  - intros Hrun. destruct (cluster_not_forgotten fake_builder DefaultCCMGracePeriod 1 None sim_key
      cw_object cw_owner sim_owned _ _ _ Hrun) as [?|[[?|[?|?]]|?]]; done.
Defined.

(** The annotation, on the Cluster: while it is there no event of the Cluster
    passes the controller's filter, and its removal unpauses nothing. *)
Definition sim_annotated (paused : bool) : Cluster :=
  mkCluster (mkObjectMeta "c1" "default" "uid-c1" ∅ {[PausedAnnotation := ""]} [] None)
    "AlibabaCloudCluster" "c1" GroupVersion_Group paused.
Definition annotated_world (paused : bool) : ClusterWorld :=
  mkClusterWorld (Some pending_cluster) (Some (sim_annotated paused)).

Lemma owner_event c cl cl' e :
  cluster_emits cw_object cw_owner (mkClusterWorld (Some c) (Some cl)) (mkClusterWorld (Some c) (Some cl')) e ->
  e = EvUpdate (OCluster cl) (OCluster cl').
Proof. intros He. by inversion He; cbn in *; simplify_eq. Qed.

(** A run that forgets a cluster: its Cluster, annotated and paused, is unpaused
    in the spec and then loses the annotation. *)
Lemma forgotten_annotated :
  let step := queue_step (Cluster_SetupWithManager DefaultCCMGracePeriod 1) sim_key
    (ReconcileCluster fake_builder DefaultCCMGracePeriod None sim_key)
    (cluster_emits cw_object cw_owner) (fun _ _ => True) in
  rtc step (annotated_world true, true) (sim_world false, false) /\
  ~ blocked cw_object cw_owner sim_owned (sim_world false) /\ ~ settled cw_object (sim_world false).
Proof.
  intros step. split_and!; [|by intros [?|[?|?]]|done].
  apply (rtc_l _ _ (annotated_world true, false)); [|apply (rtc_l _ _ (annotated_world false, false)); [|apply rtc_once]].
  - apply queue_reconcile with (r := Ok (mkResult 0)); [reflexivity|].
    intros [?|(e & He & _)]; [done|]. by destruct He; simplify_eq.
  - apply queue_change; [done|]. intros [?|(e & He & Hin)]; [done|]. exfalso.
    apply owner_event in He as ->.
    apply cluster_enqueued in Hin as [Hp _]; [|by repeat constructor]. by vm_compute in Hp.
  - apply queue_change; [done|]. intros [?|(e & He & Hin)]; [done|]. exfalso.
    apply owner_event in He as ->.
    apply cluster_enqueued in Hin as [_ [(o & Ho & Hk & _)|[(c & ? & _)|(c & c' & [= <- <-] & ? & _)]]];
      [|done|done|by repeat constructor].
    by repeat (apply elem_of_cons in Ho as [->|Ho]; [done|]); apply not_elem_of_nil in Ho.
Qed.

(** ** Machines *)

(** The machine controller has no watch on Clusters: a machine whose reconcile
    found its Cluster paused stays where it is when the Cluster is unpaused. *)
Record MachineWorld := mkMachineWorld {
  mw_object : AlibabaCloudMachine;
  mw_machine : Machine;
  mw_cluster : Cluster;
}.

#[export] Instance simPausableKube : MachineKube MachineWorld := {|
  mk_reader := {| get_Secret _ := throw not_found |};
  get_AlibabaCloudMachine _ w := (Ok (mw_object w), w);
  get_AlibabaCloudCluster _ := mret (sim_cluster None);
  GetOwnerMachine _ w := (Ok (Some (mw_machine w)), w);
  GetClusterFromMetadata _ w := (Ok (Some (mw_cluster w)), w);
  IsPaused cl m := clus_Paused cl || HasPaused (acm_ObjectMeta m);
  patch_NewHelper _ := mret ();
  patch_Patch _ m' _ w := (Ok (), mkMachineWorld m' (mw_machine w) (mw_cluster w));
|}.

Inductive machine_emits w w' : Event -> Prop :=
  | memits_object : mw_object w <> mw_object w' ->
      machine_emits w w' (EvUpdate (OOther machineGroupKind (acm_ObjectMeta (mw_object w)))
                                   (OOther machineGroupKind (acm_ObjectMeta (mw_object w'))))
  | memits_machine : mw_machine w <> mw_machine w' ->
      machine_emits w w' (EvUpdate (OMachine (mw_machine w)) (OMachine (mw_machine w')))
  | memits_cluster : mw_cluster w <> mw_cluster w' ->
      machine_emits w w' (EvUpdate (OCluster (mw_cluster w)) (OCluster (mw_cluster w'))).

Definition sim_machine_world (paused : bool) : MachineWorld :=
  mkMachineWorld (sim_acm "worker-1") (sim_machine "worker-1") (sim_paused paused).

(** A run that forgets a machine: it is paused with its Cluster, reconciled, and
    unpaused; now nothing stands in the way of its instance, and its key is not
    in the queue. *)
Lemma forgotten_machine :
  rtc (queue_step (Machine_SetupWithManager 1) (mkObjectKey "default" "worker-1")
         (Reconcile fake_builder (mkObjectKey "default" "worker-1")) machine_emits (fun _ _ => True))
    (sim_machine_world true, true) (sim_machine_world false, false).
Proof.
  eapply rtc_l.
  - eapply (queue_reconcile _ _ _ _ _ (sim_machine_world true) _ (sim_machine_world true) false);
      [by vm_compute|]. intros [?|(e & He & _)]; [done|]. by destruct He.
  - apply rtc_once, queue_change; [done|]. intros [?|(e & He & Hin)]; [done|].
    apply machine_enqueued in Hin as [_ Hin]. destruct He as [?|?|_]; [done..|].
    destruct Hin as [(o & Ho & Hk & _)|(m & Hm & _)].
    + by repeat (apply elem_of_cons in Ho as [->|Ho]; [done|]); apply not_elem_of_nil in Ho.
    + by repeat (apply elem_of_cons in Hm as [?|Hm]; [done|]); apply not_elem_of_nil in Hm.
Qed.
