(* ===== verification/Startup.v ===== *)
(** * Start-up

    [cmd/main.go]: the preflight checks, the registration of the controllers and
    the webhooks of [Wiring], and the start of the manager.  Every step that
    fails ends the process with status 1; controller-runtime is a parameter. *)

From S2P Require Import Api CapiCore ClusterController Wiring.

Record Flags := mkFlags {
  metricsAddr : string;
  healthAddr : string;
  enableLeaderElection : bool;
  concurrency : Z;
  enableWebhooks : bool;
}.

(** The values of the flags that are not given. *)
Definition defaultFlags : Flags := mkFlags ":8080" ":9440" false 1 true.

(** The manager: its construction from the bind addresses and the leader
    election settings, the REST mapper, the registration of a controller or a
    webhook, and [Start], which returns when the process is asked to stop. *)
Class Manager (W : Type) := {
  ctrl_NewManager : string -> string -> bool -> string -> M W ();
  mgr_RESTMapping : string -> string -> M W ();
  mgr_deployments :: ListDeployments W;
  mgr_Complete : Controller -> M W ();
  mgr_CompleteWebhook : WebhookSetup -> M W ();
  mgr_AddHealthzCheck : string -> M W ();
  mgr_AddReadyzCheck : string -> M W ();
  mgr_Start : M W ();
}.

(** How [main] ends: [os.Exit(1)], or it returns. *)
Inductive exit := Exit1 | Returned.

Section main.
Context {W : Type} `{!Manager W} `{!Routing}.

(** [if err := m; err != nil { ...; os.Exit(1) }], and on. *)
Definition or_exit {A} (m : M W A) (k : M W exit) : M W exit :=
  r ← try m; match r with inl _ => mret Exit1 | inr _ => k end.

Definition start_all (steps : list (M W ())) (k : M W exit) : M W exit :=
  fold_right or_exit k steps.

(** The registrations, in the order of the source. *)
Definition registrations (f : Flags) : list (M W ()) :=
  let options := concurrency f in
  [mgr_Complete (Cluster_SetupWithManager DefaultCCMGracePeriod options);
   mgr_Complete (Machine_SetupWithManager options);
   mgr_Complete CSR_SetupWithManager;
   mgr_Complete (ControlPlane_SetupWithManager options);
   mgr_Complete (MachineTemplate_SetupWithManager options)] ++
  (if enableWebhooks f
   then [mgr_CompleteWebhook Machine_SetupWebhookWithManager;
         mgr_CompleteWebhook Cluster_SetupWebhookWithManager]
   else []) ++
  [mgr_AddHealthzCheck "healthz"; mgr_AddReadyzCheck "readyz"].

Definition main (f : Flags) : M W exit :=
  or_exit (ctrl_NewManager (metricsAddr f) (healthAddr f) (enableLeaderElection f)
             "controller-leader-election-capa")
  (or_exit (mgr_RESTMapping "cluster.x-k8s.io" "Machine")
  (let go_on := start_all (registrations f) (or_exit mgr_Start (mret Returned)) in
   r ← try DetectCAPICoreNamespaces;
   match r with
   | inl _ => go_on
   | inr namespaces =>
       if decide (ClassifyCAPICore namespaces = CAPICoreConflict) then mret Exit1 else go_on
   end)).

(** ** Theorems *)

(** A property that every call but [Start] keeps: in particular, that the
    controllers do not run. *)
Class BeforeStart (I : W -> Prop) : Prop := {
  bs_new m h l id : keeps I (ctrl_NewManager m h l id);
  bs_mapping g k : keeps I (mgr_RESTMapping g k);
  bs_list l v : keeps I (list_deployments l v);
  bs_complete c : keeps I (mgr_Complete c);
  bs_complete_webhook h : keeps I (mgr_CompleteWebhook h);
  bs_healthz n : keeps I (mgr_AddHealthzCheck n);
  bs_readyz n : keeps I (mgr_AddReadyzCheck n);
}.

Lemma bs_registrations I f : BeforeStart I -> Forall (keeps I) (registrations f).
Proof.
  intros HB. unfold registrations. destruct (enableWebhooks f);
    repeat constructor; first [apply bs_complete|apply bs_complete_webhook|apply bs_healthz|apply bs_readyz].
Qed.

(** All of the steps succeed, one after another. *)
Fixpoint all_done (steps : list (M W ())) (w w' : W) : Prop :=
  match steps with
  | [] => w' = w
  | m :: steps => exists w1, m w = (Ok (), w1) /\ all_done steps w1 w'
  end.

Lemma start_all_spec I steps k w :
  Forall (keeps I) steps -> I w ->
  wp (start_all steps k) w (fun r w' => I w' \/ exists w1, all_done steps w w1 /\ k w1 = (r, w')).
Proof.
  revert w. induction steps as [|m steps IH]; intros w HF HI; cbn [start_all fold_right].
  { right. exists w. split; [done|]. by destruct (k w). }
  apply list.Forall_cons in HF as [Hm HF]. unfold or_exit. wp_go.
  specialize (Hm w HI). wp_call as [[]|e|p] w1 eqn E; cbn in Hm; [|wp_go; by left..|by left].
  eapply wp_mono; [by apply IH|]. intros r w' [?|(w2 & Hd & Hk)]; [by left|right].
  exists w2. split; [|done]. by exists w1.
Qed.

Lemma go_on_spec I f w :
  BeforeStart I -> I w ->
  wp (start_all (registrations f) (or_exit mgr_Start (mret Returned))) w (fun _ w' =>
    ~ I w' -> exists w4, all_done (registrations f) w w4 /\ (mgr_Start w4).2 = w').
Proof.
  intros HB HI. eapply wp_mono; [by apply start_all_spec; [by apply bs_registrations|]|].
  intros r w' [?|(w4 & Hd & Hk)] Hn; [done|]. exists w4. split; [done|].
  unfold or_exit, mbind, M_bind, try in Hk. destruct (mgr_Start w4) as [[[]|e|p] w5]; cbn in *; by inversion Hk.
Qed.

Lemma one_core deploys :
  ClassifyCAPICore (core_namespaces deploys) <> CAPICoreConflict ->
  forall ns ns', ns ∈ deploys -> ns' ∈ deploys -> ns = ns'.
Proof.
  intros Hc ns ns' H1%core_namespaces_elem H2%core_namespaces_elem. revert H1 H2.
  destruct (core_namespaces deploys) as [|x [|y l]]; [by intros ?%not_elem_of_nil| |done].
  by rewrite !list_elem_of_singleton; intros -> ->.
Qed.

(** C34. The controllers run only after every check has passed.  If [main] has
    started the manager, then the Cluster API types are served; the deployments
    that were listed, unless that failed, have one Cluster API core at most; and
    between these checks and the start the five controllers were completed, those
    of the clusters, the machines, the control planes and the templates with the
    concurrency of the flag, then, unless the flag turns them off, the webhooks
    of machines and clusters, and the two health checks, each with success and
    in this order. *)
Theorem main_guarded (I : W -> Prop) f w r w' :
  BeforeStart I -> I w -> main f w = (r, w') -> ~ I w' ->
  exists w1 w2 w3 w4 q,
    mgr_RESTMapping "cluster.x-k8s.io" "Machine" w1 = (Ok (), w2) /\
    list_deployments capiCoreProviderLabel capiCoreProviderValue w2 = (q, w3) /\
    (forall deploys, q = Ok deploys -> forall ns ns', ns ∈ deploys -> ns' ∈ deploys -> ns = ns') /\
    all_done
      (map mgr_Complete [Cluster_SetupWithManager (300 * Second) (concurrency f);
                         Machine_SetupWithManager (concurrency f); CSR_SetupWithManager;
                         ControlPlane_SetupWithManager (concurrency f);
                         MachineTemplate_SetupWithManager (concurrency f)] ++
       (if enableWebhooks f
        then map mgr_CompleteWebhook [Machine_SetupWebhookWithManager; Cluster_SetupWebhookWithManager]
        else []) ++
       [mgr_AddHealthzCheck "healthz"; mgr_AddReadyzCheck "readyz"]) w3 w4 /\
    (mgr_Start w4).2 = w'.
Proof.
  intros HB HI Hrun.
  lazymatch goal with |- context [all_done ?l] => change l with (registrations f) end.
  refine (wp_elim _ _ _ _ (fun _ w' => ~ I w' -> _) _ Hrun). clear Hrun r w'.
  unfold main, or_exit at 1 2, DetectCAPICoreNamespaces. wp_go.
  pose proof (bs_new (metricsAddr f) (healthAddr f) (enableLeaderElection f)
    "controller-leader-election-capa" w HI) as H1.
  wp_call as [[]|e|p] w1 eqn E1; [|by wp_go..]. wp_go.
  pose proof (bs_mapping "cluster.x-k8s.io" "Machine" w1 H1) as H2.
  wp_call as [[]|e|p] w2 eqn E2; [|by wp_go..]. wp_go.
  pose proof (bs_list capiCoreProviderLabel capiCoreProviderValue w2 H2) as H3.
  wp_call as q w3 eqn E3. cbn in H3.
  destruct q as [deploys|e|p]; [| |by wp_go].
  - wp_go. case_decide as Hcore; [by wp_go|].
    eapply wp_mono; [by apply go_on_spec|]. intros r w' Hgo Hn. destruct (Hgo Hn) as (w4 & ? & ?).
    exists w1, w2, w3, w4, (Ok deploys). split_and!; [done..| |done|done].
    intros ? [= <-]. by apply one_core.
  - wp_go. eapply wp_mono; [by apply go_on_spec|]. intros r w' Hgo Hn.
    destruct (Hgo Hn) as (w4 & ? & ?). by exists w1, w2, w3, w4, (Err e).
Qed.
End main.

(** ** A concrete start *)

(** The world: the deployments that carry the label, and whether the manager
    runs. *)
#[export] Instance simManager : Manager (list string * bool) := {|
  ctrl_NewManager _ _ _ _ := mret ();
  mgr_RESTMapping _ _ := mret ();
  mgr_deployments := fun _ _ => w ← get; mret w.1;
  mgr_Complete _ := mret ();
  mgr_CompleteWebhook _ := mret ();
  mgr_AddHealthzCheck _ := mret ();
  mgr_AddReadyzCheck _ := mret ();
  mgr_Start := modify (fun w => (w.1, true));
|}.

Definition idle (w : list string * bool) : Prop := w.2 = false.

#[export] Instance sim_before_start : BeforeStart idle.
Proof.
  split; [by intros ? ? ? ? ?|by intros ? ? ?|by intros ? ? ?|by intros ? ?..].
Qed.

Lemma main_guarded_witness :
  main defaultFlags (["capi-system"; "capi-system"], false) =
    (Ok Returned, (["capi-system"; "capi-system"], true)) /\
  (exists w1 w2 : list string * bool, mgr_RESTMapping "cluster.x-k8s.io" "Machine" w1 = (Ok (), w2)) /\
  main defaultFlags (["capi-system"; "openshift-cluster-api"], false) =
    (Ok Exit1, (["capi-system"; "openshift-cluster-api"], false)).
Proof.
  split; [by vm_compute|]. split; [|by vm_compute].
  destruct (main_guarded idle defaultFlags (["capi-system"; "capi-system"], false) (Ok Returned)
    (["capi-system"; "capi-system"], true)) as (w1 & w2 & _ & _ & _ & H & _).
  - apply _.
  - reflexivity.
  - by vm_compute.
  - discriminate.
  - by exists w1, w2.
Defined.
